(* ===== verification/_CoqProject ===== *)
-Q . S2P
Prelude.v
Identity.v
Cose.v
Envelope.v
Reference.v
EnvelopeProps.v
Database.v
Schema.v
Messaging.v
Sample.v
MessagingProps.v
OutboxRace.v
AuditChain.v
Enforcement.v
EngineSpec.v
Revocation.v
KeyManager.v
KeyManagerProps.v
ServiceMain.v
Scenario.v
RevocationProps.v
Runes.v
Float64.v
Float64Props.v
Live.v
Rbac.v
RbacProps.v
RbacRace.v
Policy.v
PolicyProps.v
Enrollment.v
EnrollmentProps.v
System.v
Tenant.v
TenantStmts.v
TenantProps.v
Isolation.v
EngineProps.v
EngineLive.v
EnrollmentLife.v
AuditProps.v
GrantCache.v
GrantCacheProps.v
Pipeline.v
Fleet.v
Interstitial.v
InterstitialProps.v
Page.v
TcpProxy.v
TcpProxyProps.v
Ssh.v
SshProps.v
Firewall.v
RateLimit.v
Json.v
Config.v
Startup.v
Shutdown.v
DaemonMain.v
Sdk.v
SdkProps.v
Metrics.v
