(* ===== verification/Prelude.v ===== *)
(** * TSAuth: a verification library for the approval service, its daemon and client

    TSAuth puts a human approval between a Tailscale node and a protected
    resource.  The service stores an approval request, signs an envelope for the
    user's device, checks the device's signed answer, and mints a signed, short
    lived access grant token (AGT) that the daemon on the protected node verifies,
    caches and consumes.  Policy decides which attempts need an approval,
    enrollment and roles decide who takes part, revocation takes rights back, an
    outbox delivers messages, an audit chain records events.  The daemon guards
    HTTP, TCP and SSH and isolates the backend; the client library answers its
    challenges.  The development models these parts from the Go sources and from
    the SQL of the migration, and proves what makes them correct.

    ** How the program is modelled

    - Go calls that can fail are [outcome] values ([Ok], [Err], [Panic]); errors
      keep their format and arguments.  int64 and int32 arithmetic that can overflow
      wraps ([wrap64], [TcpProxy.wrap32]); float64 arithmetic is IEEE 754 at 53 bits
      ([Float64]); times are integers in nanoseconds; bytes are lists of bytes.
    - The database is a record of finite maps ([Database.Db]).  A handler is a
      computation of the monad [Database.M]; its statements run in the order of
      the source on an open transaction or on the committed tables.  The
      environment ([Env]) decides which statement fails, whether the
      acknowledgement of a commit is lost, and what clocks, UUIDs and random bytes
      deliver, so each theorem holds under every placement of such faults unless
      it says otherwise.  Handlers run one after the other, since they lock the rows
      they decide on; the one allocator that does not hold its lock until the commit
      has a model of its own with interleaved transactions ([OutboxRace]).  The three
      tables the code uses and no migration creates are one optional component of
      [Db]: absent, their statements fail as the server does.
    - Shared memory is explicit: the goroutines of the TCP proxy ([TcpProxy]), of the
      role cache ([RbacRace]) and of the servers of the service ([Shutdown]) are
      interleaved step by step; a loop over a Go map takes the order of the entries
      as an argument, since the language leaves it open.
    - Code outside the repository is a parameter: Ed25519 and SHA-256
      ([GoCrypto]), deterministic CBOR ([Cbor], [CborLaws]), JSON ([GoJson],
      [PolicyJson]), AES-GCM ([Aead]), UUID texts ([UuidText]), PostgreSQL's type
      conversions and the driver ([Postgres]), the order in which rows arrive
      ([RowStream]), [sort.Slice] ([SortSlice], since the sort is not stable),
      conversions of floats out of range ([FloatToInt]), the rendering of the approval
      page ([PageTemplate], whose instance is [Page.pageTemplate]), the machine the programs start on ([Startup.Host],
      [DaemonMain.DaemonHost]) and the HTTP round trips of the client.
      [Reference], [Sample] and [Scenario] give concrete instances on which the
      model runs.
    - Loops over data are structural recursion.  Fuel appears in
      [GrantCache.read_records], which gets the length of the file it reads in
      steps of 24 bytes; in the JSON scanner ([Json.scan_value]), which gets the
      length of the text and provably needs no more ([Json.scan_fuel]); in the
      scanner of SSH requests, with the number of bytes left; and in the polling
      loop of the client, where [SdkProps.polling_ends] bounds the number of turns.

    ** Files

    - [Prelude]: outcomes, integers, bytes, UUIDs, texts, tactics, rewrite hints.
      [Runes]: UTF-8, trimming, hexadecimal, substrings.  [Float64],
      [Float64Props]: float64, and how far its roundings can be off.
      [Json]: the scanner and the decoders of [encoding/json].
    - [Identity], [Cose], [Envelope]: [contracts/identity.go],
      [contracts/cose/cose.go], [contracts/envelope.go].  [Reference]: instances of
      their parameters.  [EnvelopeProps]: what the signer writes the verifier
      accepts, what it accepts was signed, and has the checked properties.
    - [Database], [Schema]: tables, transactions, reasoning rules ([wp]); the stored
      functions and the trigger of [service/migrations/001_initial_schema.up.sql].
      [Live]: rules for a server that answers.
    - [Messaging], [MessagingProps]: [service/internal/messaging/outbox.go]; exact
      delivery, acknowledgement at most once, fencing of stale leases.  [OutboxRace]:
      transactions that write concurrently - order and gaps of the streams, and the
      deadlock of the mutex with the server's locks.
    - [AuditChain], [AuditProps]: [service/internal/audit/chain.go]; what an insertion
      appends, what verification means, that the writer's chain does not verify, and
      that checkpointing only appends.
    - [Enforcement]: [service/internal/enforcement/engine.go].  [EngineSpec]: the
      committed effect of every handler, by cases.
    - [Revocation], [RevocationProps]: [service/internal/revocation/manager.go].
    - [KeyManager], [KeyManagerProps]: [service/internal/crypto/keymanager.go].
    - [ServiceMain]: the signing adapters of
      [service/cmd/approval-service/main.go]; they discharge the interface
      ([GrantSignerLaws]) the engine is proved against.  [Config]:
      [service/internal/config/config.go].  [Startup]: the start of the service,
      its root of trust and its HTTP handlers.  [Shutdown]: its servers from the
      goroutines that run them to the graceful shutdown.
    - [Rbac], [RbacProps], [RbacRace]: [service/internal/auth/rbac.go]; checks against
      a rule on the rows, removal, no escalation; the cache under concurrent
      goroutines, and how stale a role can be.
    - [Policy], [PolicyProps]: [service/internal/policy/engine.go]; evaluation
      implements a relational specification ([rule_applies], [decides], [in_force]),
      exactly for documents whose rule ids are distinct, and fails closed; coverage;
      publication.
    - [Enrollment], [EnrollmentProps], [EnrollmentLife]:
      [service/internal/enrollment/oidc.go]; tickets and tokens work, and once.
    - [RateLimit]: [service/internal/ratelimit/limiter.go]; the limiter over any
      store, and what the token buckets allow in a given time.
    - [Metrics]: [service/internal/observability/metrics.go].
    - [Sample], [Scenario]: a tenant, and a run from request to consumption.
    - [System]: the service as a transition system over all handlers - the engine,
      revocation, delivery, enrollment, roles and policy publication - and its
      invariant ([system_ok]), preserved by every step.  [EngineProps]: the safety
      properties of every reachable state.  [EngineLive]: on a server that answers,
      valid denials are recorded, and valid approvals granted if the [binding] column
      takes what the engine passes.
    - [Tenant], [TenantStmts], [TenantProps]: the rows of one tenant ([view]), and that
      every statement and every handler is local to its tenant.  [Isolation]: a tenant
      of the shared service sees a service of its own, every step touches one tenant,
      and the row-level security policies of the migration ([rls_view]).
    - [GrantCache], [GrantCacheProps]: [daemon/internal/grants/cache.go]; single
      use over any sequence of cache operations, purging, restarts.  [Pipeline]: from
      the key manager's signature through the token to the daemon's cache.  [Fleet]:
      many daemons with one service, single use across all of them.
    - [Interstitial], [InterstitialProps], [Page]:
      [daemon/internal/interstitial/handler.go]; the table of requests, its handlers,
      and the page with the escaping of [html/template].
    - [TcpProxy], [TcpProxyProps]: [daemon/internal/tcpproxy/proxy.go].
    - [Ssh], [SshProps]: [daemon/internal/ssh/enforcer.go].
    - [Firewall]: [daemon/internal/firewall/manager.go].
    - [DaemonMain]: [daemon/cmd/dnv-daemon/main.go], which composes the daemon.
    - [Sdk], [SdkProps]: [sdk/go/client.go].

    ** What the theorems show

    Grants exist only for approvals signed by the device they name, whose key no
    other device of the tenant has, at most one per request and per signed answer,
    within the lifetime caps on which Go and SQL agree; a valid answer to a pending
    request is acted on when the server answers; a decided request is final, a
    cancelled one is never granted; a grant is consumed at most once in the service,
    in a daemon, and across a fleet of daemons that ask the service; a grant the
    service signs is found in the cache of any daemon trusting its key until it
    expires or is consumed, and what the daemon accepts passed every check; tenants neither
    see nor touch each other's rows, so that each one sees a service of its own, and
    row-level security changes nothing for a session that names its tenant; streams
    are delivered without gaps however the writers interleave; a revocation, where
    the server lets it be issued, is all or nothing, its messages included; policy
    evaluation is the decision lattice for every order of ties.  Tickets and bootstrap tokens are honoured once; a tenant without a
    security administrator cannot get one through the authorizer, and a removed role
    is gone from every cache after thirty seconds and one query; rate limits fail
    closed, and a bucket allows no more than its tokens and its rate times the
    elapsed time.  The service starts only on a valid configuration,
    a reachable database and the pinned root key, and closes the database last.  The
    proxy opens the backend only
    after both callbacks allowed it, however its goroutines interleave; the daemon
    as wired denies everything; a redemption capability works once; the client
    polls for a bounded time and repeats a request only after an approval.

    Some of these statements suppose more than the program as wired provides.  The
    fleet's single use is about daemons whose callback relays [consume_grant], as the
    comments of the cache ask for ([Fleet.relay]); the callback [DaemonMain] installs
    always fails, and then nothing is consumed at all.  The equivalence of PAM and
    the authorizer is over a socket that connects, takes the whole request and
    delivers it in one read ([SshProps.daemon_channel]).  [Shutdown] takes
    [GracefulStop] and [http.Server.Shutdown] to return when they are documented to.
    The instance [Sample.pg_any] of the server is more liberal than PostgreSQL, so
    that witnesses can run the code past two statements that PostgreSQL refuses:
    [pg_jsonb] and [pg_strict] refuse them.

    A group of theorems shows where the code falls short of its comments:
    on PostgreSQL no approval is ever granted and no revocation issued, since one
    statement of each is refused; consumption panics in the audit call, revocations and enrollments
    collide with constraints of the schema, the audit chain does
    not verify, the consumed file cannot be read after two records, key ids and
    certificate serials collide, selectors are ignored, the bound on pending
    connections is not enforced, SSH requests are misread, firewall targets are
    ignored, the daemon never starts, its HTTP route finds no grant, and the client
    does not recognise the daemon's challenge; row-level security is forced and the
    session never names its tenant, the outbox mutex can deadlock with the server's
    locks, a removed role can be cached again, a shutdown can cut requests off, one
    failed accept ends the SSH service, and the page's policy blocks its own script.

    ** What is not modelled

    Left out on purpose: the bytes that a splice copies, logging calls, indexes of the
    schema and the tables no code uses, and the interleaving of statements of
    concurrent handlers other than the writers of the outbox.  gRPC services and the
    Vault signer do not exist in the sources.  The plan is to interleave the engine's
    transactions statement by statement under row locks, and the daemon as one
    transition system with the messages the service delivers. *)

From stdpp Require Import base gmap strings list fin_maps countable pretty.
From Stdlib Require Import ZArith Lia Ascii Strings.Byte.

Open Scope Z_scope.

(** ** Outcomes of a Go call *)

(** A Go error value: a leaf created by [errors.New]/[fmt.Errorf], or one that
    wraps another with [%w].  The format string is kept as written and the
    formatted operands are kept beside it, unrendered. *)
Inductive arg : Type :=
| AStr (s : string)
| AInt (z : Z)
| ABytes (b : list byte).

Inductive error : Type :=
| Errorf (format : string) (args : list arg)
| Wrapf (format : string) (args : list arg) (cause : error).

(** A call returns a value, returns an error, or panics. *)
Inductive outcome (A : Type) : Type :=
| Ok (a : A)
| Err (e : error)
| Panic.
Arguments Ok {A} a.
Arguments Err {A} e.
Arguments Panic {A}.

#[export] Instance outcome_ret : MRet outcome := fun A a => Ok a.
#[export] Instance outcome_bind : MBind outcome := fun A B f c =>
  match c with Ok a => f a | Err e => Err e | Panic => Panic end.
#[export] Instance outcome_fmap : FMap outcome := fun A B f c =>
  match c with Ok a => Ok (f a) | Err e => Err e | Panic => Panic end.

(** [return ..., fmt.Errorf("...: %w", err)] *)
Definition wrap {A} (format : string) (args : list arg) (c : outcome A) : outcome A :=
  match c with Err e => Err (Wrapf format args e) | r => r end.

(** [if !cond { return ..., err }] *)
Definition guard_or (b : bool) (e : error) : outcome unit := if b then Ok tt else Err e.

Definition is_Ok {A} (c : outcome A) : Prop := exists a, c = Ok a.

Lemma bind_Ok {A B} (f : A -> outcome B) (c : outcome A) (b : B) :
  (c ≫= f) = Ok b <-> exists a, c = Ok a /\ f a = Ok b.
Proof.
  destruct c as [a|e|]; cbn; split.
  - eauto.
  - intros (x & [= <-] & ?). done.
  - done.
  - by intros (x & ? & _).
  - done.
  - by intros (x & ? & _).
Qed.

Lemma wrap_Ok {A} fmt args (c : outcome A) (a : A) :
  wrap fmt args c = Ok a <-> c = Ok a.
Proof. destruct c; cbn; naive_solver. Qed.

Lemma guard_or_Ok b e u : guard_or b e = Ok u <-> b = true.
Proof. destruct b, u; cbn; naive_solver. Qed.

(** ** Bytes *)

Abbreviation bytes := (list byte).

#[export] Instance byte_eq_dec : EqDecision byte := Byte.byte_eq_dec.

#[export] Instance byte_countable : Countable byte :=
  inj_countable Byte.to_N Byte.of_N Byte.of_to_N.

Definition Z_of_byte (b : byte) : Z := Z.of_N (Byte.to_N b).

(** Go's conversion [byte(x)]: keep the low eight bits. *)
Definition byte_of_Z (z : Z) : byte :=
  match Byte.of_N (Z.to_N (z mod 256)) with Some b => b | None => x00 end.

Lemma Z_of_byte_bound b : 0 <= Z_of_byte b < 256.
Proof.
  unfold Z_of_byte. pose proof (Byte.to_of_N_option_map (Byte.to_N b)) as H.
  rewrite Byte.of_to_N in H. cbn in H.
  destruct (Byte.to_N b <=? 255)%N eqn:E; [|discriminate].
  apply N.leb_le in E. lia.
Qed.

Lemma Z_of_byte_of_Z z : Z_of_byte (byte_of_Z z) = z mod 256.
Proof.
  unfold Z_of_byte, byte_of_Z.
  pose proof (Z.mod_pos_bound z 256 ltac:(lia)) as Hb.
  pose proof (Byte.to_of_N_option_map (Z.to_N (z mod 256))) as H.
  rewrite (proj2 (N.leb_le _ _)) in H by lia.
  destruct (Byte.of_N (Z.to_N (z mod 256))) as [b|] eqn:E; cbn in H; [|discriminate].
  injection H as ->. lia.
Qed.

Lemma byte_of_Z_of_byte b : byte_of_Z (Z_of_byte b) = b.
Proof.
  unfold byte_of_Z. rewrite Z.mod_small by apply Z_of_byte_bound.
  unfold Z_of_byte. by rewrite N2Z.id, Byte.of_to_N.
Qed.

#[export] Instance Z_of_byte_inj : Inj (=) (=) Z_of_byte.
Proof. intros a b H. by rewrite <- (byte_of_Z_of_byte a), H, byte_of_Z_of_byte. Qed.

(** Go's [a ^ b] and [a | b] on bytes. *)
Definition byte_xor (a b : byte) : byte := byte_of_Z (Z.lxor (Z_of_byte a) (Z_of_byte b)).
Definition byte_or (a b : byte) : byte := byte_of_Z (Z.lor (Z_of_byte a) (Z_of_byte b)).

(** A bitwise operation that stays below 256 on bytes. *)
Lemma land_255_mod z : 0 <= z -> Z.land z 255 = z mod 256.
Proof. intros. change 255 with (Z.ones 8). by rewrite Z.land_ones by lia. Qed.

Lemma byte_small_iff z : 0 <= z -> (z < 256 <-> Z.land z 255 = z).
Proof.
  intros. rewrite land_255_mod by lia. split; intros.
  - apply Z.mod_small. lia.
  - pose proof (Z.mod_pos_bound z 256). lia.
Qed.

Lemma Z_of_byte_or a b : Z_of_byte (byte_or a b) = Z.lor (Z_of_byte a) (Z_of_byte b).
Proof.
  unfold byte_or. rewrite Z_of_byte_of_Z.
  pose proof (Z_of_byte_bound a). pose proof (Z_of_byte_bound b).
  assert (0 <= Z.lor (Z_of_byte a) (Z_of_byte b)) by (apply Z.lor_nonneg; lia).
  apply Z.mod_small. split; [lia|]. apply byte_small_iff; [lia|].
  rewrite Z.land_lor_distr_l. f_equal; apply byte_small_iff; lia.
Qed.

Lemma Z_of_byte_xor a b : Z_of_byte (byte_xor a b) = Z.lxor (Z_of_byte a) (Z_of_byte b).
Proof.
  unfold byte_xor. rewrite Z_of_byte_of_Z.
  pose proof (Z_of_byte_bound a). pose proof (Z_of_byte_bound b).
  assert (0 <= Z.lxor (Z_of_byte a) (Z_of_byte b)) by (apply Z.lxor_nonneg; lia).
  apply Z.mod_small. split; [lia|]. apply byte_small_iff; [lia|].
  apply Z.bits_inj'. intros n Hn. rewrite Z.land_spec, !Z.lxor_spec.
  assert (Ha : Z.testbit (Z_of_byte a) n && Z.testbit 255 n = Z.testbit (Z_of_byte a) n).
  { rewrite <- Z.land_spec. f_equal. apply byte_small_iff; lia. }
  assert (Hb : Z.testbit (Z_of_byte b) n && Z.testbit 255 n = Z.testbit (Z_of_byte b) n).
  { rewrite <- Z.land_spec. f_equal. apply byte_small_iff; lia. }
  destruct (Z.testbit (Z_of_byte a) n), (Z.testbit (Z_of_byte b) n), (Z.testbit 255 n);
    cbn in *; congruence.
Qed.

(** [[]byte(s)] *)
Definition str_bytes (s : string) : bytes := String.list_byte_of_string s.

#[export] Instance str_bytes_inj : Inj (=) (=) str_bytes.
Proof.
  intros a b H. unfold str_bytes in H.
  by rewrite <- (String.string_of_list_byte_of_string a), H, String.string_of_list_byte_of_string.
Qed.

Lemma str_bytes_app (x y : string) : str_bytes (x +:+ y) = str_bytes x ++ str_bytes y.
Proof. induction x as [|c x IH]; [done|]. by apply (f_equal (cons (byte_of_ascii c))). Qed.

Lemma string_app_assoc (a b c : string) : ((a +:+ b) +:+ c = a +:+ (b +:+ c))%string.
Proof. induction a as [|x a IH]; [done|]. by apply (f_equal (String x)). Qed.
Lemma string_app_nil_r (a : string) : (a +:+ "" = a)%string.
Proof. induction a as [|x a IH]; [done|]. by apply (f_equal (String x)). Qed.

(** A string between double quotes, as a format string with literal quotes puts it. *)
Definition quoted (s : string) : string :=
  let q := String (ascii_of_nat 34) "" in (q +:+ s +:+ q)%string.

(** ** Machine integers *)

Definition int64_min : Z := - 2 ^ 63.
Definition int64_max : Z := 2 ^ 63 - 1.
Definition is_int64 (z : Z) : bool := (int64_min <=? z) && (z <=? int64_max).

(** Two's-complement reading of the low 64 bits: the conversion [int64(u)]. *)
Definition wrap64 (z : Z) : Z := (z + 2 ^ 63) mod 2 ^ 64 - 2 ^ 63.

Lemma wrap64_id z : is_int64 z = true -> wrap64 z = z.
Proof.
  unfold is_int64, int64_min, int64_max, wrap64. intros H.
  rewrite Z.mod_small by lia. lia.
Qed.

Lemma wrap64_mod z : wrap64 (z mod 2 ^ 64) = wrap64 z.
Proof. unfold wrap64. by rewrite Zplus_mod_idemp_l. Qed.

(** The big-endian digits of [z], most significant first: the [n] assignments
    [b[0] = byte(i >> 8*(n-1)), ..., b[n-1] = byte(i)]. *)
Fixpoint be_bytes (n : nat) (z : Z) : bytes :=
  match n with
  | O => []
  | S k => byte_of_Z (Z.shiftr z (8 * Z.of_nat k)) :: be_bytes k z
  end.

(** [binary.BigEndian.Uint64] and friends. *)
Fixpoint be_Z (l : bytes) : Z :=
  match l with
  | [] => 0
  | b :: r => Z_of_byte b * 2 ^ (8 * Z.of_nat (length r)) + be_Z r
  end.

Lemma length_be_bytes n z : length (be_bytes n z) = n.
Proof. induction n; cbn; auto. Qed.

Lemma be_Z_be_bytes n z : be_Z (be_bytes n z) = z mod 2 ^ (8 * Z.of_nat n).
Proof.
  induction n as [|n IH]; [by rewrite Z.mod_1_r|].
  cbn [be_bytes be_Z]. rewrite length_be_bytes, IH, Z_of_byte_of_Z.
  rewrite Z.shiftr_div_pow2 by lia.
  replace (8 * Z.of_nat (S n)) with (8 * Z.of_nat n + 8) by lia.
  rewrite Z.pow_add_r by lia. change (2 ^ 8) with 256.
  rewrite Z.rem_mul_r by lia. lia.
Qed.

Lemma be_Z_bound l : 0 <= be_Z l < 2 ^ (8 * Z.of_nat (length l)).
Proof.
  induction l as [|b l IH]; [cbn; lia|].
  cbn [be_Z length]. pose proof (Z_of_byte_bound b).
  replace (8 * Z.of_nat (S (length l))) with (8 * Z.of_nat (length l) + 8) by lia.
  rewrite Z.pow_add_r by lia. change (2 ^ 8) with 256. nia.
Qed.

(** An int64 survives serialisation to eight big-endian bytes. *)
Lemma be_bytes_int64 z : is_int64 z = true -> wrap64 (be_Z (be_bytes 8 z)) = z.
Proof.
  intros H. rewrite be_Z_be_bytes. change (8 * Z.of_nat 8) with 64.
  by rewrite wrap64_mod, wrap64_id.
Qed.

Lemma be_bytes_int64_inj x y :
  is_int64 x = true -> is_int64 y = true -> be_bytes 8 x = be_bytes 8 y -> x = y.
Proof. intros Hx Hy H. by rewrite <- (be_bytes_int64 x Hx), H, be_bytes_int64. Qed.

(** Concatenations agree field by field when the first fields have equal length. *)
Lemma app_inj_length {A} (a b c d : list A) :
  length a = length b -> a ++ c = b ++ d -> a = b /\ c = d.
Proof. intros H E. apply app_inj_1 in E; auto. Qed.

(** ** Time *)

(** [time.Time] as nanoseconds since the Unix epoch (every time in the program
    is UTC), [time.Duration] as nanoseconds. *)
Abbreviation Time := Z (only parsing).
Abbreviation Duration := Z (only parsing).

Definition Second : Duration := 1000000000.
Definition Minute : Duration := 60 * Second.
Definition Hour : Duration := 60 * Minute.

(** The zero [time.Time]: January 1, year 1, 00:00:00 UTC. *)
Definition time_zero : Time := - 62135596800 * Second.
Definition time_IsZero (t : Time) : bool := t =? time_zero.
Definition time_After (t u : Time) : bool := u <? t.
Definition time_Before (t u : Time) : bool := t <? u.

(** [t.Truncate(time.Second)]: the zero time is a whole number of seconds from
    the Unix epoch, so this rounds down to a Unix second. *)
Definition time_TruncateSecond (t : Time) : Time := t - t mod Second.
Definition time_Unix (t : Time) : Z := t / Second.

(** [t.MarshalBinary()] of a UTC time: version 1, seconds since year 1,
    nanoseconds, and the zone offset -1 that stands for UTC. *)
Definition time_MarshalBinary (t : Time) : bytes :=
  x01 :: be_bytes 8 (time_Unix t + 62135596800) ++ be_bytes 4 (t mod Second) ++ [xff; xff].

Lemma length_time_MarshalBinary t : length (time_MarshalBinary t) = 15%nat.
Proof. reflexivity. Qed.

Lemma Unix_TruncateSecond t : time_Unix (time_TruncateSecond t) = time_Unix t.
Proof.
  unfold time_Unix, time_TruncateSecond.
  rewrite (Z.div_mod t Second) at 1 by done.
  replace (Second * (t / Second) + t mod Second - t mod Second)
    with (t / Second * Second) by lia.
  by rewrite Z.div_mul.
Qed.

Lemma TruncateSecond_idem t :
  time_TruncateSecond (time_TruncateSecond t) = time_TruncateSecond t.
Proof.
  unfold time_TruncateSecond at 1. unfold time_TruncateSecond at 2.
  rewrite Zminus_mod_idemp_r, Z.sub_diag, Z.mod_0_l by done. lia.
Qed.

Lemma TruncateSecond_bounds t :
  time_TruncateSecond t <= t < time_TruncateSecond t + Second.
Proof. unfold time_TruncateSecond. pose proof (Z.mod_pos_bound t Second eq_refl). lia. Qed.

(** Instants whose second count since year 1 fits a Go [int64]. *)
Definition time_ok (t : Time) : bool := is_int64 (time_Unix t + 62135596800).

Lemma time_MarshalBinary_inj t u :
  time_ok t = true -> time_ok u = true ->
  time_MarshalBinary t = time_MarshalBinary u -> t = u.
Proof.
  unfold time_ok, time_MarshalBinary. intros Ht Hu H.
  apply (app_inj_length [x01] [x01]) in H as [_ H]; [|done].
  apply app_inj_length in H as [H1 H]; [|by rewrite !length_be_bytes].
  apply app_inj_length in H as [H2 _]; [|by rewrite !length_be_bytes].
  apply be_bytes_int64_inj in H1; [|done..].
  apply (f_equal be_Z) in H2. rewrite !be_Z_be_bytes in H2.
  pose proof (Z.mod_pos_bound t Second eq_refl).
  pose proof (Z.mod_pos_bound u Second eq_refl).
  unfold Second in *.
  rewrite !(Z.mod_small (_ mod _)) in H2 by (change (2 ^ _) with 4294967296; lia).
  unfold time_Unix, Second in H1.
  rewrite (Z.div_mod t 1000000000), (Z.div_mod u 1000000000) by done. lia.
Qed.

(** ** UUIDs *)

(** [uuid.UUID] is the array type [[16]byte]. *)
Record UUID : Type := mkUUID {
  uuid_bytes : bytes;
  uuid_len : bool_decide (length uuid_bytes = 16%nat)
}.

Lemma UUID_eq u v : uuid_bytes u = uuid_bytes v -> u = v.
Proof.
  destruct u as [l Hl], v as [m Hm]. cbn. intros ->. f_equal. apply proof_irrel.
Qed.

#[export] Instance UUID_eq_dec : EqDecision UUID.
Proof.
  refine (fun u v => cast_if (decide (uuid_bytes u = uuid_bytes v)));
    abstract naive_solver eauto using UUID_eq.
Defined.

#[export] Program Instance UUID_countable : Countable UUID :=
  inj_countable uuid_bytes
    (fun l => match decide (bool_decide (length l = 16%nat)) with
              | left H => Some (mkUUID l H)
              | right _ => None
              end) _.
Next Obligation.
  intros [l Hl]. cbn. case_decide; [|done]. f_equal. by apply UUID_eq.
Qed.

Lemma length_uuid_bytes u : length (uuid_bytes u) = 16%nat.
Proof. destruct u as [l Hl]. cbn. by apply bool_decide_unpack in Hl. Qed.

(** The UUID whose sixteen bytes are the big-endian digits of [n]. *)
Program Definition uuid_of_Z (n : Z) : UUID := mkUUID (be_bytes 16 n) _.
Next Obligation. intros n. by apply bool_decide_pack, length_be_bytes. Qed.

(** [uuid.Nil] *)
Definition uuid_Nil : UUID := uuid_of_Z 0.

(** [copy(u[:], b)] of exactly sixteen bytes. *)
Definition uuid_from (l : bytes) : option UUID :=
  match decide (bool_decide (length l = 16%nat)) with
  | left H => Some (mkUUID l H)
  | right _ => None
  end.
Lemma uuid_from_bytes u : uuid_from (uuid_bytes u) = Some u.
Proof.
  unfold uuid_from. case_decide as Hd.
  - f_equal. by apply UUID_eq.
  - exfalso. apply Hd, bool_decide_pack, length_uuid_bytes.
Qed.

(** The text form of UUIDs is code of the [github.com/google/uuid] package:
    [String] and [Parse], with the documented fact that [Parse] reads back what
    [String] prints. *)
Class UuidText : Type := {
  uuid_String : UUID -> string;
  uuid_Parse : string -> option UUID;
  uuid_Parse_String : forall u, uuid_Parse (uuid_String u) = Some u
}.

#[export] Instance uuid_String_inj `{UuidText} : Inj (=) (=) uuid_String.
Proof.
  intros u v E. apply (f_equal uuid_Parse) in E.
  rewrite !uuid_Parse_String in E. by injection E.
Qed.

(** [uuid.MustParse]: panics where [Parse] returns an error. *)
Definition uuid_MustParse `{UuidText} (s : string) : outcome UUID :=
  match uuid_Parse s with Some u => Ok u | None => Panic end.

(** ** Hexadecimal text *)

Definition hex_digit (d : Z) : ascii :=
  match String.get (Z.to_nat d) "0123456789abcdef" with Some c => c | None => "0"%char end.

(** [fmt.Sprintf("%x", b)] and [hex.EncodeToString(b)]. *)
Fixpoint hex (l : bytes) : string :=
  match l with
  | [] => ""
  | b :: r => String (hex_digit (Z.shiftr (Z_of_byte b) 4))
                (String (hex_digit (Z.land (Z_of_byte b) 15)) (hex r))
  end.

Definition hex_val (c : ascii) : Z :=
  match String.index 0 (String c "") "0123456789abcdef" with
  | Some n => Z.of_nat n
  | None => 0
  end.

Lemma hex_val_digit d : 0 <= d < 16 -> hex_val (hex_digit d) = d.
Proof.
  intros Hd.
  assert (In d [0;1;2;3;4;5;6;7;8;9;10;11;12;13;14;15]) as Hin by (cbn; lia).
  cbn in Hin. by repeat destruct Hin as [<-|Hin].
Qed.

#[export] Instance hex_inj : Inj (=) (=) hex.
Proof.
  intros l. induction l as [|b l IH]; intros [|c m]; cbn [hex]; [done..|].
  intros [= H1 H2 H3]. f_equal; [|by apply IH].
  apply (f_equal hex_val) in H1, H2.
  pose proof (Z_of_byte_bound b). pose proof (Z_of_byte_bound c).
  change 15 with (Z.ones 4) in H2.
  rewrite !Z.land_ones in H2 by lia. rewrite !Z.shiftr_div_pow2 in H1 by lia.
  change (2 ^ 4) with 16 in *.
  rewrite !hex_val_digit in H1
    by (split; [apply Z.div_pos|apply Z.div_lt_upper_bound]; lia).
  rewrite !hex_val_digit in H2 by (apply Z.mod_pos_bound; lia).
  apply (inj Z_of_byte). rewrite (Z.div_mod (Z_of_byte b) 16), (Z.div_mod (Z_of_byte c) 16) by done.
  lia.
Qed.

Lemma length_hex l : String.length (hex l) = (2 * length l)%nat.
Proof. induction l as [|b l IH]; [done|]. cbn [hex String.length length]. rewrite IH. lia. Qed.

(** ** Boolean equality, in a scope of its own *)

Definition eqb {A} `{EqDecision A} (a b : A) : bool := bool_decide (a = b).

Declare Scope go_scope.
Delimit Scope go_scope with go.
Notation "a == b" := (eqb a b) (at level 70, no associativity) : go_scope.
Notation "a != b" := (negb (eqb a b)) (at level 70, no associativity) : go_scope.
Open Scope go_scope.

Lemma eqb_true {A} `{EqDecision A} (a b : A) : (a == b) = true <-> a = b.
Proof. apply bool_decide_eq_true. Qed.

Lemma eqb_false {A} `{EqDecision A} (a b : A) : (a == b) = false <-> a <> b.
Proof. apply bool_decide_eq_false. Qed.

Lemma neqb_true {A} `{EqDecision A} (a b : A) : (a != b) = true <-> a <> b.
Proof. rewrite negb_true_iff. apply eqb_false. Qed.

Lemma neqb_false {A} `{EqDecision A} (a b : A) : (a != b) = false <-> a = b.
Proof. rewrite negb_false_iff. apply eqb_true. Qed.

Lemma eqb_refl {A} `{EqDecision A} (a : A) : (a == a) = true.
Proof. by apply eqb_true. Qed.

Create Rewrite HintDb tsauth.
#[export] Hint Rewrite @eqb_true @eqb_false @neqb_true @neqb_false @eqb_refl
  @wrap_Ok guard_or_Ok negb_true_iff negb_false_iff andb_true_iff orb_false_iff
  Z.ltb_lt Z.ltb_ge Z.leb_le Z.leb_gt Z.eqb_eq Z.eqb_neq : tsauth.

(** [go_ok] opens every hypothesis that says a modelled call returned [Ok]: it
    splits binds, drops error wrappers and takes the branch of each guard that
    does not return an error. *)
Ltac go_ok :=
  repeat match goal with
  | H : mbind _ _ = Ok _ |- _ => apply bind_Ok in H as (? & ? & H)
  | H : wrap _ _ _ = Ok _ |- _ => rewrite wrap_Ok in H
  | H : (if ?b then Err _ else _) = Ok _ |- _ => destruct b eqn:?; [discriminate H|]
  | H : (if ?b then Panic else _) = Ok _ |- _ => destruct b eqn:?; [discriminate H|]
  | H : (if ?b then _ else Err _) = Ok _ |- _ => destruct b eqn:?; [|discriminate H]
  | H : match ?c with Some _ => _ | None => Err _ end = Ok _ |- _ =>
      destruct c eqn:?; [|discriminate H]
  | H : match ?c with Some _ => Err _ | None => _ end = Ok _ |- _ =>
      destruct c eqn:?; [discriminate H|]
  | H : match ?c with Some _ => _ | None => Panic end = Ok _ |- _ =>
      destruct c eqn:?; [|discriminate H]
  | H : Ok _ = Ok _ |- _ => injection H as H; try subst
  | H : Err _ = Ok _ |- _ => discriminate H
  | H : Panic = Ok _ |- _ => discriminate H
  end.

(** [go_bool] turns the boolean tests of the code into propositions. *)
Ltac go_bool := autorewrite with tsauth in *.

(** [subtle.ConstantTimeCompare]: 1 on equal slices, 0 on slices of different
    length or content. *)
Definition ConstantTimeCompare (x y : bytes) : Z := if x == y then 1 else 0.

Lemma ConstantTimeCompare_1 x y : (ConstantTimeCompare x y =? 1) = true <-> x = y.
Proof. unfold ConstantTimeCompare. destruct (x == y) eqn:E; go_bool; done. Qed.

(** ** Text *)

(** [utf8.Valid]: well-formed UTF-8. *)
Definition utf8_cont (b : byte) : bool := (128 <=? Z_of_byte b) && (Z_of_byte b <=? 191).

Fixpoint utf8_valid (l : bytes) : bool :=
  match l with
  | [] => true
  | b0 :: r0 =>
    let x := Z_of_byte b0 in
    if x <? 128 then utf8_valid r0 else
    match r0 with
    | [] => false
    | b1 :: r1 =>
      let y := Z_of_byte b1 in
      if (194 <=? x) && (x <=? 223) then utf8_cont b1 && utf8_valid r1 else
      match r1 with
      | [] => false
      | b2 :: r2 =>
        if (224 <=? x) && (x <=? 239) then
          utf8_cont b1 && utf8_cont b2 && utf8_valid r2 &&
          (if x =? 224 then 160 <=? y else if x =? 237 then y <=? 159 else true)
        else match r2 with
        | [] => false
        | b3 :: r3 =>
          (240 <=? x) && (x <=? 244) && utf8_cont b1 && utf8_cont b2 && utf8_cont b3 &&
          utf8_valid r3 &&
          (if x =? 240 then 144 <=? y else if x =? 244 then y <=? 143 else true)
        end
      end
    end
  end.

Definition text_ok (s : string) : bool := utf8_valid (str_bytes s).

(** Instants RFC 3339 can write: years 1 to 9999. *)
Definition time_rfc3339 (t : Time) : bool :=
  (time_zero <=? t) && (t <? 253402300800 * Second).

Lemma time_rfc3339_truncate t :
  time_rfc3339 t = true -> time_rfc3339 (time_TruncateSecond t) = true.
Proof.
  unfold time_rfc3339, time_TruncateSecond, time_zero, Second. rewrite !andb_true_iff, !Z.leb_le, !Z.ltb_lt.
  intros [H1 H2]. pose proof (Z.mod_pos_bound t 1000000000 eq_refl).
  split; [|lia]. pose proof (Z.div_mod t 1000000000). nia.
Qed.
