(* ===== verification/Identity.v ===== *)
(** * Identity: the vocabulary of the authorization plane

    [contracts/identity.go]: principals, resources, scopes and their bindings,
    the decision lattice, sensitivities and the approval states.  Go's
    string-typed enumerations are strings here too, because any string can be
    converted to them (values read from the database are). *)

From stdpp Require Import base strings list.
From S2P Require Import Prelude.

Open Scope Z_scope.
Open Scope go_scope.

(** ** Principals *)

Abbreviation TenantID := UUID (only parsing).
Abbreviation PrincipalKind := string (only parsing).
Abbreviation NodeState := string (only parsing).

Definition PrincipalKindHuman : PrincipalKind := "HUMAN".
Definition PrincipalKindTagged : PrincipalKind := "TAGGED".
Definition PrincipalKindService : PrincipalKind := "SERVICE".
Definition PrincipalKindSubnetRouter : PrincipalKind := "SUBNET_ROUTER".
Definition PrincipalKindAppConnector : PrincipalKind := "APP_CONNECTOR".
Definition PrincipalKindUnknown : PrincipalKind := "UNKNOWN".

Definition NodeStateOK : NodeState := "OK".
Definition NodeStateExpired : NodeState := "EXPIRED".
Definition NodeStateDeleted : NodeState := "DELETED".
Definition NodeStateKeyChanged : NodeState := "KEY_CHANGED".

Record OIDCIdentity : Type := mkOIDCIdentity {
  oidc_Issuer : string;
  oidc_Subject : string;
  oidc_UserID : string
}.

Record Principal : Type := mkPrincipal {
  pr_TenantID : TenantID;
  pr_TailnetID : string;
  pr_SrcNodeID : string;
  pr_SrcNodeKeyEpoch : Z;
  pr_Kind : PrincipalKind;
  pr_User : option OIDCIdentity;
  pr_NodeState : NodeState;
  pr_PostureVersion : string
}.

(** [Principal.IsHuman] *)
Definition IsHuman (p : Principal) : bool :=
  (pr_Kind p == PrincipalKindHuman) &&
  match pr_User p with
  | None => false
  | Some u => (oidc_Subject u != "") && (pr_NodeState p == NodeStateOK)
  end.

(** ** Resources *)

Abbreviation Transport := string (only parsing).
Abbreviation DeploymentMode := string (only parsing).

Definition TransportTCP : Transport := "TCP".
Definition ModeHTTPProxy : DeploymentMode := "HTTP_PROXY".
Definition ModeOpaqueTCP : DeploymentMode := "OPAQUE_TCP".
Definition ModeTSSSH : DeploymentMode := "TS_SSH".
Definition ModeOpenSSH : DeploymentMode := "OPENSSH".

Record ResourceID : Type := mkResourceID {
  res_TenantID : TenantID;
  res_ProtectedNodeID : string;
  res_ServiceID : string;
  res_Port : Z;
  res_Transport : Transport;
  res_DeploymentMode : DeploymentMode
}.

Record DisplayLabel : Type := mkDisplayLabel {
  dl_Name : string;
  dl_SourceHint : string
}.

(** ** Keys *)

Abbreviation KeyPurpose := string (only parsing).

Definition KeyPurposeDeviceAuth : KeyPurpose := "device_auth".
Definition KeyPurposeApprovalAuth : KeyPurpose := "approval_auth".
Definition KeyPurposeRequestSig : KeyPurpose := "request_sig".
Definition KeyPurposeGrantSig : KeyPurpose := "grant_sig".
Definition KeyPurposePolicySig : KeyPurpose := "policy_sig".
Definition KeyPurposeAuditCheckpoint : KeyPurpose := "audit_checkpoint_sig".

Record KeyIdentity : Type := mkKeyIdentity {
  ki_Kid : string;
  ki_Purpose : KeyPurpose;
  ki_PubKey : bytes
}.

(** ** Scopes and bindings *)

Abbreviation Scope := string (only parsing).

Definition ScopeRequest : Scope := "REQUEST".
Definition ScopeConnection : Scope := "CONNECTION".
Definition ScopeDuration : Scope := "DURATION".
Definition ScopeSession : Scope := "SESSION".

Record HTTPRequestBinding : Type := mkHTTPRequestBinding {
  hrb_ProtectedNodeID : string;
  hrb_SrcNodeID : string;
  hrb_Method : string;
  hrb_NormalizedAuthority : string;
  hrb_PathPolicyID : string;
  hrb_HTTPVersion : string;
  hrb_RequestNonce : bytes
}.

Record ConnectionBinding : Type := mkConnectionBinding { cb_ConnectionID : bytes }.
Record SessionBinding : Type := mkSessionBinding { sb_SessionID : bytes }.

Record ScopeBinding : Type := mkScopeBinding {
  bind_HTTPRequest : option HTTPRequestBinding;
  bind_Connection : option ConnectionBinding;
  bind_Session : option SessionBinding
}.

(** ** Decisions, sensitivities and approval states *)

Abbreviation EnforcementDecision := string (only parsing).
Abbreviation SecurityLevel := string (only parsing).
Abbreviation Sensitivity := string (only parsing).
Abbreviation ApprovalState := string (only parsing).
Abbreviation Decision := string (only parsing).

Definition DecisionNotProtected : EnforcementDecision := "NOT_PROTECTED".
Definition DecisionAllowWithoutStepUp : EnforcementDecision := "ALLOW_WITHOUT_STEP_UP".
Definition DecisionRequireStepUp : EnforcementDecision := "REQUIRE_STEP_UP".
Definition DecisionEnforceDeny : EnforcementDecision := "DENY".

Definition SecurityLevelStrongBox : SecurityLevel := "STRONGBOX".
Definition SecurityLevelTEE : SecurityLevel := "TEE".

Definition SensitivityStandard : Sensitivity := "STANDARD".
Definition SensitivityHigh : Sensitivity := "HIGH".
Definition SensitivityAdmin : Sensitivity := "ADMIN".

Definition ApprovalStatePending : ApprovalState := "PENDING".
Definition ApprovalStateApproved : ApprovalState := "APPROVED".
Definition ApprovalStateGranted : ApprovalState := "GRANTED".
Definition ApprovalStateDenied : ApprovalState := "DENIED".
Definition ApprovalStateExpired : ApprovalState := "EXPIRED".
Definition ApprovalStateCancelled : ApprovalState := "CANCELLED".

(** [ApprovalState.IsTerminal] *)
Definition IsTerminal (s : ApprovalState) : bool :=
  (s == ApprovalStateDenied) || (s == ApprovalStateExpired) || (s == ApprovalStateCancelled).

Definition DecisionApprove : Decision := "APPROVE".
Definition DecisionDeny : Decision := "DENY".

(** [NewNonce]: the operating system's random source either fills the buffer or
    fails; what it delivers is an input of every modelled call. *)
Definition NewNonce (rand : option bytes) : outcome bytes :=
  match rand with
  | Some b => Ok b
  | None => Err (Errorf "crypto/rand: read failed" [])
  end.
