(* ===== verification/Cose.v ===== *)
(** * Cose: COSE_Sign1 messages

    [contracts/cose/cose.go].  The deterministic CBOR encoder is the
    [fxamacker/cbor] package and Ed25519 and SHA-256 are Go's [crypto]
    packages: they are parameters, given by the classes [Cbor], [CborInit] and
    [GoCrypto], with the documented facts about them in [CborLaws] and in the
    laws of [GoCrypto].  [Sign1], [Verify1] and their relatives are the source's
    own code on top of them.  The last part is the DER low-S test. *)

From stdpp Require Import base gmap strings list.
From Stdlib Require Import ZArith Lia Strings.Byte.
From S2P Require Import Prelude.

Open Scope Z_scope.
Open Scope go_scope.

(** ** The packages the code calls *)

(** [encMode.Marshal] and [decMode.Unmarshal] at one Go type. *)
Class Cbor (A : Type) : Type := {
  marshal : A -> outcome bytes;
  unmarshal : bytes -> outcome A
}.

(** Deterministic CBOR of the values the program encodes: marshalling succeeds,
    and reading the bytes back gives the value with its times cut to whole
    seconds ([TimeRFC3339] has second precision), which is [cbor_norm]. *)
Class CborLaws (A : Type) `{Cbor A} (cbor_norm : A -> A) (encodable : A -> Prop) : Prop := {
  marshal_total : forall v, encodable v -> exists b, marshal v = Ok b;
  unmarshal_marshal : forall v b, encodable v -> marshal v = Ok b -> unmarshal b = Ok (cbor_norm v)
}.

(** The errors, if any, of building [encMode] and [decMode] at package
    initialisation. *)
Class CborInit : Type := {
  encModeErr : option error;
  decModeErr : option error
}.

(** Go's [crypto/ed25519] and [crypto/sha256]. *)
Class GoCrypto : Type := {
  sha256 : bytes -> bytes;
  ed_sign : bytes -> bytes -> bytes;
  ed_verify : bytes -> bytes -> bytes -> bool;
  sha256_length : forall b, length (sha256 b) = 32%nat;
  ed_verify_sign : forall priv msg, length priv = 64%nat ->
    ed_verify (drop 32 priv) msg (ed_sign priv msg) = true
}.

Section Ed25519.
Context `{GoCrypto}.

(** [ed25519.Sign] and [ed25519.Verify] panic on a key of the wrong length; the
    public key is the second half of the private key. *)
Definition ed25519_Sign (priv msg : bytes) : outcome bytes :=
  if negb (length priv =? 64)%nat then Panic else Ok (ed_sign priv msg).

Definition ed25519_Verify (pub msg sig : bytes) : outcome bool :=
  if negb (length pub =? 32)%nat then Panic else Ok (ed_verify pub msg sig).

Definition ed25519_Public (priv : bytes) : bytes := drop 32 priv.

Lemma ed25519_Sign_ok priv msg :
  length priv = 64%nat -> ed25519_Sign priv msg = Ok (ed_sign priv msg).
Proof. intros E. unfold ed25519_Sign. by rewrite E. Qed.

Lemma ed25519_Verify_ok pub msg sig :
  length pub = 32%nat -> ed25519_Verify pub msg sig = Ok (ed_verify pub msg sig).
Proof. intros E. unfold ed25519_Verify. by rewrite E. Qed.

Lemma ed25519_Verify_true pub msg sig :
  ed25519_Verify pub msg sig = Ok true <->
  length pub = 32%nat /\ ed_verify pub msg sig = true.
Proof.
  unfold ed25519_Verify. destruct (Nat.eqb_spec (length pub) 32) as [E|E]; cbn; split.
  - by intros [= ->].
  - by intros [_ ->].
  - done.
  - by intros [? _].
Qed.

End Ed25519.
Arguments ed25519_Sign : simpl never.
Arguments ed25519_Verify : simpl never.
Arguments ed25519_Public : simpl never.

(** ** Messages *)

Definition AlgorithmEdDSA : Z := -8.
Definition HeaderLabelAlg : Z := 1.
Definition HeaderLabelKid : Z := 4.
Definition HeaderLabelTyp : Z := 16.

Record Headers : Type := mkHeaders {
  hd_Algorithm : Z;
  hd_KeyID : string;
  hd_Type : string
}.

(** A value of Go type [any]: the code stores it and never looks inside, so it
    is held as its CBOR encoding. *)
Record any : Type := mkAny { any_cbor : bytes }.

Record Sign1Message : Type := mkSign1Message {
  sm_Protected : Headers;
  sm_Unprotected : gmap Z any;
  sm_Payload : bytes;
  sm_Signature : bytes
}.

Record sigStructure : Type := mkSigStructure {
  ss_Context : string;
  ss_Protected : bytes;
  ss_ExternalAAD : bytes;
  ss_Payload : bytes
}.

Section Cose.
Context `{CborInit} `{GoCrypto}.
Context `{Cbor Headers} `{Cbor sigStructure} `{Cbor Sign1Message}.

(** [EncodeCanonical] and [DecodeCanonical] *)
Definition EncodeCanonical {A} `{Cbor A} (v : A) : outcome bytes :=
  match encModeErr with
  | Some e => Err (Wrapf "cose: encoder init: %w" [] e)
  | None => marshal v
  end.

Definition DecodeCanonical {A} `{Cbor A} (data : bytes) : outcome A :=
  match decModeErr with
  | Some e => Err (Wrapf "cose: decoder init: %w" [] e)
  | None => unmarshal data
  end.

(** [Sign1].  A nil [externalAAD] is [None]. *)
Definition Sign1 (signer : bytes) (kid typ : string) (payload : bytes)
    (externalAAD : option bytes) : outcome Sign1Message :=
  match encModeErr with
  | Some e => Err (Wrapf "cose: encoder init: %w" [] e)
  | None =>
    let headers := mkHeaders AlgorithmEdDSA kid typ in
    protectedBytes ← wrap "cose: marshal protected headers: %w" [] (marshal headers);
    let externalAAD := default [] externalAAD in
    let sigStruct := mkSigStructure "Signature1" protectedBytes externalAAD payload in
    sigStructBytes ← wrap "cose: marshal sig structure: %w" [] (marshal sigStruct);
    signature ← ed25519_Sign signer sigStructBytes;
    Ok (mkSign1Message headers ∅ payload signature)
  end.

(** [BuildSigStructure] *)
Definition BuildSigStructure (kid typ : string) (payload : bytes)
    (externalAAD : option bytes) : outcome (bytes * bytes * Headers) :=
  match encModeErr with
  | Some e => Err (Wrapf "cose: encoder init: %w" [] e)
  | None =>
    let h := mkHeaders AlgorithmEdDSA kid typ in
    protectedBytes ← wrap "cose: marshal protected headers: %w" [] (marshal h);
    let externalAAD := default [] externalAAD in
    let sigStruct := mkSigStructure "Signature1" protectedBytes externalAAD payload in
    sigStructureBytes ← wrap "cose: marshal sig structure: %w" [] (marshal sigStruct);
    Ok (sigStructureBytes, protectedBytes, h)
  end.

(** [Sign1WithSignature] *)
Definition Sign1WithSignature (kid typ : string) (payload : bytes)
    (externalAAD : option bytes) (signature : bytes) : outcome Sign1Message :=
  match encModeErr with
  | Some e => Err (Wrapf "cose: encoder init: %w" [] e)
  | None => Ok (mkSign1Message (mkHeaders AlgorithmEdDSA kid typ) ∅ payload signature)
  end.

(** [Verify1] *)
Definition Verify1 (msg : Sign1Message) (pubKey : bytes) : outcome (bytes * Headers) :=
  if hd_Algorithm (sm_Protected msg) != AlgorithmEdDSA
  then Err (Errorf "cose: unsupported algorithm %d" [AInt (hd_Algorithm (sm_Protected msg))])
  else match encModeErr with
  | Some e => Err (Wrapf "cose: encoder init: %w" [] e)
  | None =>
    protectedBytes ← wrap "cose: marshal protected for verification: %w" []
                       (marshal (sm_Protected msg));
    let sigStruct := mkSigStructure "Signature1" protectedBytes [] (sm_Payload msg) in
    sigStructBytes ← wrap "cose: marshal sig structure for verify: %w" [] (marshal sigStruct);
    ok ← ed25519_Verify pubKey sigStructBytes (sm_Signature msg);
    if negb ok then Err (Errorf "cose: signature verification failed" [])
    else Ok (sm_Payload msg, sm_Protected msg)
  end.

(** [SerializeSign1] and [DeserializeSign1] *)
Definition SerializeSign1 (msg : Sign1Message) : outcome bytes := EncodeCanonical msg.

Definition DeserializeSign1 (data : bytes) : outcome Sign1Message :=
  msg ← wrap "cose: deserialize: %w" [] (DecodeCanonical data);
  if (hd_Algorithm (sm_Protected msg) == 0) && (hd_KeyID (sm_Protected msg) == "")
  then Ok msg
  else if hd_Algorithm (sm_Protected msg) == 0
  then Err (Errorf "cose: missing algorithm in protected headers" [])
  else Ok msg.

(** The bytes a signature covers, for a message whose headers are [h] and whose
    payload is [payload]. *)
Definition to_be_signed (h : Headers) (payload : bytes) : outcome bytes :=
  protectedBytes ← marshal h;
  marshal (mkSigStructure "Signature1" protectedBytes [] payload).

(** [Verify1] accepts exactly the EdDSA messages whose signature the key
    verifies over [to_be_signed] of their own headers and payload, and returns
    that payload and those headers. *)
Lemma Verify1_Ok msg pub r :
  Verify1 msg pub = Ok r <->
  r = (sm_Payload msg, sm_Protected msg) /\
  hd_Algorithm (sm_Protected msg) = AlgorithmEdDSA /\ encModeErr = None /\
  exists tbs, to_be_signed (sm_Protected msg) (sm_Payload msg) = Ok tbs /\
    ed25519_Verify pub tbs (sm_Signature msg) = Ok true.
Proof.
  unfold Verify1, to_be_signed. split.
  - intros E. go_ok. go_bool. split_and!; [done..|].
    subst. eexists. split; [|done]. apply bind_Ok. eauto.
  - intros (-> & -> & -> & tbs & Et & Ev).
    apply bind_Ok in Et as (p & -> & Ep). cbn. rewrite Ep. cbn. by rewrite Ev.
Qed.

Lemma Sign1_Ok priv kid typ payload msg :
  Sign1 priv kid typ payload None = Ok msg <->
  length priv = 64%nat /\ encModeErr = None /\
  exists tbs, to_be_signed (mkHeaders AlgorithmEdDSA kid typ) payload = Ok tbs /\
    msg = mkSign1Message (mkHeaders AlgorithmEdDSA kid typ) ∅ payload (ed_sign priv tbs).
Proof.
  unfold Sign1, to_be_signed, ed25519_Sign. split.
  - intros E. go_ok. rewrite negb_false_iff, Nat.eqb_eq in *. split_and!; [done..|].
    eexists. split; [apply bind_Ok; eauto|done].
  - intros (El & -> & tbs & Et & ->).
    apply bind_Ok in Et as (p & -> & Ep). cbn. rewrite Ep. cbn. by rewrite El.
Qed.

Lemma BuildSigStructure_Ok kid typ payload tbs p h :
  BuildSigStructure kid typ payload None = Ok (tbs, p, h) <->
  encModeErr = None /\ h = mkHeaders AlgorithmEdDSA kid typ /\ marshal h = Ok p /\
  to_be_signed h payload = Ok tbs.
Proof.
  unfold BuildSigStructure, to_be_signed. split.
  - intros E. go_ok.
      split_and!; [done..|]. apply bind_Ok. eauto.
  - intros (-> & -> & Hp & Ht). rewrite Hp in *. cbn in *. by rewrite Ht.
Qed.

(** The KMS path: a caller that signs the bytes of [BuildSigStructure] itself
    and assembles the message with [Sign1WithSignature] gets the message [Sign1]
    would have produced with the same key. *)
Lemma BuildSigStructure_Sign1 priv kid typ payload tbs p h :
  length priv = 64%nat ->
  BuildSigStructure kid typ payload None = Ok (tbs, p, h) ->
  Sign1WithSignature kid typ payload None (ed_sign priv tbs) = Sign1 priv kid typ payload None /\
  is_Ok (Sign1 priv kid typ payload None).
Proof.
  intros El (Ei & -> & _ & Ht)%BuildSigStructure_Ok.
  assert (Sign1 priv kid typ payload None
    = Ok (mkSign1Message (mkHeaders AlgorithmEdDSA kid typ) ∅ payload (ed_sign priv tbs)))
    as -> by (apply Sign1_Ok; eauto).
  split; [|by eexists]. unfold Sign1WithSignature. by rewrite Ei.
Qed.

(** ** Round trip over the wire *)

(** What the CBOR package encodes and decodes faithfully: integers that fit an
    [int64] and text that is UTF-8 (the decoder rejects other text). *)
Definition hd_ok (h : Headers) : Prop :=
  is_int64 (hd_Algorithm h) = true /\ text_ok (hd_KeyID h) = true /\ text_ok (hd_Type h) = true.
Definition ss_ok (s : sigStructure) : Prop := text_ok (ss_Context s) = true.
Definition sm_ok (m : Sign1Message) : Prop :=
  hd_ok (sm_Protected m) /\ sm_Unprotected m = ∅.

(** The package initialised, and its documented behaviour on the three types of
    this file. *)
Class CoseLaws : Prop := {
  cose_encInit : encModeErr = None;
  cose_decInit : decModeErr = None;
  cose_headers :: CborLaws Headers id hd_ok;
  cose_sigStructure :: CborLaws sigStructure id ss_ok;
  cose_message :: CborLaws Sign1Message id sm_ok
}.

Section Wire.
Context `{CoseLaws}.

Lemma to_be_signed_total h payload : hd_ok h -> exists tbs, to_be_signed h payload = Ok tbs.
Proof.
  intros Hh. destruct (marshal_total h Hh) as [p Hp].
  assert (Hs : ss_ok (mkSigStructure "Signature1" p [] payload)) by done.
  destruct (marshal_total _ Hs) as [tbs Ht].
  exists tbs. unfold to_be_signed. by rewrite Hp.
Qed.

Lemma Serialize_Deserialize msg :
  sm_ok msg -> hd_Algorithm (sm_Protected msg) = AlgorithmEdDSA ->
  exists raw, SerializeSign1 msg = Ok raw /\ DeserializeSign1 raw = Ok msg.
Proof.
  intros Hu Ha. destruct (marshal_total msg Hu) as [raw Hraw]. exists raw.
  unfold SerializeSign1, DeserializeSign1, EncodeCanonical, DecodeCanonical.
  rewrite cose_encInit, cose_decInit, (unmarshal_marshal msg raw Hu Hraw). cbn.
  by rewrite Ha.
Qed.

(** A message signed with [priv], sent as bytes, is accepted under the public
    half of [priv] and delivers its payload and headers. *)
Lemma Sign1_wire_Verify1 priv kid typ payload :
  length priv = 64%nat -> text_ok kid = true -> text_ok typ = true ->
  exists msg raw,
    Sign1 priv kid typ payload None = Ok msg /\
    SerializeSign1 msg = Ok raw /\ DeserializeSign1 raw = Ok msg /\
    Verify1 msg (ed25519_Public priv) = Ok (payload, mkHeaders AlgorithmEdDSA kid typ).
Proof.
  intros El Hk Ht. set (h := mkHeaders AlgorithmEdDSA kid typ).
  assert (Hh : hd_ok h) by done.
  destruct (to_be_signed_total h payload Hh) as [tbs Htbs].
  set (msg := mkSign1Message h ∅ payload (ed_sign priv tbs)).
  destruct (Serialize_Deserialize msg) as (raw & Hs & Hd); [done..|].
  pose proof cose_encInit.
  exists msg, raw. split_and!; [|done..|].
  - apply Sign1_Ok. eauto.
  - apply Verify1_Ok. split_and!; [done..|]. exists tbs. split; [done|].
    apply ed25519_Verify_true. split; [|by apply ed_verify_sign].
    unfold ed25519_Public. by rewrite length_drop, El.
Qed.

End Wire.
End Cose.

(** ** The low-S test on DER-encoded ECDSA signatures *)

Definition nHalf : bytes :=
  [x7f; xff; xff; xff; xff; xff; xff; xff;
   xff; xff; xff; xff; xff; xff; xff; xff;
   x5d; x57; x6e; x73; x57; xa4; x50; x1d;
   xdf; xe9; x2f; x46; x68; x1b; x20; xa0].

(** [normalizeBytes] *)
Definition normalizeBytes (b : bytes) (targetLen : nat) : bytes :=
  if (targetLen <=? length b)%nat then drop (length b - targetLen) b
  else replicate (targetLen - length b) x00 ++ b.

(** The comparison loop at the end of [IsLowS]. *)
Fixpoint lowS_loop (s n : bytes) : bool :=
  match s, n with
  | a :: s', b :: n' =>
      if Z_of_byte a <? Z_of_byte b then true
      else if Z_of_byte b <? Z_of_byte a then false
      else lowS_loop s' n'
  | _, _ => true
  end.

(** [sig[pos]], read only where [pos < len(sig)]. *)
Definition byte_at (sig : bytes) (pos : nat) : Z := Z_of_byte (default x00 (sig !! pos)).

(** [IsLowS] *)
Definition IsLowS (sig : bytes) : bool :=
  if (length sig <? 2)%nat then false else
  let pos := 2%nat in
  let pos :=
    if (pos <? length sig)%nat && (byte_at sig pos =? 2) then
      let pos := S pos in
      if (pos <? length sig)%nat
      then let rLen := Z.to_nat (byte_at sig pos) in (pos + (1 + rLen))%nat
      else pos
    else pos in
  let '(pos, sLen) :=
    if (pos <? length sig)%nat && (byte_at sig pos =? 2) then
      let pos := S pos in
      if (pos <? length sig)%nat
      then let sLen := Z.to_nat (byte_at sig pos) in (S pos, sLen)
      else (pos, 0%nat)
    else (pos, 0%nat) in
  if (sLen =? 0)%nat || (length sig <? pos + sLen)%nat then false
  else lowS_loop (normalizeBytes (take sLen (drop pos sig)) 32) nHalf.

(** A DER signature: SEQUENCE { INTEGER r, INTEGER s } and what follows it. *)
Definition der_signature (l : byte) (r s t : bytes) : bytes :=
  x30 :: l :: x02 :: byte_of_Z (Z.of_nat (length r)) :: r ++
  x02 :: byte_of_Z (Z.of_nat (length s)) :: s ++ t.

(** The group order of P-256, the curve of the Android keys. *)
Definition p256_order : Z :=
  0xFFFFFFFF00000000FFFFFFFFFFFFFFFFBCE6FAADA7179E84F3B9CAC2FC632551.

Lemma lowS_loop_le s n :
  length s = length n -> lowS_loop s n = (be_Z s <=? be_Z n).
Proof.
  revert n. induction s as [|a s IH]; intros [|b n] El; try discriminate El; [done|].
  injection El as El. cbn [lowS_loop be_Z]. rewrite El.
  pose proof (be_Z_bound s). pose proof (be_Z_bound n). rewrite El in *.
  set (w := 2 ^ (8 * Z.of_nat (length n))) in *.
  destruct (Z.ltb_spec (Z_of_byte a) (Z_of_byte b)).
  { symmetry. apply Z.leb_le. nia. }
  destruct (Z.ltb_spec (Z_of_byte b) (Z_of_byte a)).
  { symmetry. apply Z.leb_gt. nia. }
  rewrite IH by done. replace (Z_of_byte a) with (Z_of_byte b) by lia.
  destruct (Z.leb_spec (be_Z s) (be_Z n)); symmetry; [apply Z.leb_le|apply Z.leb_gt]; lia.
Qed.

Lemma be_Z_app a b : be_Z (a ++ b) = be_Z a * 2 ^ (8 * Z.of_nat (length b)) + be_Z b.
Proof.
  induction a as [|x a IH]; [cbn; lia|]. cbn [app be_Z]. rewrite IH, length_app, Nat2Z.inj_add.
  rewrite Z.mul_add_distr_l, Z.pow_add_r by lia. lia.
Qed.

Lemma be_Z_zeros n : be_Z (replicate n x00) = 0.
Proof. induction n as [|n IH]; [done|]. cbn [replicate be_Z]. by rewrite IH. Qed.

Lemma length_normalizeBytes b n : length (normalizeBytes b n) = n.
Proof.
  unfold normalizeBytes. destruct (Nat.leb_spec n (length b)).
  - rewrite length_drop. lia.
  - rewrite length_app, length_replicate. lia.
Qed.

(** [normalizeBytes] keeps the value modulo the target width. *)
Lemma be_Z_normalizeBytes b n :
  be_Z (normalizeBytes b n) = be_Z b mod 2 ^ (8 * Z.of_nat n).
Proof.
  unfold normalizeBytes. destruct (Nat.leb_spec n (length b)).
  - rewrite <- (take_drop (length b - n) b) at 3. rewrite be_Z_app.
    assert (length (drop (length b - n) b) = n) as Hl by (rewrite length_drop; lia).
    rewrite Hl, Z.add_comm, Z.mod_add by lia.
    symmetry. apply Z.mod_small. rewrite <- Hl at 3. apply be_Z_bound.
  - rewrite be_Z_app, be_Z_zeros. symmetry. apply Z.mod_small.
    pose proof (be_Z_bound b). split; [lia|].
    apply Z.lt_le_trans with (2 ^ (8 * Z.of_nat (length b))); [lia|].
    apply Z.pow_le_mono_r; lia.
Qed.

Lemma byte_at_app_r pre b post : byte_at (pre ++ b :: post) (length pre) = Z_of_byte b.
Proof. unfold byte_at. by rewrite list_lookup_middle. Qed.

(** On a DER signature, [IsLowS] compares the value of [s] with [nHalf]. *)
Lemma IsLowS_der l r s t :
  (length r < 256)%nat -> (0 < length s < 256)%nat ->
  IsLowS (der_signature l r s t) = (be_Z s mod 2 ^ 256 <=? be_Z nHalf).
Proof.
  intros Hr Hs. unfold IsLowS.
  set (sig := der_signature l r s t).
  set (tail := x02 :: byte_of_Z (Z.of_nat (length s)) :: s ++ t).
  set (pre := x30 :: l :: x02 :: byte_of_Z (Z.of_nat (length r)) :: r).
  assert (Hsig : sig = pre ++ tail) by done.
  assert (Hlen : length sig = (4 + length r + (2 + length s + length t))%nat).
  { rewrite Hsig, length_app. subst pre tail. cbn. rewrite length_app. lia. }
  assert (Hpre : length pre = (4 + length r)%nat) by done.
  change (byte_at sig 2 =? 2) with true. change (byte_at sig 3)
    with (Z_of_byte (byte_of_Z (Z.of_nat (length r)))).
  rewrite Z_of_byte_of_Z, Z.mod_small, Nat2Z.id by lia.
  rewrite (proj2 (Nat.ltb_ge (length sig) 2)) by lia.
  rewrite (proj2 (Nat.ltb_lt 2 (length sig))) by lia.
  rewrite (proj2 (Nat.ltb_lt 3 (length sig))) by lia. cbn [andb].
  replace (3 + (1 + length r))%nat with (length pre) by lia.
  rewrite (proj2 (Nat.ltb_lt (length pre) _)) by lia.
  assert (byte_at sig (length pre) = 2) as -> by (rewrite Hsig; apply byte_at_app_r).
  cbn [andb Z.eqb Pos.eqb].
  rewrite (proj2 (Nat.ltb_lt (S (length pre)) _)) by lia.
  assert (Hs1 : sig = (pre ++ [x02]) ++ byte_of_Z (Z.of_nat (length s)) :: s ++ t)
    by (rewrite Hsig; subst tail; by rewrite <- app_assoc).
  replace (S (length pre)) with (length (pre ++ [x02])) by (rewrite length_app; cbn; lia).
  rewrite Hs1, byte_at_app_r, <- Hs1.
  rewrite Z_of_byte_of_Z, Z.mod_small, Nat2Z.id by lia.
  assert (Hpre' : length (pre ++ [x02]) = (5 + length r)%nat)
    by (rewrite length_app, Hpre; cbn; lia).
  rewrite (proj2 (Nat.eqb_neq (length s) 0)) by lia.
  rewrite (proj2 (Nat.ltb_ge (length sig) _)) by lia. cbn [orb].
  replace (take (length s) (drop (S (length (pre ++ [x02]))) sig)) with s.
  - rewrite lowS_loop_le by apply length_normalizeBytes. by rewrite be_Z_normalizeBytes.
  - rewrite Hs1, (cons_middle _ (pre ++ [x02])), (app_assoc (pre ++ [x02])).
    rewrite drop_app_length' by (rewrite (length_app (pre ++ [x02])), Hpre'; cbn; lia).
    by rewrite take_app_length.
Qed.
