(* ===== verification/Envelope.v ===== *)
(** * Envelope: signed requests, approval responses and access grant tokens

    [contracts/envelope.go].  [NewRequestEnvelope]/[VerifyRequestEnvelope] carry
    a request to the approver device, [SignApprovalResponse]/
    [VerifyApprovalResponse] carry the decision back, and
    [NewAccessGrantToken]/[VerifyAccessGrantToken] carry the grant to the
    enforcement daemon.  Every reading of the clock is an argument. *)

From stdpp Require Import base gmap strings list pretty.
From Stdlib Require Import ZArith Lia Strings.Byte.
From S2P Require Import Prelude Identity Cose.

Open Scope Z_scope.
Open Scope go_scope.

(** ** Payloads *)

Record InitiatingInfo : Type := mkInitiatingInfo {
  ini_SrcNodeID : string;
  ini_SrcNodeDisplay : string;
  ini_SrcNodeVerified : bool;
  ini_RequestingIP : string;
  ini_PostureVersion : string
}.

Record RequestPayload : Type := mkRequestPayload {
  rp_Ver : Z;
  rp_RequestID : UUID;
  rp_TenantID : UUID;
  rp_TailnetID : string;
  rp_IssuedAt : Time;
  rp_ExpiresAt : Time;
  rp_AudienceDeviceID : UUID;
  rp_Initiating : InitiatingInfo;
  rp_Resource : ResourceID;
  rp_ResourceDisplay : DisplayLabel;
  rp_Protocol : string;
  rp_SSHAccount : string;
  rp_PolicyVersion : Z;
  rp_RuleID : string;
  rp_ScopeRequested : Scope;
  rp_Binding : ScopeBinding;
  rp_Challenge : bytes;
  rp_DisplayDigest : bytes
}.

(** The fields [PrepareRequestPayload] assigns. *)
Definition rp_set (p : RequestPayload) (ver : Z) (issued expires : Time) (digest : bytes)
    : RequestPayload :=
  mkRequestPayload ver (rp_RequestID p) (rp_TenantID p) (rp_TailnetID p) issued expires
    (rp_AudienceDeviceID p) (rp_Initiating p) (rp_Resource p) (rp_ResourceDisplay p)
    (rp_Protocol p) (rp_SSHAccount p) (rp_PolicyVersion p) (rp_RuleID p)
    (rp_ScopeRequested p) (rp_Binding p) (rp_Challenge p) digest.

Record RequestEnvelope : Type := mkRequestEnvelope {
  re_Message : option Sign1Message;
  re_Payload : RequestPayload
}.

Record ApprovalResponse : Type := mkApprovalResponse {
  ar_RequestID : UUID;
  ar_Decision : Decision;
  ar_DeviceID : UUID;
  ar_KeyID : string;
  ar_SignedAt : Time;
  ar_DeviceCounter : Z;
  ar_ChannelBinding : bytes;
  ar_ResponseNonce : bytes;
  ar_RequestHash : bytes;
  ar_Signature : bytes
}.

Record AGTPayload : Type := mkAGTPayload {
  agt_Ver : Z;
  agt_JTI : UUID;
  agt_TenantID : UUID;
  agt_TailnetID : string;
  agt_Subject : OIDCIdentity;
  agt_SrcNodeID : string;
  agt_SrcNodeKeyEpoch : Z;
  agt_ApproverDeviceID : UUID;
  agt_ApprovalKeyID : string;
  agt_DeviceSecurityLevel : string;
  agt_ProtectedNodeID : string;
  agt_Resource : ResourceID;
  agt_Protocol : string;
  agt_DeploymentMode : string;
  agt_Scope : Scope;
  agt_Binding : ScopeBinding;
  agt_PolicyVersion : Z;
  agt_RuleID : string;
  agt_AuthzEpoch : Z;
  agt_IssuedAt : Time;
  agt_NotBefore : Time;
  agt_ExpiresAt : Time
}.

Definition agt_set (p : AGTPayload) (ver : Z) (iat nbf exp : Time) : AGTPayload :=
  mkAGTPayload ver (agt_JTI p) (agt_TenantID p) (agt_TailnetID p) (agt_Subject p)
    (agt_SrcNodeID p) (agt_SrcNodeKeyEpoch p) (agt_ApproverDeviceID p) (agt_ApprovalKeyID p)
    (agt_DeviceSecurityLevel p) (agt_ProtectedNodeID p) (agt_Resource p) (agt_Protocol p)
    (agt_DeploymentMode p) (agt_Scope p) (agt_Binding p) (agt_PolicyVersion p) (agt_RuleID p)
    (agt_AuthzEpoch p) iat nbf exp.

Record AccessGrantToken : Type := mkAccessGrantToken {
  at_Message : Sign1Message;
  at_Payload : AGTPayload
}.

(** ** Helpers of the package *)

(** [subtleXORBytes]: the loop accumulates [a[i] ^ b[i]] in [diff]. *)
Fixpoint subtleXORBytes_loop (diff : byte) (a b : bytes) : byte :=
  match a, b with
  | x :: a', y :: b' => subtleXORBytes_loop (byte_or diff (byte_xor x y)) a' b'
  | _, _ => diff
  end.
Definition subtleXORBytes (a b : bytes) : byte := subtleXORBytes_loop x00 a b.

(** [hmacEqual] *)
Definition hmacEqual (a b : bytes) : bool :=
  (length a =? length b)%nat && (subtleXORBytes a b == x00).

(** [int64ToBytes] *)
Definition int64ToBytes (i : Z) : bytes := be_bytes 8 i.

(** [MaxGrantTTL] *)
Definition MaxGrantTTL (scope : Scope) (sensitivity : Sensitivity) : Duration :=
  if scope == ScopeRequest then 30 * Second
  else if scope == ScopeConnection then 120 * Second
  else if scope == ScopeDuration then
    if sensitivity == SensitivityStandard then 15 * Minute
    else if sensitivity == SensitivityHigh then 5 * Minute
    else 0
  else if scope == ScopeSession then
    if sensitivity == SensitivityStandard then 8 * Hour
    else if sensitivity == SensitivityHigh then 1 * Hour
    else if sensitivity == SensitivityAdmin then 30 * Minute
    else 0
  else 0.

(** ** The operations *)

Section Envelope.
Context `{UuidText} `{CborInit} `{GoCrypto}.
Context `{Cbor Headers} `{Cbor sigStructure} `{Cbor Sign1Message}.
Context `{Cbor ScopeBinding} `{Cbor RequestPayload} `{Cbor AGTPayload}.

(** The strings [ComputeDisplayDigest] feeds to the hash, in order. *)
Definition display_fields (p : RequestPayload) : list string :=
  [uuid_String (rp_TenantID p); rp_TailnetID p;
   ini_SrcNodeID (rp_Initiating p); ini_SrcNodeDisplay (rp_Initiating p);
   res_ProtectedNodeID (rp_Resource p); res_ServiceID (rp_Resource p);
   pretty (res_Port (rp_Resource p)); res_Transport (rp_Resource p);
   res_DeploymentMode (rp_Resource p); dl_Name (rp_ResourceDisplay p); rp_Protocol p]
  ++ (if rp_SSHAccount p != "" then [rp_SSHAccount p] else [])
  ++ [pretty (rp_PolicyVersion p); rp_RuleID p; rp_ScopeRequested p;
      pretty (time_Unix (time_TruncateSecond (rp_IssuedAt p)));
      pretty (time_Unix (time_TruncateSecond (rp_ExpiresAt p)))].

(** [ComputeDisplayDigest]; an encoding error leaves [bindingBytes] nil. *)
Definition ComputeDisplayDigest (p : RequestPayload) : bytes :=
  let bindingBytes := match EncodeCanonical (rp_Binding p) with Ok b => b | _ => [] end in
  sha256 (concat (map str_bytes (display_fields p)) ++ bindingBytes).

(** [PrepareRequestPayload]: the payload it updates in place and its bytes. *)
Definition PrepareRequestPayload (now : Time) (payload : RequestPayload)
    : outcome (RequestPayload * bytes) :=
  let issued := if time_IsZero (rp_IssuedAt payload) then now else rp_IssuedAt payload in
  let expires := if time_IsZero (rp_ExpiresAt payload) then issued + 60 * Second
                 else rp_ExpiresAt payload in
  let payload := rp_set payload 2 issued expires (rp_DisplayDigest payload) in
  let payload := rp_set payload 2 issued expires (ComputeDisplayDigest payload) in
  payloadBytes ← wrap "envelope: marshal request payload: %w" [] (EncodeCanonical payload);
  Ok (payload, payloadBytes).

(** [NewRequestEnvelope] *)
Definition NewRequestEnvelope (now : Time) (signer : bytes) (kid : string)
    (payload : RequestPayload) : outcome RequestEnvelope :=
  '(payload, payloadBytes) ← PrepareRequestPayload now payload;
  msg ← wrap "envelope: sign request: %w" [] (Sign1 signer kid "dnivio-req-v2" payloadBytes None);
  Ok (mkRequestEnvelope (Some msg) payload).

(** [VerifyRequestEnvelope]; [now1] and [now2] are its two readings of the clock. *)
Definition VerifyRequestEnvelope (now1 now2 : Time) (rawEnvelope trustRoot : bytes)
    (expectedDeviceID expectedTenant : UUID) : outcome RequestEnvelope :=
  msg ← wrap "envelope: deserialize request: %w" [] (DeserializeSign1 rawEnvelope);
  '(payloadBytes, headers) ← wrap "envelope: verify request signature: %w" [] (Verify1 msg trustRoot);
  if hd_Type headers != "dnivio-req-v2"
  then Err (Errorf "envelope: unexpected type %q" [AStr (hd_Type headers)]) else
  payload ← wrap "envelope: decode request payload: %w" [] (DecodeCanonical payloadBytes);
  if rp_AudienceDeviceID payload != expectedDeviceID
  then Err (Errorf "envelope: request audience mismatch" []) else
  if rp_TenantID payload != expectedTenant
  then Err (Errorf "envelope: request tenant mismatch" []) else
  if time_After now1 (rp_ExpiresAt payload + 5 * Second)
  then Err (Errorf "envelope: request expired" []) else
  if time_Before (now2 + 5 * Second) (rp_IssuedAt payload)
  then Err (Errorf "envelope: request issued in future" []) else
  let expectedDigest := ComputeDisplayDigest payload in
  if negb (hmacEqual (rp_DisplayDigest payload) expectedDigest)
  then Err (Errorf "envelope: display digest mismatch" []) else
  Ok (mkRequestEnvelope (Some msg) payload).

(** The bytes both [SignApprovalResponse] and [VerifyApprovalResponse] build. *)
Definition approval_toSign (resp : ApprovalResponse) : bytes :=
  ar_RequestHash resp ++ str_bytes (ar_Decision resp) ++ uuid_bytes (ar_DeviceID resp) ++
  str_bytes (ar_KeyID resp) ++ time_MarshalBinary (ar_SignedAt resp) ++
  int64ToBytes (ar_DeviceCounter resp) ++ ar_ChannelBinding resp ++ ar_ResponseNonce resp.

(** [SignApprovalResponse]: the response it updates in place. *)
Definition SignApprovalResponse (now : Time) (signer : bytes) (resp : ApprovalResponse)
    : outcome ApprovalResponse :=
  let resp := mkApprovalResponse (ar_RequestID resp) (ar_Decision resp) (ar_DeviceID resp)
    (ar_KeyID resp) now (ar_DeviceCounter resp) (ar_ChannelBinding resp)
    (ar_ResponseNonce resp) (ar_RequestHash resp) (ar_Signature resp) in
  signature ← ed25519_Sign signer (approval_toSign resp);
  Ok (mkApprovalResponse (ar_RequestID resp) (ar_Decision resp) (ar_DeviceID resp)
    (ar_KeyID resp) (ar_SignedAt resp) (ar_DeviceCounter resp) (ar_ChannelBinding resp)
    (ar_ResponseNonce resp) (ar_RequestHash resp) signature).

(** [VerifyApprovalResponse] *)
Definition VerifyApprovalResponse (resp : ApprovalResponse) (pubKey : bytes) : outcome unit :=
  ok ← ed25519_Verify pubKey (approval_toSign resp) (ar_Signature resp);
  if negb ok then Err (Errorf "envelope: approval response signature verification failed" [])
  else Ok tt.

(** [PrepareAGTPayload] *)
Definition PrepareAGTPayload (now : Time) (payload : AGTPayload) : outcome (AGTPayload * bytes) :=
  let iat := if time_IsZero (agt_IssuedAt payload) then now else agt_IssuedAt payload in
  let nbf := if time_IsZero (agt_NotBefore payload) then now else agt_NotBefore payload in
  let payload := agt_set payload 2 iat nbf (agt_ExpiresAt payload) in
  payloadBytes ← wrap "envelope: marshal agt payload: %w" [] (EncodeCanonical payload);
  Ok (payload, payloadBytes).

(** [NewAccessGrantToken] *)
Definition NewAccessGrantToken (now : Time) (signer : bytes) (kid : string)
    (payload : AGTPayload) : outcome AccessGrantToken :=
  '(payload, payloadBytes) ← PrepareAGTPayload now payload;
  msg ← wrap "envelope: sign agt: %w" [] (Sign1 signer kid "dnivio-agt-v2" payloadBytes None);
  Ok (mkAccessGrantToken msg payload).

(** [VerifyAccessGrantToken] *)
Definition VerifyAccessGrantToken (now : Time) (rawAGT trustRoot : bytes)
    (currentAuthzEpoch currentPolicyVersion : Z) (currentSensitivity : Sensitivity)
    : outcome AccessGrantToken :=
  msg ← wrap "envelope: deserialize agt: %w" [] (DeserializeSign1 rawAGT);
  '(payloadBytes, headers) ← wrap "envelope: verify agt signature: %w" [] (Verify1 msg trustRoot);
  if hd_Type headers != "dnivio-agt-v2"
  then Err (Errorf "envelope: unexpected agt type %q" [AStr (hd_Type headers)]) else
  payload ← wrap "envelope: decode agt payload: %w" [] (DecodeCanonical payloadBytes);
  if time_Before now (agt_NotBefore payload)
  then Err (Errorf "envelope: agt not yet valid (nbf)" []) else
  if time_After now (agt_ExpiresAt payload)
  then Err (Errorf "envelope: agt expired" []) else
  if agt_PolicyVersion payload <? currentPolicyVersion
  then Err (Errorf "envelope: agt policy version %d < current %d"
              [AInt (agt_PolicyVersion payload); AInt currentPolicyVersion]) else
  if agt_AuthzEpoch payload != currentAuthzEpoch
  then Err (Errorf "envelope: agt authz epoch %d != current %d"
              [AInt (agt_AuthzEpoch payload); AInt currentAuthzEpoch]) else
  if ((currentSensitivity == SensitivityHigh) || (currentSensitivity == SensitivityAdmin))
     && (agt_DeviceSecurityLevel payload != SecurityLevelStrongBox)
  then Err (Errorf "envelope: device security level %s insufficient for sensitivity %s"
              [AStr (agt_DeviceSecurityLevel payload); AStr currentSensitivity]) else
  Ok (mkAccessGrantToken msg payload).

(** ** What the codec carries *)

Definition binding_text (b : ScopeBinding) : list string :=
  match bind_HTTPRequest b with
  | None => []
  | Some h => [hrb_ProtectedNodeID h; hrb_SrcNodeID h; hrb_Method h;
               hrb_NormalizedAuthority h; hrb_PathPolicyID h; hrb_HTTPVersion h]
  end.
Definition binding_ok (b : ScopeBinding) : Prop := forallb text_ok (binding_text b) = true.

Definition resource_text (r : ResourceID) : list string :=
  [res_ProtectedNodeID r; res_ServiceID r; res_Transport r; res_DeploymentMode r].

Definition rp_ok (p : RequestPayload) : Prop :=
  forallb is_int64 [rp_Ver p; rp_PolicyVersion p; res_Port (rp_Resource p)] = true /\
  forallb time_rfc3339 [rp_IssuedAt p; rp_ExpiresAt p] = true /\
  forallb text_ok ([rp_TailnetID p; ini_SrcNodeID (rp_Initiating p);
    ini_SrcNodeDisplay (rp_Initiating p); ini_RequestingIP (rp_Initiating p);
    ini_PostureVersion (rp_Initiating p); dl_Name (rp_ResourceDisplay p);
    dl_SourceHint (rp_ResourceDisplay p); rp_Protocol p; rp_SSHAccount p; rp_RuleID p;
    rp_ScopeRequested p] ++ resource_text (rp_Resource p) ++ binding_text (rp_Binding p)) = true.

Definition agt_ok (p : AGTPayload) : Prop :=
  forallb is_int64 [agt_Ver p; agt_SrcNodeKeyEpoch p; agt_PolicyVersion p; agt_AuthzEpoch p;
    res_Port (agt_Resource p)] = true /\
  forallb time_rfc3339 [agt_IssuedAt p; agt_NotBefore p; agt_ExpiresAt p] = true /\
  forallb text_ok ([agt_TailnetID p; oidc_Issuer (agt_Subject p); oidc_Subject (agt_Subject p);
    oidc_UserID (agt_Subject p); agt_SrcNodeID p; agt_ApprovalKeyID p;
    agt_DeviceSecurityLevel p; agt_ProtectedNodeID p; agt_Protocol p; agt_DeploymentMode p;
    agt_Scope p; agt_RuleID p] ++ resource_text (agt_Resource p)
    ++ binding_text (agt_Binding p)) = true.

(** What comes back: RFC 3339 times have second precision. *)
Definition rp_norm (p : RequestPayload) : RequestPayload :=
  rp_set p (rp_Ver p) (time_TruncateSecond (rp_IssuedAt p))
    (time_TruncateSecond (rp_ExpiresAt p)) (rp_DisplayDigest p).
Definition agt_norm (p : AGTPayload) : AGTPayload :=
  agt_set p (agt_Ver p) (time_TruncateSecond (agt_IssuedAt p))
    (time_TruncateSecond (agt_NotBefore p)) (time_TruncateSecond (agt_ExpiresAt p)).

Class EnvelopeLaws : Prop := {
  env_cose :: CoseLaws;
  env_binding :: CborLaws ScopeBinding id binding_ok;
  env_request :: CborLaws RequestPayload rp_norm rp_ok;
  env_agt :: CborLaws AGTPayload agt_norm agt_ok
}.

(** ** Lemmas *)

Lemma byte_zero_or a b : byte_or a b = x00 <-> a = x00 /\ b = x00.
Proof.
  split.
  - intros E. apply (f_equal Z_of_byte) in E. rewrite Z_of_byte_or in E.
    change (Z_of_byte x00) with 0 in E. apply Z.lor_eq_0_iff in E as [E1 E2].
    split; apply (inj Z_of_byte); done.
  - by intros [-> ->].
Qed.

Lemma byte_zero_xor a b : byte_xor a b = x00 <-> a = b.
Proof.
  split.
  - intros E. apply (f_equal Z_of_byte) in E. rewrite Z_of_byte_xor in E.
    by apply Z.lxor_eq, (inj Z_of_byte) in E.
  - intros ->. unfold byte_xor. by rewrite Z.lxor_nilpotent.
Qed.

Lemma subtleXORBytes_loop_zero d a b :
  length a = length b -> subtleXORBytes_loop d a b = x00 <-> d = x00 /\ a = b.
Proof.
  revert d b. induction a as [|x a IH]; intros d [|y b] El; try discriminate El; cbn.
  - naive_solver.
  - rewrite IH, byte_zero_or, byte_zero_xor by (by injection El). naive_solver.
Qed.

(** The constant-time comparison decides equality. *)
Lemma hmacEqual_eq a b : hmacEqual a b = true <-> a = b.
Proof.
  unfold hmacEqual, subtleXORBytes. rewrite andb_true_iff, Nat.eqb_eq, eqb_true. split.
  - intros [El E]. by apply subtleXORBytes_loop_zero in E as [_ ?].
  - intros ->. split; [done|]. by apply subtleXORBytes_loop_zero.
Qed.

Lemma display_fields_norm p : display_fields (rp_norm p) = display_fields p.
Proof. unfold display_fields. cbn. by rewrite !TruncateSecond_idem. Qed.

Lemma ComputeDisplayDigest_norm p : ComputeDisplayDigest (rp_norm p) = ComputeDisplayDigest p.
Proof. unfold ComputeDisplayDigest. by rewrite display_fields_norm. Qed.

(** The payload a prepared request carries. *)
Definition rp_prepared (now : Time) (p : RequestPayload) : RequestPayload :=
  let issued := if time_IsZero (rp_IssuedAt p) then now else rp_IssuedAt p in
  let expires := if time_IsZero (rp_ExpiresAt p) then issued + 60 * Second else rp_ExpiresAt p in
  let q := rp_set p 2 issued expires (rp_DisplayDigest p) in
  rp_set q 2 issued expires (ComputeDisplayDigest q).

Lemma PrepareRequestPayload_eq now p :
  PrepareRequestPayload now p =
  (b ← wrap "envelope: marshal request payload: %w" [] (EncodeCanonical (rp_prepared now p));
   Ok (rp_prepared now p, b)).
Proof. done. Qed.

Lemma rp_prepared_digest now p :
  rp_DisplayDigest (rp_prepared now p) = ComputeDisplayDigest (rp_prepared now p).
Proof. done. Qed.

(** What acceptance of a request envelope means. *)
Lemma VerifyRequestEnvelope_Ok now1 now2 raw root dev tenant env :
  VerifyRequestEnvelope now1 now2 raw root dev tenant = Ok env <->
  exists msg payload,
    env = mkRequestEnvelope (Some msg) payload /\
    DeserializeSign1 raw = Ok msg /\
    Verify1 msg root = Ok (sm_Payload msg, sm_Protected msg) /\
    hd_Type (sm_Protected msg) = "dnivio-req-v2" /\
    DecodeCanonical (sm_Payload msg) = Ok payload /\
    rp_AudienceDeviceID payload = dev /\ rp_TenantID payload = tenant /\
    now1 <= rp_ExpiresAt payload + 5 * Second /\
    rp_IssuedAt payload <= now2 + 5 * Second /\
    rp_DisplayDigest payload = ComputeDisplayDigest payload.
Proof.
  unfold VerifyRequestEnvelope, time_After, time_Before. split.
  - intros E. apply bind_Ok in E as (msg & Em & E). apply bind_Ok in E as ([pb h] & Ev & E).
    go_ok. apply Verify1_Ok in Ev as Ev'. destruct Ev' as ([= -> ->] & _).
    go_bool. rewrite hmacEqual_eq in *. eexists _, _. by split_and!.
  - intros (msg & p & -> & -> & Ev & Ht & Hd & <- & <- & Tx & Ti & Hdg). cbn.
    rewrite Ev. cbn. rewrite Ht, Hd, eqb_refl. cbn. rewrite !eqb_refl. cbn.
    rewrite (proj2 (Z.ltb_ge _ _)), (proj2 (Z.ltb_ge _ _)) by done.
    by rewrite (proj2 (hmacEqual_eq _ _)).
Qed.

Lemma VerifyAccessGrantToken_Ok now raw root epoch version sens t :
  VerifyAccessGrantToken now raw root epoch version sens = Ok t <->
  exists msg payload,
    t = mkAccessGrantToken msg payload /\
    DeserializeSign1 raw = Ok msg /\
    Verify1 msg root = Ok (sm_Payload msg, sm_Protected msg) /\
    hd_Type (sm_Protected msg) = "dnivio-agt-v2" /\
    DecodeCanonical (sm_Payload msg) = Ok payload /\
    agt_NotBefore payload <= now <= agt_ExpiresAt payload /\
    version <= agt_PolicyVersion payload /\ agt_AuthzEpoch payload = epoch /\
    (sens = SensitivityHigh \/ sens = SensitivityAdmin ->
     agt_DeviceSecurityLevel payload = SecurityLevelStrongBox).
Proof.
  unfold VerifyAccessGrantToken, time_After, time_Before. split.
  - intros E. apply bind_Ok in E as (msg & Em & E). apply bind_Ok in E as ([pb h] & Ev & E).
    go_ok. apply Verify1_Ok in Ev as Ev'. destruct Ev' as ([= -> ->] & _).
    rewrite ?andb_false_iff, ?orb_false_iff in *. go_bool.
    eexists _, _. split_and!; [done..|]. naive_solver.
  - intros (msg & p & -> & -> & Ev & Ht & Hd & [Tn Tx] & Hv & <- & Hs). cbn.
    rewrite Ev. cbn. rewrite Ht, Hd, eqb_refl. cbn. rewrite !eqb_refl. cbn.
    rewrite !(proj2 (Z.ltb_ge _ _)) by done.
    destruct (sens == SensitivityHigh) eqn:E1, (sens == SensitivityAdmin) eqn:E2;
      go_bool; cbn; try done; rewrite Hs by tauto; done.
Qed.

End Envelope.
