(* ===== verification/Reference.v ===== *)
(** * Reference: concrete instances of the packages that are parameters

    The development is proved for every CBOR codec, signature scheme, hash and
    UUID text form with the documented laws.  This file gives one executable
    instance of each, so that the laws are seen to be satisfiable and the
    theorems can be run on concrete inputs: a tag-free self-delimiting codec, a
    transparent signature scheme, a polynomial hash and plain hexadecimal UUIDs.
    None of them is a model of the real package. *)

From stdpp Require Import base gmap strings list.
From Stdlib Require Import ZArith Lia Ascii Strings.Byte.
From S2P Require Import Prelude Identity Cose Envelope.

Open Scope Z_scope.

(** ** Self-delimiting serialisation *)

Class Ser (A : Type) : Type := {
  ser : A -> bytes;
  de : bytes -> option (A * bytes);
  de_ser : forall a r, de (ser a ++ r) = Some (a, r)
}.

Definition ser_bool (b : bool) : bytes := [if b then x01 else x00].
Definition de_bool (l : bytes) : option (bool * bytes) :=
  match l with x01 :: r => Some (true, r) | x00 :: r => Some (false, r) | _ => None end.
Lemma de_ser_bool b r : de_bool (ser_bool b ++ r) = Some (b, r).
Proof. by destruct b. Qed.
#[export] Instance Ser_bool : Ser bool := {| ser := ser_bool; de := de_bool; de_ser := de_ser_bool |}.

Fixpoint ser_pos (p : positive) : bytes :=
  match p with xI q => x01 :: ser_pos q | xO q => x02 :: ser_pos q | xH => [x03] end.
Fixpoint de_pos (l : bytes) : option (positive * bytes) :=
  match l with
  | x01 :: r => match de_pos r with Some (q, t) => Some (xI q, t) | None => None end
  | x02 :: r => match de_pos r with Some (q, t) => Some (xO q, t) | None => None end
  | x03 :: r => Some (xH, r)
  | _ => None
  end.
Lemma de_ser_pos p r : de_pos (ser_pos p ++ r) = Some (p, r).
Proof. induction p as [p IH|p IH|]; cbn; [by rewrite IH..|done]. Qed.

Definition ser_Z (z : Z) : bytes :=
  match z with Z0 => [x00] | Zpos p => x01 :: ser_pos p | Zneg p => x02 :: ser_pos p end.
Definition de_Z (l : bytes) : option (Z * bytes) :=
  match l with
  | x00 :: r => Some (0, r)
  | x01 :: r => match de_pos r with Some (p, t) => Some (Zpos p, t) | None => None end
  | x02 :: r => match de_pos r with Some (p, t) => Some (Zneg p, t) | None => None end
  | _ => None
  end.
Lemma de_ser_Z z r : de_Z (ser_Z z ++ r) = Some (z, r).
Proof. destruct z; cbn; [done|by rewrite de_ser_pos..]. Qed.
#[export] Instance Ser_Z : Ser Z := {| ser := ser_Z; de := de_Z; de_ser := de_ser_Z |}.

Fixpoint ser_bytes (b : bytes) : bytes :=
  match b with [] => [x00] | x :: r => x01 :: x :: ser_bytes r end.
Fixpoint de_bytes (l : bytes) : option (bytes * bytes) :=
  match l with
  | x00 :: r => Some ([], r)
  | x01 :: x :: r => match de_bytes r with Some (b, t) => Some (x :: b, t) | None => None end
  | _ => None
  end.
Lemma de_ser_bytes b r : de_bytes (ser_bytes b ++ r) = Some (b, r).
Proof. induction b as [|x b IH]; cbn; [done|by rewrite IH]. Qed.
#[export] Instance Ser_bytes : Ser bytes :=
  {| ser := ser_bytes; de := de_bytes; de_ser := de_ser_bytes |}.

Definition ser_option {A} `{Ser A} (o : option A) : bytes :=
  match o with None => [x00] | Some a => x01 :: ser a end.
Definition de_option {A} `{Ser A} (l : bytes) : option (option A * bytes) :=
  match l with
  | x00 :: r => Some (None, r)
  | x01 :: r => match de r with Some (a, t) => Some (Some a, t) | None => None end
  | _ => None
  end.
Lemma de_ser_option {A} `{Ser A} (o : option A) r : de_option (ser_option o ++ r) = Some (o, r).
Proof. destruct o; cbn; [by rewrite de_ser|done]. Qed.
#[export] Instance Ser_option A `{Ser A} : Ser (option A) :=
  {| ser := ser_option; de := de_option; de_ser := de_ser_option |}.

Definition ser_prod {A B} `{Ser A} `{Ser B} (p : A * B) : bytes := ser p.1 ++ ser p.2.
Definition de_prod {A B} `{Ser A} `{Ser B} (l : bytes) : option (A * B * bytes) :=
  match de l with
  | Some (a, r) => match de r with Some (b, t) => Some ((a, b), t) | None => None end
  | None => None
  end.
Lemma de_ser_prod {A B} `{Ser A} `{Ser B} (p : A * B) r : de_prod (ser_prod p ++ r) = Some (p, r).
Proof. destruct p. unfold ser_prod, de_prod. cbn. by rewrite <- app_assoc, !de_ser. Qed.
#[export] Instance Ser_prod A B `{Ser A} `{Ser B} : Ser (A * B) :=
  {| ser := ser_prod; de := de_prod; de_ser := de_ser_prod |}.

(** Serialisation through a type that already has one. *)
Program Definition Ser_via {A B} `{Ser B} (f : A -> B) (g : B -> option A)
    (gf : forall a, g (f a) = Some a) : Ser A := {|
  ser a := ser (f a);
  de l := match de l with
          | Some (b, r) => match g b with Some a => Some (a, r) | None => None end
          | None => None
          end
|}.
Next Obligation. intros A B ? f g gf a r. cbn. by rewrite de_ser, gf. Qed.

#[export] Instance Ser_string : Ser string :=
  Ser_via str_bytes (fun b => Some (String.string_of_list_byte b))
    (fun s => f_equal Some (String.string_of_list_byte_of_string s)).

#[export] Instance Ser_UUID : Ser UUID := Ser_via uuid_bytes uuid_from uuid_from_bytes.

(** ** A codec from a serialisation *)

Definition Cbor_via {A B} `{Ser B} (f : A -> B) (g : B -> A) : Cbor A := {|
  marshal a := Ok (ser (f a));
  unmarshal b := match de b with Some (x, []) => Ok (g x) | _ => Err (Errorf "cbor: decode" []) end
|}.

Lemma Cbor_via_laws {A B} `{Ser B} (f : A -> B) (g : B -> A) (norm : A -> A) (P : A -> Prop) :
  (forall a, P a -> g (f a) = norm a) -> @CborLaws A (Cbor_via f g) norm P.
Proof.
  intros Hgf. split; cbn.
  - eauto.
  - intros v b Hv [= <-]. pose proof (de_ser (f v) []) as E. rewrite app_nil_r in E.
    by rewrite E, Hgf.
Qed.

#[export] Instance ref_CborInit : CborInit := {| encModeErr := None; decModeErr := None |}.

#[export] Instance ref_Headers : Cbor Headers :=
  Cbor_via (fun h => (hd_Algorithm h, hd_KeyID h, hd_Type h))
           (fun '(a, k, t) => mkHeaders a k t).
#[export] Instance ref_sigStructure : Cbor sigStructure :=
  Cbor_via (fun s => (ss_Context s, ss_Protected s, ss_ExternalAAD s, ss_Payload s))
           (fun '(c, p, x, y) => mkSigStructure c p x y).
#[export] Instance ref_Sign1Message : Cbor Sign1Message :=
  Cbor_via (fun m => (hd_Algorithm (sm_Protected m), hd_KeyID (sm_Protected m),
                      hd_Type (sm_Protected m), sm_Payload m, sm_Signature m))
           (fun '(a, k, t, p, s) => mkSign1Message (mkHeaders a k t) ∅ p s).

(** ** Crypto and UUID text *)

Definition ref_hash (b : bytes) : bytes :=
  be_bytes 32 (fold_left (fun h x => (h * 257 + Z_of_byte x + 1) mod (2 ^ 256 - 189)) b 1).

#[export] Program Instance ref_GoCrypto : GoCrypto := {|
  sha256 := ref_hash;
  ed_sign priv msg := drop 32 priv ++ msg;
  ed_verify pub msg sig := bool_decide (sig = pub ++ msg)
|}.
Next Obligation. intros b. apply length_be_bytes. Qed.
Next Obligation. intros priv msg _. by apply bool_decide_eq_true. Qed.

Fixpoint unhex (s : string) : option bytes :=
  match s with
  | "" => Some []
  | String a (String b r) =>
      match unhex r with
      | Some l => Some (byte_of_Z (hex_val a * 16 + hex_val b) :: l)
      | None => None
      end
  | _ => None
  end.

Lemma unhex_hex l : unhex (hex l) = Some l.
Proof.
  induction l as [|b l IH]; [done|]. cbn [hex unhex]. rewrite IH. do 2 f_equal.
  pose proof (Z_of_byte_bound b).
  change 15 with (Z.ones 4). rewrite Z.land_ones, Z.shiftr_div_pow2 by lia. change (2 ^ 4) with 16.
  rewrite !hex_val_digit
    by (try apply Z.mod_pos_bound; try split; try apply Z.div_pos; try apply Z.div_lt_upper_bound; lia).
  rewrite <- (byte_of_Z_of_byte b) at 3. f_equal.
  rewrite (Z.div_mod (Z_of_byte b) 16) at 3 by done. lia.
Qed.

#[export] Program Instance ref_UuidText : UuidText := {|
  uuid_String u := hex (uuid_bytes u);
  uuid_Parse s := match unhex s with Some l => uuid_from l | None => None end
|}.
Next Obligation. intros u. cbn. by rewrite unhex_hex, uuid_from_bytes. Qed.

(** ** The codec at the payload types *)

#[export] Program Instance Ser_OIDCIdentity : Ser OIDCIdentity :=
  Ser_via (fun x => (oidc_Issuer x, oidc_Subject x, oidc_UserID x))
          (fun '(a, b, c) => Some (mkOIDCIdentity a b c)) _.
Next Obligation. by intros []. Qed.

#[export] Program Instance Ser_ResourceID : Ser ResourceID :=
  Ser_via (fun x => (res_TenantID x, res_ProtectedNodeID x, res_ServiceID x, res_Port x,
                     res_Transport x, res_DeploymentMode x))
          (fun '(a, b, c, d, e, f) => Some (mkResourceID a b c d e f)) _.
Next Obligation. by intros []. Qed.

#[export] Program Instance Ser_HTTPRequestBinding : Ser HTTPRequestBinding :=
  Ser_via (fun x => (hrb_ProtectedNodeID x, hrb_SrcNodeID x, hrb_Method x,
                     hrb_NormalizedAuthority x, hrb_PathPolicyID x, hrb_HTTPVersion x,
                     hrb_RequestNonce x))
          (fun '(a, b, c, d, e, f, g) => Some (mkHTTPRequestBinding a b c d e f g)) _.
Next Obligation. by intros []. Qed.

#[export] Program Instance Ser_ScopeBinding : Ser ScopeBinding :=
  Ser_via (fun x => (bind_HTTPRequest x, cb_ConnectionID <$> bind_Connection x,
                     sb_SessionID <$> bind_Session x))
          (fun '(a, b, c) => Some (mkScopeBinding a (mkConnectionBinding <$> b)
                                     (mkSessionBinding <$> c))) _.
Next Obligation. by intros [? [[]|] [[]|]]. Qed.

#[export] Program Instance Ser_InitiatingInfo : Ser InitiatingInfo :=
  Ser_via (fun x => (ini_SrcNodeID x, ini_SrcNodeDisplay x, ini_SrcNodeVerified x,
                     ini_RequestingIP x, ini_PostureVersion x))
          (fun '(a, b, c, d, e) => Some (mkInitiatingInfo a b c d e)) _.
Next Obligation. by intros []. Qed.

#[export] Instance ref_ScopeBinding : Cbor ScopeBinding := Cbor_via id id.

#[export] Instance ref_RequestPayload : Cbor RequestPayload :=
  Cbor_via
    (fun p => (rp_Ver p, rp_RequestID p, rp_TenantID p, rp_TailnetID p,
       time_TruncateSecond (rp_IssuedAt p), time_TruncateSecond (rp_ExpiresAt p),
       rp_AudienceDeviceID p, rp_Initiating p, rp_Resource p,
       (dl_Name (rp_ResourceDisplay p), dl_SourceHint (rp_ResourceDisplay p)),
       rp_Protocol p, rp_SSHAccount p, rp_PolicyVersion p, rp_RuleID p, rp_ScopeRequested p,
       rp_Binding p, rp_Challenge p, rp_DisplayDigest p))
    (fun '(a, b, c, d, e, f, g, h, i, (n, m), k, l, o, q, r, s, t, u) =>
       mkRequestPayload a b c d e f g h i (mkDisplayLabel n m) k l o q r s t u).

#[export] Instance ref_AGTPayload : Cbor AGTPayload :=
  Cbor_via
    (fun p => (agt_Ver p, agt_JTI p, agt_TenantID p, agt_TailnetID p, agt_Subject p,
       agt_SrcNodeID p, agt_SrcNodeKeyEpoch p, agt_ApproverDeviceID p, agt_ApprovalKeyID p,
       agt_DeviceSecurityLevel p, agt_ProtectedNodeID p, agt_Resource p, agt_Protocol p,
       agt_DeploymentMode p, agt_Scope p, agt_Binding p, agt_PolicyVersion p, agt_RuleID p,
       agt_AuthzEpoch p, time_TruncateSecond (agt_IssuedAt p),
       time_TruncateSecond (agt_NotBefore p), time_TruncateSecond (agt_ExpiresAt p)))
    (fun '(a, b, c, d, e, f, g, h, i, j, k, l, m, n, o, p, q, r, s, t, u, v) =>
       mkAGTPayload a b c d e f g h i j k l m n o p q r s t u v).

#[export] Instance ref_CoseLaws : CoseLaws.
Proof.
  split; [done|done|apply Cbor_via_laws..].
  - by intros [].
  - by intros [].
  - by intros [[] u ? ?] [_ [= ->]].
Qed.

#[export] Instance ref_EnvelopeLaws : EnvelopeLaws.
Proof.
  split; [apply _|apply Cbor_via_laws..].
  - done.
  - by intros [? ? ? ? ? ? ? ? ? [] ? ? ? ? ? ? ? ?].
  - by intros [].
Qed.

(** ** Sample data for running the model *)

(** A key pair of the reference scheme: 64 bytes whose second half is public. *)
Definition sample_priv (n : Z) : bytes := be_bytes 64 n.
Definition sample_pub (n : Z) : bytes := ed25519_Public (sample_priv n).

(** 2026-06-19 00:00:00 UTC, plus a fraction of a second. *)
Definition sample_now : Time := 1781827200 * Second + 250000000.

Definition sample_binding : ScopeBinding :=
  mkScopeBinding (Some (mkHTTPRequestBinding "node-7" "node-1" "GET" "db.internal" "p1" "1.1"
    [x0a; x0b])) None None.

Definition sample_resource : ResourceID :=
  mkResourceID (uuid_of_Z 1) "node-7" "web-app" 443 TransportTCP ModeHTTPProxy.

Definition sample_request : RequestPayload :=
  mkRequestPayload 0 (uuid_of_Z 10) (uuid_of_Z 1) "tailnet-a" time_zero time_zero (uuid_of_Z 5)
    (mkInitiatingInfo "node-1" "node-1" true "100.64.0.1" "NONE") sample_resource
    (mkDisplayLabel "Billing DB" "") "HTTPS" "" 5 "rule-1" ScopeRequest sample_binding
    [x01; x02] [].

Definition sample_agt : AGTPayload :=
  mkAGTPayload 2 (uuid_of_Z 100) (uuid_of_Z 1) "tailnet-a" (mkOIDCIdentity "idp" "sub" "u-1")
    "node-1" 3 (uuid_of_Z 5) "approval_auth" SecurityLevelStrongBox "node-7" sample_resource
    "HTTPS" ModeHTTPProxy ScopeRequest sample_binding 5 "rule-1" 3
    sample_now sample_now (sample_now + 30 * Second).
