(* ===== verification/EnvelopeProps.v ===== *)
(** * EnvelopeProps: what the signed envelopes guarantee

    Round trips of requests, approval responses and access grant tokens through
    signing, serialisation and verification; what each verification implies; the
    fields an approval signature binds; the grant lifetime caps; and the low-S
    test of the COSE package. *)

From stdpp Require Import base gmap strings list pretty.
From Stdlib Require Import ZArith Lia Strings.Byte.
From S2P Require Import Prelude Identity Cose Envelope Reference.

Open Scope Z_scope.
Open Scope go_scope.

Section Props.
Context `{UuidText} `{CborInit} `{GoCrypto}.
Context `{Cbor Headers} `{Cbor sigStructure} `{Cbor Sign1Message}.
Context `{Cbor ScopeBinding} `{Cbor RequestPayload} `{Cbor AGTPayload}.

Lemma Sign1_payload priv kid typ payload msg :
  Sign1 priv kid typ payload None = Ok msg ->
  sm_Payload msg = payload /\ sm_Protected msg = mkHeaders AlgorithmEdDSA kid typ.
Proof. by intros (_ & _ & tbs & _ & ->)%Sign1_Ok. Qed.

(** C33.  A request envelope that [NewRequestEnvelope] signs and the service
    sends is accepted by [VerifyRequestEnvelope] on the device it is addressed
    to, for the right tenant, while it is fresh (within five seconds of skew on
    either side).  The device sees the payload that was signed, with its times
    cut to whole seconds; the display digest still matches because it is computed
    on whole seconds. *)
Theorem request_envelope_roundtrip now now1 now2 priv kid p :
  EnvelopeLaws -> length priv = 64%nat -> text_ok kid = true ->
  rp_ok (rp_prepared now p) ->
  now1 <= time_TruncateSecond (rp_ExpiresAt (rp_prepared now p)) + 5 * Second ->
  time_TruncateSecond (rp_IssuedAt (rp_prepared now p)) <= now2 + 5 * Second ->
  exists msg raw,
    NewRequestEnvelope now priv kid p = Ok (mkRequestEnvelope (Some msg) (rp_prepared now p)) /\
    SerializeSign1 msg = Ok raw /\
    VerifyRequestEnvelope now1 now2 raw (ed25519_Public priv)
        (rp_AudienceDeviceID p) (rp_TenantID p)
      = Ok (mkRequestEnvelope (Some msg) (rp_norm (rp_prepared now p))).
Proof.
  intros Laws El Hk Hok Hx Hi. set (q := rp_prepared now p) in *.
  destruct (marshal_total q Hok) as [pb Hpb].
  destruct (Sign1_wire_Verify1 priv kid "dnivio-req-v2" pb) as (msg & raw & Hs & Hr & Hd & Hv);
    [done..|].
  pose proof (Sign1_payload _ _ _ _ _ Hs) as [Hp Hh].
  exists msg, raw. split_and!.
  - unfold NewRequestEnvelope. rewrite PrepareRequestPayload_eq. fold q.
    unfold EncodeCanonical. rewrite cose_encInit, Hpb. cbn. by rewrite Hs.
  - done.
  - apply VerifyRequestEnvelope_Ok. exists msg, (rp_norm q).
    rewrite Hp, Hh. split_and!; try done.
    + unfold DecodeCanonical. rewrite cose_decInit. by eapply unmarshal_marshal.
    + by rewrite ComputeDisplayDigest_norm.
Qed.

(** C15.  Whatever bytes [VerifyRequestEnvelope] accepts carry a signature that
    the trust root verifies over exactly the payload and headers it returns, are
    of the request type, name the expected device and tenant, are within the
    freshness window at both clock readings, and show the user fields whose
    digest is the one that was signed. *)
Theorem request_envelope_sound now1 now2 raw root dev tenant env :
  VerifyRequestEnvelope now1 now2 raw root dev tenant = Ok env ->
  exists msg tbs,
    re_Message env = Some msg /\
    to_be_signed (sm_Protected msg) (sm_Payload msg) = Ok tbs /\
    ed_verify root tbs (sm_Signature msg) = true /\
    sm_Protected msg = mkHeaders AlgorithmEdDSA (hd_KeyID (sm_Protected msg)) "dnivio-req-v2" /\
    DecodeCanonical (sm_Payload msg) = Ok (re_Payload env) /\
    rp_AudienceDeviceID (re_Payload env) = dev /\ rp_TenantID (re_Payload env) = tenant /\
    now1 <= rp_ExpiresAt (re_Payload env) + 5 * Second /\
    rp_IssuedAt (re_Payload env) - 5 * Second <= now2 /\
    rp_DisplayDigest (re_Payload env) = ComputeDisplayDigest (re_Payload env).
Proof.
  intros (msg & p & -> & _ & Hv & Ht & Hd & Hdev & Hten & Hx & Hi & Hg)%VerifyRequestEnvelope_Ok.
  apply Verify1_Ok in Hv as (_ & Ha & _ & tbs & Htbs & [_ He]%ed25519_Verify_true).
  exists msg, tbs. cbn. split_and!; try done; [|lia].
  destruct (sm_Protected msg) as [a k t]. cbn in *. by subst.
Qed.

(** An approval response signed by [SignApprovalResponse] passes
    [VerifyApprovalResponse] under the public half of the signing key. *)
Theorem approval_response_roundtrip now priv resp :
  length priv = 64%nat ->
  exists signed,
    SignApprovalResponse now priv resp = Ok signed /\
    ar_SignedAt signed = now /\ ar_Decision signed = ar_Decision resp /\
    ar_DeviceCounter signed = ar_DeviceCounter resp /\
    VerifyApprovalResponse signed (ed25519_Public priv) = Ok tt.
Proof.
  intros El. unfold SignApprovalResponse. rewrite ed25519_Sign_ok by done. cbn.
  eexists. split_and!; [done..|]. unfold VerifyApprovalResponse. cbn.
  rewrite (proj2 (ed25519_Verify_true _ _ _)); [done|]. split.
  - unfold ed25519_Public. by rewrite length_drop, El.
  - by apply ed_verify_sign.
Qed.

(** The signed bytes of an approval response determine every field they
    are built from (request hash, decision, device, key id, signing time,
    counter, channel binding and nonce), for responses in the protocol's format:
    32-byte request hashes, one of the two decisions, key ids of one length and
    channel bindings of one length. *)
Theorem approval_signature_binds r1 r2 :
  length (ar_RequestHash r1) = 32%nat -> length (ar_RequestHash r2) = 32%nat ->
  ar_Decision r1 = DecisionApprove \/ ar_Decision r1 = DecisionDeny ->
  ar_Decision r2 = DecisionApprove \/ ar_Decision r2 = DecisionDeny ->
  length (str_bytes (ar_KeyID r1)) = length (str_bytes (ar_KeyID r2)) ->
  length (ar_ChannelBinding r1) = length (ar_ChannelBinding r2) ->
  time_ok (ar_SignedAt r1) = true -> time_ok (ar_SignedAt r2) = true ->
  is_int64 (ar_DeviceCounter r1) = true -> is_int64 (ar_DeviceCounter r2) = true ->
  approval_toSign r1 = approval_toSign r2 ->
  ar_RequestHash r1 = ar_RequestHash r2 /\ ar_Decision r1 = ar_Decision r2 /\
  ar_DeviceID r1 = ar_DeviceID r2 /\ ar_KeyID r1 = ar_KeyID r2 /\
  ar_SignedAt r1 = ar_SignedAt r2 /\ ar_DeviceCounter r1 = ar_DeviceCounter r2 /\
  ar_ChannelBinding r1 = ar_ChannelBinding r2 /\ ar_ResponseNonce r1 = ar_ResponseNonce r2.
Proof.
  intros Hh1 Hh2 Hd1 Hd2 Hk Hc Ht1 Ht2 Hn1 Hn2 E. unfold approval_toSign in E.
  apply app_inj_length in E as [Eh E]; [|congruence].
  assert (Ed : ar_Decision r1 = ar_Decision r2)
    by (destruct Hd1 as [Hd1|Hd1], Hd2 as [Hd2|Hd2]; rewrite Hd1, Hd2 in *; done).
  rewrite Ed in E. apply app_inj_length in E as [_ E]; [|done].
  apply app_inj_length in E as [Ev E]; [|by rewrite !length_uuid_bytes].
  apply app_inj_length in E as [Ek E]; [|done].
  apply app_inj_length in E as [Et E]; [|done].
  apply app_inj_length in E as [En E]; [|done].
  apply app_inj_length in E as [Ec Er]; [|done].
  apply UUID_eq in Ev. apply (inj str_bytes) in Ek.
  apply time_MarshalBinary_inj in Et; [|done..].
  apply be_bytes_int64_inj in En; [|done..]. done.
Qed.

(** The display digest separates fields only by concatenation: moving
    bytes from the end of the tailnet id to the front of the source node id
    changes what the user is shown and leaves the digest alone. *)
Theorem display_digest_not_separated p q (a b c : string) :
  rp_TailnetID p = (a +:+ b)%string -> ini_SrcNodeID (rp_Initiating p) = c ->
  rp_TailnetID q = a -> ini_SrcNodeID (rp_Initiating q) = (b +:+ c)%string ->
  drop 3 (display_fields p) = drop 3 (display_fields q) ->
  rp_TenantID p = rp_TenantID q -> rp_Binding p = rp_Binding q ->
  ComputeDisplayDigest p = ComputeDisplayDigest q.
Proof.
  intros Ht Hs Ht' Hs' Hf Hten Hb. unfold ComputeDisplayDigest. rewrite Hb. do 2 f_equal.
  rewrite <- (take_drop 3 (display_fields p)), <- (take_drop 3 (display_fields q)), Hf.
  rewrite !map_app, !concat_app. f_equal. unfold display_fields.
  rewrite Ht, Hs, Ht', Hs', Hten. cbn [app take map concat].
  rewrite !str_bytes_app, <- !app_assoc. done.
Qed.

(** A signed access grant token survives the wire: what
    [NewAccessGrantToken] signs, [VerifyAccessGrantToken] accepts under the
    public half of the key, inside its validity interval, at its own authorization
    epoch, for any policy version not newer than its own, and for every
    sensitivity when the approver device is a StrongBox device; the daemon gets
    the payload with its times cut to whole seconds. *)
Theorem access_grant_token_roundtrip now now' priv kid p version sens :
  EnvelopeLaws -> length priv = 64%nat -> text_ok kid = true ->
  let q := agt_set p 2 (if time_IsZero (agt_IssuedAt p) then now else agt_IssuedAt p)
             (if time_IsZero (agt_NotBefore p) then now else agt_NotBefore p)
             (agt_ExpiresAt p) in
  agt_ok q ->
  time_TruncateSecond (agt_NotBefore q) <= now' <= time_TruncateSecond (agt_ExpiresAt q) ->
  version <= agt_PolicyVersion p ->
  agt_DeviceSecurityLevel p = SecurityLevelStrongBox ->
  exists msg raw,
    NewAccessGrantToken now priv kid p = Ok (mkAccessGrantToken msg q) /\
    SerializeSign1 msg = Ok raw /\
    VerifyAccessGrantToken now' raw (ed25519_Public priv) (agt_AuthzEpoch p) version sens
      = Ok (mkAccessGrantToken msg (agt_norm q)).
Proof.
  intros Laws El Hk q Hok Hw Hver Hsec.
  destruct (marshal_total q Hok) as [pb Hpb].
  destruct (Sign1_wire_Verify1 priv kid "dnivio-agt-v2" pb) as (msg & raw & Hs & Hr & Hd & Hv);
    [done..|].
  pose proof (Sign1_payload _ _ _ _ _ Hs) as [Hp Hh].
  exists msg, raw. split_and!.
  - unfold NewAccessGrantToken, PrepareAGTPayload. fold q.
    unfold EncodeCanonical. rewrite cose_encInit, Hpb. cbn. by rewrite Hs.
  - done.
  - apply VerifyAccessGrantToken_Ok. exists msg, (agt_norm q).
    rewrite Hp, Hh. split_and!; try done.
    + unfold DecodeCanonical. rewrite cose_decInit. by eapply unmarshal_marshal.
    + apply Hw.
    + apply Hw.
Qed.

(** C6.  Acceptance of an access grant token means all of the acceptance
    checks: a signature the trust root verifies over exactly the accepted payload
    under a token header, the validity interval, no older policy version, the
    current authorization epoch, and a StrongBox device for HIGH and ADMIN
    resources. *)
Theorem access_grant_token_sound now raw root epoch version sens t :
  VerifyAccessGrantToken now raw root epoch version sens = Ok t ->
  exists tbs,
    to_be_signed (mkHeaders AlgorithmEdDSA (hd_KeyID (sm_Protected (at_Message t)))
                    "dnivio-agt-v2") (sm_Payload (at_Message t)) = Ok tbs /\
    ed_verify root tbs (sm_Signature (at_Message t)) = true /\
    DecodeCanonical (sm_Payload (at_Message t)) = Ok (at_Payload t) /\
    agt_NotBefore (at_Payload t) <= now <= agt_ExpiresAt (at_Payload t) /\
    version <= agt_PolicyVersion (at_Payload t) /\ agt_AuthzEpoch (at_Payload t) = epoch /\
    (sens = SensitivityHigh \/ sens = SensitivityAdmin ->
     agt_DeviceSecurityLevel (at_Payload t) = SecurityLevelStrongBox).
Proof.
  intros (msg & p & -> & _ & Hv & Ht & Hd & Hw & Hver & He & Hs)%VerifyAccessGrantToken_Ok.
  apply Verify1_Ok in Hv as (_ & Ha & _ & tbs & Htbs & [_ Hsig]%ed25519_Verify_true).
  exists tbs. cbn. split_and!; try done; [|apply Hw..].
  rewrite <- Htbs. f_equal. destruct (sm_Protected msg) as [a k t]. cbn in *. by subst.
Qed.

(** The grant lifetime caps: no scope and sensitivity give more than
    eight hours; a stricter sensitivity never gives a longer lifetime; a DURATION
    grant on an ADMIN resource gets none; and the four scopes on the three
    sensitivities have the documented values. *)
Theorem max_grant_ttl_caps scope sens :
  0 <= MaxGrantTTL scope sens <= 8 * Hour /\
  MaxGrantTTL scope SensitivityAdmin <= MaxGrantTTL scope SensitivityHigh
    <= MaxGrantTTL scope SensitivityStandard /\
  MaxGrantTTL ScopeDuration SensitivityAdmin = 0 /\
  (scope <> ScopeRequest -> scope <> ScopeConnection -> scope <> ScopeDuration ->
   scope <> ScopeSession -> MaxGrantTTL scope sens = 0).
Proof.
  unfold MaxGrantTTL.
  destruct (scope == ScopeRequest) eqn:E1, (scope == ScopeConnection) eqn:E2,
    (scope == ScopeDuration) eqn:E3, (scope == ScopeSession) eqn:E4; go_bool; cbn;
    repeat case_match; unfold Hour, Minute, Second; split_and!; first [lia|congruence|done].
Qed.

End Props.

(** The low-S test compares against half of the order of another curve:
    there is a P-256 signature value above half the P-256 order, and so
    malleable, that [IsLowS] accepts; its low counterpart is accepted as well. *)
Theorem low_s_accepts_malleable :
  exists s s',
    p256_order / 2 < be_Z s < p256_order /\ be_Z s' = p256_order - be_Z s /\
    IsLowS (der_signature x44 (be_bytes 32 7) s []) = true /\
    IsLowS (der_signature x44 (be_bytes 32 7) s' []) = true.
Proof.
  exists (be_bytes 32 (p256_order / 2 + 1)), (be_bytes 32 (p256_order - (p256_order / 2 + 1))).
  vm_compute. repeat split.
Qed.

(** ** Witnesses: the theorems at concrete inputs, under the reference codec *)

Lemma request_envelope_roundtrip_witness :
  exists msg raw,
    NewRequestEnvelope sample_now (sample_priv 9) "k1" sample_request
      = Ok (mkRequestEnvelope (Some msg) (rp_prepared sample_now sample_request)) /\
    SerializeSign1 msg = Ok raw /\
    VerifyRequestEnvelope (sample_now + Second) (sample_now + Second) raw (sample_pub 9)
        (uuid_of_Z 5) (uuid_of_Z 1)
      = Ok (mkRequestEnvelope (Some msg) (rp_norm (rp_prepared sample_now sample_request))).
Proof.
  apply (request_envelope_roundtrip sample_now (sample_now + Second) (sample_now + Second)
           (sample_priv 9) "k1" sample_request).
  - apply _.
  - reflexivity.
  - reflexivity.
  - vm_compute. repeat split.
  - vm_compute. discriminate.
  - vm_compute. discriminate.
Defined.

(** The bytes of an envelope addressed to device 5 of tenant 1. *)
Definition sample_wire : bytes :=
  match NewRequestEnvelope sample_now (sample_priv 9) "k1" sample_request with
  | Ok (mkRequestEnvelope (Some m) _) => match SerializeSign1 m with Ok b => b | _ => [] end
  | _ => []
  end.

Definition sample_verified : RequestEnvelope :=
  match VerifyRequestEnvelope sample_now sample_now sample_wire (sample_pub 9) (uuid_of_Z 5)
          (uuid_of_Z 1) with
  | Ok e => e
  | _ => mkRequestEnvelope None sample_request
  end.

Lemma request_envelope_sound_witness :
  exists msg tbs,
    re_Message sample_verified = Some msg /\
    to_be_signed (sm_Protected msg) (sm_Payload msg) = Ok tbs /\
    ed_verify (sample_pub 9) tbs (sm_Signature msg) = true /\
    rp_AudienceDeviceID (re_Payload sample_verified) = uuid_of_Z 5.
Proof.
  destruct (request_envelope_sound sample_now sample_now sample_wire (sample_pub 9) (uuid_of_Z 5)
              (uuid_of_Z 1) sample_verified) as (msg & tbs & H1 & H2 & H3 & _ & _ & H4 & _).
  - vm_compute. reflexivity.
  - exists msg, tbs. repeat split; assumption.
Defined.

Definition sample_response (decision : Decision) (counter : Z) : ApprovalResponse :=
  mkApprovalResponse (uuid_of_Z 10) decision (uuid_of_Z 5) "approval_auth" sample_now counter
    [x01; x02; x03] [x04] (be_bytes 32 77) [].

Lemma approval_response_roundtrip_witness :
  exists signed,
    SignApprovalResponse sample_now (sample_priv 9) (sample_response DecisionApprove 4) = Ok signed /\
    VerifyApprovalResponse signed (sample_pub 9) = Ok tt.
Proof.
  destruct (approval_response_roundtrip sample_now (sample_priv 9)
              (sample_response DecisionApprove 4)) as (s & H1 & _ & _ & _ & H2).
  - reflexivity.
  - exists s. split; assumption.
Defined.

Lemma approval_signature_binds_witness :
  approval_toSign (sample_response DecisionApprove 4) <>
  approval_toSign (sample_response DecisionDeny 4) /\
  approval_toSign (sample_response DecisionApprove 4) <>
  approval_toSign (sample_response DecisionApprove 5).
Proof.
  assert (W : forall r1 r2,
    In r1 [sample_response DecisionApprove 4] ->
    In r2 [sample_response DecisionDeny 4; sample_response DecisionApprove 5] ->
    approval_toSign r1 = approval_toSign r2 ->
    ar_Decision r1 = ar_Decision r2 /\ ar_DeviceCounter r1 = ar_DeviceCounter r2).
  { intros r1 r2 I1 I2 E.
    destruct (approval_signature_binds r1 r2) as (_ & Hd & _ & _ & _ & Hn & _);
      [..|exact E|exact (conj Hd Hn)];
      destruct I1 as [<-|[]], I2 as [<-|[<-|[]]]; vm_compute; auto. }
  split; intros E; apply W in E; cbn; auto; destruct E as [E1 E2]; discriminate.
Defined.

Definition sample_spoof (tailnet src : string) : RequestPayload :=
  mkRequestPayload 2 (uuid_of_Z 10) (uuid_of_Z 1) tailnet sample_now sample_now (uuid_of_Z 5)
    (mkInitiatingInfo src "laptop" true "" "") sample_resource (mkDisplayLabel "Billing DB" "")
    "HTTPS" "" 5 "rule-1" ScopeRequest sample_binding [] [].

Lemma display_digest_not_separated_witness :
  sample_spoof "tailnet-a" "node-1" <> sample_spoof "tailnet" "-anode-1" /\
  ComputeDisplayDigest (sample_spoof "tailnet-a" "node-1")
    = ComputeDisplayDigest (sample_spoof "tailnet" "-anode-1").
Proof.
  split; [discriminate|].
  apply (display_digest_not_separated _ _ "tailnet" "-a" "node-1"); reflexivity.
Defined.

Lemma access_grant_token_roundtrip_witness :
  exists msg raw,
    NewAccessGrantToken sample_now (sample_priv 9) "k1" sample_agt
      = Ok (mkAccessGrantToken msg sample_agt) /\
    SerializeSign1 msg = Ok raw /\
    VerifyAccessGrantToken (sample_now + Second) raw (sample_pub 9) 3 5 SensitivityHigh
      = Ok (mkAccessGrantToken msg (agt_norm sample_agt)).
Proof.
  apply (access_grant_token_roundtrip sample_now (sample_now + Second) (sample_priv 9) "k1"
           sample_agt 5 SensitivityHigh).
  - apply _.
  - reflexivity.
  - reflexivity.
  - vm_compute. repeat split.
  - vm_compute. split; discriminate.
  - vm_compute. discriminate.
  - reflexivity.
Defined.

Definition sample_token_wire : bytes :=
  match NewAccessGrantToken sample_now (sample_priv 9) "k1" sample_agt with
  | Ok t => match SerializeSign1 (at_Message t) with Ok b => b | _ => [] end
  | _ => []
  end.

Lemma access_grant_token_sound_witness :
  exists t tbs,
    VerifyAccessGrantToken (sample_now + Second) sample_token_wire (sample_pub 9) 3 5
      SensitivityAdmin = Ok t /\
    ed_verify (sample_pub 9) tbs (sm_Signature (at_Message t)) = true /\
    agt_DeviceSecurityLevel (at_Payload t) = SecurityLevelStrongBox.
Proof.
  destruct (VerifyAccessGrantToken (sample_now + Second) sample_token_wire (sample_pub 9) 3 5
              SensitivityAdmin) as [t| |] eqn:E; [|vm_compute in E; discriminate..].
  destruct (access_grant_token_sound _ _ _ _ _ _ _ E) as (tbs & _ & H & _ & _ & _ & _ & Hs).
  exists t, tbs. split; [reflexivity|]. split; [exact H|]. apply Hs. right. reflexivity.
Defined.
