(* ===== verification/Database.v ===== *)
(** * Database: PostgreSQL as the service sees it

    The tables of [service/migrations/001_initial_schema.up.sql] that the service
    reads or writes, three tables it uses that the migration does not create
    ([db_late], [None] on a database made by the migration alone), the transactions of [database/sql], and the stored functions
    and trigger of the migration.

    A table is a finite map from its primary key to the row's other columns.  A
    handler is a computation in the monad [M]: it runs statements on the open
    transaction or, outside one, directly on the committed tables.  As in
    PostgreSQL, a statement that fails puts its transaction in the aborted state,
    in which every later statement and the commit fail too; a query that finds no
    row is an error of the caller only.  Any statement can fail for reasons
    outside the program ([env_fault]); a lost acknowledgement means that a commit
    took effect and was reported as failed.  Clock readings, new UUIDs and random
    bytes come from the environment.

    Handlers are run one after the other: the handlers take row locks
    ([FOR UPDATE]) on the request and the device before they read the state they
    decide on, and the two sequence allocators hold a mutex. *)

From stdpp Require Import base gmap strings list fin_maps pretty.
From Stdlib Require Import ZArith Lia Strings.Byte.
From S2P Require Import Prelude Identity.

Open Scope Z_scope.
Open Scope go_scope.

(** ** Rows *)

Record user_row : Type := mkUser {
  u_tenant : UUID;
  u_oidc_issuer : string;
  u_oidc_subject : string;
  u_email : option string
}.

Record device_row : Type := mkDevice {
  d_tenant : UUID;
  d_user : UUID;
  d_device_auth_pub : bytes;
  d_approval_auth_pub : bytes;
  d_attestation : bytes;
  d_security_level : string;
  d_counter : Z;
  d_state : string;
  d_revoked_at : option Time
}.

Record node_row : Type := mkNode {
  n_tenant : UUID;
  n_ts_stable_node_id : string;
  n_tailnet_id : string;
  n_cert_serial : string;
  n_cert_state : string;
  n_node_key_epoch : Z
}.

Record resource_row : Type := mkResource {
  r_tenant : UUID;
  r_protected_node_id : UUID;
  r_service_id : string;
  r_port : Z;
  r_transport : string;
  r_deployment_mode : string;
  r_sensitivity : string;
  r_required_security_level : string;
  r_display_label : option string
}.

Record policy_row : Type := mkPolicy {
  p_epoch : Z;
  p_document : bytes;
  p_prev_hash : bytes;
  p_signature : bytes;
  p_kid : string;
  p_not_before : Time;
  p_expires_at : Time;
  p_min_daemon_version : string;
  p_issued_by : option UUID
}.

(** What a device answered, recorded by one UPDATE. *)
Record response_cols : Type := mkResponse {
  rs_decision : string;
  rs_sig : bytes;
  rs_key_id : string;
  rs_device_counter : Z;
  rs_nonce : bytes
}.

Record request_row : Type := mkRequest {
  q_tenant : UUID;
  q_user : UUID;
  q_device : option UUID;
  q_node : UUID;
  q_src_node_id : string;
  q_requesting_ip : option string;
  q_resource : UUID;
  q_protocol : string;
  q_ssh_account : option string;
  q_scope : string;
  q_binding : bytes;
  q_challenge : bytes;
  q_envelope : bytes;
  q_envelope_sig : bytes;
  q_policy_version : Z;
  q_rule_id : option string;
  q_state : string;
  q_state_version : Z;
  q_response : option response_cols;
  q_poll_cap_hash : bytes;
  q_redeem_cap_hash : bytes;
  q_expires_at : Time;
  q_decided_at : option Time
}.

(** The columns that are updated after the insertion. *)
Definition q_update (state : string) (version : Z) (resp : option response_cols)
    (decided : option Time) (q : request_row) : request_row :=
  mkRequest (q_tenant q) (q_user q) (q_device q) (q_node q) (q_src_node_id q)
    (q_requesting_ip q) (q_resource q) (q_protocol q) (q_ssh_account q) (q_scope q)
    (q_binding q) (q_challenge q) (q_envelope q) (q_envelope_sig q) (q_policy_version q)
    (q_rule_id q) state version resp (q_poll_cap_hash q) (q_redeem_cap_hash q)
    (q_expires_at q) decided.

Record grant_row : Type := mkGrant {
  g_request : UUID;
  g_user : UUID;
  g_src_node_id : string;
  g_src_node_key_epoch : Z;
  g_device : UUID;
  g_node : UUID;
  g_resource : UUID;
  g_protocol : string;
  g_scope : string;
  g_binding : bytes;
  g_policy_version : Z;
  g_authz_epoch : Z;
  g_device_security_level : string;
  g_agt_bytes : bytes;
  g_kid : string;
  g_iat : Time;
  g_nbf : Time;
  g_expires_at : Time;
  g_consumed_at : option Time
}.

Definition g_consume (t : Time) (g : grant_row) : grant_row :=
  mkGrant (g_request g) (g_user g) (g_src_node_id g) (g_src_node_key_epoch g) (g_device g)
    (g_node g) (g_resource g) (g_protocol g) (g_scope g) (g_binding g) (g_policy_version g)
    (g_authz_epoch g) (g_device_security_level g) (g_agt_bytes g) (g_kid g) (g_iat g) (g_nbf g)
    (g_expires_at g) (Some t).

Record session_row : Type := mkSession {
  s_tenant : UUID;
  s_grant_jti : UUID;
  s_device : UUID;
  s_node : UUID;
  s_session_id : option string;
  s_connection_id : option string;
  s_closed_at : option Time
}.

Record revocation_row : Type := mkRevocation {
  v_kind : string;
  v_target : string;
  v_created_at : Time
}.

Record outbox_row : Type := mkOutbox {
  o_message_id : UUID;
  o_payload : bytes;
  o_acked_at : option Time;
  o_created_at : Time
}.

Record cursor_row : Type := mkCursor {
  c_last_acked_seq : Z;
  c_lease_owner : option UUID;
  c_lease_fence : Z;
  c_lease_expires_at : option Time
}.

Record head_row : Type := mkHead { h_last_seq : Z; h_last_hash : bytes }.

(** The detail columns [InsertTx] fills in after the insertion. *)
Record audit_detail : Type := mkDetail {
  a_producer_seq : option Z;
  a_user : option UUID;
  a_device : option UUID;
  a_src_node_id : option string;
  a_node : option UUID;
  a_resource : option UUID;
  a_protocol : option string;
  a_result : option string;
  a_request : option UUID;
  a_rule_id : option string;
  a_policy_version : option Z;
  a_correlation : option UUID;
  a_producer_signature : bytes
}.

Definition no_detail : audit_detail :=
  mkDetail None None None None None None None None None None None None [].

Record audit_row : Type := mkAudit {
  a_event_type : string;
  a_producer : string;
  a_payload : option bytes;
  a_detail : audit_detail;
  a_prev_hash : bytes;
  a_row_hash : bytes
}.

(** [user_roles], [enrollment_tickets] and [bootstrap_tokens]: queried by the
    code, created by no migration of the repository.  Their keys and columns are
    those the statements name; [used] starts as false. *)
Record ticket_row : Type := mkTicketRow {
  k_tenant : UUID;
  k_user : UUID;
  k_issuer : string;
  k_subject : string;
  k_challenge : bytes;
  k_expires_at : Time;
  k_used : bool
}.

Record token_row : Type := mkTokenRow {
  b_tenant : UUID;
  b_tailnet_id : string;
  b_ts_stable_node_id : string;
  b_expires_at : Time;
  b_issued_by : UUID;
  b_used : bool
}.

Record late_tables : Type := mkLate {
  lt_user_roles : gmap (UUID * UUID * string) UUID;
  lt_tickets : gmap bytes ticket_row;
  lt_tokens : gmap bytes token_row
}.

Record Db : Type := mkDb {
  db_tenants : gset UUID;
  db_users : gmap UUID user_row;
  db_devices : gmap UUID device_row;
  db_nodes : gmap UUID node_row;
  db_resources : gmap UUID resource_row;
  db_policies : gmap (UUID * Z) policy_row;
  db_requests : gmap UUID request_row;
  db_grants : gmap (UUID * UUID) grant_row;
  db_sessions : gmap UUID session_row;
  db_revocations : gmap (UUID * Z) revocation_row;
  db_outbox : gmap (UUID * string * Z) outbox_row;
  db_inbox : gmap (UUID * string * UUID) Time;
  db_cursors : gmap (UUID * string) cursor_row;
  db_heads : gmap UUID head_row;
  db_events : gmap (UUID * Z) audit_row;
  db_late : option late_tables
}.

Definition set_devices (x : gmap UUID device_row) (d : Db) : Db :=
  mkDb (db_tenants d) (db_users d) x (db_nodes d) (db_resources d) (db_policies d)
    (db_requests d) (db_grants d) (db_sessions d) (db_revocations d) (db_outbox d) (db_inbox d)
    (db_cursors d) (db_heads d) (db_events d) (db_late d).
Definition set_nodes (x : gmap UUID node_row) (d : Db) : Db :=
  mkDb (db_tenants d) (db_users d) (db_devices d) x (db_resources d) (db_policies d)
    (db_requests d) (db_grants d) (db_sessions d) (db_revocations d) (db_outbox d) (db_inbox d)
    (db_cursors d) (db_heads d) (db_events d) (db_late d).
Definition set_policies (x : gmap (UUID * Z) policy_row) (d : Db) : Db :=
  mkDb (db_tenants d) (db_users d) (db_devices d) (db_nodes d) (db_resources d) x
    (db_requests d) (db_grants d) (db_sessions d) (db_revocations d) (db_outbox d) (db_inbox d)
    (db_cursors d) (db_heads d) (db_events d) (db_late d).
Definition set_requests (x : gmap UUID request_row) (d : Db) : Db :=
  mkDb (db_tenants d) (db_users d) (db_devices d) (db_nodes d) (db_resources d) (db_policies d)
    x (db_grants d) (db_sessions d) (db_revocations d) (db_outbox d) (db_inbox d) (db_cursors d)
    (db_heads d) (db_events d) (db_late d).
Definition set_grants (x : gmap (UUID * UUID) grant_row) (d : Db) : Db :=
  mkDb (db_tenants d) (db_users d) (db_devices d) (db_nodes d) (db_resources d) (db_policies d)
    (db_requests d) x (db_sessions d) (db_revocations d) (db_outbox d) (db_inbox d)
    (db_cursors d) (db_heads d) (db_events d) (db_late d).
Definition set_sessions (x : gmap UUID session_row) (d : Db) : Db :=
  mkDb (db_tenants d) (db_users d) (db_devices d) (db_nodes d) (db_resources d) (db_policies d)
    (db_requests d) (db_grants d) x (db_revocations d) (db_outbox d) (db_inbox d) (db_cursors d)
    (db_heads d) (db_events d) (db_late d).
Definition set_revocations (x : gmap (UUID * Z) revocation_row) (d : Db) : Db :=
  mkDb (db_tenants d) (db_users d) (db_devices d) (db_nodes d) (db_resources d) (db_policies d)
    (db_requests d) (db_grants d) (db_sessions d) x (db_outbox d) (db_inbox d) (db_cursors d)
    (db_heads d) (db_events d) (db_late d).
Definition set_outbox (x : gmap (UUID * string * Z) outbox_row) (d : Db) : Db :=
  mkDb (db_tenants d) (db_users d) (db_devices d) (db_nodes d) (db_resources d) (db_policies d)
    (db_requests d) (db_grants d) (db_sessions d) (db_revocations d) x (db_inbox d)
    (db_cursors d) (db_heads d) (db_events d) (db_late d).
Definition set_inbox (x : gmap (UUID * string * UUID) Time) (d : Db) : Db :=
  mkDb (db_tenants d) (db_users d) (db_devices d) (db_nodes d) (db_resources d) (db_policies d)
    (db_requests d) (db_grants d) (db_sessions d) (db_revocations d) (db_outbox d) x
    (db_cursors d) (db_heads d) (db_events d) (db_late d).
Definition set_cursors (x : gmap (UUID * string) cursor_row) (d : Db) : Db :=
  mkDb (db_tenants d) (db_users d) (db_devices d) (db_nodes d) (db_resources d) (db_policies d)
    (db_requests d) (db_grants d) (db_sessions d) (db_revocations d) (db_outbox d) (db_inbox d)
    x (db_heads d) (db_events d) (db_late d).
Definition set_heads (x : gmap UUID head_row) (d : Db) : Db :=
  mkDb (db_tenants d) (db_users d) (db_devices d) (db_nodes d) (db_resources d) (db_policies d)
    (db_requests d) (db_grants d) (db_sessions d) (db_revocations d) (db_outbox d) (db_inbox d)
    (db_cursors d) x (db_events d) (db_late d).
Definition set_events (x : gmap (UUID * Z) audit_row) (d : Db) : Db :=
  mkDb (db_tenants d) (db_users d) (db_devices d) (db_nodes d) (db_resources d) (db_policies d)
    (db_requests d) (db_grants d) (db_sessions d) (db_revocations d) (db_outbox d) (db_inbox d)
    (db_cursors d) (db_heads d) x (db_late d).
Definition set_late (x : option late_tables) (d : Db) : Db :=
  mkDb (db_tenants d) (db_users d) (db_devices d) (db_nodes d) (db_resources d) (db_policies d)
    (db_requests d) (db_grants d) (db_sessions d) (db_revocations d) (db_outbox d) (db_inbox d)
    (db_cursors d) (db_heads d) (db_events d) x.

(** ** The database server and its driver *)

(** What the service relies on from PostgreSQL and its Go driver.  [jsonb_in]
    is the input function of type [jsonb] followed by what a query reads back;
    [binding_in] is that of the [binding] columns, which the migration declares
    [jsonb] under the comment that they hold CBOR. *)
Class Postgres : Type := {
  jsonb_in : bytes -> option bytes;
  binding_in : bytes -> option bytes;
  inet_ok : string -> bool;
  timestamptz_in : Time -> Time;
  nil_bytes_null : bool;
  aggregate_for_update : bool;
  epoch_text : Time -> bytes;
  text_bytea : string -> bytes;
  uuid_in : string -> option UUID
}.

Inductive fault : Type := NoFault | Fails | AckLost.

(** The environment of one handler run: its n-th statement's fate, its n-th
    readings of the service's and the server's clocks, its n-th new UUID and
    its n-th random buffer. *)
Record Env : Type := mkEnv {
  env_fault : nat -> fault;
  env_now : nat -> Time;
  env_dbnow : nat -> Time;
  env_uuid : nat -> UUID;
  env_rand : nat -> option bytes
}.

Record txn : Type := mkTxn { t_db : Db; t_aborted : bool; t_now : Time }.

Record World : Type := mkWorld {
  w_db : Db;
  w_tx : option txn;
  w_stmt : nat;
  w_clock : nat;
  w_ids : nat;
  w_rand : nat
}.

Definition new_world (d : Db) : World := mkWorld d None 0 0 0 0.

Definition M (A : Type) : Type := Env -> World -> outcome A * World.

#[export] Instance M_ret : MRet M := fun A a env w => (Ok a, w).
#[export] Instance M_bind : MBind M := fun A B f m env w =>
  match m env w with
  | (Ok a, w') => f a env w'
  | (Err e, w') => (Err e, w')
  | (Panic, w') => (Panic, w')
  end.

(** Run one handler from the committed tables. *)
Definition run {A} (m : M A) (env : Env) (d : Db) : outcome A * Db :=
  let '(r, w) := m env (new_world d) in (r, w_db w).

Definition lift {A} (c : outcome A) : M A := fun env w => (c, w).

(** [if err != nil { return ..., fmt.Errorf(format, err) }] *)
Definition mwrap {A} (format : string) (args : list arg) (m : M A) : M A := fun env w =>
  let '(r, w') := m env w in (wrap format args r, w').

(** The error of a call as a value, for code that inspects or drops it. *)
Definition try {A} (m : M A) : M (outcome A) := fun env w =>
  match m env w with
  | (Panic, w') => (Panic, w')
  | (r, w') => (Ok r, w')
  end.

(** A call statement that ignores the results, the error included. *)
Definition ignore {A} (m : M A) : M unit := r ← try m; mret tt.

Definition time_Now : M Time := fun env w =>
  (Ok (env_now env (w_clock w)),
   mkWorld (w_db w) (w_tx w) (w_stmt w) (S (w_clock w)) (w_ids w) (w_rand w)).

(** [uuid.New()] and [uuid.Must(uuid.NewV7())] *)
Definition uuid_New : M UUID := fun env w =>
  (Ok (env_uuid env (w_ids w)),
   mkWorld (w_db w) (w_tx w) (w_stmt w) (w_clock w) (S (w_ids w)) (w_rand w)).

Definition rand_Read : M (option bytes) := fun env w =>
  (Ok (env_rand env (w_rand w)),
   mkWorld (w_db w) (w_tx w) (w_stmt w) (w_clock w) (w_ids w) (S (w_rand w))).

(** ** Statements and transactions *)

(** A statement sees [now()] and the tables; it fails or gives a result and new
    tables. *)
Definition stmt (A : Type) : Type := Time -> Db -> error + (A * Db).
Definition query (A : Type) : Type := Time -> Db -> option A.

Definition after_stmt (w : World) (d : Db) (tx : option txn) : World :=
  mkWorld d tx (S (w_stmt w)) (w_clock w) (w_ids w) (w_rand w).

Definition ErrServer : error := Errorf "driver: statement failed" [].
Definition ErrAborted : error := Errorf "current transaction is aborted" [].
Definition ErrTxDone : error := Errorf "sql: transaction has already been committed or rolled back" [].
Definition ErrNoRows : error := Errorf "sql: no rows in result set" [].
Definition ErrNoTable : error := Errorf "pq: relation does not exist" [].

Definition BeginTx : M unit := fun env w =>
  match env_fault env (w_stmt w) with
  | NoFault => (Ok tt, after_stmt w (w_db w)
                         (Some (mkTxn (w_db w) false (env_dbnow env (w_stmt w)))))
  | _ => (Err ErrServer, after_stmt w (w_db w) (w_tx w))
  end.

Definition kill (t : txn) : txn := mkTxn (t_db t) true (t_now t).

(** [tx.ExecContext], and [tx.QueryRowContext] of a statement that writes.  With
    a nil [*sql.Tx] the method dereferences nil. *)
Definition tx_exec {A} (f : stmt A) : M A := fun env w =>
  match w_tx w with
  | None => (Panic, w)
  | Some t =>
      if t_aborted t then (Err ErrAborted, after_stmt w (w_db w) (Some t)) else
      match env_fault env (w_stmt w) with
      | NoFault =>
          match f (t_now t) (t_db t) with
          | inr (a, d') => (Ok a, after_stmt w (w_db w) (Some (mkTxn d' false (t_now t))))
          | inl e => (Err e, after_stmt w (w_db w) (Some (kill t)))
          end
      | _ => (Err ErrServer, after_stmt w (w_db w) (Some (kill t)))
      end
  end.

(** [tx.QueryRowContext(...).Scan(...)] of a SELECT *)
Definition tx_query {A} (f : query A) : M A :=
  r ← tx_exec (fun now d => inr (f now d, d));
  match r with Some a => mret a | None => lift (Err ErrNoRows) end.

(** The same on [*sql.DB]: a transaction of its own, on another connection. *)
Definition db_exec {A} (f : stmt A) : M A := fun env w =>
  match env_fault env (w_stmt w) with
  | Fails => (Err ErrServer, after_stmt w (w_db w) (w_tx w))
  | ft =>
      match f (env_dbnow env (w_stmt w)) (w_db w) with
      | inr (a, d') => (if ft is NoFault then Ok a else Err ErrServer, after_stmt w d' (w_tx w))
      | inl e => (Err e, after_stmt w (w_db w) (w_tx w))
      end
  end.

Definition db_query {A} (f : query A) : M A :=
  r ← db_exec (fun now d => inr (f now d, d));
  match r with Some a => mret a | None => lift (Err ErrNoRows) end.

Definition Commit : M unit := fun env w =>
  match w_tx w with
  | None => (Err ErrTxDone, w)
  | Some t =>
      if t_aborted t then (Err ErrAborted, after_stmt w (w_db w) None) else
      match env_fault env (w_stmt w) with
      | NoFault => (Ok tt, after_stmt w (t_db t) None)
      | AckLost => (Err ErrServer, after_stmt w (t_db t) None)
      | Fails => (Err ErrServer, after_stmt w (w_db w) None)
      end
  end.

(** [defer tx.Rollback()] around the rest of the function. *)
Definition defer_rollback {A} (m : M A) : M A := fun env w =>
  let '(r, w') := m env w in
  (r, mkWorld (w_db w') None (w_stmt w') (w_clock w') (w_ids w') (w_rand w')).

(** ** Reasoning about handlers *)

(** [wp m Q]: the run of [m] from this environment and world ends in [Q]. *)
Definition wp {A} (m : M A) (Q : outcome A -> World -> Prop) (env : Env) (w : World) : Prop :=
  Q (m env w).1 (m env w).2.

(** The open transaction has working tables [d]; [b] says it is aborted. *)
Definition in_tx (base : Db) (now : Time) (d : Db) (b : bool) (w : World) : Prop :=
  w_db w = base /\ w_tx w = Some (mkTxn d b now).

Lemma wp_mono {A} (m : M A) (P Q : outcome A -> World -> Prop) env w :
  wp m P env w -> (forall r w', P r w' -> Q r w') -> wp m Q env w.
Proof. unfold wp. auto. Qed.

Lemma wp_run {A} (m : M A) (Q : outcome A -> Db -> Prop) env d :
  wp m (fun r w => Q r (w_db w)) env (new_world d) -> Q (run m env d).1 (run m env d).2.
Proof. unfold wp, run. by destruct (m env (new_world d)). Qed.

Lemma wp_ret {A} (a : A) Q env w : Q (Ok a) w -> wp (mret a) Q env w.
Proof. done. Qed.

Lemma wp_lift {A} (c : outcome A) Q env w : Q c w -> wp (lift c) Q env w.
Proof. done. Qed.

Lemma wp_bind {A B} (f : A -> M B) (m : M A) Q env w :
  wp m (fun r w' => match r with
                    | Ok a => wp (f a) Q env w'
                    | Err e => Q (Err e) w'
                    | Panic => Q Panic w'
                    end) env w ->
  wp (m ≫= f) Q env w.
Proof. unfold wp, mbind, M_bind. by destruct (m env w) as [[] ?]. Qed.

Lemma wp_mwrap {A} fmt args (m : M A) Q env w :
  wp m (fun r => Q (wrap fmt args r)) env w -> wp (mwrap fmt args m) Q env w.
Proof. unfold wp, mwrap. by destruct (m env w). Qed.

Lemma wp_try {A} (m : M A) Q env w :
  wp m (fun r w' => match r with Panic => Q Panic w' | _ => Q (Ok r) w' end) env w ->
  wp (try m) Q env w.
Proof. unfold wp, try. by destruct (m env w) as [[] ?]. Qed.

Lemma wp_ignore {A} (m : M A) Q env w :
  wp m (fun r w' => match r with Panic => Q Panic w' | _ => Q (Ok tt) w' end) env w ->
  wp (ignore m) Q env w.
Proof.
  intros H. apply wp_bind, wp_try. eapply wp_mono; [exact H|]. by intros [] w'.
Qed.

Lemma wp_defer_rollback {A} (m : M A) Q env w :
  wp m (fun r w' => Q r (mkWorld (w_db w') None (w_stmt w') (w_clock w') (w_ids w') (w_rand w')))
    env w ->
  wp (defer_rollback m) Q env w.
Proof. unfold wp, defer_rollback. by destruct (m env w). Qed.

(** Reading the clock, the UUID generator or the random source leaves the
    database alone. *)
Lemma wp_time_Now Q env w :
  (forall t w', w_db w' = w_db w -> w_tx w' = w_tx w -> Q (Ok t) w') -> wp time_Now Q env w.
Proof. intros HQ. unfold wp. cbn. by apply HQ. Qed.

Lemma wp_uuid_New Q env w :
  (forall u w', w_db w' = w_db w -> w_tx w' = w_tx w -> Q (Ok u) w') -> wp uuid_New Q env w.
Proof. intros HQ. unfold wp. cbn. by apply HQ. Qed.

Lemma wp_rand_Read Q env w :
  (forall r w', w_db w' = w_db w -> w_tx w' = w_tx w -> Q (Ok r) w') -> wp rand_Read Q env w.
Proof. intros HQ. unfold wp. cbn. by apply HQ. Qed.

Lemma wp_BeginTx Q env w base :
  w_db w = base ->
  (forall now w', in_tx base now base false w' -> Q (Ok tt) w') ->
  (forall e w', w_db w' = base -> Q (Err e) w') ->
  wp BeginTx Q env w.
Proof.
  intros Hb HO HE. unfold wp, BeginTx.
  destruct (env_fault env (w_stmt w)); cbn; [eapply HO|by apply HE..].
  by split; cbn; rewrite Hb.
Qed.

Lemma wp_tx_exec {A} (f : stmt A) Q env w base now d b :
  in_tx base now d b w ->
  (forall a d' w', b = false -> f now d = inr (a, d') -> in_tx base now d' false w' -> Q (Ok a) w') ->
  (forall e w', in_tx base now d true w' -> Q (Err e) w') ->
  wp (tx_exec f) Q env w.
Proof.
  intros [Hb Ht] HO HE. unfold wp, tx_exec. rewrite Ht. cbn.
  destruct b; [by apply HE|].
  destruct (env_fault env (w_stmt w)); [|by apply HE..].
  destruct (f now d) as [e|[a d']] eqn:E; cbn; [by apply HE|by eapply HO].
Qed.

Lemma wp_tx_query {A} (f : query A) Q env w base now d b :
  in_tx base now d b w ->
  (forall a w', b = false -> f now d = Some a -> in_tx base now d false w' -> Q (Ok a) w') ->
  (forall e b' w', in_tx base now d b' w' -> Q (Err e) w') ->
  wp (tx_query f) Q env w.
Proof.
  intros Hi HO HE. apply wp_bind. eapply wp_tx_exec; [done| |].
  - intros [a|] d' w' Hb [= E <-] Hw; [by apply wp_ret, HO|by eapply wp_lift, HE].
  - intros e w' Hw. by eapply HE.
Qed.

Lemma wp_db_query {A} (f : query A) Q env w :
  (forall now a w', f now (w_db w) = Some a -> w_db w' = w_db w -> w_tx w' = w_tx w -> Q (Ok a) w') ->
  (forall e w', w_db w' = w_db w -> w_tx w' = w_tx w -> Q (Err e) w') ->
  wp (db_query f) Q env w.
Proof.
  intros HO HE. apply wp_bind. unfold wp at 1, db_exec.
  destruct (env_fault env (w_stmt w)); cbn; [|by apply HE..].
  destruct (f _ _) eqn:E; [by eapply wp_ret, HO|by apply wp_lift, HE].
Qed.

Lemma wp_db_exec {A} (f : stmt A) Q env w :
  (forall now a d' w', f now (w_db w) = inr (a, d') -> w_db w' = d' -> w_tx w' = w_tx w -> Q (Ok a) w') ->
  (forall now a d' e w', f now (w_db w) = inr (a, d') -> w_db w' = d' -> w_tx w' = w_tx w ->
     Q (Err e) w') ->
  (forall e w', w_db w' = w_db w -> w_tx w' = w_tx w -> Q (Err e) w') ->
  wp (db_exec f) Q env w.
Proof.
  intros HO HL HE. unfold wp, db_exec.
  destruct (env_fault env (w_stmt w)); cbn; [|by apply HE|];
    destruct (f _ _) as [e|[a d']] eqn:E; cbn;
    first [by eapply HO|by eapply HL|by apply HE].
Qed.

Lemma wp_Commit Q env w base now d b :
  in_tx base now d b w ->
  (forall w', b = false -> w_db w' = d -> w_tx w' = None -> Q (Ok tt) w') ->
  (forall e w', w_db w' = base \/ b = false /\ w_db w' = d -> w_tx w' = None -> Q (Err e) w') ->
  wp Commit Q env w.
Proof.
  intros [Hb Ht] HO HE. unfold wp, Commit. rewrite Ht. cbn.
  destruct b; [apply HE; cbn; auto|].
  destruct (env_fault env (w_stmt w)); cbn;
    first [by apply HO|by apply HE; cbn; auto].
Qed.

(** A computation that can only move the open transaction: the committed tables
    stay, whatever happens. *)
Lemma in_tx_same base now d b w w' :
  in_tx base now d b w -> w_db w' = w_db w -> w_tx w' = w_tx w -> in_tx base now d b w'.
Proof. unfold in_tx. by intros [-> ->] -> ->. Qed.

(** [wp_go] runs the structural part of a handler up to its next primitive. *)
Ltac wp_go :=
  cbn [fst snd wrap];
  repeat (
    lazymatch goal with
    | |- wp (mbind _ _) _ _ _ => apply wp_bind
    | |- wp (mwrap _ _ _) _ _ _ => apply wp_mwrap
    | |- wp (defer_rollback _) _ _ _ => apply wp_defer_rollback
    | |- wp (mret _) _ _ _ => apply wp_ret
    | |- wp (lift _) _ _ _ => apply wp_lift
    end; cbn [fst snd wrap]).

(** [wp_start] turns a goal about the result and the tables of a run into one
    about [wp]. *)
Ltac wp_start :=
  cbv zeta;
  match goal with |- context [run ?m ?env ?d] =>
    pattern (run m env d).1, (run m env d).2; apply wp_run
  end.
