(* ===== verification/Schema.v ===== *)
(** * Schema: the stored functions and the trigger of the migration

    [service/migrations/001_initial_schema.up.sql]: the approval state machine
    ([transition_approval_request]), the single-use CAS ([consume_grant]), the
    anti-clone counter ([advance_device_counter]), the audit allocator
    ([insert_audit_event]) and the grant lifetime trigger
    ([validate_grant_ttl]). *)

From stdpp Require Import base gmap strings list fin_maps pretty.
From Stdlib Require Import ZArith Lia Strings.Byte.
From S2P Require Import Prelude Identity Cose Envelope Database.

Open Scope Z_scope.
Open Scope go_scope.

(** ** Reading a table *)

(** [WHERE tenant_id = $1 AND id = $2], on tables keyed by [id]. *)
Definition select_request (tenant id : UUID) (d : Db) : option request_row :=
  q ← db_requests d !! id; if q_tenant q == tenant then Some q else None.
Definition select_device (tenant id : UUID) (d : Db) : option device_row :=
  v ← db_devices d !! id; if d_tenant v == tenant then Some v else None.
Definition select_user (tenant id : UUID) (d : Db) : option user_row :=
  u ← db_users d !! id; if u_tenant u == tenant then Some u else None.
Definition select_node (tenant id : UUID) (d : Db) : option node_row :=
  n ← db_nodes d !! id; if n_tenant n == tenant then Some n else None.
Definition select_resource (tenant id : UUID) (d : Db) : option resource_row :=
  r ← db_resources d !! id; if r_tenant r == tenant then Some r else None.

(** [SELECT MAX(x)]: NULL on no rows. *)
Fixpoint sql_max (l : list Z) : option Z :=
  match l with
  | [] => None
  | x :: r => Some (match sql_max r with None => x | Some m => Z.max x m end)
  end.

(** [COALESCE(x, dflt)] *)
Definition coalesce {A} (dflt : A) (o : option A) : A := match o with Some a => a | None => dflt end.

Definition is_some {A} (o : option A) : bool := match o with Some _ => true | None => false end.

Lemma sql_max_spec l :
  match sql_max l with
  | None => l = []
  | Some m => m ∈ l /\ forall x, x ∈ l -> x <= m
  end.
Proof.
  induction l as [|x l IH]; [done|]. cbn. destruct (sql_max l) as [m|] eqn:E.
  - destruct IH as [Hm Hl]. split.
    + destruct (Z.max_spec x m) as [[_ ->]|[_ ->]]; set_solver.
    + intros y [->|Hy]%elem_of_cons; [lia|]. apply Hl in Hy. lia.
  - subst l. split; [set_solver|]. intros y Hy. apply list_elem_of_singleton in Hy. lia.
Qed.

Lemma coalesce_sql_max_ge l x dflt : x ∈ l -> x <= coalesce dflt (sql_max l).
Proof.
  intros Hx. pose proof (sql_max_spec l) as H. destruct (sql_max l) as [m|]; cbn.
  - by apply H.
  - subst l. by apply elem_of_nil in Hx.
Qed.

(** ** The approval state machine *)

(** The transitions [transition_approval_request] accepts. *)
Definition valid_transition (current new : string) : bool :=
  if (current == "PENDING") &&
     ((new == "APPROVED") || (new == "DENIED") || (new == "EXPIRED") || (new == "CANCELLED"))
  then true
  else if (current == "APPROVED") && (new == "GRANTED") then true
  else false.

Definition transition_approval_request (tenant id : UUID) (new_state : string)
    (expected_version : Z) : stmt bool := fun now d =>
  match select_request tenant id d with
  | None => inl (Errorf "Request not found" [])
  | Some q =>
      if q_state_version q != expected_version
      then inl (Errorf "State version conflict: expected %, got %"
                  [AInt expected_version; AInt (q_state_version q)]) else
      if negb (valid_transition (q_state q) new_state)
      then inl (Errorf "Invalid state transition: % -> %" [AStr (q_state q); AStr new_state]) else
      let decided := if (new_state == "APPROVED") || (new_state == "DENIED") ||
                        (new_state == "EXPIRED") || (new_state == "CANCELLED")
                     then Some now else q_decided_at q in
      inr (true, set_requests
             (<[id := q_update new_state (q_state_version q + 1) (q_response q) decided q]>
                (db_requests d)) d)
  end.

(** ** Single use of grants *)

Definition consume_grant (tenant jti : UUID) (p_now : Time) : stmt bool := fun now d =>
  match db_grants d !! (tenant, jti) with
  | None => inr (false, d)
  | Some g =>
      if is_some (g_consumed_at g) then inr (false, d) else
      if g_expires_at g <? p_now then inr (false, d) else
      inr (true, set_grants (<[(tenant, jti) := g_consume p_now g]> (db_grants d)) d)
  end.

(** ** The device counter *)

Definition d_set_counter (c : Z) (v : device_row) : device_row :=
  mkDevice (d_tenant v) (d_user v) (d_device_auth_pub v) (d_approval_auth_pub v)
    (d_attestation v) (d_security_level v) c (d_state v) (d_revoked_at v).

Definition advance_device_counter (tenant device : UUID) (received : Z) : stmt bool := fun now d =>
  match select_device tenant device d with
  | Some v =>
      if d_counter v <? received
      then inr (true, set_devices (<[device := d_set_counter received v]> (db_devices d)) d)
      else inr (false, d)
  | None => inr (false, d)
  end.

(** ** The grant lifetime trigger *)

(** [v_max_seconds]; the resource's sensitivity is NULL when it has no row. *)
Definition ttl_max_seconds (scope : string) (sensitivity : option string) : Z :=
  if scope == "REQUEST" then 30
  else if scope == "CONNECTION" then 120
  else if scope == "DURATION" then
    match sensitivity with
    | Some s => if s == "STANDARD" then 900 else if s == "HIGH" then 300
                else if s == "ADMIN" then 0 else 0
    | None => 0
    end
  else if scope == "SESSION" then
    match sensitivity with
    | Some s => if s == "STANDARD" then 28800 else if s == "HIGH" then 3600
                else if s == "ADMIN" then 1800 else 0
    | None => 0
    end
  else 0.

Definition validate_grant_ttl (tenant : UUID) (g : grant_row) (d : Db) : option error :=
  let sensitivity := r_sensitivity <$> select_resource tenant (g_resource g) d in
  let v_max := ttl_max_seconds (g_scope g) sensitivity in
  if v_max =? 0 then Some (Errorf "DURATION scope prohibited for ADMIN sensitivity" []) else
  if v_max * Second <? g_expires_at g - g_iat g
  then Some (Errorf "Grant TTL exceeds maximum for scope % / sensitivity %"
               [AStr (g_scope g); AStr (coalesce "" sensitivity)]) else
  None.

(** ** Tenants *)

Definition add_tenant (t : UUID) (h : head_row) (d : Db) : Db :=
  mkDb ({[t]} ∪ db_tenants d) (db_users d) (db_devices d) (db_nodes d) (db_resources d) (db_policies d)
    (db_requests d) (db_grants d) (db_sessions d) (db_revocations d) (db_outbox d) (db_inbox d)
    (db_cursors d) (<[t := h]> (db_heads d)) (db_events d) (db_late d).

(** [bootstrap_tenant], with the id it generated; the name is not kept in the
    model. *)
Definition bootstrap_tenant (new : UUID) : stmt UUID := fun now d =>
  if bool_decide (new ∈ db_tenants d) || is_some (db_heads d !! new)
  then inl (Errorf "duplicate key value violates unique constraint" []) else
  inr (new, add_tenant new (mkHead 0 [x00]) d).

(** ** The audit allocator *)

Section Audit.
Context `{Postgres} `{GoCrypto}.

(** An argument bound to a [jsonb] parameter: nil is NULL. *)
Definition jsonb_arg (b : option bytes) : error + option bytes :=
  match b with
  | None => inr None
  | Some t => match jsonb_in t with
              | Some v => inr (Some v)
              | None => inl (Errorf "invalid input syntax for type json" [])
              end
  end.

Definition insert_audit_event (tenant : UUID) (event_type producer : string)
    (data : option bytes) : stmt Z := fun now d =>
  match jsonb_arg data with
  | inl e => inl e
  | inr payload =>
      let '(found, h) := match db_heads d !! tenant with
                         | Some h => (true, h)
                         | None => (false, mkHead 0 [x00])
                         end in
      if negb found && negb (bool_decide (tenant ∈ db_tenants d))
      then inl (Errorf "audit_heads violates foreign key constraint" []) else
      let new_seq := h_last_seq h + 1 in
      let row_hash := sha256 (h_last_hash h ++ be_bytes 8 new_seq ++ text_bytea event_type
                                ++ epoch_text now) in
      if is_some (db_events d !! (tenant, new_seq))
      then inl (Errorf "duplicate key value violates unique constraint audit_events_pkey" []) else
      if negb ((producer == "service") || (producer == "daemon"))
      then inl (Errorf "audit_events violates check constraint" []) else
      inr (new_seq,
           set_heads (<[tenant := mkHead new_seq row_hash]> (db_heads d))
             (set_events (<[(tenant, new_seq) :=
                mkAudit event_type producer payload no_detail (h_last_hash h) row_hash]>
                (db_events d)) d))
  end.

End Audit.
