(* ===== verification/Messaging.v ===== *)
(** * Messaging: the transactional outbox and the leased delivery stream

    [service/internal/messaging/outbox.go].  [WriteTx] appends a message to a
    consumer's stream inside the caller's transaction; [AcquireLease],
    [RenewLease] and [ReleaseLease] manage the fenced lease of a consumer;
    [FetchPending] reads the stream and [AckMessage] acknowledges with
    deduplication. *)

From stdpp Require Import base gmap strings list fin_maps sorting pretty.
From Stdlib Require Import ZArith Lia Strings.Byte.
From S2P Require Import Prelude Identity Cose Envelope Database Schema.

Open Scope Z_scope.
Open Scope go_scope.

(** ** Outbox *)

(** [OutboxMessage]; a nil payload is [None]. *)
Record OutboxMessage : Type := mkOutboxMessage {
  om_TenantID : UUID;
  om_Consumer : string;
  om_MessageID : UUID;
  om_Payload : option bytes
}.

(** The rows of one consumer's stream, with their sequence numbers. *)
Definition stream_rows (tenant : UUID) (consumer : string) (d : Db) : list (Z * outbox_row) :=
  omap (fun '((t, c, s), o) => if (t == tenant) && (c == consumer) then Some (s, o) else None)
    (map_to_list (db_outbox d)).

Definition stream_next (tenant : UUID) (consumer : string) (d : Db) : Z :=
  coalesce 0 (sql_max (map fst (stream_rows tenant consumer d))) + 1.

(** Some row of the tenant carries this message id. *)
Definition message_known (tenant mid : UUID) (d : Db) : bool :=
  existsb (fun '((t, _, _), o) => (t == tenant) && (o_message_id o == mid))
    (map_to_list (db_outbox d)).

Section Outbox.
Context `{Postgres}.

(** An argument bound to a [bytea NOT NULL] column. *)
Definition bytea_arg (b : option bytes) : error + bytes :=
  match b with
  | Some v => inr v
  | None => if nil_bytes_null then inl (Errorf "null value violates not-null constraint" [])
            else inr []
  end.

Definition insert_outbox (msg : OutboxMessage) (created : Time) : stmt unit := fun now d =>
  match bytea_arg (om_Payload msg) with
  | inl e => inl e
  | inr payload =>
      if message_known (om_TenantID msg) (om_MessageID msg) d then inr (tt, d) else
      inr (tt, set_outbox
        (<[(om_TenantID msg, om_Consumer msg, stream_next (om_TenantID msg) (om_Consumer msg) d) :=
           mkOutbox (om_MessageID msg) payload None (timestamptz_in created)]> (db_outbox d)) d)
  end.

(** [OutboxWriter.WriteTx] *)
Definition WriteTx (msg : OutboxMessage) : M unit :=
  now ← time_Now;
  tx_exec (insert_outbox msg now).

(** ** Delivery stream *)

Record ConsumerLease : Type := mkConsumerLease {
  cl_TenantID : UUID;
  cl_Consumer : string;
  cl_LeaseOwner : UUID;
  cl_LeaseFence : Z;
  cl_ExpiresAt : Time;
  cl_LastAckedSeq : Z
}.

Definition upsert_lease (tenant : UUID) (consumer : string) (owner : UUID) (expires : Time)
    : stmt (Z * Z) := fun now d =>
  let c := match db_cursors d !! (tenant, consumer) with
           | None => mkCursor 0 (Some owner) 1 (Some (timestamptz_in expires))
           | Some c => mkCursor (c_last_acked_seq c) (Some owner) (c_lease_fence c + 1)
                         (Some (timestamptz_in expires))
           end in
  inr ((c_last_acked_seq c, c_lease_fence c),
       set_cursors (<[(tenant, consumer) := c]> (db_cursors d)) d).

(** [DeliveryStream.AcquireLease] *)
Definition AcquireLease (tenant : UUID) (consumer : string) (owner : UUID) : M ConsumerLease :=
  mwrap "messaging: begin tx: %w" [] BeginTx ;;
  defer_rollback (
    t1 ← time_Now;
    '(lastAckedSeq, fence) ← mwrap "messaging: acquire lease: %w" []
      (tx_exec (upsert_lease tenant consumer owner (t1 + 15 * Second)));
    mwrap "messaging: commit lease: %w" [] Commit ;;
    t2 ← time_Now;
    mret (mkConsumerLease tenant consumer owner fence (t2 + 15 * Second) lastAckedSeq)).

Definition update_lease (tenant : UUID) (consumer : string) (fence : Z) (expires : Time)
    : stmt Z := fun now d =>
  match db_cursors d !! (tenant, consumer) with
  | Some c =>
      if (c_lease_fence c =? fence) &&
         match c_lease_expires_at c with Some e => now <? e | None => false end
      then inr (1, set_cursors (<[(tenant, consumer) :=
             mkCursor (c_last_acked_seq c) (c_lease_owner c) (c_lease_fence c)
               (Some (timestamptz_in expires))]> (db_cursors d)) d)
      else inr (0, d)
  | None => inr (0, d)
  end.

(** [DeliveryStream.RenewLease]: the lease it updates in place. *)
Definition RenewLease (lease : ConsumerLease) : M ConsumerLease :=
  t1 ← time_Now;
  rows ← mwrap "messaging: renew lease: %w" []
    (db_exec (update_lease (cl_TenantID lease) (cl_Consumer lease) (cl_LeaseFence lease)
       (t1 + 15 * Second)));
  if rows =? 0
  then lift (Err (Errorf "messaging: lease renewal failed — fence mismatch or expired" [])) else
  t2 ← time_Now;
  mret (mkConsumerLease (cl_TenantID lease) (cl_Consumer lease) (cl_LeaseOwner lease)
          (cl_LeaseFence lease) (t2 + 15 * Second) (cl_LastAckedSeq lease)).

Definition clear_lease (tenant : UUID) (consumer : string) (fence : Z) : stmt unit := fun now d =>
  match db_cursors d !! (tenant, consumer) with
  | Some c =>
      if c_lease_fence c =? fence
      then inr (tt, set_cursors (<[(tenant, consumer) :=
             mkCursor (c_last_acked_seq c) None (c_lease_fence c) None]> (db_cursors d)) d)
      else inr (tt, d)
  | None => inr (tt, d)
  end.

(** [DeliveryStream.ReleaseLease] *)
Definition ReleaseLease (lease : ConsumerLease) : M unit :=
  db_exec (clear_lease (cl_TenantID lease) (cl_Consumer lease) (cl_LeaseFence lease)).

(** [ORDER BY seq ASC] on the rows of one stream. *)
Definition seq_le (a b : Z * outbox_row) : Prop := a.1 <= b.1.
#[export] Instance seq_le_dec : RelDecision seq_le := fun a b => decide (a.1 <= b.1).
#[export] Instance seq_le_total : Total seq_le.
Proof. intros a b. unfold seq_le. lia. Qed.
#[export] Instance seq_le_trans : Transitive seq_le.
Proof. intros a b c. unfold seq_le. lia. Qed.

Definition pending_rows (tenant : UUID) (consumer : string) (fromSeq : Z) (d : Db)
    : list (Z * outbox_row) :=
  merge_sort seq_le
    (filter (fun r => fromSeq < r.1 /\ o_acked_at r.2 = None) (stream_rows tenant consumer d)).

Definition select_pending (tenant : UUID) (consumer : string) (fromSeq limit : Z)
    : stmt (list (Z * outbox_row)) := fun now d =>
  if limit <? 0 then inl (Errorf "LIMIT must not be negative" []) else
  inr (take (Z.to_nat limit) (pending_rows tenant consumer fromSeq d), d).

(** [DeliveryStream.FetchPending] *)
Definition FetchPending (tenant : UUID) (consumer : string) (fromSeq limit : Z)
    : M (list OutboxMessage) :=
  rows ← mwrap "messaging: fetch pending: %w" []
    (db_exec (select_pending tenant consumer fromSeq limit));
  mret (map (fun r => mkOutboxMessage tenant consumer (o_message_id r.2) (Some (o_payload r.2)))
          rows).

Definition ack_outbox (tenant : UUID) (consumer : string) (seq : Z) : stmt unit := fun now d =>
  match db_outbox d !! (tenant, consumer, seq) with
  | Some o => inr (tt, set_outbox (<[(tenant, consumer, seq) :=
                mkOutbox (o_message_id o) (o_payload o) (Some now) (o_created_at o)]>
                (db_outbox d)) d)
  | None => inr (tt, d)
  end.

Definition insert_inbox (tenant : UUID) (consumer : string) (mid : UUID) : stmt unit := fun now d =>
  match db_inbox d !! (tenant, consumer, mid) with
  | Some _ => inr (tt, d)
  | None => inr (tt, set_inbox (<[(tenant, consumer, mid) := now]> (db_inbox d)) d)
  end.

Definition advance_cursor (tenant : UUID) (consumer : string) (seq : Z) : stmt unit := fun now d =>
  match db_cursors d !! (tenant, consumer) with
  | Some c => inr (tt, set_cursors (<[(tenant, consumer) :=
                mkCursor (Z.max (c_last_acked_seq c) seq) (c_lease_owner c) (c_lease_fence c)
                  (c_lease_expires_at c)]> (db_cursors d)) d)
  | None => inr (tt, d)
  end.

(** [DeliveryStream.AckMessage]: the boolean it returns and the error of the
    final commit come back together in Go; a caller that sees the error does not
    use the boolean. *)
Definition AckMessage (tenant : UUID) (consumer : string) (messageID : UUID) (seq fence : Z)
    : M bool :=
  mwrap "messaging: begin ack tx: %w" [] BeginTx ;;
  defer_rollback (
    currentFence ← mwrap "messaging: check fence: %w" []
      (tx_query (fun now d => c_lease_fence <$> db_cursors d !! (tenant, consumer)));
    if negb (currentFence =? fence)
    then lift (Err (Errorf "messaging: stale fence — ack rejected" [])) else
    alreadyProcessed ← mwrap "messaging: check inbox: %w" []
      (tx_query (fun now d => Some (is_some (db_inbox d !! (tenant, consumer, messageID)))));
    (if negb alreadyProcessed then
       mwrap "messaging: ack outbox: %w" [] (tx_exec (ack_outbox tenant consumer seq)) ;;
       mwrap "messaging: record inbox: %w" [] (tx_exec (insert_inbox tenant consumer messageID)) ;;
       mwrap "messaging: advance cursor: %w" [] (tx_exec (advance_cursor tenant consumer seq))
     else mret tt) ;;
    Commit ;;
    mret (negb alreadyProcessed)).

(** [DeliveryStream.NotifyConsumer]: a [pg_notify] whose failure is ignored. *)
Definition NotifyConsumer (tenant : UUID) (consumer : string) : M unit :=
  let channel := ("dnivio_" +:+ hex (uuid_bytes tenant) +:+ "_" +:+ hex (str_bytes consumer))%string in
  ignore (db_exec (fun now d => inr (channel, d))).

End Outbox.

(** ** Lemmas *)

Lemma elem_of_stream_rows t c d s o :
  (s, o) ∈ stream_rows t c d <-> db_outbox d !! (t, c, s) = Some o.
Proof.
  unfold stream_rows. rewrite list_elem_of_omap. split.
  - intros ([[[t' c'] s'] o'] & Hin & E). apply elem_of_map_to_list in Hin.
    destruct (t' == t) eqn:Et, (c' == c) eqn:Ec; try discriminate E.
    go_bool. by injection E as -> ->; subst.
  - intros Hl. exists ((t, c, s), o). rewrite elem_of_map_to_list. split; [done|].
    by rewrite !eqb_refl.
Qed.

Lemma message_known_spec t mid d :
  message_known t mid d = true <->
  exists c s o, db_outbox d !! (t, c, s) = Some o /\ o_message_id o = mid.
Proof.
  unfold message_known. rewrite existsb_exists. split.
  - intros ([[[t' c] s] o] & Hin & E). apply list_elem_of_In, elem_of_map_to_list in Hin.
    go_bool. destruct E as [-> E]. eauto.
  - intros (c & s & o & Hl & E). exists ((t, c, s), o). split.
    + by apply list_elem_of_In, elem_of_map_to_list.
    + by rewrite E, !eqb_refl.
Qed.

(** The next sequence number is above every one in use. *)
Lemma stream_next_above t c d s o :
  db_outbox d !! (t, c, s) = Some o -> s < stream_next t c d.
Proof.
  intros Hl. apply elem_of_stream_rows in Hl. unfold stream_next.
  assert (Hin : s ∈ map fst (stream_rows t c d)).
  { apply list_elem_of_fmap. by exists (s, o). }
  apply (coalesce_sql_max_ge _ _ 0) in Hin. lia.
Qed.

Lemma stream_next_fresh t c d : db_outbox d !! (t, c, stream_next t c d) = None.
Proof.
  destruct (db_outbox d !! _) as [o|] eqn:E; [|done].
  apply stream_next_above in E. lia.
Qed.

Lemma elem_of_pending_rows t c f d s o :
  (s, o) ∈ pending_rows t c f d <->
  f < s /\ o_acked_at o = None /\ db_outbox d !! (t, c, s) = Some o.
Proof.
  unfold pending_rows. rewrite merge_sort_Permutation, list_elem_of_filter, elem_of_stream_rows.
  cbn. tauto.
Qed.

Lemma pending_rows_sorted t c f d : StronglySorted seq_le (pending_rows t c f d).
Proof. apply StronglySorted_merge_sort; apply _. Qed.

(** A sorted list of rows of one stream is determined by its elements. *)
Lemma pending_rows_unique t c f d l :
  StronglySorted seq_le l -> l ≡ₚ pending_rows t c f d -> pending_rows t c f d = l.
Proof.
  intros Hs Hp. eapply (StronglySorted_unique_strong seq_le); [|apply pending_rows_sorted|done..].
  intros [s1 o1] [s2 o2] H1 H2 H12 H21. unfold seq_le in *. cbn in *.
  rewrite Hp in H2. apply elem_of_pending_rows in H1 as (_ & _ & H1).
  apply elem_of_pending_rows in H2 as (_ & _ & H2).
  assert (s1 = s2) as -> by lia. congruence.
Qed.

(** Insertion changes the rows of no other stream. *)
Lemma stream_rows_other t c t' c' s o d :
  (t, c) <> (t', c') ->
  stream_rows t c (set_outbox (<[(t', c', s) := o]> (db_outbox d)) d) ≡ₚ stream_rows t c d.
Proof.
  intros Hne. unfold stream_rows. cbn [db_outbox set_outbox].
  set (f := fun x : UUID * string * Z * outbox_row => _).
  assert (Hf : forall x, f ((t', c', s), x) = None).
  { intros x. unfold f. destruct (t' == t) eqn:Et, (c' == c) eqn:Ec; try done.
    go_bool. by subst. }
  rewrite <- (insert_delete_eq (db_outbox d)).
  rewrite map_to_list_insert by apply lookup_delete_eq. cbn [omap list_omap]. rewrite Hf.
  destruct (db_outbox d !! (t', c', s)) as [o0|] eqn:E.
  - rewrite <- (insert_delete_id (db_outbox d) _ _ E) at 2.
    rewrite map_to_list_insert by apply lookup_delete_eq. cbn [omap list_omap]. by rewrite Hf.
  - by rewrite delete_id.
Qed.

Lemma stream_rows_append t c d o :
  stream_rows t c (set_outbox (<[(t, c, stream_next t c d) := o]> (db_outbox d)) d)
    ≡ₚ (stream_next t c d, o) :: stream_rows t c d.
Proof.
  unfold stream_rows. cbn [db_outbox set_outbox].
  rewrite map_to_list_insert by apply stream_next_fresh. cbn [omap list_omap].
  by rewrite !eqb_refl.
Qed.

(** Inserting at the next sequence number appends to the pending rows. *)
Lemma pending_rows_append t c f d o :
  f < stream_next t c d -> o_acked_at o = None ->
  pending_rows t c f (set_outbox (<[(t, c, stream_next t c d) := o]> (db_outbox d)) d)
    = pending_rows t c f d ++ [(stream_next t c d, o)].
Proof.
  intros Hf Ho. apply pending_rows_unique.
  - apply StronglySorted_app. split_and!; [|apply pending_rows_sorted|repeat constructor].
    intros [s1 o1] x2 H1 ->%list_elem_of_singleton. unfold seq_le. cbn.
    apply elem_of_pending_rows in H1 as (_ & _ & H1). apply stream_next_above in H1. lia.
  - unfold pending_rows. rewrite !merge_sort_Permutation, stream_rows_append.
    rewrite filter_cons_True by done. by rewrite Permutation_app_comm.
Qed.

Lemma pending_rows_other t c t' c' f s o d :
  (t, c) <> (t', c') ->
  pending_rows t c f (set_outbox (<[(t', c', s) := o]> (db_outbox d)) d) = pending_rows t c f d.
Proof.
  intros Hne. apply pending_rows_unique; [apply pending_rows_sorted|].
  unfold pending_rows. by rewrite !merge_sort_Permutation, stream_rows_other.
Qed.

(** The sequence numbers of the pending rows increase strictly. *)
Lemma pending_rows_NoDup t c f d : NoDup (pending_rows t c f d).*1.
Proof.
  unfold pending_rows. rewrite merge_sort_Permutation. unfold stream_rows.
  pose proof (NoDup_map_to_list (db_outbox d)) as Hnd.
  pose proof (NoDup_fst_map_to_list (db_outbox d)) as Hf. clear Hnd.
  induction (map_to_list (db_outbox d)) as [|[[[t' c'] s] o] l IH]; [constructor|].
  cbn in Hf. apply NoDup_cons in Hf as [Hni Hf]. cbn [omap list_omap].
  destruct ((t' == t) && (c' == c)) eqn:E; [|by apply IH]. go_bool. destruct E as [-> ->].
  rewrite filter_cons. case_decide; [|by apply IH]. cbn. constructor; [|by apply IH].
  intros ([s' o'] & -> & Hin)%list_elem_of_fmap. cbn in Hni. apply Hni.
  apply list_elem_of_filter in Hin as [_ Hin]. apply list_elem_of_omap in Hin as ([[[t2 c2] s2] o2] & Hin & E).
  destruct ((t2 == t) && (c2 == c)) eqn:E2; [|discriminate]. go_bool. destruct E2 as [-> ->].
  injection E as -> ->. apply list_elem_of_fmap. by exists ((t, c, s'), o').
Qed.

Lemma pending_rows_strict t c f d : StronglySorted Z.lt (map fst (pending_rows t c f d)).
Proof.
  pose proof (pending_rows_sorted t c f d) as Hs. pose proof (pending_rows_NoDup t c f d) as Hn.
  induction (pending_rows t c f d) as [|x l IH]; [constructor|]. cbn in *.
  apply NoDup_cons in Hn as [Hni Hn]. inversion Hs as [|? ? Hs' Hall]; subst.
  constructor; [by apply IH|]. rewrite Forall_fmap.
  apply Forall_forall. intros y Hy. rewrite Forall_forall in Hall. specialize (Hall y Hy).
  unfold seq_le in Hall. cbn. destruct (decide (x.1 = y.1)) as [E|]; [|lia].
  exfalso. apply Hni. rewrite E. by apply list_elem_of_fmap_2.
Qed.

(** [WriteTx] inside a transaction. *)
Lemma wp_WriteTx `{Postgres} msg Q env w base now d b :
  in_tx base now d b w ->
  (forall t d' w', b = false -> insert_outbox msg t now d = inr (tt, d') ->
     in_tx base now d' false w' -> Q (Ok tt) w') ->
  (forall e w', in_tx base now d true w' -> Q (Err e) w') ->
  wp (WriteTx msg) Q env w.
Proof.
  intros Hi HO HE. unfold WriteTx. wp_go. apply wp_time_Now. intros t w' E1 E2.
  eapply wp_tx_exec; [by eapply in_tx_same| |done].
  intros [] d' w'' Hb Hf Hi'. by eapply HO.
Qed.
