(* ===== verification/Sample.v ===== *)
(** * Sample: a database server and data to run the service on

    Two instances of the database parameter: one whose [binding] columns accept
    any bytes, and one that treats them as [jsonb] is documented to, rejecting
    the empty text.  A tenant with a user, a device, a node and a resource, and
    an environment in which nothing fails, to run the handlers on. *)

From stdpp Require Import base gmap strings list fin_maps pretty.
From Stdlib Require Import ZArith Lia Strings.Byte.
From S2P Require Import Prelude Identity Cose Envelope Reference Database Schema.

Open Scope Z_scope.
Open Scope go_scope.

Definition pg (json : bytes -> option bytes) : Postgres := {|
  jsonb_in := json;
  binding_in := json;
  inet_ok s := s != "";
  timestamptz_in t := t - t mod 1000;
  nil_bytes_null := false;
  aggregate_for_update := true;
  epoch_text t := str_bytes (pretty (t / Second));
  text_bytea := str_bytes;
  uuid_in := uuid_Parse
|}.

(** Columns that store what they are given, and locks on aggregates: more than
    PostgreSQL allows, so that the sample runs get past the two statements it
    refuses. *)
Definition pg_any : Postgres := pg Some.

(** [jsonb] rejects the empty text; everything else is kept, to be generous. *)
Definition pg_jsonb : Postgres := pg (fun b => match b with [] => None | _ => Some b end).

(** Nothing fails; the clock advances a millisecond per reading; fresh UUIDs
    count up from [base]. *)
Definition sample_env (base : Z) : Env := {|
  env_fault _ := NoFault;
  env_now n := sample_now + Z.of_nat n * 1000000;
  env_dbnow n := sample_now + Z.of_nat n * 1000000;
  env_uuid n := uuid_of_Z (base + Z.of_nat n);
  env_rand n := Some (be_bytes 32 (base + Z.of_nat n))
|}.

Definition tenant1 : UUID := uuid_of_Z 1.
Definition user1 : UUID := uuid_of_Z 2.
Definition node1 : UUID := uuid_of_Z 3.
Definition resource1 : UUID := uuid_of_Z 4.
Definition device1 : UUID := uuid_of_Z 5.

Definition sample_device : device_row :=
  mkDevice tenant1 user1 (sample_pub 21) (sample_pub 22) [] SecurityLevelStrongBox 3 "ENROLLED" None.

Definition sample_db : Db := {|
  db_tenants := {[tenant1]};
  db_users := {[user1 := mkUser tenant1 "https://idp" "alice" None]};
  db_devices := {[device1 := sample_device]};
  db_nodes := {[node1 := mkNode tenant1 "n-src" "tailnet-a" "serial-1" "ACTIVE" 7]};
  db_resources := {[resource1 := mkResource tenant1 node1 "web-app" 443 "TCP" ModeHTTPProxy
                      SensitivityHigh SecurityLevelStrongBox (Some "Billing DB")]};
  db_policies := ∅; db_requests := ∅; db_grants := ∅; db_sessions := ∅; db_revocations := ∅;
  db_outbox := ∅; db_inbox := ∅; db_cursors := ∅;
  db_heads := {[tenant1 := mkHead 0 [x00]]};
  db_events := ∅;
  db_late := None
|}.
