(* ===== verification/MessagingProps.v ===== *)
(** * MessagingProps: ordered delivery, fencing and deduplication

    What [WriteTx], [FetchPending], [AcquireLease] and [AckMessage] guarantee to
    a consumer: a message is appended once, read in order, acknowledged once, and
    only by the holder of the current fence. *)

From stdpp Require Import base gmap strings list fin_maps sorting pretty.
From Stdlib Require Import ZArith Lia Strings.Byte.
From S2P Require Import Prelude Identity Cose Envelope Reference Database Schema Messaging Sample.

Open Scope Z_scope.
Open Scope go_scope.

Section Props.
Context `{Postgres}.

(** A message written to the outbox is appended to its consumer's stream:
    it gets a sequence number above every one in use, so it becomes the last of
    the consumer's pending messages; no other consumer's stream changes; and a
    message id already used in the tenant changes nothing. *)
Theorem outbox_write_appends env w base now d msg payload w' :
  in_tx base now d false w -> om_Payload msg = Some payload ->
  WriteTx msg env w = (Ok tt, w') ->
  exists d', in_tx base now d' false w' /\
    let t := om_TenantID msg in let c := om_Consumer msg in
    if message_known t (om_MessageID msg) d then d' = d
    else exists row,
      o_message_id row = om_MessageID msg /\ o_payload row = payload /\ o_acked_at row = None /\
      (forall f, f < stream_next t c d ->
         pending_rows t c f d' = pending_rows t c f d ++ [(stream_next t c d, row)]) /\
      (forall t' c' f, (t', c') <> (t, c) -> pending_rows t' c' f d' = pending_rows t' c' f d).
Proof.
  intros Hi Hp Hrun.
  assert (W : wp (WriteTx msg) (fun r w' => r = Ok tt -> exists ts d',
    insert_outbox msg ts now d = inr (tt, d') /\ in_tx base now d' false w') env w).
  { eapply wp_WriteTx; [done|eauto|done]. }
  unfold wp in W. rewrite Hrun in W. destruct (W eq_refl) as (ts & d' & Hins & Hi').
  exists d'. split; [done|]. cbv zeta. unfold insert_outbox in Hins. rewrite Hp in Hins. cbn in Hins.
  destruct (message_known _ _ _) eqn:E; injection Hins as <-; [done|].
  eexists. split_and!; [..|intros f Hf; by apply pending_rows_append
                          |intros t' c' f Hne; by apply pending_rows_other]; done.
Qed.

Lemma FetchPending_Ok env d t c fromSeq limit msgs d' :
  run (FetchPending t c fromSeq limit) env d = (Ok msgs, d') ->
  d' = d /\ 0 <= limit /\
  msgs = map (fun r => mkOutboxMessage t c (o_message_id r.2) (Some (o_payload r.2)))
           (take (Z.to_nat limit) (pending_rows t c fromSeq d)).
Proof.
  intros Hrun. pattern d', msgs. cut (wp (FetchPending t c fromSeq limit) (fun r w =>
    match r with
    | Ok m => w_db w = d /\ 0 <= limit /\
        m = map (fun r => mkOutboxMessage t c (o_message_id r.2) (Some (o_payload r.2)))
              (take (Z.to_nat limit) (pending_rows t c fromSeq d))
    | _ => True
    end) env (new_world d)).
  { intros W. apply (wp_run _ (fun r x => match r with Ok m => x = d /\ 0 <= limit /\ m = _ | _ => True end)) in W.
    by rewrite Hrun in W. }
  unfold FetchPending. wp_go. apply wp_db_exec; [|done..].
  unfold select_pending. intros n a d1 w1 Hs Hd Htx. wp_go.
  destruct (limit <? 0) eqn:El; [discriminate|]. injection Hs as <- <-. go_bool. auto.
Qed.

(** C32.  [FetchPending] returns, in increasing sequence order and up to the
    limit, exactly the consumer's unacknowledged messages above the given
    sequence number, and changes nothing. *)
Theorem fetch_pending_exact env d t c fromSeq limit msgs d' :
  run (FetchPending t c fromSeq limit) env d = (Ok msgs, d') ->
  d' = d /\ 0 <= limit /\
  exists rows,
    msgs = map (fun r => mkOutboxMessage t c (o_message_id r.2) (Some (o_payload r.2)))
             (take (Z.to_nat limit) rows) /\
    StronglySorted Z.lt (map fst rows) /\
    (forall s o, (s, o) ∈ rows <->
       fromSeq < s /\ o_acked_at o = None /\ db_outbox d !! (t, c, s) = Some o).
Proof.
  intros (-> & Hl & ->)%FetchPending_Ok. split_and!; [done..|].
  exists (pending_rows t c fromSeq d). split_and!; [done| |intros; apply elem_of_pending_rows].
  apply pending_rows_strict.
Qed.

(** The tables after one acknowledgement. *)
Definition acked (t : UUID) (c : string) (mid : UUID) (seq : Z) (now : Time) (d d' : Db) : Prop :=
  exists d1 d2, ack_outbox t c seq now d = inr (tt, d1) /\
    insert_inbox t c mid now d1 = inr (tt, d2) /\ advance_cursor t c seq now d2 = inr (tt, d').

Lemma AckMessage_cases env d t c mid seq fence :
  let r := (run (AckMessage t c mid seq fence) env d).1 in
  let d' := (run (AckMessage t c mid seq fence) env d).2 in
  (d' = d /\ r <> Ok true /\ r <> Panic /\
   (r = Ok false -> db_inbox d !! (t, c, mid) <> None)) \/
  (r <> Ok false /\ r <> Panic /\ db_inbox d !! (t, c, mid) = None /\
   (exists cur, db_cursors d !! (t, c) = Some cur /\ c_lease_fence cur = fence) /\
   exists now, acked t c mid seq now d d').
Proof.
  wp_start. unfold AckMessage. wp_go.
  apply (wp_BeginTx _ _ _ d); [done| |by left]. intros now w1 H1. wp_go.
  eapply wp_tx_query; [done| |by left; destruct H0]. intros f w2 _ Hf H2. wp_go.
  destruct (negb (f =? fence)) eqn:Efence.
  { wp_go. left. by destruct H2. }
  wp_go. eapply wp_tx_query; [done| |by left; destruct H0]. intros b w3 _ [= Hb] H3. cbn. wp_go.
  destruct b; cbn; wp_go.
  - eapply wp_Commit; [done| |].
    + intros w' _ Hd _. wp_go. left. split_and!; [done..|]. intros _ E. by rewrite E in Hb.
    + intros e w' [Hd|[_ Hd]] _; left; by rewrite Hd.
  - assert (Hn : db_inbox d !! (t, c, mid) = None) by (by destruct (db_inbox d !! _)).
    eapply wp_tx_exec; [done| |by left; destruct H0]. intros [] d1 w4 _ E1 H4. cbn. wp_go.
    eapply wp_tx_exec; [done| |by left; destruct H0]. intros [] d2 w5 _ E2 H5. cbn. wp_go.
    eapply wp_tx_exec; [done| |by left; destruct H0]. intros [] d3 w6 _ E3 H6. cbn. wp_go.
    assert (Hc : exists cur, db_cursors d !! (t, c) = Some cur /\ c_lease_fence cur = fence).
    { destruct (db_cursors d !! (t, c)) as [cur|]; [|done]. injection Hf as <-. go_bool. eauto. }
    eapply wp_Commit; [done| |].
    + intros w' _ Hd _. wp_go. right. split_and!; [done..|]. exists now. rewrite Hd. by exists d1, d2.
    + intros e w' [Hd|[_ Hd]] _; rewrite Hd; [by left|right].
      split_and!; [done..|]. exists now. by exists d1, d2.
Qed.

Lemma acked_effect t c mid seq now d d' :
  acked t c mid seq now d d' -> db_inbox d !! (t, c, mid) = None ->
  db_inbox d' = <[(t, c, mid) := now]> (db_inbox d) /\
  (forall s o, db_outbox d' !! (t, c, s) = Some o -> s = seq -> o_acked_at o = Some now) /\
  (forall s, s <> seq -> db_outbox d' !! (t, c, s) = db_outbox d !! (t, c, s)) /\
  (forall cur, db_cursors d !! (t, c) = Some cur -> exists cur',
     db_cursors d' !! (t, c) = Some cur' /\ c_lease_fence cur' = c_lease_fence cur /\
     c_last_acked_seq cur' = Z.max (c_last_acked_seq cur) seq).
Proof.
  intros (d1 & d2 & E1 & E2 & E3) Hn.
  assert (O1 : db_inbox d1 = db_inbox d /\ db_cursors d1 = db_cursors d /\
    db_outbox d1 = match db_outbox d !! (t, c, seq) with
                   | Some o => <[(t, c, seq) := mkOutbox (o_message_id o) (o_payload o) (Some now)
                                   (o_created_at o)]> (db_outbox d)
                   | None => db_outbox d end).
  { unfold ack_outbox in E1. by destruct (db_outbox d !! _); injection E1 as <-. }
  destruct O1 as (O1 & O2 & O3). unfold insert_inbox in E2. rewrite O1, Hn in E2.
  injection E2 as <-. unfold advance_cursor in E3. cbn in E3. rewrite O2 in E3.
  assert (O4 : db_inbox d' = <[(t, c, mid) := now]> (db_inbox d) /\ db_outbox d' = db_outbox d1 /\
    (forall cur, db_cursors d !! (t, c) = Some cur ->
       db_cursors d' = <[(t, c) := mkCursor (Z.max (c_last_acked_seq cur) seq) (c_lease_owner cur)
                           (c_lease_fence cur) (c_lease_expires_at cur)]> (db_cursors d))).
  { destruct (db_cursors d !! (t, c)); injection E3 as <-; cbn;
      rewrite ?O1, ?O2; split_and!; try done; intros ? Hx; congruence. }
  destruct O4 as (O4 & O5 & O6). rewrite O5, O3. split_and!; [done|..].
  - intros s o Hl ->. destruct (db_outbox d !! (t, c, seq)) eqn:E; [|by rewrite E in Hl].
    rewrite lookup_insert_eq in Hl. by injection Hl as <-.
  - intros s Hs. destruct (db_outbox d !! (t, c, seq)); [|done]. rewrite lookup_insert_ne; congruence.
  - intros cur Hc. rewrite (O6 _ Hc), lookup_insert_eq. eauto.
Qed.

(** Acknowledgement is exactly-once per message id: an [AckMessage] either
    leaves the tables as they were (it failed, or the message id had been
    processed before), or it was made under the current fence for a message id not
    processed before; then the id is recorded, the named row is acknowledged and
    no other row of the stream changes, and the cursor moves to at least that
    sequence number.  It reports [true] only in the second case. *)
Theorem ack_message_once env d t c mid seq fence :
  let r := (run (AckMessage t c mid seq fence) env d).1 in
  let d' := (run (AckMessage t c mid seq fence) env d).2 in
  r <> Panic /\
  ((d' = d /\ r <> Ok true) \/
   (r <> Ok false /\ db_inbox d !! (t, c, mid) = None /\ db_inbox d' !! (t, c, mid) <> None /\
    exists cur cur', db_cursors d !! (t, c) = Some cur /\ c_lease_fence cur = fence /\
      db_cursors d' !! (t, c) = Some cur' /\ c_lease_fence cur' = fence /\
      c_last_acked_seq cur' = Z.max (c_last_acked_seq cur) seq /\
      (forall o, db_outbox d' !! (t, c, seq) = Some o -> o_acked_at o <> None) /\
      (forall s, s <> seq -> db_outbox d' !! (t, c, s) = db_outbox d !! (t, c, s)))).
Proof.
  cbv zeta. destruct (AckMessage_cases env d t c mid seq fence)
    as [(Hd & Hr & Hp & _)|(Hr & Hp & Hn & (cur & Hc & Hf) & now & Ha)]; [by auto|].
  split; [done|]. right. split_and!; [done..| |].
  - destruct (acked_effect _ _ _ _ _ _ _ Ha Hn) as (-> & _). by rewrite lookup_insert_eq.
  - destruct (acked_effect _ _ _ _ _ _ _ Ha Hn) as (_ & Ho & Hs & Hcur).
    destruct (Hcur cur Hc) as (cur' & Hc' & Hf' & Hq). exists cur, cur'.
    split_and!; [done|done|done|congruence|done| |done].
    intros o Hl. by rewrite (Ho seq o Hl eq_refl).
Qed.

Lemma AcquireLease_Ok env d t c o l d' :
  run (AcquireLease t c o) env d = (Ok l, d') ->
  exists cur, db_cursors d' = <[(t, c) := cur]> (db_cursors d) /\
    c_lease_fence cur = cl_LeaseFence l /\ c_lease_owner cur = Some o /\
    c_last_acked_seq cur = cl_LastAckedSeq l /\
    cl_LeaseFence l = match db_cursors d !! (t, c) with Some x => c_lease_fence x + 1 | None => 1 end.
Proof.
  intros Hrun.
  assert (W : (fun r d' => forall l, r = Ok l -> exists cur,
     db_cursors d' = <[(t, c) := cur]> (db_cursors d) /\
     c_lease_fence cur = cl_LeaseFence l /\ c_lease_owner cur = Some o /\
     c_last_acked_seq cur = cl_LastAckedSeq l /\
     cl_LeaseFence l = match db_cursors d !! (t, c) with Some x => c_lease_fence x + 1 | None => 1 end)
     (run (AcquireLease t c o) env d).1 (run (AcquireLease t c o) env d).2).
  { apply wp_run. unfold AcquireLease. wp_go. apply (wp_BeginTx _ _ _ d); [done| |done].
    intros now w1 H1. wp_go. apply wp_time_Now. intros t1 w2 E1 E2. wp_go.
    eapply wp_tx_exec; [by eapply in_tx_same| |done].
    intros [la fe] d1 w3 _ Hu H3. wp_go. eapply wp_Commit; [done| |done].
    intros w4 _ Hd _. wp_go. apply wp_time_Now. intros t2 w5 E5 _. wp_go. intros ? [= <-]. cbn.
    unfold upsert_lease in Hu. injection Hu as <- <- <-. rewrite E5, Hd. eexists. split; [done|].
    by destruct (db_cursors d !! (t, c)). }
  rewrite Hrun in W. cbn in W. by apply W.
Qed.

(** C37.  Fencing: each [AcquireLease] that succeeds gets a fence one above the
    stored one, and from then on an acknowledgement made under any other fence, an
    earlier holder's in particular, fails and changes nothing. *)
Theorem stale_lease_cannot_ack env d t c o l d' :
  run (AcquireLease t c o) env d = (Ok l, d') ->
  (forall cur, db_cursors d !! (t, c) = Some cur -> c_lease_fence cur < cl_LeaseFence l) /\
  forall env2 mid seq fence, fence <> cl_LeaseFence l ->
    exists e, run (AckMessage t c mid seq fence) env2 d' = (Err e, d').
Proof.
  intros Hrun. apply AcquireLease_Ok in Hrun as (cur & Hd & Hf & _ & _ & Hnew). split.
  - intros c0 Hc. rewrite Hc in Hnew. lia.
  - intros env2 mid seq fence Hne.
    assert (W : (fun r x => exists e, r = Err e /\ x = d')
      (run (AckMessage t c mid seq fence) env2 d').1 (run (AckMessage t c mid seq fence) env2 d').2).
    { apply wp_run. unfold AckMessage. wp_go. apply (wp_BeginTx _ _ _ d'); [done| |by intros e w Hw; eexists].
      intros now w1 H1. wp_go. eapply wp_tx_query; [done| |by intros e b w [? _]; eexists].
      intros f w2 _ Hq H2. rewrite Hd, lookup_insert_eq in Hq. injection Hq as <-. wp_go.
      destruct (negb (c_lease_fence cur =? fence)) eqn:E; [|go_bool; congruence].
      wp_go. destruct H2. by eexists. }
    destruct (run _ _ _) as [r x]. cbn in W. destruct W as (e & -> & ->). by exists e.
Qed.

End Props.

(** ** Witnesses *)

Definition sample_msg (n : Z) : OutboxMessage :=
  mkOutboxMessage tenant1 "daemon-1" (uuid_of_Z n) (Some [x01; x02]).

Definition sample_tx (d : Db) : World := mkWorld d (Some (mkTxn d false sample_now)) 1 0 0 0.

Lemma outbox_write_appends_witness :
  exists w' d', WriteTx (H := pg_any) (sample_msg 50) (sample_env 900) (sample_tx sample_db) = (Ok tt, w') /\
    in_tx sample_db sample_now d' false w' /\
    map (fun r => (r.1, o_message_id r.2)) (pending_rows tenant1 "daemon-1" 0 d') = [(1, uuid_of_Z 50)].
Proof.
  destruct (WriteTx (H := pg_any) (sample_msg 50) (sample_env 900) (sample_tx sample_db)) as [r w'] eqn:E.
  assert (r = Ok tt) as -> by (apply (f_equal fst) in E; symmetry; exact E).
  destruct (@outbox_write_appends pg_any (sample_env 900) (sample_tx sample_db) sample_db sample_now
              sample_db (sample_msg 50) [x01; x02] w' (conj eq_refl eq_refl) eq_refl E)
    as (d' & Hi & row & Hm & _ & _ & Hp & _).
  exists w', d'. split; [reflexivity|]. split; [exact Hi|].
  change tenant1 with (om_TenantID (sample_msg 50)).
  change "daemon-1"%string with (om_Consumer (sample_msg 50)).
  rewrite (Hp 0) by reflexivity. rewrite map_app. cbn [map fst snd]. rewrite Hm. reflexivity.
Defined.

(** The stream of [daemon-1] after two writes. *)
Definition streamed_db : Db :=
  let write d m := match WriteTx (H := pg_any) m (sample_env 900) (sample_tx d) with
                   | (Ok _, w) => match w_tx w with Some t => t_db t | None => d end
                   | _ => d
                   end in
  write (write sample_db (sample_msg 50)) (sample_msg 51).

Lemma fetch_pending_exact_witness :
  exists msgs, run (FetchPending tenant1 "daemon-1" 0 10) (sample_env 900) streamed_db
                 = (Ok msgs, streamed_db) /\
    map om_MessageID msgs = [uuid_of_Z 50; uuid_of_Z 51].
Proof.
  destruct (run (FetchPending tenant1 "daemon-1" 0 10) (sample_env 900) streamed_db)
    as [[msgs| |] d'] eqn:E; [|apply (f_equal fst) in E; vm_compute in E; discriminate E..].
  destruct (fetch_pending_exact _ _ _ _ _ _ _ _ E) as (-> & _ & _).
  exists msgs. split; [reflexivity|]. apply (f_equal fst) in E. vm_compute in E.
  injection E as <-. vm_compute. reflexivity.
Defined.

Definition lease_run : outcome ConsumerLease * Db :=
  run (AcquireLease (H := pg_any) tenant1 "daemon-1" (uuid_of_Z 70)) (sample_env 900) streamed_db.

Lemma stale_lease_cannot_ack_witness :
  exists e, run (AckMessage tenant1 "daemon-1" (uuid_of_Z 50) 1 0) (sample_env 950) lease_run.2
              = (Err e, lease_run.2).
Proof.
  destruct (lease_run) as [[l| |] d'] eqn:E; [|apply (f_equal fst) in E; vm_compute in E; discriminate E..].
  assert (Hl : cl_LeaseFence l = 1).
  { apply (f_equal fst) in E. vm_compute in E. injection E as <-. reflexivity. }
  apply (proj2 (@stale_lease_cannot_ack pg_any _ _ _ _ _ _ _ E)). rewrite Hl. discriminate.
Defined.
