(* ===== verification/OutboxRace.v ===== *)
(** * OutboxRace: concurrent transactions that write to the outbox

    [WriteTx] computes the next sequence number of a stream from the rows its
    transaction sees, and holds [seqMu] around that one statement.  Here the
    transactions of several handlers interleave, as PostgreSQL runs them under READ
    COMMITTED: a transaction sees the committed rows and its own; an INSERT whose key
    another open transaction has inserted waits for the end of that transaction - with
    the mutex still held - and fails if it commits.  Message ids are fresh, so the
    conflict clause on them does not apply. *)

From stdpp Require Import base gmap strings list fin_maps sorting.
From Stdlib Require Import ZArith Lia Strings.Byte.
From S2P Require Import Prelude Identity Cose Envelope Reference Database Schema Messaging Sample.

Open Scope Z_scope.
Open Scope go_scope.

(** Rows of the outbox, by tenant, consumer and sequence number. *)
Abbreviation rows := (gmap (UUID * string * Z) outbox_row).

(** [COALESCE((SELECT MAX(seq) ...), 0) + 1] on the rows a transaction sees. *)
Definition next_seq (t : UUID) (c : string) (visible : rows) : Z :=
  stream_next t c (set_outbox visible sample_db).

(** A transaction, with the rows it has inserted: between two statements, at
    [seqMu.Lock] in [WriteTx], in an INSERT that waits with the mutex held, aborted by
    the server, over. *)
Inductive otx : Type :=
| Between (own : rows)
| Wanting (own : rows) (t : UUID) (c : string) (row : outbox_row)
| Blocked (own : rows) (t : UUID) (c : string) (s : Z) (row : outbox_row)
| Aborted
| Over.

Definition own_of (x : otx) : rows :=
  match x with Between o | Wanting o _ _ _ | Blocked o _ _ _ _ => o | _ => ∅ end.

Record ostate : Type := mkO {
  o_committed : rows;
  o_mutex : option nat;
  o_txs : gmap nat otx
}.

(** Another open transaction has inserted this key. *)
Definition held_by_other (i : nat) (k : UUID * string * Z) (s : ostate) : Prop :=
  exists j x, j <> i /\ o_txs s !! j = Some x /\ is_Some (own_of x !! k).

Definition set_tx (i : nat) (x : otx) (mu : option nat) (s : ostate) : ostate :=
  mkO (o_committed s) mu (<[i := x]> (o_txs s)).

Inductive ostep : ostate -> ostate -> Prop :=
| o_begin s i : o_txs s !! i = None -> ostep s (set_tx i (Between ∅) (o_mutex s) s)
| o_call s i own t c row : o_txs s !! i = Some (Between own) ->
    ostep s (set_tx i (Wanting own t c row) (o_mutex s) s)
| o_insert s i own t c row n : o_txs s !! i = Some (Wanting own t c row) -> o_mutex s = None ->
    n = next_seq t c (own ∪ o_committed s) -> ~ held_by_other i (t, c, n) s ->
    ostep s (set_tx i (Between (<[(t, c, n) := row]> own)) None s)
| o_block s i own t c row n : o_txs s !! i = Some (Wanting own t c row) -> o_mutex s = None ->
    n = next_seq t c (own ∪ o_committed s) -> held_by_other i (t, c, n) s ->
    ostep s (set_tx i (Blocked own t c n row) (Some i) s)
| o_duplicate s i own t c n row : o_txs s !! i = Some (Blocked own t c n row) ->
    is_Some (o_committed s !! (t, c, n)) -> ostep s (set_tx i Aborted None s)
| o_resume s i own t c n row : o_txs s !! i = Some (Blocked own t c n row) ->
    o_committed s !! (t, c, n) = None -> ~ held_by_other i (t, c, n) s ->
    ostep s (set_tx i (Between (<[(t, c, n) := row]> own)) None s)
| o_commit s i own : o_txs s !! i = Some (Between own) ->
    ostep s (mkO (own ∪ o_committed s) (o_mutex s) (<[i := Over]> (o_txs s)))
| o_rollback s i own : o_txs s !! i = Some (Between own) \/ o_txs s !! i = Some Aborted ->
    ostep s (set_tx i Over (o_mutex s) s).

(** The stream of a consumer has the numbers 1 to [n]. *)
Definition numbered (t : UUID) (c : string) (lo hi : Z) (m : rows) : Prop :=
  forall s, is_Some (m !! (t, c, s)) <-> lo < s <= hi.

Lemma next_seq_numbered t c m hi : 0 <= hi -> numbered t c 0 hi m -> next_seq t c m = hi + 1.
Proof.
  intros H0 Hm. unfold next_seq. set (d := set_outbox m sample_db).
  assert (Hin : forall s, s ∈ map fst (stream_rows t c d) <-> 0 < s <= hi).
  { intros s. rewrite <- (Hm s). rewrite list_elem_of_fmap. split.
    - intros ([s' o] & -> & Ho%elem_of_stream_rows). by eexists.
    - intros [o Ho]. exists (s, o). by rewrite elem_of_stream_rows. }
  unfold stream_next. pose proof (sql_max_spec (map fst (stream_rows t c d))) as Hs.
  destruct (sql_max _) as [x|]; cbn.
  - destruct Hs as [Hx Hle]. apply Hin in Hx. destruct (decide (hi = 0)) as [->|]; [lia|].
    assert (hi <= x); [|lia]. apply Hle, Hin. lia.
  - destruct (decide (hi = 0)) as [->|]; [done|]. assert (Hc : hi ∈ map fst (stream_rows t c d)) by (apply Hin; lia).
    rewrite Hs in Hc. by apply elem_of_nil in Hc.
Qed.

(** ** One writer per stream *)

Implicit Types (t : UUID) (c : string) (own : rows) (row : outbox_row).

(** The committed numbers run from 1 to [n]; what an open transaction has inserted
    follows on from there; two open transactions have not both inserted; and a blocked
    INSERT has the number after the committed ones, or one committed meanwhile. *)
Record stream_ok (t : UUID) (c : string) (s : ostate) (n : Z) : Prop := mkStreamOk {
  st_pos : 0 <= n;
  st_committed : numbered t c 0 n (o_committed s);
  st_own : forall i x, o_txs s !! i = Some x -> exists m, n <= m /\ numbered t c n m (own_of x);
  st_one : forall i j x y (a b : Z), o_txs s !! i = Some x -> o_txs s !! j = Some y ->
    is_Some (own_of x !! (t, c, a)) -> is_Some (own_of y !! (t, c, b)) -> i = j;
  st_blocked : forall i own q row, o_txs s !! i = Some (Blocked own t c q row) ->
    0 < q <= n + 1 /\ forall b : Z, own !! (t, c, b) = None
}.

Definition race_ok (s : ostate) : Prop :=
  (forall t c, exists n, stream_ok t c s n) /\
  forall i own t c q row, o_txs s !! i = Some (Blocked own t c q row) -> o_mutex s = Some i.

Lemma numbered_empty t c (n : Z) (m : rows) : (forall b : Z, m !! (t, c, b) = None) -> numbered t c n n m.
Proof. intros H s. rewrite H. split; [by intros []|lia]. Qed.

Lemma numbered_ext t c (lo hi : Z) (m m' : rows) :
  (forall b : Z, m' !! (t, c, b) = m !! (t, c, b)) -> numbered t c lo hi m -> numbered t c lo hi m'.
Proof. intros E H s. by rewrite E. Qed.

Lemma numbered_insert t c (lo hi : Z) (m : rows) row :
  lo <= hi -> numbered t c lo hi m -> numbered t c lo (hi + 1) (<[(t, c, hi + 1) := row]> m).
Proof.
  intros Hle H s. destruct (decide (s = hi + 1)) as [->|Hne].
  - rewrite lookup_insert_eq. split; [lia|by eexists].
  - rewrite lookup_insert_ne by congruence. rewrite (H s). lia.
Qed.

Lemma numbered_union t c (lo mid hi : Z) (m1 m2 : rows) :
  lo <= mid -> mid <= hi -> numbered t c mid hi m1 -> numbered t c lo mid m2 -> numbered t c lo hi (m1 ∪ m2).
Proof.
  intros ? ? H1 H2 s. specialize (H1 s). specialize (H2 s). rewrite lookup_union_is_Some, H1, H2. lia.
Qed.

Lemma numbered_empty_inv t c (lo hi : Z) (m : rows) :
  lo <= hi -> numbered t c lo hi m -> (forall b : Z, m !! (t, c, b) = None) -> hi = lo.
Proof.
  intros Hle H E. destruct (decide (hi = lo)) as [|Hne]; [done|].
  assert (Hs : is_Some (m !! (t, c, hi))) by (apply H; lia). rewrite E in Hs. by destruct Hs.
Qed.

Section Steps.
Context (t : UUID) (c : string) (s : ostate) (n : Z) (Hok : stream_ok t c s n).

(** A transaction that keeps or drops its rows of the stream. *)
Lemma keep_stream i x' mu :
  (forall b : Z, own_of x' !! (t, c, b) = None) \/
  (exists x, o_txs s !! i = Some x /\ forall b : Z, own_of x' !! (t, c, b) = own_of x !! (t, c, b)) ->
  (forall own q row, x' = Blocked own t c q row -> 0 < q <= n + 1 /\ forall b : Z, own !! (t, c, b) = None) ->
  stream_ok t c (set_tx i x' mu s) n.
Proof.
  intros Hx Hb. destruct Hok as [H0 Hc Ho H1 Hbl]. split; [done|done|..].
  - intros j y. cbn. intros [[<- <-]|[_ Hy]]%lookup_insert_Some; [|by eapply Ho].
    destruct Hx as [Hx|(x & Hx & E)]; [exists n; split; [lia|by apply numbered_empty]|].
    destruct (Ho _ _ Hx) as (m & ? & Hm). exists m. split; [done|by eapply numbered_ext].
  - intros j k y z a b. cbn. intros [[<- <-]|[Hj Hy]]%lookup_insert_Some [[<- <-]|[Hk Hz]]%lookup_insert_Some Ea Eb.
    + done.
    + destruct Hx as [Hx|(x & Hx & E)]; [rewrite Hx in Ea; by destruct Ea|]. rewrite E in Ea. by eapply H1.
    + destruct Hx as [Hx|(x & Hx & E)]; [rewrite Hx in Eb; by destruct Eb|]. rewrite E in Eb. by eapply H1.
    + by eapply H1.
  - intros j own q row. cbn. intros [[_ E]|[_ Hy]]%lookup_insert_Some; [by eapply Hb|by eapply Hbl].
Qed.

(** A transaction that appends to its rows, when no other has any. *)
Lemma extend_stream i own (m : Z) row mu :
  n <= m -> numbered t c n m own ->
  (forall j x (b : Z), j <> i -> o_txs s !! j = Some x -> own_of x !! (t, c, b) = None) ->
  stream_ok t c (set_tx i (Between (<[(t, c, m + 1) := row]> own)) mu s) n.
Proof.
  intros Hm Hn Hothers. destruct Hok as [H0 Hc Ho H1 Hbl]. split; [done|done|..].
  - intros j y. cbn. intros [[<- <-]|[_ Hy]]%lookup_insert_Some; [|by eapply Ho]. exists (m + 1).
    split; [lia|by apply numbered_insert].
  - intros j k y z a b. cbn. intros [[<- <-]|[Hj Hy]]%lookup_insert_Some [[<- <-]|[Hk Hz]]%lookup_insert_Some Ea Eb.
    + done.
    + rewrite (Hothers _ _ _ (not_eq_sym Hk) Hz) in Eb. by destruct Eb.
    + rewrite (Hothers _ _ _ (not_eq_sym Hj) Hy) in Ea. by destruct Ea.
    + by eapply H1.
  - intros j own' q row'. cbn. intros [[_ E]|[_ Hy]]%lookup_insert_Some; [done|by eapply Hbl].
Qed.

(** Whoever has a row of the stream has the first number after the committed. *)
Lemma first_row j x (b : Z) :
  o_txs s !! j = Some x -> is_Some (own_of x !! (t, c, b)) -> is_Some (own_of x !! (t, c, n + 1)).
Proof. intros Hx Hb. destruct (st_own _ _ _ _ Hok _ _ Hx) as (m & ? & Hm). apply Hm. apply Hm in Hb. lia. Qed.

(** If nobody else has that number, nobody else has rows. *)
Lemma no_other_rows i : ~ held_by_other i (t, c, n + 1) s ->
  forall j x (b : Z), j <> i -> o_txs s !! j = Some x -> own_of x !! (t, c, b) = None.
Proof.
  intros Hn j x b Hj Hx. destruct (own_of x !! (t, c, b)) eqn:E; [|done]. destruct Hn.
  exists j, x. split_and!; [done..|]. eapply first_row; [done|by rewrite E].
Qed.

(** The number an INSERT computes. *)
Lemma insert_number own (m : Z) :
  n <= m -> numbered t c n m own -> next_seq t c (own ∪ o_committed s) = m + 1.
Proof.
  intros Hm Hn. apply next_seq_numbered; [pose proof (st_pos _ _ _ _ Hok); lia|].
  eapply numbered_union; [apply Hok|exact Hm|done|apply Hok].
Qed.

(** A commit moves the rows of the transaction to the committed ones. *)
Lemma commit_stream i own :
  o_txs s !! i = Some (Between own) ->
  exists n', n <= n' /\ stream_ok t c (mkO (own ∪ o_committed s) (o_mutex s) (<[i := Over]> (o_txs s))) n'.
Proof.
  intros Hi. pose proof Hok as [H0 Hc Ho H1 Hbl]. destruct (Ho _ _ Hi) as (m & Hm & Hn). cbn in Hn.
  exists m. split; [done|]. split; [lia|..].
  - by eapply numbered_union.
  - intros j y. cbn. intros [[<- <-]|[Hj Hy]]%lookup_insert_Some.
    { exists m. split; [lia|by apply numbered_empty]. }
    destruct (decide (m = n)) as [->|Hne]; [by eapply Ho|]. exists m. split; [lia|]. apply numbered_empty.
    intros b. destruct (own_of y !! (t, c, b)) eqn:E; [|done]. exfalso. apply Hj.
    eapply (H1 i j _ _ (n + 1) b); [done..|apply Hn; lia|by rewrite E].
  - intros j k y z a b. cbn. intros [[<- <-]|[Hj Hy]]%lookup_insert_Some [[<- <-]|[Hk Hz]]%lookup_insert_Some Ea Eb;
      [done|by destruct Ea|by destruct Eb|by eapply H1].
  - intros j own' q row. cbn. intros [[_ E]|[_ Hy]]%lookup_insert_Some; [done|].
    destruct (Hbl _ _ _ _ Hy). split; [lia|done].
Qed.

End Steps.

(** A transaction that keeps or drops all its rows and does not block. *)
Lemma keep_race s i x' :
  race_ok s ->
  own_of x' = ∅ \/ (exists x, o_txs s !! i = Some x /\ own_of x' = own_of x) ->
  (forall own t c q row, x' <> Blocked own t c q row) ->
  (forall j own t c q row, o_txs s !! j = Some (Blocked own t c q row) -> j <> i) ->
  race_ok (set_tx i x' (o_mutex s) s).
Proof.
  intros [Hs Hm] Hx Hb Hi. split.
  - intros t c. destruct (Hs t c) as [n Hn]. exists n. apply keep_stream; [done| |].
    + destruct Hx as [->|(x & Hx & E)]; [left; intros b; by rewrite lookup_empty|right]. exists x. by rewrite E.
    + intros own q row E. by destruct (Hb _ _ _ _ _ E).
  - intros j own t c q row. cbn. intros [[_ E]|[_ Hy]]%lookup_insert_Some; [by destruct (Hb _ _ _ _ _ E)|by eapply Hm].
Qed.

(** A transaction that leaves the mutex. *)
Lemma unlock_blocked s i x' :
  race_ok s -> (o_mutex s = None \/ o_mutex s = Some i) -> (forall own t c q row, x' <> Blocked own t c q row) ->
  forall j own t c q row, o_txs (set_tx i x' None s) !! j = Some (Blocked own t c q row) -> None = Some j.
Proof.
  intros [_ Hm] Hmu Hb j own t c q row. cbn. intros [[_ E]|[Hj Hy]]%lookup_insert_Some; [by destruct (Hb _ _ _ _ _ E)|].
  apply Hm in Hy. destruct Hmu; congruence.
Qed.

(** An INSERT that goes through, with the number after the transaction's rows. *)
Lemma insert_race s i x own t c row q mu :
  race_ok s -> o_txs s !! i = Some x -> own_of x = own -> (o_mutex s = None \/ o_mutex s = Some i) ->
  (forall n (m : Z), stream_ok t c s n -> n <= m -> numbered t c n m own -> q = m + 1 /\
     forall j y (b : Z), j <> i -> o_txs s !! j = Some y -> own_of y !! (t, c, b) = None) ->
  mu = None -> race_ok (set_tx i (Between (<[(t, c, q) := row]> own)) mu s).
Proof.
  intros Hr Hx Ex Hmu Hq ->. pose proof Hr as [Hs _]. split; [|by apply unlock_blocked].
  intros t' c'. destruct (Hs t' c') as [n Hn]. exists n.
  destruct (decide ((t', c') = (t, c))) as [[= -> ->]|Hne].
  - destruct (st_own _ _ _ _ Hn _ _ Hx) as (m & Hm & Ho). rewrite Ex in Ho.
    destruct (Hq n m Hn Hm Ho) as [-> Hothers]. by apply extend_stream.
  - apply keep_stream; [done| |done]. right. exists x. split; [done|]. intros b. cbn. rewrite Ex.
    rewrite lookup_insert_ne; [done|congruence].
Qed.

Lemma ostep_ok s s' : race_ok s -> ostep s s' -> race_ok s'.
Proof.
  intros Hr Hst. pose proof Hr as [Hs Hm].
  destruct Hst as [s i Hi|s i own t c row Hi|s i own t c row q Hi Hmu -> Hh|s i own t c row q Hi Hmu -> Hh|
    s i own t c q row Hi Hc|s i own t c q row Hi Hc Hh|s i own Hi|s i own Hi].
  - apply keep_race; [done|by left|done|]. intros j ? ? ? ? ? Hj ->. congruence.
  - apply keep_race; [done|right; by eexists|done|]. intros j ? ? ? ? ? Hj ->. congruence.
  - eapply insert_race; [done..|by left| |done]. intros n m Hn Hnm Ho.
    pose proof (insert_number t c s n Hn own m Hnm Ho) as E. split; [done|]. rewrite E in Hh.
    destruct (decide (m = n)) as [->|Hne]; [by apply (no_other_rows t c s n Hn)|].
    intros j y b Hj Hy. destruct (own_of y !! (t, c, b)) eqn:Eb; [|done]. destruct Hj.
    eapply (st_one _ _ _ _ Hn j i y _ b (n + 1)); [done..|by rewrite Eb|apply Ho; lia].
  - destruct Hh as (j & y & Hj & Hy & Hsome). split.
    + intros t' c'. destruct (Hs t' c') as [n Hn]. exists n. apply keep_stream; [done|right; by eexists|].
      intros own' q' row' [= <- -> -> <- <-]. destruct (st_own _ _ _ _ Hn _ _ Hi) as (m & Hnm & Ho). cbn in Ho.
      assert (Hnone : forall b : Z, own !! (t', c', b) = None).
      { intros b. destruct (own !! (t', c', b)) eqn:Eb; [|done]. destruct Hj.
        eapply (st_one _ _ _ _ Hn j i y _ _ b); [done..|exact Hsome|cbn; by rewrite Eb]. }
      rewrite (insert_number t' c' s n Hn own m Hnm Ho). rewrite (numbered_empty_inv _ _ _ _ _ Hnm Ho Hnone).
      pose proof (st_pos _ _ _ _ Hn). split; [lia|done].
    + intros j' own' t' c' q' row'. cbn. intros [[<- _]|[_ Hy']]%lookup_insert_Some; [done|].
      apply Hm in Hy'. congruence.
  - split; [|apply unlock_blocked; [done|right; by eapply Hm|done]].
    intros t' c'. destruct (Hs t' c') as [n Hn]. exists n. apply keep_stream; [done| |done].
    left. intros b. apply lookup_empty.
  - eapply insert_race; [done|exact Hi|done|right; by eapply Hm| |done]. intros n m Hn Hnm Ho.
    destruct (st_blocked _ _ _ _ Hn _ _ _ _ Hi) as [Hq Hnone].
    rewrite (numbered_empty_inv _ _ _ _ _ Hnm Ho Hnone).
    assert (E : q = n + 1).
    { destruct (decide (q = n + 1)) as [|Hne]; [done|]. assert (Hx : is_Some (o_committed s !! (t, c, q))).
      { apply (st_committed _ _ _ _ Hn). lia. } rewrite Hc in Hx. by destruct Hx. }
    split; [done|]. rewrite E in Hh. by apply (no_other_rows t c s n Hn).
  - split.
    + intros t c. destruct (Hs t c) as [n Hn]. destruct (commit_stream t c s n Hn i own Hi) as (n' & _ & ?). by exists n'.
    + intros j ? ? ? ? ?. cbn. intros [[_ E]|[_ Hy]]%lookup_insert_Some; [done|by eapply Hm].
  - apply keep_race; [done|by left|done|]. intros j ? ? ? ? ? Hj ->. destruct Hi; congruence.
Qed.

(** ** Order of delivery *)

(** A service without open transactions. *)
Definition quiet_outbox (m : rows) : ostate := mkO m None ∅.
Definition gapless (m : rows) : Prop := forall t c, exists n, 0 <= n /\ numbered t c 0 n m.

Lemma quiet_race_ok m : gapless m -> race_ok (quiet_outbox m).
Proof.
  intros Hg. split; [|by intros *; cbn; rewrite lookup_empty].
  intros t c. destruct (Hg t c) as (n & ? & ?). exists n. split; [done|done|..]; cbn; intros *; by rewrite lookup_empty.
Qed.

Lemma osteps_ok s s' : rtc ostep s s' -> race_ok s -> race_ok s'.
Proof. induction 1 as [|s1 s2 s3 H12 _ IH]; [done|]. intros H. apply IH. by eapply ostep_ok. Qed.

Lemma ostep_keeps s s' k o :
  race_ok s -> ostep s s' -> o_committed s !! k = Some o -> o_committed s' !! k = Some o.
Proof.
  intros [Hs _] Hst Hk. destruct Hst as [| | | | | |s i own Hi|]; try done. cbn.
  destruct k as [[t c] q]. destruct (Hs t c) as [n Hn]. destruct (st_own _ _ _ _ Hn _ _ Hi) as (m & ? & Ho).
  rewrite lookup_union_r; [done|]. destruct (own !! (t, c, q)) eqn:E; [|done].
  assert (n < q <= m) by (apply Ho; cbn; by rewrite E).
  assert (0 < q <= n) by (apply (st_committed _ _ _ _ Hn); by rewrite Hk). lia.
Qed.

Lemma osteps_keep s s' k o :
  race_ok s -> rtc ostep s s' -> o_committed s !! k = Some o -> o_committed s' !! k = Some o.
Proof.
  intros Hr Hs. revert Hr. induction Hs as [|s1 s2 s3 H12 _ IH]; [done|]. intros Hr Hk.
  apply IH; [by eapply ostep_ok|by eapply ostep_keeps].
Qed.

(** C14.  A consumer misses nothing: however the transactions that write to the
    outbox interleave, fail and commit, the committed numbers of every stream run from
    1 without a gap, committed messages stay, and whatever is committed later has a
    higher number than everything a consumer can have read before. *)
Theorem outbox_commits_in_order m s1 s2 :
  gapless m -> rtc ostep (quiet_outbox m) s1 -> rtc ostep s1 s2 ->
  gapless (o_committed s2) /\
  (forall k o, o_committed s1 !! k = Some o -> o_committed s2 !! k = Some o) /\
  (forall t c q q', is_Some (o_committed s1 !! (t, c, q)) ->
     o_committed s1 !! (t, c, q') = None -> is_Some (o_committed s2 !! (t, c, q')) -> q < q').
Proof.
  intros Hg H1 H2. pose proof (osteps_ok _ _ H1 (quiet_race_ok m Hg)) as R1. pose proof (osteps_ok _ _ H2 R1) as R2.
  split_and!.
  - intros t c. destruct (proj1 R2 t c) as [n Hn]. exists n. split; apply Hn.
  - intros k o. exact (osteps_keep s1 s2 k o R1 H2).
  - intros t c q q' Hq Hno Hq'. destruct (proj1 R1 t c) as [n1 S1]. destruct (proj1 R2 t c) as [n2 S2].
    apply (st_committed _ _ _ _ S1) in Hq. apply (st_committed _ _ _ _ S2) in Hq'.
    destruct (decide (q' <= n1)); [|lia]. exfalso.
    assert (Hs : is_Some (o_committed s1 !! (t, c, q'))) by (apply (st_committed _ _ _ _ S1); lia).
    rewrite Hno in Hs. by destruct Hs.
Qed.

(** ** The mutex and the row wait for each other *)

(** Transaction [i] wants the mutex; [j] holds it and waits for a row of [i]. *)
Definition deadlocked (i j : nat) (s : ostate) : Prop :=
  i <> j /\ o_mutex s = Some j /\
  exists own t c row own' t' c' q row', o_txs s !! i = Some (Wanting own t c row) /\
    o_txs s !! j = Some (Blocked own' t' c' q row') /\ is_Some (own !! (t', c', q)).

Lemma deadlock_stays i j s s' : race_ok s -> deadlocked i j s -> ostep s s' ->
  deadlocked i j s' /\ o_txs s' !! i = o_txs s !! i /\ o_txs s' !! j = o_txs s !! j.
Proof.
  intros [Hs Hmx] (Hne & Hmu & own & t & c & row & own' & t' & c' & q & row' & Hi & Hj & Hq) Hst.
  destruct (Hs t' c') as [n Hn].
  assert (Hc : o_committed s !! (t', c', q) = None).
  { destruct (o_committed s !! (t', c', q)) eqn:E; [|done]. destruct (st_own _ _ _ _ Hn _ _ Hi) as (m & ? & Ho).
    assert (0 < q <= n) by (apply (st_committed _ _ _ _ Hn); by rewrite E). apply Ho in Hq. lia. }
  assert (Hheld : held_by_other j (t', c', q) s) by (exists i; eexists; by split_and!).
  assert (Hkeep : forall k x mu com, k <> i -> k <> j -> mu = Some j ->
    let s' := mkO com mu (<[k := x]> (o_txs s)) in
    deadlocked i j s' /\ o_txs s' !! i = o_txs s !! i /\ o_txs s' !! j = o_txs s !! j).
  { intros k x mu com Hki Hkj ->. cbn. rewrite !lookup_insert_ne by done. split_and!; [|done..].
    split_and!; [done|done|]. exists own, t, c, row, own', t', c', q, row'. cbn.
    by rewrite !lookup_insert_ne by done. }
  destruct Hst as [s k Hk|s k ok tk ck rk Hk|s k ok tk ck rk qk Hk Hm _ _|s k ok tk ck rk qk Hk Hm _ _|
    s k ok tk ck qk rk Hk Hx|s k ok tk ck qk rk Hk Hx Hh|s k ok Hk|s k ok Hk].
  - apply Hkeep; [by intros ->; rewrite Hk in Hi|by intros ->; rewrite Hk in Hj|done].
  - apply Hkeep; [by intros ->; rewrite Hk in Hi|by intros ->; rewrite Hk in Hj|done].
  - by rewrite Hm in Hmu.
  - by rewrite Hm in Hmu.
  - assert (Ek : k = j) by (apply Hmx in Hk; congruence). subst k. rewrite Hj in Hk. injection Hk as <- <- <- <- <-.
    rewrite Hc in Hx. by destruct Hx.
  - assert (Ek : k = j) by (apply Hmx in Hk; congruence). subst k. rewrite Hj in Hk. injection Hk as <- <- <- <- <-.
    by destruct Hh.
  - apply Hkeep; [by intros ->; rewrite Hk in Hi|by intros ->; rewrite Hk in Hj|done].
  - apply Hkeep; [intros ->; rewrite Hi in Hk; by destruct Hk|intros ->; rewrite Hj in Hk; by destruct Hk|done].
Qed.

Lemma deadlock_forever i j s s' : race_ok s -> deadlocked i j s -> rtc ostep s s' ->
  deadlocked i j s' /\ o_txs s' !! i = o_txs s !! i /\ o_txs s' !! j = o_txs s !! j.
Proof.
  intros Hr Hd Hs. revert Hr Hd. induction Hs as [|s1 s2 s3 H12 _ IH]; [done|]. intros Hr Hd.
  destruct (deadlock_stays _ _ _ _ Hr Hd H12) as (Hd2 & E1 & E2).
  destruct (IH (ostep_ok _ _ Hr H12) Hd2) as (? & -> & ->). done.
Qed.

Lemma gapless_empty : gapless ∅.
Proof. intros t c. exists 0. split; [done|]. by apply numbered_empty. Qed.

(** The first transaction has written to a stream, the second one tries to. *)
Lemma second_writer_blocks t c row1 row2 :
  exists s own q, rtc ostep (quiet_outbox ∅) s /\ o_txs s !! 0%nat = Some (Between own) /\
    o_txs s !! 1%nat = Some (Blocked ∅ t c q row2) /\ is_Some (own !! (t, c, q)) /\ o_mutex s = Some 1%nat.
Proof.
  do 3 eexists. split.
  { eapply rtc_l; [by apply (o_begin _ 0)|].
    eapply rtc_l; [eapply (o_call _ 0 ∅ t c row1), lookup_insert_eq|].
    eapply rtc_l; [eapply (o_insert _ 0 ∅ t c row1); [apply lookup_insert_eq|done|reflexivity|]|].
    { intros (j & x & Hj & Hx & _). cbn in Hx. by rewrite !lookup_insert_ne, lookup_empty in Hx by done. }
    eapply rtc_l; [by apply (o_begin _ 1)|].
    eapply rtc_l; [eapply (o_call _ 1 ∅ t c row2), lookup_insert_eq|].
    eapply rtc_once, (o_block _ 1 ∅ t c row2); [apply lookup_insert_eq|done|reflexivity|].
    exists 0%nat. eexists. split; [done|]. split; [reflexivity|]. cbn. rewrite lookup_insert_eq. by eexists. }
  cbn. split; [reflexivity|]. split; [reflexivity|]. split; [|done]. rewrite lookup_insert_eq. by eexists.
Qed.

(** The mutex does not prevent the race it is there for: when two transactions write to
    the same consumer at the same time, the second one fails once the first commits, and
    the handler that ignores the error of [WriteTx] fails to commit. *)
Theorem second_writer_aborted t c row1 row2 :
  exists s, rtc ostep (quiet_outbox ∅) s /\ o_txs s !! 0%nat = Some Over /\ o_txs s !! 1%nat = Some Aborted /\
    exists q o, o_committed s !! (t, c, q) = Some o.
Proof.
  destruct (second_writer_blocks t c row1 row2) as (s & own & q & Hs & H0 & H1 & [o Hq] & _).
  assert (Hc : (own ∪ o_committed s) !! (t, c, q) = Some o) by by apply lookup_union_Some_l.
  eexists. split; [|split; [|split]].
  - etrans; [exact Hs|]. eapply rtc_l; [by eapply (o_commit _ 0)|].
    eapply rtc_once, (o_duplicate _ 1); cbn; [by rewrite lookup_insert_ne|by rewrite Hc].
  - cbn. by rewrite lookup_insert_ne, lookup_insert_eq.
  - cbn. by rewrite lookup_insert_eq.
  - exists q, o. exact Hc.
Qed.

(** Two handlers can block each other, and everyone else, for ever.  A
    transaction that has written to a consumer and goes on to a second one (as
    [IssueRevocation] does) waits for [seqMu]; the holder of the mutex waits in the
    server for the first one's row.  The server does not see the mutex, so it detects no
    deadlock; neither transaction moves again, and no message is written any more. *)
Theorem outbox_deadlock t c1 c2 row1 row2 row3 :
  exists s, rtc ostep (quiet_outbox ∅) s /\ deadlocked 0 1 s /\
    forall s', rtc ostep s s' -> o_txs s' !! 0%nat = o_txs s !! 0%nat /\ o_txs s' !! 1%nat = o_txs s !! 1%nat /\
      o_mutex s' = Some 1%nat.
Proof.
  destruct (second_writer_blocks t c1 row1 row2) as (s & own & q & Hs & H0 & H1 & Hq & Hm).
  set (s1 := set_tx 0 (Wanting own t c2 row3) (o_mutex s) s).
  assert (Hs1 : rtc ostep (quiet_outbox ∅) s1) by (etrans; [exact Hs|]; by eapply rtc_once, o_call).
  assert (Hd : deadlocked 0 1 s1).
  { split; [done|]. split; [done|]. exists own, t, c2, row3, ∅, t, c1, q, row2. cbn.
    by rewrite lookup_insert_eq, lookup_insert_ne. }
  exists s1. split; [done|]. split; [done|]. intros s' Hs'.
  destruct (deadlock_forever 0 1 s1 s' (osteps_ok _ _ Hs1 (quiet_race_ok ∅ gapless_empty)) Hd Hs')
    as ((_ & ? & _) & ? & ?). done.
Qed.

(** ** Witness *)

Definition row_a : outbox_row := mkOutbox (uuid_of_Z 1) [x01] None 0.

Lemma outbox_commits_in_order_witness :
  exists s q, is_Some (o_committed s !! (tenant1, "d"%string, q)) /\ gapless (o_committed s).
Proof.
  destruct (second_writer_aborted tenant1 "d" row_a row_a) as (s & Hs & _ & _ & q & o & Hc).
  exists s, q. split; [rewrite Hc; by eexists|].
  exact (proj1 (outbox_commits_in_order ∅ (quiet_outbox ∅) s gapless_empty (rtc_refl _ _) Hs)).
Defined.
