(* ===== verification/AuditChain.v ===== *)
(** * AuditChain: the per-tenant audit chain

    [service/internal/audit/chain.go].  [InsertTx] appends an event inside the
    caller's transaction through the stored function [insert_audit_event] and
    then fills in the detail columns; the checkpoint manager signs and stores the
    head; [VerifyChain] re-reads a range of the chain. *)

From stdpp Require Import base gmap strings list fin_maps sorting pretty.
From Stdlib Require Import ZArith Lia Strings.Byte.
From S2P Require Import Prelude Identity Cose Envelope Database Schema.

Open Scope Z_scope.
Open Scope go_scope.

(** ** JSON *)

(** The values the service puts in JSON objects. *)
Inductive jval : Type :=
| JStr (s : string)
| JUuid (u : UUID)
| JInt (z : Z)
| JTime (t : Time)
| JBytes (b : bytes).

(** [encoding/json]: [json.Marshal] of an object with these members, and of a
    [json.RawMessage], which is compacted when it is valid JSON. *)
Class GoJson : Type := {
  json_object : list (string * jval) -> outcome bytes;
  json_compact : bytes -> option bytes
}.

(** ** Events *)

Record AuditEvent : Type := mkAuditEvent {
  ae_TenantID : UUID;
  ae_EventType : string;
  ae_Producer : string;
  ae_ProducerSeq : option Z;
  ae_UserID : option UUID;
  ae_DeviceID : option UUID;
  ae_SrcNodeID : option string;
  ae_NodeID : option UUID;
  ae_ResourceID : option UUID;
  ae_Protocol : option string;
  ae_Result : option string;
  ae_RequestID : option UUID;
  ae_RuleID : option string;
  ae_PolicyVersion : option Z;
  ae_CorrelationID : UUID;
  ae_Payload : option bytes;
  ae_ProducerSig : bytes
}.

Definition EventAccessRequest : string := "ACCESS_REQUEST".
Definition EventApprovalRequest : string := "APPROVAL_REQUEST".
Definition EventApprovalDecision : string := "APPROVAL_DECISION".
Definition EventGrantIssued : string := "GRANT_ISSUED".
Definition EventGrantConsumed : string := "GRANT_CONSUMED".
Definition EventGrantExpired : string := "GRANT_EXPIRED".
Definition EventEnforceDenied : string := "ENFORCE_DENIED".
Definition EventSessionTerminated : string := "SESSION_TERMINATED".
Definition EventDeviceEnrolled : string := "DEVICE_ENROLLED".
Definition EventDeviceRevoked : string := "DEVICE_REVOKED".
Definition EventNodeRegistered : string := "NODE_REGISTERED".
Definition EventNodeRevoked : string := "NODE_REVOKED".
Definition EventPolicyPublished : string := "POLICY_PUBLISHED".
Definition EventPolicyExpired : string := "POLICY_EXPIRED".
Definition EventRevocationDelivered : string := "REVOCATION_DELIVERED".
Definition EventKeyRotated : string := "KEY_ROTATED".
Definition EventBreakGlassAuthorized : string := "BREAKGLASS_AUTHORIZED".
Definition EventBreakGlassUsed : string := "BREAKGLASS_USED".
Definition EventBreakGlassExpired : string := "BREAKGLASS_EXPIRED".
Definition EventAuditExported : string := "AUDIT_EXPORTED".
Definition EventEnrollmentTicket : string := "ENROLLMENT_TICKET_ISSUED".

(** [Checkpoint] *)
Record Checkpoint : Type := mkCheckpoint {
  cp_TenantID : UUID;
  cp_FirstSeq : Z;
  cp_LastSeq : Z;
  cp_LastHash : bytes;
  cp_CreatedAt : Time;
  cp_Signature : bytes;
  cp_Kid : string
}.

Section Audit.
Context `{Postgres} `{GoCrypto} `{GoJson}.

(** [computeRowHash]: the tenant id is not written to the hash. *)
Definition computeRowHash (tenantID : UUID) (seq : Z) (eventType producer : string)
    (payload : option bytes) : bytes :=
  sha256 (be_bytes 8 seq ++ str_bytes eventType ++ str_bytes producer ++ default [] payload).

Definition event_detail (e : AuditEvent) : audit_detail :=
  mkDetail (ae_ProducerSeq e) (ae_UserID e) (ae_DeviceID e) (ae_SrcNodeID e) (ae_NodeID e)
    (ae_ResourceID e) (ae_Protocol e) (ae_Result e) (ae_RequestID e) (ae_RuleID e)
    (ae_PolicyVersion e) (Some (ae_CorrelationID e)) (ae_ProducerSig e).

(** The UPDATE of [InsertTx]. *)
Definition update_audit_row (tenant : UUID) (seq : Z) (detail : audit_detail) (rowHash : bytes)
    : stmt unit := fun now d =>
  match db_events d !! (tenant, seq) with
  | Some a => inr (tt, set_events (<[(tenant, seq) :=
                mkAudit (a_event_type a) (a_producer a) (a_payload a) detail (a_prev_hash a) rowHash]>
                (db_events d)) d)
  | None => inr (tt, d)
  end.

(** [json.Marshal(event.Payload)]; an error leaves [eventBytes] nil. *)
Definition event_bytes (e : AuditEvent) : option bytes :=
  match ae_Payload e with
  | None => Some (str_bytes "null")
  | Some b => json_compact b
  end.

(** [ChainWriter.InsertTx] *)
Definition InsertTx (event : AuditEvent) : M Z :=
  let eventBytes := event_bytes event in
  seq ← mwrap "audit: insert event: %w" []
    (tx_exec (insert_audit_event (ae_TenantID event) (ae_EventType event) (ae_Producer event)
       eventBytes));
  let rowHash := computeRowHash (ae_TenantID event) seq (ae_EventType event) (ae_Producer event)
                   eventBytes in
  mwrap "audit: update event details: %w" []
    (tx_exec (update_audit_row (ae_TenantID event) seq (event_detail event) rowHash)) ;;
  mret seq.

(** ** Checkpoints *)

(** The [AuditSigner] interface. *)
Record AuditSigner : Type := mkAuditSigner { as_Sign : bytes -> outcome (bytes * string) }.

(** [json.Marshal] of a [Checkpoint]. *)
Definition json_checkpoint (cp : Checkpoint) : outcome bytes :=
  json_object [("tenant_id", JUuid (cp_TenantID cp)); ("first_seq", JInt (cp_FirstSeq cp));
               ("last_seq", JInt (cp_LastSeq cp)); ("last_hash", JBytes (cp_LastHash cp));
               ("created_at", JTime (cp_CreatedAt cp)); ("signature", JBytes (cp_Signature cp));
               ("kid", JStr (cp_Kid cp))]%string.

Definition event_seqs (tenant : UUID) (d : Db) : list Z :=
  omap (fun '((t, s), _) => if t == tenant then Some s else None) (map_to_list (db_events d)).

Definition insert_checkpoint (tenant : UUID) (cpBytes lastHash : bytes) : stmt unit := fun now d =>
  match jsonb_arg (Some cpBytes) with
  | inl e => inl e
  | inr payload =>
      let seq := coalesce 0 (sql_max (event_seqs tenant d)) + 1 in
      inr (tt, set_events (<[(tenant, seq) :=
        mkAudit "AUDIT_CHECKPOINT" "service" payload no_detail lastHash lastHash]> (db_events d)) d)
  end.

(** [checkpointManager.exportCheckpoint] *)
Definition exportCheckpoint (cp : Checkpoint) : M unit :=
  cpBytes ← lift (json_checkpoint cp);
  db_exec (insert_checkpoint (cp_TenantID cp) cpBytes (cp_LastHash cp)).

Definition create_checkpoint (signer : AuditSigner) (tenant : UUID) (h : head_row) : M unit :=
  now ← time_Now;
  let first := h_last_seq h - 9999 in
  let cp := mkCheckpoint tenant (if first <? 1 then 1 else first) (h_last_seq h) (h_last_hash h)
              now [] "" in
  let checkpointBytes := match json_checkpoint cp with Ok b => b | _ => [] end in
  '(sig, kid) ← lift (wrap "audit: sign checkpoint: %w" [] (as_Sign signer checkpointBytes));
  mwrap "audit: export checkpoint: %w" []
    (exportCheckpoint (mkCheckpoint (cp_TenantID cp) (cp_FirstSeq cp) (cp_LastSeq cp)
                         (cp_LastHash cp) (cp_CreatedAt cp) sig kid)).

(** The loop over the selected heads returns at the first error. *)
Fixpoint checkpoint_rows (signer : AuditSigner) (rows : list (UUID * head_row)) : M unit :=
  match rows with
  | [] => mret tt
  | (tenant, h) :: rest => create_checkpoint signer tenant h ;; checkpoint_rows signer rest
  end.

(** [checkpointManager.createCheckpoints] *)
Definition createCheckpoints (signer : AuditSigner) : M unit :=
  rows ← mwrap "audit: query audit heads: %w" []
    (db_query (fun now d => Some (filter (fun r => 0 < h_last_seq r.2) (map_to_list (db_heads d)))));
  checkpoint_rows signer rows.

(** [checkpointManager]: its signer and whether [stopCh] is closed. *)
Record checkpointManager : Type := mkCheckpointManager { cm_signer : AuditSigner; cm_stopped : bool }.

Definition newCheckpointManager (signer : AuditSigner) : checkpointManager :=
  mkCheckpointManager signer false.

(** [checkpointManager.Stop]: the second call closes a closed channel. *)
Definition cm_Stop (cm : checkpointManager) : outcome checkpointManager :=
  if cm_stopped cm then Panic else Ok (mkCheckpointManager (cm_signer cm) true).

(** [checkpointManager.loop] over the channels its [select] finds ready, in order:
    a tick creates checkpoints and drops the error, a closed [stopCh] ends it. *)
Inductive ready : Type := StopCh | TickerC.
Fixpoint checkpoint_loop (cm : checkpointManager) (selected : list ready) : M unit :=
  match selected with
  | [] | StopCh :: _ => mret tt
  | TickerC :: rest => ignore (createCheckpoints (cm_signer cm)) ;; checkpoint_loop cm rest
  end.

(** ** Verification *)

(** [sha256Equal] *)
Fixpoint sha256Equal_loop (a b : bytes) : bool :=
  match a, b with
  | x :: a', y :: b' => if x != y then false else sha256Equal_loop a' b'
  | _, _ => true
  end.
Definition sha256Equal (a b : bytes) : bool :=
  if negb (length a =? length b)%nat then false else sha256Equal_loop a b.

(** [ORDER BY seq ASC] *)
Definition aseq_le (a b : Z * audit_row) : Prop := a.1 <= b.1.
#[export] Instance aseq_le_dec : RelDecision aseq_le := fun a b => decide (a.1 <= b.1).
#[export] Instance aseq_le_total : Total aseq_le.
Proof. intros a b. unfold aseq_le. lia. Qed.
#[export] Instance aseq_le_trans : Transitive aseq_le.
Proof. intros a b c. unfold aseq_le. lia. Qed.

Definition chain_rows (tenant : UUID) (fromSeq toSeq : Z) (d : Db) : list (Z * audit_row) :=
  merge_sort aseq_le
    (omap (fun '((t, s), a) => if (t == tenant) && (fromSeq <=? s) && (s <=? toSeq)
                               then Some (s, a) else None)
       (map_to_list (db_events d))).

(** The loop of [VerifyChain]; [prev] is [None] on the first row.  A NULL
    payload does not scan into a [json.RawMessage]. *)
Fixpoint verify_rows (tenant : UUID) (prev : option bytes) (rows : list (Z * audit_row))
    : outcome bool :=
  match rows with
  | [] => Ok true
  | (seq, a) :: rest =>
      match a_payload a with
      | None => Err (Errorf "sql: Scan error on column payload" [])
      | Some payload =>
          if match prev with Some p => negb (sha256Equal p (a_prev_hash a)) | None => false end
          then Err (Errorf "audit: chain broken at seq %d" [AInt seq]) else
          if negb (sha256Equal (computeRowHash tenant seq (a_event_type a) (a_producer a)
                                  (Some payload)) (a_row_hash a))
          then Err (Errorf "audit: row hash mismatch at seq %d — data may be tampered" [AInt seq]) else
          verify_rows tenant (Some (a_row_hash a)) rest
      end
  end.

(** [VerifyChain] *)
Definition VerifyChain (tenant : UUID) (fromSeq toSeq : Z) : M bool :=
  rows ← mwrap "audit: query chain: %w" []
    (db_query (fun now d => Some (chain_rows tenant fromSeq toSeq d)));
  lift (verify_rows tenant None rows).

End Audit.
