(* ===== verification/Enforcement.v ===== *)
(** * Enforcement: the approval engine

    [service/internal/enforcement/engine.go]: creating a request, processing the
    device's answer (and minting the grant), cancelling, and consuming a grant.
    Each handler is a computation of [Database.M] that runs the statements of the
    source in their order; the statements that are not stored functions are
    defined next to the handler that issues them. *)

From stdpp Require Import base gmap strings list fin_maps pretty.
From Stdlib Require Import ZArith Lia Strings.Byte.
From S2P Require Import Prelude Identity Cose Envelope Database Schema Messaging AuditChain.

Open Scope Z_scope.
Open Scope go_scope.

(** ** Inputs and results *)

Record CreateApprovalRequestInput : Type := mkCreateInput {
  ci_TenantID : UUID;
  ci_TailnetID : string;
  ci_UserID : UUID;
  ci_SrcNodeID : string;
  ci_SrcNodeKeyEpoch : Z;
  ci_RequestingIP : string;
  ci_NodeID : UUID;
  ci_ResourceID : UUID;
  ci_Protocol : string;
  ci_SSHAccount : string;
  ci_Scope : Scope;
  ci_Binding : ScopeBinding;
  ci_PolicyVersion : Z;
  ci_RuleID : string;
  ci_DeviceID : UUID
}.

Record ProcessApprovalInput : Type := mkProcessInput {
  pi_TenantID : UUID;
  pi_RequestID : UUID;
  pi_DeviceID : UUID;
  pi_Decision : Decision;
  pi_SignedResponse : option ApprovalResponse
}.

Record ProcessApprovalResult : Type := mkProcessResult {
  par_NewState : ApprovalState;
  par_GrantJTI : option UUID;
  par_AGTBytes : option bytes
}.

Record resourceDetails : Type := mkResourceDetails {
  rd_NodeID : string;
  rd_ServiceID : string;
  rd_Port : Z;
  rd_DeploymentMode : string;
  rd_Protocol : string;
  rd_Sensitivity : string
}.

(** ** The signers the engine is given *)

(** [RequestSigner.SignRequest] and [GrantSigner.SignGrant] get a pointer to the
    payload; the payload as they leave it comes back with the COSE_Sign1 bytes.
    The first argument is the signer's reading of the clock. *)
Class RequestSigner : Type := {
  SignRequest : Time -> RequestPayload -> outcome (RequestPayload * bytes)
}.
Class GrantSigner : Type := {
  SignGrant : Time -> AGTPayload -> outcome (AGTPayload * bytes)
}.

Section Engine.
Context `{UT : UuidText} `{CI : CborInit} `{GC : GoCrypto} `{CB : Cbor ScopeBinding}.
Context `{CA : Cbor AGTPayload}.
Context `{PG : Postgres} `{GJ : GoJson} `{RS : RequestSigner} `{GS : GrantSigner}.

(** What a signer may do to the payload: prepare it, and nothing else. *)
Class GrantSignerLaws : Prop := {
  SignGrant_prepares : forall now p p' b, SignGrant now p = Ok (p', b) ->
    exists pb, PrepareAGTPayload now p = Ok (p', pb)
}.

(** [generateCapabilities] *)
Definition generateCapabilities : M (string * string) :=
  u1 ← uuid_New; u2 ← uuid_New;
  mret ("dnivio_poll_" +:+ uuid_String u1, "dnivio_redeem_" +:+ uuid_String u2)%string.

(** [getResourceLabel]: any error gives the label "unknown". *)
Definition getResourceLabel (tenant resource : UUID) : M DisplayLabel :=
  r ← try (db_query (fun now d =>
    (fun x => coalesce (r_service_id x) (r_display_label x)) <$> select_resource tenant resource d));
  match r with
  | Ok name => mret (mkDisplayLabel name "")
  | _ => mret (mkDisplayLabel "unknown" "")
  end.

(** [getResourceDetails] *)
Definition getResourceDetails (tenant resource : UUID) : M resourceDetails :=
  r ← tx_query (fun now d => select_resource tenant resource d);
  mret (mkResourceDetails (uuid_String (r_protected_node_id r)) (r_service_id r) (r_port r)
          (r_deployment_mode r) "TCP" (r_sensitivity r)).

(** [resolveUserIdentity]: on [ae.db], outside the caller's transaction. *)
Definition resolveUserIdentity (tenant user : UUID) : M OIDCIdentity :=
  u ← mwrap "resolve user: %w" [] (db_query (fun now d => select_user tenant user d));
  mret (mkOIDCIdentity (u_oidc_issuer u) (u_oidc_subject u) (uuid_String user)).

(** A [[]byte] bound to a [binding] column, NOT NULL. *)
Definition binding_arg (b : option bytes) : error + bytes :=
  match b with
  | None => if nil_bytes_null then inl (Errorf "null value violates not-null constraint" [])
            else match binding_in [] with
                 | Some t => inr t
                 | None => inl (Errorf "invalid input syntax for type json" [])
                 end
  | Some v => match binding_in v with
              | Some t => inr t
              | None => inl (Errorf "invalid input syntax for type json" [])
              end
  end.

(** ** Creating a request *)

Definition scope_check (s : string) : bool :=
  (s == "REQUEST") || (s == "CONNECTION") || (s == "DURATION") || (s == "SESSION").

Definition insert_request (id : UUID) (i : CreateApprovalRequestInput)
    (bindingBytes : option bytes) (challenge envelope pollHash redeemHash : bytes) (expires : Time)
    : stmt unit := fun now d =>
  let t := ci_TenantID i in
  match binding_arg bindingBytes with
  | inl e => inl e
  | inr binding =>
      if negb (inet_ok (ci_RequestingIP i))
      then inl (Errorf "invalid input syntax for type inet" []) else
      if negb (scope_check (ci_Scope i))
      then inl (Errorf "approval_requests violates check constraint" []) else
      if is_some (db_requests d !! id)
      then inl (Errorf "duplicate key value violates unique constraint approval_requests_pkey" []) else
      if negb (bool_decide (t ∈ db_tenants d) && is_some (select_user t (ci_UserID i) d) &&
               is_some (select_device t (ci_DeviceID i) d) && is_some (select_node t (ci_NodeID i) d) &&
               is_some (select_resource t (ci_ResourceID i) d))
      then inl (Errorf "approval_requests violates foreign key constraint" []) else
      inr (tt, set_requests (<[id :=
        mkRequest t (ci_UserID i) (Some (ci_DeviceID i)) (ci_NodeID i) (ci_SrcNodeID i)
          (Some (ci_RequestingIP i)) (ci_ResourceID i) (ci_Protocol i) (Some (ci_SSHAccount i))
          (ci_Scope i) binding challenge envelope [] (ci_PolicyVersion i) (Some (ci_RuleID i))
          "PENDING" 0 None pollHash redeemHash (timestamptz_in expires) None]> (db_requests d)) d)
  end.

(** The payload the engine hands to the signer. *)
Definition request_payload (i : CreateApprovalRequestInput) (requestID : UUID)
    (label : DisplayLabel) (challenge : bytes) : RequestPayload :=
  mkRequestPayload 0 requestID (ci_TenantID i) (ci_TailnetID i) time_zero time_zero (ci_DeviceID i)
    (mkInitiatingInfo (ci_SrcNodeID i) (ci_SrcNodeID i) true (ci_RequestingIP i) "")
    (mkResourceID (ci_TenantID i) (uuid_String (ci_NodeID i)) "" 0 "" "") label
    (ci_Protocol i) (ci_SSHAccount i) (ci_PolicyVersion i) (ci_RuleID i) (ci_Scope i)
    (ci_Binding i) challenge [].

(** An event with only the columns the engine sets. *)
Definition service_event (tenant : UUID) (typ : string) (user device resource : option UUID)
    (protocol result : option string) (request : option UUID) (correlation : UUID)
    (payload : option bytes) : AuditEvent :=
  mkAuditEvent tenant typ "service" None user device None None resource protocol result request
    None None correlation payload [].

(** [auditPayload, _ := json.Marshal(map[string]interface{}{...})]; a map is
    written with its keys sorted. *)
Definition json_payload (members : list (string * jval)) : option bytes :=
  match json_object members with Ok b => Some b | _ => None end.

(** [ApprovalEngine.CreateApprovalRequest] *)
Definition CreateApprovalRequest (i : CreateApprovalRequestInput)
    : M (RequestEnvelope * string * string) :=
  requestID ← uuid_New;
  rnd ← rand_Read;
  challenge ← lift (wrap "enforcement: generate challenge: %w" [] (NewNonce rnd));
  resourceLabel ← mwrap "enforcement: get resource: %w" []
    (getResourceLabel (ci_TenantID i) (ci_ResourceID i));
  let payload := request_payload i requestID resourceLabel challenge in
  ts ← time_Now;
  '(payload, envelopeBytes) ← lift (wrap "enforcement: sign request: %w" [] (SignRequest ts payload));
  '(pollCap, redeemCap) ← generateCapabilities;
  let pollCapHash := sha256 (str_bytes pollCap) in
  let redeemCapHash := sha256 (str_bytes redeemCap) in
  mwrap "enforcement: begin tx: %w" [] BeginTx ;;
  defer_rollback (
    let bindingBytes := match EncodeCanonical (ci_Binding i) with Ok b => Some b | _ => None end in
    texp ← time_Now;
    mwrap "enforcement: insert request: %w" []
      (tx_exec (insert_request requestID i bindingBytes challenge envelopeBytes pollCapHash
                  redeemCapHash (texp + 60 * Second))) ;;
    let auditPayload := json_payload
      [("device_id", JUuid (ci_DeviceID i)); ("protocol", JStr (ci_Protocol i));
       ("resource_id", JUuid (ci_ResourceID i)); ("rule_id", JStr (ci_RuleID i));
       ("scope", JStr (ci_Scope i)); ("user_id", JUuid (ci_UserID i))]%string in
    corr ← uuid_New;
    ignore (InsertTx (service_event (ci_TenantID i) EventApprovalRequest (Some (ci_UserID i))
      (Some (ci_DeviceID i)) (Some (ci_ResourceID i)) (Some (ci_Protocol i)) None (Some requestID)
      corr auditPayload)) ;;
    mid ← uuid_New;
    ignore (WriteTx (mkOutboxMessage (ci_TenantID i) (uuid_String (ci_DeviceID i)) mid
      (Some envelopeBytes))) ;;
    mwrap "enforcement: commit: %w" [] Commit ;;
    NotifyConsumer (ci_TenantID i) (uuid_String (ci_DeviceID i)) ;;
    mret (mkRequestEnvelope None payload, pollCap, redeemCap)).

(** ** Minting a grant *)

Definition request_has_grant (tenant request : UUID) (d : Db) : bool :=
  existsb (fun '((t, _), g) => (t == tenant) && (g_request g == request))
    (map_to_list (db_grants d)).

Definition insert_grant (tenant jti : UUID) (bindingBytes : bytes) (g : grant_row) : stmt unit :=
  fun now d =>
  match binding_arg (Some bindingBytes) with
  | inl e => inl e
  | inr _ =>
      match validate_grant_ttl tenant g d with
      | Some e => inl e
      | None =>
          if request_has_grant tenant (g_request g) d then inr (tt, d) else
          if is_some (db_grants d !! (tenant, jti))
          then inl (Errorf "duplicate key value violates unique constraint grants_pkey" []) else
          if negb (bool_decide (tenant ∈ db_tenants d) && is_some (select_request tenant (g_request g) d) &&
                   is_some (select_user tenant (g_user g) d) &&
                   is_some (select_device tenant (g_device g) d) &&
                   is_some (select_node tenant (g_node g) d) &&
                   is_some (select_resource tenant (g_resource g) d))
          then inl (Errorf "grants violates foreign key constraint" []) else
          inr (tt, set_grants (<[(tenant, jti) := g]> (db_grants d)) d)
      end
  end.

Definition mark_granted (tenant request : UUID) : stmt unit := fun now d =>
  match select_request tenant request d with
  | Some q =>
      if q_state q == "APPROVED"
      then inr (tt, set_requests (<[request :=
             q_update "GRANTED" (q_state_version q + 1) (q_response q) (q_decided_at q) q]>
             (db_requests d)) d)
      else inr (tt, d)
  | None => inr (tt, d)
  end.

(** The token payload before signing. *)
Definition agt_payload (jti tenant : UUID) (who : OIDCIdentity) (srcNodeID : string)
    (srcNodeKeyEpoch : Z) (device : UUID) (r : resourceDetails) (scope : string)
    (binding : ScopeBinding) (policyVersion : Z) (ruleID : string) (authzEpoch : Z)
    (now : Time) (maxTTL : Duration) : AGTPayload :=
  mkAGTPayload 0 jti tenant "" who srcNodeID srcNodeKeyEpoch device "" SecurityLevelStrongBox ""
    (mkResourceID tenant (rd_NodeID r) (rd_ServiceID r) (rd_Port r) TransportTCP
       (rd_DeploymentMode r))
    (rd_Protocol r) (rd_DeploymentMode r) scope binding policyVersion ruleID authzEpoch
    now now (now + maxTTL).

(** The row of the INSERT, from the payload as the signer left it. *)
Definition grant_of_payload (p : AGTPayload) (request user node resource : UUID)
    (srcNodeID : string) (agtBytes : bytes) : grant_row :=
  mkGrant request user srcNodeID (agt_SrcNodeKeyEpoch p) (agt_ApproverDeviceID p) node resource
    (agt_Protocol p) (agt_Scope p) [] (agt_PolicyVersion p) (agt_AuthzEpoch p)
    (agt_DeviceSecurityLevel p) agtBytes "" (timestamptz_in (agt_IssuedAt p))
    (timestamptz_in (agt_NotBefore p)) (timestamptz_in (agt_ExpiresAt p)) None.

(** [ApprovalEngine.mintGrant] *)
Definition mintGrant (tenant request user : UUID) (srcNodeID : string) (device resource : UUID)
    (scope : string) (policyVersion : Z) (ruleID : string) (binding : ScopeBinding)
    (srcNodeKeyEpoch authzEpoch : Z) : M (UUID * bytes) :=
  jti ← uuid_New;
  who ← resolveUserIdentity tenant user;
  r ← getResourceDetails tenant resource;
  let maxTTL := MaxGrantTTL scope (rd_Sensitivity r) in
  now ← time_Now;
  let payload := agt_payload jti tenant who srcNodeID srcNodeKeyEpoch device r scope binding
                   policyVersion ruleID authzEpoch now maxTTL in
  ts ← time_Now;
  '(p, agtBytes) ← lift (wrap "enforcement: sign grant: %w" [] (SignGrant ts payload));
  node ← lift (uuid_MustParse (res_ProtectedNodeID (agt_Resource p)));
  mwrap "enforcement: insert grant: %w" []
    (tx_exec (insert_grant tenant jti []
       (grant_of_payload p request user node resource srcNodeID agtBytes))) ;;
  mwrap "enforcement: mark granted: %w" [] (tx_exec (mark_granted tenant request)) ;;
  let auditPayload := json_payload
    [("expires_at", JTime (agt_ExpiresAt p)); ("jti", JUuid jti); ("request_id", JUuid request);
     ("scope", JStr scope)]%string in
  corr ← uuid_New;
  ignore (InsertTx (service_event tenant EventGrantIssued (Some user) None None None None
    (Some request) corr auditPayload)) ;;
  ignore (WriteTx (mkOutboxMessage tenant (res_ProtectedNodeID (agt_Resource p)) jti
    (Some agtBytes))) ;;
  mret (jti, agtBytes).

(** ** Processing the device's answer *)

(** [LEFT JOIN nodes]: the key epoch of the initiating node, 0 without a row. *)
Definition src_key_epoch (tenant : UUID) (src : string) (d : Db) : Z :=
  coalesce 0 (head (omap (fun '(_, n) =>
    if (n_tenant n == tenant) && (n_ts_stable_node_id n == src)
    then Some (n_node_key_epoch n) else None) (map_to_list (db_nodes d)))).

(** [SELECT COALESCE(MAX(epoch), 1) FROM policies WHERE tenant_id = $1] *)
Definition policy_epochs (tenant : UUID) (d : Db) : list Z :=
  omap (fun '((t, _), p) => if t == tenant then Some (p_epoch p) else None)
    (map_to_list (db_policies d)).

Definition record_response (tenant request : UUID) (decision : string) (resp : ApprovalResponse)
    : stmt unit := fun now d =>
  match select_request tenant request d with
  | Some q => inr (tt, set_requests (<[request :=
      q_update (q_state q) (q_state_version q)
        (Some (mkResponse decision (ar_Signature resp) (ar_KeyID resp) (ar_DeviceCounter resp)
                 (ar_ResponseNonce resp))) (q_decided_at q) q]> (db_requests d)) d)
  | None => inr (tt, d)
  end.

Definition decode_binding (b : bytes) : outcome ScopeBinding :=
  match b with
  | [] => Ok (mkScopeBinding None None None)
  | _ => wrap "enforcement: decode binding: %w" [] (DecodeCanonical b)
  end.

(** The checks and the decision after the request was read and found PENDING. *)
Definition decide_request (input : ProcessApprovalInput) (q : request_row) (ruleID : string)
    (srcNodeKeyEpoch : Z) : M ProcessApprovalResult :=
  let tenant := pi_TenantID input in
  binding ← lift (decode_binding (q_binding q));
  ep ← try (tx_query (fun now d => Some (coalesce 1 (sql_max (policy_epochs tenant d)))));
  let authzEpoch := match ep with Ok e => e | _ => 1 end in
  dev ← mwrap "enforcement: fetch device: %w" []
    (tx_query (fun now d => select_device tenant (pi_DeviceID input) d));
  let verificationKey := if pi_Decision input == DecisionApprove
                         then d_approval_auth_pub dev else d_device_auth_pub dev in
  match pi_SignedResponse input with
  | None => lift Panic
  | Some resp =>
      lift (wrap "enforcement: approval response signature verification failed: %w" []
              (VerifyApprovalResponse resp verificationKey)) ;;
      if ar_DeviceCounter resp <=? d_counter dev
      then lift (Err (Errorf "enforcement: invalid device counter %d <= %d"
                        [AInt (ar_DeviceCounter resp); AInt (d_counter dev)])) else
      let newState := if pi_Decision input == DecisionApprove
                      then ApprovalStateApproved else ApprovalStateDenied in
      mwrap "enforcement: transition state: %w" []
        (tx_exec (transition_approval_request tenant (pi_RequestID input) newState
                    (q_state_version q))) ;;
      mwrap "enforcement: update response: %w" []
        (tx_exec (record_response tenant (pi_RequestID input) (pi_Decision input) resp)) ;;
      ignore (tx_exec (advance_device_counter tenant (pi_DeviceID input) (ar_DeviceCounter resp))) ;;
      result ← (if pi_Decision input == DecisionApprove then
                  '(jti, agt) ← mwrap "enforcement: mint grant: %w" []
                    (mintGrant tenant (pi_RequestID input) (q_user q) (q_src_node_id q)
                       (pi_DeviceID input) (q_resource q) (q_scope q) (q_policy_version q) ruleID
                       binding srcNodeKeyEpoch authzEpoch);
                  mret (mkProcessResult ApprovalStateGranted (Some jti) (Some agt))
                else mret (mkProcessResult newState None None));
      let auditPayload := json_payload
        [("decision", JStr (pi_Decision input)); ("device_id", JUuid (pi_DeviceID input));
         ("request_id", JUuid (pi_RequestID input))]%string in
      corr ← uuid_New;
      ignore (InsertTx (service_event tenant EventApprovalDecision (Some (q_user q))
        (Some (pi_DeviceID input)) None None (Some (pi_Decision input)) (Some (pi_RequestID input))
        corr auditPayload)) ;;
      Commit ;;
      mret result
  end.

(** [ApprovalEngine.ProcessApproval] *)
Definition ProcessApproval (input : ProcessApprovalInput) : M ProcessApprovalResult :=
  let tenant := pi_TenantID input in
  mwrap "enforcement: begin tx: %w" [] BeginTx ;;
  defer_rollback (
    '(q, epoch) ← mwrap "enforcement: fetch request: %w" []
      (tx_query (fun now d =>
         (fun q => (q, src_key_epoch tenant (q_src_node_id q) d))
           <$> select_request tenant (pi_RequestID input) d));
    match q_rule_id q with
    | None => lift (Err (Wrapf "enforcement: fetch request: %w" []
                (Errorf "sql: Scan error on column rule_id" [])))
    | Some ruleID =>
        if q_state q != ApprovalStatePending
        then mret (mkProcessResult (q_state q) None None)
        else decide_request input q ruleID epoch
    end).

(** ** Cancelling *)

(** [ApprovalEngine.CancelApprovalRequest] *)
Definition CancelApprovalRequest (tenant request node : UUID) (reason : string) : M unit :=
  mwrap "enforcement: begin cancel tx: %w" [] BeginTx ;;
  defer_rollback (
    '(state, version) ← mwrap "enforcement: fetch request for cancel: %w" []
      (tx_query (fun now d =>
         (fun q => (q_state q, q_state_version q)) <$> select_request tenant request d));
    if state != ApprovalStatePending then ignore Commit ;; mret tt else
    mwrap "enforcement: cancel transition: %w" []
      (tx_exec (transition_approval_request tenant request "CANCELLED" version)) ;;
    let auditPayload := json_payload [("reason", JStr reason); ("request_id", JUuid request)]%string in
    corr ← uuid_New;
    ignore (InsertTx (service_event tenant "REQUEST_CANCELLED" None None None None None
      (Some request) corr auditPayload)) ;;
    mid ← uuid_New;
    ignore (WriteTx (mkOutboxMessage tenant "approver_device" mid None)) ;;
    Commit).

(** ** Consuming *)

(** [ApprovalEngine.ConsumeGrant]: the audit call gets a nil transaction. *)
Definition ConsumeGrant (tenant jti : UUID) : M bool :=
  now ← time_Now;
  consumed ← mwrap "enforcement: consume grant %s: %w" [AStr (uuid_String jti)]
    (db_exec (consume_grant tenant jti (timestamptz_in now)));
  (if (consumed : bool) then
     corr ← uuid_New;
     ignore (InsertTx (service_event tenant EventGrantConsumed None None None None None None corr
       (Some (str_bytes ("{" +:+ quoted "jti" +:+ ":" +:+ quoted (uuid_String jti) +:+ "}")%string))))
   else mret tt) ;;
  mret consumed.

End Engine.
