(* ===== verification/EngineSpec.v ===== *)
(** * EngineSpec: what each handler of the approval engine does to the tables

    The frame of the engine's statements, the well-formedness of the audit and
    outbox tables, and for each handler of [Enforcement] the exact set of table
    states it can commit, whatever statement fails. *)

From stdpp Require Import base gmap strings list fin_maps pretty.
From Stdlib Require Import ZArith Lia Strings.Byte.
From S2P Require Import Prelude Identity Cose Envelope Database Schema Messaging AuditChain Enforcement.

Open Scope Z_scope.
Open Scope go_scope.

(** ** Frames *)

(** The tables no handler of the engine writes. *)
Record frame (d d' : Db) : Prop := mkFrame {
  fr_tenants : db_tenants d' = db_tenants d;
  fr_users : db_users d' = db_users d;
  fr_nodes : db_nodes d' = db_nodes d;
  fr_resources : db_resources d' = db_resources d;
  fr_policies : db_policies d' = db_policies d;
  fr_sessions : db_sessions d' = db_sessions d;
  fr_revocations : db_revocations d' = db_revocations d;
  fr_inbox : db_inbox d' = db_inbox d;
  fr_cursors : db_cursors d' = db_cursors d;
  fr_late : db_late d' = db_late d
}.

#[export] Instance frame_refl : Reflexive frame.
Proof. intros d. by split. Qed.
#[export] Instance frame_trans : Transitive frame.
Proof. intros a b c [] []. split; congruence. Qed.

(** The audit sequence of each tenant runs from 1 to its head without gaps. *)
Definition audit_ok (d : Db) : Prop :=
  forall t s, is_Some (db_events d !! (t, s)) <->
    exists h, db_heads d !! t = Some h /\ 1 <= s <= h_last_seq h.
Definition heads_ok (d : Db) : Prop := forall t h, db_heads d !! t = Some h -> 0 <= h_last_seq h.

(** Message ids are unique in a tenant, sequence numbers are positive. *)
Definition outbox_ok (d : Db) : Prop :=
  (forall t c1 s1 o1 c2 s2 o2,
     db_outbox d !! (t, c1, s1) = Some o1 -> db_outbox d !! (t, c2, s2) = Some o2 ->
     o_message_id o1 = o_message_id o2 -> c1 = c2 /\ s1 = s2) /\
  (forall t c s o, db_outbox d !! (t, c, s) = Some o -> 0 < s).

Definition logs_ok (d : Db) : Prop := audit_ok d /\ heads_ok d /\ outbox_ok d.

(** Only the audit and outbox tables moved, and they stayed well formed. *)
Record quiet (d d' : Db) : Prop := mkQuiet {
  qt_frame : frame d d';
  qt_devices : db_devices d' = db_devices d;
  qt_requests : db_requests d' = db_requests d;
  qt_grants : db_grants d' = db_grants d;
  qt_logs : logs_ok d -> logs_ok d'
}.

#[export] Instance quiet_refl : Reflexive quiet.
Proof. intros d. by split. Qed.
#[export] Instance quiet_trans : Transitive quiet.
Proof. intros a b c [] []. split; [by etrans|congruence..|auto]. Qed.

Section Spec.
Context `{UT : UuidText} `{CI : CborInit} `{GC : GoCrypto}.
Context `{CB : Cbor ScopeBinding} `{CA : Cbor AGTPayload}.
Context `{PG : Postgres} `{GJ : GoJson} `{RS : RequestSigner} `{GS : GrantSigner}.

(** ** Audit and outbox writes are quiet *)

Lemma insert_audit_event_Ok t typ prod data now d seq d' :
  insert_audit_event t typ prod data now d = inr (seq, d') ->
  exists h row, h = default (mkHead 0 [x00]) (db_heads d !! t) /\
    seq = h_last_seq h + 1 /\ db_events d !! (t, seq) = None /\
    a_prev_hash row = h_last_hash h /\ a_event_type row = typ /\ a_producer row = prod /\
    a_detail row = no_detail /\ jsonb_arg data = inr (a_payload row) /\
    a_row_hash row = sha256 (h_last_hash h ++ be_bytes 8 seq ++ text_bytea typ ++ epoch_text now) /\
    d' = set_heads (<[t := mkHead seq (a_row_hash row)]> (db_heads d))
           (set_events (<[(t, seq) := row]> (db_events d)) d).
Proof.
  unfold insert_audit_event. destruct (jsonb_arg data) as [e|p] eqn:Ej; [done|].
  set (h := default (mkHead 0 [x00]) (db_heads d !! t)).
  assert (Eh : exists b, match db_heads d !! t with
     | Some x => (true, x) | None => (false, mkHead 0 [x00]) end = (b, h)).
  { unfold h. destruct (db_heads d !! t); eauto. }
  destruct Eh as [b Eh]. rewrite Eh. destruct (negb b && _); [done|].
  destruct (is_some (db_events d !! _)) eqn:En; [done|].
  destruct (negb _); [done|]. intros [= <- <-]. exists h.
  exists (mkAudit typ prod p no_detail (h_last_hash h)
    (sha256 (h_last_hash h ++ be_bytes 8 (h_last_seq h + 1) ++ text_bytea typ ++ epoch_text now))).
  split_and!; try done. by destruct (db_events d !! _).
Qed.

Lemma audit_ok_append d t h row seq hash :
  audit_ok d -> heads_ok d -> h = default (mkHead 0 [x00]) (db_heads d !! t) ->
  seq = h_last_seq h + 1 ->
  let d' := set_heads (<[t := mkHead seq hash]> (db_heads d))
              (set_events (<[(t, seq) := row]> (db_events d)) d) in
  audit_ok d' /\ heads_ok d'.
Proof.
  intros Ha Hh Eh -> d'. unfold d'.
  assert (H0 : 0 <= h_last_seq h).
  { subst h. destruct (db_heads d !! t) eqn:E; [by eapply Hh|done]. }
  assert (Hin : forall s, is_Some (db_events d !! (t, s)) <-> 1 <= s <= h_last_seq h).
  { intros s. rewrite (Ha t s). subst h. destruct (db_heads d !! t) as [h|]; cbn.
    - split; [by intros (? & [= <-] & ?)|eauto].
    - split; [by intros (? & ? & _)|lia]. }
  split.
  - intros t' s. cbn. destruct (decide (t' = t)) as [->|Ht].
    + destruct (decide (s = h_last_seq h + 1)) as [->|Hs].
      * rewrite !lookup_insert_eq. split; [intros _; eexists; split; [done|cbn; lia]|eauto].
      * rewrite lookup_insert_ne by congruence. rewrite lookup_insert_eq, Hin. split.
        { intros ?. eexists. split; [done|]. cbn. lia. }
        { intros (? & [= <-] & Hs'). cbn in Hs'. lia. }
    + rewrite !lookup_insert_ne by congruence. apply Ha.
  - intros t' h'. cbn. intros [[<- <-]|[_ ?]]%lookup_insert_Some; [cbn; lia|by eapply Hh].
Qed.

Lemma insert_audit_event_quiet t typ prod data now d seq d' :
  insert_audit_event t typ prod data now d = inr (seq, d') -> quiet d d'.
Proof.
  intros (h & row & Eh & Es & _ & _ & _ & _ & _ & _ & _ & ->)%insert_audit_event_Ok.
  split; [by split|done..|]. intros (Ha & Hh & Ho).
  destruct (audit_ok_append d t h row seq (a_row_hash row) Ha Hh Eh Es). by split_and!.
Qed.

Lemma update_audit_row_quiet t seq det hash now d u d' :
  update_audit_row t seq det hash now d = inr (u, d') -> quiet d d'.
Proof.
  unfold update_audit_row. destruct (db_events d !! (t, seq)) as [a|] eqn:E; [|by intros [= _ <-]].
  intros [= _ <-]. split; [by split|done..|]. intros (Ha & Hh & Ho). split_and!; [|done..].
  intros t' s. cbn. rewrite <- (Ha t' s). destruct (decide ((t', s) = (t, seq))) as [[= -> ->]|Hne].
  - rewrite lookup_insert_eq, E. split; eauto.
  - by rewrite lookup_insert_ne.
Qed.

Lemma insert_outbox_quiet msg ts now d u d' :
  insert_outbox msg ts now d = inr (u, d') -> quiet d d'.
Proof.
  unfold insert_outbox. destruct (bytea_arg _) as [|payload]; [done|].
  destruct (message_known _ _ _) eqn:Ek; [by intros [= _ <-]|]. intros [= _ <-].
  split; [by split|done..|]. intros (Ha & Hh & Hu & Hpos). split_and!; [done..|]. split; cbn.
  - assert (Hnew : forall c s o, db_outbox d !! (om_TenantID msg, c, s) = Some o ->
      o_message_id o <> om_MessageID msg).
    { intros c s o Hl E. apply not_true_iff_false in Ek. apply Ek, message_known_spec. eauto. }
    intros t c1 s1 o1 c2 s2 o2.
    intros [[[= <- <- <-] <-]|[_ H1']]%lookup_insert_Some [[E2 <-]|[_ H2']]%lookup_insert_Some Em;
      [by injection E2 as <- <-| | |by eapply Hu].
    + by destruct (Hnew _ _ _ H2').
    + injection E2 as <- <- <-. by destruct (Hnew _ _ _ H1').
  - intros t c s o [[[= <- <- <-] <-]|[_ Hl]]%lookup_insert_Some; [|by eapply Hpos].
    unfold stream_next. pose proof (sql_max_spec (map fst (stream_rows (om_TenantID msg)
      (om_Consumer msg) d))) as Hm.
    destruct (sql_max _) as [m|]; cbn; [|lia]. destruct Hm as [Hm _].
    apply list_elem_of_fmap in Hm as ([s o] & -> & Hin). apply elem_of_stream_rows in Hin.
    apply Hpos in Hin. cbn. lia.
Qed.

(** ** Ignored log writes *)

(** Either the log write worked and was quiet, or the transaction is aborted. *)
Definition quiet_or_dead (d : Db) (b : bool) (d' : Db) (b' : bool) : Prop :=
  b' = false -> b = false /\ quiet d d'.

Lemma wp_InsertTx e Q env w base now d b :
  in_tx base now d b w ->
  (forall seq d' w', b = false -> quiet d d' -> in_tx base now d' false w' -> Q (Ok seq) w') ->
  (forall x d' w', in_tx base now d' true w' -> Q (Err x) w') ->
  wp (InsertTx e) Q env w.
Proof.
  intros Hi HO HE. unfold InsertTx. wp_go. eapply wp_tx_exec; [done| |by intros; eapply HE].
  intros seq d1 w1 Hb E1 H1. wp_go. eapply wp_tx_exec; [done| |by intros; eapply HE].
  intros u d2 w2 _ E2 H2. wp_go. eapply HO; [done| |done].
  transitivity d1; [by eapply insert_audit_event_quiet|by eapply update_audit_row_quiet].
Qed.

Lemma wp_ignore_InsertTx e Q env w base now d b :
  in_tx base now d b w ->
  (forall d' b' w', quiet_or_dead d b d' b' -> in_tx base now d' b' w' -> Q (Ok tt) w') ->
  wp (ignore (InsertTx e)) Q env w.
Proof.
  intros Hi HQ. apply wp_ignore. eapply wp_InsertTx; [done|..].
  - intros seq d' w' Hb Hq Hw. eapply HQ; [|done]. by intros _.
  - intros x d' w' Hw. by apply (HQ d' true).
Qed.

Lemma wp_ignore_WriteTx msg Q env w base now d b :
  in_tx base now d b w ->
  (forall d' b' w', quiet_or_dead d b d' b' -> in_tx base now d' b' w' -> Q (Ok tt) w') ->
  wp (ignore (WriteTx msg)) Q env w.
Proof.
  intros Hi HQ. apply wp_ignore. eapply wp_WriteTx; [done|..].
  - intros t d' w' Hb Hq Hw. eapply HQ; [|done]. intros _. split; [done|].
    by eapply insert_outbox_quiet.
  - intros x w' Hw. by apply (HQ d true).
Qed.

Lemma wp_NotifyConsumer t c Q env w :
  (forall w', w_db w' = w_db w -> Q (Ok tt) w') -> wp (NotifyConsumer t c) Q env w.
Proof.
  intros HQ. unfold NotifyConsumer. apply wp_ignore. apply wp_db_exec.
  - intros n a d' w' [= _ <-] E _. by apply HQ.
  - intros n a d' e w' [= _ <-] E _. by apply HQ.
  - intros e w' E _. by apply HQ.
Qed.

(** ** The engine's own statements *)

Lemma select_request_Some t id d q :
  select_request t id d = Some q <-> db_requests d !! id = Some q /\ q_tenant q = t.
Proof.
  unfold select_request. destruct (db_requests d !! id) as [x|]; cbn; [|naive_solver].
  destruct (q_tenant x == t) eqn:E; go_bool; naive_solver.
Qed.

Lemma select_device_Some t id d v :
  select_device t id d = Some v <-> db_devices d !! id = Some v /\ d_tenant v = t.
Proof.
  unfold select_device. destruct (db_devices d !! id) as [x|]; cbn; [|naive_solver].
  destruct (d_tenant x == t) eqn:E; go_bool; naive_solver.
Qed.

(** A change of the request table at one id, and of nothing else. *)
Definition request_put (id : UUID) (q : request_row) (d d' : Db) : Prop :=
  d' = set_requests (<[id := q]> (db_requests d)) d.

Lemma transition_Ok t id new v now d b d' :
  transition_approval_request t id new v now d = inr (b, d') ->
  exists q, select_request t id d = Some q /\ q_state_version q = v /\
    valid_transition (q_state q) new = true /\
    request_put id (q_update new (v + 1) (q_response q)
      (if (new == "APPROVED") || (new == "DENIED") || (new == "EXPIRED") || (new == "CANCELLED")
       then Some now else q_decided_at q) q) d d'.
Proof.
  unfold transition_approval_request. destruct (select_request t id d) as [q|]; [|done].
  destruct (q_state_version q != v) eqn:Ev; [done|].
  destruct (negb (valid_transition (q_state q) new)) eqn:Et; [done|].
  intros [= _ <-]. go_bool. subst v. by exists q.
Qed.

Lemma record_response_Ok t id dec resp now d u d' :
  record_response t id dec resp now d = inr (u, d') ->
  (select_request t id d = None /\ d' = d) \/
  exists q, select_request t id d = Some q /\
    request_put id (q_update (q_state q) (q_state_version q)
      (Some (mkResponse dec (ar_Signature resp) (ar_KeyID resp) (ar_DeviceCounter resp)
               (ar_ResponseNonce resp))) (q_decided_at q) q) d d'.
Proof.
  unfold record_response. destruct (select_request t id d) as [q|]; intros [= _ <-]; [|by left].
  right. by exists q.
Qed.

Lemma request_has_grant_spec t rid d :
  request_has_grant t rid d = true <->
  exists jti g, db_grants d !! (t, jti) = Some g /\ g_request g = rid.
Proof.
  unfold request_has_grant. rewrite existsb_exists. split.
  - intros ([[t' jti] g] & Hin & E). apply list_elem_of_In, elem_of_map_to_list in Hin.
    go_bool. destruct E as [-> E]. eauto.
  - intros (jti & g & Hl & E). exists ((t, jti), g). split.
    + by apply list_elem_of_In, elem_of_map_to_list.
    + by rewrite E, !eqb_refl.
Qed.

Lemma insert_grant_Ok t jti b g now d u d' :
  insert_grant t jti b g now d = inr (u, d') ->
  validate_grant_ttl t g d = None /\ binding_in b <> None /\
  ((request_has_grant t (g_request g) d = true /\ d' = d) \/
   (request_has_grant t (g_request g) d = false /\ db_grants d !! (t, jti) = None /\
    d' = set_grants (<[(t, jti) := g]> (db_grants d)) d)).
Proof.
  unfold insert_grant, binding_arg. destruct (binding_in b); [|done].
  destruct (validate_grant_ttl t g d); [done|].
  destruct (request_has_grant _ _ _); [intros [= _ <-]; auto|].
  destruct (is_some _) eqn:E1; [done|]. destruct (negb _) eqn:E2; [done|]. intros [= _ <-].
  split_and!; [done..|]. right. split_and!; try done. by destruct (db_grants d !! _).
Qed.

(** ** Creating a request *)

Lemma insert_request_Ok id i bb ch ev ph rh ex now d u d' :
  insert_request id i bb ch ev ph rh ex now d = inr (u, d') ->
  exists q, request_put id q d d' /\ db_requests d !! id = None /\
    q_tenant q = ci_TenantID i /\ q_user q = ci_UserID i /\ q_device q = Some (ci_DeviceID i) /\
    q_resource q = ci_ResourceID i /\ q_scope q = ci_Scope i /\ q_envelope q = ev /\
    q_state q = "PENDING" /\ q_state_version q = 0 /\ q_response q = None /\ q_decided_at q = None /\
    is_Some (select_resource (ci_TenantID i) (ci_ResourceID i) d).
Proof.
  unfold insert_request. destruct (binding_arg _); [done|]. destruct (negb (inet_ok _)); [done|].
  destruct (negb (scope_check _)); [done|]. destruct (is_some (db_requests d !! id)) eqn:E1; [done|].
  destruct (negb _) eqn:E2; [done|]. intros [= _ <-]. eexists. split; [done|].
  rewrite negb_false_iff, !andb_true_iff in E2. destruct E2 as [_ E2].
  split_and!; try done; [by destruct (db_requests d !! id)|by destruct (select_resource _ _ _)].
Qed.

Lemma wp_getResourceLabel t r Q env w :
  (forall l w', w_db w' = w_db w -> w_tx w' = w_tx w -> Q (Ok l) w') ->
  wp (getResourceLabel t r) Q env w.
Proof.
  intros HQ. unfold getResourceLabel. wp_go. apply wp_try, wp_db_query.
  - intros n a w' _ E1 E2. wp_go. by apply HQ.
  - intros e w' E1 E2. wp_go. by apply HQ.
Qed.

Lemma wp_generateCapabilities Q env w :
  (forall c w', w_db w' = w_db w -> w_tx w' = w_tx w -> Q (Ok c) w') ->
  wp generateCapabilities Q env w.
Proof.
  intros HQ. unfold generateCapabilities. wp_go. apply wp_uuid_New. intros u1 w1 E1 E2. wp_go.
  apply wp_uuid_New. intros u2 w2 E3 E4. wp_go. apply HQ; congruence.
Qed.

(** What a creation can commit: one new PENDING request and its log entries. *)
Definition created (i : CreateApprovalRequestInput) (d d' : Db) : Prop :=
  exists id q d1, request_put id q d d1 /\ quiet d1 d' /\ db_requests d !! id = None /\
    q_tenant q = ci_TenantID i /\ q_user q = ci_UserID i /\ q_device q = Some (ci_DeviceID i) /\
    q_resource q = ci_ResourceID i /\ q_scope q = ci_Scope i /\
    q_state q = "PENDING" /\ q_state_version q = 0 /\ q_response q = None /\ q_decided_at q = None.

Lemma CreateApprovalRequest_cases env i d :
  let r := (run (CreateApprovalRequest i) env d).1 in
  let d' := (run (CreateApprovalRequest i) env d).2 in
  (d' = d /\ forall x, r <> Ok x) \/ created i d d'.
Proof.
  wp_start. unfold CreateApprovalRequest. wp_go. apply wp_uuid_New. intros id w1 E1 T1. wp_go.
  apply wp_rand_Read. intros rnd w2 E2 T2. wp_go.
  assert (B2 : w_db w2 = d) by (by rewrite E2, E1).
  destruct (NewNonce rnd) as [ch|e|]; cbn [wrap]; [|by left..]. wp_go.
  apply wp_getResourceLabel. intros label w3 E3 T3. wp_go. apply wp_time_Now. intros ts w4 E4 T4. wp_go.
  assert (B4 : w_db w4 = d) by (by rewrite E4, E3).
  destruct (SignRequest _ _) as [[p ev]|e|]; cbn [wrap]; [|by left..]. wp_go.
  apply wp_generateCapabilities. intros [poll redeem] w5 E5 T5. wp_go.
  apply (wp_BeginTx _ _ _ d); [by rewrite E5| |by left]. intros now w6 H6. wp_go.
  apply wp_time_Now. intros tx w7 E7 T7. wp_go.
  eapply wp_tx_exec; [by eapply in_tx_same| |by intros e w [? _]; left].
  intros u d1 w8 _ Hins H8. wp_go. apply wp_uuid_New. intros corr w9 E9 T9. wp_go.
  eapply wp_ignore_InsertTx; [by eapply in_tx_same|]. intros d2 b2 w10 Q2 H10. wp_go.
  apply wp_uuid_New. intros mid w11 E11 T11. wp_go.
  eapply wp_ignore_WriteTx; [by eapply in_tx_same|]. intros d3 b3 w12 Q3 H12. wp_go.
  assert (Hc : b3 = false -> created i d d3).
  { intros Hb. destruct (Q3 Hb) as [Hb2 Hq3]. destruct (Q2 Hb2) as [_ Hq2].
    apply insert_request_Ok in Hins as (q & Hput & Hn & Hr). exists id, q, d1.
    split_and!; try done; try apply Hr. by etrans. }
  eapply wp_Commit; [done| |].
  - intros w13 Hb Hd _. wp_go. apply wp_NotifyConsumer. intros w14 E14. wp_go. right.
    cbn. rewrite E14, Hd. by apply Hc.
  - intros e w13 [Hd|[Hb Hd]] _; cbn; rewrite Hd; [by left|right; by apply Hc].
Qed.

(** ** Minting *)

(** The row [mintGrant] builds, from the tables as they are in its transaction. *)
Definition minted_row (tenant request user : UUID) (src : string) (device resource : UUID)
    (scope : string) (pv : Z) (rule : string) (binding : ScopeBinding) (epoch authz : Z)
    (jti : UUID) (agt : bytes) (d : Db) (g : grant_row) : Prop :=
  exists who r ts tn p node,
    select_resource tenant resource d = Some r /\
    SignGrant ts (agt_payload jti tenant who src epoch device
      (mkResourceDetails (uuid_String (r_protected_node_id r)) (r_service_id r) (r_port r)
         (r_deployment_mode r) "TCP" (r_sensitivity r))
      scope binding pv rule authz tn (MaxGrantTTL scope (r_sensitivity r))) = Ok (p, agt) /\
    uuid_Parse (res_ProtectedNodeID (agt_Resource p)) = Some node /\
    g = grant_of_payload p request user node resource src agt.

(** What minting does to the transaction: insert the row, mark the request,
    write the logs. *)
Definition minted (tenant request : UUID) (jti : UUID) (g : grant_row) (now : Time) (d d' : Db)
    : Prop :=
  exists u v d1 d2, insert_grant tenant jti [] g now d = inr (u, d1) /\
    mark_granted tenant request now d1 = inr (v, d2) /\ quiet d2 d'.

Lemma wp_resolveUserIdentity t u Q env w :
  (forall x w', w_db w' = w_db w -> w_tx w' = w_tx w -> Q (Ok x) w') ->
  (forall e w', w_db w' = w_db w -> w_tx w' = w_tx w -> Q (Err e) w') ->
  wp (resolveUserIdentity t u) Q env w.
Proof.
  intros HO HE. unfold resolveUserIdentity. wp_go. apply wp_db_query.
  - intros n a w' _ E1 E2. wp_go. by apply HO.
  - intros e w' E1 E2. by apply HE.
Qed.

Lemma wp_mintGrant t rid user src dev res scope pv rule binding epoch authz Q env w base now d b :
  in_tx base now d b w ->
  (forall jti agt d' b' w',
     (b' = false -> b = false /\ exists g,
        minted_row t rid user src dev res scope pv rule binding epoch authz jti agt d g /\
        minted t rid jti g now d d') ->
     in_tx base now d' b' w' -> Q (Ok (jti, agt)) w') ->
  (forall e d' b' w', in_tx base now d' b' w' -> Q (Err e) w') ->
  (forall d' b' w', in_tx base now d' b' w' -> Q Panic w') ->
  wp (mintGrant t rid user src dev res scope pv rule binding epoch authz) Q env w.
Proof.
  intros Hi HO HE HP. unfold mintGrant. wp_go. apply wp_uuid_New. intros jti w1 E1 T1. wp_go.
  apply wp_resolveUserIdentity;
    [|intros e w2 E2 T2; eapply HE, in_tx_same; [done|congruence..]].
  intros who w2 E2 T2. wp_go. unfold getResourceDetails. wp_go.
  eapply wp_tx_query; [eapply in_tx_same; [done|congruence..]| |by intros; eapply HE].
  intros r w3 Hb Hr H3. wp_go. apply wp_time_Now. intros tn w4 E4 T4. wp_go.
  apply wp_time_Now. intros ts w5 E5 T5. wp_go.
  assert (H5 : in_tx base now d false w5) by (eapply in_tx_same; [done|congruence..]).
  destruct (SignGrant ts _) as [[p agt]|e|] eqn:Es; cbn [wrap]; [|by eapply HE|by eapply HP].
  wp_go. unfold uuid_MustParse.
  destruct (uuid_Parse _) as [node|] eqn:En; [|by eapply HP]. wp_go.
  eapply wp_tx_exec; [done| |by intros; eapply HE]. intros [] d1 w6 _ Hins H6. wp_go.
  eapply wp_tx_exec; [done| |by intros; eapply HE]. intros [] d2 w7 _ Hm H7. wp_go.
  apply wp_uuid_New. intros corr w8 E8 T8. wp_go.
  eapply wp_ignore_InsertTx; [by eapply in_tx_same|]. intros d3 b3 w9 Q3 H9. wp_go.
  eapply wp_ignore_WriteTx; [done|]. intros d4 b4 w10 Q4 H10. wp_go.
  eapply HO; [|done]. intros Hb4. split; [done|].
  destruct (Q4 Hb4) as [Hb3 Hq4]. destruct (Q3 Hb3) as [_ Hq3].
  exists (grant_of_payload p rid user node res src agt). split.
  - exists who, r, ts, tn, p, node. by split_and!.
  - exists tt, tt, d1, d2. split_and!; [done..|by etrans].
Qed.

(** ** Deciding a request *)

(** What a device's answer is checked against. *)
Definition answer_ok (input : ProcessApprovalInput) (resp : ApprovalResponse) (d : Db)
    (dev : device_row) : Prop :=
  pi_SignedResponse input = Some resp /\
  select_device (pi_TenantID input) (pi_DeviceID input) d = Some dev /\
  VerifyApprovalResponse resp (if pi_Decision input == DecisionApprove
                               then d_approval_auth_pub dev else d_device_auth_pub dev) = Ok tt /\
  d_counter dev < ar_DeviceCounter resp.

Definition response_of (input : ProcessApprovalInput) (resp : ApprovalResponse) : response_cols :=
  mkResponse (pi_Decision input) (ar_Signature resp) (ar_KeyID resp) (ar_DeviceCounter resp)
    (ar_ResponseNonce resp).

(** What a decision can commit. *)
Record decided (input : ProcessApprovalInput) (q : request_row) (resp : ApprovalResponse)
    (dev : device_row) (d d' : Db) : Prop := mkDecided {
  dc_pending : select_request (pi_TenantID input) (pi_RequestID input) d = Some q /\
               q_state q = "PENDING";
  dc_answer : answer_ok input resp d dev;
  dc_request : exists now,
    db_requests d' = <[pi_RequestID input :=
      if pi_Decision input == DecisionApprove
      then q_update "GRANTED" (q_state_version q + 2) (Some (response_of input resp)) (Some now) q
      else q_update "DENIED" (q_state_version q + 1) (Some (response_of input resp)) (Some now) q]>
      (db_requests d);
  dc_devices : db_devices d' =
    <[pi_DeviceID input := d_set_counter (ar_DeviceCounter resp) dev]> (db_devices d);
  dc_grants : if pi_Decision input == DecisionApprove
    then exists jti agt rule binding epoch authz g,
      minted_row (pi_TenantID input) (pi_RequestID input) (q_user q) (q_src_node_id q)
        (pi_DeviceID input) (q_resource q) (q_scope q) (q_policy_version q) rule binding epoch authz
        jti agt d g /\
      validate_grant_ttl (pi_TenantID input) g d = None /\ binding_in [] <> None /\
      ((request_has_grant (pi_TenantID input) (pi_RequestID input) d = true /\
        db_grants d' = db_grants d) \/
       (request_has_grant (pi_TenantID input) (pi_RequestID input) d = false /\
        db_grants d !! (pi_TenantID input, jti) = None /\
        db_grants d' = <[(pi_TenantID input, jti) := g]> (db_grants d)))
    else db_grants d' = db_grants d;
  dc_frame : frame d d';
  dc_logs : logs_ok d -> logs_ok d'
}.

(** The state after the transition, the recorded response and the counter. *)
Definition answered (input : ProcessApprovalInput) (q : request_row) (resp : ApprovalResponse)
    (dev : device_row) (now : Time) (d : Db) : Db :=
  set_devices (<[pi_DeviceID input := d_set_counter (ar_DeviceCounter resp) dev]> (db_devices d))
    (set_requests (<[pi_RequestID input :=
       q_update (if pi_Decision input == DecisionApprove then "APPROVED" else "DENIED")
         (q_state_version q + 1) (Some (response_of input resp)) (Some now) q]> (db_requests d)) d).

Lemma answered_steps input q resp dev now d b d1 u d2 c d3 :
  select_request (pi_TenantID input) (pi_RequestID input) d = Some q ->
  answer_ok input resp d dev ->
  transition_approval_request (pi_TenantID input) (pi_RequestID input)
    (if pi_Decision input == DecisionApprove then ApprovalStateApproved else ApprovalStateDenied)
    (q_state_version q) now d = inr (b, d1) ->
  record_response (pi_TenantID input) (pi_RequestID input) (pi_Decision input) resp now d1
    = inr (u, d2) ->
  advance_device_counter (pi_TenantID input) (pi_DeviceID input) (ar_DeviceCounter resp) now d2
    = inr (c, d3) ->
  d3 = answered input q resp dev now d.
Proof.
  intros Hq (_ & Hdev & _ & Hc) Ht Hr Ha.
  apply transition_Ok in Ht as (q' & Hq' & _ & _ & Hp1).
  rewrite Hq in Hq'. injection Hq' as <-.
  assert (Hs1 : select_request (pi_TenantID input) (pi_RequestID input) d1
    = Some (q_update (if pi_Decision input == DecisionApprove then "APPROVED" else "DENIED")
        (q_state_version q + 1) (q_response q) (Some now) q)).
  { apply select_request_Some in Hq as [_ Ht]. apply select_request_Some. rewrite Hp1. cbn.
    rewrite lookup_insert_eq. by destruct (pi_Decision input == DecisionApprove). }
  apply record_response_Ok in Hr as [[E _]|(q2 & Hq2 & Hp2)]; [congruence|].
  rewrite Hs1 in Hq2. injection Hq2 as <-.
  assert (Hs2 : select_device (pi_TenantID input) (pi_DeviceID input) d2 = Some dev)
    by (rewrite Hp2, Hp1; exact Hdev).
  unfold advance_device_counter in Ha. rewrite Hs2 in Ha.
  rewrite (proj2 (Z.ltb_lt _ _) Hc) in Ha. injection Ha as _ <-.
  rewrite Hp2, Hp1. unfold answered, set_devices, set_requests, response_of. cbn.
  by rewrite insert_insert_eq.
Qed.

Lemma logs_ok_eq d d' :
  db_outbox d' = db_outbox d -> db_heads d' = db_heads d -> db_events d' = db_events d ->
  logs_ok d -> logs_ok d'.
Proof. unfold logs_ok, audit_ok, heads_ok, outbox_ok. by intros -> -> ->. Qed.

Lemma validate_grant_ttl_frame t g d d' :
  db_resources d' = db_resources d -> validate_grant_ttl t g d' = validate_grant_ttl t g d.
Proof. unfold validate_grant_ttl, select_resource. by intros ->. Qed.

Lemma minted_effect t rid jti g now d d' q :
  minted t rid jti g now d d' -> g_request g = rid ->
  select_request t rid d = Some q -> q_state q = "APPROVED" ->
  db_requests d' = <[rid := q_update "GRANTED" (q_state_version q + 1) (q_response q)
                              (q_decided_at q) q]> (db_requests d) /\
  db_devices d' = db_devices d /\ frame d d' /\ (logs_ok d -> logs_ok d') /\
  validate_grant_ttl t g d = None /\ binding_in [] <> None /\
  ((request_has_grant t rid d = true /\ db_grants d' = db_grants d) \/
   (request_has_grant t rid d = false /\ db_grants d !! (t, jti) = None /\
    db_grants d' = <[(t, jti) := g]> (db_grants d))).
Proof.
  intros (u & v & d1 & d2 & Hi & Hm & [Hf Hd Hr Hg Hl]) Eg Hq Hs.
  apply insert_grant_Ok in Hi as (Hv & Hbin & Hi). rewrite Eg in Hi.
  assert (E1 : db_requests d1 = db_requests d /\ db_devices d1 = db_devices d /\ frame d d1 /\
    (logs_ok d -> logs_ok d1)).
  { destruct Hi as [[_ ->]|(_ & _ & ->)]; [done|]. split_and!; [done..|by split|].
    by apply logs_ok_eq. }
  destruct E1 as (Er1 & Ed1 & Ef1 & El1). unfold mark_granted in Hm.
  unfold select_request in Hm. rewrite Er1 in Hm. fold (select_request t rid d) in Hm.
  rewrite Hq, Hs in Hm. injection Hm as _ <-.
  rewrite Hr, Hd, Hg. cbn. rewrite ?Er1, ?Ed1. split_and!; try done.
  - transitivity d1; [done|]. etrans; [|exact Hf]. by split.
  - intros Hl0. apply Hl. by eapply logs_ok_eq; [..|apply El1].
  - destruct Hi as [[Hh ->]|(Hh & Hn & ->)]; [by left|right]. by split_and!.
Qed.

Lemma minted_row_frame t rid user src dev res sc pv rule bd ep az jti agt d d' g :
  db_resources d' = db_resources d ->
  minted_row t rid user src dev res sc pv rule bd ep az jti agt d' g ->
  minted_row t rid user src dev res sc pv rule bd ep az jti agt d g.
Proof. unfold minted_row, select_resource. by intros ->. Qed.

Lemma minted_row_request t rid user src dev res sc pv rule bd ep az jti agt d g :
  minted_row t rid user src dev res sc pv rule bd ep az jti agt d g -> g_request g = rid.
Proof. by intros (? & ? & ? & ? & ? & ? & _ & _ & _ & ->). Qed.

Lemma answered_frame input q resp dev now d :
  frame d (answered input q resp dev now d) /\
  (logs_ok d -> logs_ok (answered input q resp dev now d)).
Proof. split; [by split|by apply logs_ok_eq]. Qed.

Lemma decided_deny input q resp dev now d d' :
  select_request (pi_TenantID input) (pi_RequestID input) d = Some q -> q_state q = "PENDING" ->
  answer_ok input resp d dev -> (pi_Decision input == DecisionApprove) = false ->
  quiet (answered input q resp dev now d) d' -> decided input q resp dev d d'.
Proof.
  intros Hq Hs Ha Hd [Hf Hdv Hr Hg Hl].
  pose proof (answered_frame input q resp dev now d) as [Af Al].
  split; [done|done|exists now; rewrite Hr|done|rewrite Hg|by etrans|by auto];
    cbn; by rewrite Hd.
Qed.

Lemma decided_approve input q resp dev now d d3 d' jti agt rule bd ep az g :
  select_request (pi_TenantID input) (pi_RequestID input) d = Some q -> q_state q = "PENDING" ->
  answer_ok input resp d dev -> (pi_Decision input == DecisionApprove) = true ->
  minted_row (pi_TenantID input) (pi_RequestID input) (q_user q) (q_src_node_id q)
    (pi_DeviceID input) (q_resource q) (q_scope q) (q_policy_version q) rule bd ep az jti agt
    (answered input q resp dev now d) g ->
  minted (pi_TenantID input) (pi_RequestID input) jti g now (answered input q resp dev now d) d3 ->
  quiet d3 d' -> decided input q resp dev d d'.
Proof.
  intros Hq Hs Ha Hd Hrow Hm [Hf Hdv Hr Hg Hl].
  pose proof (answered_frame input q resp dev now d) as [Af Al].
  eapply minted_effect in Hm as (Er & Ed & Ef & El & Ev & Hbin & Eg); cycle 1.
  { by eapply minted_row_request. }
  { apply select_request_Some in Hq as [_ Ht]. apply select_request_Some. cbn.
    rewrite lookup_insert_eq. by split; [reflexivity|]. }
  { by rewrite Hd. }
  split; [done|done| |by rewrite Hdv, Ed| |by repeat (etrans; [eassumption|])|by auto].
  - exists now. rewrite Hr, Er. cbn. rewrite Hd, insert_insert_eq.
    replace (q_state_version q + 2) with (q_state_version q + 1 + 1) by lia. done.
  - rewrite Hd. exists jti, agt, rule, bd, ep, az, g. split_and!.
    + by eapply minted_row_frame, Hrow.
    + by rewrite <- Ev; apply validate_grant_ttl_frame.
    + done.
    + by rewrite Hg.
Qed.

Lemma wp_try_tx_query {A} (f : query A) Q env w base now d b :
  in_tx base now d b w ->
  (forall r b' w', in_tx base now d b' w' -> Q (Ok r) w') -> wp (try (tx_query f)) Q env w.
Proof.
  intros Hi HQ. apply wp_try. eapply wp_tx_query; [done|intros; by eapply HQ..].
Qed.

Lemma wp_ignore_exec {A} (f : stmt A) Q env w base now d b :
  in_tx base now d b w ->
  (forall d' b' w', (b' = false -> b = false /\ exists a, f now d = inr (a, d')) ->
     in_tx base now d' b' w' -> Q (Ok tt) w') ->
  wp (ignore (tx_exec f)) Q env w.
Proof.
  intros Hi HQ. apply wp_ignore. eapply wp_tx_exec; [done|..].
  - intros a d' w' Hb Hf Hw. eapply HQ; [|done]. eauto.
  - intros e w' Hw. by apply (HQ d true).
Qed.

(** A run of [decide_request] commits nothing and returns no result, or commits
    a decision. *)
Lemma wp_decide_request input q rule ep (Q : outcome ProcessApprovalResult -> World -> Prop)
    env w base now :
  in_tx base now base false w ->
  select_request (pi_TenantID input) (pi_RequestID input) base = Some q -> q_state q = "PENDING" ->
  (forall r w', w_db w' = base -> (forall x, r <> Ok x) -> Q r w') ->
  (forall r w' resp dev, decided input q resp dev base (w_db w') -> r <> Panic ->
     (forall x, r = Ok x -> par_NewState x = if pi_Decision input == DecisionApprove
        then ApprovalStateGranted else ApprovalStateDenied) -> Q r w') ->
  wp (decide_request input q rule ep) Q env w.
Proof.
  intros Hi Hq Hs HE HD.
  assert (HE' : forall r w' d b, in_tx base now d b w' -> (forall x, r <> Ok x) -> Q r w').
  { intros r w' d b [? _]. by apply HE. }
  unfold decide_request. wp_go.
  destruct (decode_binding _) as [bd|e|]; [|by eapply HE'..]. wp_go.
  eapply wp_try_tx_query; [done|]. intros epr b1 w1 H1. wp_go.
  eapply wp_tx_query; [done| |by intros; eapply HE']. intros dev w2 _ Hdev H2. wp_go.
  destruct (pi_SignedResponse input) as [resp|] eqn:Hresp; [|wp_go; by eapply HE'].
  wp_go. destruct (VerifyApprovalResponse resp _) as [[]|e|] eqn:Hver; cbn [wrap]; [|by eapply HE'..].
  wp_go. destruct (ar_DeviceCounter resp <=? d_counter dev) eqn:Hcnt; [wp_go; by eapply HE'|].
  go_bool. assert (Ha : answer_ok input resp base dev) by done. wp_go.
  eapply wp_tx_exec; [done| |by intros; eapply HE']. intros b d1 w3 _ Ht H3. wp_go.
  eapply wp_tx_exec; [done| |by intros; eapply HE']. intros u d2 w4 _ Hr H4. wp_go.
  eapply wp_ignore_exec; [done|]. intros d3 b3 w5 Had H5. wp_go.
  assert (Hans : b3 = false -> d3 = answered input q resp dev now base).
  { intros Hb. destruct (Had Hb) as (_ & c & Hadv). by eapply answered_steps. }
  destruct (pi_Decision input == DecisionApprove) eqn:Hdec; wp_go.
  - eapply wp_mintGrant; [done| |by intros; eapply HE'..].
    intros jti agt d4 b4 w6 Hm H6. wp_go. apply wp_uuid_New. intros corr w7 E7 T7. wp_go.
    eapply wp_ignore_InsertTx; [by eapply in_tx_same|]. intros d5 b5 w8 Q5 H8. wp_go.
    assert (Hd : b5 = false -> decided input q resp dev base d5).
    { intros Hb5. destruct (Q5 Hb5) as [Hb4 Hq5]. destruct (Hm Hb4) as (Hb3 & g & Hrow & Hmint).
      rewrite (Hans Hb3) in *. by eapply decided_approve. }
    eapply wp_Commit; [done| |].
    + intros w9 Hb Hw _. wp_go. eapply HD; [rewrite Hw; by apply Hd|done|]. by intros x [= <-].
    + intros e w9 [Hw|[Hb Hw]] _; [by apply HE|]. eapply HD; [rewrite Hw; by apply Hd|done..].
  - apply wp_uuid_New. intros corr w7 E7 T7. wp_go.
    eapply wp_ignore_InsertTx; [by eapply in_tx_same|]. intros d5 b5 w8 Q5 H8. wp_go.
    assert (Hd : b5 = false -> decided input q resp dev base d5).
    { intros Hb5. destruct (Q5 Hb5) as [Hb3 Hq5]. rewrite (Hans Hb3) in *. by eapply decided_deny. }
    eapply wp_Commit; [done| |].
    + intros w9 Hb Hw _. wp_go. eapply HD; [rewrite Hw; by apply Hd|done|]. by intros x [= <-].
    + intros e w9 [Hw|[Hb Hw]] _; [by apply HE|]. eapply HD; [rewrite Hw; by apply Hd|done..].
Qed.

Lemma ProcessApproval_cases env input d :
  let r := (run (ProcessApproval input) env d).1 in
  let d' := (run (ProcessApproval input) env d).2 in
  (d' = d /\ forall x, r = Ok x -> par_GrantJTI x = None /\ exists q,
     select_request (pi_TenantID input) (pi_RequestID input) d = Some q /\
     q_state q <> "PENDING" /\ par_NewState x = q_state q) \/
  (r <> Panic /\ exists q resp dev, decided input q resp dev d d' /\
     forall x, r = Ok x -> par_NewState x =
       if pi_Decision input == DecisionApprove then ApprovalStateGranted else ApprovalStateDenied).
Proof.
  wp_start. unfold ProcessApproval. wp_go. apply (wp_BeginTx _ _ _ d); [done| |by left].
  intros now w1 H1. wp_go. eapply wp_tx_query; [done| |by intros e b w [? _]; left].
  intros [q ep] w2 _ Hq H2. wp_go.
  destruct (select_request _ _ d) as [q'|] eqn:Hsel; [|done]. injection Hq as -> <-.
  destruct (q_rule_id q) as [rule|]; [|wp_go; left; by destruct H2].
  destruct (q_state q != ApprovalStatePending) eqn:Hst; go_bool.
  { wp_go. left. destruct H2. split; [done|]. intros x [= <-]. cbn. eauto. }
  eapply wp_decide_request; [done..| |].
  - intros r w3 Hw Hr. left. split; [done|]. intros x ->. by destruct (Hr x).
  - intros r w3 resp dev Hd Hp Hx. right. split; [done|]. by exists q, resp, dev.
Qed.

(** ** Cancelling and consuming *)

Lemma CancelApprovalRequest_cases env t rid node reason d :
  let d' := (run (CancelApprovalRequest t rid node reason) env d).2 in
  (run (CancelApprovalRequest t rid node reason) env d).1 <> Panic /\
  (d' = d \/ exists q now d1, select_request t rid d = Some q /\ q_state q = "PENDING" /\
     request_put rid (q_update "CANCELLED" (q_state_version q + 1) (q_response q) (Some now) q) d d1 /\
     quiet d1 d').
Proof.
  wp_start. unfold CancelApprovalRequest. wp_go.
  apply (wp_BeginTx _ _ _ d); [done| |by intros; split; [|left]]. intros now w1 H1. wp_go.
  eapply wp_tx_query; [done| |by intros e b w [? _]; split; [|left]].
  intros [st v] w2 _ Hq H2. wp_go. destruct (select_request t rid d) as [q|] eqn:Hsel; [|done].
  injection Hq as <- <-. destruct (q_state q != ApprovalStatePending) eqn:Hst; go_bool.
  { wp_go. apply wp_ignore. eapply wp_Commit; [done| |].
    - intros w3 _ Hd _. wp_go. split; [done|]. by left.
    - intros e w3 [Hd|[_ Hd]] _; wp_go; (split; [done|]); by left. }
  wp_go. eapply wp_tx_exec; [done| |by intros e w [? _]; split; [|left]].
  intros b d1 w3 _ Ht H3. wp_go. apply wp_uuid_New. intros corr w4 E4 T4. wp_go.
  eapply wp_ignore_InsertTx; [by eapply in_tx_same|]. intros d2 b2 w5 Q2 H5. wp_go.
  apply wp_uuid_New. intros mid w6 E6 T6. wp_go.
  eapply wp_ignore_WriteTx; [by eapply in_tx_same|]. intros d3 b3 w7 Q3 H7. wp_go.
  assert (Hc : b3 = false -> exists q now d1, Some q = Some q /\ q_state q = "PENDING" /\
    select_request t rid d = Some q /\
    request_put rid (q_update "CANCELLED" (q_state_version q + 1) (q_response q) (Some now) q) d d1 /\
    quiet d1 d3).
  { intros Hb. destruct (Q3 Hb) as [Hb2 Hq3]. destruct (Q2 Hb2) as [_ Hq2].
    apply transition_Ok in Ht as (q' & Hq' & _ & _ & Hput). rewrite Hsel in Hq'. injection Hq' as <-.
    exists q, now, d1. split_and!; try done. by etrans. }
  eapply wp_Commit; [done| |].
  - intros w8 Hb Hd _. split; [done|]. right. cbn. rewrite Hd.
    destruct (Hc Hb) as (q0 & n0 & d0 & _ & ? & ? & ? & ?). exists q0, n0, d0. by split_and!; [congruence|..].
  - intros e w8 [Hd|[Hb Hd]] _; (split; [done|]); cbn; rewrite Hd; [by left|right].
    destruct (Hc Hb) as (q0 & n0 & d0 & _ & ? & ? & ? & ?). exists q0, n0, d0. by split_and!; [congruence|..].
Qed.

Lemma ConsumeGrant_cases env t jti d :
  let r := (run (ConsumeGrant t jti) env d).1 in
  let d' := (run (ConsumeGrant t jti) env d).2 in
  r <> Ok true /\
  ((d' = d /\ r <> Panic) \/
   exists g now, db_grants d !! (t, jti) = Some g /\ g_consumed_at g = None /\
     now <= g_expires_at g /\ r <> Ok false /\
     d' = set_grants (<[(t, jti) := g_consume now g]> (db_grants d)) d).
Proof.
  wp_start. unfold ConsumeGrant. wp_go. apply wp_time_Now. intros ts w1 E1 T1. wp_go.
  assert (Hf : forall n b d', consume_grant t jti (timestamptz_in ts) n (w_db w1) = inr (b, d') ->
    (b = false /\ d' = d) \/ (b = true /\ exists g now, db_grants d !! (t, jti) = Some g /\
       g_consumed_at g = None /\ now <= g_expires_at g /\
       d' = set_grants (<[(t, jti) := g_consume now g]> (db_grants d)) d)).
  { rewrite E1. cbn. intros n b d'. unfold consume_grant.
    destruct (db_grants d !! (t, jti)) as [g|] eqn:Eg; [|intros [= <- <-]; by left].
    destruct (g_consumed_at g) eqn:Ec; [intros [= <- <-]; by left|]. cbn.
    destruct (g_expires_at g <? _) eqn:Ee; [intros [= <- <-]; by left|]. intros [= <- <-]. right.
    go_bool. split; [done|]. by exists g, (timestamptz_in ts). }
  apply wp_db_exec.
  - intros n b d' w2 Hc Hd T2. wp_go. apply Hf in Hc as [[-> ->]|[-> (g & now & Hg & Hn & He & ->)]]; wp_go.
    + split; [done|]. left. by rewrite Hd.
    + apply wp_uuid_New. intros corr w3 E3 T3. wp_go. unfold ignore, InsertTx. wp_go. apply wp_try. wp_go.
      unfold wp, tx_exec. rewrite T3, T2, T1. cbn. split; [done|]. right. exists g, now.
      split_and!; try done. by rewrite E3, Hd.
  - intros n b d' e w2 Hc Hd T2. wp_go. split; [done|].
    apply Hf in Hc as [[-> ->]|[-> (g & now & Hg & Hn & He & ->)]]; [by left|right].
    exists g, now. by split_and!.
  - intros e w2 Hd T2. wp_go. split; [done|]. left. by rewrite Hd, E1.
Qed.

End Spec.
