(* ===== verification/Revocation.v ===== *)
(** * Revocation: the ordered revocation stream

    [service/internal/revocation/manager.go].  [IssueRevocation] allocates the
    next sequence number of the tenant, closes the sessions and deletes the
    unconsumed grants of the revoked entity and queues the event for delivery, in
    one transaction; [RevokeDevice] marks a device; [CheckFreshness],
    [GetRevocationsSince] and [CheckDaemonFreshness] tell a daemon how far behind
    it is. *)

From stdpp Require Import base gmap strings list fin_maps sorting pretty.
From Stdlib Require Import ZArith Lia Strings.Byte.
From S2P Require Import Prelude Identity Cose Envelope Database Schema Messaging AuditChain.

Open Scope Z_scope.
Open Scope go_scope.

Abbreviation Kind := string (only parsing).
Definition KindUser : Kind := "user".
Definition KindSourceNode : Kind := "source_node".
Definition KindProtectedNode : Kind := "protected_node".
Definition KindDevice : Kind := "device".
Definition KindKey : Kind := "key".
Definition KindCert : Kind := "cert".
Definition KindGrant : Kind := "grant".
Definition KindPolicy : Kind := "policy".

Record Revocation : Type := mkRev {
  rv_TenantID : UUID;
  rv_Seq : Z;
  rv_Kind : Kind;
  rv_Target : string;
  rv_CreatedAt : Time
}.

(** ** Statements *)

(** The revocations of a tenant with their sequence numbers. *)
Definition revocation_rows (tenant : UUID) (d : Db) : list (Z * revocation_row) :=
  omap (fun '((t, s), v) => if t == tenant then Some (s, v) else None)
    (map_to_list (db_revocations d)).

Definition latest_revocation (tenant : UUID) (d : Db) : Z :=
  coalesce 0 (sql_max (map fst (revocation_rows tenant d))).

Definition kind_check (k : string) : bool :=
  (k == "user") || (k == "source_node") || (k == "protected_node") || (k == "device") ||
  (k == "key") || (k == "cert") || (k == "grant") || (k == "policy").

(** [UPDATE active_sessions SET closed_at = now() WHERE ... AND closed_at IS NULL] *)
Definition close_session (now : Time) (s : session_row) : session_row :=
  mkSession (s_tenant s) (s_grant_jti s) (s_device s) (s_node s) (s_session_id s)
    (s_connection_id s) (Some now).

Definition close_sessions (tenant : UUID) (P : Db -> session_row -> bool) : stmt unit := fun now d =>
  inr (tt, set_sessions
    ((fun s => if (s_tenant s == tenant) && P d s && negb (is_some (s_closed_at s))
               then close_session now s else s) <$> db_sessions d) d).

(** [DELETE FROM grants WHERE tenant_id = $1 AND ... AND consumed_at IS NULL]; a
    grant that a session refers to cannot be deleted. *)
Definition doomed (tenant : UUID) (P : UUID -> grant_row -> bool) (k : UUID * UUID) (g : grant_row)
    : bool :=
  (k.1 == tenant) && P k.2 g && negb (is_some (g_consumed_at g)).

Definition delete_grants (tenant : UUID) (P : UUID -> grant_row -> bool) : stmt unit := fun now d =>
  if existsb (fun '(_, s) => match db_grants d !! (s_tenant s, s_grant_jti s) with
                             | Some g => doomed tenant P (s_tenant s, s_grant_jti s) g
                             | None => false
                             end) (map_to_list (db_sessions d))
  then inl (Errorf "grants violates foreign key constraint on active_sessions" []) else
  inr (tt, set_grants (filter (fun kg => doomed tenant P kg.1 kg.2 = false) (db_grants d)) d).

Definition revoke_device_row (tenant device : UUID) : stmt unit := fun now d =>
  match select_device tenant device d with
  | Some v =>
      if d_state v == "ENROLLED"
      then inr (tt, set_devices (<[device :=
             mkDevice (d_tenant v) (d_user v) (d_device_auth_pub v) (d_approval_auth_pub v)
               (d_attestation v) (d_security_level v) (d_counter v) "REVOKED" (Some now)]>
             (db_devices d)) d)
      else inr (tt, d)
  | None => inr (tt, d)
  end.

(** Some grant of the tenant with this id satisfies [P]. *)
Definition grant_where (tenant jti : UUID) (P : grant_row -> bool) (d : Db) : bool :=
  match db_grants d !! (tenant, jti) with Some g => P g | None => false end.

Section Manager.
Context `{PG : Postgres} `{GJ : GoJson}.

(** [SELECT COALESCE(MAX(seq), 0) + 1 ... FOR UPDATE] *)
Definition select_next_seq (tenant : UUID) : stmt Z := fun now d =>
  if negb aggregate_for_update
  then inl (Errorf "FOR UPDATE is not allowed with aggregate functions" []) else
  inr (latest_revocation tenant d + 1, d).

Definition insert_revocation (rev : Revocation) : stmt unit := fun now d =>
  if negb (kind_check (rv_Kind rev))
  then inl (Errorf "revocations violates check constraint" []) else
  if is_some (db_revocations d !! (rv_TenantID rev, rv_Seq rev))
  then inl (Errorf "duplicate key value violates unique constraint revocations_pkey" []) else
  inr (tt, set_revocations (<[(rv_TenantID rev, rv_Seq rev) :=
    mkRevocation (rv_Kind rev) (rv_Target rev) (timestamptz_in (rv_CreatedAt rev))]>
    (db_revocations d)) d).

(** A text argument compared with a [uuid] column. *)
Definition with_uuid (s : string) (f : UUID -> stmt unit) : stmt unit := fun now d =>
  match uuid_in s with
  | Some u => f u now d
  | None => inl (Errorf "invalid input syntax for type uuid" [])
  end.

(** [Manager.terminateActiveSessions] and the five updates it selects from. *)
Definition terminateDeviceSessions (tenant : UUID) (target : string) : M unit :=
  tx_exec (with_uuid target (fun u => close_sessions tenant (fun _ s => s_device s == u))).
Definition terminateUserSessions (tenant : UUID) (target : string) : M unit :=
  tx_exec (with_uuid target (fun u => close_sessions tenant
    (fun d s => grant_where tenant (s_grant_jti s) (fun g => g_user g == u) d))).
Definition terminateSourceNodeSessions (tenant : UUID) (target : string) : M unit :=
  tx_exec (close_sessions tenant
    (fun d s => grant_where tenant (s_grant_jti s) (fun g => g_src_node_id g == target) d)).
Definition terminateProtectedNodeSessions (tenant : UUID) (target : string) : M unit :=
  tx_exec (with_uuid target (fun u => close_sessions tenant (fun _ s => s_node s == u))).
Definition terminateGrantSession (tenant : UUID) (target : string) : M unit :=
  tx_exec (with_uuid target (fun u => close_sessions tenant (fun _ s => s_grant_jti s == u))).

Definition terminateActiveSessions (tenant : UUID) (kind : Kind) (target : string) : M unit :=
  if kind == KindDevice then terminateDeviceSessions tenant target
  else if kind == KindUser then terminateUserSessions tenant target
  else if kind == KindSourceNode then terminateSourceNodeSessions tenant target
  else if kind == KindGrant then terminateGrantSession tenant target
  else if kind == KindProtectedNode then terminateProtectedNodeSessions tenant target
  else mret tt.

(** [Manager.invalidateGrants] *)
Definition invalidateGrants (tenant : UUID) (kind : Kind) (target : string) : M unit :=
  if kind == KindDevice then
    tx_exec (with_uuid target (fun u => delete_grants tenant (fun _ g => g_device g == u)))
  else if kind == KindUser then
    tx_exec (with_uuid target (fun u => delete_grants tenant (fun _ g => g_user g == u)))
  else if kind == KindSourceNode then
    tx_exec (delete_grants tenant (fun _ g => g_src_node_id g == target))
  else if kind == KindGrant then
    tx_exec (with_uuid target (fun u => delete_grants tenant (fun jti _ => jti == u)))
  else if kind == KindPolicy then tx_exec (delete_grants tenant (fun _ _ => true))
  else mret tt.

(** [payload, _ := json.Marshal(rev)] *)
Definition json_revocation (rev : Revocation) : option bytes :=
  match json_object [("tenant_id", JUuid (rv_TenantID rev)); ("seq", JInt (rv_Seq rev));
                     ("kind", JStr (rv_Kind rev)); ("target", JStr (rv_Target rev));
                     ("created_at", JTime (rv_CreatedAt rev))]%string with
  | Ok b => Some b
  | _ => None
  end.

Fixpoint queue_all (rev : Revocation) (consumers : list string) : M unit :=
  match consumers with
  | [] => mret tt
  | c :: rest =>
      mid ← uuid_New;
      mwrap "revocation: write to outbox: %w" []
        (WriteTx (mkOutboxMessage (rv_TenantID rev) c mid (json_revocation rev))) ;;
      queue_all rev rest
  end.

Fixpoint notify_all (tenant : UUID) (consumers : list string) : M unit :=
  match consumers with
  | [] => mret tt
  | c :: rest => NotifyConsumer tenant c ;; notify_all tenant rest
  end.

(** [Manager.IssueRevocation] *)
Definition IssueRevocation (tenant : UUID) (kind : Kind) (target : string)
    (affectedConsumers : list string) : M Revocation :=
  mwrap "revocation: begin tx: %w" [] BeginTx ;;
  defer_rollback (
    nextSeq ← mwrap "revocation: get next seq: %w" [] (tx_exec (select_next_seq tenant));
    now ← time_Now;
    let rev := mkRev tenant nextSeq kind target now in
    mwrap "revocation: insert: %w" [] (tx_exec (insert_revocation rev)) ;;
    mwrap "revocation: terminate sessions: %w" [] (terminateActiveSessions tenant kind target) ;;
    mwrap "revocation: invalidate grants: %w" [] (invalidateGrants tenant kind target) ;;
    queue_all rev affectedConsumers ;;
    mwrap "revocation: commit: %w" [] Commit ;;
    notify_all tenant affectedConsumers ;;
    mret rev).

(** [Manager.issueRevocationInTx] *)
Definition issueRevocationInTx (tenant : UUID) (kind : Kind) (target : string) : M Revocation :=
  nextSeq ← tx_exec (select_next_seq tenant);
  now ← time_Now;
  let rev := mkRev tenant nextSeq kind target now in
  tx_exec (insert_revocation rev) ;;
  mret rev.

(** [Manager.RevokeDevice] *)
Definition RevokeDevice `{UuidText} (tenant device : UUID) (reason : string) : M unit :=
  mwrap "revocation: begin device revoke tx: %w" [] BeginTx ;;
  defer_rollback (
    mwrap "revocation: update device: %w" [] (tx_exec (revoke_device_row tenant device)) ;;
    rev ← mwrap "revocation: issue revocation: %w" []
      (issueRevocationInTx tenant KindDevice (uuid_String device));
    Commit).

(** ** Freshness *)

Definition RevocationFreshnessBound : Duration := 10 * Second.

(** [Manager.CheckFreshness] *)
Definition CheckFreshness (tenant : UUID) (daemonLastAckedSeq : Z) : M (bool * Z) :=
  latestSeq ← mwrap "revocation: check freshness: %w" []
    (db_query (fun now d => Some (latest_revocation tenant d)));
  mret (if daemonLastAckedSeq <? latestSeq then (false, latestSeq) else (true, latestSeq)).

(** [ORDER BY seq ASC] *)
Definition vseq_le (a b : Z * revocation_row) : Prop := a.1 <= b.1.
#[export] Instance vseq_le_dec : RelDecision vseq_le := fun a b => decide (a.1 <= b.1).
#[export] Instance vseq_le_total : Total vseq_le.
Proof. intros a b. unfold vseq_le. lia. Qed.
#[export] Instance vseq_le_trans : Transitive vseq_le.
Proof. intros a b c. unfold vseq_le. lia. Qed.

(** [Manager.GetRevocationsSince] *)
Definition GetRevocationsSince (tenant : UUID) (sinceSeq : Z) : M (list Revocation) :=
  rows ← mwrap "revocation: query since: %w" []
    (db_query (fun now d => Some (merge_sort vseq_le
       (filter (fun r => sinceSeq < r.1) (revocation_rows tenant d)))));
  mret (map (fun r => mkRev tenant r.1 (v_kind r.2) (v_target r.2) (v_created_at r.2)) rows).

End Manager.

(** [time.Since]: the difference saturates at the range of [time.Duration]. *)
Definition time_Since (now t : Time) : Duration :=
  Z.max int64_min (Z.min int64_max (now - t)).

(** [FreshnessStatus]; [SecondsAgo] is kept in nanoseconds. *)
Record FreshnessStatus : Type := mkFreshnessStatus {
  fs_Current : bool;
  fs_LastAckedSeq : Z;
  fs_LatestSeq : Z;
  fs_LastAckTime : Time;
  fs_SecondsAgo : Duration;
  fs_MustFailClosed : bool
}.

(** [CheckDaemonFreshness] *)
Definition CheckDaemonFreshness (now lastAckTime : Time) (lastAckedSeq latestSeq : Z)
    : FreshnessStatus :=
  let since := time_Since now lastAckTime in
  mkFreshnessStatus
    ((latestSeq <=? lastAckedSeq) && (since <=? RevocationFreshnessBound))
    lastAckedSeq latestSeq lastAckTime since
    ((RevocationFreshnessBound <? since) || (lastAckedSeq <? latestSeq)).
