(* ===== verification/KeyManager.v ===== *)
(** * KeyManager: signing keys of the service

    [service/internal/crypto/keymanager.go].  The signing backend is the
    interface [Signer]; [InMemorySigner] is the implementation the repository has.
    The key manager keeps one active key per purpose, an allowlist of key ids and
    the ids in the rotation overlap.  The offline root signs the set of public
    keys.  AES-GCM of the in-memory encrypter is a parameter. *)

From stdpp Require Import base gmap strings list fin_maps.
From Stdlib Require Import ZArith Lia Strings.Byte.
From S2P Require Import Prelude Identity Cose.

Open Scope Z_scope.
Open Scope go_scope.

Definition PurposeRequestSig : KeyPurpose := "request_sig".
Definition PurposeGrantSig : KeyPurpose := "grant_sig".
Definition PurposePolicySig : KeyPurpose := "policy_sig".
Definition PurposeAuditCheckpoint : KeyPurpose := "audit_checkpoint_sig".

Definition AllPurposes : list KeyPurpose :=
  [PurposeRequestSig; PurposeGrantSig; PurposePolicySig; PurposeAuditCheckpoint].

Record KeyVersion : Type := mkKeyVersion {
  kv_Kid : string;
  kv_Purpose : KeyPurpose;
  kv_PubKey : bytes;
  kv_CreatedAt : Time;
  kv_ActivatedAt : option Time;
  kv_RetiredAt : option Time
}.

(** [KeyVersion.IsActive] *)
Definition IsActive (now : Time) (kv : KeyVersion) : bool :=
  match kv_ActivatedAt kv with
  | None => false
  | Some _ => match kv_RetiredAt kv with
              | Some r => negb (time_After now r)
              | None => true
              end
  end.

Record ActiveKeySet : Type := mkActiveKeySet {
  ks_Keys : gmap KeyPurpose KeyVersion;
  ks_RootSig : bytes;
  ks_IssuedAt : Time
}.

(** ** The signing backend *)

(** What a key generation draws from the outside: the private key the random
    source leads to (or its failure) and a new UUID. *)
Record Fresh : Type := mkFresh { fresh_priv : option bytes; fresh_uuid : UUID }.

Class Signer (S : Type) : Type := {
  signer_Sign : S -> string -> bytes -> outcome bytes;
  signer_GetPubKey : S -> string -> outcome bytes;
  signer_GenerateKey : Fresh -> S -> KeyPurpose -> outcome (string * bytes) * S
}.

(** A key generation that succeeds draws a 64-byte Ed25519 private key. *)
Definition fresh_ok (fr : Fresh) : Prop := forall priv, fresh_priv fr = Some priv -> length priv = 64%nat.

(** What the key manager relies on: from a well-formed state, a backend signs
    with the key whose public half it reports and can sign with every key it
    reports; a new key is known afterwards, and generating it leaves the keys with
    other ids alone. *)
Class SignerLaws (S : Type) `{GoCrypto} `{Signer S} : Type := {
  signer_wf : S -> Prop;
  signer_sound : forall s kid msg sig, signer_wf s -> signer_Sign s kid msg = Ok sig ->
    exists pub, signer_GetPubKey s kid = Ok pub /\ ed25519_Verify pub msg sig = Ok true;
  signer_total : forall s kid pub msg, signer_wf s -> signer_GetPubKey s kid = Ok pub ->
    is_Ok (signer_Sign s kid msg);
  signer_gen : forall fr s p r s', signer_wf s -> fresh_ok fr ->
    signer_GenerateKey fr s p = (r, s') ->
    signer_wf s' /\
    (forall kid pub, r = Ok (kid, pub) -> signer_GetPubKey s' kid = Ok pub) /\
    (forall kid, (forall pub, r <> Ok (kid, pub)) -> signer_GetPubKey s' kid = signer_GetPubKey s kid)
}.

(** ** The key manager *)

Section KeyManager.
Context {S : Type} `{UuidText} `{GoCrypto} `{Signer S}.

Record KeyManager : Type := mkKeyManager {
  km_signer : S;
  km_activeKeys : option ActiveKeySet;
  km_rootPubKey : bytes;
  km_allowedKids : gset string;
  km_overlapKids : gset string
}.

(** [NewKeyManager] *)
Definition NewKeyManager (signer : S) (rootPubKey : bytes) : KeyManager :=
  mkKeyManager signer None rootPubKey ∅ ∅.

(** The loop of [Initialize] over the purposes; [n] counts them. *)
Fixpoint init_keys (clock : nat -> Time) (fresh : nat -> Fresh) (n : nat) (ps : list KeyPurpose)
    (keys : gmap KeyPurpose KeyVersion) (km : KeyManager)
    : outcome (gmap KeyPurpose KeyVersion) * KeyManager :=
  match ps with
  | [] => (Ok keys, km)
  | p :: rest =>
      match signer_GenerateKey (fresh n) (km_signer km) p with
      | (Ok (kid, pub), s') =>
          let now := clock (Datatypes.S n) in
          init_keys clock fresh (Datatypes.S n) rest
            (<[p := mkKeyVersion kid p pub now (Some now) None]> keys)
            (mkKeyManager s' (km_activeKeys km) (km_rootPubKey km) ({[kid]} ∪ km_allowedKids km)
               (km_overlapKids km))
      | (Err e, s') => (Err (Wrapf "crypto: generate %s key: %w" [AStr p] e),
                        mkKeyManager s' (km_activeKeys km) (km_rootPubKey km) (km_allowedKids km)
                          (km_overlapKids km))
      | (Panic, s') => (Panic, mkKeyManager s' (km_activeKeys km) (km_rootPubKey km)
                          (km_allowedKids km) (km_overlapKids km))
      end
  end.

(** [KeyManager.Initialize] *)
Definition Initialize (clock : nat -> Time) (fresh : nat -> Fresh) (km : KeyManager)
    : outcome ActiveKeySet * KeyManager :=
  match init_keys clock fresh 0 AllPurposes ∅ km with
  | (Ok keys, km') =>
      let ks := mkActiveKeySet keys [] (clock 0%nat) in
      (Ok ks, mkKeyManager (km_signer km') (Some ks) (km_rootPubKey km') (km_allowedKids km')
                (km_overlapKids km'))
  | (Err e, km') => (Err e, km')
  | (Panic, km') => (Panic, km')
  end.

(** [buildPubKeySetForSigning] *)
Definition buildPubKeySetForSigning (ks : ActiveKeySet) : bytes :=
  sha256 (concat (map (fun p => match ks_Keys ks !! p with
                                | Some kv => str_bytes (kv_Kid kv) ++ kv_PubKey kv ++ str_bytes p
                                | None => []
                                end) AllPurposes)).

(** [KeyManager.verifyRootSig] *)
Definition verifyRootSig (km : KeyManager) (sig : bytes) (ks : ActiveKeySet) : outcome unit :=
  ok ← ed25519_Verify (km_rootPubKey km) (buildPubKeySetForSigning ks) sig;
  if negb ok then Err (Errorf "invalid root signature" []) else Ok tt.

(** [KeyManager.SetRootSignature] *)
Definition SetRootSignature (km : KeyManager) (keySetSig : bytes) : outcome KeyManager :=
  match km_activeKeys km with
  | None => Err (Errorf "crypto: no active key set" [])
  | Some ks =>
      wrap "crypto: root signature verification failed: %w" [] (verifyRootSig km keySetSig ks) ;;
      Ok (mkKeyManager (km_signer km) (Some (mkActiveKeySet (ks_Keys ks) keySetSig (ks_IssuedAt ks)))
            (km_rootPubKey km) (km_allowedKids km) (km_overlapKids km))
  end.

(** The key both [SignWithPurpose] and [GetPubKey] look up. *)
Definition active_key (now : Time) (km : KeyManager) (purpose : KeyPurpose) : outcome KeyVersion :=
  match km_activeKeys km with
  | None => Err (Errorf "crypto: no active key set" [])
  | Some ks =>
      match ks_Keys ks !! purpose with
      | Some kv => if IsActive now kv then Ok kv
                   else Err (Errorf "crypto: no active key for purpose %s" [AStr purpose])
      | None => Err (Errorf "crypto: no active key for purpose %s" [AStr purpose])
      end
  end.

(** [KeyManager.SignWithPurpose] *)
Definition SignWithPurpose (now : Time) (km : KeyManager) (purpose : KeyPurpose) (message : bytes)
    : outcome (bytes * string) :=
  kv ← active_key now km purpose;
  sig ← wrap "crypto: sign with %s: %w" [AStr purpose] (signer_Sign (km_signer km) (kv_Kid kv) message);
  Ok (sig, kv_Kid kv).

(** [KeyManager.GetPubKey] *)
Definition GetPubKey (now : Time) (km : KeyManager) (purpose : KeyPurpose) : outcome (bytes * string) :=
  kv ← active_key now km purpose;
  Ok (kv_PubKey kv, kv_Kid kv).

(** [KeyManager.IsAllowedKid] *)
Definition IsAllowedKid (km : KeyManager) (kid : string) : bool :=
  bool_decide (kid ∈ km_allowedKids km).

(** [KeyManager.VerifySignature] *)
Definition VerifySignature (km : KeyManager) (kid : string) (message signature : bytes)
    : outcome unit :=
  if negb (IsAllowedKid km kid) then Err (Errorf "crypto: unknown kid %s" [AStr kid]) else
  pubKey ← wrap "crypto: get pubkey for %s: %w" [AStr kid] (signer_GetPubKey (km_signer km) kid);
  ok ← ed25519_Verify pubKey message signature;
  if negb ok then Err (Errorf "crypto: signature verification failed for kid %s" [AStr kid])
  else Ok tt.

(** [KeyManager.RotateKey]: the old key version is retired in place and then
    replaced in the map. *)
Definition RotateKey (now : Time) (fr : Fresh) (km : KeyManager) (purpose : KeyPurpose)
    : outcome string * KeyManager :=
  match km_activeKeys km with
  | None => (Err (Errorf "crypto: no active key set" []), km)
  | Some ks =>
      match signer_GenerateKey fr (km_signer km) purpose with
      | (Ok (newKid, pub), s') =>
          let overlap := match ks_Keys ks !! purpose with
                         | Some old => {[kv_Kid old]} ∪ km_overlapKids km
                         | None => km_overlapKids km
                         end in
          let ks' := mkActiveKeySet
                       (<[purpose := mkKeyVersion newKid purpose pub now (Some now) None]> (ks_Keys ks))
                       (ks_RootSig ks) (ks_IssuedAt ks) in
          (Ok newKid, mkKeyManager s' (Some ks') (km_rootPubKey km)
                        ({[newKid]} ∪ km_allowedKids km) overlap)
      | (Err e, s') => (Err (Wrapf "crypto: generate new %s key: %w" [AStr purpose] e),
                        mkKeyManager s' (km_activeKeys km) (km_rootPubKey km) (km_allowedKids km)
                          (km_overlapKids km))
      | (Panic, s') => (Panic, mkKeyManager s' (km_activeKeys km) (km_rootPubKey km)
                          (km_allowedKids km) (km_overlapKids km))
      end
  end.

(** [KeyManager.RetireOverlapKeys]: [clock 0] is the reading for the cutoff,
    [clock (n+1)] the one for the n-th key of the loop. *)
Fixpoint retire_loop (clock : nat -> Time) (n : nat) (cutoff : Time) (kids : list string)
    (km : KeyManager) : KeyManager :=
  match kids with
  | [] => km
  | kid :: rest =>
      retire_loop clock (Datatypes.S n) cutoff rest
        (if time_After (clock (Datatypes.S n)) cutoff then km else
         mkKeyManager (km_signer km) (km_activeKeys km) (km_rootPubKey km)
           (km_allowedKids km ∖ {[kid]}) (km_overlapKids km ∖ {[kid]}))
  end.

Definition RetireOverlapKeys (clock : nat -> Time) (maxGrantTTL : Duration) (km : KeyManager)
    : KeyManager :=
  retire_loop clock 0 (clock 0%nat - maxGrantTTL) (elements (km_overlapKids km)) km.

(** [GetActiveKeySet] *)
Definition GetActiveKeySet (km : KeyManager) : option ActiveKeySet := km_activeKeys km.

(** ** Offline root *)

(** [NewRootKey]; the fingerprint is hexadecimal. *)
Definition NewRootKey (fresh : option bytes) : outcome (bytes * bytes * string) :=
  match fresh with
  | None => Err (Wrapf "crypto: generate root key: %w" [] (Errorf "crypto/rand: read failed" []))
  | Some priv => let pub := ed25519_Public priv in Ok (pub, priv, hex (sha256 pub))
  end.

(** [SignKeySet] *)
Definition SignKeySet (rootPriv : bytes) (ks : ActiveKeySet) : outcome bytes :=
  ed25519_Sign rootPriv (buildPubKeySetForSigning ks).

(** [VerifyKeySetSignature] *)
Definition VerifyKeySetSignature (rootPub : bytes) (ks : ActiveKeySet) (sig : bytes) : outcome bool :=
  ed25519_Verify rootPub (buildPubKeySetForSigning ks) sig.

(** [LoadRootSignature]; the file's contents, or the error of reading it, come
    from the operating system. *)
Definition LoadRootSignature (km : KeyManager) (sigPath : string) (file : outcome bytes)
    : outcome KeyManager :=
  if sigPath == "" then Err (Errorf "crypto: root signature file path is required" []) else
  sig ← wrap "crypto: read root sig file %s: %w" [AStr sigPath] file;
  wrap "crypto: set root signature from %s: %w" [AStr sigPath] (SetRootSignature km sig).

End KeyManager.
Arguments KeyManager S : clear implicits.

(** ** The in-memory signer *)

Section InMemory.
Context `{UuidText} `{GoCrypto}.

Record InMemorySigner : Type := mkInMemorySigner {
  ims_keys : gmap string bytes;
  ims_pubKeys : gmap string bytes
}.

(** [NewInMemorySigner] *)
Definition NewInMemorySigner : InMemorySigner := mkInMemorySigner ∅ ∅.

(** [InMemorySigner.Sign] *)
Definition ims_Sign (s : InMemorySigner) (kid : string) (message : bytes) : outcome bytes :=
  match ims_keys s !! kid with
  | None => Err (Errorf "inmemory: unknown kid %s" [AStr kid])
  | Some priv => ed25519_Sign priv message
  end.

(** [InMemorySigner.GetPubKey] *)
Definition ims_GetPubKey (s : InMemorySigner) (kid : string) : outcome bytes :=
  match ims_pubKeys s !! kid with
  | None => Err (Errorf "inmemory: unknown kid %s" [AStr kid])
  | Some pub => Ok pub
  end.

(** The key id: the purpose and the first eight characters of a new UUID. *)
Definition kid_of (purpose : KeyPurpose) (u : UUID) : string :=
  (purpose +:+ "-" +:+ String.substring 0 8 (uuid_String u))%string.

(** [InMemorySigner.GenerateKey] *)
Definition ims_GenerateKey (fr : Fresh) (s : InMemorySigner) (purpose : KeyPurpose)
    : outcome (string * bytes) * InMemorySigner :=
  match fresh_priv fr with
  | None => (Err (Errorf "crypto/rand: read failed" []), s)
  | Some priv =>
      let pub := ed25519_Public priv in
      let kid := kid_of purpose (fresh_uuid fr) in
      (Ok (kid, pub), mkInMemorySigner (<[kid := priv]> (ims_keys s)) (<[kid := pub]> (ims_pubKeys s)))
  end.

#[export] Instance InMemorySigner_Signer : Signer InMemorySigner := {|
  signer_Sign := ims_Sign;
  signer_GetPubKey := ims_GetPubKey;
  signer_GenerateKey := ims_GenerateKey
|}.

End InMemory.

(** ** Mode gates *)

(** [NewSignerForMode]: there is no production signer. *)
Definition NewSignerForMode (devMode : bool) (vaultAddr : string) : outcome InMemorySigner :=
  if devMode then Ok NewInMemorySigner else
  if vaultAddr == ""
  then Err (Errorf "crypto: production requires Vault configuration (DR-KEY-8); set DNIVIO_DEVELOPMENT=true for dev mode" [])
  else Err (Errorf "crypto: Vault Transit signer not yet implemented — set DNIVIO_DEVELOPMENT=true for dev mode" []).

(** [InMemoryEncrypter]: one 32-byte key per tenant. *)
Record InMemoryEncrypter : Type := mkInMemoryEncrypter { ime_keys : gmap UUID bytes }.
Definition NewInMemoryEncrypter : InMemoryEncrypter := mkInMemoryEncrypter ∅.

(** [NewEncrypterForMode] *)
Definition NewEncrypterForMode (devMode : bool) (vaultAddr : string) : outcome InMemoryEncrypter :=
  if devMode then Ok NewInMemoryEncrypter else
  if vaultAddr == ""
  then Err (Errorf "crypto: production requires Vault configuration for envelope encryption (DR-SEC-1); set DNIVIO_DEVELOPMENT=true for dev mode" [])
  else Err (Errorf "crypto: Vault Transit envelope encryption not yet implemented — set DNIVIO_DEVELOPMENT=true for dev mode" []).

(** [InitCrypto] *)
Definition InitCrypto (devMode : bool) (vaultAddr : string)
    : outcome (InMemorySigner * InMemoryEncrypter) :=
  signer ← NewSignerForMode devMode vaultAddr;
  enc ← NewEncrypterForMode devMode vaultAddr;
  Ok (signer, enc).

(** ** Envelope encryption *)

(** AES-256-GCM of [crypto/cipher] with 12-byte nonces: [gcm.Seal] appends to its
    destination, [gcm.Open] returns an error on an altered ciphertext. *)
Class Aead : Type := {
  aead_seal : bytes -> bytes -> bytes -> bytes -> bytes;
  aead_open : bytes -> bytes -> bytes -> bytes -> option bytes;
  aead_open_seal : forall key nonce pt aad, length key = 32%nat -> length nonce = 12%nat ->
    aead_open key nonce (aead_seal key nonce pt aad) aad = Some pt
}.

Section Encrypter.
Context `{Aead}.

(** [getOrCreateKey]; [rnd] is what [rand.Read] would deliver. *)
Definition getOrCreateKey (rnd : option bytes) (e : InMemoryEncrypter) (tenant : UUID)
    : outcome bytes * InMemoryEncrypter :=
  match ime_keys e !! tenant with
  | Some key => (Ok key, e)
  | None => match rnd with
            | None => (Err (Errorf "crypto/rand: read failed" []), e)
            | Some key => (Ok key, mkInMemoryEncrypter (<[tenant := key]> (ime_keys e)))
            end
  end.

(** [aes.NewCipher] accepts keys of 16, 24 and 32 bytes. *)
Definition NewCipher (key : bytes) : outcome unit :=
  if ((length key =? 16) || (length key =? 24) || (length key =? 32))%nat then Ok tt
  else Err (Errorf "crypto/aes: invalid key size" []).

(** [InMemoryEncrypter.Encrypt]: [nonce || gcm-seal(plaintext)] *)
Definition Encrypt (rndKey rndNonce : option bytes) (e : InMemoryEncrypter) (tenant : UUID)
    (plaintext : bytes) : outcome bytes * InMemoryEncrypter :=
  let '(r, e') := getOrCreateKey rndKey e tenant in
  (key ← r;
   wrap "inmemory: create cipher: %w" [] (NewCipher key) ;;
   nonce ← (match rndNonce with
            | Some n => Ok n
            | None => Err (Wrapf "inmemory: generate nonce: %w" [] (Errorf "EOF" []))
            end);
   Ok (nonce ++ aead_seal key nonce plaintext []), e').

(** [InMemoryEncrypter.Decrypt] *)
Definition Decrypt (rndKey : option bytes) (e : InMemoryEncrypter) (tenant : UUID)
    (ciphertext : bytes) : outcome bytes * InMemoryEncrypter :=
  let '(r, e') := getOrCreateKey rndKey e tenant in
  (key ← r;
   wrap "inmemory: create cipher: %w" [] (NewCipher key) ;;
   if (length ciphertext <? 12)%nat then Err (Errorf "inmemory: ciphertext too short" []) else
   match aead_open key (take 12 ciphertext) (drop 12 ciphertext) [] with
   | Some pt => Ok pt
   | None => Err (Errorf "cipher: message authentication failed" [])
   end, e').

End Encrypter.
