(* ===== verification/KeyManagerProps.v ===== *)
(** * KeyManagerProps: signatures verify, also across rotations

    The key manager is proved against the [Signer] interface; the in-memory
    signer discharges it.  Then the root signature, the overlap window, the mode
    gates and the envelope encrypter. *)

From stdpp Require Import base gmap strings list fin_maps.
From Stdlib Require Import ZArith Lia Strings.Byte.
From S2P Require Import Prelude Identity Cose Envelope Reference KeyManager.

Open Scope Z_scope.
Open Scope go_scope.

(** ** The in-memory signer implements the interface *)

Section InMemory.
Context `{UT : UuidText} `{GC : GoCrypto}.

(** The two maps hold the halves of the same key pairs. *)
Definition ims_wf (s : InMemorySigner) : Prop :=
  forall kid, match ims_keys s !! kid, ims_pubKeys s !! kid with
              | Some priv, Some pub => length priv = 64%nat /\ pub = ed25519_Public priv
              | None, None => True
              | _, _ => False
              end.

#[export] Program Instance InMemorySigner_laws : SignerLaws InMemorySigner :=
  {| signer_wf := ims_wf |}.
Next Obligation.
  intros s kid msg sig Hwf Hs. cbn in *. specialize (Hwf kid). unfold ims_Sign in Hs.
  unfold ims_GetPubKey. destruct (ims_keys s !! kid) as [priv|]; [|done].
  destruct (ims_pubKeys s !! kid) as [pub|]; [|done]. destruct Hwf as [Hlen ->].
  rewrite ed25519_Sign_ok in Hs by done. injection Hs as <-. eexists. split; [done|].
  apply ed25519_Verify_true. split; [unfold ed25519_Public; by rewrite length_drop, Hlen|].
  by apply ed_verify_sign.
Qed.
Next Obligation.
  intros s kid pub msg Hwf Hg. cbn in *. specialize (Hwf kid). unfold ims_GetPubKey in Hg.
  unfold ims_Sign. destruct (ims_pubKeys s !! kid) as [pb|]; [|done].
  destruct (ims_keys s !! kid) as [priv|]; [|done]. destruct Hwf as [Hlen _].
  rewrite ed25519_Sign_ok by done. by eexists.
Qed.
Next Obligation.
  intros fr s p r s' Hwf Hfr Hg. cbn in *. unfold ims_GenerateKey in Hg. unfold fresh_ok in Hfr.
  destruct (fresh_priv fr) as [priv|]; injection Hg as <- <-; [|done].
  specialize (Hfr _ eq_refl). split_and!.
  - intros kid. cbn. destruct (decide (kid = kid_of p (fresh_uuid fr))) as [->|Hne].
    + by rewrite !lookup_insert_eq.
    + rewrite !lookup_insert_ne by done. apply Hwf.
  - intros kid pub [= <- <-]. unfold ims_GetPubKey. cbn. by rewrite lookup_insert_eq.
  - intros kid Hne. unfold ims_GetPubKey. cbn. rewrite lookup_insert_ne; [done|].
    intros <-. by eapply Hne.
Qed.

End InMemory.

(** ** The key manager over any backend *)

Section Props.
Context {S : Type} `{UT : UuidText} `{GC : GoCrypto} `{SG : Signer S} `{SL : !SignerLaws S}.

(** The invariant of the key manager: every active key is allowed, not retired
    and known to the backend under its id. *)
Record km_ok (km : KeyManager S) : Prop := mkKmOk {
  ko_wf : signer_wf (km_signer km);
  ko_keys : forall ks p kv, km_activeKeys km = Some ks -> ks_Keys ks !! p = Some kv ->
    kv_Kid kv ∈ km_allowedKids km /\ signer_GetPubKey (km_signer km) (kv_Kid kv) = Ok (kv_PubKey kv) /\
    kv_ActivatedAt kv <> None /\ kv_RetiredAt kv = None
}.

Lemma active_key_Ok now (km : KeyManager S) p kv :
  active_key now km p = Ok kv ->
  exists ks, km_activeKeys km = Some ks /\ ks_Keys ks !! p = Some kv /\ IsActive now kv = true.
Proof.
  unfold active_key. destruct (km_activeKeys km) as [ks|]; [|done].
  destruct (ks_Keys ks !! p) as [k|] eqn:E; [|done]. destruct (IsActive now k) eqn:Ea; [|done].
  intros [= <-]. by exists ks.
Qed.

Lemma SignWithPurpose_Ok now (km : KeyManager S) p msg sig kid :
  km_ok km -> SignWithPurpose now km p msg = Ok (sig, kid) ->
  exists pub, kid ∈ km_allowedKids km /\ signer_GetPubKey (km_signer km) kid = Ok pub /\
    GetPubKey now km p = Ok (pub, kid) /\ ed25519_Verify pub msg sig = Ok true.
Proof.
  intros Hok Hs. unfold SignWithPurpose in Hs.
  apply bind_Ok in Hs as (kv & Hkv & Hs). apply bind_Ok in Hs as (s & Hsig & Hs).
  rewrite wrap_Ok in Hsig. injection Hs as -> <-.
  unfold GetPubKey. rewrite Hkv. apply active_key_Ok in Hkv as (ks & Hks & Hl & _).
  destruct (ko_keys _ Hok _ _ _ Hks Hl) as (Hin & Hpub & _).
  apply signer_sound in Hsig as (pub & Hpub' & Hv); [|apply Hok].
  rewrite Hpub in Hpub'. injection Hpub' as <-. by exists (kv_PubKey kv).
Qed.

Lemma VerifySignature_intro (km : KeyManager S) kid pub msg sig :
  kid ∈ km_allowedKids km -> signer_GetPubKey (km_signer km) kid = Ok pub ->
  ed25519_Verify pub msg sig = Ok true -> VerifySignature km kid msg sig = Ok tt.
Proof.
  intros Hin Hp Hv. unfold VerifySignature, IsAllowedKid. rewrite bool_decide_eq_true_2 by done.
  cbn. rewrite Hp. cbn. rewrite Hv. done.
Qed.

Lemma RotateKey_Ok now fr (km : KeyManager S) p new km' :
  km_ok km -> fresh_ok fr -> RotateKey now fr km p = (Ok new, km') -> new ∉ km_allowedKids km ->
  km_ok km' /\ km_allowedKids km ⊆ km_allowedKids km' /\ new ∈ km_allowedKids km' /\
  (forall kid, kid ∈ km_allowedKids km ->
     signer_GetPubKey (km_signer km') kid = signer_GetPubKey (km_signer km) kid) /\
  (exists pub, GetPubKey now km' p = Ok (pub, new)).
Proof.
  intros Hok Hfr Hr Hnew. unfold RotateKey in Hr.
  destruct (km_activeKeys km) as [ks|] eqn:Eks; [|done].
  destruct (signer_GenerateKey fr (km_signer km) p) as [[[kid pub]| |] s'] eqn:Eg; [|done..].
  injection Hr as <- <-. cbn.
  destruct (signer_gen _ _ _ _ _ (ko_wf _ Hok) Hfr Eg) as (Hwf & Hk & Hkeep).
  assert (Hold : forall x, x ∈ km_allowedKids km ->
    signer_GetPubKey s' x = signer_GetPubKey (km_signer km) x).
  { intros x Hx. apply Hkeep. intros pb [= -> _]. done. }
  split_and!; [|set_solver|set_solver|done|].
  - split; [done|]. cbn. intros ks' p' kv [= <-]. cbn.
    intros [[<- <-]|[Hne Hl]]%lookup_insert_Some; cbn.
    + split_and!; [set_solver|by apply Hk|done|done].
    + destruct (ko_keys _ Hok _ _ _ Eks Hl) as (Hin & Hpub & ? & ?).
      split_and!; [set_solver|by rewrite Hold|done|done].
  - exists pub. unfold GetPubKey, active_key. cbn. by rewrite lookup_insert_eq.
Qed.

(** C38.  A signature made with [SignWithPurpose] verifies under the key id it
    reports, and still verifies after the key of any purpose has been rotated, as
    long as the backend gives the new key an id not used before; the rotated
    purpose then signs with the new key. *)
Theorem signature_survives_rotation now (km : KeyManager S) p msg sig kid now' fr p' new km' :
  km_ok km -> fresh_ok fr ->
  SignWithPurpose now km p msg = Ok (sig, kid) ->
  RotateKey now' fr km p' = (Ok new, km') -> new ∉ km_allowedKids km ->
  VerifySignature km kid msg sig = Ok tt /\ VerifySignature km' kid msg sig = Ok tt /\
  km_ok km' /\ (exists sig2, SignWithPurpose now' km' p' msg = Ok (sig2, new)) /\
  IsAllowedKid km' kid = true.
Proof.
  intros Hok Hfr Hs Hr Hnew.
  destruct (SignWithPurpose_Ok _ _ _ _ _ _ Hok Hs) as (pub & Hin & Hpub & _ & Hv).
  destruct (RotateKey_Ok _ _ _ _ _ _ Hok Hfr Hr Hnew) as (Hok' & Hsub & Hnew' & Hkeep & pub2 & Hg).
  split_and!; [by eapply VerifySignature_intro| |done| |].
  - eapply VerifySignature_intro; [by apply Hsub|by rewrite Hkeep|done].
  - unfold GetPubKey in Hg. apply bind_Ok in Hg as (kv & Hkv & Hg). injection Hg as <- <-.
    unfold SignWithPurpose. rewrite Hkv. apply active_key_Ok in Hkv as (ks & Hks & Hl & _).
    destruct (ko_keys _ Hok' _ _ _ Hks Hl) as (_ & Hp & _).
    destruct (signer_total _ _ _ msg (ko_wf _ Hok') Hp) as [sig2 Hs2]. cbn. rewrite Hs2. by exists sig2.
  - apply bool_decide_eq_true. by apply Hsub.
Qed.

(** The root ceremony closes: a key set signed by the holder of the root
    private key with [SignKeySet] is accepted by [SetRootSignature] of a manager
    with the matching root public key, which then distributes it with the
    signature; and whatever [SetRootSignature] accepts verifies under the root
    key. *)
Theorem root_signature_roundtrip rootPriv (km : KeyManager S) ks :
  length rootPriv = 64%nat -> km_rootPubKey km = ed25519_Public rootPriv ->
  km_activeKeys km = Some ks ->
  exists sig km', SignKeySet rootPriv ks = Ok sig /\ SetRootSignature km sig = Ok km' /\
    GetActiveKeySet km' = Some (mkActiveKeySet (ks_Keys ks) sig (ks_IssuedAt ks)) /\
    VerifyKeySetSignature (km_rootPubKey km) ks sig = Ok true.
Proof.
  intros Hlen Hpub Hks. unfold SignKeySet. rewrite ed25519_Sign_ok by done.
  assert (Hv : ed25519_Verify (km_rootPubKey km) (buildPubKeySetForSigning ks)
    (ed_sign rootPriv (buildPubKeySetForSigning ks)) = Ok true).
  { rewrite Hpub. apply ed25519_Verify_true. split; [|by apply ed_verify_sign].
    unfold ed25519_Public. by rewrite length_drop, Hlen. }
  eexists _, _. split; [done|]. unfold SetRootSignature, verifyRootSig. rewrite Hks, Hv. cbn.
  by split_and!.
Qed.

(** [RetireOverlapKeys] never retires a key: for every non-negative grant
    lifetime, and any clock that advances, the manager is unchanged, so the keys
    of past rotations stay accepted for good. *)
Theorem overlap_keys_never_retired clock ttl (km : KeyManager S) :
  0 <= ttl -> (forall n, clock 0%nat < clock (Datatypes.S n)) ->
  RetireOverlapKeys clock ttl km = km.
Proof.
  intros Ht Hc. unfold RetireOverlapKeys.
  assert (H : forall kids n, retire_loop clock n (clock 0%nat - ttl) kids km = km).
  { induction kids as [|k kids IH]; intros n; [done|]. cbn [retire_loop]. unfold time_After.
    rewrite (proj2 (Z.ltb_lt _ _)); [apply IH|]. specialize (Hc n). lia. }
  apply H.
Qed.

End Props.

Section InMemoryProps.
Context `{UT : UuidText} `{GC : GoCrypto}.

(** Key ids of purposes that differ in their first letter differ. *)
Lemma kid_of_head p c s u : p = String c s -> exists r, kid_of p u = String c r.
Proof. intros ->. by eexists. Qed.

Lemma kids_distinct p q u v :
  p ∈ AllPurposes -> q ∈ AllPurposes -> p <> q -> kid_of p u <> kid_of q v.
Proof.
  intros Hp Hq Hne E. apply Hne.
  rewrite list_elem_of_In in Hp, Hq. cbn in Hp, Hq.
  repeat destruct Hp as [<-|Hp]; repeat destruct Hq as [<-|Hq]; try done;
    unfold kid_of in E; cbn in E; discriminate E.
Qed.

(** Adding a key of the in-memory backend under an id no other active key has. *)
Lemma init_key_step (keys : gmap KeyPurpose KeyVersion) (s : InMemorySigner) (allowed : gset string)
    p u priv now :
  length priv = 64%nat -> p ∈ AllPurposes ->
  (forall q kv, keys !! q = Some kv -> q ∈ AllPurposes /\ q <> p /\ exists v, kv_Kid kv = kid_of q v) ->
  (forall q kv, keys !! q = Some kv -> kv_Kid kv ∈ allowed /\
     ims_GetPubKey s (kv_Kid kv) = Ok (kv_PubKey kv) /\ kv_ActivatedAt kv <> None /\ kv_RetiredAt kv = None) ->
  let kid := kid_of p u in
  let pub := ed25519_Public priv in
  forall q kv, <[p := mkKeyVersion kid p pub now (Some now) None]> keys !! q = Some kv ->
    kv_Kid kv ∈ {[kid]} ∪ allowed /\
    ims_GetPubKey (mkInMemorySigner (<[kid := priv]> (ims_keys s)) (<[kid := pub]> (ims_pubKeys s)))
      (kv_Kid kv) = Ok (kv_PubKey kv) /\ kv_ActivatedAt kv <> None /\ kv_RetiredAt kv = None.
Proof.
  intros Hlen Hp Hkid Hold kid pub q kv. unfold ims_GetPubKey in *. cbn.
  intros [[<- <-]|[Hne Hl]]%lookup_insert_Some; cbn.
  - rewrite lookup_insert_eq. split_and!; [set_solver|done..].
  - destruct (Hold _ _ Hl) as (Hin & Hg & ? & ?). destruct (Hkid _ _ Hl) as (Hq & Hqp & v & Ev).
    rewrite lookup_insert_ne; [split_and!; [set_solver|done..]|].
    rewrite Ev. by apply kids_distinct.
Qed.

Definition keys_ready (keys : gmap KeyPurpose KeyVersion) (s : InMemorySigner) (allowed : gset string)
    (done : list KeyPurpose) : Prop :=
  ims_wf s /\
  (forall q kv, keys !! q = Some kv -> q ∈ done /\ exists v, kv_Kid kv = kid_of q v) /\
  (forall q, q ∈ done -> is_Some (keys !! q)) /\
  (forall q kv, keys !! q = Some kv -> kv_Kid kv ∈ allowed /\
     ims_GetPubKey s (kv_Kid kv) = Ok (kv_PubKey kv) /\ kv_ActivatedAt kv <> None /\ kv_RetiredAt kv = None).

Lemma init_keys_ready clock fresh ps : forall n keys (km : KeyManager InMemorySigner) fin,
  (forall m, exists priv, fresh_priv (fresh m) = Some priv /\ length priv = 64%nat) ->
  fin ++ ps = AllPurposes -> keys_ready keys (km_signer km) (km_allowedKids km) fin ->
  exists keys' km', init_keys clock fresh n ps keys km = (Ok keys', km') /\
    keys_ready keys' (km_signer km') (km_allowedKids km') AllPurposes.
Proof.
  induction ps as [|p ps IH]; intros n keys km fin Hf Hsplit Hr.
  - rewrite app_nil_r in Hsplit. subst fin. by exists keys, km.
  - destruct (Hf n) as (priv & Hpriv & Hlen). cbn [init_keys signer_GenerateKey InMemorySigner_Signer].
    destruct (ims_GenerateKey (fresh n) (km_signer km) p) as [r s'] eqn:Eg.
    assert (Hwf : ims_wf s').
    { eapply (signer_gen (SignerLaws := InMemorySigner_laws) (fresh n) (km_signer km) p r s');
        [apply Hr| |exact Eg]. intros pr E. congruence. }
    unfold ims_GenerateKey in Eg. rewrite Hpriv in Eg. injection Eg as <- <-.
    assert (Hnd : NoDup (fin ++ p :: ps)) by (rewrite Hsplit; apply (bool_decide_unpack _); done).
    apply NoDup_app in Hnd as (_ & Hdisj & _).
    assert (Hsub : forall q, q ∈ fin -> q ∈ AllPurposes) by (intros; rewrite <- Hsplit; set_solver).
    assert (Hp : p ∈ AllPurposes) by (rewrite <- Hsplit; set_solver).
    destruct Hr as (_ & Hkid & Hdone & Hkeys).
    apply (IH _ _ _ (fin ++ [p])); [done|by rewrite <- app_assoc|]. cbn. split_and!; [done|..].
    + intros q kv [[<- <-]|[_ Hl]]%lookup_insert_Some; cbn; [set_solver|].
      destruct (Hkid _ _ Hl). set_solver.
    + intros q [Hq|Hq%list_elem_of_singleton]%elem_of_app; [|subst; rewrite lookup_insert_eq; eauto].
      destruct (decide (q = p)) as [->|]; [rewrite lookup_insert_eq; eauto|].
      rewrite lookup_insert_ne by done. by apply Hdone.
    + apply init_key_step; [done..| |done]. intros q kv Hl. destruct (Hkid _ _ Hl) as [Hq Hv].
      split_and!; [by apply Hsub| |done]. intros ->. apply (Hdisj p); set_solver.
Qed.

Lemma init_keys_root clock fresh ps : forall n keys (km : KeyManager InMemorySigner) keys' km',
  init_keys clock fresh n ps keys km = (Ok keys', km') -> km_rootPubKey km' = km_rootPubKey km.
Proof.
  induction ps as [|p ps IH]; intros n keys km keys' km' E; cbn in E; [by injection E as _ <-|].
  destruct (ims_GenerateKey _ _ _) as [[[kid pub]| |] s']; [|done..]. by apply IH in E.
Qed.

(** Start-up of the key manager succeeds whenever the random source does:
    afterwards the invariant holds and every purpose has an active key that can
    sign. *)
Theorem initialize_ready clock fresh rootPub now :
  (forall m, exists priv, fresh_priv (fresh m) = Some priv /\ length priv = 64%nat) ->
  exists ks km, Initialize clock fresh (NewKeyManager NewInMemorySigner rootPub) = (Ok ks, km) /\
    km_ok km /\ km_rootPubKey km = rootPub /\
    forall p msg, p ∈ AllPurposes -> exists sig kid, SignWithPurpose now km p msg = Ok (sig, kid) /\
      VerifySignature km kid msg sig = Ok tt.
Proof.
  intros Hf. destruct (init_keys_ready clock fresh AllPurposes 0 ∅
    (NewKeyManager NewInMemorySigner rootPub) []) as (keys & km & Hi & Hwf & Hkid & Hall & Hkeys);
    [done|done| |].
  { split; [|split; [|split]].
    - intros kid. cbn. by rewrite !lookup_empty.
    - intros q kv Hl. by rewrite lookup_empty in Hl.
    - by intros q ?%elem_of_nil.
    - intros q kv Hl. by rewrite lookup_empty in Hl. }
  unfold Initialize. rewrite Hi. eexists _, _. split; [done|]. cbn.
  assert (Hroot : km_rootPubKey km = rootPub) by (by eapply init_keys_root in Hi).
  set (km' := mkKeyManager _ _ _ _ _).
  assert (Hok : km_ok km') by (split; [exact Hwf|]; intros ks' q kv [= <-]; apply Hkeys).
  split_and!; [done|done|]. intros p msg Hp. destruct (Hall p Hp) as [kv Hl].
  destruct (Hkeys _ _ Hl) as (Hin & Hg & Hact & Hret).
  destruct (signer_total _ _ _ msg (ko_wf _ Hok) Hg) as [sig Hs]. exists sig, (kv_Kid kv).
  assert (Hsign : SignWithPurpose now km' p msg = Ok (sig, kv_Kid kv)).
  { unfold SignWithPurpose, active_key. cbn. rewrite Hl. unfold IsActive. rewrite Hret.
    destruct (kv_ActivatedAt kv); [|done]. cbn. cbn in Hs. by rewrite Hs. }
  split; [done|]. apply (SignWithPurpose_Ok _ _ _ _ _ _ Hok) in Hsign as (pub & ? & ? & _ & ?).
  by eapply VerifySignature_intro.
Qed.

(** Key ids are unique only across UUIDs that differ in their first eight
    characters.  When two keys of one purpose are generated under the same eight
    characters, the second replaces the first in the backend: a signature made
    before the rotation no longer verifies, although its key id is both active and
    in the overlap window. *)
Theorem rotation_with_same_prefix_forgets_key now (km : KeyManager InMemorySigner) ks p kv fr priv msg sig :
  km_activeKeys km = Some ks -> ks_Keys ks !! p = Some kv ->
  fresh_priv fr = Some priv -> length priv = 64%nat ->
  kv_Kid kv = kid_of p (fresh_uuid fr) ->
  ed_verify (ed25519_Public priv) msg sig = false ->
  exists km', RotateKey now fr km p = (Ok (kv_Kid kv), km') /\
    IsAllowedKid km' (kv_Kid kv) = true /\ kv_Kid kv ∈ km_overlapKids km' /\
    exists e, VerifySignature km' (kv_Kid kv) msg sig = Err e.
Proof.
  intros Hks Hl Hpriv Hlen Hkid Hv. unfold RotateKey. rewrite Hks. cbn.
  unfold ims_GenerateKey. rewrite Hpriv, <- Hkid, Hl. eexists. split; [done|]. cbn.
  assert (Ha : forall x : gset string, bool_decide (kv_Kid kv ∈ {[kv_Kid kv]} ∪ x) = true)
    by (intros; apply bool_decide_eq_true; set_solver).
  unfold VerifySignature, IsAllowedKid. cbn. rewrite Ha. split_and!; [done|set_solver|].
  cbn. unfold ims_GetPubKey. cbn. rewrite lookup_insert_eq. cbn.
  unfold ed25519_Verify. unfold ed25519_Public at 1. rewrite length_drop, Hlen. cbn.
  rewrite Hv. by eexists.
Qed.

End InMemoryProps.

(** Outside development mode the service cannot start: there is no
    production signer or encrypter, with or without a Vault address; in
    development mode both are the in-memory ones. *)
Theorem production_mode_refused vaultAddr :
  (exists e, InitCrypto false vaultAddr = Err e) /\
  InitCrypto true vaultAddr = Ok (NewInMemorySigner, NewInMemoryEncrypter).
Proof.
  split; [|done]. unfold InitCrypto, NewSignerForMode. destruct (vaultAddr == ""); by eexists.
Qed.

(** Envelope encryption is per tenant and reversible: what [Encrypt]
    produced for a tenant, [Decrypt] opens for that tenant in every later state of
    the encrypter in which the tenant's key is still the same; encrypting for one
    tenant never changes the key of another. *)
Theorem encrypt_decrypt `{A : Aead} rk nonce e tenant pt ct e' rk2 e2 :
  Encrypt rk (Some nonce) e tenant pt = (Ok ct, e') ->
  length nonce = 12%nat -> (forall t k, ime_keys e' !! t = Some k -> length k = 32%nat) ->
  ime_keys e2 !! tenant = ime_keys e' !! tenant ->
  Decrypt rk2 e2 tenant ct = (Ok pt, e2) /\
  forall t, t <> tenant -> ime_keys e' !! t = ime_keys e !! t.
Proof.
  intros He Hn Hk H2. unfold Encrypt in He.
  assert (Hkey : exists key, getOrCreateKey rk e tenant = (Ok key, e') /\ ime_keys e' !! tenant = Some key /\
    ct = nonce ++ aead_seal key nonce pt [] /\ forall t, t <> tenant -> ime_keys e' !! t = ime_keys e !! t).
  { unfold getOrCreateKey in *. destruct (ime_keys e !! tenant) as [key|] eqn:E.
    - injection He as He <-. exists key. apply bind_Ok in He as ([] & _ & He). by injection He as <-.
    - destruct rk as [key|]; [|by injection He]. injection He as He <-. exists key.
      apply bind_Ok in He as ([] & _ & He). injection He as <-. split_and!; [done| |done|].
      + cbn. by rewrite lookup_insert_eq.
      + intros t Ht. cbn. by rewrite lookup_insert_ne. }
  destruct Hkey as (key & _ & Hl & -> & Hother). split; [|done].
  pose proof (Hk _ _ Hl) as Hlen. unfold Decrypt, getOrCreateKey. rewrite H2, Hl.
  cbn -[Nat.ltb take drop length app NewCipher]. unfold NewCipher. rewrite Hlen.
  cbn -[Nat.ltb take drop length app]. f_equal.
  rewrite (proj2 (Nat.ltb_ge _ _)) by (rewrite length_app; lia).
  rewrite take_app_length', drop_app_length' by done. by rewrite aead_open_seal.
Qed.

(** ** Witnesses *)

Definition sample_fresh (n : Z) : Fresh :=
  mkFresh (Some (sample_priv (100 + n))) (uuid_of_Z (n * 2 ^ 96)).

(** A manager with one grant-signing key. *)
Definition sample_kid : string := kid_of PurposeGrantSig (uuid_of_Z 0).
Definition sample_kv : KeyVersion :=
  mkKeyVersion sample_kid PurposeGrantSig (sample_pub 40) sample_now (Some sample_now) None.
Definition sample_ks : ActiveKeySet :=
  mkActiveKeySet {[PurposeGrantSig := sample_kv]} [] sample_now.
Definition sample_km : KeyManager InMemorySigner :=
  mkKeyManager (mkInMemorySigner {[sample_kid := sample_priv 40]} {[sample_kid := sample_pub 40]})
    (Some sample_ks) (sample_pub 9) {[sample_kid]} ∅.

Lemma sample_km_ok : km_ok sample_km.
Proof.
  split.
  - intros kid. cbn. destruct (decide (kid = sample_kid)) as [->|Hne].
    + rewrite !lookup_singleton_eq. by split.
    + by rewrite !lookup_singleton_ne.
  - intros ks p kv [= <-]. cbn. intros [<- <-]%lookup_singleton_Some.
    unfold ims_GetPubKey. cbn. rewrite lookup_singleton_eq. split_and!; [set_solver|done..].
Qed.

Lemma signature_survives_rotation_witness :
  exists sig km', SignWithPurpose sample_now sample_km PurposeGrantSig [x01; x02] = Ok (sig, sample_kid) /\
    RotateKey sample_now (sample_fresh 1) sample_km PurposeGrantSig
      = (Ok (kid_of PurposeGrantSig (uuid_of_Z (2 ^ 96))), km') /\
    VerifySignature km' sample_kid [x01; x02] sig = Ok tt.
Proof.
  destruct (SignWithPurpose sample_now sample_km PurposeGrantSig [x01; x02]) as [[sig kid]| |] eqn:Es;
    [|vm_compute in Es; discriminate Es..].
  assert (kid = sample_kid) as -> by (vm_compute in Es; injection Es as _ <-; reflexivity).
  destruct (RotateKey sample_now (sample_fresh 1) sample_km PurposeGrantSig) as [[new| |] km'] eqn:Er;
    [|apply (f_equal fst) in Er; vm_compute in Er; discriminate Er..].
  assert (new = kid_of PurposeGrantSig (uuid_of_Z (2 ^ 96))) as ->
    by (apply (f_equal fst) in Er; vm_compute in Er; injection Er as <-; reflexivity).
  exists sig, km'. split; [reflexivity|]. split; [reflexivity|].
  refine (proj1 (proj2 (signature_survives_rotation sample_now sample_km PurposeGrantSig [x01; x02] sig
    sample_kid sample_now (sample_fresh 1) PurposeGrantSig _ km' sample_km_ok _ Es Er _))).
  - intros priv [= <-]. reflexivity.
  - apply (bool_decide_unpack _). vm_compute. exact I.
Defined.

Lemma root_signature_roundtrip_witness :
  exists sig km', SignKeySet (sample_priv 9) sample_ks = Ok sig /\ SetRootSignature sample_km sig = Ok km'.
Proof.
  destruct (root_signature_roundtrip (sample_priv 9) sample_km sample_ks eq_refl eq_refl eq_refl)
    as (sig & km' & H1 & H2 & _).
  exists sig, km'. split; assumption.
Defined.

Lemma overlap_keys_never_retired_witness :
  RetireOverlapKeys (fun n => sample_now + Z.of_nat n) (8 * Hour) sample_km = sample_km.
Proof.
  apply (overlap_keys_never_retired (fun n => sample_now + Z.of_nat n) (8 * Hour) sample_km);
    [vm_compute; discriminate|intros n; lia].
Defined.

Lemma initialize_ready_witness :
  exists ks km, Initialize (fun n => sample_now + Z.of_nat n) (fun n => sample_fresh (Z.of_nat n))
      (NewKeyManager NewInMemorySigner (sample_pub 9)) = (Ok ks, km) /\ km_ok km.
Proof.
  destruct (initialize_ready (fun n => sample_now + Z.of_nat n) (fun n => sample_fresh (Z.of_nat n))
              (sample_pub 9) sample_now) as (ks & km & H1 & H2 & _).
  - intros m. eexists. split; reflexivity.
  - exists ks, km. split; assumption.
Defined.

Lemma rotation_with_same_prefix_forgets_key_witness :
  exists km' sig, SignWithPurpose sample_now sample_km PurposeGrantSig [x01] = Ok (sig, sample_kid) /\
    RotateKey sample_now (sample_fresh 0) sample_km PurposeGrantSig = (Ok sample_kid, km') /\
    exists e, VerifySignature km' sample_kid [x01] sig = Err e.
Proof.
  destruct (rotation_with_same_prefix_forgets_key sample_now sample_km sample_ks PurposeGrantSig sample_kv
    (sample_fresh 0) (sample_priv 100) [x01] (ed_sign (sample_priv 40) [x01]))
    as (km' & Hr & _ & _ & Hv); try reflexivity.
  exists km', (ed_sign (sample_priv 40) [x01]). split; [reflexivity|]. split; assumption.
Defined.

(** A transparent cipher with the law of the real one. *)
Definition ref_Aead : Aead := {|
  aead_seal k n p a := p;
  aead_open k n c a := Some c;
  aead_open_seal k n p a _ _ := eq_refl
|}.

Lemma encrypt_decrypt_witness :
  exists ct e', Encrypt (H := ref_Aead) (Some (be_bytes 32 5)) (Some (be_bytes 12 6))
      NewInMemoryEncrypter (uuid_of_Z 1) [x0a] = (Ok ct, e') /\
    Decrypt (H := ref_Aead) None e' (uuid_of_Z 1) ct = (Ok [x0a], e').
Proof.
  eexists _, _. split; [reflexivity|].
  refine (proj1 (@encrypt_decrypt ref_Aead (Some (be_bytes 32 5)) (be_bytes 12 6) NewInMemoryEncrypter
    (uuid_of_Z 1) [x0a] _ _ None _ _ _ _ _)).
  - reflexivity.
  - reflexivity.
  - intros t k H. cbn in H. apply lookup_insert_Some in H as [[_ <-]|[_ H]]; [reflexivity|].
    rewrite lookup_empty in H. discriminate.
  - reflexivity.
Defined.
