(* ===== verification/ServiceMain.v ===== *)
(** * ServiceMain: the signing adapters of the service

    [service/cmd/approval-service/main.go]: the adapters that let the approval
    engine and the audit chain sign through the key manager, without touching
    private keys.  The grant adapter discharges the interface the engine is proved
    against ([GrantSignerLaws]), and the tokens it signs are the ones the daemon
    accepts. *)

From stdpp Require Import base gmap strings list fin_maps pretty.
From Stdlib Require Import ZArith Lia Strings.Byte.
From S2P Require Import Prelude Identity Cose Envelope Reference EnvelopeProps Database Schema.
From S2P Require Import Messaging AuditChain Enforcement KeyManager KeyManagerProps.

Open Scope Z_scope.
Open Scope go_scope.

Section Adapters.
Context {S : Type} `{UT : UuidText} `{CI : CborInit} `{GC : GoCrypto}.
Context `{CH : Cbor Headers} `{CS : Cbor sigStructure} `{CM : Cbor Sign1Message}.
Context `{CB : Cbor ScopeBinding} `{CR : Cbor RequestPayload} `{CA : Cbor AGTPayload}.
Context `{SG : Signer S}.

(** [keyManagerAuditSigner.Sign] *)
Definition keyManagerAuditSigner (now : Time) (km : KeyManager S) : AuditSigner :=
  mkAuditSigner (SignWithPurpose now km PurposeAuditCheckpoint).

(** Both signers: build the signature structure, have the key manager sign it,
    assemble and serialise the message.  [verb] is the word of the error text. *)
Definition kms_sign (now : Time) (km : KeyManager S) (purpose : KeyPurpose) (typ verb : string)
    (payloadBytes : bytes) : outcome bytes :=
  '(_, kid) ← GetPubKey now km purpose;
  '(sigStructBytes, _, _) ← wrap "build sig structure: %w" []
                              (BuildSigStructure kid typ payloadBytes None);
  '(signature, _) ← wrap verb [] (SignWithPurpose now km purpose sigStructBytes);
  msg ← wrap "assemble sign1: %w" [] (Sign1WithSignature kid typ payloadBytes None signature);
  SerializeSign1 msg.

(** [keyManagerRequestSigner.SignRequest] *)
Definition keyManagerRequestSigner (km : KeyManager S) : RequestSigner := {|
  SignRequest now payload :=
    '(payload, payloadBytes) ← wrap "prepare request payload: %w" [] (PrepareRequestPayload now payload);
    raw ← kms_sign now km PurposeRequestSig "dnivio-req-v2" "sign request: %w" payloadBytes;
    Ok (payload, raw)
|}.

(** [keyManagerGrantSigner.SignGrant] *)
Definition keyManagerGrantSigner (km : KeyManager S) : GrantSigner := {|
  SignGrant now payload :=
    '(payload, payloadBytes) ← wrap "prepare agt payload: %w" [] (PrepareAGTPayload now payload);
    raw ← kms_sign now km PurposeGrantSig "dnivio-agt-v2" "sign grant: %w" payloadBytes;
    Ok (payload, raw)
|}.

(** The adapter leaves of the payload what [PrepareAGTPayload] makes of it. *)
#[export] Instance keyManagerGrantSigner_laws (km : KeyManager S) :
  @GrantSignerLaws CI CA (keyManagerGrantSigner km).
Proof.
  split. intros now p p' b E. cbn in E. apply bind_Ok in E as ([q pb] & Hp & E).
  rewrite wrap_Ok in Hp. apply bind_Ok in E as (raw & _ & E). injection E as <- _. by exists pb.
Qed.

Context `{SL : !SignerLaws S} `{EL : !EnvelopeLaws}.

(** What the key manager's signature over a payload gives on the wire. *)
Lemma kms_sign_wire now (km : KeyManager S) purpose typ verb pb pub kid :
  km_ok km -> GetPubKey now km purpose = Ok (pub, kid) -> text_ok kid = true -> text_ok typ = true ->
  exists msg raw, kms_sign now km purpose typ verb pb = Ok raw /\
    DeserializeSign1 raw = Ok msg /\ sm_Payload msg = pb /\
    sm_Protected msg = mkHeaders AlgorithmEdDSA kid typ /\
    Verify1 msg pub = Ok (pb, mkHeaders AlgorithmEdDSA kid typ).
Proof.
  intros Hok Hg Hk Ht. set (h := mkHeaders AlgorithmEdDSA kid typ).
  destruct (to_be_signed_total h pb) as [tbs Htbs]; [done|].
  destruct (marshal_total h) as [hb Hhb]; [done|].
  assert (Hsig : exists sig, SignWithPurpose now km purpose tbs = Ok (sig, kid) /\
    ed25519_Verify pub tbs sig = Ok true).
  { pose proof Hg as Hg'. unfold GetPubKey in Hg'. apply bind_Ok in Hg' as (kv & Hkv & E).
    injection E as <- <-. pose proof Hkv as Hkv'. apply active_key_Ok in Hkv' as (ks & Hks & Hl & _).
    destruct (ko_keys _ Hok _ _ _ Hks Hl) as (_ & Hp & _).
    destruct (signer_total _ _ _ tbs (ko_wf _ Hok) Hp) as [sig Hs]. exists sig.
    assert (Hsw : SignWithPurpose now km purpose tbs = Ok (sig, kv_Kid kv))
      by (unfold SignWithPurpose; rewrite Hkv; cbn; by rewrite Hs).
    split; [done|]. apply (SignWithPurpose_Ok _ _ _ _ _ _ Hok) in Hsw as (pub' & _ & _ & Hg2 & Hv).
    rewrite Hg in Hg2. by injection Hg2 as <-. }
  destruct Hsig as (sig & Hs & Hv). set (msg := mkSign1Message h ∅ pb sig).
  destruct (Serialize_Deserialize msg) as (raw & Hser & Hde); [done..|].
  exists msg, raw. split_and!; try done.
  - unfold kms_sign. rewrite Hg. cbn.
    rewrite (proj2 (BuildSigStructure_Ok kid typ pb tbs hb h)) by (by split_and!; [apply cose_encInit|..]).
    cbn. rewrite Hs. cbn. unfold Sign1WithSignature. rewrite cose_encInit. cbn. exact Hser.
  - apply Verify1_Ok. split_and!; [done|done|apply cose_encInit|]. by exists tbs.
Qed.

(** The service and the daemon agree: a token payload signed by the
    service's grant adapter is accepted by the daemon's [VerifyAccessGrantToken]
    under the public key the key manager distributes, inside the token's validity
    interval, for the token's epoch and any policy version not newer than its own,
    with a payload that differs from the signed one only in cutting times to whole
    seconds. *)
Theorem service_token_accepted now now' (km : KeyManager S) p pub kid version sens :
  km_ok km -> GetPubKey now km PurposeGrantSig = Ok (pub, kid) -> text_ok kid = true ->
  let q := agt_set p 2 (if time_IsZero (agt_IssuedAt p) then now else agt_IssuedAt p)
             (if time_IsZero (agt_NotBefore p) then now else agt_NotBefore p) (agt_ExpiresAt p) in
  agt_ok q ->
  time_TruncateSecond (agt_NotBefore q) <= now' <= time_TruncateSecond (agt_ExpiresAt q) ->
  version <= agt_PolicyVersion p -> agt_DeviceSecurityLevel p = SecurityLevelStrongBox ->
  exists raw t, @SignGrant (keyManagerGrantSigner km) now p = Ok (q, raw) /\
    VerifyAccessGrantToken now' raw pub (agt_AuthzEpoch p) version sens = Ok t /\
    at_Payload t = agt_norm q.
Proof.
  intros Hok Hg Hk q Hq Hw Hver Hsec.
  destruct (marshal_total q Hq) as [pb Hpb].
  destruct (kms_sign_wire now km PurposeGrantSig "dnivio-agt-v2" "sign grant: %w" pb pub kid)
    as (msg & raw & Hs & Hd & Hp & Hh & Hv); [done..|].
  exists raw, (mkAccessGrantToken msg (agt_norm q)). split_and!; [| |done].
  - cbn. unfold PrepareAGTPayload. fold q. unfold EncodeCanonical. rewrite cose_encInit, Hpb. cbn.
    by rewrite Hs.
  - apply VerifyAccessGrantToken_Ok. exists msg, (agt_norm q). rewrite Hp, Hh.
    split_and!; try done; [|apply Hw..].
    unfold DecodeCanonical. rewrite cose_decInit. by eapply unmarshal_marshal.
Qed.

End Adapters.

Lemma service_token_accepted_witness :
  exists raw t, @SignGrant (keyManagerGrantSigner sample_km) sample_now sample_agt = Ok (sample_agt, raw) /\
    VerifyAccessGrantToken (sample_now + Second) raw (sample_pub 40) 3 5 SensitivityAdmin = Ok t.
Proof.
  destruct (service_token_accepted sample_now (sample_now + Second) sample_km sample_agt (sample_pub 40)
    sample_kid 5 SensitivityAdmin sample_km_ok) as (raw & t & H1 & H2 & _).
  - reflexivity.
  - reflexivity.
  - vm_compute. repeat split.
  - vm_compute. split; discriminate.
  - vm_compute. discriminate.
  - reflexivity.
  - exists raw, t. split; assumption.
Defined.
