(* ===== verification/Scenario.v ===== *)
(** * Scenario: one approval, from request to use

    A run of the service on the sample tenant: alice's request is created, her
    device approves it, the grant is consumed; in other continuations the request
    is cancelled, the user revoked, the device revoked.  The later files use these
    states as the concrete inputs their theorems are applied to. *)

From stdpp Require Import base gmap strings list fin_maps pretty.
From Stdlib Require Import ZArith Lia Strings.Byte.
From S2P Require Import Prelude Identity Cose Envelope Reference Database Schema Messaging AuditChain.
From S2P Require Import Enforcement Revocation KeyManager KeyManagerProps ServiceMain Sample.

Open Scope Z_scope.
Open Scope go_scope.

(** ** From evaluation to equations *)

(** [is_some] of a lookup, decided by evaluation, as an equation. *)
Lemma is_some_eq {A} (o : option A) : is_some o = true -> exists x, o = Some x.
Proof. destruct o; [by eexists|done]. Qed.

Lemma fmap_eq {A B} (f : A -> B) (o : option A) x y : o = Some x -> f <$> o = Some y -> f x = y.
Proof. by intros -> [= ->]. Qed.

(** ** Parameters *)

(** A JSON writer without escapes; [json.Marshal] of a raw message keeps it. *)
Definition ref_jval (v : jval) : string :=
  match v with
  | JStr s => quoted s
  | JUuid u => quoted (uuid_String u)
  | JInt z => pretty z
  | JTime t => quoted (pretty t)
  | JBytes b => quoted (hex b)
  end.
Definition ref_member (m : string * jval) : string := (quoted m.1 +:+ ":" +:+ ref_jval m.2)%string.
Fixpoint ref_members (l : list (string * jval)) : string :=
  match l with
  | [] => ""
  | [m] => ref_member m
  | m :: rest => (ref_member m +:+ "," +:+ ref_members rest)%string
  end.
Definition ref_json : GoJson := {|
  json_object l := Ok (str_bytes ("{" +:+ ref_members l +:+ "}"));
  json_compact b := Some b
|}.

(** The key manager after [Initialize] with fresh keys. *)
Definition service_km : KeyManager InMemorySigner :=
  (Initialize (fun _ => sample_now) (fun n => sample_fresh (Z.of_nat n))
     (NewKeyManager NewInMemorySigner (sample_pub 9))).2.

(** ** Inputs *)

Definition alice_input : CreateApprovalRequestInput :=
  mkCreateInput tenant1 "tailnet-a" user1 "n-src" 7 "100.64.0.1" node1 resource1 "TCP" ""
    ScopeConnection sample_binding 5 "rule-1" device1.

(** The request ids the environments of the two creations hand out. *)
Definition request1 : UUID := env_uuid (sample_env 1000) 0.
Definition request2 : UUID := env_uuid (sample_env 4000) 0.

Definition device_answer (request : UUID) (decision : string) (key counter : Z) : ApprovalResponse :=
  let r := mkApprovalResponse request decision device1 "k-approve" 0 counter [x0a] [x0b] [x0c] [] in
  match SignApprovalResponse sample_now (sample_priv key) r with Ok r' => r' | _ => r end.

(** Key 22 is the device's approval key, key 21 its authentication key. *)
Definition approve_input : ProcessApprovalInput :=
  mkProcessInput tenant1 request1 device1 DecisionApprove (Some (device_answer request1 DecisionApprove 22 4)).
Definition approve_input2 : ProcessApprovalInput :=
  mkProcessInput tenant1 request2 device1 DecisionApprove
    (Some (device_answer request2 DecisionApprove 22 5)).
Definition deny_input : ProcessApprovalInput :=
  mkProcessInput tenant1 request1 device1 DecisionDeny (Some (device_answer request1 DecisionDeny 21 4)).

(** ** Runs *)

#[export] Existing Instance pg_any.
#[export] Existing Instance ref_json.
#[export] Instance service_RequestSigner : RequestSigner := keyManagerRequestSigner service_km.
#[export] Instance service_GrantSigner : GrantSigner := keyManagerGrantSigner service_km.

Definition created_db : Db := (run (CreateApprovalRequest alice_input) (sample_env 1000) sample_db).2.
Definition approve_run := run (ProcessApproval approve_input) (sample_env 2000) created_db.
Definition granted_db : Db := approve_run.2.

(** The id of the grant: the first UUID of the approving run. *)
Definition grant1 : UUID := env_uuid (sample_env 2000) 0.

Definition consumed_db : Db := (run (ConsumeGrant tenant1 grant1) (sample_env 3000) granted_db).2.
Definition cancelled_db : Db :=
  (run (CancelApprovalRequest tenant1 request1 node1 "timeout") (sample_env 2500) created_db).2.

(** After the cancellation, a second request that is approved. *)
Definition second_db : Db :=
  (run (ProcessApproval approve_input2) (sample_env 5000)
     (run (CreateApprovalRequest alice_input) (sample_env 4000) cancelled_db).2).2.
Definition grant2 : UUID := env_uuid (sample_env 5000) 0.

(** The parts of a run that can be compared by evaluation. *)
Definition granted_state (d : Db) : option (string * Z) :=
  (fun q => (q_state q, q_state_version q)) <$> select_request tenant1 request1 d.

Example approve_run_result :
  (match approve_run.1 with Ok r => Some (par_NewState r, par_GrantJTI r, is_some (par_AGTBytes r)) | _ => None end)
  = Some (ApprovalStateGranted, Some grant1, true).
Proof. vm_compute. reflexivity. Qed.

Example created_state : granted_state created_db = Some ("PENDING"%string, 0).
Proof. vm_compute. reflexivity. Qed.
Example granted_state_1 : granted_state granted_db = Some ("GRANTED"%string, 2).
Proof. vm_compute. reflexivity. Qed.
Example consumed_state : (is_some (db_grants granted_db !! (tenant1, grant1) ≫= g_consumed_at),
  is_some (db_grants consumed_db !! (tenant1, grant1) ≫= g_consumed_at)) = (false, true).
Proof. vm_compute. reflexivity. Qed.
Example cancelled_state : granted_state cancelled_db = Some ("CANCELLED"%string, 1).
Proof. vm_compute. reflexivity. Qed.
