(* ===== verification/RevocationProps.v ===== *)
(** * RevocationProps: what a revocation achieves

    The committed effect of [IssueRevocation] and [RevokeDevice], the freshness
    answers, and the dependence of the sequence allocation on the server. *)

From stdpp Require Import base gmap strings list fin_maps sorting pretty.
From Stdlib Require Import ZArith Lia Strings.Byte.
From S2P Require Import Prelude Identity Cose Envelope Reference Database Schema Messaging AuditChain.
From S2P Require Import Enforcement EngineSpec Revocation Sample Scenario.

Open Scope Z_scope.
Open Scope go_scope.

Section Props.
Context `{UT : UuidText} `{PG : Postgres} `{GJ : GoJson}.

(** ** The entities a revocation is about *)

(** The sessions that [terminateActiveSessions] closes. *)
Definition session_hit (t : UUID) (kind target : string) (d : Db) (s : session_row) : Prop :=
  s_tenant s = t /\
  ((kind = KindDevice /\ uuid_in target = Some (s_device s)) \/
   (kind = KindUser /\ exists g, db_grants d !! (t, s_grant_jti s) = Some g /\
      uuid_in target = Some (g_user g)) \/
   (kind = KindSourceNode /\ exists g, db_grants d !! (t, s_grant_jti s) = Some g /\
      g_src_node_id g = target) \/
   (kind = KindGrant /\ uuid_in target = Some (s_grant_jti s)) \/
   (kind = KindProtectedNode /\ uuid_in target = Some (s_node s))).

(** The grants that [invalidateGrants] deletes unless they are consumed. *)
Definition grant_hit (kind target : string) (jti : UUID) (g : grant_row) : Prop :=
  (kind = KindDevice /\ uuid_in target = Some (g_device g)) \/
  (kind = KindUser /\ uuid_in target = Some (g_user g)) \/
  (kind = KindSourceNode /\ g_src_node_id g = target) \/
  (kind = KindGrant /\ uuid_in target = Some jti) \/
  kind = KindPolicy.

(** ** Statement lemmas *)

(** [d'] is [d] with the sessions that satisfy [P] closed. *)
Definition sessions_closed (P : session_row -> Prop) (d d' : Db) : Prop :=
  exists f, d' = set_sessions (f <$> db_sessions d) d /\
    (forall s, P s -> s_closed_at (f s) <> None) /\
    (forall s, ~ P s -> f s = s) /\
    (forall s, s_closed_at s <> None -> f s = s) /\
    (forall s, s_tenant (f s) = s_tenant s /\ s_grant_jti (f s) = s_grant_jti s).

Lemma close_sessions_closed t (P : Db -> session_row -> bool) (R : session_row -> Prop) now d u d' :
  close_sessions t P now d = inr (u, d') ->
  (forall s, R s <-> s_tenant s = t /\ P d s = true) -> sessions_closed R d d'.
Proof.
  intros [= _ <-] HR. eexists. split; [done|]. split_and!; intros s; try intros Hs.
  - apply HR in Hs as [-> ->]. rewrite eqb_refl. cbn. by destruct (s_closed_at s) eqn:E; cbn; [rewrite E|].
  - destruct (s_tenant s == t) eqn:Et, (P d s) eqn:Ep; try done. go_bool. by destruct Hs; apply HR.
  - destruct (s_closed_at s); [|done]. cbn. by rewrite andb_false_r.
  - by destruct (_ && _ && _).
Qed.

(** [d'] is [d] without the unconsumed grants of tenant [t] that satisfy [P];
    no session referred to them. *)
Definition grants_deleted (t : UUID) (P : UUID -> grant_row -> Prop) (d d' : Db) : Prop :=
  exists m, d' = set_grants m d /\
    (forall k g, m !! k = Some g <->
      db_grants d !! k = Some g /\ ~ (k.1 = t /\ P k.2 g /\ g_consumed_at g = None)) /\
    (forall id s g, db_sessions d !! id = Some s -> s_tenant s = t ->
      db_grants d !! (t, s_grant_jti s) = Some g -> g_consumed_at g = None -> ~ P (s_grant_jti s) g).

Lemma delete_grants_deleted t (P : UUID -> grant_row -> bool) (R : UUID -> grant_row -> Prop) now d u d' :
  delete_grants t P now d = inr (u, d') ->
  (forall j g, R j g <-> P j g = true) -> grants_deleted t R d d'.
Proof.
  unfold delete_grants. destruct (existsb _ _) eqn:Ex; [done|]. intros [= _ <-] HR.
  eexists. split; [done|]. split; [|intros id s g Hs Ht Hg Hc Hp; apply HR in Hp; eapply not_true_iff_false;
    [exact Ex|]; apply existsb_exists; exists (id, s); split;
    [by apply list_elem_of_In, elem_of_map_to_list|]; rewrite Ht, Hg; unfold doomed; cbn;
    by rewrite eqb_refl, Hp, Hc].
  intros k g. rewrite map_lookup_filter_Some. cbn. unfold doomed.
  split; intros [Hl Hd]; (split; [done|]).
  - intros (Ht & Hp & Hc). apply HR in Hp. rewrite Hp, Hc in Hd. cbn in Hd.
    rewrite Ht, eqb_refl in Hd. done.
  - destruct (k.1 == t) eqn:E1, (P k.2 g) eqn:E2, (g_consumed_at g) eqn:E3; try done.
    go_bool. destruct Hd. split_and!; [done|by apply HR|done].
Qed.

Lemma with_uuid_Ok s f now d u d' :
  with_uuid s f now d = inr (u, d') -> exists x, uuid_in s = Some x /\ f x now d = inr (u, d').
Proof. unfold with_uuid. destruct (uuid_in s); [eauto|done]. Qed.

Lemma sessions_closed_refl (P : session_row -> Prop) d : (forall s, ~ P s) -> sessions_closed P d d.
Proof.
  intros HP. exists id. split_and!; [|by intros s ?%HP|done..].
  rewrite map_fmap_id. by destruct d.
Qed.

Lemma grants_deleted_refl t (P : UUID -> grant_row -> Prop) d :
  (forall j g, ~ P j g) -> grants_deleted t P d d.
Proof.
  intros HP. exists (db_grants d). split; [by destruct d|]. split; [|by intros * _ _ _ _ ?%HP].
  intros k g. split; [|naive_solver]. intros Hl. split; [done|]. intros (_ & Hp & _). by eapply HP.
Qed.

(** One transaction step that may fail: inside [in_tx], it either fails and
    leaves the transaction unusable for a commit of this handler, or relates the
    tables by [R]. *)
Lemma wp_terminate t kind target Q env w base now d b :
  in_tx base now d b w -> b = false ->
  (forall d' w', sessions_closed (session_hit t kind target d) d d' -> in_tx base now d' false w' ->
     Q (Ok tt) w') ->
  (forall e d' b' w', in_tx base now d' b' w' -> Q (Err e) w') ->
  wp (terminateActiveSessions t kind target) Q env w.
Proof.
  intros Hi -> HO HE. unfold terminateActiveSessions, session_hit in *.
  destruct (kind == KindDevice) eqn:K1; [|destruct (kind == KindUser) eqn:K2;
    [|destruct (kind == KindSourceNode) eqn:K3; [|destruct (kind == KindGrant) eqn:K4;
    [|destruct (kind == KindProtectedNode) eqn:K5]]]]; go_bool;
    try (subst kind; eapply wp_tx_exec; [done| |by intros; eapply HE]; intros [] d' w' _ Hf Hw;
         eapply HO; [|done]).
  - apply with_uuid_Ok in Hf as (x & Hx & Hf). eapply close_sessions_closed; [exact Hf|].
    intros s. rewrite Hx, eqb_true. naive_solver.
  - apply with_uuid_Ok in Hf as (x & Hx & Hf). eapply close_sessions_closed; [exact Hf|].
    intros s. rewrite Hx. unfold grant_where. destruct (db_grants d !! (t, s_grant_jti s)) as [g|];
      rewrite ?eqb_true; naive_solver.
  - eapply close_sessions_closed; [exact Hf|].
    intros s. unfold grant_where. destruct (db_grants d !! (t, s_grant_jti s)) as [g|];
      rewrite ?eqb_true; naive_solver.
  - apply with_uuid_Ok in Hf as (x & Hx & Hf). eapply close_sessions_closed; [exact Hf|].
    intros s. rewrite Hx, eqb_true. naive_solver.
  - apply with_uuid_Ok in Hf as (x & Hx & Hf). eapply close_sessions_closed; [exact Hf|].
    intros s. rewrite Hx, eqb_true. naive_solver.
  - wp_go. eapply HO; [|done]. apply sessions_closed_refl. naive_solver.
Qed.

Lemma wp_invalidate t kind target Q env w base now d b :
  in_tx base now d b w -> b = false ->
  (forall d' w', grants_deleted t (grant_hit kind target) d d' -> in_tx base now d' false w' ->
     Q (Ok tt) w') ->
  (forall e d' b' w', in_tx base now d' b' w' -> Q (Err e) w') ->
  wp (invalidateGrants t kind target) Q env w.
Proof.
  intros Hi -> HO HE. unfold invalidateGrants, grant_hit in *.
  destruct (kind == KindDevice) eqn:K1; [|destruct (kind == KindUser) eqn:K2;
    [|destruct (kind == KindSourceNode) eqn:K3; [|destruct (kind == KindGrant) eqn:K4;
    [|destruct (kind == KindPolicy) eqn:K5]]]]; go_bool;
    try (subst kind; eapply wp_tx_exec; [done| |by intros; eapply HE]; intros [] d' w' _ Hf Hw;
         eapply HO; [|done]; try apply with_uuid_Ok in Hf as (x & Hx & Hf);
         eapply delete_grants_deleted; [exact Hf|]; intros j g; rewrite ?Hx, ?eqb_true; naive_solver).
  wp_go. eapply HO; [|done]. apply grants_deleted_refl. naive_solver.
Qed.

(** [d'] is [d] with one message queued for each consumer, in order: the encoded
    event, under a new id (a message whose id is known already is not queued). *)
Inductive queued (rev : Revocation) (now : Time) : list string -> Db -> Db -> Prop :=
| queued_nil d : queued rev now [] d d
| queued_cons c cs mid ts d d1 d2 :
    insert_outbox (mkOutboxMessage (rv_TenantID rev) c mid (json_revocation rev)) ts now d = inr (tt, d1) ->
    queued rev now cs d1 d2 -> queued rev now (c :: cs) d d2.

Lemma queued_quiet rev now cs d d' : queued rev now cs d d' -> quiet d d'.
Proof. induction 1 as [|? ? ? ? ? ? ? H _ IH]; [done|]. etrans; [by eapply insert_outbox_quiet|done]. Qed.

Lemma wp_queue_all rev cs Q env w base now d :
  in_tx base now d false w ->
  (forall d' w', queued rev now cs d d' -> in_tx base now d' false w' -> Q (Ok tt) w') ->
  (forall e d' b' w', in_tx base now d' b' w' -> Q (Err e) w') ->
  wp (queue_all rev cs) Q env w.
Proof.
  revert d w. induction cs as [|c cs IH]; intros d w Hi HO HE; cbn [queue_all].
  - wp_go. eapply HO; [constructor|done].
  - wp_go. apply wp_uuid_New. intros mid w1 E1 T1. wp_go.
    eapply wp_WriteTx; [by eapply in_tx_same| |by intros; eapply HE].
    intros ts d1 w2 _ Hins H2. wp_go. eapply IH; [done| |done].
    intros d' w' Hq. apply HO. by econstructor.
Qed.

Lemma wp_notify_all t cs (Q : outcome unit -> World -> Prop) env w d :
  w_db w = d -> (forall w', w_db w' = d -> Q (Ok tt) w') -> wp (notify_all t cs) Q env w.
Proof.
  revert w. induction cs as [|c cs IH]; intros w Hd HQ; cbn [notify_all]; wp_go; [by apply HQ|].
  apply wp_NotifyConsumer. intros w' E. wp_go. apply IH; [congruence|done].
Qed.

(** The committed effect of a revocation. *)
Definition revoked (rev : Revocation) (cs : list string) (d d' : Db) : Prop :=
  let t := rv_TenantID rev in
  exists d1 d2 d3 now,
    db_revocations d !! (t, rv_Seq rev) = None /\
    d1 = set_revocations (<[(t, rv_Seq rev) :=
           mkRevocation (rv_Kind rev) (rv_Target rev) (timestamptz_in (rv_CreatedAt rev))]>
           (db_revocations d)) d /\
    sessions_closed (session_hit t (rv_Kind rev) (rv_Target rev) d) d1 d2 /\
    grants_deleted t (grant_hit (rv_Kind rev) (rv_Target rev)) d2 d3 /\ queued rev now cs d3 d'.

Lemma insert_revocation_Ok rev now d u d' :
  insert_revocation rev now d = inr (u, d') ->
  db_revocations d !! (rv_TenantID rev, rv_Seq rev) = None /\
  d' = set_revocations (<[(rv_TenantID rev, rv_Seq rev) :=
    mkRevocation (rv_Kind rev) (rv_Target rev) (timestamptz_in (rv_CreatedAt rev))]>
    (db_revocations d)) d.
Proof.
  unfold insert_revocation. destruct (negb _); [done|]. destruct (is_some _) eqn:E; [done|].
  intros [= _ <-]. split; [|done]. by destruct (db_revocations d !! _).
Qed.

Lemma IssueRevocation_cases env t kind target cs d :
  let r := (run (IssueRevocation t kind target cs) env d).1 in
  let d' := (run (IssueRevocation t kind target cs) env d).2 in
  r <> Panic /\
  ((d' = d /\ forall x, r <> Ok x) \/
   exists rev, rv_TenantID rev = t /\ rv_Kind rev = kind /\ rv_Target rev = target /\
     rv_Seq rev = latest_revocation t d + 1 /\ revoked rev cs d d' /\ forall x, r = Ok x -> x = rev).
Proof.
  wp_start. unfold IssueRevocation. wp_go.
  apply (wp_BeginTx _ _ _ d); [done| |by intros; split; [|left]]. intros now w1 H1. wp_go.
  eapply wp_tx_exec; [done| |by intros e w [? _]; split; [|left]]. intros seq d0 w2 _ Hseq H2. wp_go.
  unfold select_next_seq in Hseq. destruct (negb aggregate_for_update); [done|].
  injection Hseq as <- <-. apply wp_time_Now. intros ts w3 E3 T3. wp_go.
  set (rev := mkRev t (latest_revocation t d + 1) kind target ts).
  eapply wp_tx_exec; [by eapply in_tx_same| |by intros e w [? _]; split; [|left]]. intros [] d1 w4 _ Hins H4. wp_go.
  apply insert_revocation_Ok in Hins as [Hn Hd1].
  eapply wp_terminate; [done|done| |by intros e x b w [? _]; split; [|left]]. intros d2 w5 Hs H5. wp_go.
  eapply wp_invalidate; [done|done| |by intros e x b w [? _]; split; [|left]]. intros d3 w6 Hg H6. wp_go.
  eapply wp_queue_all; [done| |by intros e x b w [? _]; split; [|left]]. intros d4 w7 Hq H7. wp_go.
  assert (Hr : revoked rev cs d d4).
  { exists d1, d2, d3, now. split_and!; try done. rewrite Hd1 in Hs at 1. by rewrite Hd1 in *. }
  eapply wp_Commit; [done| |].
  - intros w8 _ Hd _. wp_go. apply (wp_notify_all _ _ _ _ _ d4); [done|]. intros w9 E9. wp_go.
    split; [done|]. right. exists rev. cbn. rewrite E9. split_and!; try done. by intros x [= <-].
  - intros e w8 [Hd|[_ Hd]] _; (split; [done|]); [by left|]. right. exists rev. cbn. rewrite Hd.
    by split_and!.
Qed.

(** What a revocation does where the server allows it to be issued, that is, where
    it accepts [FOR UPDATE] with an aggregate (PostgreSQL documents that it does not,
    see [revocation_blocked_by_server] below).  The event has the number after the
    tenant's latest; of the sessions, those of the revoked device, user, source
    node, grant or protected node are closed and no row is lost or otherwise
    changed; the unconsumed grants of a revoked device, user, source node or grant,
    and all of them for a policy, are deleted, and no other grant; the event is
    queued for every consumer named.  For a key or a certificate, and for the grants
    of a protected node, nothing is done. *)
Theorem revocation_takes_effect env d t kind target cs rev d' :
  run (IssueRevocation t kind target cs) env d = (Ok rev, d') ->
  rv_Seq rev = latest_revocation t d + 1 /\
  (exists row, db_revocations d' = <[(t, rv_Seq rev) := row]> (db_revocations d) /\
     v_kind row = kind /\ v_target row = target) /\
  (forall id, match db_sessions d !! id, db_sessions d' !! id with
    | Some s0, Some s => (session_hit t kind target d s0 -> s_closed_at s <> None) /\
                         (~ session_hit t kind target d s0 \/ s_closed_at s0 <> None -> s = s0)
    | None, None => True
    | _, _ => False
    end) /\
  (forall k g, db_grants d' !! k = Some g <-> db_grants d !! k = Some g /\
     ~ (k.1 = t /\ grant_hit kind target k.2 g /\ g_consumed_at g = None)) /\
  exists d3 now, db_outbox d3 = db_outbox d /\ queued rev now cs d3 d'.
Proof.
  intros Hrun. pose proof (IssueRevocation_cases env t kind target cs d) as Hc. cbv zeta in Hc.
  rewrite Hrun in Hc. cbn in Hc.
  destruct Hc as [_ [[_ Hc]|(rev' & <- & <- & <- & Hseq & Hr & Hx)]]; [by destruct (Hc rev)|].
  rewrite (Hx rev eq_refl). clear Hx. split; [done|].
  destruct Hr as (d1 & d2 & d3 & now & Hn & -> & (f & -> & Hf1 & Hf2 & Hf3 & _) & (m & -> & Hm & _) & Hq).
  pose proof (queued_quiet _ _ _ _ _ Hq) as [Hfr _ _ Hg _]. destruct Hfr. split_and!.
  - eexists. split; [exact fr_revocations|done].
  - intros id. rewrite fr_sessions. cbn. rewrite lookup_fmap. destruct (db_sessions d !! id) as [s0|]; [|done].
    cbn. split; [by apply Hf1|]. intros [?|?]; [by apply Hf2|by apply Hf3].
  - intros k g. rewrite Hg. apply Hm.
  - eexists _, now. split; [|exact Hq]. done.
Qed.

(** A revocation is all or nothing: when [IssueRevocation] fails, the
    tables are as before, or (only when the acknowledgement of the commit was
    lost) the whole revocation is in them, its messages included. *)
Theorem revocation_all_or_nothing env d t kind target cs :
  let d' := (run (IssueRevocation t kind target cs) env d).2 in
  d' = d \/ exists rev, rv_TenantID rev = t /\ rv_Kind rev = kind /\ rv_Target rev = target /\
              rv_Seq rev = latest_revocation t d + 1 /\ revoked rev cs d d'.
Proof.
  cbv zeta. destruct (IssueRevocation_cases env t kind target cs d)
    as [_ [[-> _]|(rev & ? & ? & ? & ? & ? & _)]]; [by left|right]. by exists rev.
Qed.

(** A session in the table protects its grant: while any session row, open
    or closed, refers to an unconsumed grant of the revoked entity, the DELETE of
    [invalidateGrants] violates the foreign key and [IssueRevocation] fails as a
    whole.  The revocation is not recorded and no session is terminated. *)
Theorem revocation_blocked_by_session env d t kind target cs id s g :
  db_sessions d !! id = Some s -> s_tenant s = t ->
  db_grants d !! (t, s_grant_jti s) = Some g -> g_consumed_at g = None ->
  grant_hit kind target (s_grant_jti s) g ->
  (run (IssueRevocation t kind target cs) env d).2 = d /\
  forall rev, (run (IssueRevocation t kind target cs) env d).1 <> Ok rev.
Proof.
  intros Hs Ht Hg Hc Hh.
  destruct (IssueRevocation_cases env t kind target cs d)
    as [_ [[-> Hr]|(rev & <- & <- & <- & _ & Hr & _)]]; [by split|exfalso].
  destruct Hr as (d1 & d2 & d3 & now & _ & -> & (f & -> & _ & _ & _ & Hf) & (m & _ & _ & Hn) & _).
  cbn in Hn. destruct (Hf s) as [E1 E2]. apply (Hn id (f s) g); rewrite ?E1, ?E2; try done.
  by rewrite lookup_fmap, Hs.
Qed.

Lemma RevokeDevice_cases env t dev reason d :
  let r := (run (RevokeDevice t dev reason) env d).1 in
  let d' := (run (RevokeDevice t dev reason) env d).2 in
  r <> Panic /\
  ((d' = d /\ r <> Ok tt) \/
  exists now row, db_revocations d !! (t, latest_revocation t d + 1) = None /\
    v_kind row = KindDevice /\ v_target row = uuid_String dev /\ aggregate_for_update = true /\
    exists d1 u, revoke_device_row t dev now d = inr (u, d1) /\
    d' = set_revocations (<[(t, latest_revocation t d + 1) := row]> (db_revocations d)) d1).
Proof.
  wp_start. unfold RevokeDevice. wp_go. apply (wp_BeginTx _ _ _ d); [done| |by intros; split; [|left]].
  intros now w1 H1. wp_go. eapply wp_tx_exec; [done| |by intros e w [? _]; split; [|left]].
  intros u d1 w2 _ Hd1 H2. wp_go. unfold issueRevocationInTx. wp_go.
  eapply wp_tx_exec; [done| |by intros e w [? _]; split; [|left]]. intros seq d2 w3 _ Hseq H3. wp_go.
  unfold select_next_seq in Hseq. destruct aggregate_for_update eqn:Ha; [|done]. cbn in Hseq.
  injection Hseq as <- <-. apply wp_time_Now. intros ts w4 E4 T4. wp_go.
  eapply wp_tx_exec; [by eapply in_tx_same| |by intros e w [? _]; split; [|left]].
  intros v d3 w5 _ Hins H5. wp_go. apply insert_revocation_Ok in Hins as [Hn ->]. cbn in *.
  assert (Hrv : db_revocations d1 = db_revocations d).
  { unfold revoke_device_row in Hd1. destruct (select_device t dev d) as [x|];
      [destruct (d_state x == "ENROLLED")|]; by injection Hd1 as _ <-. }
  assert (El : latest_revocation t d1 = latest_revocation t d)
    by (unfold latest_revocation, revocation_rows; by rewrite Hrv).
  rewrite El, Hrv in *.
  set (row := mkRevocation KindDevice (uuid_String dev) (timestamptz_in ts)) in *.
  eapply wp_Commit; [done| |].
  - intros w6 _ Hd _. split; [done|]. right. exists now, row. split_and!; try done. by exists d1, u.
  - intros e w6 [Hd|[_ Hd]] _; (split; [done|]); [by left|]. right. exists now, row.
    split_and!; try done. by exists d1, u.
Qed.

(** [RevokeDevice] marks an enrolled device revoked and appends the
    revocation event, but leaves every session and every grant as it was, although
    its comment says that it terminates the device's active sessions. *)
Theorem revoke_device_keeps_sessions env d t dev reason d' v :
  run (RevokeDevice t dev reason) env d = (Ok tt, d') ->
  select_device t dev d = Some v ->
  db_sessions d' = db_sessions d /\ db_grants d' = db_grants d /\
  (exists row, db_revocations d' = <[(t, latest_revocation t d + 1) := row]> (db_revocations d) /\
     v_kind row = KindDevice /\ v_target row = uuid_String dev) /\
  (d_state v = "ENROLLED" -> exists v', select_device t dev d' = Some v' /\ d_state v' = "REVOKED" /\
     d_revoked_at v' <> None /\ d_approval_auth_pub v' = d_approval_auth_pub v).
Proof.
  intros Hrun Hv. pose proof (RevokeDevice_cases env t dev reason d) as Hc. cbv zeta in Hc.
  rewrite Hrun in Hc. cbn in Hc.
  destruct Hc as [_ [[_ ?]|(now & row & Hn & Hk & Htg & _ & d1 & u & Hd1 & ->)]]; [done|].
  unfold revoke_device_row in Hd1. rewrite Hv in Hd1.
  assert (Hsel : d_state v = "ENROLLED" -> exists v', select_device t dev d1 = Some v' /\
    d_state v' = "REVOKED" /\ d_revoked_at v' <> None /\ d_approval_auth_pub v' = d_approval_auth_pub v).
  { intros Hs. rewrite Hs in Hd1. injection Hd1 as _ <-.
    eexists. rewrite select_device_Some. cbn. rewrite lookup_insert_eq.
    apply select_device_Some in Hv as [_ Hv]. split; [split; [reflexivity|done]|done]. }
  destruct (d_state v == "ENROLLED"); injection Hd1 as _ <-;
    (split_and!; [done..|by exists row|exact Hsel]).
Qed.

(** Sequence allocation uses [SELECT MAX(...) ... FOR UPDATE], which
    PostgreSQL documents as an error.  On a server that rejects it, no revocation
    can be issued: both entry points fail and change nothing. *)
Theorem revocation_blocked_by_server env d t kind target cs dev reason :
  aggregate_for_update = false ->
  (exists e, run (IssueRevocation t kind target cs) env d = (Err e, d)) /\
  (exists e, run (RevokeDevice t dev reason) env d = (Err e, d)).
Proof.
  intros Ha. split.
  - assert (W : (fun r d' => exists e, r = Err e /\ d' = d)
      (run (IssueRevocation t kind target cs) env d).1 (run (IssueRevocation t kind target cs) env d).2).
    { apply wp_run. unfold IssueRevocation. wp_go.
      apply (wp_BeginTx _ _ _ d); [done| |by intros; eexists]. intros now w1 H1. wp_go.
      eapply wp_tx_exec; [done| |by intros e w [? _]; eexists].
      intros a d' w' _ Hs. unfold select_next_seq in Hs. by rewrite Ha in Hs. }
    destruct (run _ _ _). cbn in W. destruct W as (e & -> & ->). by exists e.
  - destruct (run (RevokeDevice t dev reason) env d) as [r d'] eqn:E.
    pose proof (RevokeDevice_cases env t dev reason d) as Hc. cbv zeta in Hc. rewrite E in Hc.
    cbn in Hc. destruct Hc as [Hp [[-> Hr]|(? & ? & _ & _ & _ & Hx & _)]]; [|congruence].
    destruct r as [[]|e|]; [done|by exists e|done].
Qed.

Lemma CheckFreshness_Ok env d t acked r d' :
  run (CheckFreshness t acked) env d = (Ok r, d') ->
  d' = d /\ r = (negb (acked <? latest_revocation t d), latest_revocation t d).
Proof.
  intros Hrun.
  assert (W : (fun r d' => forall x, r = Ok x ->
      d' = d /\ x = (negb (acked <? latest_revocation t d), latest_revocation t d))
    (run (CheckFreshness t acked) env d).1 (run (CheckFreshness t acked) env d).2).
  { apply wp_run. unfold CheckFreshness. wp_go. apply wp_db_query; [|done].
    intros n a w' [= <-] Hd _. wp_go. intros x [= <-]. split; [done|].
    by destruct (acked <? _). }
  rewrite Hrun in W. by apply W.
Qed.

Lemma GetRevocationsSince_Ok env d t since revs d' :
  run (GetRevocationsSince t since) env d = (Ok revs, d') ->
  d' = d /\ forall x, x ∈ revs <-> rv_TenantID x = t /\ since < rv_Seq x /\ exists row,
    (rv_Seq x, row) ∈ revocation_rows t d /\ rv_Kind x = v_kind row /\ rv_Target x = v_target row /\
    rv_CreatedAt x = v_created_at row.
Proof.
  intros Hrun.
  assert (W : (fun r d' => forall revs, r = Ok revs -> d' = d /\ revs =
      map (fun r => mkRev t r.1 (v_kind r.2) (v_target r.2) (v_created_at r.2))
        (merge_sort vseq_le (filter (fun r => since < r.1) (revocation_rows t d))))
    (run (GetRevocationsSince t since) env d).1 (run (GetRevocationsSince t since) env d).2).
  { apply wp_run. unfold GetRevocationsSince. wp_go. apply wp_db_query; [|done].
    intros n a w' [= <-] Hd _. wp_go. by intros x [= <-]. }
  rewrite Hrun in W. cbn in W. destruct (W revs eq_refl) as [-> ->]. split; [done|].
  intros x. rewrite list_elem_of_fmap. setoid_rewrite merge_sort_Permutation.
  setoid_rewrite list_elem_of_filter. split.
  - intros ([s row] & -> & Hs & Hin). cbn in *. eauto 10.
  - intros (<- & Hs & row & Hin & Hk & Htg & Hc). exists (rv_Seq x, row). cbn.
    split; [destruct x; cbn in *; congruence|done].
Qed.

(** The freshness answers agree: [CheckFreshness] says a daemon is fresh
    exactly when [GetRevocationsSince] has nothing new for it, and otherwise the
    latest sequence number it reports is that of the last event
    [GetRevocationsSince] returns. *)
Theorem freshness_agrees env1 env2 d t acked fresh latest d1 revs d2 :
  0 <= acked ->
  run (CheckFreshness t acked) env1 d = (Ok (fresh, latest), d1) ->
  run (GetRevocationsSince t acked) env2 d = (Ok revs, d2) ->
  (fresh = true <-> revs = []) /\
  (fresh = false -> exists x, x ∈ revs /\ rv_Seq x = latest) /\
  (forall x, x ∈ revs -> acked < rv_Seq x <= latest) /\ d1 = d /\ d2 = d.
Proof.
  intros Ha [-> [= -> ->]]%CheckFreshness_Ok [-> Hr]%GetRevocationsSince_Ok.
  pose proof (sql_max_spec (map fst (revocation_rows t d))) as Hmax.
  assert (Hle : forall x, x ∈ revs -> acked < rv_Seq x <= latest_revocation t d).
  { intros x (_ & Hs & row & Hin & _)%Hr. split; [done|]. apply coalesce_sql_max_ge.
    apply list_elem_of_fmap. by exists (rv_Seq x, row). }
  assert (Hex : acked < latest_revocation t d -> exists x, x ∈ revs /\ rv_Seq x = latest_revocation t d).
  { unfold latest_revocation. destruct (sql_max _) as [m|]; cbn; [|lia]. destruct Hmax as [Hm _].
    intros Hlt. apply list_elem_of_fmap in Hm as ([s row] & -> & Hin). cbn in Hlt.
    exists (mkRev t s (v_kind row) (v_target row) (v_created_at row)). split; [|done].
    apply Hr. cbn. eauto 10. }
  split_and!; try done.
  - rewrite negb_true_iff, Z.ltb_ge. split.
    + intros Hl. destruct revs as [|x revs]; [done|]. destruct (Hle x); [set_solver|lia].
    + intros ->. destruct (Z.le_gt_cases (latest_revocation t d) acked) as [|Hlt]; [done|].
      destruct (Hex Hlt) as (x & Hx & _). by apply elem_of_nil in Hx.
  - rewrite negb_false_iff, Z.ltb_lt. apply Hex.
Qed.

End Props.

(** A daemon's own freshness check fails closed exactly when it is not
    current, which needs both: no later revocation, and an acknowledgement within
    the ten-second bound. *)
Theorem daemon_freshness_fails_closed now lastAckTime acked latest :
  let st := CheckDaemonFreshness now lastAckTime acked latest in
  fs_MustFailClosed st = negb (fs_Current st) /\
  (fs_Current st = true <-> latest <= acked /\ now - lastAckTime <= 10 * Second).
Proof.
  unfold CheckDaemonFreshness. cbn.
  assert (E : (time_Since now lastAckTime <=? RevocationFreshnessBound) = true <->
    now - lastAckTime <= 10 * Second).
  { rewrite Z.leb_le. unfold time_Since, RevocationFreshnessBound, int64_min, int64_max, Second. lia. }
  split.
  - rewrite negb_andb, orb_comm. f_equal; by rewrite Z.ltb_antisym.
  - by rewrite andb_true_iff, Z.leb_le, E.
Qed.

(** ** Witnesses *)

(** The approved grant of the scenario, with a session opened under it. *)
Definition session1 : UUID := uuid_of_Z 80.
Definition session_db : Db :=
  set_sessions {[session1 := mkSession tenant1 grant1 device1 node1 None None None]} granted_db.

Definition revoke_run : outcome Revocation * Db :=
  run (IssueRevocation tenant1 KindDevice (uuid_String device1) ["daemon-1"%string]) (sample_env 6000)
    granted_db.

Lemma revocation_blocked_by_session_witness :
  (run (IssueRevocation tenant1 KindDevice (uuid_String device1) []) (sample_env 6000) session_db).2
    = session_db.
Proof.
  destruct (is_some_eq (db_grants session_db !! (tenant1, grant1))) as [g Hg]; [vm_compute; reflexivity|].
  assert (Hd : (g_device g, g_consumed_at g) = (device1, None))
    by (apply (fmap_eq (fun g => (g_device g, g_consumed_at g)) _ _ _ Hg); vm_compute; reflexivity).
  injection Hd as Hd Hc.
  apply (revocation_blocked_by_session (sample_env 6000) session_db tenant1 KindDevice
           (uuid_String device1) [] session1 (mkSession tenant1 grant1 device1 node1 None None None) g);
    [reflexivity|reflexivity|exact Hg|exact Hc|].
  left. split; [reflexivity|]. rewrite Hd. apply uuid_Parse_String.
Defined.

Lemma revocation_takes_effect_witness :
  exists rev d', revoke_run = (Ok rev, d') /\ rv_Seq rev = 1 /\
    db_grants d' !! (tenant1, grant1) = None.
Proof.
  destruct revoke_run as [[rev| |] d'] eqn:E; [|apply (f_equal fst) in E; vm_compute in E; discriminate E..].
  destruct (revocation_takes_effect _ _ _ _ _ _ _ _ E) as (Hs & _ & _ & Hg & _).
  exists rev, d'. split; [reflexivity|]. split; [rewrite Hs; vm_compute; reflexivity|].
  destruct (db_grants d' !! (tenant1, grant1)) as [g|] eqn:Eg; [exfalso|reflexivity].
  apply Hg in Eg as [Eg Hn]. apply Hn. split; [reflexivity|].
  assert (Hd : (g_device g, g_consumed_at g) = (device1, None))
    by (apply (fmap_eq (fun g => (g_device g, g_consumed_at g)) _ _ _ Eg); vm_compute; reflexivity).
  injection Hd as Hd Hc. split; [|exact Hc]. left. split; [reflexivity|]. rewrite Hd. apply uuid_Parse_String.
Defined.

Definition revoke_device_run : outcome unit * Db :=
  run (RevokeDevice tenant1 device1 "lost") (sample_env 6000) session_db.

Lemma revoke_device_keeps_sessions_witness :
  exists d' v, revoke_device_run = (Ok tt, d') /\ select_device tenant1 device1 session_db = Some v /\
    db_sessions d' = db_sessions session_db /\
    exists v', select_device tenant1 device1 d' = Some v' /\ d_state v' = "REVOKED"%string.
Proof.
  destruct revoke_device_run as [[[]| |] d'] eqn:E;
    [|apply (f_equal fst) in E; vm_compute in E; discriminate E..].
  destruct (is_some_eq (select_device tenant1 device1 session_db)) as [v Hv]; [vm_compute; reflexivity|].
  destruct (revoke_device_keeps_sessions _ _ _ _ _ _ v E Hv) as (Hs & _ & _ & Hd).
  exists d', v. split; [reflexivity|]. split; [exact Hv|]. split; [exact Hs|].
  destruct Hd as (v' & Hv' & Hst & _);
    [apply (fmap_eq d_state _ _ _ Hv); vm_compute; reflexivity|].
  exists v'. split; assumption.
Defined.

(** A server that follows PostgreSQL's rule against locking an aggregate. *)
Definition pg_strict : Postgres :=
  let p := pg_any in {|
    jsonb_in := @jsonb_in p; binding_in := @binding_in p; inet_ok := @inet_ok p;
    timestamptz_in := @timestamptz_in p; nil_bytes_null := @nil_bytes_null p;
    aggregate_for_update := false; epoch_text := @epoch_text p; text_bytea := @text_bytea p;
    uuid_in := @uuid_in p
  |}.

Lemma revocation_blocked_by_server_witness :
  exists e, run (IssueRevocation (PG := pg_strict) tenant1 KindDevice (uuid_String device1) [])
              (sample_env 6000) session_db = (Err e, session_db).
Proof.
  apply (revocation_blocked_by_server (PG := pg_strict) (sample_env 6000) session_db tenant1 KindDevice
           (uuid_String device1) [] device1 "lost"). reflexivity.
Defined.

Lemma freshness_agrees_witness :
  exists revs, run (CheckFreshness tenant1 0) (sample_env 6100) revoke_run.2 = (Ok (false, 1), revoke_run.2) /\
    (run (GetRevocationsSince tenant1 0) (sample_env 6200) revoke_run.2).1 = Ok revs /\ revs <> [].
Proof.
  destruct (run (CheckFreshness tenant1 0) (sample_env 6100) revoke_run.2) as [[[b n]| |] d1] eqn:E1;
    [|apply (f_equal fst) in E1; vm_compute in E1; discriminate E1..].
  destruct (run (GetRevocationsSince tenant1 0) (sample_env 6200) revoke_run.2) as [[revs| |] d2] eqn:E2;
    [|apply (f_equal fst) in E2; vm_compute in E2; discriminate E2..].
  destruct (freshness_agrees _ _ _ _ _ _ _ _ _ _ ltac:(reflexivity) E1 E2) as (Hf & _ & _ & -> & _).
  assert (b = false /\ n = 1) as [-> ->]
    by (apply (f_equal fst) in E1; vm_compute in E1; injection E1 as <- <-; split; reflexivity).
  exists revs. split; [reflexivity|]. split; [reflexivity|]. intros Hr. apply Hf in Hr. discriminate Hr.
Defined.
