(* ===== verification/Runes.v ===== *)
(** * Runes: UTF-8 text, spaces and hexadecimal input

    What the code uses of [unicode/utf8], [unicode], [strings] and [encoding/hex]:
    decoding runes, [strings.TrimSpace], [strings.Contains] and [hex.DecodeString], with the round trip
    of hexadecimal text. *)

From stdpp Require Import base strings list.
From Stdlib Require Import ZArith Lia Strings.Byte Strings.Ascii.
From S2P Require Import Prelude.

Open Scope Z_scope.
Open Scope go_scope.

Definition bytes_str (b : bytes) : string := String.string_of_list_byte b.

Lemma bytes_str_str_bytes s : bytes_str (str_bytes s) = s.
Proof. apply String.string_of_list_byte_of_string. Qed.

(** ** Runes *)

(** [utf8.DecodeRune]: the first rune and the bytes it takes; [U+FFFD] and one byte
    on an encoding error. *)
Definition RuneError : Z := 65533.
Definition decode_rune (b0 : byte) (r : bytes) : Z * nat :=
  let x := Z_of_byte b0 in
  let bad := (RuneError, 1%nat) in
  if x <? 128 then (x, 1%nat) else
  match r with
  | [] => bad
  | b1 :: r1 =>
      let y := Z_of_byte b1 in
      if negb (utf8_cont b1) then bad else
      if (194 <=? x) && (x <=? 223) then ((x - 192) * 64 + (y - 128), 2%nat) else
      match r1 with
      | [] => bad
      | b2 :: r2 =>
          let z := Z_of_byte b2 in
          if negb (utf8_cont b2) then bad else
          if (224 <=? x) && (x <=? 239) then
            if (x =? 224) && (y <? 160) || (x =? 237) && (159 <? y) then bad
            else ((x - 224) * 4096 + (y - 128) * 64 + (z - 128), 3%nat)
          else match r2 with
          | [] => bad
          | b3 :: _ =>
              if negb (utf8_cont b3) then bad else
              if (240 <=? x) && (x <=? 244) then
                if (x =? 240) && (y <? 144) || (x =? 244) && (143 <? y) then bad
                else ((x - 240) * 262144 + (y - 128) * 4096 + (z - 128) * 64 + (Z_of_byte b3 - 128), 4%nat)
              else bad
          end
      end
  end.

(** The bytes a rune is written back with: those it was read from, or the
    encoding of [U+FFFD]. *)
Definition rune_bytes (r : Z) (w : nat) (l : bytes) : bytes :=
  if (r =? RuneError) && (w =? 1)%nat then [xef; xbf; xbd] else take w l.

(** [isSpace] of package [fmt], and [unicode.IsSpace]. *)
Definition isSpace (r : Z) : bool :=
  (9 <=? r) && (r <=? 13) || (r =? 32) || (r =? 133) || (r =? 160) || (r =? 5760) ||
  (8192 <=? r) && (r <=? 8202) || (r =? 8232) || (r =? 8233) || (r =? 8239) || (r =? 8287) || (r =? 12288).

Lemma decode_rune_width b r : (1 <= (decode_rune b r).2)%nat.
Proof. unfold decode_rune. repeat case_match; cbn; lia. Qed.

(** Printable ASCII without spaces. *)
Definition graphic (b : byte) : bool := (33 <=? Z_of_byte b) && (Z_of_byte b <=? 126).

Lemma graphic_rune b r : graphic b = true -> decode_rune b r = (Z_of_byte b, 1%nat).
Proof.
  unfold graphic, decode_rune. rewrite andb_true_iff, !Z.leb_le. intros H.
  by rewrite (proj2 (Z.ltb_lt _ _)) by lia.
Qed.

Lemma graphic_not_space b : graphic b = true -> isSpace (Z_of_byte b) = false.
Proof.
  unfold graphic, isSpace. rewrite andb_true_iff, !Z.leb_le. intros H.
  repeat match goal with |- context [?x =? ?y] => destruct (Z.eqb_spec x y); [lia|] end.
  repeat match goal with |- context [?x <=? ?y] => destruct (Z.leb_spec x y) end; try done; lia.
Qed.

(** ** Trimming *)

(** The text as runes with the bytes of each.  The fuel is the number of bytes. *)
Fixpoint runes (fuel : nat) (l : bytes) : list (Z * bytes) :=
  match fuel, l with
  | O, _ | _, [] => []
  | S f, b :: r => let '(c, w) := decode_rune b r in (c, take w l) :: runes f (drop w l)
  end.

Fixpoint drop_spaces (l : list (Z * bytes)) : list (Z * bytes) :=
  match l with
  | (c, b) :: rest => if isSpace c then drop_spaces rest else l
  | [] => []
  end.

(** [strings.TrimSpace]; decoding from the end meets the same runes, since the
    encoding of a space is never part of another rune. *)
Definition TrimSpace (l : bytes) : bytes :=
  concat (map snd (rev (drop_spaces (rev (drop_spaces (runes (length l) l)))))).

(** ** Hexadecimal input *)

Definition fromHexChar (b : byte) : option Z :=
  let c := Z_of_byte b in
  if (48 <=? c) && (c <=? 57) then Some (c - 48)
  else if (97 <=? c) && (c <=? 102) then Some (c - 97 + 10)
  else if (65 <=? c) && (c <=? 70) then Some (c - 65 + 10)
  else None.

Definition ErrHex : error := Errorf "encoding/hex: invalid input" [].

(** [hex.DecodeString] *)
Fixpoint hex_DecodeString (l : bytes) : outcome bytes :=
  match l with
  | [] => Ok []
  | [_] => Err ErrHex
  | a :: b :: rest =>
      match fromHexChar a, fromHexChar b with
      | Some x, Some y => r ← hex_DecodeString rest; Ok (byte_of_Z (x * 16 + y) :: r)
      | _, _ => Err ErrHex
      end
  end.

(** ** Round trip *)

Lemma fromHexChar_digit d :
  0 <= d < 16 -> fromHexChar (byte_of_ascii (hex_digit d)) = Some d /\
    graphic (byte_of_ascii (hex_digit d)) = true.
Proof.
  intros Hd. assert (Hin : In d [0;1;2;3;4;5;6;7;8;9;10;11;12;13;14;15]) by (cbn; lia).
  cbn in Hin. by repeat destruct Hin as [<-|Hin].
Qed.

Lemma nibbles b :
  0 <= Z.shiftr (Z_of_byte b) 4 < 16 /\ 0 <= Z.land (Z_of_byte b) 15 < 16 /\
  Z.shiftr (Z_of_byte b) 4 * 16 + Z.land (Z_of_byte b) 15 = Z_of_byte b.
Proof.
  pose proof (Z_of_byte_bound b) as Hb. change 15 with (Z.ones 4).
  rewrite Z.land_ones, Z.shiftr_div_pow2 by lia. change (2 ^ 4) with 16.
  pose proof (Z.mod_pos_bound (Z_of_byte b) 16 eq_refl).
  pose proof (Z.div_mod (Z_of_byte b) 16 ltac:(done)).
  split_and!; lia.
Qed.

Lemma str_bytes_hex_cons b l :
  str_bytes (hex (b :: l)) = byte_of_ascii (hex_digit (Z.shiftr (Z_of_byte b) 4)) ::
    byte_of_ascii (hex_digit (Z.land (Z_of_byte b) 15)) :: str_bytes (hex l).
Proof. done. Qed.

(** Decoding reads back what [hex] prints. *)
Lemma hex_DecodeString_hex l : hex_DecodeString (str_bytes (hex l)) = Ok l.
Proof.
  induction l as [|b l IH]; [done|]. rewrite str_bytes_hex_cons. cbn [hex_DecodeString].
  destruct (nibbles b) as (H1 & H2 & H3).
  rewrite (proj1 (fromHexChar_digit _ H1)), (proj1 (fromHexChar_digit _ H2)), IH. cbn.
  by rewrite H3, byte_of_Z_of_byte.
Qed.

Lemma graphic_hex l : Forall (fun b => graphic b = true) (str_bytes (hex l)).
Proof.
  induction l as [|b l IH]; [constructor|]. rewrite str_bytes_hex_cons. destruct (nibbles b) as (H1 & H2 & _).
  constructor; [by apply fromHexChar_digit|]. constructor; [by apply fromHexChar_digit|exact IH].
Qed.

(** A one-byte rune. *)
Definition ascii_rune (b : byte) : Z * bytes := (Z_of_byte b, [b]).

Lemma runes_graphic l r fuel :
  Forall (fun b => graphic b = true) l -> (length (l ++ r) <= fuel)%nat ->
  runes fuel (l ++ r) = map ascii_rune l ++ runes (fuel - length l) r.
Proof.
  intros Hg. revert fuel. induction Hg as [|b l Hb _ IH]; intros fuel Hf; [by rewrite Nat.sub_0_r|].
  destruct fuel as [|fuel]; [cbn in Hf; lia|]. cbn [app runes]. rewrite (graphic_rune b _ Hb).
  cbn [drop take map]. rewrite IH by (cbn in Hf; lia). done.
Qed.

Lemma drop_spaces_graphic l r :
  Forall (fun b => graphic b = true) l -> l <> [] ->
  drop_spaces (map ascii_rune l ++ r) = map ascii_rune l ++ r.
Proof.
  intros Hg Hn. destruct Hg as [|b l Hb Hg]; [done|]. cbn [map app drop_spaces ascii_rune fst].
  by rewrite (graphic_not_space b Hb).
Qed.

Lemma concat_singletons (l : bytes) : concat (map snd (map ascii_rune l)) = l.
Proof. induction l as [|b l IH]; [done|]. cbn. by rewrite IH. Qed.

(** Text without spaces, with or without the newline editors leave at the end of a
    file. *)
Lemma TrimSpace_graphic l : Forall (fun b => graphic b = true) l ->
  TrimSpace l = l /\ TrimSpace (l ++ [x0a]) = l.
Proof.
  intros Hg. destruct (decide (l = [])) as [->|Hn]; [done|].
  assert (Hback : rev (map ascii_rune l) = map ascii_rune (rev l)) by (symmetry; apply map_rev).
  assert (Hrn : rev l <> []) by (intros E; apply (f_equal (@rev _)) in E; rewrite rev_involutive in E; done).
  assert (Hrg : Forall (fun b => graphic b = true) (rev l)) by (by apply List.Forall_rev).
  split; unfold TrimSpace.
  - rewrite <- (app_nil_r l) at 1 2. rewrite runes_graphic by (done || lia).
    assert (E0 : forall n, runes n [] = []) by (by intros []). rewrite E0.
    rewrite drop_spaces_graphic by done. rewrite app_nil_r, Hback. rewrite <- (app_nil_r (map ascii_rune (rev l))).
    rewrite drop_spaces_graphic by done. rewrite app_nil_r, <- Hback, rev_involutive. apply concat_singletons.
  - rewrite runes_graphic by (done || lia). rewrite length_app. cbn [length].
    replace (length l + 1 - length l)%nat with 1%nat by lia. change (runes 1 [x0a]) with [ascii_rune x0a].
    rewrite drop_spaces_graphic by done. rewrite rev_app_distr. cbn [rev app drop_spaces].
    cbn [fst ascii_rune]. change (isSpace (Z_of_byte x0a)) with true. cbn iota. rewrite Hback.
    rewrite <- (app_nil_r (map ascii_rune (rev l))).
    rewrite drop_spaces_graphic by done. rewrite app_nil_r, <- Hback, rev_involutive. apply concat_singletons.
Qed.

(** ** Substrings *)

(** [strings.Contains] *)
Fixpoint Contains (s substr : string) : bool :=
  String.prefix substr s ||
  match s with
  | EmptyString => false
  | String _ r => Contains r substr
  end.

Lemma Contains_app a s b : Contains (a +:+ (s +:+ b))%string s = true.
Proof.
  assert (Hp : String.prefix s (s +:+ b)%string = true).
  { induction s as [|c s IH]; [by destruct b|]. 
    change ((if Ascii.ascii_dec c c then String.prefix s (s +:+ b)%string else false) = true).
    by destruct (Ascii.ascii_dec c c). }
  induction a as [|c a IH].
  - change ("" +:+ (s +:+ b))%string with (s +:+ b)%string.
    destruct (s +:+ b)%string; cbn [Contains]; by rewrite Hp.
  - change (String.prefix s (String c a +:+ (s +:+ b))%string || Contains (a +:+ (s +:+ b))%string s = true).
    by rewrite IH, orb_true_r.
Qed.
