(* ===== verification/Float64.v ===== *)
(** * Float64: the type float64

    The operations of [float64] the code uses, as the IEEE 754 operations of
    [SpecFloat] with 53 bits of precision. *)

From stdpp Require Import base.
From Stdlib Require Import ZArith Floats.SpecFloat.
From S2P Require Import Prelude.

Open Scope Z_scope.

Definition float64_of_Z (z : Z) : spec_float := binary_normalize 53 1024 z 0 false.
Definition f64_div (x y : spec_float) : spec_float := SFdiv 53 1024 x y.
Definition f64_mul (x y : spec_float) : spec_float := SFmul 53 1024 x y.

(** The integer part, towards zero. *)
Definition f64_trunc (x : spec_float) : option Z :=
  match x with
  | S754_zero _ => Some 0
  | S754_finite s m e => let z := Z.shiftl (Zpos m) e in Some (if s then - z else z)
  | _ => None
  end.

(** [int(x)]: the language leaves the result open when the value does not fit. *)
Class FloatToInt : Type := { int_unrepresentable : spec_float -> Z }.
Definition int_of_float `{FloatToInt} (x : spec_float) : Z :=
  match f64_trunc x with
  | Some z => if is_int64 z then z else int_unrepresentable x
  | None => int_unrepresentable x
  end.

(** [Duration.Seconds]: whole seconds and nanoseconds, added as doubles.  Division
    of integers truncates towards zero. *)
Definition duration_Seconds (d : Duration) : spec_float :=
  SFadd 53 1024 (float64_of_Z (Z.quot d Second))
    (f64_div (float64_of_Z (Z.rem d Second)) (float64_of_Z Second)).
