(* ===== verification/Float64Props.v ===== *)
(** * Float64Props: how far a rounded product and quotient can be off

    The upper half of the standard error model for the operations of [Float64], by
    the definitions of [SpecFloat]: in the normal range, rounding raises a magnitude
    by at most one part in [2 ^ 52].  Values are rationals; a float of mantissa [m]
    and exponent [e] is [F m e]. *)

From stdpp Require Import base tactics.
From Stdlib Require Import ZArith QArith Qpower Lia Lqa Floats.SpecFloat.
From S2P Require Import Prelude Float64.

Open Scope Z_scope.

Definition F (m e : Z) : Q := (inject_Z m * (2 # 1) ^ e)%Q.
Definition ulp1 : Q := (1 + (1 # 4503599627370496))%Q.

(** ** Mantissas *)

Lemma digits2_log2 p : Zpos (digits2_pos p) = Z.log2 (Zpos p) + 1.
Proof.
  induction p as [p IH|p IH|]; cbn [digits2_pos]; [| |done]; rewrite Pos2Z.inj_succ, IH.
  - rewrite Pos2Z.inj_xI, Z.log2_succ_double by lia. lia.
  - rewrite Pos2Z.inj_xO, Z.log2_double by lia. lia.
Qed.
Lemma Zdigits2_log2 m : 0 < m -> Zdigits2 m = Z.log2 m + 1.
Proof. destruct m; [lia|intros _; apply digits2_log2|lia]. Qed.
Lemma Zdigits2_unique m k : 0 <= k -> 2 ^ k <= m < 2 ^ (k + 1) -> Zdigits2 m = k + 1.
Proof.
  intros Hk Hm. assert (0 < 2 ^ k) by (apply Z.pow_pos_nonneg; lia). rewrite Zdigits2_log2 by lia.
  by rewrite (Z.log2_unique m k) by (rewrite <- ?Z.add_1_r; lia).
Qed.

Lemma iter_shr p : forall r, 0 <= shr_m r -> shr_m (iter_pos shr_1 p r) = shr_m r / 2 ^ Zpos p.
Proof.
  assert (H1 : forall r, 0 <= shr_m r -> shr_m (shr_1 r) = shr_m r / 2).
  { intros [m b s] Hm. cbn [shr_m] in *. rewrite <- Z.div2_div. by destruct m as [|[]|]. }
  assert (Hp : forall q m, 0 <= m -> 0 <= m / 2 ^ Zpos q) by (intros; apply Z.div_pos; [|apply Z.pow_pos_nonneg]; lia).
  assert (Hpos : forall q, 0 < 2 ^ Zpos q) by (intros; apply Z.pow_pos_nonneg; lia).
  induction p as [p IH|p IH|]; intros r Hr; cbn [iter_pos]; [| |by apply H1].
  - assert (E1 : shr_m (iter_pos shr_1 p (shr_1 r)) = shr_m r / 2 / 2 ^ Zpos p).
    { rewrite IH by (rewrite H1 by done; apply Z.div_pos; lia). by rewrite H1. }
    rewrite IH by (rewrite E1; apply Hp, Z.div_pos; lia). rewrite E1. pose proof (Hpos p).
    rewrite !Z.div_div by lia.
    replace (Zpos p~1) with (1 + Zpos p + Zpos p) by lia. rewrite !Z.pow_add_r by lia. f_equal; lia.
  - rewrite IH by (rewrite IH by done; by apply Hp). rewrite IH by done. pose proof (Hpos p).
    rewrite Z.div_div by lia. f_equal. rewrite Pos2Z.inj_xO, <- Z.pow_add_r by lia. f_equal. lia.
Qed.

(** In the normal range the mantissa is cut to 53 bits. *)
Lemma shr_fexp_normal m e l :
  2 ^ 52 <= m -> -1074 <= Zdigits2 m + e - 53 ->
  exists r, shr_fexp 53 1024 m e l = (r, Zdigits2 m + e - 53) /\ shr_m r = m / 2 ^ (Zdigits2 m - 53).
Proof.
  intros Hm He. assert (Hd : 53 <= Zdigits2 m).
  { rewrite Zdigits2_log2 by lia. pose proof (Z.log2_le_mono (2 ^ 52) m Hm) as H.
    rewrite Z.log2_pow2 in H by lia. lia. }
  assert (Hr : shr_m (shr_record_of_loc m l) = m) by (by destruct l as [|[]]).
  unfold shr_fexp. assert (fexp 53 1024 (Zdigits2 m + e) - e = Zdigits2 m - 53) as ->
    by (unfold fexp, emin; lia).
  unfold shr. destruct (Zdigits2 m - 53) as [|p|p] eqn:E; [| |lia].
  - eexists. split; [f_equal; lia|]. by rewrite Hr, Z.div_1_r.
  - eexists. split; [f_equal; lia|]. rewrite iter_shr; rewrite Hr; [done|lia].
Qed.

Lemma cut_bounds m : 2 ^ 52 <= m -> 2 ^ 52 <= m / 2 ^ (Zdigits2 m - 53) < 2 ^ 53.
Proof.
  intros Hm. rewrite Zdigits2_log2 by lia. pose proof (Z.log2_spec m ltac:(lia)) as [H1 H2].
  pose proof (Z.log2_le_mono (2 ^ 52) m Hm) as H. rewrite Z.log2_pow2 in H by lia.
  set (k := Z.log2 m) in *. assert (0 < 2 ^ (k + 1 - 53)) by (apply Z.pow_pos_nonneg; lia). split.
  - apply Z.div_le_lower_bound; [done|]. rewrite <- Z.pow_add_r by lia.
    by replace (k + 1 - 53 + 52) with k by lia.
  - apply Z.div_lt_upper_bound; [done|]. rewrite <- Z.pow_add_r by lia.
    by replace (k + 1 - 53 + 53) with (Z.succ k) by lia.
Qed.

(** ** Rationals *)

Lemma pow2_pos e : (0 < (2 # 1) ^ e)%Q.
Proof. by apply Qpower_0_lt. Qed.
Lemma F_le m m' e : m <= m' -> (F m e <= F m' e)%Q.
Proof.
  intros H. unfold F. apply Qmult_le_compat_r; [by rewrite <- Zle_Qle|apply Qlt_le_weak, pow2_pos].
Qed.
Lemma F_nonneg m e : 0 <= m -> (0 <= F m e)%Q.
Proof. intros H. apply (F_le 0 m e) in H. unfold F at 1 in H. by rewrite Qmult_0_l in H. Qed.
Lemma F_shift m e n : 0 <= n -> (F m (e + n) == F (m * 2 ^ n) e)%Q.
Proof.
  intros Hn. unfold F. rewrite Qpower_plus by done. rewrite inject_Z_mult, Zpower_Qpower by done.
  change (inject_Z 2) with (2 # 1). ring.
Qed.
Lemma F_cut m e n : 0 <= n -> (F (m / 2 ^ n) (e + n) <= F m e)%Q.
Proof.
  intros Hn. rewrite F_shift by done. apply F_le. rewrite Z.mul_comm. apply Z.mul_div_le.
  apply Z.pow_pos_nonneg; lia.
Qed.
Lemma F_mult m e m' e' : (F m e * F m' e' == F (m * m') (e + e'))%Q.
Proof. unfold F. rewrite Qpower_plus, inject_Z_mult by done. ring. Qed.
Lemma F_0 m : (F m 0 == inject_Z m)%Q.
Proof. unfold F. cbn. ring. Qed.

(** ** Rounding *)

(** A normal float: a mantissa of 53 bits. *)
Definition normal (s : bool) (x : spec_float) (m e : Z) : Prop :=
  2 ^ 52 <= m < 2 ^ 53 /\ x = S754_finite s (Z.to_pos m) e.

Lemma round_aux_normal s m e l :
  2 ^ 52 <= m -> -1074 <= Zdigits2 m + e - 53 < 971 ->
  exists m' e', normal s (binary_round_aux 53 1024 s m e l) m' e' /\
    Zdigits2 m + e - 53 <= e' <= Zdigits2 m + e - 52 /\ (F m' e' <= ulp1 * F m e)%Q.
Proof.
  intros Hm [He1 He2]. pose proof (cut_bounds m Hm) as Hc. set (k := Zdigits2 m + e - 53) in *.
  destruct (shr_fexp_normal m e l Hm He1) as (r & Er & Hr). unfold binary_round_aux. rewrite Er. fold k. cbv beta iota.
  set (c := m / 2 ^ (Zdigits2 m - 53)) in *.
  set (z := round_nearest_even (shr_m r) (loc_of_shr_record r)).
  assert (Hz : c <= z <= c + 1).
  { unfold z. rewrite Hr. destruct (loc_of_shr_record r) as [|[]]; cbn; [lia| |lia..]. destruct (Z.even c); lia. }
  assert (HF : (F z k <= ulp1 * F m e)%Q).
  { assert (Hd : 53 <= Zdigits2 m).
    { rewrite Zdigits2_log2 by lia. pose proof (Z.log2_le_mono (2 ^ 52) m Hm) as H.
      rewrite Z.log2_pow2 in H by lia. lia. }
    assert (H1 : (F c k <= F m e)%Q).
    { unfold c, k. replace (Zdigits2 m + e - 53) with (e + (Zdigits2 m - 53)) by lia. apply F_cut. lia. }
    assert (H2 : (F z k <= ulp1 * F c k)%Q).
    { unfold F. rewrite Qmult_assoc. apply Qmult_le_compat_r; [|apply Qlt_le_weak, pow2_pos].
      assert (Hzc : z * 4503599627370496 <= c * 4503599627370497) by lia.
      unfold ulp1, Qle, Qplus, Qmult, inject_Z. cbn. lia. }
    unfold ulp1 in *. lra. }
  assert (Hz53 : Zdigits2 z = 53 \/ z = 2 ^ 53).
  { destruct (Z.eq_dec z (2 ^ 53)); [by right|left]. apply (Zdigits2_unique z 52); lia. }
  assert (Hdz : Zdigits2 z = 53 \/ Zdigits2 z = 54) by (destruct Hz53 as [->| ->]; auto).
  destruct (shr_fexp_normal z k loc_Exact) as (r2 & Er2 & Hr2); [lia|lia|]. rewrite Er2. cbv beta iota.
  pose proof (cut_bounds z ltac:(lia)) as Hc2. set (c2 := z / 2 ^ (Zdigits2 z - 53)) in *.
  exists c2, (Zdigits2 z + k - 53). split; [|split; [lia|]].
  - split; [done|]. rewrite Hr2. destruct c2 as [|p|p]; [lia| |lia].
    rewrite (proj2 (Z.leb_le _ _)) by lia. done.
  - assert (H1 : (F c2 (Zdigits2 z + k - 53) <= F z k)%Q).
    { unfold c2. replace (Zdigits2 z + k - 53) with (k + (Zdigits2 z - 53)) by lia. apply F_cut. lia. }
    lra.
Qed.

(** A mantissa of 53 bits is kept. *)
Lemma round_aux_exact s m e :
  2 ^ 52 <= m < 2 ^ 53 -> -1074 <= e <= 971 -> normal s (binary_round_aux 53 1024 s m e loc_Exact) m e.
Proof.
  intros Hm He. assert (Hd : Zdigits2 m = 53) by (apply (Zdigits2_unique m 52); lia).
  assert (Hs : shr_fexp 53 1024 m e loc_Exact = (Build_shr_record m false false, e)).
  { unfold shr_fexp. rewrite Hd. assert (fexp 53 1024 (53 + e) - e = 0) as -> by (unfold fexp, emin; lia). done. }
  split; [done|]. unfold binary_round_aux. rewrite Hs. cbn [shr_m loc_of_shr_record round_nearest_even].
  rewrite Hs. cbn [shr_m]. destruct m as [|p|p]; [lia| |lia]. by rewrite (proj2 (Z.leb_le _ _)) by lia.
Qed.

(** ** Operations *)

Definition float_sign (z : Z) : bool := z <? 0.

Lemma iter_xO d p : Zpos (Pos.iter xO p d) = Zpos p * 2 ^ Zpos d.
Proof.
  revert p. induction d as [|d IH] using Pos.peano_ind; intros p; [by rewrite Z.mul_comm|].
  rewrite Pos.iter_succ, Pos2Z.inj_xO, IH, Pos2Z.inj_succ, Z.pow_succ_r by lia. lia.
Qed.

(** Conversion: exact below [2 ^ 53], and never far above. *)
Lemma float64_of_pos s z :
  0 < z <= 2 ^ 63 ->
  let x := binary_round 53 1024 s (Z.to_pos z) 0 in
  exists m e, normal s x m e /\ -52 <= e <= 12 /\ (F m e <= ulp1 * inject_Z z)%Q /\
    (z < 2 ^ 53 -> (F m e == inject_Z z)%Q).
Proof.
  intros Hz x. assert (Hl : 0 <= Z.log2 z <= 63).
  { split; [apply Z.log2_nonneg|]. apply Z.lt_succ_r, Z.log2_lt_pow2; lia. }
  assert (Ed : Zpos (digits2_pos (Z.to_pos z)) = Z.log2 z + 1) by (rewrite digits2_log2, Z2Pos.id; lia).
  pose proof (Z.log2_spec z ltac:(lia)) as [Hlo Hhi].
  unfold x, binary_round. rewrite Ed, Z.add_0_r.
  assert (fexp 53 1024 (Z.log2 z + 1) = Z.log2 z - 52) as -> by (unfold fexp, emin; lia).
  unfold shl_align. rewrite Z.sub_0_r. destruct (Z.lt_ge_cases (Z.log2 z) 52) as [Hs|Hb].
  - set (m := z * 2 ^ (52 - Z.log2 z)).
    assert (Hm : 2 ^ 52 <= m < 2 ^ 53).
    { assert (0 < 2 ^ (52 - Z.log2 z)) by (apply Z.pow_pos_nonneg; lia).
      replace (2 ^ 52) with (2 ^ Z.log2 z * 2 ^ (52 - Z.log2 z)) by (rewrite <- Z.pow_add_r by lia; f_equal; lia).
      replace (2 ^ 53) with (2 ^ Z.succ (Z.log2 z) * 2 ^ (52 - Z.log2 z))
        by (rewrite <- Z.pow_add_r by lia; f_equal; lia).
      unfold m. split; [by apply Z.mul_le_mono_nonneg_r; lia|by apply Z.mul_lt_mono_pos_r]. }
    assert (HF : (F m (Z.log2 z - 52) == inject_Z z)%Q).
    { unfold m. rewrite <- F_shift by lia. replace (Z.log2 z - 52 + (52 - Z.log2 z)) with 0 by lia. apply F_0. }
    exists m, (Z.log2 z - 52). split; [|split; [lia|split; [|done]]].
    + destruct (Z.log2 z - 52) as [|p|p] eqn:E; [lia..|]. rewrite iter_xO, Z2Pos.id by lia.
      replace (Zpos p) with (52 - Z.log2 z) by lia. fold m. apply round_aux_exact; lia.
    + rewrite HF. assert (0 <= inject_Z z)%Q by (rewrite <- (Zle_Qle 0); lia). unfold ulp1. lra.
  - assert (Hm : 2 ^ 52 <= z) by (etrans; [|exact Hlo]; apply Z.pow_le_mono_r; lia).
    assert (Hd : Zdigits2 z = Z.log2 z + 1) by (apply Zdigits2_log2; lia).
    assert (match Z.log2 z - 52 with Zneg d => (Pos.iter xO (Z.to_pos z) d, Z.log2 z - 52) | _ => (Z.to_pos z, 0) end
      = (Z.to_pos z, 0)) as -> by (destruct (Z.log2 z - 52) eqn:E; [done..|lia]).
    rewrite Z2Pos.id by lia. destruct (Z.lt_ge_cases z (2 ^ 53)) as [H53|H53].
    + exists z, 0. split; [apply round_aux_exact; lia|]. split; [lia|]. rewrite F_0. split; [|done].
      assert (0 <= inject_Z z)%Q by (rewrite <- (Zle_Qle 0); lia). unfold ulp1. lra.
    + destruct (round_aux_normal s z 0 loc_Exact Hm) as (m & e & Hn & He & HF); [lia|]. exists m, e.
      split; [done|]. split; [lia|]. rewrite F_0 in HF. split; [done|lia].
Qed.

Lemma float64_of_Z_sign z : z <> 0 ->
  float64_of_Z z = binary_round 53 1024 (float_sign z) (Z.to_pos (Z.abs z)) 0.
Proof. by destruct z. Qed.

Lemma f64_div_normal s1 x m1 e1 s2 y m2 e2 :
  normal s1 x m1 e1 -> normal s2 y m2 e2 -> -500 <= e1 <= 200 -> -200 <= e2 <= 200 ->
  exists m e, normal (xorb s1 s2) (f64_div x y) m e /\ e1 - e2 - 53 <= e <= e1 - e2 - 51 /\
    (F m e * F m2 e2 <= ulp1 * F m1 e1)%Q.
Proof.
  intros [Hm1 ->] [Hm2 ->] He1 He2. unfold f64_div, SFdiv, SFdiv_core_binary. rewrite !Z2Pos.id by lia.
  rewrite (Zdigits2_unique m1 52), (Zdigits2_unique m2 52) by lia.
  assert (Z.min (fexp 53 1024 (52 + 1 + e1 - (52 + 1 + e2))) (e1 - e2) = e1 - e2 - 53) as ->
    by (unfold fexp, emin; lia).
  replace (e1 - e2 - (e1 - e2 - 53)) with 53 by lia. rewrite Z.shiftl_mul_pow2 by lia.
  pose proof (Z_div_mod (m1 * 2 ^ 53) m2 ltac:(lia)) as Hq.
  destruct (Z.div_eucl (m1 * 2 ^ 53) m2) as [q r]. destruct Hq as [Eq Hr].
  assert (Hq : 2 ^ 52 <= q < 2 ^ 54) by nia.
  assert (Hd : Zdigits2 q = 53 \/ Zdigits2 q = 54).
  { destruct (Z.lt_ge_cases q (2 ^ 53)); [left; apply (Zdigits2_unique q 52)|right; apply (Zdigits2_unique q 53)]; lia. }
  destruct (round_aux_normal (xorb s1 s2) q (e1 - e2 - 53) (new_location m2 r)) as (m & e & Hn & He & HF); [lia..|].
  exists m, e. split; [done|]. split; [lia|].
  assert (H1 : (F q (e1 - e2 - 53) * F m2 e2 <= F m1 e1)%Q).
  { rewrite F_mult. replace (e1 - e2 - 53 + e2) with (e1 - 53) by lia.
    replace e1 with (e1 - 53 + 53) at 2 by lia. rewrite F_shift by lia. apply F_le. lia. }
  assert (H2 : (0 <= F m2 e2)%Q) by (apply F_nonneg; lia).
  assert (H3 : (F m e * F m2 e2 <= ulp1 * F q (e1 - e2 - 53) * F m2 e2)%Q) by (by apply Qmult_le_compat_r).
  unfold ulp1 in *. lra.
Qed.

Lemma f64_mul_normal s1 x m1 e1 s2 y m2 e2 :
  normal s1 x m1 e1 -> normal s2 y m2 e2 -> -500 <= e1 <= 200 -> -200 <= e2 <= 200 ->
  exists m e, normal (xorb s1 s2) (f64_mul x y) m e /\ (F m e <= ulp1 * (F m1 e1 * F m2 e2))%Q.
Proof.
  intros [Hm1 ->] [Hm2 ->] He1 He2. unfold f64_mul, SFmul. rewrite Pos2Z.inj_mul, !Z2Pos.id by lia.
  assert (Hm : 2 ^ 104 <= m1 * m2 < 2 ^ 106) by nia.
  assert (Hd : Zdigits2 (m1 * m2) = 105 \/ Zdigits2 (m1 * m2) = 106).
  { destruct (Z.lt_ge_cases (m1 * m2) (2 ^ 105));
      [left; apply (Zdigits2_unique _ 104)|right; apply (Zdigits2_unique _ 105)]; lia. }
  destruct (round_aux_normal (xorb s1 s2) (m1 * m2) (e1 + e2) loc_Exact) as (m & e & Hn & _ & HF); [lia..|].
  exists m, e. split; [done|]. by rewrite F_mult.
Qed.

(** Truncation does not raise a magnitude. *)
Lemma f64_trunc_normal s x m e :
  normal s x m e ->
  exists a, f64_trunc x = Some (if s then - a else a) /\ 0 <= a /\ (inject_Z a <= F m e)%Q.
Proof.
  intros [Hm ->]. cbn. rewrite Z2Pos.id by lia. exists (Z.shiftl m e). split; [done|].
  split; [apply Z.shiftl_nonneg; lia|]. destruct (Z.le_gt_cases 0 e) as [He|He].
  - rewrite Z.shiftl_mul_pow2 by done. rewrite <- F_0. replace e with (0 + e) at 2 by lia.
    rewrite F_shift by done. apply Qle_refl.
  - replace (Z.shiftl m e) with (m / 2 ^ (- e)).
    2:{ rewrite <- Z.shiftr_div_pow2 by lia. unfold Z.shiftr. by rewrite Z.opp_involutive. }
    rewrite <- F_0. replace 0 with (e + - e) at 1 by lia. apply F_cut. lia.
Qed.
