(* ===== verification/Live.v ===== *)
(** * Live: reasoning about runs in which the server answers

    Rules in the style of [Database]'s [wp] for environments without faults: they
    follow the tables of the open transaction and count the readings of the clock
    and the new UUIDs, so that results can be computed exactly. *)

From stdpp Require Import base gmap strings list fin_maps.
From Stdlib Require Import ZArith Lia.
From S2P Require Import Prelude Identity Database.

Open Scope Z_scope.
Open Scope go_scope.

(** ** Runs without faults *)

(** The server answers every statement of the run. *)
Definition healthy (env : Env) : Prop := forall n, env_fault env n = NoFault.

(** The open transaction is alive with tables [d]; [k] clock readings and [i]
    UUIDs were used. *)
Definition live (base : Db) (now : Time) (d : Db) (k i : nat) (w : World) : Prop :=
  in_tx base now d false w /\ w_clock w = k /\ w_ids w = i.

Lemma live_BeginTx Q env d :
  healthy env -> (forall now w', live d now d 0 0 w' -> Q (Ok tt) w') ->
  wp BeginTx Q env (new_world d).
Proof. intros Hh HQ. unfold wp, BeginTx. rewrite Hh. by eapply HQ. Qed.

Section Rules.
Context (env : Env) (Hh : healthy env) (base : Db) (now : Time).

Lemma live_time_Now Q d k i w :
  live base now d k i w -> (forall w', live base now d (S k) i w' -> Q (Ok (env_now env k)) w') ->
  wp time_Now Q env w.
Proof. intros ([Hb Ht] & <- & <-) HQ. unfold wp. cbn. by apply HQ. Qed.

Lemma live_uuid_New Q d k i w :
  live base now d k i w -> (forall w', live base now d k (S i) w' -> Q (Ok (env_uuid env i)) w') ->
  wp uuid_New Q env w.
Proof. intros ([Hb Ht] & <- & <-) HQ. unfold wp. cbn. by apply HQ. Qed.

Lemma live_tx_exec {A} (f : stmt A) a d' Q d k i w :
  live base now d k i w -> f now d = inr (a, d') ->
  (forall w', live base now d' k i w' -> Q (Ok a) w') -> wp (tx_exec f) Q env w.
Proof.
  intros ([Hb Ht] & <- & <-) Hf HQ. unfold wp, tx_exec. rewrite Ht. cbn. rewrite Hh, Hf. by apply HQ.
Qed.

Lemma live_tx_query {A} (f : query A) a Q d k i w :
  live base now d k i w -> f now d = Some a ->
  (forall w', live base now d k i w' -> Q (Ok a) w') -> wp (tx_query f) Q env w.
Proof.
  intros Hl Hf HQ. apply wp_bind. eapply live_tx_exec; [done|by rewrite Hf|]. intros w' Hl'. wp_go.
  by apply HQ.
Qed.

Lemma live_db_query {A} (f : query A) a Q d k i w :
  live base now d k i w -> (forall n, f n base = Some a) ->
  (forall w', live base now d k i w' -> Q (Ok a) w') -> wp (db_query f) Q env w.
Proof.
  intros ([Hb Ht] & <- & <-) Hf HQ. apply wp_bind. unfold wp at 1, db_exec. rewrite Hh. cbn.
  rewrite Hb, Hf. wp_go. by apply HQ.
Qed.

Lemma live_Commit Q d k i w :
  live base now d k i w -> (forall w', w_db w' = d -> Q (Ok tt) w') -> wp Commit Q env w.
Proof. intros ([Hb Ht] & _) HQ. unfold wp, Commit. rewrite Ht. cbn. rewrite Hh. by apply HQ. Qed.

End Rules.
