(* ===== verification/Rbac.v ===== *)
(** * Rbac: who may call the administrative operations

    [service/internal/auth/rbac.go]: the permission table, the role cache with its
    thirty-second entries, permission checks, separation of duties, object
    ownership, and the assignment and removal of roles.

    An operation of the authorizer reads and replaces the cache and runs
    statements of [Database]; it returns the Go error as a value beside the cache,
    because the cache keeps what an operation that fails has stored.  The query of
    roles has no [ORDER BY], so the rows come in any order ([rows_order]), and a
    connection lost while the rows are read leaves the rows that had arrived. *)

From stdpp Require Import base gmap strings list fin_maps.
From Stdlib Require Import ZArith Lia Strings.Byte.
From S2P Require Import Prelude Identity Database Schema.

Open Scope Z_scope.
Open Scope go_scope.

(** ** Roles and permissions *)

Abbreviation Role := string (only parsing).
Abbreviation Permission := string (only parsing).

Definition RoleUser : Role := "user".
Definition RoleDeviceAdmin : Role := "device_admin".
Definition RolePolicyAuthor : Role := "policy_author".
Definition RolePolicyApprover : Role := "policy_approver".
Definition RoleAuditor : Role := "auditor".
Definition RoleSecurityAdmin : Role := "security_admin".
Definition RoleOperator : Role := "operator".

Definition PermTenantRead : Permission := "tenant:read".
Definition PermTenantWrite : Permission := "tenant:write".
Definition PermUserRead : Permission := "user:read".
Definition PermUserWrite : Permission := "user:write".
Definition PermDeviceRead : Permission := "device:read".
Definition PermDeviceWrite : Permission := "device:write".
Definition PermDeviceRevoke : Permission := "device:revoke".
Definition PermDeviceEnroll : Permission := "device:enroll".
Definition PermNodeRead : Permission := "node:read".
Definition PermNodeRegister : Permission := "node:register".
Definition PermNodeRevoke : Permission := "node:revoke".
Definition PermResourceRead : Permission := "resource:read".
Definition PermResourceWrite : Permission := "resource:write".
Definition PermPolicyRead : Permission := "policy:read".
Definition PermPolicyWrite : Permission := "policy:write".
Definition PermPolicyPublish : Permission := "policy:publish".
Definition PermApprovalCreate : Permission := "approval:create".
Definition PermApprovalRespond : Permission := "approval:respond".
Definition PermAuditRead : Permission := "audit:read".
Definition PermAuditExport : Permission := "audit:export".
Definition PermBreakGlass : Permission := "breakglass:execute".
Definition PermSecuritySettings : Permission := "security:settings".
Definition PermKeyRotate : Permission := "key:rotate".

(** The map from roles to permissions. *)
Definition rolePermissions : gmap string (list Permission) := {[
  RoleUser := [PermDeviceRead; PermDeviceEnroll; PermApprovalRespond];
  RoleDeviceAdmin := [PermDeviceRead; PermDeviceWrite; PermDeviceRevoke; PermDeviceEnroll;
                      PermUserRead];
  RolePolicyAuthor := [PermPolicyRead; PermPolicyWrite; PermResourceRead];
  RolePolicyApprover := [PermPolicyRead; PermPolicyPublish; PermResourceRead];
  RoleAuditor := [PermAuditRead; PermAuditExport; PermTenantRead; PermUserRead; PermDeviceRead;
                  PermPolicyRead];
  RoleSecurityAdmin := [PermSecuritySettings; PermKeyRotate; PermDeviceRevoke; PermNodeRevoke;
                        PermBreakGlass; PermAuditRead];
  RoleOperator := [PermNodeRead; PermNodeRegister; PermResourceRead; PermUserRead; PermDeviceRead;
                   PermAuditRead]
]}.

(** [Authorizer.roleHasPermission] *)
Definition roleHasPermission (role : Role) (perm : Permission) : bool :=
  match rolePermissions !! role with
  | None => false
  | Some perms => existsb (fun p => p == perm) perms
  end.

(** [Authorizer.hasAdminRole] *)
Definition hasAdminRole (roles : list Role) : bool :=
  existsb (fun r => (r == RoleSecurityAdmin) || (r == RoleOperator) || (r == RoleDeviceAdmin)) roles.

(** ** The authorizer *)

Record roleCacheEntry : Type := mkRoleCacheEntry { rc_roles : list Role; rc_expires : Time }.

Definition cacheTTL : Duration := 30 * Second.

(** [Authorizer.userRoles], keyed by [roleCacheKey]: tenant, then user. *)
Abbreviation Authorizer := (gmap (UUID * UUID) roleCacheEntry) (only parsing).

Definition NewAuthorizer : Authorizer := ∅.

(** How the rows of a query reach the client: in an order of the server's choice,
    and on a broken connection only the first ones. *)
Class RowStream : Type := {
  rows_order : list Role -> list Role;
  rows_order_perm : forall l, rows_order l ≡ₚ l;
  rows_arrived : nat -> nat
}.

Section Authorizer.
Context `{UT : UuidText} `{RO : RowStream}.

(** The role of every row of [user_roles] for a tenant's user. *)
Definition user_roles (tenant user : UUID) (lt : late_tables) : list Role :=
  omap (fun '((t, u, r), _) => if (t == tenant) && (u == user) then Some r else None)
    (map_to_list (lt_user_roles lt)).

(** [db.QueryContext] and the [rows.Next] loop: the roles that arrived and
    [rows.Err()]. *)
Definition query_roles (tenant user : UUID) : M (list Role * option error) := fun env w =>
  let w' := after_stmt w (w_db w) (w_tx w) in
  match env_fault env (w_stmt w), db_late (w_db w) with
  | Fails, _ => (Err ErrServer, w')
  | _, None => (Err ErrNoTable, w')
  | NoFault, Some lt => (Ok (rows_order (user_roles tenant user lt), None), w')
  | AckLost, Some lt =>
      (Ok (take (rows_arrived (w_stmt w)) (rows_order (user_roles tenant user lt)),
           Some ErrServer), w')
  end.

(** [Authorizer.getRoles] *)
Definition getRoles (a : Authorizer) (userID tenantID : UUID)
    : M (outcome (list Role) * Authorizer) :=
  let key := (tenantID, userID) in
  hit ← match a !! key with
        | Some entry =>
            now ← time_Now;
            mret (if time_Before now (rc_expires entry) then Some (rc_roles entry) else None)
        | None => mret None
        end;
  match hit with
  | Some roles => mret (Ok roles, a)
  | None =>
      r ← try (query_roles tenantID userID);
      match r with
      | Ok (roles, rowsErr) =>
          now ← time_Now;
          let a' := <[key := mkRoleCacheEntry roles (now + cacheTTL)]> a in
          mret (match rowsErr with None => Ok roles | Some e => Err e end, a')
      | Err e => mret (Err (Wrapf "auth: query roles: %w" [] e), a)
      | Panic => lift Panic
      end
  end.

(** [Authorizer.Check] after the roles were found. *)
Definition check_roles (userID : UUID) (perm : Permission) (resourceOwner : option UUID)
    (roles : list Role) : outcome unit :=
  if (length roles =? 0)%nat
  then Err (Errorf "auth: no roles assigned — access denied" []) else
  if negb (existsb (fun role => roleHasPermission role perm) roles)
  then Err (Errorf "auth: permission %s denied for roles %v" (AStr perm :: map AStr roles)) else
  match resourceOwner with
  | Some owner =>
      if (owner != userID) && negb (hasAdminRole roles)
      then Err (Errorf "auth: object ownership violation — user %s cannot access resource owned by %s"
                  [AStr (uuid_String userID); AStr (uuid_String owner)])
      else Ok tt
  | None => Ok tt
  end.

Definition Check (a : Authorizer) (userID tenantID : UUID) (perm : Permission)
    (resourceOwner : option UUID) : M (outcome unit * Authorizer) :=
  '(r, a) ← getRoles a userID tenantID;
  mret (match wrap "auth: resolve roles: %w" [] r with
        | Ok roles => check_roles userID perm resourceOwner roles
        | Err e => Err e
        | Panic => Panic
        end, a).

(** ** Separation of duties *)

Fixpoint all_have_roles (a : Authorizer) (tenantID : UUID) (uids : list UUID)
    : M (outcome unit * Authorizer) :=
  match uids with
  | [] => mret (Ok tt, a)
  | uid :: rest =>
      '(r, a) ← getRoles a uid tenantID;
      match r with
      | Ok (_ :: _) => all_have_roles a tenantID rest
      | Panic => lift Panic
      | _ => mret (Err (Errorf "auth: user %s has no valid roles" [AStr (uuid_String uid)]), a)
      end
  end.

(** [Authorizer.CheckSeparationOfDuties] *)
Definition CheckSeparationOfDuties (a : Authorizer) (authorID approverID tenantID : UUID)
    : M (outcome unit * Authorizer) :=
  if authorID == approverID
  then mret (Err (Errorf
         "auth: separation of duties violation — author and approver must be distinct" []), a)
  else all_have_roles a tenantID [authorID; approverID].

(** [Authorizer.CheckPolicyApprovalSoD] *)
Definition CheckPolicyApprovalSoD (a : Authorizer) (authorID approverID tenantID : UUID)
    : M (outcome unit * Authorizer) :=
  CheckSeparationOfDuties a authorID approverID tenantID.

(** ** Tenants and objects *)

(** [Authorizer.CheckTenantScoping] *)
Definition CheckTenantScoping (userID requestTenantID userTenantID : UUID) : outcome unit :=
  if requestTenantID != userTenantID
  then Err (Errorf "auth: cross-tenant access denied — user %s cannot access tenant %s"
              [AStr (uuid_String userID); AStr (uuid_String requestTenantID)])
  else Ok tt.

(** The tenant column of the row each object type is looked up in.  The table
    [policies] has no column [id], so its statement is refused. *)
Definition object_tenant (objectType : string) (tenantID objectID : UUID) : stmt (option UUID) :=
  fun now d =>
  if objectType == "device"
  then inr (d_tenant <$> select_device tenantID objectID d, d)
  else if objectType == "node"
  then inr (n_tenant <$> select_node tenantID objectID d, d)
  else if objectType == "resource"
  then inr (r_tenant <$> select_resource tenantID objectID d, d)
  else inl (Errorf "pq: column id does not exist" []).

(** [Authorizer.CheckObjectOwnership] *)
Definition CheckObjectOwnership (userID tenantID : UUID) (objectType : string) (objectID : UUID)
    : M unit :=
  if (objectType == "device") || (objectType == "node") || (objectType == "resource") ||
     (objectType == "policy")
  then
    r ← try (db_exec (object_tenant objectType tenantID objectID));
    match r with
    | Ok (Some objTenantID) => lift (CheckTenantScoping userID tenantID objTenantID)
    | Panic => lift Panic
    | _ => lift (Err (Errorf ("auth: " +:+ objectType +:+ " %s not found in tenant %s")
             [AStr (uuid_String objectID); AStr (uuid_String tenantID)]))
    end
  else lift (Err (Errorf "auth: unknown object type %s" [AStr objectType])).

(** ** Managing roles *)

Definition set_user_roles (m : gmap (UUID * UUID * string) UUID) (lt : late_tables) : late_tables :=
  mkLate m (lt_tickets lt) (lt_tokens lt).

(** [INSERT ... ON CONFLICT (tenant_id, user_id, role) DO NOTHING] *)
Definition insert_role (tenant user by_ : UUID) (role : Role) : stmt unit := fun now d =>
  match db_late d with
  | None => inl ErrNoTable
  | Some lt =>
      match lt_user_roles lt !! (tenant, user, role) with
      | Some _ => inr (tt, d)
      | None => inr (tt, set_late (Some (set_user_roles
                  (<[(tenant, user, role) := by_]> (lt_user_roles lt)) lt)) d)
      end
  end.

Definition delete_role (tenant user : UUID) (role : Role) : stmt unit := fun now d =>
  match db_late d with
  | None => inl ErrNoTable
  | Some lt => inr (tt, set_late (Some (set_user_roles
                 (delete (tenant, user, role) (lt_user_roles lt)) lt)) d)
  end.

(** The common shape of [AssignRole] and [RemoveRole]: check, write, drop the
    cache entry. *)
Definition change_role (a : Authorizer) (tenantID userID actor : UUID) (checkMsg writeMsg : string)
    (s : stmt unit) : M (outcome unit * Authorizer) :=
  '(c, a) ← Check a actor tenantID PermSecuritySettings None;
  match wrap checkMsg [] c with
  | Ok _ =>
      r ← try (db_exec s);
      match wrap writeMsg [] r with
      | Ok _ => mret (Ok tt, delete (tenantID, userID) a)
      | Err e => mret (Err e, a)
      | Panic => lift Panic
      end
  | Err e => mret (Err e, a)
  | Panic => lift Panic
  end.

(** [Authorizer.AssignRole] *)
Definition AssignRole (a : Authorizer) (tenantID userID assignedBy : UUID) (role : Role)
    : M (outcome unit * Authorizer) :=
  change_role a tenantID userID assignedBy "auth: assign role: %w" "auth: insert role: %w"
    (insert_role tenantID userID assignedBy role).

(** [Authorizer.RemoveRole] *)
Definition RemoveRole (a : Authorizer) (tenantID userID removedBy : UUID) (role : Role)
    : M (outcome unit * Authorizer) :=
  change_role a tenantID userID removedBy "auth: remove role: %w" "auth: delete role: %w"
    (delete_role tenantID userID role).

End Authorizer.
