(* ===== verification/RbacProps.v ===== *)
(** * RbacProps: what the authorizer decides, and who can change it

    A check on a fresh entry is the declarative rule [permitted] on the rows of
    [user_roles]; a removed role is gone for the next check; over any sequence of
    operations and faults, a tenant without a security administrator stays
    without one and keeps its role rows.  Then what the code does not enforce:
    ownership of objects, and reads that broke off. *)

From stdpp Require Import base gmap strings list fin_maps.
From Stdlib Require Import ZArith Lia Strings.Byte.
From S2P Require Import Prelude Identity Cose Envelope Reference Database Schema Sample Rbac.

Open Scope Z_scope.
Open Scope go_scope.

(** ** The rule *)

(** Some role carries the permission, and a foreign object needs one of the three
    administrative roles. *)
Definition permitted (roles : list string) (user : UUID) (perm : string) (owner : option UUID) : Prop :=
  (exists role perms, role ∈ roles /\ rolePermissions !! role = Some perms /\ perm ∈ perms) /\
  (forall o, owner = Some o -> o <> user ->
     exists role, role ∈ roles /\ role ∈ [RoleSecurityAdmin; RoleOperator; RoleDeviceAdmin]).

#[export] Instance permitted_perm : Proper ((≡ₚ) ==> (=) ==> (=) ==> (=) ==> iff) permitted.
Proof.
  intros l l' E u ? <- p ? <- o ? <-. unfold permitted. by setoid_rewrite E.
Qed.

Lemma roleHasPermission_spec role perm :
  roleHasPermission role perm = true <->
  exists perms, rolePermissions !! role = Some perms /\ perm ∈ perms.
Proof.
  unfold roleHasPermission. destruct (rolePermissions !! role) as [perms|]; [|naive_solver].
  rewrite existsb_exists. split.
  - intros (p & Hin & E). go_bool. subst. exists perms. by rewrite list_elem_of_In.
  - intros (? & [= <-] & Hin). exists perm. rewrite <- list_elem_of_In. by rewrite eqb_refl.
Qed.

Lemma hasAdminRole_spec roles :
  hasAdminRole roles = true <->
  exists role, role ∈ roles /\ role ∈ [RoleSecurityAdmin; RoleOperator; RoleDeviceAdmin].
Proof.
  unfold hasAdminRole. rewrite existsb_exists. setoid_rewrite list_elem_of_In.
  split; intros (r & Hin & E); exists r; (split; [done|]); cbn in *;
    rewrite !orb_true_iff, !eqb_true in *; intuition congruence.
Qed.

Section Props.
Context `{UT : UuidText} `{RO : RowStream}.

Lemma check_roles_spec user perm owner roles :
  check_roles user perm owner roles = Ok tt <-> permitted roles user perm owner.
Proof.
  unfold check_roles, permitted.
  assert (Hp : existsb (fun role => roleHasPermission role perm) roles = true <->
    exists role perms, role ∈ roles /\ rolePermissions !! role = Some perms /\ perm ∈ perms).
  { rewrite existsb_exists. setoid_rewrite roleHasPermission_spec. setoid_rewrite <- list_elem_of_In.
    naive_solver. }
  destruct (length roles =? 0)%nat eqn:El.
  { apply Nat.eqb_eq, length_zero_iff_nil in El as ->. split; [done|].
    intros ((r & ? & Hin & _) & _). by apply elem_of_nil in Hin. }
  destruct (existsb _ roles); cbn [negb]; [|split; [done|by intros [?%Hp _]]].
  destruct owner as [o|]; [|split; [|done]; intros _; split; [by apply Hp|done]].
  destruct (o != user) eqn:Eo; go_bool; cbn [andb].
  - destruct (hasAdminRole roles) eqn:Ea; cbn [negb].
    + split; [intros _|done]. split; [by apply Hp|]. intros _ _ _. by apply hasAdminRole_spec.
    + split; [done|]. intros [_ H]. pose proof (H o eq_refl Eo) as Hr. apply hasAdminRole_spec in Hr. congruence.
  - split; [intros _|done]. split; [by apply Hp|]. intros o' [= <-] Hn. by destruct Hn.
Qed.

(** ** Reading roles *)

(** The database is where it was. *)
Definition same_db (w w' : World) : Prop := w_db w' = w_db w /\ w_tx w' = w_tx w.

(** What a lookup of roles returns and leaves in the cache: a live entry, an
    error, or the rows it read - all of them, or the first ones and an error. *)
Inductive roles_read (a : gmap (UUID * UUID) roleCacheEntry) (t u : UUID) (d : Db)
    : outcome (list string) -> gmap (UUID * UUID) roleCacheEntry -> Prop :=
| read_cached e : a !! (t, u) = Some e -> roles_read a t u d (Ok (rc_roles e)) a
| read_failed e : roles_read a t u d (Err e) a
| read_all lt roles exp : db_late d = Some lt -> roles ≡ₚ user_roles t u lt ->
    roles_read a t u d (Ok roles) (<[(t, u) := mkRoleCacheEntry roles exp]> a)
| read_broken lt roles rest exp e : db_late d = Some lt -> roles ++ rest ≡ₚ user_roles t u lt ->
    roles_read a t u d (Err e) (<[(t, u) := mkRoleCacheEntry roles exp]> a).

Lemma wp_query_roles t u Q env w :
  (forall e w', same_db w w' -> Q (Err e) w') ->
  (forall lt roles w', same_db w w' -> db_late (w_db w) = Some lt -> roles ≡ₚ user_roles t u lt ->
     Q (Ok (roles, None)) w') ->
  (forall lt roles rest e w', same_db w w' -> db_late (w_db w) = Some lt ->
     roles ++ rest ≡ₚ user_roles t u lt -> Q (Ok (roles, Some e)) w') ->
  wp (query_roles t u) Q env w.
Proof.
  intros HE HO HB. unfold wp, query_roles.
  destruct (env_fault env (w_stmt w)), (db_late (w_db w)) as [lt|] eqn:El; cbn; try by apply HE.
  - eapply HO; [done..|]. apply rows_order_perm.
  - eapply HB with (rest := drop (rows_arrived (w_stmt w)) (rows_order (user_roles t u lt))); [done..|].
    rewrite take_drop. apply rows_order_perm.
Qed.

Lemma wp_getRoles a u t Q env w :
  (forall r a' w', same_db w w' -> roles_read a t u (w_db w) r a' -> Q (Ok (r, a')) w') ->
  wp (getRoles a u t) Q env w.
Proof.
  intros HQ. unfold getRoles. apply wp_bind.
  assert (Hmiss : forall w1, same_db w w1 -> wp (
    r ← try (query_roles t u);
    match r with
    | Ok (roles, rowsErr) =>
        now ← time_Now;
        mret (match rowsErr with None => Ok roles | Some e => Err e end,
              <[(t, u) := mkRoleCacheEntry roles (now + cacheTTL)]> a)
    | Err e => mret (Err (Wrapf "auth: query roles: %w" [] e), a)
    | Panic => lift Panic
    end) Q env w1).
  { intros w1 [E1 T1]. wp_go. apply wp_try, wp_query_roles.
    - intros e w2 [E2 T2]. wp_go. apply HQ; [split; congruence|constructor].
    - intros lt roles w2 [E2 T2] Hl Hp. wp_go. apply wp_time_Now. intros now w3 E3 T3. wp_go.
      apply HQ; [split; congruence|]. econstructor; [by rewrite <- E1|done].
    - intros lt roles rest e w2 [E2 T2] Hl Hp. wp_go. apply wp_time_Now. intros now w3 E3 T3. wp_go.
      apply HQ; [split; congruence|]. econstructor; [by rewrite <- E1|done]. }
  destruct (a !! (t, u)) as [e|] eqn:Ea; [|by apply wp_ret, Hmiss].
  apply wp_bind, wp_time_Now. intros now w1 E1 T1. apply wp_ret.
  destruct (time_Before now (rc_expires e)); [|by apply Hmiss].
  apply wp_ret, HQ; [done|]. by constructor.
Qed.

Lemma wp_Check a u t perm owner Q env w :
  (forall r c a' w', same_db w w' -> roles_read a t u (w_db w) r a' ->
     (c = Ok tt <-> exists roles, r = Ok roles /\ permitted roles u perm owner) -> c <> Panic ->
     Q (Ok (c, a')) w') ->
  wp (Check a u t perm owner) Q env w.
Proof.
  intros HQ. unfold Check. wp_go. apply wp_getRoles. intros r a' w' Hs Hr. wp_go.
  eapply HQ; [done..| |].
  - destruct r as [roles|e|]; cbn; [|naive_solver..]. rewrite check_roles_spec. naive_solver.
  - destruct r as [roles|e|]; cbn; [|done|by inversion Hr]. unfold check_roles.
    repeat case_match; done.
Qed.

(** A change of roles has no effect, or the actor was permitted and the statement
    ran; only a change reported as made drops the cached entry. *)
Lemma wp_change_role a t u actor m1 m2 (s : stmt unit) Q env w :
  (forall r e a' w', w_db w' = w_db w -> roles_read a t actor (w_db w) r a' -> Q (Ok (Err e, a')) w') ->
  (forall roles now c a' a'' w', roles_read a t actor (w_db w) (Ok roles) a' ->
     permitted roles actor PermSecuritySettings None -> s now (w_db w) = inr (tt, w_db w') ->
     (c = Ok tt /\ a'' = delete (t, u) a' \/ (exists e, c = Err e) /\ a'' = a') ->
     Q (Ok (c, a'')) w') ->
  wp (change_role a t u actor m1 m2 s) Q env w.
Proof.
  intros HE HO. unfold change_role. wp_go. apply wp_Check. intros r c a1 w1 [E1 T1] Hr Hc Hn. wp_go.
  destruct c as [[]|e|]; cbn [wrap]; [|wp_go; by eapply HE|done].
  destruct (proj1 Hc eq_refl) as (roles & -> & Hp). wp_go. apply wp_try, wp_db_exec.
  - intros now [] d' w2 Hs E2 T2. wp_go. eapply HO; [done..| |by left]. by rewrite <- E1, E2.
  - intros now [] d' e w2 Hs E2 T2. wp_go. eapply HO; [done..|by rewrite <- E1, E2|]. right. eauto.
  - intros e w2 E2 T2. wp_go. eapply HE; [congruence|done].
Qed.

(** ** Theorems *)

(** C22.  A check decides by the rule: with a server that answers and no live
    cache entry, [Check] allows exactly what [permitted] allows on the user's rows
    of [user_roles], in whatever order they arrive, and changes no table. *)
Theorem check_decides_by_rows env a user tenant perm owner d lt :
  env_fault env 0%nat = NoFault -> db_late d = Some lt -> a !! (tenant, user) = None ->
  exists c a', run (Check a user tenant perm owner) env d = (Ok (c, a'), d) /\
    (c = Ok tt <-> permitted (user_roles tenant user lt) user perm owner).
Proof.
  intros Hf Hl Ha. unfold Check, getRoles, run, new_world. cbn. rewrite Ha. cbn.
  unfold query_roles, mbind, M_bind, try. cbn. rewrite Hf, Hl. cbn. do 2 eexists. split; [done|].
  rewrite check_roles_spec. by rewrite (rows_order_perm (user_roles tenant user lt)).
Qed.

Lemma elem_of_user_roles t u r lt :
  r ∈ user_roles t u lt <-> is_Some (lt_user_roles lt !! (t, u, r)).
Proof.
  unfold user_roles. rewrite list_elem_of_omap. split.
  - intros ([[[t' u'] r'] by_] & Hin%elem_of_map_to_list & E).
    destruct ((t' == t) && (u' == u)) eqn:Eb; [|done]. injection E as ->.
    rewrite andb_true_iff, !eqb_true in Eb. destruct Eb as [-> ->]. by eexists.
  - intros [by_ H]. exists ((t, u, r), by_). rewrite elem_of_map_to_list. by rewrite !eqb_refl.
Qed.

(** A removed role is gone at once: after [RemoveRole] reports success, this
    authorizer denies the user every permission that no remaining row carries,
    whatever the server does, until the table changes. *)
Theorem removed_role_denied env a tenant user actor role d a' d' :
  run (RemoveRole a tenant user actor role) env d = (Ok (Ok tt, a'), d') ->
  forall env' perm owner c a'' d'' lt,
    db_late d' = Some lt ->
    (forall r, r <> role -> is_Some (lt_user_roles lt !! (tenant, user, r)) -> roleHasPermission r perm = false) ->
    run (Check a' user tenant perm owner) env' d' = (Ok (c, a''), d'') -> c <> Ok tt /\ d'' = d'.
Proof.
  intros Hrun env' perm owner c a'' d'' lt Hl Hno Hc.
  assert (Hgone : a' !! (tenant, user) = None /\ lt_user_roles lt !! (tenant, user, role) = None).
  { assert (H : (run (RemoveRole a tenant user actor role) env d).1 = Ok (Ok tt, a') ->
      a' !! (tenant, user) = None /\
      forall lt, db_late (run (RemoveRole a tenant user actor role) env d).2 = Some lt ->
        lt_user_roles lt !! (tenant, user, role) = None).
    { pattern (run (RemoveRole a tenant user actor role) env d).1,
        (run (RemoveRole a tenant user actor role) env d).2. apply wp_run. unfold RemoveRole.
      apply wp_change_role; [done|].
      intros roles now c1 a1 a2 w1 _ _ Hs [[-> ->]|[[e ->] _]] [=]; subst. split; [by apply lookup_delete_eq|].
      unfold delete_role in Hs. intros lt' Hl'. destruct (db_late (w_db (new_world d))) as [lt0|]; [|done].
      injection Hs as Hs. rewrite <- Hs in Hl'. injection Hl' as <-. cbn. apply lookup_delete_eq. }
    rewrite Hrun in H. cbn in H. destruct (H eq_refl). auto. }
  destruct Hgone as [Hg1 Hg2].
  assert (H : forall c1 a1, (run (Check a' user tenant perm owner) env' d').1 = Ok (c1, a1) ->
    c1 <> Ok tt /\ (run (Check a' user tenant perm owner) env' d').2 = d').
  { intros c1 a1. pattern (run (Check a' user tenant perm owner) env' d').1,
      (run (Check a' user tenant perm owner) env' d').2. apply wp_run. apply wp_Check.
    intros r0 c2 a2 w' [E _] Hr Hc2 _ [=]; subst. split; [|done]. intros (roles & -> & (r & ps & Hin & Hps & Hp) & _)%Hc2.
    inversion Hr as [e He| |lt1 roles1 exp1 Hl1 Hp1|]; subst; [by rewrite Hg1 in He|].
    cbn in Hl1. rewrite Hl in Hl1. injection Hl1 as <-. rewrite Hp1 in Hin.
    apply elem_of_user_roles in Hin. assert (Hne : r <> role) by (intros ->; by rewrite Hg2 in Hin; inversion Hin).
    apply Hno in Hin; [|done]. apply not_true_iff_false in Hin. apply Hin, roleHasPermission_spec. eauto. }
  specialize (H c a''). rewrite Hc in H. by apply H.
Qed.

(** ** Who can change roles *)

(** Operations of one authorizer, under any faults. *)
Inductive auth_step : gmap (UUID * UUID) roleCacheEntry * Db -> gmap (UUID * UUID) roleCacheEntry * Db -> Prop :=
| auth_check env a d u t perm owner c a' d' :
    run (Check a u t perm owner) env d = (Ok (c, a'), d') -> auth_step (a, d) (a', d')
| auth_sod env a d x y t c a' d' :
    run (CheckPolicyApprovalSoD a x y t) env d = (Ok (c, a'), d') -> auth_step (a, d) (a', d')
| auth_assign env a d t u by_ role c a' d' :
    run (AssignRole a t u by_ role) env d = (Ok (c, a'), d') -> auth_step (a, d) (a', d')
| auth_remove env a d t u by_ role c a' d' :
    run (RemoveRole a t u by_ role) env d = (Ok (c, a'), d') -> auth_step (a, d) (a', d').

(** The role rows of a tenant. *)
Definition tenant_role (t u : UUID) (r : string) (d : Db) : option UUID :=
  lt ← db_late d; lt_user_roles lt !! (t, u, r).

(** No row and no cached entry of the tenant names a security administrator. *)
Definition no_admin (t : UUID) (a : gmap (UUID * UUID) roleCacheEntry) (d : Db) : Prop :=
  (forall u, tenant_role t u RoleSecurityAdmin d = None) /\
  (forall u e, a !! (t, u) = Some e -> RoleSecurityAdmin ∉ rc_roles e).

(** Only [security_admin] carries [security:settings]. *)
Lemma security_settings_role roles u :
  permitted roles u PermSecuritySettings None -> RoleSecurityAdmin ∈ roles.
Proof.
  intros [(r & ps & Hin & Hps & Hp) _]. unfold rolePermissions in Hps.
  repeat (apply lookup_insert_Some in Hps as [[<- <-]|[_ Hps]]; [first
    [exact Hin|exfalso; revert Hp; apply (bool_decide_unpack _); vm_compute; exact I]|]).
  apply lookup_singleton_Some in Hps as [<- <-].
  exfalso. revert Hp. apply (bool_decide_unpack _). vm_compute. exact I.
Qed.

Lemma roles_read_no_admin t t' u a d r a' :
  no_admin t a d -> roles_read a t' u d r a' ->
  no_admin t a' d /\ (t' = t -> forall roles, r = Ok roles -> RoleSecurityAdmin ∉ roles).
Proof.
  intros [Hd Ha] Hr.
  assert (Hrows : forall lt roles rest, db_late d = Some lt -> roles ++ rest ≡ₚ user_roles t u lt ->
    RoleSecurityAdmin ∉ roles).
  { intros lt roles rest Hl Hp Hin. specialize (Hd u). unfold tenant_role in Hd. rewrite Hl in Hd. cbn in Hd.
    assert (Hin' : RoleSecurityAdmin ∈ user_roles t u lt) by (rewrite <- Hp; set_solver).
    apply elem_of_user_roles in Hin' as [? E]. congruence. }
  assert (Hput : forall lt roles rest exp, db_late d = Some lt -> roles ++ rest ≡ₚ user_roles t' u lt ->
    no_admin t (<[(t', u) := mkRoleCacheEntry roles exp]> a) d).
  { intros lt roles rest exp Hl Hp. split; [done|].
    intros u' e [[[= -> ->] <-]|[_ He]]%lookup_insert_Some; [by eapply Hrows|by eapply Ha]. }
  destruct Hr as [e He|e|lt roles exp Hl Hp|lt roles rest exp e Hl Hp]; (split; [|intros ->]).
  - by split.
  - intros roles [= <-]. by eapply Ha.
  - by split.
  - done.
  - apply (Hput lt roles []); [done|by rewrite app_nil_r].
  - intros ? [= <-]. apply (Hrows lt roles []); [done|by rewrite app_nil_r].
  - by eapply Hput.
  - done.
Qed.

(** The rows of a tenant stay. *)
Definition keeps_roles (t : UUID) (d d' : Db) : Prop :=
  forall u r, tenant_role t u r d' = tenant_role t u r d.

(** A statement that writes only rows of one tenant. *)
Definition writes_tenant (t' : UUID) (s : stmt unit) : Prop :=
  forall now d d' t, s now d = inr (tt, d') -> t <> t' -> keeps_roles t d d'.

Lemma insert_role_writes t' u by_ role : writes_tenant t' (insert_role t' u by_ role).
Proof.
  intros now d d' t Hs Hne u' r. unfold insert_role in Hs. unfold tenant_role.
  destruct (db_late d) as [lt|] eqn:El; [|done]. destruct (lt_user_roles lt !! _); injection Hs as <-.
  - by rewrite El.
  - cbn. by rewrite lookup_insert_ne by congruence.
Qed.

Lemma delete_role_writes t' u role : writes_tenant t' (delete_role t' u role).
Proof.
  intros now d d' t Hs Hne u' r. unfold delete_role in Hs. unfold tenant_role.
  destruct (db_late d) as [lt|] eqn:El; [|done]. injection Hs as <-. cbn.
  by rewrite lookup_delete_ne by congruence.
Qed.

(** What one operation leaves of a tenant without administrator. *)
Definition stays (t : UUID) (d : Db) (a' : gmap (UUID * UUID) roleCacheEntry) (d' : Db) : Prop :=
  no_admin t a' d' /\ keeps_roles t d d'.

Lemma change_role_stays t t' u actor m1 m2 s a d env :
  no_admin t a d -> writes_tenant t' s ->
  forall c a', (run (change_role a t' u actor m1 m2 s) env d).1 = Ok (c, a') ->
  stays t d a' (run (change_role a t' u actor m1 m2 s) env d).2.
Proof.
  intros Hn Hw c a'. pattern (run (change_role a t' u actor m1 m2 s) env d).1,
    (run (change_role a t' u actor m1 m2 s) env d).2. apply wp_run, wp_change_role; cbn.
  - intros r e a1 w' -> Hr [= <- <-]. split; [by eapply roles_read_no_admin|done].
  - intros roles now c1 a1 a2 w' Hr Hp Hs Ha2 [= <- <-].
    destruct (roles_read_no_admin _ _ _ _ _ _ _ Hn Hr) as [[Hn1 Hn2] Hno].
    assert (Hne : t <> t').
    { intros ->. by eapply (Hno eq_refl), security_settings_role. }
    pose proof (Hw _ _ _ _ Hs Hne) as Hk. split; [split|done].
    + intros u'. by rewrite Hk.
    + intros u' e He. apply (Hn2 u'). destruct Ha2 as [[_ ->]|[_ ->]]; [|done].
      by apply lookup_delete_Some in He as [_ He].
Qed.

Lemma all_have_roles_stays t t' uids a env w :
  no_admin t a (w_db w) ->
  wp (all_have_roles a t' uids) (fun r w' => w_db w' = w_db w /\
    forall c a', r = Ok (c, a') -> no_admin t a' (w_db w)) env w.
Proof.
  revert a w. induction uids as [|uid rest IH]; intros a w Hn; cbn [all_have_roles]; wp_go.
  { split; [done|]. by intros c a' [= <- <-]. }
  apply wp_getRoles. intros r a1 w1 [E1 T1] Hr. wp_go.
  pose proof (proj1 (roles_read_no_admin _ _ _ _ _ _ _ Hn Hr)) as Hn1.
  destruct r as [[|x l]|e|]; wp_go; try (split; [done|]; by intros c a' [= <- <-]).
  eapply wp_mono; [by apply IH; rewrite E1|]. intros r w2 [E2 H2]. rewrite E1 in *. by split.
Qed.

Lemma auth_step_stays t a d a' d' :
  auth_step (a, d) (a', d') -> no_admin t a d -> stays t d a' d'.
Proof.
  intros Hs Hn. inversion Hs as [env ? ? u t' perm owner c ? ? H|env ? ? x y t' c ? ? H|
    env ? ? t' u by_ role c ? ? H|env ? ? t' u by_ role c ? ? H]; subst.
  - assert (Hx : (run (Check a u t' perm owner) env d).1 = Ok (c, a') ->
      stays t d a' (run (Check a u t' perm owner) env d).2).
    { pattern (run (Check a u t' perm owner) env d).1, (run (Check a u t' perm owner) env d).2.
      apply wp_run, wp_Check. intros r c1 a1 w' [-> _] Hr _ _ [= <- <-].
      split; [by eapply roles_read_no_admin|done]. }
    rewrite H in Hx. by apply Hx.
  - assert (Hx : (run (CheckPolicyApprovalSoD a x y t') env d).1 = Ok (c, a') ->
      stays t d a' (run (CheckPolicyApprovalSoD a x y t') env d).2).
    { pattern (run (CheckPolicyApprovalSoD a x y t') env d).1,
        (run (CheckPolicyApprovalSoD a x y t') env d).2. apply wp_run.
      unfold CheckPolicyApprovalSoD, CheckSeparationOfDuties. destruct (x == y); wp_go; [by intros [= <- <-]|].
      eapply wp_mono; [by apply (all_have_roles_stays t)|]. intros r w' [-> Hr] E.
      split; [by eapply Hr|done]. }
    rewrite H in Hx. by apply Hx.
  - pose proof (change_role_stays t t' u by_ "auth: assign role: %w" "auth: insert role: %w" _ a d env Hn
      (insert_role_writes t' u by_ role) c a') as Hx. unfold AssignRole in H. rewrite H in Hx. by apply Hx.
  - pose proof (change_role_stays t t' u by_ "auth: remove role: %w" "auth: delete role: %w" _ a d env Hn
      (delete_role_writes t' u role) c a') as Hx. unfold RemoveRole in H. rewrite H in Hx. by apply Hx.
Qed.

(** C19.  No escalation: over any sequence of checks, assignments and removals of
    an authorizer, by anyone and under any faults, a tenant that has no security
    administrator never gets one, and none of its role rows changes. *)
Theorem no_role_escalation t d a' d' :
  rtc auth_step (NewAuthorizer, d) (a', d') ->
  (forall u, tenant_role t u RoleSecurityAdmin d = None) ->
  forall u r, tenant_role t u r d' = tenant_role t u r d.
Proof.
  intros Hs Hd.
  assert (Hn : no_admin t NewAuthorizer d) by (split; [done|]; unfold NewAuthorizer; intros u e; by rewrite lookup_empty).
  clear Hd. remember NewAuthorizer as a0 eqn:E0. clear E0. remember (a0, d) as x eqn:Ex. remember (a', d') as y eqn:Ey.
  revert a0 d Ex Hn.
  induction Hs as [x|x [a1 d1] y H1 _ IH]; intros a0 d -> Hn; [by injection Ey as <- <-|].
  destruct (auth_step_stays _ _ _ _ _ H1 Hn) as [Hn1 Hk]. intros u r.
  rewrite (IH Ey _ _ eq_refl Hn1). apply Hk.
Qed.

(** ** What is not enforced *)

(** Ownership of an object does not depend on the user: the owner column is read
    and dropped, so [CheckObjectOwnership] accepts every user of the tenant. *)
Theorem ownership_ignores_user env d user tenant dev v :
  env_fault env 0%nat = NoFault -> select_device tenant dev d = Some v ->
  run (CheckObjectOwnership user tenant "device" dev) env d = (Ok tt, d).
Proof.
  intros Hf Hv. assert (Et : d_tenant v = tenant).
  { unfold select_device in Hv. destruct (db_devices d !! dev) as [x|]; [|done]. cbn in Hv.
    destruct (d_tenant x == tenant) eqn:E; [|done]. injection Hv as <-. by rewrite eqb_true in E. }
  assert (Ho : forall n, object_tenant "device" tenant dev n d = inr (Some tenant, d)).
  { intros n. unfold object_tenant. rewrite eqb_refl, Hv. cbn. by rewrite Et. }
  unfold CheckObjectOwnership, run, new_world. rewrite eqb_refl. cbn [orb].
  unfold mbind, M_bind, try, db_exec. cbn [w_stmt w_db]. rewrite Hf, Ho.
  unfold CheckTenantScoping, lift. by rewrite eqb_refl.
Qed.

(** No policy passes the check: the statement names a column the table lacks. *)
Theorem policy_ownership_never_passes env d user tenant pol :
  (run (CheckObjectOwnership user tenant "policy" pol) env d).1 <> Ok tt.
Proof.
  unfold CheckObjectOwnership, run, new_world. cbn [orb]. rewrite eqb_refl. rewrite !orb_true_r.
  unfold mbind, M_bind, try, db_exec. cbn. by destruct (env_fault env 0%nat).
Qed.

(** A read of roles that breaks off is reported as an error and cached: for thirty
    seconds the same check answers from the rows that had arrived. *)
Theorem broken_read_is_cached env d lt user tenant perm owner :
  env_fault env 0%nat = AckLost -> db_late d = Some lt ->
  let seen := take (rows_arrived 0) (rows_order (user_roles tenant user lt)) in
  exists e a', run (Check NewAuthorizer user tenant perm owner) env d = (Ok (Err e, a'), d) /\
    forall env', env_now env' 0%nat < env_now env 0%nat + cacheTTL ->
      run (Check a' user tenant perm owner) env' d = (Ok (check_roles user perm owner seen, a'), d).
Proof.
  intros Hf Hl seen. unfold Check, getRoles, run, new_world, NewAuthorizer. cbn. rewrite lookup_empty. cbn.
  unfold query_roles, mbind, M_bind, try. cbn. rewrite Hf, Hl. cbn. do 2 eexists. split; [done|].
  intros env' Hlt. rewrite lookup_insert_eq. unfold time_Before, time_Now. cbn [rc_expires rc_roles w_clock].
  rewrite (proj2 (Z.ltb_lt _ _) Hlt). done.
Qed.

End Props.

(** ** Concrete instances *)

#[local] Instance sample_RowStream : RowStream := {|
  rows_order l := l; rows_order_perm l := reflexivity l; rows_arrived _ := 1%nat
|}.

(** The run ended with values, not with an error of the run itself. *)
Definition ended_ok {A} (x : outcome A * Db) : bool := match x.1 with Ok _ => true | _ => false end.

Definition user2 : UUID := uuid_of_Z 12.
Definition roles_db (m : gmap (UUID * UUID * string) UUID) : Db :=
  set_late (Some (mkLate m ∅ ∅)) sample_db.

(** [user1] administers, [user2] audits. *)
Definition staffed_db : Db :=
  roles_db {[(tenant1, user1, RoleSecurityAdmin) := user1; (tenant1, user2, RoleAuditor) := user1]}.
Definition auditors_db : Db := roles_db {[(tenant1, user2, RoleAuditor) := user1]}.

Lemma check_decides_by_rows_witness :
  exists c a', run (Check NewAuthorizer user2 tenant1 PermAuditExport None) (sample_env 100) staffed_db
    = (Ok (c, a'), staffed_db) /\ c = Ok tt.
Proof.
  destruct (check_decides_by_rows (sample_env 100) NewAuthorizer user2 tenant1 PermAuditExport None
    staffed_db _ eq_refl eq_refl eq_refl) as (c & a' & Hr & Hc).
  exists c, a'. split; [exact Hr|]. apply Hc, check_roles_spec. vm_compute. reflexivity.
Defined.

(** The administrator removes the auditor's role, then the auditor asks again. *)
Definition removal_run :=
  run (RemoveRole NewAuthorizer tenant1 user2 user1 RoleAuditor) (sample_env 100) staffed_db.

Lemma removed_role_denied_witness :
  match removal_run with
  | (Ok (r, a'), d') => r = Ok tt /\ forall c a'' d'',
      run (Check a' user2 tenant1 PermAuditExport None) (sample_env 200) d' = (Ok (c, a''), d'') ->
      c <> Ok tt
  | _ => False
  end.
Proof.
  destruct removal_run as [[[r a']|e|] d'] eqn:E;
    [|apply (f_equal ended_ok) in E; vm_compute in E; discriminate E..].
  assert (Er : r = Ok tt).
  { apply (f_equal (fun x => match x.1 with Ok y => Some y.1 | _ => None end)) in E.
    vm_compute in E. by injection E as <-. }
  subst r. split; [reflexivity|]. intros c a'' d'' Hc.
  destruct (is_Some_dec (db_late d')) as [[lt Hl]|Hn].
  - refine (proj1 (removed_role_denied _ _ _ _ _ _ _ _ _ E (sample_env 200) PermAuditExport None c a'' d'' lt
      Hl _ Hc)).
    intros r Hr Hs. exfalso. apply elem_of_user_roles in Hs.
    assert (Hd : (fun lt => user_roles tenant1 user2 lt) <$> db_late d' = Some []).
    { apply (f_equal (fun x => (fun lt => user_roles tenant1 user2 lt) <$> db_late x.2)) in E.
      cbn [snd] in E. rewrite <- E. vm_compute. reflexivity. }
    rewrite Hl in Hd. injection Hd as Hd. rewrite Hd in Hs. by apply elem_of_nil in Hs.
  - exfalso. apply Hn. apply (f_equal (fun x => bool_decide (is_Some (db_late x.2)))) in E.
    apply (bool_decide_unpack _). cbn [snd] in E. rewrite <- E. vm_compute. exact I.
Defined.

(** The auditor tries to make herself administrator. *)
Lemma no_role_escalation_witness :
  exists a' d', rtc auth_step (NewAuthorizer, auditors_db) (a', d') /\
    tenant_role tenant1 user2 RoleSecurityAdmin d' = None /\
    tenant_role tenant1 user2 RoleAuditor d' = Some user1.
Proof.
  destruct (run (AssignRole NewAuthorizer tenant1 user2 user2 RoleSecurityAdmin) (sample_env 100) auditors_db)
    as [[[r a']|e|] d'] eqn:E; [|apply (f_equal ended_ok) in E; vm_compute in E; discriminate E..].
  assert (Hs : rtc auth_step (NewAuthorizer, auditors_db) (a', d'))
    by (eapply rtc_once, auth_assign, E).
  assert (Hno : forall u, tenant_role tenant1 u RoleSecurityAdmin auditors_db = None).
  { intros u. unfold tenant_role, auditors_db, roles_db. cbn.
    rewrite lookup_singleton_ne; [reflexivity|]. intros H. injection H as _ H. discriminate H. }
  exists a', d'. split; [exact Hs|].
  split; rewrite (no_role_escalation tenant1 auditors_db a' d' Hs Hno); vm_compute; reflexivity.
Defined.
