(* ===== verification/RbacRace.v ===== *)
(** * RbacRace: the role cache under concurrent goroutines

    [Rbac] runs the operations of the authorizer one after the other.  Here they
    interleave: [getRoles] looks into the cache under the read lock, queries the
    rows without a lock, and stores what it read under the write lock;
    [AssignRole] and [RemoveRole] write the row and then drop the cache entry.
    Between any two of these any other goroutine may run.  The table records when a
    row was last removed, so that the age of what a goroutine returns can be
    stated. *)

From stdpp Require Import base gmap strings list fin_maps relations.
From Stdlib Require Import ZArith Lia Strings.Byte.
From S2P Require Import Prelude Identity Cose Envelope Reference Database Schema Sample Rbac RbacProps.

Open Scope Z_scope.
Open Scope go_scope.

(** The points of the code between which a goroutine can be interrupted. *)
Inductive gpoint : Type :=
| Lookup (tenant user : UUID)                       (* getRoles is called *)
| Query (tenant user : UUID)                        (* the cache had nothing live *)
| Store (tenant user : UUID) (roles : list Role) (rowsErr : option error) (readAt : Time)
| Got (tenant user : UUID) (roles : list Role) (at_ : Time)     (* returned *)
| Insert (tenant user by_ : UUID) (role : Role)     (* AssignRole after its check *)
| Delete (tenant user : UUID) (role : Role)         (* RemoveRole after its check *)
| Evict (tenant user : UUID)                        (* the row is written *)
| Finished.

Record rstate : Type := mkR {
  r_now : Time;
  r_db : Db;
  r_cache : Authorizer;
  r_gs : gmap nat gpoint;
  r_removed : gmap (UUID * UUID * string) Time      (* when a row was last removed *)
}.

Definition at_point (g : nat) (p : gpoint) (s : rstate) : rstate :=
  mkR (r_now s) (r_db s) (r_cache s) (<[g := p]> (r_gs s)) (r_removed s).
Definition with_cache (c : Authorizer) (s : rstate) : rstate :=
  mkR (r_now s) (r_db s) c (r_gs s) (r_removed s).
Definition with_db (d : Db) (s : rstate) : rstate :=
  mkR (r_now s) d (r_cache s) (r_gs s) (r_removed s).

(** The cache lookup under [mu.RLock]. *)
Definition lookup_live (tenant user : UUID) (now : Time) (c : Authorizer) : option (list Role) :=
  entry ← c !! (tenant, user);
  if time_Before now (rc_expires entry) then Some (rc_roles entry) else None.

(** The cache store under [mu.Lock]. *)
Definition store_roles (tenant user : UUID) (roles : list Role) (now : Time) (c : Authorizer) : Authorizer :=
  <[(tenant, user) := mkRoleCacheEntry roles (now + cacheTTL)]> c.

(** A DELETE that meets a row notes the time. *)
Definition note_removed (tenant user : UUID) (role : Role) (s : rstate) : gmap (UUID * UUID * string) Time :=
  match db_late (r_db s) with
  | Some lt => if is_some (lt_user_roles lt !! (tenant, user, role))
               then <[(tenant, user, role) := r_now s]> (r_removed s) else r_removed s
  | None => r_removed s
  end.

(** ** Steps *)

Section Race.
Context `{RO : RowStream}.

(** [delay] bounds the time between the query of a [getRoles] and its store. *)
Context (delay : Duration).

Inductive rstep : rstate -> rstate -> Prop :=
| r_tick s now : r_now s <= now ->
    rstep s (mkR now (r_db s) (r_cache s) (r_gs s) (r_removed s))
| r_spawn s g p : r_gs s !! g = None ->
    match p with Lookup _ _ | Insert _ _ _ _ | Delete _ _ _ => True | _ => False end ->
    rstep s (at_point g p s)
| r_hit s g t u roles : r_gs s !! g = Some (Lookup t u) -> lookup_live t u (r_now s) (r_cache s) = Some roles ->
    rstep s (at_point g (Got t u roles (r_now s)) s)
| r_miss s g t u : r_gs s !! g = Some (Lookup t u) -> lookup_live t u (r_now s) (r_cache s) = None ->
    rstep s (at_point g (Query t u) s)
| r_query s g t u lt : r_gs s !! g = Some (Query t u) -> db_late (r_db s) = Some lt ->
    rstep s (at_point g (Store t u (rows_order (user_roles t u lt)) None (r_now s)) s)
| r_query_broken s g t u lt n e : r_gs s !! g = Some (Query t u) -> db_late (r_db s) = Some lt ->
    rstep s (at_point g (Store t u (take n (rows_order (user_roles t u lt))) (Some e) (r_now s)) s)
| r_query_fails s g t u : r_gs s !! g = Some (Query t u) -> rstep s (at_point g Finished s)
| r_store s g t u roles err readAt : r_gs s !! g = Some (Store t u roles err readAt) ->
    r_now s - readAt <= delay ->
    rstep s (at_point g (if err is None then Got t u roles (r_now s) else Finished)
              (with_cache (store_roles t u roles (r_now s) (r_cache s)) s))
| r_insert s g t u by_ role d' : r_gs s !! g = Some (Insert t u by_ role) ->
    insert_role t u by_ role (r_now s) (r_db s) = inr (tt, d') ->
    rstep s (at_point g (Evict t u) (with_db d' s))
| r_delete s g t u role d' : r_gs s !! g = Some (Delete t u role) ->
    delete_role t u role (r_now s) (r_db s) = inr (tt, d') ->
    rstep s (at_point g (Evict t u)
              (mkR (r_now s) d' (r_cache s) (r_gs s) (note_removed t u role s)))
| r_write_fails s g p : r_gs s !! g = Some p ->
    match p with Insert _ _ _ _ | Delete _ _ _ => True | _ => False end -> rstep s (at_point g Finished s)
| r_evict s g t u : r_gs s !! g = Some (Evict t u) ->
    rstep s (at_point g Finished (with_cache (delete (t, u) (r_cache s)) s)).

Definition start (now : Time) (d : Db) : rstate := mkR now d NewAuthorizer ∅ ∅.

(** ** Freshness *)

(** The row was in the table at some moment not before [since]. *)
Definition seen_since (since : Time) (t u : UUID) (role : Role) (s : rstate) : Prop :=
  (exists lt, db_late (r_db s) = Some lt /\ is_Some (lt_user_roles lt !! (t, u, role))) \/
  exists r, r_removed s !! (t, u, role) = Some r /\ since <= r.

(** A cache entry, and what a goroutine holds, were read not too long ago. *)
Definition good_entry (s : rstate) (t u : UUID) (e : roleCacheEntry) : Prop :=
  rc_expires e - cacheTTL <= r_now s /\
  forall role, role ∈ rc_roles e -> seen_since (rc_expires e - cacheTTL - delay) t u role s.

Definition good_point (s : rstate) (p : gpoint) : Prop :=
  match p with
  | Store t u roles _ at_ => at_ <= r_now s /\ forall role, role ∈ roles -> seen_since at_ t u role s
  | Got t u roles at_ =>
      at_ <= r_now s /\ forall role, role ∈ roles -> seen_since (at_ - cacheTTL - delay) t u role s
  | _ => True
  end.

Record fresh (s : rstate) : Prop := mkFresh {
  fr_removed : forall k r, r_removed s !! k = Some r -> r <= r_now s;
  fr_cache : forall t u e, r_cache s !! (t, u) = Some e -> good_entry s t u e;
  fr_points : forall g p, r_gs s !! g = Some p -> good_point s p
}.

(** What was seen stays seen. *)
Definition seen_kept (s s' : rstate) : Prop := forall since t u role,
  since <= r_now s -> seen_since since t u role s -> seen_since since t u role s'.

Lemma seen_weaken a b t u role s : a <= b -> seen_since b t u role s -> seen_since a t u role s.
Proof. intros ? [?|(r & ? & ?)]; [by left|right]. exists r. split; [done|lia]. Qed.

Lemma seen_kept_same s s' : r_db s' = r_db s -> r_removed s' = r_removed s -> seen_kept s s'.
Proof. intros Ed Er since t u role _. unfold seen_since. by rewrite Ed, Er. Qed.

Lemma cacheTTL_pos : 0 < cacheTTL.
Proof. reflexivity. Qed.

Context (delay_nonneg : 0 <= delay).

(** A step keeps the invariant when it forgets nothing and what it adds is good. *)
Lemma fresh_step s s' :
  fresh s -> r_now s <= r_now s' -> seen_kept s s' ->
  (forall k r, r_removed s' !! k = Some r -> r <= r_now s') ->
  (forall t u e, r_cache s' !! (t, u) = Some e -> r_cache s !! (t, u) = Some e \/ good_entry s' t u e) ->
  (forall g p, r_gs s' !! g = Some p -> r_gs s !! g = Some p \/ good_point s' p) -> fresh s'.
Proof.
  intros [_ Hc Hp] Hn Hk Hr' Hc' Hp'. pose proof cacheTTL_pos. split; [done|..].
  - intros t u e [[He Hs]%Hc|]%Hc'; [|done]. split; [lia|]. intros role Hin. apply Hk; [lia|by apply Hs].
  - intros g p [H1%Hp|]%Hp'; [|done]. destruct p; try done; destruct H1 as [Ha Hs]; (split; [lia|]);
      intros r Hin; (apply Hk; [lia|by apply Hs]).
Qed.

(** When the tables stay, only the moving goroutine and the cache are new. *)
Lemma fresh_move s g p c :
  fresh s -> (forall t u e, c !! (t, u) = Some e -> r_cache s !! (t, u) = Some e \/ good_entry s t u e) ->
  good_point s p -> fresh (at_point g p (with_cache c s)).
Proof.
  intros Hf Hc Hp. eapply fresh_step; [done|cbn; lia|by apply seen_kept_same|apply Hf|exact Hc|].
  intros g' p'. cbn. intros [[<- <-]|[_ ?]]%lookup_insert_Some; [by right|by left].
Qed.

Lemma fresh_point s g p : fresh s -> good_point s p -> fresh (at_point g p s).
Proof. intros Hf Hp. by apply (fresh_move s g p (r_cache s)); [|left|]. Qed.

Lemma rows_seen s t u lt roles :
  db_late (r_db s) = Some lt -> roles ⊆ rows_order (user_roles t u lt) ->
  good_point s (Store t u roles None (r_now s)).
Proof.
  intros Hl Hin. split; [cbn; lia|]. intros role Hr%Hin. left. exists lt. split; [done|].
  apply elem_of_user_roles. by rewrite (rows_order_perm (user_roles t u lt)) in Hr.
Qed.

Lemma lookup_live_good s t u roles :
  fresh s -> lookup_live t u (r_now s) (r_cache s) = Some roles -> good_point s (Got t u roles (r_now s)).
Proof.
  intros Hf. unfold lookup_live. destruct (r_cache s !! (t, u)) as [e|] eqn:He; [|done]. cbn.
  destruct (time_Before _ _) eqn:Eb; [|done]. intros [= <-]. unfold time_Before in Eb. apply Z.ltb_lt in Eb.
  destruct (fr_cache _ Hf _ _ _ He) as [_ Hs]. split; [cbn; lia|]. intros role Hr%Hs. eapply seen_weaken; [|done]. lia.
Qed.

Lemma insert_role_keeps t u by_ role now s d' :
  insert_role t u by_ role now (r_db s) = inr (tt, d') -> seen_kept s (with_db d' s).
Proof.
  unfold insert_role. intros Hi since t' u' role' _ [(lt & Hl & [x Hx])|?]; [left|by right]. rewrite Hl in Hi.
  destruct (lt_user_roles lt !! (t, u, role)) eqn:E; injection Hi as <-; [by eauto|].
  cbn. eexists. split; [done|]. cbn. rewrite lookup_insert_is_Some'. by eauto.
Qed.

Lemma note_removed_Some t u role s k r :
  note_removed t u role s !! k = Some r -> r = r_now s \/ r_removed s !! k = Some r.
Proof.
  unfold note_removed. destruct (db_late (r_db s)) as [lt|]; [|by right]. destruct (is_some _); [|by right].
  intros [[_ <-]|[_ ?]]%lookup_insert_Some; [by left|by right].
Qed.

Lemma delete_role_keeps t u role s d' :
  delete_role t u role (r_now s) (r_db s) = inr (tt, d') ->
  seen_kept s (mkR (r_now s) d' (r_cache s) (r_gs s) (note_removed t u role s)).
Proof.
  unfold delete_role. intros Hd since t' u' role' Hs Hseen. unfold seen_since, note_removed. cbn [r_db r_removed].
  destruct (db_late (r_db s)) as [lt|] eqn:Hl.
  2:{ destruct Hseen as [(lt & Hl' & _)|?]; [congruence|by right]. }
  destruct (decide ((t', u', role') = (t, u, role))) as [[= -> -> ->]|Hne].
  - right. destruct (lt_user_roles lt !! (t, u, role)) as [x|] eqn:Ex; cbn [is_some].
    + exists (r_now s). by rewrite lookup_insert_eq.
    + destruct Hseen as [(lt' & Hl' & [y Hy])|?]; [congruence|done].
  - destruct Hseen as [(lt' & Hl' & Hx)|(r & Hx & ?)].
    + left. rewrite Hl in Hl'. injection Hl' as <-. injection Hd as <-. eexists. split; [done|].
      cbn. by rewrite lookup_delete_ne.
    + right. exists r. split; [|done]. destruct (is_some _); [by rewrite lookup_insert_ne|done].
Qed.

Lemma rstep_fresh s s' : fresh s -> rstep s s' -> fresh s'.
Proof.
  intros Hf Hs. destruct Hs.
  - eapply fresh_step; [done|cbn; lia|by apply seen_kept_same| |by left|by left]. cbn. intros k r Hr.
    apply (fr_removed _ Hf) in Hr. lia.
  - by apply fresh_point; [|destruct p].
  - by apply fresh_point, lookup_live_good.
  - by apply fresh_point.
  - apply fresh_point; [done|]. by eapply rows_seen.
  - apply fresh_point; [done|]. eapply (rows_seen _ _ _ _ _ H0). apply subseteq_take.
  - by apply fresh_point.
  - destruct (fr_points _ Hf _ _ H) as [Ha Hr]. apply fresh_move; [done|..].
    + intros t' u' e. unfold store_roles. intros [[[= <- <-] <-]|[_ ?]]%lookup_insert_Some; [right|by left].
      split; cbn; [lia|]. intros role Hin%Hr. eapply seen_weaken; [|done]. lia.
    + destruct err; [done|]. split; [cbn; lia|]. intros role Hin%Hr. eapply seen_weaken; [|done].
      pose proof cacheTTL_pos. lia.
  - eapply insert_role_keeps in H0. apply fresh_point; [|done]. eapply fresh_step; [done|cbn; lia|done|apply Hf|by left|by left].
  - eapply delete_role_keeps in H0 as Hk. apply fresh_point; [|done].
    eapply fresh_step; [done|cbn; lia|done| |by left|by left]. cbn.
    intros k r [-> |Hr]%note_removed_Some; [lia|by eapply fr_removed in Hr].
  - by apply fresh_point.
  - apply fresh_move; [done| |done]. intros t' u' e [_ He]%lookup_delete_Some. by left.
Qed.

Lemma reachable_fresh now d s : rtc rstep (start now d) s -> fresh s.
Proof.
  assert (H0 : fresh (start now d)) by (unfold start, NewAuthorizer; split; cbn; intros *; by rewrite lookup_empty).
  revert H0. generalize (start now d) as s0. intros s0 H0 Hr.
  induction Hr as [|s1 s2 s3 H12 _ IH]; [done|]. apply IH. by eapply rstep_fresh.
Qed.

(** C20.  However the goroutines interleave, a role that [getRoles] returns was
    in the table at some moment of the last thirty seconds and the time a query and
    its store may be apart: a removed role stops working after that long at the
    latest. *)
Theorem stale_role_bounded now d s g t u roles at_ role :
  rtc rstep (start now d) s -> r_gs s !! g = Some (Got t u roles at_) -> role ∈ roles ->
  seen_since (at_ - cacheTTL - delay) t u role s.
Proof. intros Hs%reachable_fresh Hg Hr. by apply (fr_points _ Hs _ _ Hg). Qed.

(** *** Agreement with the sequential model *)

(** What a completed [getRoles] leaves of its goroutine. *)
Definition returned (t u : UUID) (r : outcome (list Role)) (p : gpoint) : Prop :=
  match r with Ok roles => exists at_, p = Got t u roles at_ | _ => p = Finished end.

Lemma tick s now : r_now s <= now -> rtc rstep s (mkR now (r_db s) (r_cache s) (r_gs s) (r_removed s)).
Proof. intros. by apply rtc_once, r_tick. Qed.

Lemma bindM_Ok {A B} (m : M A) (f : A -> M B) env w a w' : m env w = (Ok a, w') -> (m ≫= f) env w = f a env w'.
Proof. unfold mbind, M_bind. by intros ->. Qed.

(** The query and the store. *)
Lemma query_run env w s g t u r a' w' :
  let now := env_now env (w_clock w) in
  r_gs s !! g = Some (Query t u) -> w_db w = r_db s -> r_now s <= now -> now - r_now s <= delay ->
  (r ← try (query_roles t u);
   match r with
   | Ok (roles, rowsErr) =>
       now ← time_Now;
       let a' := <[(t, u) := mkRoleCacheEntry roles (now + cacheTTL)]> (r_cache s) in
       mret (match rowsErr with None => Ok roles | Some e => Err e end, a')
   | Err e => mret (Err (Wrapf "auth: query roles: %w" [] e), r_cache s)
   | Panic => lift Panic
   end) env w = (Ok (r, a'), w') ->
  exists s' p, rtc rstep s s' /\ r_cache s' = a' /\ r_db s' = r_db s /\ r_gs s' !! g = Some p /\ returned t u r p.
Proof.
  intros now Hg Hd Hn Hdl. unfold mbind, M_bind, try, query_roles. rewrite Hd.
  assert (Hfail : forall e, exists s' p, rtc rstep s s' /\ r_cache s' = r_cache s /\ r_db s' = r_db s /\
    r_gs s' !! g = Some p /\ returned t u (Err e) p).
  { intros e. exists (at_point g Finished s), Finished. cbn. rewrite lookup_insert_eq.
    split_and!; [by eapply rtc_once, r_query_fails|done..]. }
  assert (Hstore : forall roles err, rstep s (at_point g (Store t u roles err (r_now s)) s) ->
    exists s' p, rtc rstep s s' /\ r_cache s' = store_roles t u roles now (r_cache s) /\ r_db s' = r_db s /\
    r_gs s' !! g = Some p /\ returned t u (match err with None => Ok roles | Some e => Err e end) p).
  { intros roles err H1. do 2 eexists. split.
    { eapply rtc_l; [exact H1|]. etrans; [by apply tick|].
      eapply rtc_once, r_store; cbn; [by rewrite lookup_insert_eq|done]. }
    cbn. rewrite lookup_insert_eq. split_and!; [done..|]. destruct err; cbn; eauto. }
  destruct (env_fault env (w_stmt w)), (db_late (r_db s)) as [lt|] eqn:El; cbn; intros [= <- <- <-]; try apply Hfail.
  - by apply (Hstore _ None); eapply r_query.
  - by apply (Hstore _ (Some ErrServer)); eapply r_query_broken.
Qed.

(** A run of [getRoles] that nobody interrupts is one of these executions:
    whatever the sequential model returns and caches, the goroutines do too. *)
Lemma getRoles_runs env s g t u r a' d' :
  r_gs s !! g = Some (Lookup t u) -> r_now s <= env_now env 0 -> env_now env 0 <= env_now env 1 ->
  env_now env 1 - r_now s <= delay ->
  run (getRoles (r_cache s) u t) env (r_db s) = (Ok (r, a'), d') ->
  d' = r_db s /\
  exists s' p, rtc rstep s s' /\ r_cache s' = a' /\ r_db s' = r_db s /\ r_gs s' !! g = Some p /\ returned t u r p.
Proof.
  intros Hg H0 H1 Hdl Hrun.
  assert (Hd : (run (getRoles (r_cache s) u t) env (r_db s)).2 = r_db s).
  { wp_start. apply wp_getRoles. intros r0 a0 w0 [E _] _. exact E. }
  rewrite Hrun in Hd. cbn in Hd. split; [done|]. subst d'.
  unfold run in Hrun. destruct (getRoles (r_cache s) u t env (new_world (r_db s))) as [o w] eqn:E.
  injection Hrun as -> _. unfold getRoles in E. revert E.
  set (s1 := mkR (env_now env 0) (r_db s) (r_cache s) (r_gs s) (r_removed s)).
  assert (Hs1 : rtc rstep s s1) by (by apply tick).
  destruct (r_cache s !! (t, u)) as [e|] eqn:He.
  - destruct (time_Before (env_now env 0) (rc_expires e)) eqn:Eb.
    + unfold mbind, M_bind, time_Now. cbn. rewrite Eb. cbn. intros [= <- <- <-]. do 2 eexists. split.
      { etrans; [exact Hs1|]. eapply rtc_once, r_hit; [exact Hg|]. cbn. unfold lookup_live. rewrite He. cbn. by rewrite Eb. }
      cbn. rewrite lookup_insert_eq. split_and!; [done..|]. cbn. eauto.
    + intros E. assert (Hm : rstep s1 (at_point g (Query t u) s1)).
      { eapply r_miss; [exact Hg|]. cbn. unfold lookup_live. rewrite He. cbn. by rewrite Eb. }
      assert (Hq : rtc rstep s (at_point g (Query t u) s1)) by (etrans; [exact Hs1|by apply rtc_once]).
      edestruct (query_run env (mkWorld (r_db s) None 0 1 0 0) (at_point g (Query t u) s1) g t u r a' w)
        as (s' & p & Hr & ?); cbn; [by rewrite lookup_insert_eq|done|done|lia| |exists s', p; by split; [etrans|]].
      rewrite (bindM_Ok _ _ _ _ None (mkWorld (r_db s) None 0 1 0 0)) in E; [exact E|].
      unfold mbind, M_bind, time_Now, new_world. cbn [w_clock w_db w_tx w_stmt w_ids w_rand]. by rewrite Eb.
  - intros E. assert (Hm : rstep s (at_point g (Query t u) s)).
    { eapply r_miss; [exact Hg|]. unfold lookup_live. by rewrite He. }
    edestruct (query_run env (new_world (r_db s)) (at_point g (Query t u) s) g t u r a' w)
      as (s' & p & Hr & ?); cbn; [by rewrite lookup_insert_eq|done|done|lia| |exists s', p; split; [by eapply rtc_l|done]].
    exact E.
Qed.

(** *** Removal does not take effect at once *)

(** The goroutines of the race: 0 reads, 1 removes, 2 asks later. *)
Lemma race_removes now d lt t u role :
  db_late d = Some lt -> is_Some (lt_user_roles lt !! (t, u, role)) ->
  let roles := rows_order (user_roles t u lt) in
  let lt' := set_user_roles (delete (t, u, role) (lt_user_roles lt)) lt in
  exists s, rtc rstep (start now d) s /\ r_now s = now /\ r_db s = set_late (Some lt') d /\
    r_gs s = {[0%nat := Store t u roles None now; 1%nat := Finished]} /\ r_cache s = ∅ /\
    r_removed s !! (t, u, role) = Some now.
Proof.
  intros Hl [x Hx] roles lt'. eexists. split.
  { eapply rtc_l; [by apply (r_spawn _ 0 (Lookup t u))|].
    eapply rtc_l; [eapply (r_miss _ 0); [by apply lookup_insert_eq|done]|].
    eapply rtc_l; [eapply (r_query _ 0); [by apply lookup_insert_eq|exact Hl]|].
    eapply rtc_l; [by apply (r_spawn _ 1 (Delete t u role))|].
    eapply rtc_l; [eapply (r_delete _ 1); [by apply lookup_insert_eq|cbn; unfold delete_role; by rewrite Hl]|].
    eapply rtc_once, (r_evict _ 1); by apply lookup_insert_eq. }
  cbn. split_and!; try done. unfold note_removed. cbn. rewrite Hl. cbn. rewrite Hx. cbn. apply lookup_insert_eq.
Qed.

(** Removing a role does not take it away at once, as the sequential
    model suggests: when another goroutine had read the rows before, it stores them
    after the removal dropped the cache entry.  A check that starts after
    [RemoveRole] returned finds the removed role almost thirty seconds later. *)
Theorem removed_role_survives now d lt t u role :
  db_late d = Some lt -> is_Some (lt_user_roles lt !! (t, u, role)) ->
  exists s1 s2,
    rtc rstep (start now d) s1 /\ r_gs s1 !! 1%nat = Some Finished /\ r_gs s1 !! 2%nat = None /\
    r_removed s1 !! (t, u, role) = Some now /\
    (forall lt', db_late (r_db s1) = Some lt' -> lt_user_roles lt' !! (t, u, role) = None) /\
    rtc rstep s1 s2 /\ r_db s2 = r_db s1 /\
    exists roles, r_gs s2 !! 2%nat = Some (Got t u roles (now + cacheTTL - 1)) /\ role ∈ roles.
Proof.
  intros Hl Hin. destruct (race_removes now d lt t u role Hl Hin) as (s & Hs & Hn & Hd & Hg & Hc & Hr).
  set (roles := rows_order (user_roles t u lt)) in *. exists s. eexists.
  split; [exact Hs|]. rewrite Hg, Hd. split; [done|]. split; [done|]. split; [exact Hr|].
  split; [by intros lt' [= <-]; apply lookup_delete_eq|]. split.
  { eapply rtc_l; [eapply (r_store _ 0 t u roles None now); [by rewrite Hg|rewrite Hn; lia]|].
    eapply rtc_l; [apply (r_spawn _ 2 (Lookup t u)); [cbn; by rewrite Hg|done]|].
    eapply rtc_l; [apply (r_tick _ (now + cacheTTL - 1)); cbn; rewrite Hn; pose proof cacheTTL_pos; lia|].
    eapply rtc_once, (r_hit _ 2); [by apply lookup_insert_eq|]. cbn. unfold lookup_live, store_roles.
    rewrite lookup_insert_eq. cbn. unfold time_Before. rewrite Hn.
    replace (now + cacheTTL - 1 <? now + cacheTTL) with true by (symmetry; apply Z.ltb_lt; lia). done. }
  split; [by rewrite <- Hd|]. exists roles. cbn. rewrite lookup_insert_eq. split; [done|].
  unfold roles. rewrite (rows_order_perm (user_roles t u lt)). by apply elem_of_user_roles.
Qed.

End Race.

(** ** Witnesses *)

#[local] Instance ordered_rows : RowStream := {|
  rows_order l := l; rows_order_perm l := reflexivity l; rows_arrived _ := 1%nat
|}.

(** The auditor's role is removed while it is being read. *)
Lemma stale_role_bounded_witness :
  exists s, rtc (rstep Second) (start 0 auditors_db) s /\
    seen_since (cacheTTL - 1 - cacheTTL - Second) tenant1 user2 RoleAuditor s.
Proof.
  destruct (removed_role_survives Second ltac:(done) 0 auditors_db _ tenant1 user2 RoleAuditor eq_refl
    ltac:(eexists; reflexivity)) as (s1 & s2 & H1 & _ & _ & _ & _ & H2 & _ & roles & Hg & Hr).
  exists s2. assert (H : rtc (rstep Second) (start 0 auditors_db) s2) by (etransitivity; eassumption).
  split; [exact H|]. apply (stale_role_bounded Second ltac:(done) 0 auditors_db s2 2 tenant1 user2 roles
    (0 + cacheTTL - 1) RoleAuditor H Hg Hr).
Defined.
