(* ===== verification/Policy.v ===== *)
(** * Policy: the policy engine

    [service/internal/policy/engine.go]: the rule language, evaluation of an
    access attempt against the active bundle, coverage analysis, and publication.
    [sort.Slice] is not stable, so evaluation is defined over any sorting function
    that meets its documentation ([SortSlice]). *)

From stdpp Require Import base gmap strings list fin_maps sorting pretty.
From Stdlib Require Import ZArith Lia Strings.Byte.
From S2P Require Import Prelude Identity Cose Envelope Database Schema Messaging.

Open Scope Z_scope.
Open Scope go_scope.

(** ** Documents *)

Record SubjectSelector : Type := mkSubjectSelector {
  ss_Users : list string;
  ss_Groups : list string;
  ss_DeviceTags : list string;
  ss_PrincipalKinds : list PrincipalKind
}.

Record ResourceSelector : Type := mkResourceSelector {
  rsel_ResourceIDs : list string;
  rsel_Tags : list string;
  rsel_Services : list string;
  rsel_Ports : list Z;
  rsel_DeploymentModes : list DeploymentMode;
  rsel_Sensitivity : list Sensitivity
}.

Record PolicyRule : Type := mkPolicyRule {
  rl_ID : string;
  rl_Priority : Z;
  rl_Effect : EnforcementDecision;
  rl_Description : string;
  rl_Subjects : list SubjectSelector;
  rl_Resources : list ResourceSelector;
  rl_Protocols : list string;
  rl_AllowedScopes : list Scope;
  rl_RequireOnlineCheck : bool;
  rl_MaxDurationSeconds : option Z;
  rl_VerificationFrequency : string
}.

Record PolicyDocument : Type := mkPolicyDocument {
  pd_Version : Z;
  pd_Rules : list PolicyRule;
  pd_InventorySnapshotID : string
}.

(** Formatted texts are kept, like errors, as a format and its arguments. *)
Record EvaluateResult : Type := mkEvaluateResult {
  er_Decision : EnforcementDecision;
  er_MatchedRuleID : string;
  er_Scope : Scope;
  er_Explanation : error;
  er_RequireStepUp : bool;
  er_PolicyVersion : Z;
  er_AuthzEpoch : Z
}.

Record PolicyBundle : Type := mkPolicyBundle {
  pb_TenantID : UUID;
  pb_Version : Z;
  pb_Epoch : Z;
  pb_Document : bytes;
  pb_PrevHash : option bytes;
  pb_Signature : bytes;
  pb_Kid : string;
  pb_NotBefore : Time;
  pb_ExpiresAt : Time;
  pb_MinDaemonVersion : string;
  pb_IssuedBy : option UUID
}.

(** [encoding/json] on policy documents. *)
Class PolicyJson : Type := {
  doc_Marshal : PolicyDocument -> outcome bytes;
  doc_Unmarshal : bytes -> outcome PolicyDocument
}.

(** [sort.Slice] with [rules[i].Priority > rules[j].Priority]: some permutation
    of the rules in which the priorities do not increase. *)
Definition prio_ge (a b : PolicyRule) : Prop := rl_Priority b <= rl_Priority a.
#[export] Instance prio_ge_dec : RelDecision prio_ge := fun a b => decide (rl_Priority b <= rl_Priority a).
#[export] Instance prio_ge_total : Total prio_ge.
Proof. intros a b. unfold prio_ge. lia. Qed.
#[export] Instance prio_ge_trans : Transitive prio_ge.
Proof. intros a b c. unfold prio_ge. lia. Qed.

Class SortSlice : Type := {
  sort_rules : list PolicyRule -> list PolicyRule;
  sort_rules_perm : forall l, sort_rules l ≡ₚ l;
  sort_rules_sorted : forall l, StronglySorted prio_ge (sort_rules l)
}.

(** ** Matching *)

Definition contains {A} `{EqDecision A} (x : A) (l : list A) : bool := existsb (fun y => y == x) l.

(** [len(l) == 0] and [len(l) > 0] *)
Definition is_empty {A} (l : list A) : bool := match l with [] => true | _ => false end.
Definition non_empty {A} (l : list A) : bool := negb (is_empty l).

(** [Engine.subjectMatches] *)
Definition subjectMatches (sel : SubjectSelector) (principal : Principal) : bool :=
  if non_empty (ss_PrincipalKinds sel) && negb (contains (pr_Kind principal) (ss_PrincipalKinds sel))
  then false else
  match non_empty (ss_Users sel), pr_User principal with
  | true, Some u => contains (oidc_UserID u) (ss_Users sel)
  | _, _ =>
      if is_empty (ss_Users sel) && is_empty (ss_Groups sel) && is_empty (ss_DeviceTags sel) &&
         is_empty (ss_PrincipalKinds sel) then true
      else non_empty (ss_PrincipalKinds sel)
  end.

(** [Engine.resourceMatches]: the first kind of selector present decides alone. *)
Definition resourceMatches (sel : ResourceSelector) (resource : ResourceID) : bool :=
  if non_empty (rsel_ResourceIDs sel)
  then existsb (fun rid => (rid == res_ServiceID resource) || (rid == res_ProtectedNodeID resource))
         (rsel_ResourceIDs sel) else
  if non_empty (rsel_Ports sel) then contains (res_Port resource) (rsel_Ports sel) else
  if non_empty (rsel_Services sel)
  then contains (res_ServiceID resource) (rsel_Services sel) else
  if non_empty (rsel_DeploymentModes sel)
  then contains (res_DeploymentMode resource) (rsel_DeploymentModes sel) else
  is_empty (rsel_ResourceIDs sel) && is_empty (rsel_Ports sel) &&
  is_empty (rsel_Services sel) && is_empty (rsel_DeploymentModes sel).

(** An access attempt: the arguments every matching function passes on. *)
Record Access : Type := mkAccess {
  ac_Principal : Principal;
  ac_Resource : ResourceID;
  ac_Protocol : string;
  ac_Scope : Scope
}.

(** [Engine.ruleMatches] *)
Definition ruleMatches (rule : PolicyRule) (a : Access) : bool :=
  if non_empty (rl_Subjects rule) &&
     negb (existsb (fun sel => subjectMatches sel (ac_Principal a)) (rl_Subjects rule)) then false else
  if non_empty (rl_Resources rule) &&
     negb (existsb (fun sel => resourceMatches sel (ac_Resource a)) (rl_Resources rule)) then false else
  if non_empty (rl_Protocols rule) &&
     negb (contains (ac_Protocol a) (rl_Protocols rule)) then false else
  if non_empty (rl_AllowedScopes rule) &&
     negb (contains (ac_Scope a) (rl_AllowedScopes rule)) then false else
  true.

(** [Engine.hasConflictingTie] *)
Fixpoint hasConflictingTie (rules : list PolicyRule) (matched : PolicyRule) (a : Access) : bool :=
  match rules with
  | [] => false
  | r :: rest =>
      if rl_ID r == rl_ID matched then hasConflictingTie rest matched a else
      if rl_Priority r != rl_Priority matched then hasConflictingTie rest matched a else
      if (rl_Effect r != rl_Effect matched) && ruleMatches r a then true
      else hasConflictingTie rest matched a
  end.

Definition deny (why : error) : EvaluateResult := mkEvaluateResult DecisionEnforceDeny "" "" why false 0 0.

(** The loop of [Evaluate] over the sorted rules. *)
Fixpoint eval_rules (rules rest : list PolicyRule) (b : PolicyBundle) (a : Access) : EvaluateResult :=
  match rest with
  | [] => deny (Errorf "No matching policy rule — default deny for protected resources" [])
  | rule :: rest' =>
      if ruleMatches rule a then
        if hasConflictingTie rules rule a
        then deny (Errorf "Ambiguous policy: conflicting rules at priority %d" [AInt (rl_Priority rule)])
        else mkEvaluateResult (rl_Effect rule) (rl_ID rule) (ac_Scope a)
               (Errorf "Rule %q matched: %s" [AStr (rl_ID rule); AStr (rl_Description rule)])
               (rl_Effect rule == DecisionRequireStepUp) (pb_Version b) (pb_Epoch b)
      else eval_rules rules rest' b a
  end.

(** ** Coverage *)

Record CoverageGap : Type := mkCoverageGap {
  cg_ResourceID : UUID;
  cg_ServiceID : string;
  cg_Port : Z;
  cg_Protocol : string;
  cg_Reason : error
}.
Record CoverageResult : Type := mkCoverageResult {
  cr_Passed : bool;
  cr_Uncovered : list CoverageGap;
  cr_Warnings : list string
}.

(** [Engine.coverageRuleMatches] *)
Definition coverageRuleMatches (rule : PolicyRule) (serviceID : string) (port : Z)
    (protocol mode : string) : bool :=
  if negb (is_empty (rl_Protocols rule) || contains protocol (rl_Protocols rule)) then false else
  if is_empty (rl_Resources rule) then true else
  existsb (fun sel => contains serviceID (rsel_Services sel) || contains port (rsel_Ports sel))
    (rl_Resources rule).

(** The protocols that have to be covered on a resource. *)
Definition coverage_protocols (mode : string) : list string :=
  ["TCP"] ++ (if mode == "HTTP_PROXY" then ["HTTP"; "HTTPS"] else []) ++
  (if (mode == "TS_SSH") || (mode == "OPENSSH") then ["SSH"] else []).

(** The two inner loops: the gaps of one resource. *)
Definition resource_gaps (doc : PolicyDocument) (id : UUID) (r : resource_row) : list CoverageGap :=
  omap (fun protocol =>
    if existsb (fun rule => coverageRuleMatches rule (r_service_id r) (r_port r) protocol
                              (r_deployment_mode r)) (pd_Rules doc)
    then None
    else Some (mkCoverageGap id (r_service_id r) (r_port r) protocol
           (Errorf "No rule covers %s/%s:%d/%s"
              [AStr (r_deployment_mode r); AStr (r_service_id r); AInt (r_port r); AStr protocol])))
    (coverage_protocols (r_deployment_mode r)).

Definition tenant_resources (tenant : UUID) (d : Db) : list (UUID * resource_row) :=
  filter (fun x => r_tenant x.2 = tenant) (map_to_list (db_resources d)).

Section Engine.
Context `{UT : UuidText} `{GC : GoCrypto} `{PG : Postgres} `{PJ : PolicyJson} `{SS : SortSlice}.

(** [Engine.isResourceProtected] *)
Definition resource_registered (tenant node : UUID) (resource : ResourceID) (d : Db) : bool :=
  existsb (fun x => (r_protected_node_id x.2 == node) && (r_service_id x.2 == res_ServiceID resource) &&
                    (r_port x.2 == res_Port resource)) (tenant_resources tenant d).
Definition isResourceProtected (tenant : UUID) (resource : ResourceID) : M bool :=
  node ← lift (uuid_MustParse (res_ProtectedNodeID resource));
  db_query (fun now d => Some (resource_registered tenant node resource d)).

(** [Engine.loadActiveBundle]: the row with the highest version among those
    that have not expired by the server's clock. *)
Fixpoint newest (l : list (Z * policy_row)) : option (Z * policy_row) :=
  match l with
  | [] => None
  | x :: rest =>
      match newest rest with
      | None => Some x
      | Some y => if y.1 <? x.1 then Some x else Some y
      end
  end.
Definition policy_rows (tenant : UUID) (d : Db) : list (Z * policy_row) :=
  omap (fun '((t, v), p) => if t == tenant then Some (v, p) else None) (map_to_list (db_policies d)).
Definition bundle_of (tenant : UUID) (x : Z * policy_row) : PolicyBundle :=
  mkPolicyBundle tenant x.1 (p_epoch x.2) (p_document x.2) (Some (p_prev_hash x.2)) (p_signature x.2)
    (p_kid x.2) (p_not_before x.2) (p_expires_at x.2) (p_min_daemon_version x.2) (p_issued_by x.2).
Definition active_bundle (tenant : UUID) (now : Time) (d : Db) : option PolicyBundle :=
  bundle_of tenant <$> newest (filter (fun x => now < p_expires_at x.2) (policy_rows tenant d)).
Definition loadActiveBundle (tenant : UUID) : M PolicyBundle :=
  mwrap "load bundle: %w" [] (db_query (active_bundle tenant)).

(** [Engine.Evaluate] *)
Definition Evaluate (tenant : UUID) (a : Access) : M EvaluateResult :=
  isProtected ← mwrap "policy: check protected: %w" [] (isResourceProtected tenant (ac_Resource a));
  if negb isProtected
  then mret (mkEvaluateResult DecisionNotProtected "" ""
               (Errorf "Resource is not registered as protected" []) false 0 0) else
  bundle ← try (loadActiveBundle tenant);
  match bundle with
  | Ok b =>
      now ← time_Now;
      if pb_ExpiresAt b <? now
      then mret (deny (Errorf "Policy bundle expired — failing closed" [])) else
      doc ← try (lift (doc_Unmarshal (pb_Document b)));
      match doc with
      | Ok doc =>
          let rules := sort_rules (pd_Rules doc) in
          mret (eval_rules rules rules b a)
      | Err e => mret (deny (Wrapf "Policy document parse error: %v" [] e))
      | Panic => lift Panic
      end
  | Err e => mret (deny (Wrapf "Policy unavailable or expired: %v" [] e))
  | Panic => lift Panic
  end.

(** [Engine.CheckCoverage] *)
Definition CheckCoverage (tenant : UUID) (doc : PolicyDocument) : M CoverageResult :=
  rows ← mwrap "coverage: query resources: %w" []
    (db_query (fun now d => Some (tenant_resources tenant d)));
  let gaps := concat (map (fun x => resource_gaps doc x.1 x.2) rows) in
  mret (mkCoverageResult (is_empty gaps) gaps []).

(** ** Publication *)

Record PublishPolicyInput : Type := mkPublishInput {
  ppi_TenantID : UUID;
  ppi_Document : PolicyDocument;
  ppi_DryRun : bool;
  ppi_IssuedBy : UUID
}.

Record PublishPolicyResult : Type := mkPublishResult {
  ppr_Version : Z;
  ppr_Epoch : Z;
  ppr_Bundle : option PolicyBundle;
  ppr_Coverage : CoverageResult;
  ppr_Warnings : list string;
  ppr_Published : bool
}.

(** [int64ToBytes] *)
Definition int64ToBytes (i : Z) : bytes :=
  [byte_of_Z (Z.shiftr i 56); byte_of_Z (Z.shiftr i 48); byte_of_Z (Z.shiftr i 40); byte_of_Z (Z.shiftr i 32);
   byte_of_Z (Z.shiftr i 24); byte_of_Z (Z.shiftr i 16); byte_of_Z (Z.shiftr i 8); byte_of_Z i].

(** [buildBundleForSigning] *)
Definition buildBundleForSigning (b : PolicyBundle) : bytes :=
  sha256 (str_bytes (uuid_String (pb_TenantID b)) ++ int64ToBytes (pb_Version b) ++
          int64ToBytes (pb_Epoch b) ++ pb_Document b ++ default [] (pb_PrevHash b)).

Definition current_versions (tenant : UUID) (d : Db) : Z * Z :=
  (coalesce 0 (sql_max (map fst (policy_rows tenant d))),
   coalesce 0 (sql_max (map (fun x => p_epoch x.2) (policy_rows tenant d)))).

Definition insert_policy (b : PolicyBundle) : stmt unit := fun now d =>
  match jsonb_in (pb_Document b), bytea_arg (pb_PrevHash b) with
  | None, _ => inl (Errorf "invalid input syntax for type json" [])
  | _, inl e => inl e
  | Some document, inr prevHash =>
      if is_some (db_policies d !! (pb_TenantID b, pb_Version b)) then inr (tt, d) else
      if negb (bool_decide (pb_TenantID b ∈ db_tenants d) &&
               match pb_IssuedBy b with Some u => is_some (db_users d !! u) | None => true end)
      then inl (Errorf "policies violates foreign key constraint" []) else
      inr (tt, set_policies (<[(pb_TenantID b, pb_Version b) :=
        mkPolicy (pb_Epoch b) document prevHash (pb_Signature b) (pb_Kid b)
          (timestamptz_in (pb_NotBefore b)) (timestamptz_in (pb_ExpiresAt b))
          (pb_MinDaemonVersion b) (pb_IssuedBy b)]> (db_policies d)) d)
  end.

(** The second half of [PublishPolicy]: build, sign and insert the bundle. *)
Definition publish_bundle (input : PublishPolicyInput) (signer : bytes -> outcome (bytes * string))
    (coverage : CoverageResult) (currentVersion currentEpoch : Z) (prevHash : option bytes)
    : M PublishPolicyResult :=
  let newVersion := wrap64 (currentVersion + 1) in
  let newEpoch := wrap64 (currentEpoch + 1) in
  docBytes ← lift (wrap "policy: marshal document: %w" [] (doc_Marshal (ppi_Document input)));
  now ← time_Now;
  let bundle sig kid := mkPolicyBundle (ppi_TenantID input) newVersion newEpoch docBytes prevHash sig kid
    now (now + 5 * 60 * Second) "2.1.0" (Some (ppi_IssuedBy input)) in
  '(sig, kid) ← lift (wrap "policy: sign bundle: %w" [] (signer (buildBundleForSigning (bundle [] ""))));
  mwrap "policy: insert bundle: %w" [] (db_exec (insert_policy (bundle sig kid))) ;;
  mret (mkPublishResult newVersion newEpoch (Some (bundle sig kid)) coverage [] true).

(** [Engine.PublishPolicy] *)
Definition PublishPolicy (input : PublishPolicyInput) (signer : bytes -> outcome (bytes * string))
    : M PublishPolicyResult :=
  let tenant := ppi_TenantID input in
  coverage ← mwrap "policy: coverage check: %w" [] (CheckCoverage tenant (ppi_Document input));
  if negb (cr_Passed coverage) && negb (ppi_DryRun input)
  then mret (mkPublishResult 0 0 None coverage ["Coverage gaps detected — policy rejected"] false) else
  if ppi_DryRun input then mret (mkPublishResult 0 0 None coverage [] (cr_Passed coverage)) else
  '(currentVersion, currentEpoch) ← mwrap "policy: get current version: %w" []
    (db_query (fun now d => Some (current_versions tenant d)));
  prevHash ← (if 0 <? currentVersion then
                ph ← try (db_query (fun now d =>
                       (fun p => sha256 (p_document p)) <$> db_policies d !! (tenant, currentVersion)));
                match ph with Ok h => mret (Some h) | Err _ => mret None | Panic => lift Panic end
              else mret (Some (replicate 32 x00)));
  publish_bundle input signer coverage currentVersion currentEpoch prevHash.

End Engine.
