(* ===== verification/PolicyProps.v ===== *)
(** * PolicyProps: the decision lattice

    A specification of evaluation by relations, without sorting or search
    ([rule_applies], [decides], [in_force]), the proof that the engine implements it
    for every sorting function, that it fails closed, what coverage and publication guarantee, and
    where rule selection departs from the documented semantics. *)

From stdpp Require Import base gmap strings list fin_maps sorting pretty.
From Stdlib Require Import ZArith Lia Strings.Byte.
From S2P Require Import Prelude Identity Cose Envelope Reference Database Schema Messaging Sample Policy.

Open Scope Z_scope.
Open Scope go_scope.

(** ** The specification *)

(** When a selector of subjects admits a principal: its kinds, if any, name the
    principal's; and its users, if any, name the principal's user.  A principal
    without a user is admitted by a selector with users when the kinds name it.
    Groups and device tags are read only to find out that the selector is not
    empty. *)
Definition subject_admits (sel : SubjectSelector) (p : Principal) : Prop :=
  (ss_PrincipalKinds sel = [] \/ pr_Kind p ∈ ss_PrincipalKinds sel) /\
  ((exists u, pr_User p = Some u /\ oidc_UserID u ∈ ss_Users sel) \/
   ((ss_Users sel = [] \/ pr_User p = None) /\
    (ss_PrincipalKinds sel <> [] \/ (ss_Users sel = [] /\ ss_Groups sel = [] /\ ss_DeviceTags sel = [])))).

(** When a selector of resources names a resource: ids come before ports, ports
    before services, services before deployment modes; only the first list that is
    not empty counts. *)
Definition selector_names (sel : ResourceSelector) (r : ResourceID) : Prop :=
  (res_ServiceID r ∈ rsel_ResourceIDs sel \/ res_ProtectedNodeID r ∈ rsel_ResourceIDs sel) \/
  (rsel_ResourceIDs sel = [] /\
   (res_Port r ∈ rsel_Ports sel \/
    (rsel_Ports sel = [] /\
     (res_ServiceID r ∈ rsel_Services sel \/
      (rsel_Services sel = [] /\
       (rsel_DeploymentModes sel = [] \/ res_DeploymentMode r ∈ rsel_DeploymentModes sel)))))).

(** A rule applies to an attempt when each of its four lists is empty or admits
    it. *)
Definition rule_applies (rule : PolicyRule) (a : Access) : Prop :=
  (rl_Subjects rule = [] \/ exists sel, sel ∈ rl_Subjects rule /\ subject_admits sel (ac_Principal a)) /\
  (rl_Resources rule = [] \/ exists sel, sel ∈ rl_Resources rule /\ selector_names sel (ac_Resource a)) /\
  (rl_Protocols rule = [] \/ ac_Protocol a ∈ rl_Protocols rule) /\
  (rl_AllowedScopes rule = [] \/ ac_Scope a ∈ rl_AllowedScopes rule).

(** The rules that apply at the highest priority of all that apply. *)
Definition top_rule (rules : list PolicyRule) (a : Access) (r : PolicyRule) : Prop :=
  r ∈ rules /\ rule_applies r a /\
  forall r', r' ∈ rules -> rule_applies r' a -> rl_Priority r' <= rl_Priority r.

(** The decision lattice: default deny; the top rules decide when they agree;
    disagreement among them is a denial. *)
Inductive decides (rules : list PolicyRule) (a : Access) : EnforcementDecision -> Prop :=
| decides_default :
    (forall r, r ∈ rules -> ~ rule_applies r a) -> decides rules a DecisionEnforceDeny
| decides_agreed r :
    top_rule rules a r -> (forall r', top_rule rules a r' -> rl_Effect r' = rl_Effect r) ->
    decides rules a (rl_Effect r)
| decides_conflict r r' :
    top_rule rules a r -> top_rule rules a r' -> rl_Effect r' <> rl_Effect r ->
    decides rules a DecisionEnforceDeny.

(** The specification is a function. *)
Lemma decides_functional rules a x y : decides rules a x -> decides rules a y -> x = y.
Proof.
  intros [Hd|r Hr Ha|r r' Hr Hr' Hne] [Hd2|q Hq Hb|q q' Hq Hq' Hne2]; try done.
  - destruct Hq as (Hq & Hqa & _). by destruct (Hd q Hq).
  - destruct Hr as (Hr & Hra & _). by destruct (Hd2 r Hr).
  - by rewrite (Ha q Hq).
  - destruct Hne2. by rewrite (Ha q' Hq'), (Ha q Hq).
  - destruct Hne. by rewrite (Hb r' Hr'), (Hb r Hr).
Qed.


(** ** Matching implements the selectors *)

Lemma contains_true {A} `{EqDecision A} (x : A) l : contains x l = true <-> x ∈ l.
Proof.
  unfold contains. rewrite existsb_exists. setoid_rewrite <- list_elem_of_In. split.
  - intros (y & Hy & E). go_bool. by subst.
  - intros Hx. exists x. by rewrite eqb_refl.
Qed.

(** The shape of each test of [ruleMatches]. *)
Lemma guard_true {A} (l : list A) (b c : bool) (P : Prop) :
  (b = true <-> P) ->
  ((if non_empty l && negb b then false else c) = true <-> (l = [] \/ P) /\ c = true).
Proof.
  intros <-. destruct l as [|x l]; cbn; [tauto|]. destruct b; cbn; [tauto|].
  split; [done|]. by intros [[?|?] _].
Qed.

Lemma existsb_elem {A} (f : A -> bool) (P : A -> Prop) l :
  (forall x, f x = true <-> P x) -> existsb f l = true <-> exists x, x ∈ l /\ P x.
Proof.
  intros H. rewrite existsb_exists. setoid_rewrite <- list_elem_of_In. by setoid_rewrite H.
Qed.

Lemma subjectMatches_admits sel p : subjectMatches sel p = true <-> subject_admits sel p.
Proof.
  unfold subjectMatches, subject_admits. rewrite (guard_true _ _ _ _ (contains_true _ _)).
  apply and_iff_compat_l.
  assert (Hrest : (if is_empty (ss_Users sel) && is_empty (ss_Groups sel) && is_empty (ss_DeviceTags sel) &&
       is_empty (ss_PrincipalKinds sel) then true else non_empty (ss_PrincipalKinds sel)) = true <->
    ss_PrincipalKinds sel <> [] \/ (ss_Users sel = [] /\ ss_Groups sel = [] /\ ss_DeviceTags sel = [])).
  { destruct (ss_Users sel), (ss_Groups sel), (ss_DeviceTags sel), (ss_PrincipalKinds sel); cbn; naive_solver. }
  destruct (ss_Users sel) as [|x us] eqn:Eu; cbn [non_empty negb is_empty].
  - cbn [is_empty] in Hrest. rewrite Hrest. split; [by right; split; [left|]|].
    intros [(u & _ & Hu)|[_ H]]; [by apply not_elem_of_nil in Hu|done].
  - destruct (pr_User p) as [u|].
    + rewrite contains_true. split; [by left; exists u|].
      intros [(u' & [= <-] & Hu)|[[?|?] _]]; done.
    + cbn [is_empty] in Hrest. rewrite Hrest. split; [by right; split; [right|]|].
      intros [(u & ? & _)|[_ H]]; done.
Qed.

Lemma resourceMatches_names sel r : resourceMatches sel r = true <-> selector_names sel r.
Proof.
  unfold resourceMatches, selector_names.
  destruct (rsel_ResourceIDs sel) as [|i ids] eqn:Ei; cbn [non_empty negb is_empty].
  2:{ rewrite (existsb_elem _ (fun x => x = res_ServiceID r \/ x = res_ProtectedNodeID r)).
      2:{ intros x. rewrite orb_true_iff. by rewrite !eqb_true. }
      split; [intros (x & Hx & [->| ->]); left; tauto|].
      intros [[H|H]|[? _]]; [eauto..|done]. }
  destruct (rsel_Ports sel) as [|i ids] eqn:Ep; cbn [non_empty negb is_empty].
  2:{ rewrite contains_true. split; [tauto|]. intros [[H|H]|[_ [H|[? _]]]]; try done; by apply not_elem_of_nil in H. }
  destruct (rsel_Services sel) as [|i ids] eqn:Es; cbn [non_empty negb is_empty].
  2:{ rewrite contains_true. split; [tauto|].
      intros [[H|H]|[_ [H|[_ [H|[? _]]]]]]; try done; by apply not_elem_of_nil in H. }
  destruct (rsel_DeploymentModes sel) as [|i ids] eqn:Em; cbn [non_empty negb is_empty andb].
  { split; [tauto|done]. }
  rewrite contains_true. split; [tauto|].
  intros [[H|H]|[_ [H|[_ [H|[_ [?|H]]]]]]]; try done; by apply not_elem_of_nil in H.
Qed.

Lemma ruleMatches_applies r a : ruleMatches r a = true <-> rule_applies r a.
Proof.
  unfold ruleMatches, rule_applies.
  rewrite (guard_true _ _ _ _ (existsb_elem _ _ _ (fun sel => subjectMatches_admits sel (ac_Principal a)))).
  rewrite (guard_true _ _ _ _ (existsb_elem _ _ _ (fun sel => resourceMatches_names sel (ac_Resource a)))).
  rewrite (guard_true _ _ _ _ (contains_true _ _)), (guard_true _ _ _ _ (contains_true _ _)). tauto.
Qed.
Lemma ruleMatches_not_applies r a : ruleMatches r a = false <-> ~ rule_applies r a.
Proof. rewrite <- ruleMatches_applies. by destruct (ruleMatches r a). Qed.

(** ** The engine implements the specification *)






(** ** Evaluation on the database *)

Lemma newest_spec l :
  match newest l with
  | None => l = []
  | Some x => x ∈ l /\ forall y, y ∈ l -> y.1 <= x.1
  end.
Proof.
  induction l as [|x l IH]; [done|]. cbn. destruct (newest l) as [y|].
  - destruct IH as [Hy Hm]. destruct (y.1 <? x.1) eqn:E; go_bool.
    + split; [left|]. intros z [->|Hz]%elem_of_cons; [lia|]. specialize (Hm z Hz). lia.
    + split; [by right|]. intros z [->|Hz]%elem_of_cons; [lia|by apply Hm].
  - subst. split; [left|]. by intros z ->%list_elem_of_singleton.
Qed.

Lemma elem_of_policy_rows t d v p : (v, p) ∈ policy_rows t d <-> db_policies d !! (t, v) = Some p.
Proof.
  unfold policy_rows. rewrite list_elem_of_omap. split.
  - intros ([[t' v'] p'] & Hin & E). apply elem_of_map_to_list in Hin.
    destruct (t' == t) eqn:Et; [|done]. go_bool. subst. by injection E as -> ->.
  - intros Hl. exists ((t, v), p). rewrite eqb_refl. split; [by apply elem_of_map_to_list|done].
Qed.



Section Evaluate.
Context `{UT : UuidText} `{GC : GoCrypto} `{PG : Postgres} `{PJ : PolicyJson} `{SS : SortSlice}.




(** ** Coverage *)

Lemma resource_gaps_nil doc id r :
  resource_gaps doc id r = [] <->
  forall p, p ∈ coverage_protocols (r_deployment_mode r) -> exists rule, rule ∈ pd_Rules doc /\
    coverageRuleMatches rule (r_service_id r) (r_port r) p (r_deployment_mode r) = true.
Proof.
  unfold resource_gaps. induction (coverage_protocols _) as [|p ps IH]; cbn [omap list_omap].
  { split; [|done]. by intros _ ? ?%not_elem_of_nil. }
  destruct (existsb _ (pd_Rules doc)) eqn:E.
  - rewrite IH. apply existsb_exists in E as (rule & Hin%list_elem_of_In & Hm). split.
    + intros H q [->|Hq]%elem_of_cons; [eauto|by apply H].
    + intros H q Hq. apply H. by right.
  - split; [done|]. intros H. destruct (H p) as (rule & Hin & Hm); [left|]. exfalso.
    apply not_true_iff_false in E. apply E, existsb_exists. exists rule. by rewrite <- list_elem_of_In.
Qed.

Lemma wp_CheckCoverage t doc (Q : outcome CoverageResult -> World -> Prop) env w d :
  w_db w = d ->
  (forall w', w_db w' = d ->
     let gaps := concat (map (fun x => resource_gaps doc x.1 x.2) (tenant_resources t d)) in
     Q (Ok (mkCoverageResult (is_empty gaps) gaps [])) w') ->
  (forall e w', w_db w' = d -> Q (Err e) w') -> wp (CheckCoverage t doc) Q env w.
Proof.
  intros E HO HE. unfold CheckCoverage. wp_go. apply wp_db_query.
  - intros now rows w' [= <-] E' _. rewrite E. wp_go. apply HO. congruence.
  - intros e w' E' _. apply HE. congruence.
Qed.

Lemma gaps_empty t doc d :
  is_empty (concat (map (fun x => resource_gaps doc x.1 x.2) (tenant_resources t d))) = true <->
  forall id r, db_resources d !! id = Some r -> r_tenant r = t ->
    forall p, p ∈ coverage_protocols (r_deployment_mode r) -> exists rule, rule ∈ pd_Rules doc /\
      coverageRuleMatches rule (r_service_id r) (r_port r) p (r_deployment_mode r) = true.
Proof.
  assert (Hin : forall id r, (id, r) ∈ tenant_resources t d <-> db_resources d !! id = Some r /\ r_tenant r = t).
  { intros id r. unfold tenant_resources. rewrite list_elem_of_filter, elem_of_map_to_list. cbn. tauto. }
  transitivity (forall id r, (id, r) ∈ tenant_resources t d -> resource_gaps doc id r = []).
  - clear Hin. induction (tenant_resources t d) as [|[id r] l IH]; cbn [map concat fst snd].
    + split; [|done]. by intros _ ? ? ?%not_elem_of_nil.
    + destruct (resource_gaps doc id r) eqn:E; cbn [app].
      * rewrite IH. split; intros H i x Hx; [apply elem_of_cons in Hx as [[= -> ->]|Hx]; [done|by apply H]|].
        apply H. by right.
      * split; [done|]. intros H. rewrite (H id r) in E; [done|left].
  - split; intros H id r.
    + intros Hl Ht. apply (resource_gaps_nil doc id r), H, Hin. by split.
    + intros [Hl Ht]%Hin. by apply resource_gaps_nil, (H id r).
Qed.

(** Coverage: [CheckCoverage] passes exactly when for every registered
    resource of the tenant and every protocol of its deployment mode some rule's
    service or port selectors cover it, and the gaps it lists are empty exactly
    then; it writes nothing. *)
Theorem coverage_passed_iff env d t doc c d' :
  run (CheckCoverage t doc) env d = (Ok c, d') ->
  d' = d /\ (cr_Passed c = true <-> cr_Uncovered c = []) /\
  (cr_Passed c = true <-> forall id r, db_resources d !! id = Some r -> r_tenant r = t ->
    forall p, p ∈ coverage_protocols (r_deployment_mode r) -> exists rule, rule ∈ pd_Rules doc /\
      coverageRuleMatches rule (r_service_id r) (r_port r) p (r_deployment_mode r) = true).
Proof.
  intros Hrun. apply (f_equal fst) in Hrun as H1. apply (f_equal snd) in Hrun as H2. clear Hrun.
  cbn in H1, H2. subst d'. revert c H1. wp_start.
  eapply wp_CheckCoverage; [done| |done]. intros w' Ew. cbv zeta. intros c [= <-]. cbn [cr_Passed cr_Uncovered].
  split; [done|]. split; [by destruct (concat _)|]. apply gaps_empty.
Qed.

(** ** Publication *)

(** Every version in use is at most the current one. *)
Lemma current_version_max t d v p : db_policies d !! (t, v) = Some p -> v <= (current_versions t d).1.
Proof.
  intros Hl. apply coalesce_sql_max_ge, list_elem_of_fmap. exists (v, p).
  split; [done|by apply elem_of_policy_rows].
Qed.

(** The bundle with the highest version is the one in force. *)
Lemma active_bundle_top t now d d' v p :
  db_policies d' = <[(t, v) := p]> (db_policies d) -> (current_versions t d).1 < v -> now < p_expires_at p ->
  active_bundle t now d' = Some (bundle_of t (v, p)).
Proof.
  intros E Hv Hx. unfold active_bundle.
  pose proof (newest_spec (filter (fun x => now < p_expires_at x.2) (policy_rows t d'))) as Hn.
  assert (Hin : (v, p) ∈ filter (fun x => now < p_expires_at x.2) (policy_rows t d')).
  { apply list_elem_of_filter. split; [done|]. apply elem_of_policy_rows. by rewrite E, lookup_insert_eq. }
  destruct (newest _) as [[v' p']|]; [|rewrite Hn in Hin; by apply not_elem_of_nil in Hin].
  destruct Hn as [[_ Hl]%list_elem_of_filter Hm]. apply Hm in Hin. cbn in Hin.
  apply elem_of_policy_rows in Hl. rewrite E in Hl.
  apply lookup_insert_Some in Hl as [[[= <-] <-]|[_ Hl]]; [done|].
  apply current_version_max in Hl. lia.
Qed.

(** A published bundle, as its row and its result describe it. *)
Definition published (input : PublishPolicyInput) (r : PublishPolicyResult) (d d' : Db) : Prop :=
  let t := ppi_TenantID input in
  cr_Passed (ppr_Coverage r) = true /\ ppr_Version r = (current_versions t d).1 + 1 /\
  exists b p, ppr_Bundle r = Some b /\ db_policies d' = <[(t, ppr_Version r) := p]> (db_policies d) /\
    p_epoch p = wrap64 ((current_versions t d).2 + 1) /\
    doc_Marshal (ppi_Document input) = Ok (pb_Document b) /\ jsonb_in (pb_Document b) = Some (p_document p) /\
    pb_ExpiresAt b = pb_NotBefore b + 300 * Second /\ p_expires_at p = timestamptz_in (pb_ExpiresAt b) /\
    forall now, now < p_expires_at p -> active_bundle t now d' = Some (bundle_of t (ppr_Version r, p)).

Lemma insert_policy_Ok b now d u d' :
  insert_policy b now d = inr (u, d') -> db_policies d !! (pb_TenantID b, pb_Version b) = None ->
  exists text ph, jsonb_in (pb_Document b) = Some text /\
    d' = set_policies (<[(pb_TenantID b, pb_Version b) :=
      mkPolicy (pb_Epoch b) text ph (pb_Signature b) (pb_Kid b) (timestamptz_in (pb_NotBefore b))
        (timestamptz_in (pb_ExpiresAt b)) (pb_MinDaemonVersion b) (pb_IssuedBy b)]> (db_policies d)) d.
Proof.
  unfold insert_policy. intros Hi Hn. destruct (jsonb_in _) as [text|]; [|done].
  destruct (bytea_arg _) as [|ph]; [done|]. rewrite Hn in Hi. cbn [is_some] in Hi.
  destruct (negb _); [done|]. injection Hi as _ <-. by exists text, ph.
Qed.

Lemma wp_publish_bundle input signer cov cv ce prevHash env w d :
  w_db w = d -> current_versions (ppi_TenantID input) d = (cv, ce) -> 0 <= cv < int64_max ->
  cr_Passed cov = true ->
  wp (publish_bundle input signer cov cv ce prevHash)
    (fun r w' => forall r0, r = Ok r0 -> published input r0 d (w_db w')) env w.
Proof.
  intros Ew Ecv Hcv Hcov. unfold publish_bundle. wp_go.
  destruct (doc_Marshal _) as [docBytes| |] eqn:Edoc; wp_go; [|done..].
  apply wp_time_Now. intros now w4 E4 _. wp_go. destruct (signer _) as [[sig kid]| |]; wp_go; [|done..].
  rewrite (wrap64_id (cv + 1)).
  2:{ unfold is_int64, int64_min, int64_max in *. rewrite andb_true_iff, !Z.leb_le. lia. }
  apply wp_db_exec; [|done..]. intros now2 u d2 w5 Hi E5 _. wp_go. intros r0 [= <-].
  rewrite E4, Ew in Hi. rewrite E5. clear E5. apply insert_policy_Ok in Hi as (text & ph & Hj & Hp); cbn in *;
    [apply (f_equal db_policies) in Hp|].
  2:{ destruct (db_policies d !! _) as [p0|] eqn:El; [|done].
      apply current_version_max in El. rewrite Ecv in El. cbn in El. lia. }
  unfold published. rewrite Ecv. cbn. split; [done|]. split; [done|].
  eexists _, _. split; [done|]. split; [exact Hp|]. cbn. split_and!; try done.
  intros now3 Hn. eapply active_bundle_top; [exact Hp| |exact Hn]. rewrite Ecv. cbn. lia.
Qed.

(** Publication: when [PublishPolicy] reports a policy as published (not a
    dry run), coverage passed, exactly one bundle was added, at the version and
    epoch after the highest of the tenant (no rollback: versions and epochs only
    grow), with the stored text of the document; it expires five minutes after
    issuance by the service's clock, and until then it is the bundle in force. *)
Theorem published_policy_in_force env d input signer r d' :
  0 <= (current_versions (ppi_TenantID input) d).1 < int64_max ->
  run (PublishPolicy input signer) env d = (Ok r, d') -> ppr_Published r = true -> ppi_DryRun input = false ->
  published input r d d'.
Proof.
  intros Hcv Hrun Hpub Hdry. apply (f_equal fst) in Hrun as H1. apply (f_equal snd) in Hrun as H2.
  clear Hrun. cbn in H1, H2. subst d'. revert r H1 Hpub. wp_start. unfold PublishPolicy. rewrite Hdry. wp_go.
  eapply wp_CheckCoverage; [done| |done]. intros w1 E1. cbv zeta. cbn [new_world w_db] in E1. wp_go.
  set (cov := mkCoverageResult _ _ _). destruct (cr_Passed cov) eqn:Ec; cbn [negb andb].
  2:{ wp_go. by intros r [= <-]. }
  wp_go. apply wp_db_query; [|done]. intros now1 c w2 [= <-] E2 _. rewrite E1 in *.
  destruct (current_versions _ d) as [cv ce] eqn:Ecv. cbn in Hcv. wp_go.
  assert (Hfin : forall ph w, w_db w = d -> wp (publish_bundle input signer cov cv ce ph)
    (fun r w' => forall r0, r = Ok r0 -> ppr_Published r0 = true -> published input r0 d (w_db w')) env w).
  { intros ph w Ew. eapply wp_mono; [by apply (wp_publish_bundle _ _ _ _ _ _ _ _ d)|]. intros r w' H r0 E _.
    by apply H. }
  destruct (0 <? cv).
  - wp_go. apply wp_try, wp_db_query.
    + intros n3 ph w3 _ E3 _. wp_go. apply Hfin. congruence.
    + intros e w3 E3 _. wp_go. apply Hfin. congruence.
  - wp_go. apply Hfin. congruence.
Qed.

(** A failed or rejected publication changes nothing, except that a commit
    whose acknowledgement was lost may have added the one bundle: in every case the
    policies table gains at most one row and keeps all others, and no other table
    changes. *)
Theorem publication_adds_at_most_one env d input signer :
  let d' := (run (PublishPolicy input signer) env d).2 in
  d' = d \/
  exists v p, db_policies d !! (ppi_TenantID input, v) = None /\
    d' = set_policies (<[(ppi_TenantID input, v) := p]> (db_policies d)) d.
Proof.
  cbv zeta. pose (Q := fun (_ : outcome PublishPolicyResult) d' => d' = d \/
    exists v p, db_policies d !! (ppi_TenantID input, v) = None /\
      d' = set_policies (<[(ppi_TenantID input, v) := p]> (db_policies d)) d).
  change (Q (run (PublishPolicy input signer) env d).1 (run (PublishPolicy input signer) env d).2).
  apply wp_run. unfold PublishPolicy. wp_go.
  assert (Hsame : forall r w', w_db w' = d -> Q r (w_db w')) by (intros r w' ->; by left).
  eapply wp_CheckCoverage; [done| |by intros; apply Hsame]. intros w1 E1.
  cbn [new_world w_db] in E1. cbv zeta. wp_go.
  set (cov := mkCoverageResult _ _ _). destruct (negb (cr_Passed cov) && _); [wp_go; by apply Hsame|].
  destruct (ppi_DryRun input); [wp_go; by apply Hsame|]. wp_go.
  apply wp_db_query; [|intros; apply Hsame; congruence]. intros now1 c w2 _ E2 _.
  destruct c as [cv ce]. wp_go.
  assert (Hfin : forall ph w, w_db w = d -> wp (publish_bundle input signer cov cv ce ph)
    (fun r w' => Q r (w_db w')) env w).
  { intros ph w Ew. unfold publish_bundle. wp_go.
    destruct (doc_Marshal _) as [docBytes| |] eqn:Edoc; wp_go; [|by apply Hsame..].
    apply wp_time_Now. intros now w4 E4 _. wp_go.
    destruct (signer _) as [[sig kid]| |]; wp_go; [|apply Hsame; congruence..].
    assert (Hi : forall b n u d2, pb_TenantID b = ppi_TenantID input ->
      insert_policy b n (w_db w4) = inr (u, d2) -> forall r, Q r d2).
    { intros b n u d2 Et Hi r. rewrite E4, Ew in Hi. unfold Q.
      destruct (db_policies d !! (pb_TenantID b, pb_Version b)) eqn:El.
      - left. unfold insert_policy in Hi. destruct (jsonb_in _); [|done]. destruct (bytea_arg _); [done|].
        rewrite El in Hi. cbn in Hi. by injection Hi as _ <-.
      - right. apply insert_policy_Ok in Hi as (? & ? & _ & Hp); [|done]. rewrite Et in *. eauto. }
    apply wp_db_exec.
    - intros n u d2 w5 H5 E5 _. wp_go. rewrite E5. by refine (Hi _ _ _ _ _ H5 _).
    - intros n u d2 e w5 H5 E5 _. rewrite E5. by refine (Hi _ _ _ _ _ H5 _).
    - intros e w5 E5 _. apply Hsame. congruence. }
  destruct (0 <? cv).
  - wp_go. apply wp_try, wp_db_query; intros; wp_go; apply Hfin; congruence.
  - wp_go. apply Hfin. congruence.
Qed.

End Evaluate.

(** ** Where rule selection departs from the documentation *)

(** Selectors that are ignored.  A resource selector given only by tags or
    sensitivities matches every resource; a subject selector given only by groups
    or device tags matches nobody. *)
Theorem selectors_ignored :
  (forall tags sens res, resourceMatches (mkResourceSelector [] tags [] [] [] sens) res = true) /\
  (forall g groups tags p, subjectMatches (mkSubjectSelector [] (g :: groups) tags []) p = false) /\
  (forall tag groups tags p, subjectMatches (mkSubjectSelector [] groups (tag :: tags) []) p = false).
Proof.
  split_and!; [done|..]; intros; unfold subjectMatches; cbn; [done|].
  by destruct groups.
Qed.

#[export] Program Instance ref_SortSlice : SortSlice := {| sort_rules := merge_sort prio_ge |}.
Next Obligation. intros l. apply merge_sort_Permutation. Qed.
Next Obligation. intros l. apply StronglySorted_merge_sort; apply _. Qed.

(** Another order of the ties, as [sort.Slice] is free to choose. *)
Program Definition rev_SortSlice : SortSlice :=
  {| sort_rules l := merge_sort prio_ge (reverse l) |}.
Next Obligation. intros l. cbn. by rewrite merge_sort_Permutation, reverse_Permutation. Qed.
Next Obligation. intros l. apply StronglySorted_merge_sort; apply _. Qed.

Definition sample_rule (id : string) (effect : EnforcementDecision) (sel : list ResourceSelector) : PolicyRule :=
  mkPolicyRule id 10 effect "" [] sel [] [] false None "".

Definition sample_access : Access :=
  mkAccess (mkPrincipal tenant1 "tailnet-a" "n-src" 7 PrincipalKindHuman
              (Some (mkOIDCIdentity "https://idp" "alice" "u-alice")) NodeStateOK "")
    (mkResourceID tenant1 (uuid_String node1) "web-app" 443 TransportTCP ModeHTTPProxy) "TCP" ScopeConnection.

Definition sample_bundle : PolicyBundle :=
  mkPolicyBundle tenant1 1 1 [] None [] "" sample_now (sample_now + 300 * Second) "2.1.0" None.

(** With two rules of the same id the tie check is blind: a matching DENY
    and a matching ALLOW at the same priority, both with id "r", are decided by
    whichever [sort.Slice] puts first; with distinct ids both orders deny. *)
Theorem duplicate_ids_hide_conflicts :
  let rules id := [sample_rule "r" DecisionEnforceDeny []; sample_rule id DecisionAllowWithoutStepUp []] in
  let decide (SS : SortSlice) id :=
    er_Decision (eval_rules (sort_rules (rules id)) (sort_rules (rules id)) sample_bundle sample_access) in
  decide ref_SortSlice "r" <> decide rev_SortSlice "r" /\
  decide ref_SortSlice "s" = DecisionEnforceDeny /\ decide rev_SortSlice "s" = DecisionEnforceDeny.
Proof. vm_compute. split_and!; [discriminate|reflexivity..]. Qed.

(** A document whose only rule names the right service beside a wrong resource id. *)
Definition gap_doc : PolicyDocument :=
  mkPolicyDocument 1 [sample_rule "r1" DecisionRequireStepUp
    [mkResourceSelector ["other"%string] [] ["web-app"%string] [] [] []]] "".

(** Coverage does not imply enforcement: a document can pass the coverage
    check for a resource although its rules never match any access to it, because
    coverage reads service and port selectors alone while evaluation lets the first
    selector present decide. *)
Theorem coverage_is_not_enforcement (r : resource_row) (res : ResourceID) :
  r_service_id r = "web-app"%string -> res_ServiceID res = "web-app"%string ->
  res_ProtectedNodeID res <> "other"%string ->
  resource_gaps gap_doc (uuid_of_Z 1) r = [] /\
  forall p protocol scope, decides (pd_Rules gap_doc) (mkAccess p res protocol scope) DecisionEnforceDeny.
Proof.
  intros Hs Hr Hn. split.
  - apply resource_gaps_nil. intros p _. eexists. split; [left|]. unfold coverageRuleMatches. cbn.
    by rewrite Hs.
  - intros p protocol scope. apply decides_default. intros x ->%list_elem_of_singleton.
    apply ruleMatches_not_applies. unfold ruleMatches. cbn. unfold resourceMatches. cbn. rewrite Hr.
    by rewrite (proj2 (eqb_false "other"%string (res_ProtectedNodeID res))).
Qed.

(** ** Witnesses *)

Definition sample_doc : PolicyDocument :=
  mkPolicyDocument 1
    [sample_rule "all" DecisionRequireStepUp []; sample_rule "other" DecisionRequireStepUp
       [mkResourceSelector [] [] ["ssh"%string] [] [] []]] "".

(** A JSON codec that knows one document. *)
Definition ref_PolicyJson : PolicyJson := {|
  doc_Marshal _ := Ok (str_bytes "{}");
  doc_Unmarshal _ := Ok sample_doc
|}.
#[local] Existing Instance ref_PolicyJson.
#[local] Existing Instance pg_any.

Definition publish_input : PublishPolicyInput := mkPublishInput tenant1 sample_doc false user1.
Definition sample_signer (m : bytes) : outcome (bytes * string) := Ok (m, "policy-kid"%string).
Definition publish_run := run (PublishPolicy publish_input sample_signer) (sample_env 8000) sample_db.
Definition policy_db : Db := publish_run.2.

Lemma published_policy_in_force_witness :
  exists r, publish_run.1 = Ok r /\ ppr_Version r = 1 /\ published publish_input r sample_db policy_db.
Proof.
  destruct publish_run as [[r| |] d'] eqn:E; [|apply (f_equal fst) in E; vm_compute in E; discriminate E..].
  assert (Hp : published publish_input r sample_db d').
  { apply (published_policy_in_force (sample_env 8000) sample_db publish_input sample_signer r d');
      [split; vm_compute; [discriminate|reflexivity]|exact E| |reflexivity].
    apply (f_equal fst) in E. vm_compute in E. injection E as <-. reflexivity. }
  exists r. split; [reflexivity|]. split; [exact (proj1 (proj2 Hp))|]. unfold policy_db. rewrite E. exact Hp.
Defined.




Lemma coverage_passed_iff_witness :
  exists c, run (CheckCoverage tenant1 sample_doc) (sample_env 8200) sample_db = (Ok c, sample_db) /\
    cr_Uncovered c = [].
Proof.
  destruct (run (CheckCoverage tenant1 sample_doc) (sample_env 8200) sample_db) as [[c| |] d'] eqn:E;
    [|apply (f_equal fst) in E; vm_compute in E; discriminate E..].
  destruct (coverage_passed_iff _ _ _ _ _ _ E) as (Hd & Hg & _).
  exists c. split; [rewrite Hd; reflexivity|]. apply Hg.
  apply (f_equal fst) in E. vm_compute in E. injection E as <-. reflexivity.
Defined.

Lemma coverage_is_not_enforcement_witness :
  decides (pd_Rules gap_doc) sample_access DecisionEnforceDeny.
Proof.
  apply (coverage_is_not_enforcement
    (mkResource tenant1 node1 "web-app" 443 "TCP" ModeHTTPProxy SensitivityHigh SecurityLevelStrongBox None)
    (ac_Resource sample_access)); [reflexivity|reflexivity|vm_compute; discriminate].
Defined.
