(* ===== verification/Enrollment.v ===== *)
(** * Enrollment: tickets, devices and protected nodes

    [service/internal/enrollment/oidc.go]: the allowlist of identity providers,
    one-time enrollment tickets, the enrollment of devices, and the bootstrap and
    registration of protected nodes.

    Tickets and bootstrap tokens are stored under the SHA-256 of their text.  The
    tables [enrollment_tickets] and [bootstrap_tokens] are part of [db_late]: no
    migration creates them, so on a database of the repository every operation on
    them fails with [ErrNoTable]; their hash columns are taken as primary keys. *)

From stdpp Require Import base gmap strings list fin_maps.
From Stdlib Require Import ZArith Lia Strings.Byte Strings.Ascii.
From S2P Require Import Prelude Identity Cose Envelope Database Schema Messaging.

Open Scope Z_scope.
Open Scope go_scope.

(** ** [base64.RawURLEncoding] *)

Definition base64_digit (d : Z) : ascii :=
  match String.get (Z.to_nat d) "ABCDEFGHIJKLMNOPQRSTUVWXYZabcdefghijklmnopqrstuvwxyz0123456789-_" with
  | Some c => c
  | None => "A"%char
  end.

(** Three bytes are four digits; one or two bytes left over are two or three. *)
Fixpoint RawURLEncoding_EncodeToString (l : bytes) : string :=
  match l with
  | [] => ""
  | [a] =>
      let v := Z.shiftl (Z_of_byte a) 16 in
      String (base64_digit (Z.land (Z.shiftr v 18) 63))
     (String (base64_digit (Z.land (Z.shiftr v 12) 63)) "")
  | [a; b] =>
      let v := Z.lor (Z.shiftl (Z_of_byte a) 16) (Z.shiftl (Z_of_byte b) 8) in
      String (base64_digit (Z.land (Z.shiftr v 18) 63))
     (String (base64_digit (Z.land (Z.shiftr v 12) 63))
     (String (base64_digit (Z.land (Z.shiftr v 6) 63)) ""))
  | a :: b :: c :: rest =>
      let v := Z.lor (Z.lor (Z.shiftl (Z_of_byte a) 16) (Z.shiftl (Z_of_byte b) 8)) (Z_of_byte c) in
      String (base64_digit (Z.land (Z.shiftr v 18) 63))
     (String (base64_digit (Z.land (Z.shiftr v 12) 63))
     (String (base64_digit (Z.land (Z.shiftr v 6) 63))
     (String (base64_digit (Z.land v 63)) (RawURLEncoding_EncodeToString rest))))
  end.

(** ** Identity providers *)

Record OIDCProvider : Type := mkOIDCProvider {
  op_IssuerURL : string;
  op_ClientID : string;
  op_ClientSecret : string;
  op_DiscoveryURL : string
}.

(** [OIDCManager.allowedIssuers] *)
Abbreviation OIDCManager := (gmap string OIDCProvider) (only parsing).

(** [NewOIDCManager]: a later provider replaces an earlier one of the same URL. *)
Definition NewOIDCManager (providers : list OIDCProvider) : OIDCManager :=
  foldl (fun m p => <[op_IssuerURL p := p]> m) ∅ providers.

(** [OIDCManager.ValidateIssuer] *)
Definition ValidateIssuer (m : OIDCManager) (issuerURL : string) : outcome OIDCProvider :=
  match m !! issuerURL with
  | Some p => Ok p
  | None => Err (Errorf "enrollment: issuer %q not in allowlist" [AStr issuerURL])
  end.

(** ** Enrollment tickets *)

Record EnrollmentTicket : Type := mkEnrollmentTicket {
  et_Ticket : string;
  et_TenantID : UUID;
  et_UserID : UUID;
  et_Issuer : string;
  et_Subject : string;
  et_Challenge : bytes;
  et_ExpiresAt : Time;
  et_Used : bool
}.

Definition set_tickets (m : gmap bytes ticket_row) (lt : late_tables) : late_tables :=
  mkLate (lt_user_roles lt) m (lt_tokens lt).
Definition set_tokens (m : gmap bytes token_row) (lt : late_tables) : late_tables :=
  mkLate (lt_user_roles lt) (lt_tickets lt) m.

(** A statement on the tables that no migration creates. *)
Definition on_late {A} (f : late_tables -> error + (A * late_tables)) : stmt A := fun now d =>
  match db_late d with
  | None => inl ErrNoTable
  | Some lt =>
      match f lt with
      | inl e => inl e
      | inr (a, lt') => inr (a, set_late (Some lt') d)
      end
  end.

Definition ErrDuplicate : error := Errorf "duplicate key value violates unique constraint" [].

Definition insert_ticket (h : bytes) (row : ticket_row) : stmt unit := on_late (fun lt =>
  if is_some (lt_tickets lt !! h) then inl ErrDuplicate
  else inr (tt, set_tickets (<[h := row]> (lt_tickets lt)) lt)).

(** [SELECT ticket_hash, ... WHERE ticket_hash = $1 FOR UPDATE] *)
Definition select_ticket (h : bytes) : stmt (option (bytes * ticket_row)) := on_late (fun lt =>
  inr ((fun row => (h, row)) <$> lt_tickets lt !! h, lt)).

Definition k_use (k : ticket_row) : ticket_row :=
  mkTicketRow (k_tenant k) (k_user k) (k_issuer k) (k_subject k) (k_challenge k) (k_expires_at k) true.

Definition use_ticket (h : bytes) : stmt unit := on_late (fun lt =>
  inr (tt, set_tickets (alter k_use h (lt_tickets lt)) lt)).

(** The buffer [rand.Read] was given, when its error is ignored. *)
Definition filled (rnd : option bytes) : bytes :=
  match rnd with Some b => b | None => replicate 32 x00 end.

Section Enrollment.
Context `{UT : UuidText} `{GC : GoCrypto} `{PG : Postgres}.

(** [OIDCManager.IssueEnrollmentTicket] *)
Definition IssueEnrollmentTicket (tenantID userID : UUID) (issuer subject : string) (ttl : Duration)
    : M EnrollmentTicket :=
  rnd ← rand_Read;
  challenge ← lift (wrap "enrollment: generate challenge: %w" [] (NewNonce rnd));
  rnd2 ← rand_Read;
  let ticket := RawURLEncoding_EncodeToString (filled rnd2) in
  let ticketHash := sha256 (str_bytes ticket) in
  now ← time_Now;
  mwrap "enrollment: store ticket: %w" [] (db_exec (insert_ticket ticketHash
    (mkTicketRow tenantID userID issuer subject challenge (timestamptz_in (now + ttl)) false))) ;;
  now2 ← time_Now;
  mret (mkEnrollmentTicket ticket tenantID userID issuer subject challenge (now2 + ttl) false).

(** [OIDCManager.ValidateEnrollmentTicket] *)
Definition ValidateEnrollmentTicket (ticket : string) : M EnrollmentTicket :=
  let ticketHash := sha256 (str_bytes ticket) in
  mwrap "enrollment: begin tx: %w" [] BeginTx ;;
  defer_rollback (
    r ← try (tx_exec (select_ticket ticketHash));
    match r with
    | Ok (Some (storedHash, k)) =>
        if negb (ConstantTimeCompare storedHash ticketHash =? 1)
        then lift (Err (Errorf "enrollment: ticket hash mismatch" [])) else
        if k_used k then lift (Err (Errorf "enrollment: ticket already used" [])) else
        now ← time_Now;
        if time_After now (k_expires_at k) then lift (Err (Errorf "enrollment: ticket expired" [])) else
        mwrap "enrollment: mark ticket used: %w" [] (tx_exec (use_ticket ticketHash)) ;;
        mwrap "enrollment: commit ticket: %w" [] Commit ;;
        mret (mkEnrollmentTicket ticket (k_tenant k) (k_user k) (k_issuer k) (k_subject k)
                (k_challenge k) (k_expires_at k) (k_used k))
    | Panic => lift Panic
    | _ => lift (Err (Errorf "enrollment: ticket not found" []))
    end).

(** ** Devices *)

Record DeviceEnrollment : Type := mkDeviceEnrollment {
  de_DeviceAuthPub : option bytes;
  de_ApprovalAuthPub : option bytes;
  de_DeviceAuthAttestation : option bytes;
  de_ApprovalAuthAttestation : option bytes;
  de_SecurityLevel : SecurityLevel
}.

(** [OIDCManager.verifyAttestation] *)
Definition verifyAttestation (enrollment : DeviceEnrollment) (ticket : EnrollmentTicket)
    : outcome unit :=
  if (de_SecurityLevel enrollment != SecurityLevelTEE) &&
     (de_SecurityLevel enrollment != SecurityLevelStrongBox)
  then Err (Errorf "enrollment: software-backed keys rejected in production" [])
  else Ok tt.

(** A [[]byte] bound to the column [attestation], [jsonb NOT NULL]. *)
Definition attestation_arg (b : option bytes) : error + bytes :=
  match b with
  | None => if nil_bytes_null then inl (Errorf "null value violates not-null constraint" [])
            else match jsonb_in [] with
                 | Some t => inr t
                 | None => inl (Errorf "invalid input syntax for type json" [])
                 end
  | Some v => match jsonb_in v with
              | Some t => inr t
              | None => inl (Errorf "invalid input syntax for type json" [])
              end
  end.

(** [UNIQUE (tenant_id, device_auth_pub)] and [UNIQUE (tenant_id, approval_auth_pub)] *)
Definition device_key_taken (tenant : UUID) (auth approval : bytes) (d : Db) : bool :=
  existsb (fun '(_, v) => (d_tenant v == tenant) &&
             ((d_device_auth_pub v == auth) || (d_approval_auth_pub v == approval)))
    (map_to_list (db_devices d)).

Definition insert_device (id tenant user : UUID) (e : DeviceEnrollment) : stmt unit := fun now d =>
  match bytea_arg (de_DeviceAuthPub e), bytea_arg (de_ApprovalAuthPub e),
        attestation_arg (de_DeviceAuthAttestation e) with
  | inr auth, inr approval, inr attestation =>
      if negb ((de_SecurityLevel e == "STRONGBOX") || (de_SecurityLevel e == "TEE"))
      then inl (Errorf "devices violates check constraint" []) else
      if is_some (db_devices d !! id) || device_key_taken tenant auth approval d
      then inl ErrDuplicate else
      if negb (bool_decide (tenant ∈ db_tenants d) && is_some (select_user tenant user d))
      then inl (Errorf "devices violates foreign key constraint" []) else
      inr (tt, set_devices (<[id := mkDevice tenant user auth approval attestation
             (de_SecurityLevel e) 0 "ENROLLED" None]> (db_devices d)) d)
  | inl err, _, _ => inl err
  | _, inl err, _ => inl err
  | _, _, inl err => inl err
  end.

(** [OIDCManager.EnrollDevice] *)
Definition EnrollDevice (ticket : EnrollmentTicket) (enrollment : DeviceEnrollment) : M UUID :=
  lift (wrap "enrollment: attestation failed: %w" [] (verifyAttestation enrollment ticket)) ;;
  if (de_SecurityLevel enrollment != SecurityLevelStrongBox) &&
     (de_SecurityLevel enrollment != SecurityLevelTEE)
  then lift (Err (Errorf "enrollment: unsupported security level %s"
                    [AStr (de_SecurityLevel enrollment)])) else
  deviceID ← uuid_New;
  mwrap "enrollment: insert device: %w" []
    (db_exec (insert_device deviceID (et_TenantID ticket) (et_UserID ticket) enrollment)) ;;
  mret deviceID.

(** ** Protected nodes *)

Record NodeBootstrapToken : Type := mkNodeBootstrapToken {
  bt_Token : string;
  bt_TenantID : UUID;
  bt_TailnetID : string;
  bt_TSStableNodeID : string;
  bt_ExpiresAt : Time
}.

Definition insert_token (h : bytes) (row : token_row) : stmt unit := on_late (fun lt =>
  if is_some (lt_tokens lt !! h) then inl ErrDuplicate
  else inr (tt, set_tokens (<[h := row]> (lt_tokens lt)) lt)).

Definition select_token (h : bytes) : stmt (option token_row) := on_late (fun lt =>
  inr (lt_tokens lt !! h, lt)).

Definition b_use (b : token_row) : token_row :=
  mkTokenRow (b_tenant b) (b_tailnet_id b) (b_ts_stable_node_id b) (b_expires_at b) (b_issued_by b) true.

Definition use_token (h : bytes) : stmt unit := on_late (fun lt =>
  inr (tt, set_tokens (alter b_use h (lt_tokens lt)) lt)).

(** [OIDCManager.IssueNodeBootstrap] *)
Definition IssueNodeBootstrap (tenantID : UUID) (tailnetID tsStableNodeID : string) (ttl : Duration)
    (authorizedBy : UUID) : M NodeBootstrapToken :=
  rnd ← rand_Read;
  let token := RawURLEncoding_EncodeToString (filled rnd) in
  let tokenHash := sha256 (str_bytes token) in
  now ← time_Now;
  mwrap "enrollment: store bootstrap token: %w" [] (db_exec (insert_token tokenHash
    (mkTokenRow tenantID tailnetID tsStableNodeID (timestamptz_in (now + ttl)) authorizedBy false))) ;;
  now2 ← time_Now;
  mret (mkNodeBootstrapToken token tenantID tailnetID tsStableNodeID (now2 + ttl)).

(** [fmt.Sprintf("dnivio-%s", nodeID.String()[:12])] *)
Definition cert_serial (nodeID : UUID) : string :=
  ("dnivio-" +:+ String.substring 0 12 (uuid_String nodeID))%string.

(** [UNIQUE (tenant_id, ts_stable_node_id)] and [UNIQUE (tenant_id, cert_serial)] *)
Definition node_taken (tenant : UUID) (stable serial : string) (d : Db) : bool :=
  existsb (fun '(_, n) => (n_tenant n == tenant) &&
             ((n_ts_stable_node_id n == stable) || (n_cert_serial n == serial)))
    (map_to_list (db_nodes d)).

Definition insert_node (id tenant : UUID) (stable tailnet serial : string) : stmt unit := fun now d =>
  if is_some (db_nodes d !! id) || node_taken tenant stable serial d then inl ErrDuplicate else
  if negb (bool_decide (tenant ∈ db_tenants d))
  then inl (Errorf "nodes violates foreign key constraint" []) else
  inr (tt, set_nodes (<[id := mkNode tenant stable tailnet serial "ACTIVE" 0]> (db_nodes d)) d).

(** [OIDCManager.RegisterNode]; the request [csrDER] is not read.  The last
    statement, [return nodeID, tx.Commit()], gives the node's id with the error. *)
Definition RegisterNode (token tailnetID tsStableNodeID : string) (csrDER : bytes) : M UUID :=
  let tokenHash := sha256 (str_bytes token) in
  mwrap "enrollment: begin register tx: %w" [] BeginTx ;;
  defer_rollback (
    r ← try (tx_exec (select_token tokenHash));
    match r with
    | Ok (Some b) =>
        if b_used b then lift (Err (Errorf "enrollment: bootstrap token already used" [])) else
        now ← time_Now;
        if time_After now (b_expires_at b)
        then lift (Err (Errorf "enrollment: bootstrap token expired" [])) else
        if (b_ts_stable_node_id b != tsStableNodeID) || (b_tailnet_id b != tailnetID)
        then lift (Err (Errorf "enrollment: node/tailnet identity mismatch (DR-AUTH-5)" [])) else
        mwrap "enrollment: mark token used: %w" [] (tx_exec (use_token tokenHash)) ;;
        nodeID ← uuid_New;
        mwrap "enrollment: insert node: %w" []
          (tx_exec (insert_node nodeID (b_tenant b) tsStableNodeID tailnetID (cert_serial nodeID))) ;;
        Commit ;;
        mret nodeID
    | Panic => lift Panic
    | _ => lift (Err (Errorf "enrollment: invalid bootstrap token" []))
    end).

End Enrollment.
