(* ===== verification/EnrollmentProps.v ===== *)
(** * EnrollmentProps: tickets are used once, devices and nodes are what they say

    Every run of an enrollment operation either leaves the database alone or makes
    the one change its specification names, under any faults.  From these: what a
    validated ticket and a registered node were issued for, that a ticket issued
    by a working server validates to the identity it was issued to, and what
    enrollment does not check. *)

From stdpp Require Import base gmap strings list fin_maps.
From Stdlib Require Import ZArith Lia Strings.Byte Strings.Ascii.
From S2P Require Import Prelude Identity Cose Envelope Reference Database Schema Messaging Sample.
From S2P Require Import Live Enrollment.

Open Scope Z_scope.
Open Scope go_scope.

(** ** Statements *)

Lemma on_late_Ok {A} (f : late_tables -> error + (A * late_tables)) now d a d' :
  on_late f now d = inr (a, d') <->
  exists lt lt', db_late d = Some lt /\ f lt = inr (a, lt') /\ d' = set_late (Some lt') d.
Proof.
  unfold on_late. destruct (db_late d) as [lt|]; [|split; [done|by intros (? & ? & ? & _)]].
  destruct (f lt) as [e|[a' lt']] eqn:E.
  - split; [done|]. intros (lt0 & lt1 & [= <-] & E' & _). congruence.
  - split; [intros [= <- <-]; eauto|]. intros (lt0 & lt1 & [= <-] & E' & ->). congruence.
Qed.

Lemma set_late_same d lt : db_late d = Some lt -> set_late (Some lt) d = d.
Proof. intros <-. by destruct d. Qed.

Lemma set_late_twice x y d : set_late x (set_late y d) = set_late x d.
Proof. done. Qed.

Lemma select_ticket_Ok h now d a d' :
  select_ticket h now d = inr (a, d') <->
  d' = d /\ exists lt, db_late d = Some lt /\ a = (fun row => (h, row)) <$> lt_tickets lt !! h.
Proof.
  unfold select_ticket. rewrite on_late_Ok. split.
  - intros (lt & lt' & El & [= <- <-] & ->). rewrite set_late_same by done. eauto.
  - intros (-> & lt & El & ->). exists lt, lt. by rewrite set_late_same.
Qed.

Lemma select_token_Ok h now d a d' :
  select_token h now d = inr (a, d') <->
  d' = d /\ exists lt, db_late d = Some lt /\ a = lt_tokens lt !! h.
Proof.
  unfold select_token. rewrite on_late_Ok. split.
  - intros (lt & lt' & El & [= <- <-] & ->). rewrite set_late_same by done. eauto.
  - intros (-> & lt & El & ->). exists lt, lt. by rewrite set_late_same.
Qed.

(** [UPDATE] of a row by its key. *)
Lemma alter_lookup `{Countable K} {V} (f : V -> V) (k : K) (m : gmap K V) v :
  m !! k = Some v -> alter f k m = <[k := f v]> m.
Proof.
  intros Hk. apply map_eq. intros i. destruct (decide (i = k)) as [->|Hne].
  - by rewrite lookup_alter_eq, Hk, lookup_insert_eq.
  - by rewrite lookup_alter_ne, lookup_insert_ne.
Qed.

Section Props.
Context `{UT : UuidText} `{GC : GoCrypto} `{PG : Postgres}.

(** ** Specifications *)

Definition ticket_hash (s : string) : bytes := sha256 (str_bytes s).

(** What a ticket's row says to whoever presents its text. *)
Definition ticket_of (s : string) (k : ticket_row) : EnrollmentTicket :=
  mkEnrollmentTicket s (k_tenant k) (k_user k) (k_issuer k) (k_subject k) (k_challenge k)
    (k_expires_at k) (k_used k).

(** A live ticket becomes a used one. *)
Definition ticket_used (h : bytes) (k : ticket_row) (d d' : Db) : Prop :=
  exists lt, db_late d = Some lt /\ lt_tickets lt !! h = Some k /\ k_used k = false /\
    (exists now, now <= k_expires_at k) /\
    d' = set_late (Some (set_tickets (<[h := k_use k]> (lt_tickets lt)) lt)) d.

(** A ticket is added under a hash that was free. *)
Definition ticket_added (h : bytes) (k : ticket_row) (d d' : Db) : Prop :=
  exists lt, db_late d = Some lt /\ lt_tickets lt !! h = None /\
    d' = set_late (Some (set_tickets (<[h := k]> (lt_tickets lt)) lt)) d.

Definition token_added (h : bytes) (b : token_row) (d d' : Db) : Prop :=
  exists lt, db_late d = Some lt /\ lt_tokens lt !! h = None /\
    d' = set_late (Some (set_tokens (<[h := b]> (lt_tokens lt)) lt)) d.

(** A live token becomes a used one and its node is added. *)
Definition node_registered (h : bytes) (b : token_row) (id : UUID) (d d' : Db) : Prop :=
  exists lt, db_late d = Some lt /\ lt_tokens lt !! h = Some b /\ b_used b = false /\
    b_tenant b ∈ db_tenants d /\ db_nodes d !! id = None /\
    node_taken (b_tenant b) (b_ts_stable_node_id b) (cert_serial id) d = false /\
    d' = set_nodes (<[id := mkNode (b_tenant b) (b_ts_stable_node_id b) (b_tailnet_id b)
                             (cert_serial id) "ACTIVE" 0]> (db_nodes d))
           (set_late (Some (set_tokens (<[h := b_use b]> (lt_tokens lt)) lt)) d).

Definition device_added (id : UUID) (v : device_row) (d d' : Db) : Prop :=
  db_devices d !! id = None /\
  device_key_taken (d_tenant v) (d_device_auth_pub v) (d_approval_auth_pub v) d = false /\
  d_tenant v ∈ db_tenants d /\ is_Some (select_user (d_tenant v) (d_user v) d) /\
  d' = set_devices (<[id := v]> (db_devices d)) d.

(** ** Each operation *)

Lemma IssueEnrollmentTicket_cases env t u iss sub ttl d :
  let '(r, d') := run (IssueEnrollmentTicket t u iss sub ttl) env d in
  r <> Panic /\
  ((d' = d /\ forall et, r <> Ok et) \/
   exists s k, ticket_added (ticket_hash s) k d d' /\ k_used k = false /\
     k_tenant k = t /\ k_user k = u /\ k_issuer k = iss /\ k_subject k = sub /\
     forall et, r = Ok et -> et_Ticket et = s /\ et_Challenge et = k_challenge k).
Proof.
  rewrite (surjective_pairing (run _ _ _)). wp_start. unfold IssueEnrollmentTicket. wp_go.
  apply wp_rand_Read. intros rnd w1 E1 T1. wp_go. unfold NewNonce.
  destruct rnd as [ch|]; cbn [wrap]; [|by split; [|left]]. wp_go.
  apply wp_rand_Read. intros rnd2 w2 E2 T2. wp_go. apply wp_time_Now. intros now w3 E3 T3. wp_go.
  assert (Hd : w_db w3 = d) by (by rewrite E3, E2, E1).
  assert (Hadd : forall n x row h, insert_ticket h row n (w_db w3) = inr (tt, x) -> ticket_added h row d x).
  { rewrite Hd. intros n x row h Hi. apply (on_late_Ok _ n) in Hi as (lt & lt' & El & Hf & ->).
    destruct (is_some (lt_tickets lt !! h)) eqn:Eh; [done|]. injection Hf as <-.
    exists lt. split_and!; [done|by destruct (lt_tickets lt !! h)|done]. }
  apply wp_db_exec.
  - intros n [] x w4 Hi E4 T4. wp_go. apply wp_time_Now. intros n2 w5 E5 T5. wp_go. split; [done|]. right.
    do 2 eexists. split; [rewrite E5, E4; by eapply Hadd|]. split_and!; [done..|]. by intros et [= <-].
  - intros n [] x e w4 Hi E4 T4. split; [done|]. right. do 2 eexists.
    split; [rewrite E4; by eapply Hadd|by split_and!].
  - intros e w4 E4 T4. split; [done|]. left. split; [by rewrite E4|done].
Qed.

Lemma ValidateEnrollmentTicket_cases env s d :
  let '(r, d') := run (ValidateEnrollmentTicket s) env d in
  r <> Panic /\
  ((d' = d /\ forall et, r <> Ok et) \/
   exists k, ticket_used (ticket_hash s) k d d' /\ forall et, r = Ok et -> et = ticket_of s k).
Proof.
  rewrite (surjective_pairing (run _ _ _)). wp_start. unfold ValidateEnrollmentTicket. wp_go.
  apply (wp_BeginTx _ _ _ d); [done| |by split; [|left]]. intros now0 w1 H1. wp_go. apply wp_try.
  eapply wp_tx_exec; [done| |by intros e w [E _]; wp_go; split; [|left]]. intros [[sh k]|] d1 w2 _ Hs H2.
  2:{ destruct H2 as [E _]. wp_go. by split; [|left]. }
  apply select_ticket_Ok in Hs as (-> & lt & El & Ek).
  destruct (lt_tickets lt !! sha256 (str_bytes s)) as [k'|] eqn:Elk; [|done]. injection Ek as -> ->.
  rewrite (proj2 (ConstantTimeCompare_1 _ _)) by done. cbn [negb].
  destruct (k_used k') eqn:Eu; [destruct H2 as [E _]; wp_go; by split; [|left]|].
  wp_go. apply wp_time_Now. intros now w3 E3 T3.
  destruct (time_After now (k_expires_at k')) eqn:Ea.
  { wp_go. split; [done|]. left. cbn. rewrite E3. by destruct H2. }
  wp_go. eapply wp_tx_exec; [by eapply in_tx_same| |by intros e w [E _]; split; [|left]].
  intros [] d2 w4 _ Hu H4. apply (on_late_Ok _ now0) in Hu as (lt' & lt2 & El' & [= <-] & ->).
  rewrite El in El'. injection El' as <-. wp_go.
  assert (Hx : ticket_used (ticket_hash s) k' d
    (set_late (Some (set_tickets (alter k_use (sha256 (str_bytes s)) (lt_tickets lt)) lt)) d)).
  { exists lt. split_and!; try done.
    - exists now. unfold time_After in Ea. by apply Z.ltb_ge in Ea.
    - do 4 f_equal. by apply alter_lookup. }
  eapply wp_Commit; [done| |].
  - intros w5 _ Hd _. wp_go. split; [done|]. right. exists k'. cbn. rewrite Hd. split; [done|].
    intros et [= <-]. unfold ticket_of. by rewrite Eu.
  - intros e w5 [Hd|[_ Hd]] _; (split; [done|]); cbn; rewrite Hd; [by left|right]. by exists k'.
Qed.

Lemma IssueNodeBootstrap_cases env t tn node ttl u d :
  let '(r, d') := run (IssueNodeBootstrap t tn node ttl u) env d in
  r <> Panic /\
  ((d' = d /\ forall bt, r <> Ok bt) \/
   exists s b, token_added (ticket_hash s) b d d' /\ b_used b = false /\
     b_tenant b = t /\ b_tailnet_id b = tn /\ b_ts_stable_node_id b = node /\ b_issued_by b = u).
Proof.
  rewrite (surjective_pairing (run _ _ _)). wp_start. unfold IssueNodeBootstrap. wp_go.
  apply wp_rand_Read. intros rnd w1 E1 T1. wp_go. apply wp_time_Now. intros now w3 E3 T3. wp_go.
  assert (Hd : w_db w3 = d) by (by rewrite E3, E1).
  assert (Hadd : forall n x row h, insert_token h row n (w_db w3) = inr (tt, x) -> token_added h row d x).
  { rewrite Hd. intros n x row h Hi. apply (on_late_Ok _ n) in Hi as (lt & lt' & El & Hf & ->).
    destruct (is_some (lt_tokens lt !! h)) eqn:Eh; [done|]. injection Hf as <-.
    exists lt. split_and!; [done|by destruct (lt_tokens lt !! h)|done]. }
  apply wp_db_exec.
  - intros n [] x w4 Hi E4 T4. wp_go. apply wp_time_Now. intros n2 w5 E5 T5. wp_go. split; [done|]. right.
    do 2 eexists. split; [rewrite E5, E4; by eapply Hadd|by split_and!].
  - intros n [] x e w4 Hi E4 T4. split; [done|]. right. do 2 eexists.
    split; [rewrite E4; by eapply Hadd|by split_and!].
  - intros e w4 E4 T4. split; [done|]. left. split; [by rewrite E4|done].
Qed.

Lemma insert_device_Ok id t u e now d x :
  insert_device id t u e now d = inr (tt, x) ->
  exists v, device_added id v d x /\ d_tenant v = t /\ d_user v = u /\ d_counter v = 0 /\
    d_state v = "ENROLLED" /\ d_security_level v = de_SecurityLevel e /\
    (de_SecurityLevel e = "STRONGBOX" \/ de_SecurityLevel e = "TEE") /\
    (forall a, de_DeviceAuthPub e = Some a -> d_device_auth_pub v = a) /\
    (forall a, de_ApprovalAuthPub e = Some a -> d_approval_auth_pub v = a).
Proof.
  unfold insert_device. intros H.
  destruct (bytea_arg (de_DeviceAuthPub e)) as [|auth] eqn:E1; [done|].
  destruct (bytea_arg (de_ApprovalAuthPub e)) as [|appr] eqn:E2; [done|].
  destruct (attestation_arg _) as [|att]; [done|].
  destruct ((de_SecurityLevel e == "STRONGBOX") || (de_SecurityLevel e == "TEE")) eqn:El; [|done]. cbn [negb] in H.
  destruct (is_some (db_devices d !! id)) eqn:Ei; [done|]. cbn [orb] in H.
  destruct (device_key_taken t auth appr d) eqn:Et; [done|].
  destruct (bool_decide (t ∈ db_tenants d)) eqn:Eb; [|done].
  destruct (select_user t u d) as [us|] eqn:Eu; [|done]. injection H as <-.
  exists (mkDevice t u auth appr att (de_SecurityLevel e) 0 "ENROLLED" None). split; [|split_and!; try done].
  - split_and!; cbn; [by destruct (db_devices d !! id)|exact Et|by apply bool_decide_eq_true in Eb|by rewrite Eu|done].
  - rewrite orb_true_iff, !eqb_true in El. done.
  - intros a Ha. rewrite Ha in E1. by injection E1.
  - intros a Ha. rewrite Ha in E2. by injection E2.
Qed.

Lemma EnrollDevice_cases env ticket e d :
  let '(r, d') := run (EnrollDevice ticket e) env d in
  r <> Panic /\
  ((d' = d /\ forall id, r <> Ok id) \/
   exists id v, device_added id v d d' /\ (forall id', r = Ok id' -> id' = id) /\
     d_tenant v = et_TenantID ticket /\ d_user v = et_UserID ticket /\ d_counter v = 0 /\
     d_state v = "ENROLLED" /\ d_security_level v = de_SecurityLevel e /\
     (de_SecurityLevel e = "STRONGBOX" \/ de_SecurityLevel e = "TEE") /\
     (forall a, de_DeviceAuthPub e = Some a -> d_device_auth_pub v = a) /\
     (forall a, de_ApprovalAuthPub e = Some a -> d_approval_auth_pub v = a)).
Proof.
  rewrite (surjective_pairing (run _ _ _)). wp_start. unfold EnrollDevice. wp_go.
  destruct (verifyAttestation e ticket) as [[]|er|] eqn:Ea; cbn [wrap]; [|by split; [|left]|].
  2:{ unfold verifyAttestation in Ea. by destruct (_ && _). }
  destruct (_ && _); [wp_go; by split; [|left]|]. wp_go. apply wp_uuid_New. intros id w1 E1 T1. wp_go.
  apply wp_db_exec.
  - intros n [] x w2 Hi E2 T2. wp_go. split; [done|]. right. rewrite E1 in Hi. cbn in Hi.
    apply insert_device_Ok in Hi as (v & Ha & Hv). exists id, v. rewrite E2. split; [done|].
    split; [by intros id' [= <-]|]. tauto.
  - intros n [] x er w2 Hi E2 T2. split; [done|]. right. rewrite E1 in Hi. cbn in Hi.
    apply insert_device_Ok in Hi as (v & Ha & Hv). exists id, v. rewrite E2. split; [done|].
    split; [done|]. tauto.
  - intros er w2 E2 T2. split; [done|]. left. split; [by rewrite E2, E1|done].
Qed.

Lemma RegisterNode_cases env s tn node csr d :
  let '(r, d') := run (RegisterNode s tn node csr) env d in
  r <> Panic /\
  ((d' = d /\ forall id, r <> Ok id) \/
   exists id b, node_registered (ticket_hash s) b id d d' /\ (forall id', r = Ok id' -> id' = id) /\
     b_ts_stable_node_id b = node /\ b_tailnet_id b = tn /\ exists now, now <= b_expires_at b).
Proof.
  rewrite (surjective_pairing (run _ _ _)). wp_start. unfold RegisterNode. wp_go.
  apply (wp_BeginTx _ _ _ d); [done| |by split; [|left]]. intros now0 w1 H1. wp_go. apply wp_try.
  eapply wp_tx_exec; [done| |by intros e w [E _]; wp_go; split; [|left]]. intros [b|] d1 w2 _ Hs H2.
  2:{ destruct H2 as [E _]. wp_go. by split; [|left]. }
  apply select_token_Ok in Hs as (-> & lt & El & Ek). symmetry in Ek.
  destruct (b_used b) eqn:Eu; [destruct H2 as [E _]; wp_go; by split; [|left]|].
  wp_go. apply wp_time_Now. intros now w3 E3 T3.
  destruct (time_After now (b_expires_at b)) eqn:Ea.
  { wp_go. split; [done|]. left. cbn. rewrite E3. by destruct H2. }
  destruct ((b_ts_stable_node_id b != node) || (b_tailnet_id b != tn)) eqn:Em.
  { wp_go. split; [done|]. left. cbn. rewrite E3. by destruct H2. }
  rewrite orb_false_iff, !neqb_false in Em. destruct Em as [<- <-].
  wp_go. eapply wp_tx_exec; [by eapply in_tx_same| |by intros e w [E _]; split; [|left]].
  intros [] d2 w4 _ Hu H4. apply (on_late_Ok _ now0) in Hu as (lt' & lt2 & El' & [= <-] & ->).
  rewrite El in El'. injection El' as <-. wp_go. apply wp_uuid_New. intros id w5 E5 T5. wp_go.
  eapply wp_tx_exec; [by eapply in_tx_same| |by intros e w [E _]; split; [|left]].
  intros [] d3 w6 _ Hi H6. wp_go. unfold insert_node in Hi. cbn in Hi.
  destruct (is_some (db_nodes d !! id)) eqn:Ei; [done|]. cbn [orb] in Hi.
  destruct (node_taken (b_tenant b) (b_ts_stable_node_id b) (cert_serial id) _) eqn:Et; [done|].
  destruct (bool_decide (b_tenant b ∈ db_tenants d)) eqn:Eb; [|done]. cbn [negb] in Hi. injection Hi as <-.
  assert (Ealt : alter b_use (sha256 (str_bytes s)) (lt_tokens lt) =
    <[ticket_hash s := b_use b]> (lt_tokens lt)) by (by apply alter_lookup).
  rewrite Ealt in H6.
  assert (Hx : exists now, now <= b_expires_at b)
    by (exists now; unfold time_After in Ea; by apply Z.ltb_ge in Ea).
  lazymatch type of H6 with in_tx _ _ ?x _ _ =>
    assert (Hreg : node_registered (ticket_hash s) b id d x) end.
  { exists lt. split_and!; [done|done|done|by apply bool_decide_eq_true in Eb| |exact Et|reflexivity].
    by destruct (db_nodes d !! id). }
  eapply wp_Commit; [done| |].
  - intros w7 _ Hd _. wp_go. split; [done|]. right. exists id, b. cbn. rewrite Hd.
    split_and!; [exact Hreg|by intros id' [= <-]|done..].
  - intros e w7 [Hd|[_ Hd]] _; (split; [done|]); cbn; rewrite Hd; [by left|right]. exists id, b.
    split_and!; [exact Hreg|done..].
Qed.

(** ** Theorems *)

(** A server that answers. *)
Definition answers (env : Env) : Prop := healthy env /\ forall n, is_Some (env_rand env n).

(** An issued ticket works, once.  With a server that answers and a ticket
    hash that is free, [IssueEnrollmentTicket] returns a ticket whose text, shown
    not later than the stored expiry, [ValidateEnrollmentTicket] resolves to the
    tenant, user, issuer, subject and attestation challenge it was issued for; the
    text is refused from then on, in any environment. *)
Theorem issued_ticket_validates env env2 t u iss sub ttl d lt :
  answers env -> answers env2 -> db_late d = Some lt ->
  (forall rnd, env_rand env 1%nat = Some rnd ->
     lt_tickets lt !! ticket_hash (RawURLEncoding_EncodeToString rnd) = None) ->
  env_now env2 0%nat <= timestamptz_in (env_now env 0%nat + ttl) ->
  exists et d1 et2 d2,
    run (IssueEnrollmentTicket t u iss sub ttl) env d = (Ok et, d1) /\
    run (ValidateEnrollmentTicket (et_Ticket et)) env2 d1 = (Ok et2, d2) /\
    (et_TenantID et2, et_UserID et2, et_Issuer et2, et_Subject et2) = (t, u, iss, sub) /\
    et_Challenge et2 = et_Challenge et /\ env_rand env 0%nat = Some (et_Challenge et) /\
    forall env3, (run (ValidateEnrollmentTicket (et_Ticket et)) env3 d2).2 = d2 /\
      forall et3, (run (ValidateEnrollmentTicket (et_Ticket et)) env3 d2).1 <> Ok et3.
Proof.
  intros [Hf Hr] [Hf2 _] Hl Hfree Hexp.
  destruct (Hr 0%nat) as [ch Hch]. destruct (Hr 1%nat) as [rnd Hrnd]. specialize (Hfree _ Hrnd).
  set (s := RawURLEncoding_EncodeToString rnd) in *.
  set (k := mkTicketRow t u iss sub ch (timestamptz_in (env_now env 0%nat + ttl)) false).
  set (lt1 := set_tickets (<[ticket_hash s := k]> (lt_tickets lt)) lt).
  set (d1 := set_late (Some lt1) d).
  assert (Hissue : run (IssueEnrollmentTicket t u iss sub ttl) env d =
    (Ok (mkEnrollmentTicket s t u iss sub ch (env_now env 1%nat + ttl) false), d1)).
  { unfold IssueEnrollmentTicket, run, mbind, M_bind, mwrap, rand_Read, time_Now, db_exec, lift,
      insert_ticket, on_late. cbn -[str_bytes]. rewrite Hch. cbn -[str_bytes]. rewrite Hrnd.
    cbn -[str_bytes]. rewrite Hf, Hl. fold s. unfold ticket_hash in Hfree. rewrite Hfree. done. }
  assert (Hlk : lt_tickets lt1 !! sha256 (str_bytes s) = Some k) by apply lookup_insert_eq.
  set (d2 := set_late (Some (set_tickets (alter k_use (ticket_hash s) (lt_tickets lt1)) lt1)) d1).
  assert (Hval : run (ValidateEnrollmentTicket s) env2 d1 = (Ok (ticket_of s k), d2)).
  { rewrite (surjective_pairing (run _ _ _)). wp_start. unfold ValidateEnrollmentTicket. wp_go.
    apply live_BeginTx; [done|]. intros now0 w1 H1. wp_go. apply wp_try.
    eapply live_tx_exec; [done..| |].
    { apply select_ticket_Ok. split; [done|]. by exists lt1. }
    intros w2 H2. fold s. rewrite Hlk. cbn [fmap option_fmap option_map].
    rewrite (proj2 (ConstantTimeCompare_1 _ _)) by done. cbn [negb k_used k].
    wp_go. eapply live_time_Now; [done|]. intros w3 H3.
    replace (time_After _ _) with false by (symmetry; by apply Z.ltb_ge).
    wp_go. eapply live_tx_exec; [done..| |].
    { apply (on_late_Ok _ now0). by eexists lt1, _. }
    intros w4 H4. wp_go. eapply live_Commit; [done..|]. intros w5 E5. wp_go. cbn [w_db].
    by rewrite E5. }
  do 4 eexists. split; [exact Hissue|]. cbn [et_Ticket]. split; [exact Hval|]. split_and!; [done..|].
  intros env3. pose proof (ValidateEnrollmentTicket_cases env3 s d2) as Hc.
  destruct (run (ValidateEnrollmentTicket s) env3 d2) as [r3 d3]. destruct Hc as [_ [[-> Hno]|(k3 & Hu & _)]].
  - done.
  - destruct Hu as (lt3 & [= <-] & Hk3 & Hfalse & _). 
    change (alter k_use (ticket_hash s) (lt_tickets lt1) !! ticket_hash s = Some k3) in Hk3.
    rewrite lookup_alter_eq in Hk3. change (k_use <$> lt_tickets lt1 !! sha256 (str_bytes s) = Some k3) in Hk3.
    rewrite Hlk in Hk3. injection Hk3 as <-. done.
Qed.

(** Registration is what the token allows: a node is registered only
    through a token that was unused and issued for exactly this tailnet and stable
    node id, in the tenant the token was issued for; the token is then used and
    exactly one node row was added, active, with a stable id and a certificate
    serial no other node of the tenant has.  Any other outcome than a lost
    acknowledgement leaves the database as it was. *)
Theorem registration_needs_token env s tn node csr d :
  let '(r, d') := run (RegisterNode s tn node csr) env d in
  r <> Panic /\
  ((d' = d /\ forall id, r <> Ok id) \/
   exists id lt b, (forall id', r = Ok id' -> id' = id) /\
     db_late d = Some lt /\ lt_tokens lt !! ticket_hash s = Some b /\ b_used b = false /\
     b_ts_stable_node_id b = node /\ b_tailnet_id b = tn /\
     (forall id' n, db_nodes d !! id' = Some n -> n_tenant n = b_tenant b ->
        n_ts_stable_node_id n <> node /\ n_cert_serial n <> cert_serial id) /\
     db_nodes d' = <[id := mkNode (b_tenant b) node tn (cert_serial id) "ACTIVE" 0]> (db_nodes d) /\
     db_nodes d !! id = None /\
     db_late d' = Some (set_tokens (<[ticket_hash s := b_use b]> (lt_tokens lt)) lt)).
Proof.
  pose proof (RegisterNode_cases env s tn node csr d) as Hc.
  destruct (run (RegisterNode s tn node csr) env d) as [r d']. destruct Hc as [Hp Hc]. split; [done|].
  destruct Hc as [Hc|(id & b & (lt & El & Hb & Hu & _ & Hn & Ht & ->) & Hid & <- & <- & _)]; [by left|].
  right. exists id, lt, b. split_and!; try done. intros id' n Hl E. unfold node_taken in Ht.
  apply not_true_iff_false in Ht. rewrite existsb_exists in Ht.
  split; intros E2; apply Ht; exists (id', n);
    (split; [by apply list_elem_of_In, elem_of_map_to_list|]); rewrite E, E2, !eqb_refl; by rewrite ?orb_true_r.
Qed.

(** Enrollment looks at the security level only: with a server that answers, any
    ticket value - never issued, expired or used before - enrolls a device with any
    keys that are free and any attestation the column takes, even on a database
    without the table of tickets. *)
Theorem enrollment_needs_no_ticket env ticket auth approval att level d :
  answers env -> et_TenantID ticket ∈ db_tenants d ->
  is_Some (select_user (et_TenantID ticket) (et_UserID ticket) d) ->
  level = SecurityLevelTEE \/ level = SecurityLevelStrongBox -> is_Some (jsonb_in att) ->
  device_key_taken (et_TenantID ticket) auth approval d = false ->
  db_devices d !! env_uuid env 0%nat = None ->
  forall approvalAtt, (run (EnrollDevice ticket
    (mkDeviceEnrollment (Some auth) (Some approval) (Some att) approvalAtt level)) env d).1
    = Ok (env_uuid env 0%nat).
Proof.
  intros [Hf _] Ht [us Hus] Hlev [a Ha] Hk Hid aatt.
  unfold EnrollDevice, run, mbind, M_bind, mwrap, uuid_New, db_exec, lift, verifyAttestation, insert_device.
  cbn -[device_key_taken select_user].
  assert (Hl1 : (level != SecurityLevelTEE) && (level != SecurityLevelStrongBox) = false)
    by (by destruct Hlev as [-> | ->]).
  assert (Hl2 : (level != SecurityLevelStrongBox) && (level != SecurityLevelTEE) = false)
    by (by rewrite andb_comm).
  assert (Hl3 : (level == "STRONGBOX") || (level == "TEE") = true) by (by destruct Hlev as [-> | ->]).
  rewrite Hl1. cbn -[device_key_taken select_user]. rewrite Hl2. cbn -[device_key_taken select_user].
  rewrite Hf, Ha, Hl3, Hid, Hk, (bool_decide_eq_true_2 _ Ht), Hus. done.
Qed.

(** The attestation goes to a [jsonb] column: one that is not JSON - the CBOR
    chain the field is documented to hold - is refused whatever else happens. *)
Theorem cbor_attestation_refused env ticket e att d :
  de_DeviceAuthAttestation e = Some att -> jsonb_in att = None ->
  (run (EnrollDevice ticket e) env d).2 = d /\ forall id, (run (EnrollDevice ticket e) env d).1 <> Ok id.
Proof.
  intros He Hj. wp_start. unfold EnrollDevice. wp_go.
  destruct (verifyAttestation e ticket) as [[]|er|]; cbn [wrap]; [|done..].
  destruct (_ && _); [wp_go; done|]. wp_go. apply wp_uuid_New. intros id w1 E1 T1. wp_go.
  assert (Hno : forall n x, insert_device id (et_TenantID ticket) (et_UserID ticket) e n (w_db w1) <> inr x).
  { intros n x. unfold insert_device, attestation_arg. rewrite He, Hj.
    by destruct (bytea_arg _); [|destruct (bytea_arg _)]. }
  apply wp_db_exec.
  - intros n a x w2 Hi. by apply Hno in Hi.
  - intros n a x er w2 Hi. by apply Hno in Hi.
  - intros er w2 E2 T2. split; [by rewrite E2, E1|done].
Qed.

(** ** Certificate serials *)

(** Two nodes of a tenant whose ids agree in the first twelve characters cannot
    both be registered: the second registration fails and its token stays unused,
    whatever the server does. *)
Lemma same_serial_refused env s tn node csr d lt b :
  db_late d = Some lt -> lt_tokens lt !! ticket_hash s = Some b ->
  (exists id n, db_nodes d !! id = Some n /\ n_tenant n = b_tenant b /\
     forall k, n_cert_serial n = cert_serial (env_uuid env k)) ->
  (run (RegisterNode s tn node csr) env d).2 = d /\
  forall id, (run (RegisterNode s tn node csr) env d).1 <> Ok id.
Proof.
  intros El Eb (id0 & n & Hn & Ht & Hser). wp_start. unfold RegisterNode. wp_go.
  apply (wp_BeginTx _ _ _ d); [done| |done]. intros now0 w1 H1. wp_go. apply wp_try.
  eapply wp_tx_exec; [done| |by intros e w [E _]; wp_go]. intros [b'|] d1 w2 _ Hs H2.
  2:{ destruct H2 as [E _]. wp_go. done. }
  apply select_token_Ok in Hs as (-> & lt' & El' & Ek). rewrite El in El'. injection El' as <-.
  unfold ticket_hash in Eb. rewrite Eb in Ek. injection Ek as ->. destruct H2 as [E2 T2].
  destruct (b_used b); [wp_go; done|]. wp_go. apply wp_time_Now. intros now w3 E3 T3.
  destruct (time_After _ _); [wp_go; cbn; rewrite E3; done|].
  destruct (_ || _); [wp_go; cbn; rewrite E3; done|]. wp_go.
  eapply wp_tx_exec; [split; [by rewrite E3|by rewrite T3]| |by intros e w [E _]].
  intros [] d2 w4 _ Hu H4. apply (on_late_Ok _ now0) in Hu as (lt' & lt2 & _ & _ & ->). wp_go.
  unfold wp at 1, uuid_New. cbn [fst snd]. wp_go.
  eapply wp_tx_exec; [exact H4| |by intros e w [E _]].
  intros [] d3 w6 _ Hi _. exfalso. unfold insert_node in Hi.
  assert (Htaken : node_taken (b_tenant b) node (cert_serial (env_uuid env (w_ids w4))) (set_late (Some lt2) d) = true).
  { unfold node_taken. apply existsb_exists. exists (id0, n).
    split; [by apply list_elem_of_In, elem_of_map_to_list|]. by rewrite Ht, (Hser (w_ids w4)), !eqb_refl, orb_true_r. }
  rewrite Htaken, orb_true_r in Hi. done.
Qed.

End Props.

(** [UUID.String]: thirty-two digits in groups of 8, 4, 4, 4 and 12. *)
Definition uuid_text (u : UUID) : string :=
  let h := hex (uuid_bytes u) in
  (String.substring 0 8 h +:+ "-" +:+ String.substring 8 4 h +:+ "-" +:+ String.substring 12 4 h +:+
   "-" +:+ String.substring 16 4 h +:+ "-" +:+ String.substring 20 12 h)%string.

(** The Unix time in milliseconds that starts a version 7 UUID. *)
Definition uuid_ms (u : UUID) : Z := be_Z (take 6 (uuid_bytes u)).

Lemma uuid_bytes_16 u : exists b0 b1 b2 b3 b4 b5 l, uuid_bytes u = b0 :: b1 :: b2 :: b3 :: b4 :: b5 :: l /\
  length l = 10%nat.
Proof.
  pose proof (length_uuid_bytes u) as H. destruct (uuid_bytes u) as [|b0 [|b1 [|b2 [|b3 [|b4 [|b5 l]]]]]]; try done.
  exists b0, b1, b2, b3, b4, b5, l. split; [done|]. by injection H.
Qed.

(** Two numbers with these six digits in base 256 agree up to the last hexadecimal
    digit only if their digits do. *)
Lemma window_digits a0 a1 a2 a3 a4 a5 b0 b1 b2 b3 b4 b5 :
  Forall (fun z => 0 <= z < 256) [a0; a1; a2; a3; a4; a5; b0; b1; b2; b3; b4; b5] ->
  let n x0 x1 x2 x3 x4 x5 := x0 * 2 ^ 40 + (x1 * 2 ^ 32 + (x2 * 2 ^ 24 + (x3 * 2 ^ 16 + (x4 * 2 ^ 8 + (x5 * 1 + 0))))) in
  n a0 a1 a2 a3 a4 a5 / 16 = n b0 b1 b2 b3 b4 b5 / 16 ->
  a0 = b0 /\ a1 = b1 /\ a2 = b2 /\ a3 = b3 /\ a4 = b4 /\ a5 / 16 = b5 / 16.
Proof.
  intros Hf n. rewrite !Forall_cons in Hf. destruct Hf as (?&?&?&?&?&?&?&?&?&?&?&?&_).
  assert (Hn : forall x0 x1 x2 x3 x4 x5, n x0 x1 x2 x3 x4 x5 / 16 =
    x0 * 2 ^ 36 + x1 * 2 ^ 28 + x2 * 2 ^ 20 + x3 * 2 ^ 12 + x4 * 16 + x5 / 16).
  { intros. rewrite <- Z.div_add_l by done. f_equal. unfold n. lia. }
  rewrite !Hn. clearbody n. clear Hn.
  assert (Ha : 0 <= a5 / 16 < 16) by (split; [apply Z.div_pos|apply Z.div_lt_upper_bound]; lia).
  assert (Hb : 0 <= b5 / 16 < 16) by (split; [apply Z.div_pos|apply Z.div_lt_upper_bound]; lia).
  revert Ha Hb. generalize (a5 / 16), (b5 / 16). intros a b Ha Hb E.
  assert (a0 = b0) by lia. assert (a1 = b1) by lia. assert (a2 = b2) by lia. assert (a3 = b3) by lia.
  assert (a4 = b4) by lia. lia.
Qed.

(** The serial of a node keeps eleven of the twelve digits of the time: it changes
    every sixteen milliseconds. *)
Lemma text_window u v :
  uuid_ms u / 16 = uuid_ms v / 16 ->
  String.substring 0 12 (uuid_text u) = String.substring 0 12 (uuid_text v).
Proof.
  unfold uuid_ms, uuid_text.
  destruct (uuid_bytes_16 u) as (a0 & a1 & a2 & a3 & a4 & a5 & l & -> & _).
  destruct (uuid_bytes_16 v) as (b0 & b1 & b2 & b3 & b4 & b5 & m & -> & _).
  cbn [take be_Z length]. intros E.
  apply window_digits in E; [|repeat constructor; apply Z_of_byte_bound].
  destruct E as (->%(inj _) & ->%(inj _) & ->%(inj _) & ->%(inj _) & ->%(inj _) & E5).
  change 16 with (2 ^ 4) in E5. rewrite <- !Z.shiftr_div_pow2 in E5 by done.
  cbn [hex]. rewrite E5. reflexivity.
Qed.

(** Nodes registered in the same window collide: with the text form of UUIDs
    as the package documents it, once a tenant has a node whose id was made in some
    window of sixteen milliseconds, every registration in that tenant whose new id
    falls in the same window is refused, whatever the server does; the token stays
    unused and no node is added. *)
Theorem same_window_refused `{UT : UuidText} `{GC : GoCrypto}
    (Htext : forall u, uuid_String u = uuid_text u) env s tn node csr d lt b id n :
  db_late d = Some lt -> lt_tokens lt !! ticket_hash s = Some b ->
  db_nodes d !! id = Some n -> n_tenant n = b_tenant b -> n_cert_serial n = cert_serial id ->
  (forall k, uuid_ms (env_uuid env k) / 16 = uuid_ms id / 16) ->
  (run (RegisterNode s tn node csr) env d).2 = d /\
  forall id', (run (RegisterNode s tn node csr) env d).1 <> Ok id'.
Proof.
  intros El Eb Hn Ht Hs Hw. eapply same_serial_refused; [done..|]. exists id, n. split_and!; [done..|].
  intros k. rewrite Hs. unfold cert_serial. rewrite !Htext, (text_window _ _ (Hw k)). done.
Qed.

(** ** On concrete data *)

(** The documented text form, as an instance of the parameter. *)
Definition uuid_untext (s : string) : option UUID :=
  l ← unhex (String.substring 0 8 s +:+ String.substring 9 4 s +:+ String.substring 14 4 s +:+
             String.substring 19 4 s +:+ String.substring 24 12 s)%string;
  uuid_from l.

Lemma uuid_untext_text u : uuid_untext (uuid_text u) = Some u.
Proof.
  unfold uuid_untext, uuid_text. pose proof (length_uuid_bytes u) as H.
  destruct (uuid_bytes u) as [|b0 [|b1 [|b2 [|b3 [|b4 [|b5 [|b6 [|b7 [|b8 [|b9 [|b10 [|b11 [|b12 [|b13 [|b14 [|b15
    [|]]]]]]]]]]]]]]]]] eqn:E; try done. rewrite <- E.
  transitivity (unhex (hex (uuid_bytes u)) ≫= uuid_from).
  - f_equal. rewrite E. reflexivity.
  - rewrite unhex_hex. apply uuid_from_bytes.
Qed.

Definition canonical_UuidText : UuidText := {|
  uuid_String := uuid_text;
  uuid_Parse := uuid_untext;
  uuid_Parse_String := uuid_untext_text
|}.

Definition empty_late : late_tables := mkLate ∅ ∅ ∅.

(** A database on which the missing tables were created. *)
Definition enroll_db : Db := set_late (Some empty_late) sample_db.

Lemma sample_answers base : answers (sample_env base).
Proof. split; [done|]. intros n. by eexists. Qed.

Lemma issued_ticket_validates_witness :
  exists et d1 et2 d2,
    @run _ (@IssueEnrollmentTicket ref_GoCrypto pg_any tenant1 user1 "https://idp" "alice" Minute)
      (sample_env 100) enroll_db = (Ok et, d1) /\
    run (ValidateEnrollmentTicket (et_Ticket et)) (sample_env 200) d1 = (Ok et2, d2) /\
    et_UserID et2 = user1.
Proof.
  destruct (@issued_ticket_validates ref_GoCrypto pg_any (sample_env 100) (sample_env 200) tenant1 user1
    "https://idp" "alice" Minute enroll_db empty_late) as (et & d1 & et2 & d2 & H1 & H2 & H3 & _).
  - apply sample_answers.
  - apply sample_answers.
  - reflexivity.
  - intros rnd _. reflexivity.
  - vm_compute. discriminate.
  - exists et, d1, et2, d2. split; [exact H1|]. split; [exact H2|]. congruence.
Defined.

(** A tenant whose first node was registered at 1000 ms, and a token for another. *)
Definition node_at (ms : Z) : UUID := uuid_of_Z (ms * 2 ^ 80 + 7 * 2 ^ 76 + 2 ^ 63).
Definition window_token : token_row := mkTokenRow tenant1 "tailnet-a" "n-two" (sample_now + Hour) user1 false.
Definition window_node : node_row :=
  mkNode tenant1 "n-one" "tailnet-a" (@cert_serial canonical_UuidText (node_at 1000)) "ACTIVE" 0.
Definition window_db : Db :=
  set_late (Some (mkLate ∅ ∅ {[@ticket_hash ref_GoCrypto "t" := window_token]}))
    (set_nodes {[node_at 1000 := window_node]} sample_db).
Definition window_env : Env :=
  mkEnv (fun _ => NoFault) (fun _ => sample_now) (fun _ => sample_now) (fun _ => node_at 1007) (fun _ => None).

Lemma same_window_refused_witness :
  forall id', (run (@RegisterNode canonical_UuidText ref_GoCrypto "t" "tailnet-a" "n-two" []) window_env
    window_db).1 <> Ok id'.
Proof.
  refine (proj2 (@same_window_refused canonical_UuidText ref_GoCrypto (fun u => eq_refl) window_env "t"
    "tailnet-a" "n-two" [] window_db _ window_token (node_at 1000) window_node eq_refl _ _ eq_refl
    eq_refl _)).
  - apply lookup_singleton_eq.
  - apply lookup_singleton_eq.
  - intros k. vm_compute. reflexivity.
Defined.
