(* ===== verification/System.v ===== *)
(** * System: the service as a transition system

    A step of the service is a complete run of one of its handlers on the
    committed tables, in any environment (any statement may fail, any commit may
    lose its acknowledgement): the engine, revocation, delivery, and the
    administration - enrollment, roles and policy publication.  [reachable] closes a database without requests
    and grants under steps; [system_ok] is the invariant that holds there. *)

From stdpp Require Import base gmap strings list fin_maps sorting pretty.
From Stdlib Require Import ZArith Lia Strings.Byte.
From S2P Require Import Prelude Identity Cose Envelope Reference Database Schema Messaging AuditChain.
From S2P Require Import Enforcement EngineSpec Revocation MessagingProps RevocationProps.
From S2P Require Import Rbac RbacProps Policy PolicyProps Enrollment EnrollmentProps.

Open Scope Z_scope.
Open Scope go_scope.

(** ** The invariant *)

(** The shapes a request can have. *)
Definition request_ok (q : request_row) : Prop :=
  (q_state q = "PENDING" /\ q_state_version q = 0 /\ q_response q = None /\ q_decided_at q = None) \/
  (q_state q = "CANCELLED" /\ q_state_version q = 1 /\ q_response q = None /\ q_decided_at q <> None) \/
  (q_state q = "DENIED" /\ q_state_version q = 1 /\ q_decided_at q <> None /\
   exists rs, q_response q = Some rs /\ rs_decision rs <> DecisionApprove) \/
  (q_state q = "GRANTED" /\ q_state_version q = 2 /\ q_decided_at q <> None /\
   exists rs, q_response q = Some rs /\ rs_decision rs = DecisionApprove).

Section System.
Context `{UT : UuidText} `{CI : CborInit} `{GC : GoCrypto}.
Context `{CB : Cbor ScopeBinding} `{CA : Cbor AGTPayload}.
Context `{PG : Postgres} `{GJ : GoJson} `{RS : RequestSigner} `{GS : GrantSigner}.

(** A grant has a GRANTED request behind it that agrees with it, an approval
    signed with the approval key of the device it names, and a lifetime the
    trigger allows. *)
Definition grant_ok (d : Db) (t : UUID) (g : grant_row) : Prop :=
  exists q rs resp dev,
    select_request t (g_request g) d = Some q /\ q_state q = "GRANTED" /\
    q_response q = Some rs /\ rs_decision rs = DecisionApprove /\
    g_user g = q_user q /\ g_resource g = q_resource q /\ g_scope g = q_scope q /\
    g_src_node_id g = q_src_node_id q /\ g_policy_version g = q_policy_version q /\
    select_device t (g_device g) d = Some dev /\
    VerifyApprovalResponse resp (d_approval_auth_pub dev) = Ok tt /\
    ar_Signature resp = rs_sig rs /\ ar_DeviceCounter resp = rs_device_counter rs /\
    rs_device_counter rs <= d_counter dev /\
    validate_grant_ttl t g d = None.

(** The counter under which a grant was approved. *)
Definition approved_at (d : Db) (t : UUID) (g : grant_row) (c : Z) : Prop :=
  exists q rs, select_request t (g_request g) d = Some q /\ q_response q = Some rs /\
    rs_device_counter rs = c.

Record system_ok (d : Db) : Prop := mkSystemOk {
  so_requests : forall id q, db_requests d !! id = Some q -> request_ok q;
  so_grants : forall t jti g, db_grants d !! (t, jti) = Some g -> grant_ok d t g;
  so_unique : forall t j1 j2 g1 g2, db_grants d !! (t, j1) = Some g1 ->
    db_grants d !! (t, j2) = Some g2 -> g_request g1 = g_request g2 -> j1 = j2;
  so_counters : forall t j1 j2 g1 g2 c, db_grants d !! (t, j1) = Some g1 ->
    db_grants d !! (t, j2) = Some g2 -> g_device g1 = g_device g2 ->
    approved_at d t g1 c -> approved_at d t g2 c -> j1 = j2;
  so_logs : logs_ok d
}.

(** ** What no step undoes *)

(** A decided request never changes again. *)
Definition keeps_decided (d d' : Db) : Prop :=
  forall id q, db_requests d !! id = Some q -> q_state q <> "PENDING" -> db_requests d' !! id = Some q.

(** No request disappears or changes anything but its state and response. *)
Definition keeps_requests (d d' : Db) : Prop :=
  forall id q, db_requests d !! id = Some q -> exists q', db_requests d' !! id = Some q' /\
    exists st v rs dec, q' = q_update st v rs dec q.

(** Devices keep their keys; their counters do not go back. *)
Definition keeps_devices (d d' : Db) : Prop :=
  forall id v, db_devices d !! id = Some v -> exists v', db_devices d' !! id = Some v' /\
    d_tenant v' = d_tenant v /\ d_approval_auth_pub v' = d_approval_auth_pub v /\
    d_device_auth_pub v' = d_device_auth_pub v /\ d_counter v <= d_counter v'.

(** Grants only get consumed or deleted. *)
Definition no_new_grants (d d' : Db) : Prop :=
  forall k g', db_grants d' !! k = Some g' -> exists g, db_grants d !! k = Some g /\
    (g' = g \/ exists t, g' = g_consume t g).

(** Tickets and tokens stay, and used ones stay used. *)
Definition keeps_late (d d' : Db) : Prop :=
  forall lt, db_late d = Some lt -> exists lt', db_late d' = Some lt' /\
    (forall h k, lt_tickets lt !! h = Some k ->
       lt_tickets lt' !! h = Some k \/ k_used k = false /\ lt_tickets lt' !! h = Some (k_use k)) /\
    (forall h b, lt_tokens lt !! h = Some b ->
       lt_tokens lt' !! h = Some b \/ b_used b = false /\ lt_tokens lt' !! h = Some (b_use b)).

(** No two devices of a tenant share a key. *)
Definition keys_unique (d : Db) : Prop :=
  forall i j v w, db_devices d !! i = Some v -> db_devices d !! j = Some w -> d_tenant v = d_tenant w ->
    d_device_auth_pub v = d_device_auth_pub w \/ d_approval_auth_pub v = d_approval_auth_pub w -> i = j.

(** No device appears, and no device changes its keys. *)
Definition no_new_devices (d d' : Db) : Prop :=
  forall id v', db_devices d' !! id = Some v' -> exists v, db_devices d !! id = Some v /\
    d_tenant v = d_tenant v' /\ d_device_auth_pub v = d_device_auth_pub v' /\
    d_approval_auth_pub v = d_approval_auth_pub v'.

Lemma keys_unique_keeps d d' : no_new_devices d d' -> keys_unique d -> keys_unique d'.
Proof.
  intros Hn Hu i j v w (v0 & Hv & ? & ? & ?)%Hn (w0 & Hw & ? & ? & ?)%Hn Et Ek.
  eapply Hu; [exact Hv|exact Hw|congruence|]. destruct Ek; [left|right]; congruence.
Qed.

Lemma no_new_devices_refl d d' : db_devices d' = db_devices d -> no_new_devices d d'.
Proof. intros E id v. rewrite E. eauto. Qed.

Lemma no_new_devices_insert d d' id v v' :
  db_devices d !! id = Some v -> db_devices d' = <[id := v']> (db_devices d) ->
  d_tenant v = d_tenant v' -> d_device_auth_pub v = d_device_auth_pub v' ->
  d_approval_auth_pub v = d_approval_auth_pub v' -> no_new_devices d d'.
Proof.
  intros Hv E ? ? ? i w. rewrite E. intros [[<- <-]|[_ ?]]%lookup_insert_Some; eauto.
Qed.

Record keeps (d d' : Db) : Prop := mkKeeps {
  kp_decided : keeps_decided d d';
  kp_requests : keeps_requests d d';
  kp_devices : keeps_devices d d';
  kp_resources : db_resources d' = db_resources d;
  kp_logs : logs_ok d -> logs_ok d';
  kp_late : keeps_late d d';
  kp_keys : keys_unique d -> keys_unique d'
}.

Lemma q_update_id q : q_update (q_state q) (q_state_version q) (q_response q) (q_decided_at q) q = q.
Proof. by destruct q. Qed.

Lemma keeps_late_refl d d' : db_late d' = db_late d -> keeps_late d d'.
Proof. intros E lt Hl. exists lt. rewrite E. by split_and!; [|left|left]. Qed.

#[local] Instance keeps_refl : Reflexive keeps.
Proof.
  intros d. split; try done; [..|by apply keeps_late_refl].
  - by intros id q Hq _.
  - intros id q Hq. exists q. split; [done|].
    exists (q_state q), (q_state_version q), (q_response q), (q_decided_at q). by rewrite q_update_id.
  - intros id v Hv. exists v. by split_and!.
Qed.

Lemma keeps_same d d' :
  db_requests d' = db_requests d -> db_devices d' = db_devices d ->
  db_resources d' = db_resources d -> (logs_ok d -> logs_ok d') -> keeps_late d d' -> keeps d d'.
Proof.
  intros Er Ed Es El Et. pose proof (keeps_refl d) as [K1 K2 K3 _ _ _ _].
  split; [..|by apply keys_unique_keeps, no_new_devices_refl];
    unfold keeps_decided, keeps_requests, keeps_devices in *; rewrite ?Er, ?Ed; done.
Qed.

Lemma quiet_keeps d d' : quiet d d' -> keeps d d'.
Proof. intros [[] ? ? ? ?]. by apply keeps_same; [..|apply keeps_late_refl]. Qed.

Lemma select_keeps t id d d' q :
  keeps d d' -> select_request t id d = Some q -> q_state q <> "PENDING" ->
  select_request t id d' = Some q.
Proof.
  intros Hk [Hl Ht]%select_request_Some Hs. apply select_request_Some. split; [|done].
  by apply Hk.
Qed.

Lemma grant_ok_keeps d d' t g : keeps d d' -> grant_ok d t g -> grant_ok d' t g.
Proof.
  intros Hk (q & rs & resp & dev & Hq & Hs & Hr & Hd & ? & ? & ? & ? & ? & Hdev & Hv & ? & ? & Hc & Ht).
  apply select_device_Some in Hdev as [Hdev Hten].
  destruct (kp_devices _ _ Hk _ _ Hdev) as (dev' & Hdev' & Ht' & Hap & _ & Hc').
  exists q, rs, resp, dev'. split_and!; try done.
  - eapply select_keeps; [done..|]. by rewrite Hs.
  - apply select_device_Some. split; [done|congruence].
  - by rewrite Hap.
  - lia.
  - rewrite <- Ht. apply validate_grant_ttl_frame, Hk.
Qed.

Lemma approved_at_keeps d d' t g c :
  keeps d d' -> grant_ok d t g -> approved_at d' t g c -> approved_at d t g c.
Proof.
  intros Hk (q & rs & _ & _ & Hq & Hs & Hr & _) (q' & rs' & Hq' & Hr' & Hc).
  eapply select_keeps in Hk as Hq2; [|done|by rewrite Hs].
  exists q, rs. split_and!; [done..|congruence].
Qed.

Lemma g_consume_ok d t now g : grant_ok d t g -> grant_ok d t (g_consume now g).
Proof. done. Qed.

(** Steps that create no grant keep the grant part of the invariant. *)
Lemma system_ok_keeps d d' :
  system_ok d -> keeps d d' -> no_new_grants d d' ->
  (forall id q, db_requests d' !! id = Some q -> request_ok q) -> system_ok d'.
Proof.
  intros [Hr Hg Hu Hc Hl] Hk Hn Hr'.
  assert (Hsame : forall t j g, db_grants d' !! (t, j) = Some g -> exists g0,
    db_grants d !! (t, j) = Some g0 /\ g_request g = g_request g0 /\ g_device g = g_device g0 /\
    grant_ok d t g /\ (forall c, approved_at d' t g c -> approved_at d t g0 c)).
  { intros t j g Hl'. destruct (Hn _ _ Hl') as (g0 & H0 & Heq). exists g0.
    pose proof (Hg _ _ _ H0) as Hok.
    assert (Hok' : grant_ok d t g) by (by destruct Heq as [->|[ts ->]]; [|apply g_consume_ok]).
    split_and!; [done|by destruct Heq as [->|[ts ->]]..|done|].
    intros c Ha. eapply approved_at_keeps in Ha; [|done..]. by destruct Heq as [->|[ts ->]]. }
  split.
  - done.
  - intros t j g Hl'. destruct (Hsame _ _ _ Hl') as (_ & _ & _ & _ & Hok & _).
    by eapply grant_ok_keeps.
  - intros t j1 j2 g1 g2 H1 H2 E. apply Hsame in H1 as (? & ? & ? & _), H2 as (? & ? & ? & _).
    eapply Hu; [done..|congruence].
  - intros t j1 j2 g1 g2 c H1 H2 E A1 A2.
    apply Hsame in H1 as (? & ? & _ & ? & _ & F1), H2 as (? & ? & _ & ? & _ & F2).
    eapply Hc; [done|done|congruence|by apply F1|by apply F2].
  - by apply Hk.
Qed.

Lemma keeps_devices_refl d d' : db_devices d' = db_devices d -> keeps_devices d d'.
Proof. intros E id v Hv. exists v. rewrite E. by split_and!. Qed.

Lemma keeps_update d d' id q st v rs dec :
  db_requests d !! id = Some q -> q_state q = "PENDING" ->
  db_requests d' = <[id := q_update st v rs dec q]> (db_requests d) ->
  keeps_devices d d' -> no_new_devices d d' -> db_resources d' = db_resources d ->
  (logs_ok d -> logs_ok d') -> db_late d' = db_late d -> keeps d d'.
Proof.
  intros Hq Hs Hr Hd Hnd Hres Hl Ht.
  split; [..|done|done|by apply keeps_late_refl|by apply keys_unique_keeps]; [| |done].
  - intros id' q' Hq' Hs'. rewrite Hr. rewrite lookup_insert_ne; congruence.
  - intros id' q' Hq'. rewrite Hr. destruct (decide (id' = id)) as [->|Hne].
    + rewrite lookup_insert_eq. eexists. split; [done|]. rewrite Hq in Hq'. injection Hq' as <-.
      by exists st, v, rs, dec.
    + rewrite lookup_insert_ne by done. destruct (keeps_refl d). by apply kp_requests0.
Qed.

Lemma requests_ok_update d d' id q' :
  (forall i q, db_requests d !! i = Some q -> request_ok q) ->
  db_requests d' = <[id := q']> (db_requests d) -> request_ok q' ->
  forall i q, db_requests d' !! i = Some q -> request_ok q.
Proof.
  intros Hr E Hq i q. rewrite E. intros [[<- <-]|[_ ?]]%lookup_insert_Some; [done|by eapply Hr].
Qed.

Lemma no_new_grants_refl d d' : db_grants d' = db_grants d -> no_new_grants d d'.
Proof. intros E k g. rewrite E. eauto. Qed.

(** ** Each handler *)

Lemma created_ok i d d' : created i d d' -> keeps d d' /\ (system_ok d -> system_ok d').
Proof.
  intros (id & q & d1 & -> & [[] Hdv Hr Hg Hl] & Hn & _ & _ & _ & _ & _ & Hs & Hv & Hrs & Hdec).
  assert (Hk : keeps d d').
  { split.
    - intros id' q' Hq' _. rewrite Hr. cbn. rewrite lookup_insert_ne; congruence.
    - intros id' q' Hq'. rewrite Hr. cbn. rewrite lookup_insert_ne by congruence.
      destruct (keeps_refl d). by apply kp_requests0.
    - by apply keeps_devices_refl.
    - done.
    - exact Hl.
    - by apply keeps_late_refl.
    - by apply keys_unique_keeps, no_new_devices_refl. }
  split; [done|]. intros Hok. eapply system_ok_keeps; [done..|by apply no_new_grants_refl|].
  eapply requests_ok_update; [apply Hok|exact Hr|]. by left.
Qed.

Lemma cancelled_ok t rid q now d d1 d' :
  select_request t rid d = Some q -> q_state q = "PENDING" ->
  request_put rid (q_update "CANCELLED" (q_state_version q + 1) (q_response q) (Some now) q) d d1 ->
  quiet d1 d' -> keeps d d' /\ (system_ok d -> system_ok d').
Proof.
  intros [Hq _]%select_request_Some Hs -> [[] Hdv Hr Hg Hl].
  assert (Hk : keeps d d').
  { eapply keeps_update; [done|done|exact Hr|by apply keeps_devices_refl|by apply no_new_devices_refl|done| |done].
    exact Hl. }
  split; [done|]. intros Hok. eapply system_ok_keeps; [done..|by apply no_new_grants_refl|].
  eapply requests_ok_update; [apply Hok|exact Hr|].
  destruct (so_requests _ Hok _ _ Hq) as [(_ & Hv & Hrs & _)|[(? & _)|[(? & _)|(? & _)]]];
    [|congruence..]. right. left. cbn. rewrite Hv. by split_and!.
Qed.

Lemma consumed_ok t jti g now d :
  db_grants d !! (t, jti) = Some g ->
  let d' := set_grants (<[(t, jti) := g_consume now g]> (db_grants d)) d in
  keeps d d' /\ (system_ok d -> system_ok d').
Proof.
  intros Hg d'. assert (Hk : keeps d d') by (by apply keeps_same; [..|apply keeps_late_refl]).
  split; [done|]. intros Hok. eapply system_ok_keeps; [done..| |apply Hok].
  intros k g'. cbn. intros [[<- <-]|[_ ?]]%lookup_insert_Some; eauto.
Qed.

Lemma revoked_ok rev cs d d' : revoked rev cs d d' -> keeps d d' /\ (system_ok d -> system_ok d').
Proof.
  intros (d1 & d2 & d3 & now & _ & -> & (f & -> & _) & (m & -> & Hm & _) & [[] Hdv Hr Hg Hl]%queued_quiet).
  assert (Hk : keeps d d').
  { by apply keeps_same; [..|apply keeps_late_refl]. }
  split; [done|]. intros Hok. eapply system_ok_keeps; [done..| |].
  - intros k g'. rewrite Hg. cbn. intros [Hl' _]%Hm. eauto.
  - rewrite Hr. apply Hok.
Qed.

Lemma device_revoked_ok t dev now row seq d d1 u :
  revoke_device_row t dev now d = inr (u, d1) ->
  let d' := set_revocations (<[(t, seq) := row]> (db_revocations d)) d1 in
  keeps d d' /\ (system_ok d -> system_ok d').
Proof.
  intros Hd d'. unfold revoke_device_row in Hd.
  assert (E : exists m, d1 = set_devices m d /\ keeps_devices d (set_devices m d) /\
    no_new_devices d (set_devices m d)).
  { destruct (select_device t dev d) as [v|] eqn:Hv.
    - destruct (d_state v == "ENROLLED"); injection Hd as _ <-.
      + apply select_device_Some in Hv as [Hv _]. eexists.
        split_and!; [done| |by eapply no_new_devices_insert]. intros id x Hx. cbn. destruct (decide (id = dev)) as [->|Hne].
        * rewrite lookup_insert_eq. eexists. split; [done|]. rewrite Hv in Hx. by injection Hx as <-.
        * rewrite lookup_insert_ne by done. exists x. by split_and!.
      + exists (db_devices d). by split_and!; [destruct d|apply keeps_devices_refl|apply no_new_devices_refl].
    - injection Hd as _ <-. exists (db_devices d).
      by split_and!; [destruct d|apply keeps_devices_refl|apply no_new_devices_refl]. }
  destruct E as (m & -> & Hm & Hnd).
  assert (Hk : keeps d d').
  { destruct (keeps_refl d). split; [exact kp_decided0|exact kp_requests0|exact Hm|done| | |].
    - by apply logs_ok_eq.
    - by apply keeps_late_refl.
    - by apply keys_unique_keeps. }
  split; [done|]. intros Hok. eapply system_ok_keeps; [done..|by apply no_new_grants_refl|apply Hok].
Qed.

(** ** A decision *)

Context `{GL : !GrantSignerLaws}.

Lemma minted_row_fields t rid user src dev res sc pv rule bd ep az jti agt d g :
  minted_row t rid user src dev res sc pv rule bd ep az jti agt d g ->
  g_request g = rid /\ g_user g = user /\ g_resource g = res /\ g_scope g = sc /\
  g_src_node_id g = src /\ g_device g = dev /\ g_policy_version g = pv.
Proof.
  intros (who & r & ts & tn & p & node & _ & Hs & _ & ->).
  apply SignGrant_prepares in Hs as [pb Hp]. unfold PrepareAGTPayload in Hp. go_ok. by subst.
Qed.

Lemma add_grant_ok d t jti g :
  system_ok d -> db_grants d !! (t, jti) = None -> request_has_grant t (g_request g) d = false ->
  grant_ok d t g ->
  (forall j2 g2 c, db_grants d !! (t, j2) = Some g2 -> g_device g2 = g_device g ->
     approved_at d t g c -> approved_at d t g2 c -> False) ->
  system_ok (set_grants (<[(t, jti) := g]> (db_grants d)) d).
Proof.
  intros [Hr Hg Hu Hc Hl] Hn Hh Hok Hne.
  assert (Hh' : forall j2 g2, db_grants d !! (t, j2) = Some g2 -> g_request g2 <> g_request g).
  { intros j2 g2 H2 E. apply not_true_iff_false in Hh. apply Hh, request_has_grant_spec. eauto. }
  split; [done| | | |done].
  - intros t' j' g'. cbn. intros [[[= <- <-] <-]|[_ H']]%lookup_insert_Some; [done|by eapply Hg].
  - intros t' j1 j2 g1 g2. cbn.
    intros [[E1 <-]|[_ H1]]%lookup_insert_Some [[E2 <-]|[_ H2]]%lookup_insert_Some Eq; simplify_eq;
      [done| | |by eapply Hu].
    + by destruct (Hh' _ _ H2).
    + by destruct (Hh' _ _ H1).
  - intros t' j1 j2 g1 g2 c. cbn.
    intros [[E1 <-]|[_ H1]]%lookup_insert_Some [[E2 <-]|[_ H2]]%lookup_insert_Some Eq A1 A2;
      simplify_eq; [done| | |by eapply Hc].
    + by destruct (Hne _ _ _ H2 (eq_sym Eq) A1 A2).
    + by destruct (Hne _ _ _ H1 Eq A2 A1).
Qed.

Lemma decided_keeps input q resp dev d d' : decided input q resp dev d d' -> keeps d d'.
Proof.
  intros [[Hq Hs] (_ & Hdev & _ & Hc) [now Hr] Hd _ [] Hl].
  apply select_request_Some in Hq as [Hq _]. apply select_device_Some in Hdev as [Hdev _].
  assert (Hkd : keeps_devices d d').
  { intros id v Hv. rewrite Hd. destruct (decide (id = pi_DeviceID input)) as [->|Hne].
    - rewrite lookup_insert_eq. eexists. split; [done|]. rewrite Hdev in Hv. injection Hv as <-.
      cbn. split_and!; try done. lia.
    - rewrite lookup_insert_ne by done. exists v. by split_and!. }
  assert (Hnd : no_new_devices d d') by (by eapply no_new_devices_insert).
  destruct (pi_Decision input == DecisionApprove); by eapply keeps_update.
Qed.

Lemma decided_request_ok input q resp dev d d' :
  decided input q resp dev d d' -> (forall id q, db_requests d !! id = Some q -> request_ok q) ->
  forall id q, db_requests d' !! id = Some q -> request_ok q.
Proof.
  intros [[Hq Hs] _ [now Hr] _ _ _ _] Hok.
  apply select_request_Some in Hq as [Hq _].
  eapply requests_ok_update; [done|exact Hr|].
  destruct (Hok _ _ Hq) as [(_ & Hv & _)|[(? & _)|[(? & _)|(? & _)]]]; [|congruence..].
  destruct (pi_Decision input == DecisionApprove) eqn:Ed; go_bool; right; right; [right|left];
    cbn; rewrite Hv; split_and!; try done; by eexists.
Qed.

(** The new grant is justified by the answer that was just verified. *)
Lemma decided_grant_ok input q resp dev d d' g :
  decided input q resp dev d d' -> pi_Decision input = DecisionApprove ->
  g_request g = pi_RequestID input -> g_user g = q_user q -> g_resource g = q_resource q ->
  g_scope g = q_scope q -> g_src_node_id g = q_src_node_id q ->
  g_policy_version g = q_policy_version q -> g_device g = pi_DeviceID input ->
  validate_grant_ttl (pi_TenantID input) g d = None ->
  grant_ok d' (pi_TenantID input) g /\
  forall c, approved_at d' (pi_TenantID input) g c -> c = ar_DeviceCounter resp.
Proof.
  intros [[Hq Hs] (_ & Hdev & Hver & _) [now Hr] Hd _ [] _] Ed Eq ? ? ? ? ? Edev Ht.
  rewrite Ed in Hr, Hver. cbn in Hr, Hver.
  apply select_request_Some in Hq as [_ Hqt]. apply select_device_Some in Hdev as [_ Hdt].
  assert (Hsel : select_request (pi_TenantID input) (g_request g) d' = Some
    (q_update "GRANTED" (q_state_version q + 2) (Some (response_of input resp)) (Some now) q)).
  { apply select_request_Some. rewrite Hr, Eq, lookup_insert_eq. by split. }
  split.
  - eexists _, (response_of input resp), resp, (d_set_counter (ar_DeviceCounter resp) dev).
    split; [exact Hsel|]. cbn. split_and!; try done.
    + apply select_device_Some. rewrite Hd, Edev, lookup_insert_eq. by split.
    + rewrite <- Ht. by apply validate_grant_ttl_frame.
  - intros c (q' & rs & Hq' & Hrs & <-). rewrite Hsel in Hq'. injection Hq' as <-. cbn in Hrs.
    by injection Hrs as <-.
Qed.

Lemma decided_ok input q resp dev d d' :
  decided input q resp dev d d' -> keeps d d' /\ (system_ok d -> system_ok d').
Proof.
  intros Hdec. pose proof (decided_keeps _ _ _ _ _ _ Hdec) as Hk. split; [done|]. intros Hok.
  set (d0 := set_grants (db_grants d) d').
  assert (Hok0 : system_ok d0).
  { eapply (system_ok_keeps d); [done|by destruct Hk|by apply no_new_grants_refl|].
    exact (decided_request_ok _ _ _ _ _ _ Hdec (so_requests _ Hok)). }
  pose proof (dc_grants _ _ _ _ _ _ Hdec) as Hg.
  assert (Hsame : db_grants d' = db_grants d -> system_ok d').
  { intros E. replace d' with d0; [done|]. unfold d0. rewrite <- E. by destruct d'. }
  destruct (pi_Decision input == DecisionApprove) eqn:Ed; [|by auto]. go_bool.
  destruct Hg as (jti & agt & rule & bd & ep & az & g & Hrow & Httl & _ & [[_ Hg]|(Hh & Hn & Hg)]); [by auto|].
  apply minted_row_fields in Hrow as (E1 & E2 & E3 & E4 & E5 & E6 & E7).
  destruct (decided_grant_ok _ _ _ _ _ _ g Hdec Ed) as [Hgok Hat]; try done.
  replace d' with (set_grants (<[(pi_TenantID input, jti) := g]> (db_grants d0)) d0)
    by (unfold d0; cbn; rewrite <- Hg; by destruct d').
  apply add_grant_ok; try done; [by rewrite E1|].
  intros j2 g2 c H2 Edev A1 A2. apply Hat in A1 as ->. cbn in H2.
  pose proof (so_grants _ Hok _ _ _ H2) as Hg2.
  eapply (approved_at_keeps d) in A2; [|by destruct Hk|done].
  destruct Hg2 as (q2 & rs2 & resp2 & dev2 & Hq2 & _ & Hr2 & _ & _ & _ & _ & _ & _ & Hdev2 & _ & _ & _ & Hc2 & _).
  destruct A2 as (q3 & rs3 & Hq3 & Hr3 & Hc3). rewrite Hq2 in Hq3. injection Hq3 as <-.
  rewrite Hr2 in Hr3. injection Hr3 as <-.
  destruct (dc_answer _ _ _ _ _ _ Hdec) as (_ & Hdev & _ & Hc).
  rewrite Edev, E6, Hdev in Hdev2. injection Hdev2 as <-. lia.
Qed.

(** ** Delivery *)

Lemma cursors_ok m d : keeps d (set_cursors m d) /\ (system_ok d -> system_ok (set_cursors m d)).
Proof.
  assert (Hk : keeps d (set_cursors m d)) by (by apply keeps_same; [..|apply keeps_late_refl]). split; [done|].
  intros Hok. eapply system_ok_keeps; [done..|by apply no_new_grants_refl|apply Hok].
Qed.

Lemma AcquireLease_any env t c o d :
  (run (AcquireLease t c o) env d).2 = d \/
  exists m, (run (AcquireLease t c o) env d).2 = set_cursors m d.
Proof.
  wp_start. unfold AcquireLease. wp_go. apply (wp_BeginTx _ _ _ d); [done| |by left].
  intros now w1 H1. wp_go. apply wp_time_Now. intros ts w2 E2 T2. wp_go.
  eapply wp_tx_exec; [by eapply in_tx_same| |by intros e w [? _]; left].
  intros [a f] d1 w3 _ [= _ _ <-] H3. wp_go. eapply wp_Commit; [done| |].
  - intros w4 _ Hd _. wp_go. apply wp_time_Now. intros t2 w5 E5 _. wp_go. right. cbn.
    rewrite E5, Hd. eauto.
  - intros e w4 [Hd|[_ Hd]] _; [by left|right]. cbn. rewrite Hd. eauto.
Qed.

Lemma RenewLease_any env l d :
  (run (RenewLease l) env d).2 = d \/ exists m, (run (RenewLease l) env d).2 = set_cursors m d.
Proof.
  wp_start. unfold RenewLease. wp_go. apply wp_time_Now. intros ts w1 E1 T1. wp_go.
  assert (Hu : forall n a x, update_lease (cl_TenantID l) (cl_Consumer l) (cl_LeaseFence l)
     (ts + 15 * Second) n (w_db w1) = inr (a, x) -> x = d \/ exists m, x = set_cursors m d).
  { rewrite E1. unfold update_lease. cbn. intros n a x.
    destruct (db_cursors d !! _) as [c|]; [destruct (_ && _)|]; intros [= _ <-]; eauto. }
  apply wp_db_exec.
  - intros n a x w2 Hf Hd _. wp_go. apply Hu in Hf. rewrite <- Hd in Hf.
    destruct (a =? 0); wp_go; [done|]. apply wp_time_Now. intros t2 w3 E3 _. wp_go. by rewrite E3.
  - intros n a x e w2 Hf Hd _. apply Hu in Hf. by rewrite <- Hd in Hf.
  - intros e w2 Hd _. left. by rewrite Hd, E1.
Qed.

Lemma ReleaseLease_any env l d :
  (run (ReleaseLease l) env d).2 = d \/ exists m, (run (ReleaseLease l) env d).2 = set_cursors m d.
Proof.
  wp_start. unfold ReleaseLease.
  assert (Hu : forall n a x, clear_lease (cl_TenantID l) (cl_Consumer l) (cl_LeaseFence l) n d
     = inr (a, x) -> x = d \/ exists m, x = set_cursors m d).
  { unfold clear_lease. intros n a x. destruct (db_cursors d !! _) as [c|]; [destruct (_ =? _)|];
      intros [= _ <-]; eauto. }
  apply wp_db_exec.
  - intros n a x w2 Hf Hd _. apply Hu in Hf. by rewrite <- Hd in Hf.
  - intros n a x e w2 Hf Hd _. apply Hu in Hf. by rewrite <- Hd in Hf.
  - intros e w2 Hd _. by left.
Qed.

Lemma acked_ok t c mid seq now d d' :
  acked t c mid seq now d d' -> keeps d d' /\ (system_ok d -> system_ok d').
Proof.
  intros (d1 & d2 & E1 & E2 & E3).
  assert (O1 : exists m, d1 = set_outbox m d /\ (outbox_ok d -> outbox_ok d1)).
  { unfold ack_outbox in E1. destruct (db_outbox d !! (t, c, seq)) as [o|] eqn:Eo; injection E1 as <-.
    - eexists. split; [done|]. intros [Hu Hp].
      assert (Hold : forall k x, <[(t, c, seq) := mkOutbox (o_message_id o) (o_payload o) (Some now)
        (o_created_at o)]> (db_outbox d) !! k = Some x -> exists y, db_outbox d !! k = Some y /\
        o_message_id y = o_message_id x).
      { intros k x [[<- <-]|[_ ?]]%lookup_insert_Some; eauto. }
      split; cbn.
      + intros t' c1 s1 o1 c2 s2 o2 (y1 & ? & ?)%Hold (y2 & ? & ?)%Hold Em. eapply Hu; [done..|congruence].
      + intros t' c' s' o' (y & ? & _)%Hold. by eapply Hp.
    - exists (db_outbox d). split; [by destruct d|done]. }
  destruct O1 as (m1 & -> & Ho).
  assert (O2 : exists m, d2 = set_inbox m (set_outbox m1 d)).
  { unfold insert_inbox in E2. destruct (db_inbox _ !! _); injection E2 as <-; eauto. }
  destruct O2 as (m2 & ->).
  assert (O3 : exists m, d' = set_cursors m (set_inbox m2 (set_outbox m1 d))).
  { unfold advance_cursor in E3. destruct (db_cursors _ !! _); injection E3 as <-; eauto. }
  destruct O3 as (m3 & ->). assert (Hk : keeps d (set_cursors m3 (set_inbox m2 (set_outbox m1 d)))).
  { apply keeps_same; try done; [|by apply keeps_late_refl]. intros (Ha & Hh & Ho'). split_and!; [exact Ha|exact Hh|by apply Ho]. }
  split; [done|]. intros Hok. eapply system_ok_keeps; [done..|by apply no_new_grants_refl|apply Hok].
Qed.

(** ** Enrollment, roles and policies *)

(** Changes to tables outside the approval engine. *)
Definition aside (d d' : Db) : Prop :=
  db_grants d' = db_grants d /\ keeps d d' /\ (system_ok d -> system_ok d').

Lemma aside_refl d : aside d d.
Proof. by split_and!. Qed.

Lemma other_ok d d' :
  keeps d d' -> db_requests d' = db_requests d -> db_grants d' = db_grants d -> aside d d'.
Proof.
  intros Hk Er Eg. split_and!; [done..|]. intros Hok.
  eapply system_ok_keeps; [done..|by apply no_new_grants_refl|]. rewrite Er. apply Hok.
Qed.

Lemma late_ok d lt lt' :
  db_late d = Some lt -> keeps_late d (set_late (Some lt') d) ->
  aside d (set_late (Some lt') d).
Proof. intros Hl Hk. apply other_ok; [|done|done]. by apply keeps_same. Qed.

Lemma ticket_added_ok h k d d' : ticket_added h k d d' -> aside d d'.
Proof.
  intros (lt & El & Hn & ->). eapply late_ok; [done|]. intros lt0 Hl. rewrite El in Hl. injection Hl as <-.
  eexists. split; [done|]. split; [|by left]. intros h' k' Hk. left. cbn.
  rewrite lookup_insert_ne; [done|congruence].
Qed.

Lemma ticket_used_ok h k d d' : ticket_used h k d d' -> aside d d'.
Proof.
  intros (lt & El & Hk & Hu & _ & ->). eapply late_ok; [done|]. intros lt0 Hl. rewrite El in Hl. injection Hl as <-.
  eexists. split; [done|]. split; [|by left]. intros h' k' Hk'. cbn.
  destruct (decide (h' = h)) as [->|Hne]; [right|left]; [|by rewrite lookup_insert_ne].
  rewrite lookup_insert_eq. rewrite Hk in Hk'. by injection Hk' as <-.
Qed.

Lemma token_added_ok h b d d' : token_added h b d d' -> aside d d'.
Proof.
  intros (lt & El & Hn & ->). eapply late_ok; [done|]. intros lt0 Hl. rewrite El in Hl. injection Hl as <-.
  eexists. split; [done|]. split; [by left|]. intros h' b' Hb. left. cbn.
  rewrite lookup_insert_ne; [done|congruence].
Qed.

Lemma node_registered_ok h b id d d' :
  node_registered h b id d d' -> aside d d'.
Proof.
  intros (lt & El & Hb & Hu & _ & _ & _ & ->). apply other_ok; [|done|done]. apply keeps_same; try done.
  intros lt0 Hl. rewrite El in Hl. injection Hl as <-. eexists. split; [done|]. split; [by left|].
  intros h' b' Hb'. cbn. destruct (decide (h' = h)) as [->|Hne]; [right|left]; [|by rewrite lookup_insert_ne].
  rewrite lookup_insert_eq. rewrite Hb in Hb'. by injection Hb' as <-.
Qed.

Lemma key_not_taken t auth appr d i w :
  device_key_taken t auth appr d = false -> db_devices d !! i = Some w -> d_tenant w = t ->
  d_device_auth_pub w <> auth /\ d_approval_auth_pub w <> appr.
Proof.
  unfold device_key_taken. intros Ht Hw Et. apply not_true_iff_false in Ht. rewrite existsb_exists in Ht.
  split; intros E; apply Ht; exists (i, w);
    (split; [by apply list_elem_of_In, elem_of_map_to_list|]); rewrite Et, E, !eqb_refl; by rewrite ?orb_true_r.
Qed.

Lemma device_added_ok id v d d' :
  device_added id v d d' -> aside d d'.
Proof.
  intros (Hn & Ht & _ & _ & ->). apply other_ok; [|done|done].
  destruct (keeps_refl d). split; [exact kp_decided0|exact kp_requests0| |done| |by apply keeps_late_refl|].
  - intros i w Hw. exists w. cbn. rewrite lookup_insert_ne by congruence. by split_and!.
  - by apply logs_ok_eq.
  - intros Hu i j a b. cbn. intros [[<- <-]|[Hi Ha]]%lookup_insert_Some [[<- <-]|[Hj Hb]]%lookup_insert_Some Et Ek.
    + done.
    + destruct (key_not_taken _ _ _ _ _ _ Ht Hb) as [? ?]; [done|]. destruct Ek; congruence.
    + destruct (key_not_taken _ _ _ _ _ _ Ht Ha) as [? ?]; [done|]. destruct Ek; congruence.
    + by eapply Hu.
Qed.

(** Rows of [user_roles] only, and only a tenant's. *)
Definition roles_changed (t : UUID) (d d' : Db) : Prop :=
  d' = d \/ exists lt m, db_late d = Some lt /\ d' = set_late (Some (set_user_roles m lt)) d /\
    forall k, k.1.1 <> t -> m !! k = lt_user_roles lt !! k.

Lemma roles_changed_ok t d d' : roles_changed t d d' -> aside d d'.
Proof.
  intros [->|(lt & m & El & -> & _)]; [apply aside_refl|]. eapply late_ok; [done|]. intros lt0 Hl.
  rewrite El in Hl. injection Hl as <-. eexists. split; [done|]. by split; left.
Qed.

Lemma change_role_any (RO : RowStream) env a t u actor m1 m2 s d :
  (forall now x, s now d = inr (tt, x) -> roles_changed t d x) ->
  roles_changed t d (run (change_role a t u actor m1 m2 s) env d).2.
Proof.
  intros Hs. wp_start. apply wp_change_role; cbn.
  - intros r e a' w' -> _. by left.
  - intros roles now c a' a'' w' _ _ H _. by eapply Hs.
Qed.

Lemma AssignRole_any (RO : RowStream) env a t u actor role d :
  roles_changed t d (run (AssignRole a t u actor role) env d).2.
Proof.
  apply change_role_any. intros now x. unfold insert_role. destruct (db_late d) as [lt|] eqn:El; [|done].
  destruct (lt_user_roles lt !! _); intros [= <-]; [by left|]. right.
  do 2 eexists. split_and!; [done..|]. intros [[? ?] ?] Hne. cbn in *. rewrite lookup_insert_ne; congruence.
Qed.

Lemma RemoveRole_any (RO : RowStream) env a t u actor role d :
  roles_changed t d (run (RemoveRole a t u actor role) env d).2.
Proof.
  apply change_role_any. intros now x. unfold delete_role. destruct (db_late d) as [lt|] eqn:El; [|done].
  intros [= <-]. right. do 2 eexists. split_and!; [done..|].
  intros [[? ?] ?] Hne. cbn in *. rewrite lookup_delete_ne; congruence.
Qed.

Lemma policies_ok m d : aside d (set_policies m d).
Proof. apply other_ok; [|done|done]. by apply keeps_same; [..|apply keeps_late_refl]. Qed.

(** ** Steps and reachability *)

(** Enrollment, roles and policies. *)
Inductive admin_step : Db -> Db -> Prop :=
| admin_issue_ticket env t u iss sub ttl d : admin_step d (run (IssueEnrollmentTicket t u iss sub ttl) env d).2
| admin_validate_ticket env s d : admin_step d (run (ValidateEnrollmentTicket s) env d).2
| admin_enroll env ticket e d : admin_step d (run (EnrollDevice ticket e) env d).2
| admin_bootstrap env t tn node ttl u d : admin_step d (run (IssueNodeBootstrap t tn node ttl u) env d).2
| admin_register env s tn node csr d : admin_step d (run (RegisterNode s tn node csr) env d).2
| admin_assign (RO : RowStream) env a t u actor role d : admin_step d (run (AssignRole a t u actor role) env d).2
| admin_remove (RO : RowStream) env a t u actor role d : admin_step d (run (RemoveRole a t u actor role) env d).2
| admin_publish (PJ : PolicyJson) (SS : SortSlice) env input signer d :
    admin_step d (run (PublishPolicy input signer) env d).2.

(** Any handler. *)
Inductive step : Db -> Db -> Prop :=
| step_create env i d : step d (run (CreateApprovalRequest i) env d).2
| step_process env input d : step d (run (ProcessApproval input) env d).2
| step_cancel env t rid node reason d : step d (run (CancelApprovalRequest t rid node reason) env d).2
| step_consume env t jti d : step d (run (ConsumeGrant t jti) env d).2
| step_revoke env t kind target cs d : step d (run (IssueRevocation t kind target cs) env d).2
| step_revoke_device env t dev reason d : step d (run (RevokeDevice t dev reason) env d).2
| step_ack env t c mid seq fence d : step d (run (AckMessage t c mid seq fence) env d).2
| step_acquire env t c o d : step d (run (AcquireLease t c o) env d).2
| step_renew env l d : step d (run (RenewLease l) env d).2
| step_release env l d : step d (run (ReleaseLease l) env d).2
| step_admin d d' : admin_step d d' -> step d d'.

(** A service that has not handled anything yet. *)
Definition initial (d : Db) : Prop := db_requests d = ∅ /\ db_grants d = ∅ /\ logs_ok d.

Definition reachable (d0 d : Db) : Prop := initial d0 /\ rtc step d0 d.

(** Setting up a tenant gives the service a state to start from. *)
Lemma bootstrap_initial new now d t d' :
  initial d -> bootstrap_tenant new now d = inr (t, d') ->
  initial d' /\ t ∈ db_tenants d' /\ is_Some (db_heads d' !! t).
Proof.
  unfold bootstrap_tenant. intros (Hr & Hg & Ha & Hh & Ho) Hb.
  destruct (bool_decide _); [done|]. cbn in Hb. destruct (db_heads d !! new) eqn:En; [done|]. injection Hb as <- <-.
  split_and!; [|cbn; set_solver|cbn; rewrite lookup_insert_eq; by eexists].
  split_and!; [done|done|]. split_and!; [|..]; [|..|exact Ho].
  - intros t s. cbn. rewrite (Ha t s). destruct (decide (t = new)) as [->|Hne].
    + rewrite lookup_insert_eq. split; [intros (h & ? & _); congruence|]. intros (h & [= <-] & ?). cbn in *. lia.
    + by rewrite lookup_insert_ne.
  - intros t h. cbn. intros [[_ <-]|[_ ?]]%lookup_insert_Some; [done|by eapply Hh].
Qed.

Lemma same_ok d d' : d' = d -> keeps d d' /\ (system_ok d -> system_ok d').
Proof. by intros ->. Qed.

Lemma admin_step_ok d d' :
  admin_step d d' -> aside d d'.
Proof.
  intros Hstep. destruct Hstep as [env t u iss sub ttl d|env s d|env ticket e d|env t tn node ttl u d|
    env s tn node csr d|RO env a t u actor role d|RO env a t u actor role d|PJ SS env input signer d].
  - pose proof (IssueEnrollmentTicket_cases env t u iss sub ttl d) as Hc.
    destruct (run (IssueEnrollmentTicket _ _ _ _ _) env d) as [r d'].
    destruct Hc as [_ [[-> _]|(s & k & Ha & _)]]; [apply aside_refl|by eapply ticket_added_ok].
  - pose proof (ValidateEnrollmentTicket_cases env s d) as Hc.
    destruct (run (ValidateEnrollmentTicket _) env d) as [r d'].
    destruct Hc as [_ [[-> _]|(k & Hu & _)]]; [apply aside_refl|by eapply ticket_used_ok].
  - pose proof (EnrollDevice_cases env ticket e d) as Hc. destruct (run (EnrollDevice _ _) env d) as [r d'].
    destruct Hc as [_ [[-> _]|(id & v & Ha & _)]]; [apply aside_refl|by eapply device_added_ok].
  - pose proof (IssueNodeBootstrap_cases env t tn node ttl u d) as Hc.
    destruct (run (IssueNodeBootstrap _ _ _ _ _) env d) as [r d'].
    destruct Hc as [_ [[-> _]|(s & b & Ha & _)]]; [apply aside_refl|by eapply token_added_ok].
  - pose proof (RegisterNode_cases env s tn node csr d) as Hc.
    destruct (run (RegisterNode _ _ _ _) env d) as [r d'].
    destruct Hc as [_ [[-> _]|(id & b & Ha & _)]]; [apply aside_refl|by eapply node_registered_ok].
  - eapply roles_changed_ok, AssignRole_any.
  - eapply roles_changed_ok, RemoveRole_any.
  - destruct (publication_adds_at_most_one env d input signer) as [E|(v & p & _ & E)]; rewrite E;
      [apply aside_refl|apply policies_ok].
Qed.

Lemma step_ok d d' : step d d' -> keeps d d' /\ (system_ok d -> system_ok d').
Proof.
  intros Hstep. destruct Hstep as [env i d|env input d|env t rid node reason d|env t jti d|
    env t kind target cs d|env t dev reason d|env t c mid seq fence d|env t c o d|env l d|env l d|d d' Ha].
  - destruct (CreateApprovalRequest_cases env i d) as [[E _]|Hc]; [by apply same_ok|by eapply created_ok].
  - destruct (ProcessApproval_cases env input d) as [[E _]|(_ & q & resp & dev & Hd & _)];
      [by apply same_ok|by eapply decided_ok].
  - destruct (CancelApprovalRequest_cases env t rid node reason d) as [_ [E|(q & now & d1 & ? & ? & ? & ?)]];
      [by apply same_ok|by eapply cancelled_ok].
  - destruct (ConsumeGrant_cases env t jti d) as [_ [[E _]|(g & now & Hg & _ & _ & _ & E)]];
      [by apply same_ok|]. rewrite E. by apply consumed_ok.
  - destruct (IssueRevocation_cases env t kind target cs d)
      as [_ [[E _]|(rev & _ & _ & _ & _ & Hr & _)]]; [by apply same_ok|by eapply revoked_ok].
  - destruct (RevokeDevice_cases env t dev reason d)
      as [_ [[E _]|(now & row & _ & _ & _ & _ & d1 & u & Hd & E)]]; [by apply same_ok|].
    rewrite E. by eapply device_revoked_ok.
  - destruct (AckMessage_cases env d t c mid seq fence)
      as [(E & _)|(_ & _ & _ & _ & now & Ha)]; [by apply same_ok|by eapply acked_ok].
  - destruct (AcquireLease_any env t c o d) as [E|[m E]]; rewrite E; [by apply same_ok|apply cursors_ok].
  - destruct (RenewLease_any env l d) as [E|[m E]]; rewrite E; [by apply same_ok|apply cursors_ok].
  - destruct (ReleaseLease_any env l d) as [E|[m E]]; rewrite E; [by apply same_ok|apply cursors_ok].
  - by apply admin_step_ok.
Qed.

Lemma initial_ok d : initial d -> system_ok d.
Proof. intros (Hr & Hg & Hl). split; try done; intros *; rewrite ?Hr, ?Hg; by rewrite ?lookup_empty. Qed.

(** Every reachable state satisfies the invariant. *)
Lemma reachable_ok d0 d : reachable d0 d -> system_ok d.
Proof.
  intros [Hi Hs]. apply initial_ok in Hi. induction Hs as [|d1 d2 d3 H12 _ IH]; [done|].
  apply IH. by eapply step_ok.
Qed.

Lemma steps_decided d d' : rtc step d d' -> keeps_decided d d'.
Proof.
  induction 1 as [|d1 d2 d3 H12 _ IH]; [by intros id q Hq _|].
  intros id q Hq Hs. apply IH; [|done]. by apply (kp_decided _ _ (proj1 (step_ok _ _ H12))).
Qed.

Lemma steps_devices d d' : rtc step d d' -> keeps_devices d d'.
Proof.
  induction 1 as [d|d1 d2 d3 H12 _ IH]; [by apply keeps_devices_refl|].
  intros id v Hv. destruct (kp_devices _ _ (proj1 (step_ok _ _ H12)) _ _ Hv) as (v1 & Hv1 & ? & ? & ? & ?).
  destruct (IH _ _ Hv1) as (v2 & Hv2 & ? & ? & ? & ?). exists v2.
  split_and!; [done|congruence..|lia].
Qed.

Lemma steps_late d d' : rtc step d d' -> keeps_late d d'.
Proof.
  induction 1 as [d|d1 d2 d3 H12 _ IH]; [by apply keeps_late_refl|].
  intros lt Hl. destruct (kp_late _ _ (proj1 (step_ok _ _ H12)) _ Hl) as (lt2 & Hl2 & T2 & B2).
  destruct (IH _ Hl2) as (lt3 & Hl3 & T3 & B3). exists lt3. split; [done|]. split.
  - intros h k Hk. destruct (T2 _ _ Hk) as [Hk2|[Hu Hk2]]; [by apply T3|].
    right. split; [done|]. by destruct (T3 _ _ Hk2) as [?|[? _]].
  - intros h k Hk. destruct (B2 _ _ Hk) as [Hk2|[Hu Hk2]]; [by apply B3|].
    right. split; [done|]. by destruct (B3 _ _ Hk2) as [?|[? _]].
Qed.

Lemma steps_keys d d' : rtc step d d' -> keys_unique d -> keys_unique d'.
Proof.
  induction 1 as [d|d1 d2 d3 H12 _ IH]; [done|]. intros Hu. apply IH.
  by apply (kp_keys _ _ (proj1 (step_ok _ _ H12))).
Qed.

End System.
