(* ===== verification/Tenant.v ===== *)
(** * Tenant: what one tenant sees of the database

    Every table of the service carries a tenant: in its key or in a column.
    [view t] is the database with the rows of tenant [t] only, which is what the
    row-level security policies of the migration leave visible
    ([tenant_isolation], lines 373-449).  A statement is [local] to [t] when it
    does on the view what it does on the whole database, and leaves the view of
    every other tenant alone; a handler is [localM] when all its statements are.
    The rules below build the second from the first, construct by construct. *)

From stdpp Require Import base gmap strings list fin_maps sorting.
From Stdlib Require Import ZArith Lia Strings.Byte.
From S2P Require Import Prelude Identity Cose Envelope Database Schema.

Open Scope Z_scope.
Open Scope go_scope.

(** ** Rows of a tenant *)

(** The entries of a table that belong to a tenant. *)
Definition restrict `{Countable K} {A} (owner : K * A -> UUID) (t : UUID) (m : gmap K A) : gmap K A :=
  filter (fun x => owner x = t) m.

Section Restrict.
Context `{Countable K} {A : Type} (owner : K * A -> UUID).
Implicit Types (m : gmap K A).

Lemma restrict_lookup t m k :
  restrict owner t m !! k = (x ← m !! k; if owner (k, x) == t then Some x else None).
Proof.
  unfold restrict. rewrite map_lookup_filter. destruct (m !! k) as [x|]; [|done]. cbn.
  destruct (owner (k, x) == t) eqn:E; go_bool; [by rewrite option_guard_True|by rewrite option_guard_False].
Qed.

(** Writing an own row. *)
Lemma restrict_insert t m k x :
  owner (k, x) = t -> restrict owner t (<[k := x]> m) = <[k := x]> (restrict owner t m).
Proof. intros. by apply map_filter_insert_True. Qed.

(** Writing a row over one that is not [t]'s, or over none. *)
Lemma restrict_insert_other t m k x :
  owner (k, x) <> t -> (forall y, m !! k = Some y -> owner (k, y) <> t) ->
  restrict owner t (<[k := x]> m) = restrict owner t m.
Proof. intros. by apply map_filter_insert_not'. Qed.

Lemma restrict_twice t m : restrict owner t (restrict owner t m) = restrict owner t m.
Proof. apply map_filter_filter_l. naive_solver. Qed.

(** Rows picked from the whole table, when only own rows qualify. *)
Lemma restrict_omap {B} t m (f : K * A -> option B) :
  (forall x, is_Some (f x) -> owner x = t) ->
  omap f (map_to_list (restrict owner t m)) ≡ₚ omap f (map_to_list m).
Proof.
  intros Hf. assert (E : map_to_list (restrict owner t m) ≡ₚ filter (fun x => owner x = t) (map_to_list m)).
  { apply NoDup_Permutation; [apply NoDup_map_to_list|apply NoDup_filter, NoDup_map_to_list|].
    intros [k x]. rewrite list_elem_of_filter, !elem_of_map_to_list. unfold restrict.
    rewrite map_lookup_filter_Some. naive_solver. }
  rewrite E. generalize (map_to_list m) as l. intros l.
  induction l as [|x l IH]; [done|]. rewrite filter_cons. case_decide as Hx; cbn.
  - destruct (f x); by rewrite IH.
  - destruct (f x) eqn:E'; [|done]. destruct Hx. apply Hf. by rewrite E'.
Qed.

Lemma restrict_existsb t m (f : K * A -> bool) :
  (forall x, f x = true -> owner x = t) ->
  existsb f (map_to_list (restrict owner t m)) = existsb f (map_to_list m).
Proof.
  intros Hf. apply eq_iff_eq_true. rewrite !existsb_exists. setoid_rewrite <- list_elem_of_In.
  split; intros ([k x] & Hin & Hx); exists (k, x); (split; [|done]); revert Hin;
    rewrite !elem_of_map_to_list; unfold restrict; rewrite map_lookup_filter_Some; naive_solver.
Qed.

End Restrict.

(** ** The view *)

Definition late_view (t : UUID) (lt : late_tables) : late_tables :=
  mkLate (restrict (fun x => x.1.1.1) t (lt_user_roles lt))
    (restrict (fun x => k_tenant x.2) t (lt_tickets lt)) (restrict (fun x => b_tenant x.2) t (lt_tokens lt)).

Definition view (t : UUID) (d : Db) : Db := {|
  db_tenants := filter (fun x => x = t) (db_tenants d);
  db_users := restrict (fun x => u_tenant x.2) t (db_users d);
  db_devices := restrict (fun x => d_tenant x.2) t (db_devices d);
  db_nodes := restrict (fun x => n_tenant x.2) t (db_nodes d);
  db_resources := restrict (fun x => r_tenant x.2) t (db_resources d);
  db_policies := restrict (fun x => x.1.1) t (db_policies d);
  db_requests := restrict (fun x => q_tenant x.2) t (db_requests d);
  db_grants := restrict (fun x => x.1.1) t (db_grants d);
  db_sessions := restrict (fun x => s_tenant x.2) t (db_sessions d);
  db_revocations := restrict (fun x => x.1.1) t (db_revocations d);
  db_outbox := restrict (fun x => x.1.1.1) t (db_outbox d);
  db_inbox := restrict (fun x => x.1.1.1) t (db_inbox d);
  db_cursors := restrict (fun x => x.1.1) t (db_cursors d);
  db_heads := restrict (fun x => x.1) t (db_heads d);
  db_events := restrict (fun x => x.1.1) t (db_events d);
  db_late := late_view t <$> db_late d
|}.

(** The other tenants see no difference. *)
Definition only_tenant (t : UUID) (d d' : Db) : Prop := forall t', t' <> t -> view t' d' = view t' d.

#[export] Instance only_tenant_refl t : Reflexive (only_tenant t).
Proof. by intros d t' _. Qed.
#[export] Instance only_tenant_trans t : Transitive (only_tenant t).
Proof. intros d d1 d2 H1 H2 t' Hne. by rewrite (H2 t' Hne), (H1 t' Hne). Qed.

Lemma view_twice t d : view t (view t d) = view t d.
Proof.
  unfold view. cbn. rewrite !restrict_twice. f_equal.
  - apply set_eq. intros x. rewrite !elem_of_filter. naive_solver.
  - destruct (db_late d) as [lt|]; [|done]. cbn. unfold late_view. cbn. by rewrite !restrict_twice.
Qed.

(** *** Reading through the view *)

Section Reads.
Context (t : UUID) (d : Db).

Ltac read_view := cbn; rewrite restrict_lookup;
  match goal with |- context [?m !! ?k] => destruct (m !! k) as [x|] eqn:?; cbn; [|done] end;
  match goal with |- context [?a == ?b] => destruct (a == b) eqn:E; cbn; rewrite ?E end; done.

Lemma view_request id : select_request t id (view t d) = select_request t id d.
Proof. unfold select_request. read_view. Qed.
Lemma view_device id : select_device t id (view t d) = select_device t id d.
Proof. unfold select_device. read_view. Qed.
Lemma view_user id : select_user t id (view t d) = select_user t id d.
Proof. unfold select_user. read_view. Qed.
Lemma view_node id : select_node t id (view t d) = select_node t id d.
Proof. unfold select_node. read_view. Qed.
Lemma view_resource id : select_resource t id (view t d) = select_resource t id d.
Proof. unfold select_resource. read_view. Qed.

Ltac read_key := cbn; rewrite restrict_lookup; destruct (_ !! _); cbn; by rewrite ?eqb_refl.

Lemma view_policy v : db_policies (view t d) !! (t, v) = db_policies d !! (t, v).
Proof. read_key. Qed.
Lemma view_grant jti : db_grants (view t d) !! (t, jti) = db_grants d !! (t, jti).
Proof. read_key. Qed.
Lemma view_revocation s : db_revocations (view t d) !! (t, s) = db_revocations d !! (t, s).
Proof. read_key. Qed.
Lemma view_outbox c s : db_outbox (view t d) !! (t, c, s) = db_outbox d !! (t, c, s).
Proof. read_key. Qed.
Lemma view_inbox c m : db_inbox (view t d) !! (t, c, m) = db_inbox d !! (t, c, m).
Proof. read_key. Qed.
Lemma view_cursor c : db_cursors (view t d) !! (t, c) = db_cursors d !! (t, c).
Proof. read_key. Qed.
Lemma view_head : db_heads (view t d) !! t = db_heads d !! t.
Proof. read_key. Qed.
Lemma view_event s : db_events (view t d) !! (t, s) = db_events d !! (t, s).
Proof. read_key. Qed.
Lemma view_tenant : bool_decide (t ∈ db_tenants (view t d)) = bool_decide (t ∈ db_tenants d).
Proof. apply bool_decide_ext. cbn. rewrite elem_of_filter. naive_solver. Qed.

End Reads.

#[export] Hint Rewrite view_request view_device view_user view_node view_resource view_policy view_grant
  view_revocation view_outbox view_inbox view_cursor view_head view_event view_tenant : tenant.

(** *** Writing own rows *)

(** [own owner t k x m]: the entry [k := x] is [t]'s, and replaces no other
    tenant's. *)
Definition own `{Countable K} {A} (owner : K * A -> UUID) (t : UUID) (k : K) (x : A) (m : gmap K A) : Prop :=
  owner (k, x) = t /\ forall y, m !! k = Some y -> owner (k, y) = t.

Lemma own_frame `{Countable K} {A} (owner : K * A -> UUID) t k x (m : gmap K A) :
  own owner t k x m -> forall t', t' <> t -> restrict owner t' (<[k := x]> m) = restrict owner t' m.
Proof. intros [E Hy] t' Hne. apply restrict_insert_other; [congruence|]. intros y ->%Hy. congruence. Qed.

(** Reduce an equation of views of one written table to that table. *)
Ltac view_set :=
  unfold view, set_requests, set_devices, set_grants, set_sessions, set_revocations, set_outbox, set_inbox,
    set_cursors, set_heads, set_events; cbn; f_equal.

Section Writes.
Context (t : UUID) (d : Db).

Lemma own_request id q : own (fun x => q_tenant x.2) t id q (db_requests d) ->
  view t (set_requests (<[id := q]> (db_requests d)) d) =
    set_requests (<[id := q]> (db_requests (view t d))) (view t d) /\
  only_tenant t d (set_requests (<[id := q]> (db_requests d)) d).
Proof.
  intros Ho. split; [|intros t' Hne]; view_set.
  - by apply restrict_insert, (proj1 Ho).
  - by eapply own_frame.
Qed.
Lemma own_device id v : own (fun x => d_tenant x.2) t id v (db_devices d) ->
  view t (set_devices (<[id := v]> (db_devices d)) d) =
    set_devices (<[id := v]> (db_devices (view t d))) (view t d) /\
  only_tenant t d (set_devices (<[id := v]> (db_devices d)) d).
Proof.
  intros Ho. split; [|intros t' Hne]; view_set.
  - by apply restrict_insert, (proj1 Ho).
  - by eapply own_frame.
Qed.

Ltac keyed := split; [|intros t' Hne]; view_set;
  [by apply restrict_insert|apply restrict_insert_other; cbn; intros; congruence].

Lemma own_grant jti g :
  view t (set_grants (<[(t, jti) := g]> (db_grants d)) d) =
    set_grants (<[(t, jti) := g]> (db_grants (view t d))) (view t d) /\
  only_tenant t d (set_grants (<[(t, jti) := g]> (db_grants d)) d).
Proof. keyed. Qed.
Lemma own_revocation s v :
  view t (set_revocations (<[(t, s) := v]> (db_revocations d)) d) =
    set_revocations (<[(t, s) := v]> (db_revocations (view t d))) (view t d) /\
  only_tenant t d (set_revocations (<[(t, s) := v]> (db_revocations d)) d).
Proof. keyed. Qed.
Lemma own_outbox c s o :
  view t (set_outbox (<[(t, c, s) := o]> (db_outbox d)) d) =
    set_outbox (<[(t, c, s) := o]> (db_outbox (view t d))) (view t d) /\
  only_tenant t d (set_outbox (<[(t, c, s) := o]> (db_outbox d)) d).
Proof. keyed. Qed.
Lemma own_inbox c m x :
  view t (set_inbox (<[(t, c, m) := x]> (db_inbox d)) d) =
    set_inbox (<[(t, c, m) := x]> (db_inbox (view t d))) (view t d) /\
  only_tenant t d (set_inbox (<[(t, c, m) := x]> (db_inbox d)) d).
Proof. keyed. Qed.
Lemma own_cursor c x :
  view t (set_cursors (<[(t, c) := x]> (db_cursors d)) d) =
    set_cursors (<[(t, c) := x]> (db_cursors (view t d))) (view t d) /\
  only_tenant t d (set_cursors (<[(t, c) := x]> (db_cursors d)) d).
Proof. keyed. Qed.
Lemma own_head h :
  view t (set_heads (<[t := h]> (db_heads d)) d) =
    set_heads (<[t := h]> (db_heads (view t d))) (view t d) /\
  only_tenant t d (set_heads (<[t := h]> (db_heads d)) d).
Proof. keyed. Qed.
Lemma own_event s a :
  view t (set_events (<[(t, s) := a]> (db_events d)) d) =
    set_events (<[(t, s) := a]> (db_events (view t d))) (view t d) /\
  only_tenant t d (set_events (<[(t, s) := a]> (db_events d)) d).
Proof. keyed. Qed.

End Writes.

(** The row a tenant selected is its own. *)
Lemma own_selected_request t id q q' d :
  select_request t id d = Some q -> q_tenant q' = q_tenant q ->
  own (fun x => q_tenant x.2) t id q' (db_requests d).
Proof.
  unfold select_request, own. cbn. destruct (db_requests d !! id) as [y|]; [|done]. cbn.
  destruct (q_tenant y == t) eqn:E; [|done]. go_bool. intros [= ->] ->. split; [done|]. by intros ? [= <-].
Qed.
Lemma own_selected_device t id v v' d :
  select_device t id d = Some v -> d_tenant v' = d_tenant v ->
  own (fun x => d_tenant x.2) t id v' (db_devices d).
Proof.
  unfold select_device, own. cbn. destruct (db_devices d !! id) as [y|]; [|done]. cbn.
  destruct (d_tenant y == t) eqn:E; [|done]. go_bool. intros [= ->] ->. split; [done|]. by intros ? [= <-].
Qed.

(** ** Local statements *)

Section Local.
Context (env : Env) (t : UUID).

(** What a database must satisfy: no other tenant's request has an id that this
    run generates, and stable node ids are unique within the tenant, as the schema
    demands. *)
Definition nodes_unique (d : Db) : Prop := forall i j n m,
  db_nodes d !! i = Some n -> db_nodes d !! j = Some m -> n_tenant n = t -> n_tenant m = t ->
  n_ts_stable_node_id n = n_ts_stable_node_id m -> i = j.

Definition apart (d : Db) : Prop := forall n q, db_requests d !! env_uuid env n = Some q -> q_tenant q = t.

Definition tenant_ok (d : Db) : Prop := apart d /\ nodes_unique d.

Definition local {A} (f : stmt A) : Prop := forall now d,
  match f now d with
  | inl e => tenant_ok d -> f now (view t d) = inl e
  | inr (a, d') => (tenant_ok d -> f now (view t d) = inr (a, view t d')) /\
      only_tenant t d d' /\ db_nodes d' = db_nodes d
  end.

(** A query is local when it reads the same from the view. *)
Definition local_read {A} (f : Time -> Db -> A) : Prop := forall now d, tenant_ok d -> f now (view t d) = f now d.

Lemma read_local {A} (f : Time -> Db -> A) : local_read f -> local (fun now d => inr (f now d, d)).
Proof. intros Hf now d. split; [|done]. intros Hok. by rewrite (Hf now d Hok). Qed.

(** The conditions survive what the statement does. *)
Lemma apart_frame d d' : apart d -> only_tenant t d d' -> apart d'.
Proof.
  intros Ha Hf n q Hq. destruct (decide (q_tenant q = t)) as [|Hne]; [done|].
  assert (E : db_requests (view (q_tenant q) d') !! env_uuid env n = Some q).
  { cbn. rewrite restrict_lookup, Hq. cbn. by rewrite eqb_refl. }
  rewrite (Hf _ Hne) in E. cbn in E. rewrite restrict_lookup in E.
  destruct (db_requests d !! env_uuid env n) as [q'|] eqn:Eq; [|done]. cbn in E.
  destruct (q_tenant q' == q_tenant q); [|done]. injection E as ->. by eapply Ha.
Qed.

Lemma tenant_ok_frame d d' : tenant_ok d -> only_tenant t d d' -> db_nodes d' = db_nodes d -> tenant_ok d'.
Proof. intros [Ha Hn] Hf En. split; [by eapply apart_frame|unfold nodes_unique; by rewrite En]. Qed.

(** ** Local handlers *)

Definition view_txn (x : txn) : txn := mkTxn (view t (t_db x)) (t_aborted x) (t_now x).
Definition viewW (w : World) : World :=
  mkWorld (view t (w_db w)) (view_txn <$> w_tx w) (w_stmt w) (w_clock w) (w_ids w) (w_rand w).

(** In the committed tables and in those of the open transaction, the other
    tenants see what they saw in [base], with the same nodes; and both are fine. *)
Definition elsewhere_same (base d : Db) : Prop := only_tenant t base d /\ db_nodes d = db_nodes base.
Definition on_dbs (P : Db -> Prop) (w : World) : Prop :=
  P (w_db w) /\ match w_tx w with Some x => P (t_db x) | None => True end.
Definition framedW (base : Db) : World -> Prop := on_dbs (elsewhere_same base).
Definition okW : World -> Prop := on_dbs tenant_ok.

Definition localM {A} (m : M A) : Prop := forall w,
  (forall base, framedW base w -> framedW base (m env w).2) /\
  (okW w -> m env (viewW w) = ((m env w).1, viewW (m env w).2) /\ okW (m env w).2).

Lemma local_ret {A} (a : A) : localM (mret a).
Proof. by intros w. Qed.
Lemma local_lift {A} (c : outcome A) : localM (lift c).
Proof. by intros w. Qed.
Lemma local_bind {A B} (m : M A) (f : A -> M B) :
  localM m -> (forall a, localM (f a)) -> localM (m ≫= f).
Proof.
  intros Hm Hf w. destruct (Hm w) as [F E]. unfold mbind, M_bind. split.
  - intros base Hb. specialize (F base Hb). destruct (m env w) as [[a|e|] w']; cbn in *; [by apply Hf|done..].
  - intros Ho. destruct (E Ho) as [-> Ho']. destruct (m env w) as [[a|e|] w']; cbn in *; [by apply Hf|done..].
Qed.
Lemma local_mwrap {A} fmt args (m : M A) : localM m -> localM (mwrap fmt args m).
Proof.
  intros Hm w. destruct (Hm w) as [F E]. unfold mwrap. destruct (m env w) as [r w'] eqn:Em. split; [done|].
  intros Ho. by destruct (E Ho) as [-> ?].
Qed.
Lemma local_try {A} (m : M A) : localM m -> localM (try m).
Proof.
  intros Hm w. destruct (Hm w) as [F E]. unfold try. destruct (m env w) as [r w'] eqn:Em.
  split; [by destruct r|]. intros Ho. destruct (E Ho) as [-> ?]. by destruct r.
Qed.
Lemma local_ignore {A} (m : M A) : localM m -> localM (ignore m).
Proof. intros Hm. apply local_bind; [by apply local_try|]. intros a. apply local_ret. Qed.
Lemma local_time_Now : localM time_Now.
Proof. by intros w. Qed.
Lemma local_rand_Read : localM rand_Read.
Proof. by intros w. Qed.
Lemma local_uuid_New {A} (f : UUID -> M A) :
  (forall n, localM (f (env_uuid env n))) -> localM (uuid_New ≫= f).
Proof.
  intros Hf w. unfold mbind, M_bind, uuid_New. cbn.
  apply (Hf (w_ids w) (mkWorld (w_db w) (w_tx w) (w_stmt w) (w_clock w) (S (w_ids w)) (w_rand w))).
Qed.
Lemma local_defer_rollback {A} (m : M A) : localM m -> localM (defer_rollback m).
Proof.
  intros Hm w. destruct (Hm w) as [F E]. unfold defer_rollback. destruct (m env w) as [r w'] eqn:Em. split.
  - intros base Hb. split; [apply (F base Hb)|done].
  - intros Ho. destruct (E Ho) as [-> [? _]]. done.
Qed.
Lemma local_BeginTx : localM BeginTx.
Proof.
  intros w. unfold BeginTx. cbn. destruct (env_fault env (w_stmt w)); cbn; (split; [|by intros []]); by intros base [].
Qed.
Lemma local_Commit : localM Commit.
Proof.
  intros w. unfold Commit, framedW, okW, on_dbs. cbn. destruct (w_tx w) as [x|] eqn:Ex; cbn; rewrite ?Ex.
  - destruct (t_aborted x); [split; [by intros base []|by intros []]|].
    destruct (env_fault env (w_stmt w)); (split; [by intros base []|by intros []]).
  - split; [by intros base []|by intros []].
Qed.

Lemma local_tx_exec {A} (f : stmt A) : local f -> localM (tx_exec f).
Proof.
  intros Hf w. unfold tx_exec, framedW, okW, on_dbs. cbn. destruct (w_tx w) as [x|] eqn:Ex; cbn; rewrite ?Ex; [|done].
  destruct (t_aborted x); [done|]. destruct (env_fault env (w_stmt w)); try done.
  specialize (Hf (t_now x) (t_db x)). destruct (f (t_now x) (t_db x)) as [e|[a d']]; cbn.
  - split; [done|]. intros [H1 H2]. by rewrite Hf.
  - destruct Hf as (E & F & En). split.
    + intros base [H1 [H2 N2]]. split; [done|]. split; [by etrans|congruence].
    + intros [H1 H2]. rewrite (E H2). split; [done|]. split; [done|by eapply tenant_ok_frame].
Qed.
Lemma local_db_exec {A} (f : stmt A) : local f -> localM (db_exec f).
Proof.
  intros Hf w. unfold db_exec, framedW, okW, on_dbs. cbn.
  specialize (Hf (env_dbnow env (w_stmt w)) (w_db w)).
  destruct (f (env_dbnow env (w_stmt w)) (w_db w)) as [e|[a d']].
  - destruct (env_fault env (w_stmt w)); (split; [done|]); intros [H1 H2]; by rewrite ?Hf.
  - destruct Hf as (E & F & En).
    destruct (env_fault env (w_stmt w)); [|done|]; cbn; (split;
      [intros base [[H1 N1] H2]; split; [split; [by etrans|cbn; congruence]|done]
      |intros [H1 H2]; rewrite (E H1); split; [done|]; split; [by eapply tenant_ok_frame|done]]).
Qed.
Lemma local_tx_query {A} (f : query A) : local_read f -> localM (tx_query f).
Proof.
  intros Hf. apply local_bind; [by apply local_tx_exec, read_local|].
  intros [a|]; [apply local_ret|apply local_lift].
Qed.
Lemma local_db_query {A} (f : query A) : local_read f -> localM (db_query f).
Proof.
  intros Hf. apply local_bind; [by apply local_db_exec, read_local|].
  intros [a|]; [apply local_ret|apply local_lift].
Qed.

(** A local handler changes nothing for the others, and gives the tenant the same
    answer and the same rows on its view as on the whole database. *)
Lemma local_frame {A} (m : M A) d : localM m -> elsewhere_same d (run m env d).2.
Proof.
  intros Hm. unfold run. destruct (Hm (new_world d)) as [F _].
  specialize (F d). destruct (m env (new_world d)) as [r w]. apply F. by split.
Qed.
Lemma local_run {A} (m : M A) d : localM m -> tenant_ok d ->
  run m env (view t d) = ((run m env d).1, view t (run m env d).2).
Proof.
  intros Hm Hd. destruct (Hm (new_world d)) as [_ E]. unfold run.
  change (new_world (view t d)) with (viewW (new_world d)). destruct E as [-> _]; [by split|].
  by destruct (m env (new_world d)).
Qed.

End Local.
