(* ===== verification/TenantStmts.v ===== *)
(** * TenantStmts: every statement of the service stays within its tenant

    The statements of the stored functions, the outbox, the audit chain, the
    approval engine, revocation and policy evaluation are [local]: see [Tenant]. *)

From stdpp Require Import base gmap strings list fin_maps sorting.
From Stdlib Require Import ZArith Lia Strings.Byte.
From S2P Require Import Prelude Identity Cose Envelope Database Schema Messaging AuditChain Enforcement.
From S2P Require Import Revocation Policy PolicyProps Tenant.

Open Scope Z_scope.
Open Scope go_scope.

(** ** Aggregates do not depend on the order of rows *)

#[export] Instance sql_max_proper : Proper ((≡ₚ) ==> (=)) sql_max.
Proof.
  intros l1 l2 Hp. pose proof (sql_max_spec l1) as H1. pose proof (sql_max_spec l2) as H2.
  destruct (sql_max l1) as [m1|], (sql_max l2) as [m2|]; [|subst..|done].
  - f_equal. destruct H1 as [I1 B1], H2 as [I2 B2]. apply Z.le_antisymm; [apply B2|apply B1].
    + by rewrite <- Hp.
    + by rewrite Hp.
  - destruct H1 as [H1 _]. rewrite Hp in H1. by apply not_elem_of_nil in H1.
  - destruct H2 as [H2 _]. rewrite <- Hp in H2. by apply not_elem_of_nil in H2.
Qed.

(** A selection that at most one row passes. *)
Lemma omap_at_most_one {A B} (f : A -> option B) l :
  NoDup l -> (forall x y, x ∈ l -> y ∈ l -> is_Some (f x) -> is_Some (f y) -> x = y) ->
  (length (omap f l) <= 1)%nat.
Proof.
  induction l as [|x l IH]; [cbn; lia|]. intros [Hx Hn]%NoDup_cons Hu. cbn.
  destruct (f x) as [b|] eqn:E; [|apply IH; [done|set_solver]]. cbn.
  destruct (omap f l) as [|c r] eqn:Eo; [cbn; lia|]. exfalso. apply Hx.
  assert (Hc : c ∈ omap f l) by (rewrite Eo; left). apply list_elem_of_omap in Hc as (y & Hy & Hfy).
  by rewrite (Hu x y); [..|left|right|exists b|exists c].
Qed.

Section Statements.
Context (env : Env) (t : UUID).
Abbreviation local := (local env t).
Abbreviation local_read := (local_read env t).

(** One write of an own row ends a statement. *)
Lemma local_write {A} (a : A) d d' v :
  view t d' = v /\ only_tenant t d d' -> db_nodes d' = db_nodes d ->
  (tenant_ok env t d -> inr (a, v) = inr (a, view t d') :> error + A * Db) /\
  only_tenant t d d' /\ db_nodes d' = db_nodes d.
Proof. by intros [<- ?] ?. Qed.

(** [local_stmt]: unfold the statement before calling it; what it reads is read
    from the view, every branch is taken alike, and it writes own rows. *)
Ltac local_done :=
  first
    [ done
    | apply local_write; [|done]; first
        [ apply own_grant | apply own_revocation | apply own_outbox | apply own_inbox | apply own_cursor
        | apply own_event | apply own_request; by eapply own_selected_request
        | apply own_device; by eapply own_selected_device ] ].
Ltac local_stmt :=
  intros now d; autorewrite with tenant; repeat case_match; simplify_eq; try done; local_done.

(** Rows that qualify are the tenant's own. *)
Ltac only_own a b :=
  let E := fresh in destruct (a == b) eqn:E; [by intros _; go_bool|]; cbn; first [done|by intros [? [=]]].

(** *** Stored functions *)

Lemma local_transition id new v : local (transition_approval_request t id new v).
Proof. unfold transition_approval_request. local_stmt. Qed.

Lemma local_consume_grant jti p : local (consume_grant t jti p).
Proof. unfold consume_grant. local_stmt. Qed.

Lemma local_advance_device_counter dev c : local (advance_device_counter t dev c).
Proof. unfold advance_device_counter. local_stmt. Qed.

Lemma view_validate_grant_ttl g d : validate_grant_ttl t g (view t d) = validate_grant_ttl t g d.
Proof. unfold validate_grant_ttl. by autorewrite with tenant. Qed.

Section Audit.
Context `{PG : Postgres} `{GC : GoCrypto}.

Lemma local_insert_audit_event typ producer data : local (insert_audit_event t typ producer data).
Proof.
  unfold insert_audit_event. intros now d. autorewrite with tenant.
  destruct (jsonb_arg data) as [|payload]; [done|]. 
  set (fh := match db_heads d !! t with Some h => (true, h) | None => (false, mkHead 0 [x00]) end).
  destruct fh as [f h]. autorewrite with tenant.
  destruct (negb f && _); [done|]. destruct (is_some _); [done|]. destruct (negb _); [done|].
  apply local_write; [|done].
  match goal with |- context [set_heads (<[t := ?x]> (db_heads (view t d)))
                                (set_events (<[(t, ?s) := ?a]> _) _)] =>
    destruct (own_event t d s a) as [E1 F1];
    destruct (own_head t (set_events (<[(t, s) := a]> (db_events d)) d) x) as [E2 F2] end.
  cbn in E2, F2. split; [|by etrans]. cbn. rewrite E2. cbn in E1. by rewrite E1.
Qed.

Lemma local_update_audit_row s detail h : local (update_audit_row t s detail h).
Proof. unfold update_audit_row. local_stmt. Qed.

End Audit.
(** *** Outbox and delivery *)

Lemma view_stream_rows c d : stream_rows t c (view t d) ≡ₚ stream_rows t c d.
Proof.
  apply restrict_omap. intros [[[t' c'] s] o]. cbn. only_own t' t.
Qed.

Lemma view_message_known mid d : message_known t mid (view t d) = message_known t mid d.
Proof.
  apply restrict_existsb. intros [[[t' c] s] o]. cbn. only_own t' t.
Qed.

Lemma view_stream_next c d : stream_next t c (view t d) = stream_next t c d.
Proof. unfold stream_next. by rewrite view_stream_rows. Qed.

Lemma view_pending_rows c n d : pending_rows t c n (view t d) = pending_rows t c n d.
Proof.
  symmetry. apply pending_rows_unique; [apply pending_rows_sorted|].
  unfold pending_rows. by rewrite !merge_sort_Permutation, view_stream_rows.
Qed.

Section Delivery.
Context `{PG : Postgres}.

Lemma local_insert_outbox msg created : om_TenantID msg = t -> local (insert_outbox msg created).
Proof.
  intros Em. unfold insert_outbox. rewrite Em. intros now d.
  rewrite view_message_known, view_stream_next. destruct (bytea_arg _) as [|payload]; [done|].
  destruct (message_known _ _ _); [done|]. local_done.
Qed.

Lemma local_upsert_lease c o e : local (upsert_lease t c o e).
Proof. unfold upsert_lease. local_stmt. Qed.
Lemma local_update_lease c f e : local (update_lease t c f e).
Proof. unfold update_lease. local_stmt. Qed.
Lemma local_clear_lease c f : local (clear_lease t c f).
Proof. unfold clear_lease. local_stmt. Qed.
Lemma local_select_pending c n l : local (select_pending t c n l).
Proof. unfold select_pending. intros now d. rewrite view_pending_rows. by destruct (l <? 0). Qed.
Lemma local_ack_outbox c s : local (ack_outbox t c s).
Proof. unfold ack_outbox. local_stmt. Qed.
Lemma local_insert_inbox c m : local (insert_inbox t c m).
Proof. unfold insert_inbox. local_stmt. Qed.
Lemma local_advance_cursor c s : local (advance_cursor t c s).
Proof. unfold advance_cursor. local_stmt. Qed.

End Delivery.

(** *** The approval engine *)

Section Engine.
Context `{UT : UuidText} `{CI : CborInit} `{GC : GoCrypto} `{PG : Postgres}.

(** The id of a new request is not another tenant's. *)
Lemma local_insert_request n i b ch e ph rh x :
  ci_TenantID i = t -> local (insert_request (env_uuid env n) i b ch e ph rh x).
Proof.
  intros Ei now d. unfold insert_request. rewrite Ei. autorewrite with tenant.
  destruct (binding_arg b) as [|binding]; [done|]. destruct (negb (inet_ok _)); [done|].
  destruct (negb (scope_check _)); [done|].
  assert (E : tenant_ok env t d -> db_requests (view t d) !! env_uuid env n = db_requests d !! env_uuid env n).
  { intros [Ha _]. cbn. rewrite restrict_lookup. destruct (db_requests d !! env_uuid env n) as [q|] eqn:Eq; [|done].
    cbn. by rewrite (Ha n q Eq), eqb_refl. }
  destruct (db_requests d !! env_uuid env n) eqn:Eq; [intros Hok; by rewrite (E Hok)|]. cbn [is_some].
  destruct (negb _); [intros Hok; by rewrite (E Hok)|].
  destruct (own_request t d (env_uuid env n) (mkRequest t (ci_UserID i) (Some (ci_DeviceID i)) (ci_NodeID i)
    (ci_SrcNodeID i) (Some (ci_RequestingIP i)) (ci_ResourceID i) (ci_Protocol i) (Some (ci_SSHAccount i))
    (ci_Scope i) binding ch e [] (ci_PolicyVersion i) (Some (ci_RuleID i)) "PENDING" 0 None ph rh
    (timestamptz_in x) None)) as [Ev Fr]; [split; [done|by rewrite Eq]|].
  split; [|done]. intros Hok. by rewrite (E Hok), Ev.
Qed.

Lemma view_request_has_grant r d : request_has_grant t r (view t d) = request_has_grant t r d.
Proof.
  apply restrict_existsb. intros [[t' j] g]. cbn. only_own t' t.
Qed.

Lemma local_insert_grant jti b g : local (insert_grant t jti b g).
Proof.
  intros now d. unfold insert_grant. rewrite view_validate_grant_ttl, view_request_has_grant.
  autorewrite with tenant. repeat case_match; simplify_eq; try done. local_done.
Qed.

Lemma local_mark_granted r : local (mark_granted t r).
Proof. unfold mark_granted. local_stmt. Qed.

Lemma local_record_response r dec resp : local (record_response t r dec resp).
Proof. unfold record_response. local_stmt. Qed.

Lemma view_policy_epochs d : policy_epochs t (view t d) ≡ₚ policy_epochs t d.
Proof.
  apply restrict_omap. intros [[t' v] p]. cbn. only_own t' t.
Qed.

(** At most one node of the tenant has the stable id. *)
Lemma view_src_key_epoch src d : nodes_unique t d -> src_key_epoch t src (view t d) = src_key_epoch t src d.
Proof.
  intros Hn. unfold src_key_epoch. do 2 f_equal.
  set (f := fun x : UUID * node_row => _).
  assert (Hp : omap f (map_to_list (db_nodes (view t d))) ≡ₚ omap f (map_to_list (db_nodes d))).
  { apply restrict_omap. intros [i m]. cbn. only_own (n_tenant m) t. }
  assert (Hl : (length (omap f (map_to_list (db_nodes d))) <= 1)%nat).
  { apply omap_at_most_one; [apply NoDup_map_to_list|].
    intros [i n] [j m] Hi%elem_of_map_to_list Hj%elem_of_map_to_list. unfold f.
    destruct (n_tenant n == t) eqn:E1, (n_ts_stable_node_id n == src) eqn:E2; cbn; try by intros [? [=]].
    destruct (n_tenant m == t) eqn:E3, (n_ts_stable_node_id m == src) eqn:E4; cbn; try by intros _ [? [=]].
    go_bool. intros _ _. assert (i = j) as -> by (eapply Hn; eauto; congruence). congruence. }
  destruct (omap f (map_to_list (db_nodes d))) as [|a [|]]; cbn in Hl; [| |lia].
  - by apply Permutation_nil_r in Hp as ->.
  - by apply Permutation_singleton_r in Hp as ->.
Qed.

End Engine.
(** *** Revocation *)

Lemma view_revocation_rows d : revocation_rows t (view t d) ≡ₚ revocation_rows t d.
Proof. apply restrict_omap. intros [[t' s] v]. cbn. only_own t' t. Qed.

Lemma view_latest_revocation d : latest_revocation t (view t d) = latest_revocation t d.
Proof. unfold latest_revocation. by rewrite view_revocation_rows. Qed.

(** Closing sessions that a condition on the tenant's rows selects. *)
Lemma local_close_sessions P :
  (forall d s, P (view t d) s = P d s) -> local (close_sessions t P).
Proof.
  intros HP now d. unfold close_sessions. apply local_write; [|done]. split; [|intros t' Hne]; view_set.
  - unfold restrict. rewrite map_filter_fmap.
    assert (E : forall m : gmap UUID session_row, filter (fun '(i, x) =>
        s_tenant (i, if (s_tenant x == t) && P d x && negb (is_some (s_closed_at x)) then close_session now x else x).2 = t) m
        = filter (fun x => s_tenant x.2 = t) m).
    { intros m. apply map_filter_ext. intros i x _. cbn. by destruct (_ && _). }
    rewrite E. apply map_fmap_ext. intros i s _. by rewrite <- (HP d s).
  - apply map_eq. intros i. rewrite !restrict_lookup, lookup_fmap. destruct (db_sessions d !! i) as [s|]; [|done].
    cbn. destruct (s_tenant s == t) eqn:E; [|by rewrite andb_false_l]. go_bool.
    destruct (_ && _); cbn; rewrite E; (rewrite (proj2 (eqb_false t t')); [done|congruence]).
Qed.

Lemma view_grant_where jti P d : grant_where t jti P (view t d) = grant_where t jti P d.
Proof. unfold grant_where. by autorewrite with tenant. Qed.

Lemma local_delete_grants P : local (delete_grants t P).
Proof.
  intros now d. unfold delete_grants.
  rewrite (restrict_existsb (fun x => s_tenant x.2) t (db_sessions d)).
  2:{ intros [i s]. destruct (db_grants (view t d) !! _) as [g|]; [|done]. unfold doomed. cbn. only_own (s_tenant s) t. }
  assert (E : existsb (fun '(_, s) => match db_grants (view t d) !! (s_tenant s, s_grant_jti s) with
      | Some g => doomed t P (s_tenant s, s_grant_jti s) g | None => false end) (map_to_list (db_sessions d)) =
    existsb (fun '(_, s) => match db_grants d !! (s_tenant s, s_grant_jti s) with
      | Some g => doomed t P (s_tenant s, s_grant_jti s) g | None => false end) (map_to_list (db_sessions d))).
  { induction (map_to_list (db_sessions d)) as [|[i s] l IH]; [done|]. cbn [existsb]. rewrite IH. f_equal.
    cbn. rewrite restrict_lookup. destruct (db_grants d !! _) as [g|]; [|done]. cbn.
    destruct (s_tenant s == t) eqn:E; [done|]. unfold doomed. cbn. by rewrite E. }
  rewrite E. clear E. destruct (existsb _ _); [done|]. apply local_write; [|done].
  split; [|intros t' Hne]; view_set; unfold restrict; rewrite !map_filter_filter; apply map_filter_ext.
  - naive_solver.
  - intros [t1 j] g _. cbn. split; [naive_solver|]. intros ->. split; [done|]. unfold doomed. cbn.
    by rewrite (proj2 (eqb_false t' t) Hne).
Qed.

Lemma local_revoke_device_row dev : local (revoke_device_row t dev).
Proof. unfold revoke_device_row. local_stmt. Qed.

Section Revoke.
Context `{PG : Postgres}.

Lemma local_select_next_seq : local (select_next_seq t).
Proof.
  unfold select_next_seq. intros now d. rewrite view_latest_revocation. by destruct (negb _).
Qed.

Lemma local_insert_revocation rev : rv_TenantID rev = t -> local (insert_revocation rev).
Proof.
  intros Er. unfold insert_revocation. rewrite Er. intros now d. autorewrite with tenant.
  destruct (negb _); [done|]. destruct (is_some _); [done|]. local_done.
Qed.

Lemma local_with_uuid s f : (forall u, local (f u)) -> local (with_uuid s f).
Proof. intros Hf now d. unfold with_uuid. destruct (uuid_in s) as [u|]; [by apply Hf|done]. Qed.

End Revoke.

Lemma view_revocations_since n d :
  merge_sort vseq_le (filter (fun r => n < r.1) (revocation_rows t (view t d))) =
  merge_sort vseq_le (filter (fun r => n < r.1) (revocation_rows t d)).
Proof.
  eapply (StronglySorted_unique_strong vseq_le); [|apply StronglySorted_merge_sort; apply _..|].
  - intros [s1 v1] [s2 v2] H1 H2 H12 H21. unfold vseq_le in *. cbn in *. assert (s1 = s2) as -> by lia.
    rewrite merge_sort_Permutation, list_elem_of_filter in H1. rewrite merge_sort_Permutation, list_elem_of_filter in H2.
    destruct H1 as [_ H1], H2 as [_ H2]. rewrite view_revocation_rows in H1. unfold revocation_rows in *.
    rewrite list_elem_of_omap in H1, H2. destruct H1 as ([[t1 x1] w1] & I1 & E1), H2 as ([[t2 x2] w2] & I2 & E2).
    apply elem_of_map_to_list in I1, I2. destruct (t1 == t) eqn:T1; [|done]. destruct (t2 == t) eqn:T2; [|done].
    go_bool. congruence.
  - by rewrite !merge_sort_Permutation, view_revocation_rows.
Qed.

(** *** Policy *)

Lemma view_policy_rows d : policy_rows t (view t d) ≡ₚ policy_rows t d.
Proof. apply restrict_omap. intros [[t' v] p]. cbn. only_own t' t. Qed.

(** The newest row is the one with the highest version, in whatever order the rows
    come. *)
Lemma view_active_bundle now d : active_bundle t now (view t d) = active_bundle t now d.
Proof.
  unfold active_bundle. f_equal. assert (Hp := view_policy_rows d).
  pose proof (newest_spec (filter (fun x => now < p_expires_at x.2) (policy_rows t (view t d)))) as H1.
  pose proof (newest_spec (filter (fun x => now < p_expires_at x.2) (policy_rows t d))) as H2.
  destruct (newest (filter _ (policy_rows t (view t d)))) as [[v1 p1]|],
    (newest (filter _ (policy_rows t d))) as [[v2 p2]|]; [| | |done].
  - destruct H1 as [I1 M1], H2 as [I2 M2]. rewrite Hp in I1. setoid_rewrite Hp in M1.
    specialize (M1 _ I2). specialize (M2 _ I1). cbn in *. assert (v1 = v2) as -> by lia.
    apply list_elem_of_filter in I1 as [_ I1], I2 as [_ I2]. rewrite elem_of_policy_rows in I1.
    rewrite elem_of_policy_rows in I2. congruence.
  - destruct H1 as [I1 _]. rewrite Hp, H2 in I1. by apply not_elem_of_nil in I1.
  - destruct H2 as [I2 _]. rewrite <- Hp, H1 in I2. by apply not_elem_of_nil in I2.
Qed.

Lemma view_resource_registered `{UT : UuidText} node r d :
  resource_registered t node r (view t d) = resource_registered t node r d.
Proof.
  unfold resource_registered. apply eq_iff_eq_true. rewrite !existsb_exists. setoid_rewrite <- list_elem_of_In.
  unfold tenant_resources. setoid_rewrite list_elem_of_filter.
  split; intros ([k x] & [Ht Hin] & Hx); exists (k, x); (split; [split; [done|]|done]); revert Hin;
    rewrite !elem_of_map_to_list; cbn; unfold restrict; rewrite map_lookup_filter_Some; naive_solver.
Qed.

End Statements.
