(* ===== verification/TenantProps.v ===== *)
(** * TenantProps: tenants are isolated from each other

    Every handler that serves one tenant is local ([Tenant]); so it answers from
    that tenant's rows alone, and no handler changes another tenant's rows. *)

From stdpp Require Import base gmap strings list fin_maps sorting.
From Stdlib Require Import ZArith Lia Strings.Byte.
From S2P Require Import Prelude Identity Cose Envelope Reference Database Schema Messaging AuditChain.
From S2P Require Import Enforcement Revocation Policy PolicyProps Tenant TenantStmts.

Open Scope Z_scope.
Open Scope go_scope.

(** [local_go] walks through a handler: binders, branches and primitives; the
    statements are left to the lemmas of [TenantStmts]. *)
Create HintDb local.
#[export] Hint Resolve local_ret local_lift local_time_Now local_rand_Read local_BeginTx local_Commit : local.
#[export] Hint Resolve local_transition local_consume_grant local_advance_device_counter
  local_insert_audit_event local_update_audit_row local_upsert_lease local_update_lease local_clear_lease
  local_select_pending local_ack_outbox local_insert_inbox local_advance_cursor local_insert_grant
  local_mark_granted local_record_response local_delete_grants local_revoke_device_row
  local_select_next_seq : local.

Ltac local_step :=
  lazymatch goal with
  | |- localM _ _ (mbind _ uuid_New) => apply local_uuid_New; intros ?
  | |- localM _ _ (mbind _ _) => apply local_bind; [|intros ?]
  | |- localM _ _ (mwrap _ _ _) => apply local_mwrap
  | |- localM _ _ (defer_rollback _) => apply local_defer_rollback
  | |- localM _ _ (try _) => apply local_try
  | |- localM _ _ (ignore _) => apply local_ignore
  | |- localM _ _ (tx_exec _) => apply local_tx_exec
  | |- localM _ _ (db_exec _) => apply local_db_exec
  | |- localM _ _ (tx_query _) => apply local_tx_query
  | |- localM _ _ (db_query _) => apply local_db_query
  | |- localM _ _ (if ?b then _ else _) => destruct b
  | |- localM _ _ (match ?x with _ => _ end) => destruct x
  | |- local_read _ _ _ => intros ? ? [? ?]; autorewrite with tenant; try done
  end.
Ltac local_go := repeat (try (solve [auto with local]); local_step); try (solve [auto with local]).

Section Parts.
Context (env : Env) (t : UUID) `{PG : Postgres} `{GC : GoCrypto} `{GJ : GoJson} `{UT : UuidText}.
Abbreviation localM := (localM env t).

Lemma local_WriteTx msg : om_TenantID msg = t -> localM (WriteTx msg).
Proof. intros. unfold WriteTx. local_go. by apply local_insert_outbox. Qed.
Lemma local_NotifyConsumer c : localM (NotifyConsumer t c).
Proof. unfold NotifyConsumer. local_go. by apply read_local. Qed.
Lemma local_InsertTx e : ae_TenantID e = t -> localM (InsertTx e).
Proof. intros. unfold InsertTx. subst t. local_go. Qed.
Lemma local_getResourceLabel r : localM (getResourceLabel t r).
Proof. unfold getResourceLabel. local_go. Qed.
Lemma local_getResourceDetails r : localM (getResourceDetails t r).
Proof. unfold getResourceDetails. local_go. Qed.
Lemma local_resolveUserIdentity u : localM (resolveUserIdentity t u).
Proof. unfold resolveUserIdentity. local_go. Qed.
Lemma local_terminate kind target : localM (terminateActiveSessions t kind target).
Proof.
  unfold terminateActiveSessions, terminateDeviceSessions, terminateUserSessions, terminateSourceNodeSessions,
    terminateGrantSession, terminateProtectedNodeSessions. local_go;
    repeat first [apply local_with_uuid; intros ?|apply local_close_sessions; intros ? ?]; try done;
    apply view_grant_where.
Qed.
Lemma local_invalidate kind target : localM (invalidateGrants t kind target).
Proof.
  unfold invalidateGrants. local_go; apply local_with_uuid; intros ?; auto with local.
Qed.
Lemma local_queue_all rev cs : rv_TenantID rev = t -> localM (queue_all rev cs).
Proof. intros E. induction cs as [|c cs IH]; cbn [queue_all]; local_go. by apply local_WriteTx. Qed.
Lemma local_notify_all cs : localM (notify_all t cs).
Proof. induction cs as [|c cs IH]; cbn [notify_all]; local_go. apply local_NotifyConsumer. Qed.

End Parts.

#[export] Hint Resolve local_WriteTx local_NotifyConsumer local_InsertTx local_getResourceLabel
  local_getResourceDetails local_resolveUserIdentity local_terminate local_invalidate local_queue_all
  local_notify_all local_insert_revocation local_insert_request : local.

Section Handlers.
Context (env : Env) (t : UUID).
Context `{UT : UuidText} `{CI : CborInit} `{GC : GoCrypto} `{CB : Cbor ScopeBinding}.
Context `{CA : Cbor AGTPayload}.
Context `{PG : Postgres} `{GJ : GoJson} `{RS : RequestSigner} `{GS : GrantSigner}.
Abbreviation localM := (localM env t).

Lemma local_AcquireLease c o : localM (AcquireLease t c o).
Proof. unfold AcquireLease. local_go. Qed.
Lemma local_RenewLease l : cl_TenantID l = t -> localM (RenewLease l).
Proof. intros <-. unfold RenewLease. local_go. Qed.
Lemma local_ReleaseLease l : cl_TenantID l = t -> localM (ReleaseLease l).
Proof. intros <-. unfold ReleaseLease. local_go. Qed.
Lemma local_FetchPending c n l : localM (FetchPending t c n l).
Proof. unfold FetchPending. local_go. Qed.
Lemma local_AckMessage c m s f : localM (AckMessage t c m s f).
Proof. unfold AckMessage. local_go. Qed.

Lemma local_CreateApprovalRequest i : ci_TenantID i = t -> localM (CreateApprovalRequest i).
Proof. intros <-. unfold CreateApprovalRequest, generateCapabilities. local_go. Qed.

Lemma local_mintGrant r u src dev res scope v rule b e1 e2 :
  localM (mintGrant t r u src dev res scope v rule b e1 e2).
Proof. unfold mintGrant. local_go. Qed.
#[local] Hint Resolve local_mintGrant : local.

Lemma local_ProcessApproval input : pi_TenantID input = t -> localM (ProcessApproval input).
Proof.
  intros Ei. unfold ProcessApproval, decide_request. rewrite Ei. local_go.
  - destruct (select_request _ _ _) as [q|]; [|done]. cbn. by rewrite view_src_key_epoch.
  - by rewrite view_policy_epochs.
Qed.

Lemma local_CancelApprovalRequest r n reason : localM (CancelApprovalRequest t r n reason).
Proof. unfold CancelApprovalRequest. local_go. Qed.
Lemma local_ConsumeGrant jti : localM (ConsumeGrant t jti).
Proof. unfold ConsumeGrant. local_go. Qed.
Lemma local_IssueRevocation kind target cs : localM (IssueRevocation t kind target cs).
Proof. unfold IssueRevocation. local_go. Qed.
Lemma local_RevokeDevice dev reason : localM (RevokeDevice t dev reason).
Proof. unfold RevokeDevice, issueRevocationInTx. local_go. Qed.
Lemma local_CheckFreshness n : localM (CheckFreshness t n).
Proof. unfold CheckFreshness. local_go. by rewrite view_latest_revocation. Qed.
Lemma local_GetRevocationsSince n : localM (GetRevocationsSince t n).
Proof. unfold GetRevocationsSince. local_go. by rewrite view_revocations_since. Qed.
Lemma local_Evaluate `{PJ : PolicyJson} `{SS : SortSlice} a : localM (Evaluate t a).
Proof.
  unfold Evaluate, isResourceProtected, loadActiveBundle. local_go.
  - by rewrite view_resource_registered.
  - by rewrite view_active_bundle.
Qed.

End Handlers.
