(* ===== verification/Isolation.v ===== *)
(** * Isolation: tenants do not see or touch each other

    The theorems about the whole service that follow from the locality of its
    handlers ([TenantProps]): every step changes the rows of one tenant only, a
    call made for a tenant is answered from that tenant's rows, and the row-level
    security policies of the migration (lines 373-449) would not change a thing -
    if the session named the tenant, which no code of the service does. *)

From stdpp Require Import base gmap strings list fin_maps sorting.
From Stdlib Require Import ZArith Lia Strings.Byte.
From S2P Require Import Prelude Identity Cose Envelope Reference Database Schema Messaging AuditChain.
From S2P Require Import Enforcement EngineSpec Revocation MessagingProps RevocationProps.
From S2P Require Import Rbac RbacProps Policy PolicyProps Enrollment EnrollmentProps System.
From S2P Require Import Tenant TenantStmts TenantProps Sample KeyManager ServiceMain Scenario.

Open Scope Z_scope.
Open Scope go_scope.

(** ** Steps of the administration *)

Lemma frame_late t d lt lt' :
  db_late d = Some lt -> (forall t', t' <> t -> late_view t' lt' = late_view t' lt) ->
  only_tenant t d (set_late (Some lt') d).
Proof.
  intros El Hv t' Hne. unfold view, set_late. cbn. rewrite El. cbn. by rewrite (Hv t' Hne).
Qed.

Lemma frame_policy t v p d :
  db_policies d !! (t, v) = None -> only_tenant t d (set_policies (<[(t, v) := p]> (db_policies d)) d).
Proof.
  intros Hn t' Hne. unfold view, set_policies. cbn. f_equal.
  apply restrict_insert_other; cbn; congruence.
Qed.

Lemma frame_node t id n d :
  db_nodes d !! id = None -> n_tenant n = t -> only_tenant t d (set_nodes (<[id := n]> (db_nodes d)) d).
Proof.
  intros Hn <- t' Hne. unfold view, set_nodes. cbn. f_equal.
  apply restrict_insert_other; cbn; [done|]. intros y Hy. congruence.
Qed.

(** A row of the late tables that is new, or stays with its tenant. *)
Ltac late_row := apply restrict_insert_other; cbn; intros; congruence.

Section Admin.
Context `{UT : UuidText} `{CI : CborInit} `{GC : GoCrypto}.
Context `{CB : Cbor ScopeBinding} `{CA : Cbor AGTPayload}.
Context `{PG : Postgres} `{GJ : GoJson} `{RS : RequestSigner} `{GS : GrantSigner}.

Lemma ticket_added_frame h k d d' : ticket_added h k d d' -> only_tenant (k_tenant k) d d'.
Proof.
  intros (lt & El & Hn & ->). eapply frame_late; [done|]. intros t' Hne. unfold late_view, set_tickets. cbn.
  f_equal. late_row.
Qed.
Lemma ticket_used_frame h k d d' : ticket_used h k d d' -> only_tenant (k_tenant k) d d'.
Proof.
  intros (lt & El & Hk & _ & _ & ->). eapply frame_late; [done|]. intros t' Hne.
  unfold late_view, set_tickets. cbn. f_equal. late_row.
Qed.
Lemma token_added_frame h b d d' : token_added h b d d' -> only_tenant (b_tenant b) d d'.
Proof.
  intros (lt & El & Hn & ->). eapply frame_late; [done|]. intros t' Hne. unfold late_view, set_tokens. cbn.
  f_equal. late_row.
Qed.
Lemma node_registered_frame h b id d d' : node_registered h b id d d' -> only_tenant (b_tenant b) d d'.
Proof.
  intros (lt & El & Hb & _ & _ & Hn & _ & ->).
  set (d1 := set_late (Some (set_tokens (<[h := b_use b]> (lt_tokens lt)) lt)) d).
  etrans; [|by apply (frame_node (b_tenant b) id _ d1)]. eapply frame_late; [done|]. intros t' Hne.
  unfold late_view, set_tokens. cbn. f_equal. late_row.
Qed.
Lemma device_added_frame id v d d' : device_added id v d d' -> only_tenant (d_tenant v) d d'.
Proof. intros (Hn & _ & _ & _ & ->). apply own_device. split; [done|]. congruence. Qed.
Lemma roles_changed_frame t d d' : roles_changed t d d' -> only_tenant t d d'.
Proof.
  intros [->|(lt & m & El & -> & Hm)]; [done|]. eapply frame_late; [done|]. intros t' Hne.
  unfold late_view, set_user_roles. cbn. f_equal. apply map_eq. intros k. rewrite !restrict_lookup. cbn.
  destruct (k.1.1 == t') eqn:E; [|by destruct (m !! k), (lt_user_roles lt !! k)]. go_bool.
  rewrite Hm; [done|congruence].
Qed.

(** What an administrative step adds keeps stable node ids unique. *)
Definition nodes_ok (d : Db) : Prop := forall t, nodes_unique t d.

Lemma nodes_ok_same d d' : db_nodes d' = db_nodes d -> nodes_ok d -> nodes_ok d'.
Proof. intros E H t. unfold nodes_unique. rewrite E. apply H. Qed.

Lemma node_not_taken t stable serial d i n :
  node_taken t stable serial d = false -> db_nodes d !! i = Some n -> n_tenant n = t ->
  n_ts_stable_node_id n <> stable.
Proof.
  unfold node_taken. intros Ht Hn Et E. apply not_true_iff_false in Ht. apply Ht.
  apply existsb_exists. exists (i, n). split; [by apply list_elem_of_In, elem_of_map_to_list|].
  by rewrite Et, E, !eqb_refl.
Qed.

Lemma node_registered_nodes h b id d d' : node_registered h b id d d' -> nodes_ok d -> nodes_ok d'.
Proof.
  intros (lt & _ & _ & _ & _ & Hn & Ht & ->) Hu t i j x y. cbn.
  intros [[<- <-]|[Hi Ha]]%lookup_insert_Some [[<- <-]|[Hj Hb]]%lookup_insert_Some Et Et' Es; cbn in *.
  - done.
  - exfalso. eapply (node_not_taken _ _ _ _ _ _ Ht Hb); congruence.
  - exfalso. eapply (node_not_taken _ _ _ _ _ _ Ht Ha); congruence.
  - by eapply Hu.
Qed.

End Admin.

(** ** One tenant per step *)

Section Steps.
Context `{UT : UuidText} `{CI : CborInit} `{GC : GoCrypto}.
Context `{CB : Cbor ScopeBinding} `{CA : Cbor AGTPayload}.
Context `{PG : Postgres} `{GJ : GoJson} `{RS : RequestSigner} `{GS : GrantSigner}.

(** A step that serves [t]. *)
Definition step_of (t : UUID) (d d' : Db) : Prop := step d d' /\ only_tenant t d d'.

Lemma admin_one_tenant d d' : admin_step d d' -> exists t, only_tenant t d d' /\ (nodes_ok d -> nodes_ok d').
Proof.
  intros Hstep. destruct Hstep as [env t u iss sub ttl d|env s d|env ticket e d|env t tn node ttl u d|
    env s tn node csr d|RO env a t u actor role d|RO env a t u actor role d|PJ SS env input signer d].
  - pose proof (IssueEnrollmentTicket_cases env t u iss sub ttl d) as Hc.
    destruct (run (IssueEnrollmentTicket _ _ _ _ _) env d) as [r d'].
    destruct Hc as [_ [[-> _]|(s & k & Ha & _)]]; [by exists t|]. exists (k_tenant k).
    split; [by eapply ticket_added_frame|]. destruct Ha as (lt & _ & _ & ->). by apply nodes_ok_same.
  - pose proof (ValidateEnrollmentTicket_cases env s d) as Hc.
    destruct (run (ValidateEnrollmentTicket _) env d) as [r d'].
    destruct Hc as [_ [[-> _]|(k & Hu & _)]]; [by exists uuid_Nil|]. exists (k_tenant k).
    split; [by eapply ticket_used_frame|]. destruct Hu as (lt & _ & _ & _ & _ & ->). by apply nodes_ok_same.
  - pose proof (EnrollDevice_cases env ticket e d) as Hc. destruct (run (EnrollDevice _ _) env d) as [r d'].
    destruct Hc as [_ [[-> _]|(id & v & Ha & _)]]; [by exists uuid_Nil|]. exists (d_tenant v).
    split; [by eapply device_added_frame|]. destruct Ha as (_ & _ & _ & _ & ->). by apply nodes_ok_same.
  - pose proof (IssueNodeBootstrap_cases env t tn node ttl u d) as Hc.
    destruct (run (IssueNodeBootstrap _ _ _ _ _) env d) as [r d'].
    destruct Hc as [_ [[-> _]|(s & b & Ha & _)]]; [by exists t|]. exists (b_tenant b).
    split; [by eapply token_added_frame|]. destruct Ha as (lt & _ & _ & ->). by apply nodes_ok_same.
  - pose proof (RegisterNode_cases env s tn node csr d) as Hc.
    destruct (run (RegisterNode _ _ _ _) env d) as [r d'].
    destruct Hc as [_ [[-> _]|(id & b & Ha & _)]]; [by exists uuid_Nil|]. exists (b_tenant b).
    split; [by eapply node_registered_frame|by eapply node_registered_nodes].
  - exists t. pose proof (AssignRole_any RO env a t u actor role d) as Hr.
    split; [by apply roles_changed_frame|]. destruct Hr as [->|(? & ? & _ & -> & _)]; by apply nodes_ok_same.
  - exists t. pose proof (RemoveRole_any RO env a t u actor role d) as Hr.
    split; [by apply roles_changed_frame|]. destruct Hr as [->|(? & ? & _ & -> & _)]; by apply nodes_ok_same.
  - exists (ppi_TenantID input).
    destruct (publication_adds_at_most_one env d input signer) as [E|(v & p & Hn & E)]; rewrite E; [done|].
    split; [by apply frame_policy|by apply nodes_ok_same].
Qed.

Lemma run_one_tenant {A} t env (m : M A) d :
  localM env t m -> exists t', only_tenant t' d (run m env d).2 /\ (nodes_ok d -> nodes_ok (run m env d).2).
Proof. intros Hm. exists t. destruct (local_frame env t m d Hm). split; [done|by apply nodes_ok_same]. Qed.

Lemma step_frames d d' : step d d' -> exists t, only_tenant t d d' /\ (nodes_ok d -> nodes_ok d').
Proof.
  destruct 1.
  - by eapply run_one_tenant, local_CreateApprovalRequest.
  - by eapply run_one_tenant, local_ProcessApproval.
  - eapply run_one_tenant, local_CancelApprovalRequest.
  - eapply run_one_tenant, local_ConsumeGrant.
  - eapply run_one_tenant, local_IssueRevocation.
  - eapply run_one_tenant, local_RevokeDevice.
  - eapply run_one_tenant, local_AckMessage.
  - eapply run_one_tenant, local_AcquireLease.
  - by eapply run_one_tenant, local_RenewLease.
  - by eapply run_one_tenant, local_ReleaseLease.
  - by apply admin_one_tenant.
Qed.

(** C11.  Every step of the service - creating, deciding, cancelling and
    consuming, revoking, delivering, enrolling, assigning roles and publishing
    policies, in any environment - touches the rows of one tenant: what any other
    tenant has in any of the tables is the same before and after. *)
Theorem one_tenant_per_step d d' : step d d' -> exists t, forall t', t' <> t -> view t' d' = view t' d.
Proof. intros (t & Hf & _)%step_frames. by exists t. Qed.

(** ** A tenant's own service *)

(** The calls made for a tenant, with the session's or the device's tenant id. *)
Inductive tenant_call (t : UUID) : forall A : Set, M A -> Prop :=
| call_create i : ci_TenantID i = t -> tenant_call t _ (CreateApprovalRequest i)
| call_process i : pi_TenantID i = t -> tenant_call t _ (ProcessApproval i)
| call_cancel r n reason : tenant_call t _ (CancelApprovalRequest t r n reason)
| call_consume jti : tenant_call t _ (ConsumeGrant t jti)
| call_revoke kind target cs : tenant_call t _ (IssueRevocation t kind target cs)
| call_revoke_device dev reason : tenant_call t _ (RevokeDevice t dev reason)
| call_freshness n : tenant_call t _ (CheckFreshness t n)
| call_revocations n : tenant_call t _ (GetRevocationsSince t n)
| call_fetch c n l : tenant_call t _ (FetchPending t c n l)
| call_ack c m s f : tenant_call t _ (AckMessage t c m s f)
| call_acquire c o : tenant_call t _ (AcquireLease t c o)
| call_renew l : cl_TenantID l = t -> tenant_call t _ (RenewLease l)
| call_release l : cl_TenantID l = t -> tenant_call t _ (ReleaseLease l)
| call_evaluate (PJ : PolicyJson) (SS : SortSlice) a : tenant_call t _ (Evaluate t a).

Lemma tenant_call_local env t (A : Set) (m : M A) : tenant_call t A m -> localM env t m.
Proof.
  destruct 1; [by apply local_CreateApprovalRequest|by apply local_ProcessApproval
    |apply local_CancelApprovalRequest|apply local_ConsumeGrant|apply local_IssueRevocation|apply local_RevokeDevice
    |apply local_CheckFreshness|apply local_GetRevocationsSince|apply local_FetchPending|apply local_AckMessage
    |apply local_AcquireLease|by apply local_RenewLease|by apply local_ReleaseLease|apply local_Evaluate].
Qed.

(** An answer, of any type. *)
Definition answer : Type := {A : Set & outcome A}.
Definition call : Type := Env * {A : Set & M A}.

(** A sequence of calls on a database nobody else uses. *)
Fixpoint alone (cs : list call) (d : Db) : list answer * Db :=
  match cs with
  | [] => ([], d)
  | (env, existT A m) :: cs' =>
      let '(r, d1) := run m env d in
      let '(os, d') := alone cs' d1 in (existT A r :: os, d')
  end.

(** The same calls in a service that other tenants use too: any steps that serve
    others happen between them.  The request ids drawn for [t] are not those of
    other tenants' requests. *)
Inductive shared (t : UUID) : list call -> Db -> list answer -> Db -> Prop :=
| shared_done d : shared t [] d [] d
| shared_other t' cs d1 d2 os d' :
    t' <> t -> step_of t' d1 d2 -> shared t cs d2 os d' -> shared t cs d1 os d'
| shared_own env (A : Set) (m : M A) cs d os d' :
    tenant_call t A m -> apart env t d -> shared t cs (run m env d).2 os d' ->
    shared t ((env, existT A m) :: cs) d (existT A (run m env d).1 :: os) d'.

(** C2.  A tenant of the shared service sees a service of its own.  Whatever
    steps for other tenants are interleaved with the tenant's calls, each call gets
    the answer it would get from a service whose database holds that tenant's rows
    alone, and at the end the tenant's rows are those of that service. *)
Theorem shared_refines_alone t cs d os d' :
  nodes_ok d -> shared t cs d os d' -> alone cs (view t d) = (os, view t d').
Proof.
  intros Hn Hs. induction Hs as [d|t' cs d1 d2 os d' Hne [Hst Hf] _ IH|env A m cs d os d' Hc Ha _ IH]; [done| |].
  - destruct (step_frames _ _ Hst) as (_ & _ & Hn2). rewrite <- (IH (Hn2 Hn)). by rewrite (Hf t (not_eq_sym Hne)).
  - apply (tenant_call_local env) in Hc. cbn [alone]. rewrite (local_run env t m d Hc) by (by split).
    destruct (local_frame env t m d Hc) as [_ En]. rewrite (IH (nodes_ok_same _ _ En Hn)). done.
Qed.

(** What other tenants store does not influence a call: two databases in
    which the tenant has the same rows give the same answer, and the tenant has the
    same rows afterwards. *)
Lemma tenant_noninterference t (A : Set) (m : M A) env d1 d2 :
  tenant_call t A m -> tenant_ok env t d1 -> tenant_ok env t d2 -> view t d1 = view t d2 ->
  (run m env d1).1 = (run m env d2).1 /\ view t (run m env d1).2 = view t (run m env d2).2.
Proof.
  intros Hc H1 H2 Ev. apply (tenant_call_local env) in Hc.
  pose proof (local_run env t m d1 Hc H1) as E1. rewrite Ev, (local_run env t m d2 Hc H2) in E1.
  split; symmetry; [exact (f_equal fst E1)|exact (f_equal snd E1)].
Qed.

End Steps.

(** ** Row-level security *)

(** [current_setting('app.current_tenant_id', true)::uuid]: NULL when the setting
    is absent or does not parse. *)
Definition app_current_tenant `{PG : Postgres} (setting : option string) : option UUID := setting ≫= uuid_in.

(** [tenant_id = app_current_tenant()], as a policy reads it: NULL is not true. *)
Definition tenant_isolation (cur : option UUID) `{Countable K} {A} (owner : K * A -> UUID) (m : gmap K A) : gmap K A :=
  match cur with Some t => restrict owner t m | None => ∅ end.

(** The rows a session sees: the policies cover these tables; [tenants] and
    [audit_heads] have none, and the tables the migration does not create have
    none. *)
Definition rls_view (cur : option UUID) (d : Db) : Db := {|
  db_tenants := db_tenants d;
  db_users := tenant_isolation cur (fun x => u_tenant x.2) (db_users d);
  db_devices := tenant_isolation cur (fun x => d_tenant x.2) (db_devices d);
  db_nodes := tenant_isolation cur (fun x => n_tenant x.2) (db_nodes d);
  db_resources := tenant_isolation cur (fun x => r_tenant x.2) (db_resources d);
  db_policies := tenant_isolation cur (fun x => x.1.1) (db_policies d);
  db_requests := tenant_isolation cur (fun x => q_tenant x.2) (db_requests d);
  db_grants := tenant_isolation cur (fun x => x.1.1) (db_grants d);
  db_sessions := tenant_isolation cur (fun x => s_tenant x.2) (db_sessions d);
  db_revocations := tenant_isolation cur (fun x => x.1.1) (db_revocations d);
  db_outbox := tenant_isolation cur (fun x => x.1.1.1) (db_outbox d);
  db_inbox := tenant_isolation cur (fun x => x.1.1.1) (db_inbox d);
  db_cursors := tenant_isolation cur (fun x => x.1.1) (db_cursors d);
  db_heads := db_heads d;
  db_events := tenant_isolation cur (fun x => x.1.1) (db_events d);
  db_late := db_late d
|}.

Lemma rls_view_own t d : view t (rls_view (Some t) d) = view t d.
Proof. unfold view. cbn. by rewrite !restrict_twice. Qed.

Section Rls.
Context `{UT : UuidText} `{CI : CborInit} `{GC : GoCrypto}.
Context `{CB : Cbor ScopeBinding} `{CA : Cbor AGTPayload}.
Context `{PG : Postgres} `{GJ : GoJson} `{RS : RequestSigner} `{GS : GrantSigner}.

Lemma rls_view_ok env t d : tenant_ok env t d -> tenant_ok env t (rls_view (Some t) d).
Proof.
  intros [Ha Hn]. split.
  - intros n q. cbn. intros [? _]%map_lookup_filter_Some. by eapply Ha.
  - intros i j x y. cbn. intros [? _]%map_lookup_filter_Some [? _]%map_lookup_filter_Some. by eapply Hn.
Qed.

(** C21.  Row-level security is transparent to a session that names its
    tenant.  When [app.current_tenant_id] parses to [t], a call made for [t] that
    sees only the rows the policies show gives the answer it gives on all rows,
    and leaves [t] the same rows. *)
Theorem rls_transparent setting t (A : Set) (m : M A) env d :
  app_current_tenant setting = Some t -> tenant_call t A m -> tenant_ok env t d ->
  let seen := rls_view (app_current_tenant setting) d in
  (run m env seen).1 = (run m env d).1 /\ view t (run m env seen).2 = view t (run m env d).2.
Proof.
  intros -> Hc Hok. cbv zeta. eapply tenant_noninterference; [done|by apply rls_view_ok|done|apply rls_view_own].
Qed.

Lemma Cancel_unknown env t r n reason d :
  select_request t r d = None -> (run (CancelApprovalRequest t r n reason) env d).1 <> Ok tt.
Proof.
  intros Hn. wp_start. unfold CancelApprovalRequest. wp_go. apply (wp_BeginTx _ _ _ d); [done| |done].
  intros now w1 H1. wp_go. eapply wp_tx_query; [done| |done]. intros [st v] w2 _ Hq _. by rewrite Hn in Hq.
Qed.

Lemma no_stream t c n d : db_outbox d = ∅ -> pending_rows t c n d = [].
Proof.
  intros E. destruct (pending_rows t c n d) as [|[s o] l] eqn:Ep; [done|].
  assert (Hin : (s, o) ∈ pending_rows t c n d) by (rewrite Ep; left).
  apply elem_of_pending_rows in Hin as (_ & _ & Hl). by rewrite E in Hl.
Qed.

(** C40.  Without the setting nothing is visible, and the service refuses: no
    device answer is processed, no request is cancelled, no grant is consumed, no
    message is acknowledged or delivered. *)
Theorem rls_unset_refuses env d :
  let seen := rls_view (app_current_tenant None) d in
  (forall i x, (run (ProcessApproval i) env seen).1 <> Ok x) /\
  (forall t r n reason, (run (CancelApprovalRequest t r n reason) env seen).1 <> Ok tt) /\
  (forall t jti, (run (ConsumeGrant t jti) env seen).2 = seen) /\
  (forall t c m s f b, (run (AckMessage t c m s f) env seen).1 <> Ok b) /\
  (forall t c n l x, (run (FetchPending t c n l) env seen).1 = Ok x -> x = []).
Proof.
  cbv zeta. set (seen := rls_view _ d).
  assert (Hq : forall t r, select_request t r seen = None) by done.
  split_and!.
  - intros i x. destruct (ProcessApproval_cases env i seen) as [[_ Hr]|[_ (q & rp & dv & [[Hs _] _ _ _ _ _ _] & _)]].
    + intros (_ & q & Hs & _)%Hr. by rewrite Hq in Hs.
    + by rewrite Hq in Hs.
  - intros t r n reason. by apply Cancel_unknown.
  - intros t jti. destruct (ConsumeGrant_cases env t jti seen) as [_ [[E _]|(g & now & Hg & _)]]; done.
  - intros t c m s f b. destruct (AckMessage_cases env seen t c m s f) as [(E & H1 & _ & H2)|(_ & _ & _ & (cur & Hc & _) & _)].
    + intros Hb. destruct b; [done|]. by apply H2 in Hb.
    + done.
  - intros t c n l x Hx. destruct (run (FetchPending t c n l) env seen) as [r d'] eqn:E. cbn in Hx. subst r.
    apply FetchPending_Ok in E as (_ & _ & ->). rewrite (no_stream t c n seen) by done. by rewrite take_nil.
Qed.

End Rls.

(** ** Witnesses *)

(** Another tenant's lease between two calls of the first one's. *)
Definition tenant2 : UUID := uuid_of_Z 77.
Definition lease2 : M ConsumerLease := AcquireLease tenant2 "node-b" (uuid_of_Z 78).
Definition leased_db : Db := (run lease2 (sample_env 6000) sample_db).2.
Definition alice_calls : list call :=
  [(sample_env 1000, existT _ (CreateApprovalRequest alice_input));
   (sample_env 2000, existT _ (ProcessApproval approve_input))].

Lemma sample_nodes_ok : nodes_ok sample_db.
Proof. intros t i j x y. cbn. intros [<- _]%lookup_singleton_Some [<- _]%lookup_singleton_Some. done. Qed.

Lemma leased_step : step_of tenant2 sample_db leased_db.
Proof.
  split; [apply step_acquire|].
  exact (proj1 (local_frame (sample_env 6000) tenant2 _ sample_db (local_AcquireLease _ tenant2 _ _))).
Qed.

Lemma sample_apart env t : apart env t sample_db.
Proof. intros n q. cbn. by rewrite lookup_empty. Qed.

Lemma leased_apart env t : apart env t leased_db.
Proof.
  assert (E : db_requests leased_db = ∅).
  { unfold leased_db. destruct (AcquireLease_any (sample_env 6000) tenant2 "node-b" (uuid_of_Z 78) sample_db)
      as [E|[m E]]; unfold lease2; by rewrite E. }
  intros n q. by rewrite E, lookup_empty.
Qed.

Lemma alice_shared : exists os d', length os = 2%nat /\ shared tenant1 alice_calls sample_db os d'.
Proof.
  do 2 eexists. split; [|eapply (shared_other _ tenant2); [by vm_compute|apply leased_step|];
    eapply shared_own; [by apply call_create|apply leased_apart|];
    eapply shared_own; [by apply call_process| |apply shared_done]]; [done|].
  eapply apart_frame; [apply leased_apart|].
  exact (proj1 (local_frame _ tenant1 _ leased_db (local_CreateApprovalRequest _ tenant1 alice_input eq_refl))).
Qed.

Lemma one_tenant_per_step_witness : exists t, forall t', t' <> t -> view t' leased_db = view t' sample_db.
Proof. apply one_tenant_per_step, leased_step. Defined.

Lemma shared_refines_alone_witness :
  exists os d', length os = 2%nat /\ alone alice_calls (view tenant1 sample_db) = (os, view tenant1 d').
Proof.
  destruct alice_shared as (os & d' & Hl & Hs). exists os, d'. split; [exact Hl|].
  apply (shared_refines_alone tenant1 alice_calls sample_db os d' sample_nodes_ok Hs).
Defined.

Lemma rls_transparent_witness :
  (run (CreateApprovalRequest alice_input) (sample_env 1000)
     (rls_view (app_current_tenant (Some (uuid_String tenant1))) sample_db)).1 =
  (run (CreateApprovalRequest alice_input) (sample_env 1000) sample_db).1.
Proof.
  apply (rls_transparent (Some (uuid_String tenant1)) tenant1 _ (CreateApprovalRequest alice_input)
           (sample_env 1000) sample_db).
  - eapply bool_decide_eq_true_1. vm_compute. reflexivity.
  - by apply call_create.
  - split; [apply sample_apart|apply sample_nodes_ok].
Defined.
