(* ===== verification/EngineProps.v ===== *)
(** * EngineProps: what holds in every reachable state of the service

    The safety properties of the approval state machine: grants exist only for
    approvals signed by the device they name, one per request and one per signed
    answer, within the lifetime caps; decided requests are final; a cancelled
    request is never granted; device counters only grow; a grant is used once.
    Then the places where the code falls short of its comments. *)

From stdpp Require Import base gmap strings list fin_maps sorting pretty.
From Stdlib Require Import ZArith Lia Strings.Byte.
From S2P Require Import Prelude Identity Cose Envelope Reference Database Schema Messaging AuditChain.
From S2P Require Import Enforcement EngineSpec Revocation MessagingProps RevocationProps System KeyManager KeyManagerProps.
From S2P Require Import ServiceMain Sample Scenario.

Open Scope Z_scope.
Open Scope go_scope.

Section Props.
Context `{UT : UuidText} `{CI : CborInit} `{GC : GoCrypto}.
Context `{CB : Cbor ScopeBinding} `{CA : Cbor AGTPayload}.
Context `{PG : Postgres} `{GJ : GoJson} `{RS : RequestSigner} `{GS : GrantSigner}.
Context `{GL : !GrantSignerLaws}.

(** C1.  No grant without an approval: in every reachable state, each grant
    belongs to a request that was decided APPROVE and is GRANTED, is for that
    request's user, resource, scope, source node and policy version, and the
    request records a signature that verifies under the approval key of the very
    device the grant names, at a counter that device has reached. *)
Theorem every_grant_was_approved d0 d t jti g :
  reachable d0 d -> db_grants d !! (t, jti) = Some g ->
  exists q rs resp dev,
    select_request t (g_request g) d = Some q /\ q_state q = "GRANTED" /\
    q_response q = Some rs /\ rs_decision rs = DecisionApprove /\
    g_user g = q_user q /\ g_resource g = q_resource q /\ g_scope g = q_scope q /\
    g_src_node_id g = q_src_node_id q /\ g_policy_version g = q_policy_version q /\
    select_device t (g_device g) d = Some dev /\
    VerifyApprovalResponse resp (d_approval_auth_pub dev) = Ok tt /\
    ar_Signature resp = rs_sig rs /\ ar_DeviceCounter resp = rs_device_counter rs /\
    rs_device_counter rs <= d_counter dev.
Proof.
  intros Hr Hg. destruct (so_grants _ (reachable_ok _ _ Hr) _ _ _ Hg)
    as (q & rs & resp & dev & H1 & H2 & H3 & H4 & H5 & H6 & H7 & H8 & H9 & H10 & H11 & H12 & H13 & H14 & _).
  exists q, rs, resp, dev. by split_and!.
Qed.

(** C9.  At most one grant per request, and at most one per signed answer: two
    grants of a tenant with the same request, or with the same device and the same
    device counter, are the same grant.  So one captured answer cannot be spent on
    two requests. *)
Theorem one_grant_per_answer d0 d t j1 j2 g1 g2 :
  reachable d0 d ->
  db_grants d !! (t, j1) = Some g1 -> db_grants d !! (t, j2) = Some g2 ->
  g_request g1 = g_request g2 \/
  (g_device g1 = g_device g2 /\ exists c, approved_at d t g1 c /\ approved_at d t g2 c) ->
  j1 = j2.
Proof.
  intros Hr H1 H2 [E|(E & c & A1 & A2)]; pose proof (reachable_ok _ _ Hr) as Hok.
  - by eapply (so_unique _ Hok).
  - by eapply (so_counters _ Hok).
Qed.


(** C13.  Cancellation wins over a late approval: once a request is CANCELLED in
    a reachable state, no later state holds a grant for it. *)
Theorem cancelled_never_granted d0 d d' t rid q jti g :
  reachable d0 d -> rtc step d d' ->
  select_request t rid d = Some q -> q_state q = "CANCELLED" ->
  db_grants d' !! (t, jti) = Some g -> g_request g <> rid.
Proof.
  intros [Hi Hs] Hs' [Hq _]%select_request_Some Hc Hg <-.
  assert (Hr : reachable d0 d') by (split; [done|by etrans]).
  destruct (so_grants _ (reachable_ok _ _ Hr) _ _ _ Hg) as (q' & ? & ? & ? & Hq' & Hs2 & _).
  apply select_request_Some in Hq' as [Hq' _].
  rewrite (steps_decided _ _ Hs' _ _ Hq) in Hq'; [|by rewrite Hc]. injection Hq' as <-. congruence.
Qed.

(** Device counters never go back and device keys never change, over any
    sequence of handler runs. *)
Theorem device_counters_monotone d d' id v :
  rtc step d d' -> db_devices d !! id = Some v ->
  exists v', db_devices d' !! id = Some v' /\ d_counter v <= d_counter v' /\
    d_approval_auth_pub v' = d_approval_auth_pub v /\ d_device_auth_pub v' = d_device_auth_pub v.
Proof.
  intros Hs Hv. destruct (steps_devices _ _ Hs _ _ Hv) as (v' & ? & _ & ? & ? & ?). by exists v'.
Qed.

Lemma caps_agree scope sens : ttl_max_seconds scope (Some sens) * Second = MaxGrantTTL scope sens.
Proof.
  unfold ttl_max_seconds, MaxGrantTTL, ScopeRequest, ScopeConnection, ScopeDuration, ScopeSession,
    SensitivityStandard, SensitivityHigh, SensitivityAdmin.
  repeat match goal with |- context [if ?b then _ else _] => destruct b end; reflexivity.
Qed.

(** The Go cap and the SQL cap on grant lifetimes are the same function:
    for every scope and sensitivity the trigger's maximum in seconds is
    [MaxGrantTTL]. *)
Theorem go_and_sql_caps_agree scope sens :
  ttl_max_seconds scope (Some sens) * Second = MaxGrantTTL scope sens.
Proof. apply caps_agree. Qed.

(** C12.  In every reachable state each grant's lifetime is positive-capped: it
    is at most [MaxGrantTTL] for its scope and the sensitivity of its resource,
    hence at most eight hours, and no grant exists for a prohibited combination. *)
Theorem grant_lifetime_capped d0 d t jti g :
  reachable d0 d -> db_grants d !! (t, jti) = Some g ->
  (exists r, select_resource t (g_resource g) d = Some r /\ MaxGrantTTL (g_scope g) (r_sensitivity r) <> 0 /\
     g_expires_at g - g_iat g <= MaxGrantTTL (g_scope g) (r_sensitivity r)) \/
  (select_resource t (g_resource g) d = None /\ g_expires_at g - g_iat g <= 120 * Second).
Proof.
  intros Hr Hg. destruct (so_grants _ (reachable_ok _ _ Hr) _ _ _ Hg)
    as (? & ? & ? & ? & _ & _ & _ & _ & _ & _ & _ & _ & _ & _ & _ & _ & _ & _ & Hv).
  unfold validate_grant_ttl in Hv. destruct (select_resource t (g_resource g) d) as [r|]; cbn in Hv.
  - left. exists r. rewrite <- caps_agree. destruct (ttl_max_seconds _ _ =? 0) eqn:E0; [done|].
    destruct (_ <? _) eqn:E1; [done|]. go_bool. split_and!; [done| |lia]. unfold Second. lia.
  - right. destruct (ttl_max_seconds _ _ =? 0) eqn:E0; [done|].
    destruct (_ <? _) eqn:E1; [done|]. go_bool. split; [done|].
    assert (ttl_max_seconds (g_scope g) None <= 120)
      by (unfold ttl_max_seconds; repeat case_match; lia). unfold Second in *. lia.
Qed.

(** C36.  The audit sequence has no gaps and the outbox no duplicates: in every
    reachable state a tenant's audit rows are numbered exactly from 1 to its head,
    and no two outbox rows of a tenant carry the same message id. *)
Theorem logs_well_formed d0 d :
  reachable d0 d ->
  (forall t s, is_Some (db_events d !! (t, s)) <->
     exists h, db_heads d !! t = Some h /\ 1 <= s <= h_last_seq h) /\
  (forall t c1 s1 o1 c2 s2 o2, db_outbox d !! (t, c1, s1) = Some o1 ->
     db_outbox d !! (t, c2, s2) = Some o2 -> o_message_id o1 = o_message_id o2 -> c1 = c2 /\ s1 = s2).
Proof.
  intros Hr. destruct (so_logs _ (reachable_ok _ _ Hr)) as (Ha & _ & Hu & _). by split.
Qed.

(** Answering a request that is not PENDING any more is a no-op: whatever
    the answer, [ProcessApproval] changes nothing and, if it returns, returns the
    state the request already has, without a token. *)
Theorem late_answer_ignored env d input q :
  select_request (pi_TenantID input) (pi_RequestID input) d = Some q -> q_state q <> "PENDING" ->
  (run (ProcessApproval input) env d).2 = d /\
  forall x, (run (ProcessApproval input) env d).1 = Ok x ->
    par_NewState x = q_state q /\ par_GrantJTI x = None.
Proof.
  intros Hq Hs. destruct (ProcessApproval_cases env input d) as [[Hd Hx]|(_ & q' & resp & dev & Hd & _)].
  - split; [done|]. intros x Hr. destruct (Hx x Hr) as (Hj & q' & Hq' & _ & Hn).
    rewrite Hq in Hq'. injection Hq' as <-. by split.
  - destruct (dc_pending _ _ _ _ _ _ Hd) as [Hq' Hs']. rewrite Hq in Hq'. injection Hq' as <-. done.
Qed.

(** ** Single use *)

(** What a step can do to the grants: a consumed one is left alone, and a new one
    needs a server whose [binding] column takes the empty text. *)
Definition keeps_consumed (d d' : Db) : Prop :=
  forall k g, db_grants d !! k = Some g -> g_consumed_at g <> None -> db_grants d' !! k = Some g.
Definition mints_if_stored (d d' : Db) : Prop :=
  forall k g, db_grants d' !! k = Some g -> is_Some (db_grants d !! k) \/ binding_in [] <> None.

Lemma step_grants d d' : step d d' -> keeps_consumed d d' /\ mints_if_stored d d'.
Proof.
  assert (Hsame : forall d d', db_grants d' = db_grants d -> keeps_consumed d d' /\ mints_if_stored d d').
  { intros ? ? E. split; intros k g; rewrite E; [done|]. intros Hk. left. by eexists. }
  intros Hstep. destruct Hstep as [env i d|env input d|env t rid node reason d|env t jti d|
    env t kind target cs d|env t dev reason d|env t c mid seq fence d|env t c o d|env l d|env l d|d d' Ha].
  - destruct (CreateApprovalRequest_cases env i d) as [[E _]|(id & q & d1 & -> & [_ _ _ Hg _] & _)];
      apply Hsame; [by rewrite E|done].
  - destruct (ProcessApproval_cases env input d) as [[E _]|(_ & q & resp & dev & Hd & _)];
      [apply Hsame; by rewrite E|]. destruct Hd as [_ _ _ _ Hg _ _].
    destruct (pi_Decision input == DecisionApprove); [|by apply Hsame].
    destruct Hg as (jti & ? & ? & ? & ? & ? & g & _ & _ & Hb & [[_ Hg]|(_ & Hn & Hg)]); [by apply Hsame|].
    split; [|by right]. intros k gk Hk _. rewrite Hg, lookup_insert_ne; [done|]. intros <-. congruence.
  - destruct (CancelApprovalRequest_cases env t rid node reason d)
      as [_ [E|(q & now & d1 & _ & _ & -> & [_ _ _ Hg _])]]; apply Hsame; [by rewrite E|done].
  - destruct (ConsumeGrant_cases env t jti d) as [_ [[E _]|(g & now & Hg & Hn & _ & _ & E)]];
      [apply Hsame; by rewrite E|]. rewrite E. split; intros k gk; cbn.
    + intros Hk Hc. rewrite lookup_insert_ne; [done|]. intros <-. congruence.
    + intros [[<- _]|[_ Hk]]%lookup_insert_Some; left; by eexists.
  - destruct (IssueRevocation_cases env t kind target cs d)
      as [_ [[E _]|(rev & _ & _ & _ & _ & Hr & _)]]; [apply Hsame; by rewrite E|].
    destruct Hr as (d1 & d2 & d3 & now & _ & -> & (f & -> & _) & (m & -> & Hm & _) & [_ _ _ Hg _]%queued_quiet).
    split; intros k gk; rewrite Hg; cbn; rewrite Hm.
    + intros Hk Hc. split; [done|]. by intros (_ & _ & ?).
    + intros [Hk _]. left. by eexists.
  - destruct (RevokeDevice_cases env t dev reason d)
      as [_ [[E _]|(now & row & _ & _ & _ & _ & d1 & u & Hd & E)]]; apply Hsame; rewrite E; [done|].
    cbn. unfold revoke_device_row in Hd.
    destruct (select_device t dev d) as [v|]; [destruct (d_state v == "ENROLLED")|];
      by injection Hd as _ <-.
  - destruct (AckMessage_cases env d t c mid seq fence)
      as [(E & _)|(_ & _ & _ & _ & now & (d1 & d2 & E1 & E2 & E3))]; apply Hsame; [by rewrite E|].
    transitivity (db_grants d2); [|transitivity (db_grants d1)].
    + unfold advance_cursor in E3. by destruct (db_cursors d2 !! _); injection E3 as <-.
    + unfold insert_inbox in E2. by destruct (db_inbox d1 !! _); injection E2 as <-.
    + unfold ack_outbox in E1. by destruct (db_outbox d !! _); injection E1 as <-.
  - destruct (AcquireLease_any env t c o d) as [E|[m E]]; apply Hsame; by rewrite E.
  - destruct (RenewLease_any env l d) as [E|[m E]]; apply Hsame; by rewrite E.
  - destruct (ReleaseLease_any env l d) as [E|[m E]]; apply Hsame; by rewrite E.
  - by apply Hsame, admin_step_ok.
Qed.

(** C10.  A grant is used at most once: after it has been consumed, no sequence
    of handler runs changes it, and every further [ConsumeGrant] of it leaves the
    tables alone and does not report success. *)
Theorem grant_single_use d d' t jti g env :
  rtc step d d' -> db_grants d !! (t, jti) = Some g -> g_consumed_at g <> None ->
  db_grants d' !! (t, jti) = Some g /\
  (run (ConsumeGrant t jti) env d').2 = d' /\ (run (ConsumeGrant t jti) env d').1 <> Ok true.
Proof.
  intros Hs Hg Hc.
  assert (Hg' : db_grants d' !! (t, jti) = Some g).
  { induction Hs as [|d1 d2 d3 H12 _ IH]; [done|]. apply IH. by apply (step_grants _ _ H12). }
  split; [done|]. destruct (ConsumeGrant_cases env t jti d') as [Ht [[E _]|(g' & now & Hl & Hn & _)]];
    [done|congruence].
Qed.

(** [ConsumeGrant] never returns [true]: it passes a nil transaction to the
    audit writer after the grant has been consumed, so a successful consumption
    ends in a panic (or, when the acknowledgement is lost, in an error).  Whenever
    it consumes, the grant was unconsumed and not expired. *)
Theorem consume_never_reports_success env d t jti :
  (run (ConsumeGrant t jti) env d).1 <> Ok true /\
  ((run (ConsumeGrant t jti) env d).2 <> d ->
   exists g now, db_grants d !! (t, jti) = Some g /\ g_consumed_at g = None /\ now <= g_expires_at g /\
     (run (ConsumeGrant t jti) env d).1 <> Ok false /\
     db_grants (run (ConsumeGrant t jti) env d).2 = <[(t, jti) := g_consume now g]> (db_grants d)).
Proof.
  destruct (ConsumeGrant_cases env t jti d) as [Ht [[E _]|(g & now & Hg & Hn & He & Hf & E)]];
    (split; [done|]); intros Hne; [done|]. exists g, now. split_and!; try done. by rewrite E.
Qed.

(** C7.  On PostgreSQL nobody is ever granted anything.  [mintGrant] passes an
    empty byte string to the grant's [binding] column.  On a server whose column type
    refuses the empty text, as [jsonb] is documented to do, no sequence of handlers
    ever puts a grant into the table; [ProcessApproval] of an approval leaves the
    tables as they were, returns no grant, and does not succeed on a request that is
    still pending. *)
Theorem approval_blocked_by_jsonb d0 d env input :
  binding_in [] = None -> reachable d0 d -> pi_Decision input = DecisionApprove ->
  db_grants d = ∅ /\
  (run (ProcessApproval input) env d).2 = d /\
  forall x, (run (ProcessApproval input) env d).1 = Ok x -> par_GrantJTI x = None /\
    exists q, select_request (pi_TenantID input) (pi_RequestID input) d = Some q /\ q_state q <> "PENDING".
Proof.
  intros Hb [(_ & H0 & _) Hs] Hdec. split.
  - induction Hs as [|d1 d2 d3 H12 _ IH]; [done|]. apply IH. apply map_empty. intros k.
    apply eq_None_not_Some. intros [g Hg]. apply step_grants in H12 as [_ H12].
    destruct (H12 k g Hg) as [[x Hx]|Hn]; [by rewrite H0, lookup_empty in Hx|done].
  - destruct (ProcessApproval_cases env input d) as [[Hd Hx]|(_ & q & resp & dev & Hd & _)].
    + split; [done|]. intros x (Hj & q & Hq & Hp & _)%Hx. eauto.
    + pose proof (dc_grants _ _ _ _ _ _ Hd) as Hg. rewrite Hdec in Hg.
      by destruct Hg as (? & ? & ? & ? & ? & ? & ? & _ & _ & ? & _).
Qed.

End Props.

(** ** Witnesses *)

Lemma sample_initial : initial sample_db.
Proof.
  split_and!; [done..|]. unfold logs_ok. split_and!.
  - intros t s. cbn. rewrite lookup_empty. split; [by intros []|].
    intros (h & [<- <-]%lookup_singleton_Some & ?). cbn in *. lia.
  - intros t h Hh. cbn in Hh. by apply lookup_singleton_Some in Hh as [<- <-].
  - split; intros *; cbn; by rewrite lookup_empty.
Qed.

Lemma created_step : step sample_db created_db.
Proof. apply step_create. Qed.
Lemma granted_step : step created_db granted_db.
Proof. apply step_process. Qed.
Lemma cancelled_step : step created_db cancelled_db.
Proof. apply step_cancel. Qed.

Lemma created_reachable : reachable sample_db created_db.
Proof. split; [apply sample_initial|]. apply rtc_once, created_step. Qed.
Lemma granted_reachable : reachable sample_db granted_db.
Proof. split; [apply sample_initial|]. eapply rtc_l; [apply created_step|apply rtc_once, granted_step]. Qed.
Lemma cancelled_reachable : reachable sample_db cancelled_db.
Proof. split; [apply sample_initial|]. eapply rtc_l; [apply created_step|apply rtc_once, cancelled_step]. Qed.

Lemma every_grant_was_approved_witness :
  exists g q rs, db_grants granted_db !! (tenant1, grant1) = Some g /\
    select_request tenant1 (g_request g) granted_db = Some q /\ q_state q = "GRANTED"%string /\
    q_response q = Some rs /\ rs_decision rs = DecisionApprove.
Proof.
  destruct (is_some_eq (db_grants granted_db !! (tenant1, grant1))) as [g Hg]; [vm_compute; reflexivity|].
  destruct (every_grant_was_approved _ _ _ _ _ granted_reachable Hg)
    as (q & rs & resp & dev & Hq & Hs & Hr & Hd & _).
  exists g, q, rs. repeat split; assumption.
Defined.

Lemma one_grant_per_answer_witness :
  exists g, db_grants granted_db !! (tenant1, grant1) = Some g /\ grant1 = grant1.
Proof.
  destruct (is_some_eq (db_grants granted_db !! (tenant1, grant1))) as [g Hg]; [vm_compute; reflexivity|].
  exists g. split; [exact Hg|].
  exact (one_grant_per_answer _ _ _ _ _ _ _ granted_reachable Hg Hg (or_introl eq_refl)).
Defined.


(** The cancelled request beside a second one that is approved. *)
Lemma cancelled_never_granted_witness :
  exists g, db_grants second_db !! (tenant1, grant2) = Some g /\ g_request g <> request1.
Proof.
  destruct (is_some_eq (db_grants second_db !! (tenant1, grant2))) as [g Hg]; [vm_compute; reflexivity|].
  destruct (is_some_eq (select_request tenant1 request1 cancelled_db)) as [q Hq]; [vm_compute; reflexivity|].
  exists g. split; [exact Hg|].
  apply (cancelled_never_granted sample_db cancelled_db second_db tenant1 request1 q grant2 g
           cancelled_reachable); [|exact Hq| |exact Hg].
  - eapply rtc_l; [apply step_create|apply rtc_once, step_process].
  - apply (fmap_eq q_state _ _ _ Hq). vm_compute. reflexivity.
Defined.

Lemma device_counters_monotone_witness :
  exists v', db_devices granted_db !! device1 = Some v' /\ 3 <= d_counter v' /\
    d_approval_auth_pub v' = sample_pub 22.
Proof.
  destruct (device_counters_monotone sample_db granted_db device1 sample_device) as (v' & Hv & Hc & Ha & _).
  - apply granted_reachable.
  - reflexivity.
  - exists v'. repeat split; [exact Hv|exact Hc|exact Ha].
Defined.

Lemma grant_lifetime_capped_witness :
  exists g, db_grants granted_db !! (tenant1, grant1) = Some g /\ g_expires_at g - g_iat g <= 8 * 3600 * Second.
Proof.
  destruct (is_some_eq (db_grants granted_db !! (tenant1, grant1))) as [g Hg]; [vm_compute; reflexivity|].
  exists g. split; [exact Hg|].
  destruct (grant_lifetime_capped _ _ _ _ _ granted_reachable Hg) as [(r & Hr & _ & Hle)|[_ Hle]].
  - eapply Z.le_trans; [exact Hle|]. unfold MaxGrantTTL.
    repeat match goal with |- context [if ?b then _ else _] => destruct b end; vm_compute; discriminate.
  - eapply Z.le_trans; [exact Hle|]. vm_compute. discriminate.
Defined.

Lemma logs_well_formed_witness :
  is_Some (db_events granted_db !! (tenant1, 3)) /\
  exists h, db_heads granted_db !! tenant1 = Some h /\ 1 <= 3 <= h_last_seq h.
Proof.
  assert (H : is_Some (db_events granted_db !! (tenant1, 3))).
  { destruct (is_some_eq (db_events granted_db !! (tenant1, 3))) as [a Ha]; [vm_compute; reflexivity|].
    rewrite Ha. by eexists. }
  split; [exact H|]. apply (proj1 (logs_well_formed _ _ granted_reachable)), H.
Defined.

Lemma late_answer_ignored_witness :
  (run (ProcessApproval approve_input) (sample_env 2000) cancelled_db).2 = cancelled_db.
Proof.
  destruct (select_request tenant1 request1 cancelled_db) as [q|] eqn:Hq;
    [|apply (f_equal is_some) in Hq; vm_compute in Hq; discriminate Hq].
  apply (late_answer_ignored (sample_env 2000) cancelled_db approve_input q Hq).
  rewrite (fmap_eq q_state _ _ "CANCELLED"%string Hq); [discriminate|vm_compute; reflexivity].
Defined.

Lemma grant_single_use_witness :
  (run (ConsumeGrant tenant1 grant1) (sample_env 3100) consumed_db).2 = consumed_db.
Proof.
  destruct (is_some_eq (db_grants consumed_db !! (tenant1, grant1))) as [g Hg]; [vm_compute; reflexivity|].
  apply (grant_single_use consumed_db consumed_db tenant1 grant1 g (sample_env 3100) (rtc_refl _ _) Hg).
  assert (H : is_some (g_consumed_at g) = true)
    by (apply (fmap_eq (fun g => is_some (g_consumed_at g)) _ _ _ Hg); vm_compute; reflexivity).
  intros E. rewrite E in H. discriminate H.
Defined.

Lemma consume_never_reports_success_witness :
  exists g now, db_grants granted_db !! (tenant1, grant1) = Some g /\ now <= g_expires_at g /\
    db_grants consumed_db !! (tenant1, grant1) = Some (g_consume now g).
Proof.
  destruct (consume_never_reports_success (sample_env 3000) granted_db tenant1 grant1) as [_ H].
  destruct H as (g & now & Hg & _ & He & _ & Hd).
  - intros E. apply (f_equal (fun d => is_some (db_grants d !! (tenant1, grant1) ≫= g_consumed_at))) in E.
    vm_compute in E. discriminate E.
  - exists g, now. repeat split; [exact Hg|exact He|]. unfold consumed_db. rewrite Hd.
    apply lookup_insert_eq.
Defined.

(** The sample approval, on a server that refuses the empty text. *)
Lemma approval_blocked_by_jsonb_witness :
  let d := (run (CreateApprovalRequest (PG := pg_jsonb) alice_input) (sample_env 1000) sample_db).2 in
  (run (ProcessApproval (PG := pg_jsonb) approve_input) (sample_env 2000) d).2 = d /\ db_grants d = ∅.
Proof.
  cbv zeta. destruct (approval_blocked_by_jsonb (PG := pg_jsonb) sample_db
    (run (CreateApprovalRequest (PG := pg_jsonb) alice_input) (sample_env 1000) sample_db).2
    (sample_env 2000) approve_input) as (Hg & Hd & _).
  - reflexivity.
  - split; [exact sample_initial|]. apply rtc_once, step_create.
  - reflexivity.
  - split; [exact Hd|exact Hg].
Defined.
