(* ===== verification/EngineLive.v ===== *)
(** * EngineLive: the approval engine decides the requests it should

    The other side of [EngineSpec]: on a server that answers, a pending request
    with a valid answer of its device is decided, and the tables end up exactly as
    described.  The handlers of [Enforcement] drop the errors of their log writes,
    and a failed statement aborts the transaction, so a decision commits only if
    every log write works: the proofs follow the working tables through the whole
    handler and show that no statement can be refused.

    Granting also supposes that the [binding] column of [grants] takes the empty text
    the engine passes, which [jsonb] does not: there the theorem on approvals says
    what the handler would do once that argument is repaired, and
    [EngineProps.approval_blocked_by_jsonb] what it does now.  The theorem on denials
    has no such premise. *)

From stdpp Require Import base gmap strings list fin_maps pretty.
From Stdlib Require Import ZArith Lia Strings.Byte.
From S2P Require Import Prelude Identity Cose Envelope Reference Database Schema Messaging AuditChain.
From S2P Require Import Enforcement EngineSpec Revocation System KeyManager KeyManagerProps ServiceMain.
From S2P Require Import Live Sample Scenario EngineProps.

Open Scope Z_scope.
Open Scope go_scope.

(** ** What the parameters have to allow *)

(** No zero byte, which [jsonb] cannot store. *)
Definition nul_free (s : string) : Prop := x00 ∉ str_bytes s.
Definition member_storable (m : string * jval) : Prop :=
  match m.2 with JStr s => nul_free s | _ => True end.

(** The server's input functions: [jsonb] takes what [encoding/json] wrote and the
    text [null]; [timestamptz] keeps microseconds, so it commutes with adding
    them. *)
Class StorageLaws `{PG : Postgres} `{GJ : GoJson} : Prop := {
  jsonb_null : is_Some (jsonb_in (str_bytes "null"));
  jsonb_object : forall members b c, Forall member_storable members ->
    json_object members = Ok b -> json_compact b = Some c -> is_Some (jsonb_in c);
  timestamptz_shift : forall t n, timestamptz_in (t + n * 1000) = timestamptz_in t + n * 1000
}.

Section Live.
Context `{UT : UuidText} `{CI : CborInit} `{GC : GoCrypto}.
Context `{CB : Cbor ScopeBinding} `{CA : Cbor AGTPayload}.
Context `{PG : Postgres} `{GJ : GoJson} `{RS : RequestSigner} `{GS : GrantSigner}.
Context `{SL : !StorageLaws} `{GL : !GrantSignerLaws}.
Context (env : Env) (Hh : healthy env).

(** ** Log writes that succeed *)

(** The state a log write needs, and keeps. *)
Definition loggable (t : UUID) (d : Db) : Prop := logs_ok d /\ t ∈ db_tenants d.

Lemma loggable_quiet t d d' : quiet d d' -> loggable t d -> loggable t d'.
Proof. intros Hq [Hl Ht]. split; [by apply Hq|]. by rewrite (fr_tenants _ _ (qt_frame _ _ Hq)). Qed.

Lemma event_bytes_accepted t typ u dv r pr res rq corr members :
  Forall member_storable members ->
  exists p, jsonb_arg (event_bytes (service_event t typ u dv r pr res rq corr (json_payload members)))
            = inr p.
Proof.
  intros Hm. unfold event_bytes, service_event, json_payload, jsonb_arg. cbn [ae_Payload].
  destruct (json_object members) as [b|e|] eqn:Ej; [|destruct jsonb_null as [v ->]; by eexists..].
  destruct (json_compact b) as [c|] eqn:Ec; [|by eexists].
  destruct (jsonb_object _ _ _ Hm Ej Ec) as [v ->]. by eexists.
Qed.

Lemma next_event_free t d : logs_ok d ->
  db_events d !! (t, h_last_seq (default (mkHead 0 [x00]) (db_heads d !! t)) + 1) = None.
Proof.
  intros (Ha & _ & _). apply eq_None_not_Some. rewrite (Ha t _). intros (h & -> & Hs). cbn in Hs. lia.
Qed.

Lemma insert_audit_event_works t typ data p now d :
  loggable t d -> jsonb_arg data = inr p ->
  exists seq d', insert_audit_event t typ "service" data now d = inr (seq, d').
Proof.
  intros [Hl Ht] Hj. pose proof (next_event_free t d Hl) as Hn. unfold insert_audit_event.
  rewrite Hj. destruct (db_heads d !! t) as [h|]; cbn in Hn |- *.
  - rewrite Hn. cbn. by do 2 eexists.
  - rewrite bool_decide_eq_true_2 by done. cbn. rewrite Hn. cbn. by do 2 eexists.
Qed.

Lemma update_audit_row_works t seq det hash now d :
  exists d', update_audit_row t seq det hash now d = inr (tt, d').
Proof. unfold update_audit_row. destruct (db_events d !! _); by eexists. Qed.

(** An event of the service with storable members is written. *)
Lemma live_log base now d k i w t typ u dv r pr res rq corr members Q :
  live base now d k i w -> loggable t d -> Forall member_storable members ->
  (forall d' w', quiet d d' -> loggable t d' -> live base now d' k i w' -> Q (Ok tt) w') ->
  wp (ignore (InsertTx (service_event t typ u dv r pr res rq corr (json_payload members)))) Q env w.
Proof.
  intros Hi Hl Hm HQ.
  destruct (event_bytes_accepted t typ u dv r pr res rq corr members Hm) as [p Hp].
  destruct (insert_audit_event_works t typ _ p now d Hl Hp) as (seq & d1 & H1).
  apply wp_ignore. unfold InsertTx. wp_go. eapply live_tx_exec; [done..|]. intros w1 Hw1. wp_go.
  edestruct update_audit_row_works as [d2 H2].
  eapply live_tx_exec; [done..|exact H2|]. intros w2 Hw2. wp_go.
  assert (Hq : quiet d d2).
  { transitivity d1; [by eapply insert_audit_event_quiet|by eapply update_audit_row_quiet]. }
  eapply HQ; [done|by eapply loggable_quiet|done].
Qed.

(** A message with a payload is appended, or was there already. *)
Lemma live_send base now d k i w t c mid b Q :
  live base now d k i w -> loggable t d ->
  (forall d' w', quiet d d' -> loggable t d' -> live base now d' (S k) i w' -> Q (Ok tt) w') ->
  wp (ignore (WriteTx (mkOutboxMessage t c mid (Some b)))) Q env w.
Proof.
  intros Hi Hl HQ. apply wp_ignore. unfold WriteTx. wp_go. eapply live_time_Now; [done..|].
  intros w1 H1.
  assert (Hf : exists d', insert_outbox (mkOutboxMessage t c mid (Some b)) (env_now env k) now d
    = inr (tt, d')).
  { unfold insert_outbox. cbn. destruct (message_known _ _ _); by eexists. }
  destruct Hf as [d' Hf]. eapply live_tx_exec; [done..|]. intros w2 H2.
  pose proof (insert_outbox_quiet _ _ _ _ _ _ Hf) as Hq.
  eapply HQ; [done|by eapply loggable_quiet|done].
Qed.

(** ** Recording the answer *)

(** A pending request with a valid answer of an enrolled device. *)
Record answerable (input : ProcessApprovalInput) (q : request_row) (rule : string)
    (bd : ScopeBinding) (resp : ApprovalResponse) (dev : device_row) (d : Db) : Prop := mkAnswerable {
  aw_request : select_request (pi_TenantID input) (pi_RequestID input) d = Some q;
  aw_pending : q_state q = "PENDING";
  aw_rule : q_rule_id q = Some rule;
  aw_binding : decode_binding (q_binding q) = Ok bd;
  aw_answer : answer_ok input resp d dev
}.

(** The three statements that record it work, and compose to [answered]. *)
Lemma answered_works input q rule bd resp dev d now :
  answerable input q rule bd resp dev d ->
  exists d1 d2,
    transition_approval_request (pi_TenantID input) (pi_RequestID input)
      (if pi_Decision input == DecisionApprove then ApprovalStateApproved else ApprovalStateDenied)
      (q_state_version q) now d = inr (true, d1) /\
    record_response (pi_TenantID input) (pi_RequestID input) (pi_Decision input) resp now d1
      = inr (tt, d2) /\
    advance_device_counter (pi_TenantID input) (pi_DeviceID input) (ar_DeviceCounter resp) now d2
      = inr (true, answered input q resp dev now d).
Proof.
  intros [Hq Hs _ _ Ha].
  assert (Ht : exists d1, transition_approval_request (pi_TenantID input) (pi_RequestID input)
    (if pi_Decision input == DecisionApprove then ApprovalStateApproved else ApprovalStateDenied)
    (q_state_version q) now d = inr (true, d1)).
  { unfold transition_approval_request. rewrite Hq, Hs. rewrite eqb_refl. cbn [negb].
    destruct (pi_Decision input == DecisionApprove); by eexists. }
  destruct Ht as [d1 Ht].
  assert (Hr : exists d2, record_response (pi_TenantID input) (pi_RequestID input)
    (pi_Decision input) resp now d1 = inr (tt, d2)).
  { unfold record_response. destruct (select_request _ _ d1); by eexists. }
  destruct Hr as [d2 Hr]. exists d1, d2. split_and!; [done..|].
  assert (Hd : exists d3, advance_device_counter (pi_TenantID input) (pi_DeviceID input)
    (ar_DeviceCounter resp) now d2 = inr (true, d3)).
  { destruct Ha as (_ & Hdev & _ & Hc). unfold advance_device_counter.
    assert (Ed : db_devices d2 = db_devices d).
    { apply transition_Ok in Ht as (? & _ & _ & _ & ->).
      by apply record_response_Ok in Hr as [[_ ->]|(? & _ & ->)]. }
    unfold select_device in *. rewrite Ed, Hdev. rewrite (proj2 (Z.ltb_lt _ _) Hc). by eexists. }
  destruct Hd as [d3 Hd]. rewrite Hd. by rewrite (answered_steps _ _ _ _ _ _ _ _ _ _ _ _ Hq Ha Ht Hr Hd).
Qed.

Lemma loggable_answered t input q resp dev now d :
  loggable t d -> loggable t (answered input q resp dev now d).
Proof. intros [Hl Ht]. split; [by apply answered_frame|done]. Qed.

(** The events of a decision hold no text but the decision. *)
Lemma decision_members_storable input :
  nul_free (pi_Decision input) ->
  Forall member_storable
    [("decision", JStr (pi_Decision input)); ("device_id", JUuid (pi_DeviceID input));
     ("request_id", JUuid (pi_RequestID input))]%string.
Proof. intros H. repeat constructor. exact H. Qed.

(** The part of [decide_request] before the decision takes effect. *)
Lemma live_decide_request base now w input q rule bd resp dev ep Q :
  live base now base 0 0 w -> loggable (pi_TenantID input) base ->
  nul_free (pi_Decision input) -> answerable input q rule bd resp dev base ->
  (forall w1, live base now (answered input q resp dev now base) 0 0 w1 ->
     wp (if pi_Decision input == DecisionApprove then
           '(jti, agt) ← mwrap "enforcement: mint grant: %w" []
             (mintGrant (pi_TenantID input) (pi_RequestID input) (q_user q) (q_src_node_id q)
                (pi_DeviceID input) (q_resource q) (q_scope q) (q_policy_version q) rule bd ep
                (coalesce 1 (sql_max (policy_epochs (pi_TenantID input) base))));
           mret (mkProcessResult ApprovalStateGranted (Some jti) (Some agt))
         else mret (mkProcessResult ApprovalStateDenied None None))
       (fun r w2 => exists x d2 k i, r = Ok x /\ live base now d2 k i w2 /\
          loggable (pi_TenantID input) d2 /\
          forall d3 w3, quiet d2 d3 -> w_db w3 = d3 -> Q (Ok x) w3) env w1) ->
  wp (decide_request input q rule ep) Q env w.
Proof.
  intros Hw Hl Hn Haw HQ. destruct (answered_works _ _ _ _ _ _ _ now Haw) as (d1 & d2 & Ht & Hr & Hc).
  destruct Haw as [Hq Hs _ Hbd (Hresp & Hdev & Hver & Hcnt)].
  unfold decide_request. wp_go. rewrite Hbd. wp_go. apply wp_try.
  eapply live_tx_query; [done..|]. intros w1 H1. wp_go.
  eapply live_tx_query; [done..|]. intros w2 H2. wp_go. rewrite Hresp. wp_go. rewrite Hver. wp_go.
  rewrite (proj2 (Z.leb_gt _ _) Hcnt). wp_go.
  eapply live_tx_exec; [done..|]. intros w3 H3. wp_go.
  eapply live_tx_exec; [done..|]. intros w4 H4. wp_go. apply wp_ignore.
  eapply live_tx_exec; [done..|]. intros w5 H5. wp_go.
  eapply wp_mono.
  { specialize (HQ w5 H5). destruct (pi_Decision input == DecisionApprove); exact HQ. }
  intros r w6 (x & d3 & k & i & -> & H6 & Hl6 & HQ6). wp_go.
  eapply live_uuid_New; [done..|]. intros w7 H7. wp_go.
  eapply live_log; [done..|by apply decision_members_storable|].
  intros d4 w8 Hq4 _ H8. wp_go. eapply live_Commit; [done..|]. intros w9 Hw9. wp_go. by eapply HQ6.
Qed.

Lemma wp_ProcessApproval_pending input q rule bd resp dev d Q :
  answerable input q rule bd resp dev d ->
  (forall now w, live d now d 0 0 w ->
     wp (decide_request input q rule (src_key_epoch (pi_TenantID input) (q_src_node_id q) d))
       (fun r w' => Q r (w_db w')) env w) ->
  Q (run (ProcessApproval input) env d).1 (run (ProcessApproval input) env d).2.
Proof.
  intros [Hq Hs Hr _ _] HQ. apply wp_run. unfold ProcessApproval. wp_go.
  apply live_BeginTx; [done|]. intros now w1 H1. wp_go.
  eapply live_tx_query; [done..|by rewrite Hq|]. intros w2 H2. wp_go.
  rewrite Hr, Hs. cbn. eapply wp_mono; [by eapply HQ|]. done.
Qed.

(** ** Minting *)

Definition details_of (r : resource_row) : resourceDetails :=
  mkResourceDetails (uuid_String (r_protected_node_id r)) (r_service_id r) (r_port r)
    (r_deployment_mode r) "TCP" (r_sensitivity r).

(** The token payload the approval of [q] asks the signer for: the run's first
    UUID and first clock reading. *)
Definition granted_payload (input : ProcessApprovalInput) (q : request_row) (rule : string)
    (bd : ScopeBinding) (u : user_row) (r : resource_row) (d : Db) : AGTPayload :=
  agt_payload (env_uuid env 0) (pi_TenantID input)
    (mkOIDCIdentity (u_oidc_issuer u) (u_oidc_subject u) (uuid_String (q_user q)))
    (q_src_node_id q) (src_key_epoch (pi_TenantID input) (q_src_node_id q) d) (pi_DeviceID input)
    (details_of r) (q_scope q) bd (q_policy_version q) rule
    (coalesce 1 (sql_max (policy_epochs (pi_TenantID input) d))) (env_now env 0)
    (MaxGrantTTL (q_scope q) (r_sensitivity r)).

(** A grant for the request can be issued: its user, resource and node are
    registered, its scope is allowed at the sensitivity of the resource, the
    signer signs, the new id is unused, and the binding column takes the empty
    text [mintGrant] gives it. *)
Record grantable (input : ProcessApprovalInput) (q : request_row) (rule : string)
    (bd : ScopeBinding) (u : user_row) (r : resource_row) (p : AGTPayload) (agt : bytes) (d : Db)
    : Prop := mkGrantable {
  gr_user : select_user (pi_TenantID input) (q_user q) d = Some u;
  gr_resource : select_resource (pi_TenantID input) (q_resource q) d = Some r;
  gr_node : is_Some (select_node (pi_TenantID input) (r_protected_node_id r) d);
  gr_scope : MaxGrantTTL (q_scope q) (r_sensitivity r) <> 0;
  gr_signed : SignGrant (env_now env 1) (granted_payload input q rule bd u r d) = Ok (p, agt);
  gr_fresh : db_grants d !! (pi_TenantID input, env_uuid env 0) = None;
  gr_clock : time_IsZero (env_now env 0) = false;
  gr_column : is_Some (binding_in [])
}.

(** The signer returns the payload with its version set. *)
Lemma signed_payload input q rule bd u r p agt d :
  grantable input q rule bd u r p agt d ->
  let asked := granted_payload input q rule bd u r d in
  p = agt_set asked 2 (agt_IssuedAt asked) (agt_NotBefore asked) (agt_ExpiresAt asked).
Proof.
  intros [_ _ _ _ Hs _ Hc _]. apply SignGrant_prepares in Hs as [pb Hp].
  unfold PrepareAGTPayload in Hp. cbn [agt_IssuedAt agt_NotBefore granted_payload agt_payload] in Hp.
  rewrite Hc in Hp. go_ok. by subst.
Qed.

(** A scope with a lifetime is one of the four words. *)
Lemma granted_scope_storable scope sens : MaxGrantTTL scope sens <> 0 -> nul_free scope.
Proof.
  unfold MaxGrantTTL.
  repeat match goal with |- context [scope == ?s] =>
    destruct (scope == s) eqn:?;
      [go_bool; subst scope; intros _; apply (bool_decide_unpack _); vm_compute; exact I|]
  end. done.
Qed.

Lemma MaxGrantTTL_micro scope sens : exists n, MaxGrantTTL scope sens = n * 1000.
Proof.
  exists (ttl_max_seconds scope (Some sens) * 1000000). rewrite <- caps_agree. unfold Second. lia.
Qed.

(** The row of the new grant. *)
Definition granted_row (input : ProcessApprovalInput) (q : request_row) (r : resource_row)
    (p : AGTPayload) (agt : bytes) : grant_row :=
  grant_of_payload p (pi_RequestID input) (q_user q) (r_protected_node_id r) (q_resource q)
    (q_src_node_id q) agt.

Lemma granted_row_ttl input q rule bd u r p agt d d' :
  grantable input q rule bd u r p agt d -> db_resources d' = db_resources d ->
  validate_grant_ttl (pi_TenantID input) (granted_row input q r p agt) d' = None.
Proof.
  intros Hg Er. rewrite (validate_grant_ttl_frame _ _ _ _ Er). pose proof (signed_payload _ _ _ _ _ _ _ _ _ Hg) as Hp.
  cbv zeta in Hp. destruct Hg as [_ Hr _ Hsc _ _ _ _]. unfold validate_grant_ttl, granted_row. rewrite Hp.
  cbn [g_resource g_scope g_expires_at g_iat grant_of_payload agt_set agt_Scope agt_ExpiresAt
       agt_IssuedAt granted_payload agt_payload].
  rewrite Hr. cbn [fmap option_fmap option_map]. rewrite caps_agree.
  destruct (MaxGrantTTL_micro (q_scope q) (r_sensitivity r)) as [n Hn].
  rewrite <- caps_agree in Hsc. destruct (ttl_max_seconds _ _ =? 0) eqn:E0; go_bool; [by rewrite E0 in Hsc|].
  rewrite Hn, timestamptz_shift. destruct (_ <? _) eqn:El; [go_bool; lia|done].
Qed.

Lemma insert_granted_row input q rule bd u r p agt resp dev d now :
  grantable input q rule bd u r p agt d -> answerable input q rule bd resp dev d ->
  pi_TenantID input ∈ db_tenants d ->
  request_has_grant (pi_TenantID input) (pi_RequestID input) d = false ->
  let d1 := answered input q resp dev now d in
  insert_grant (pi_TenantID input) (env_uuid env 0) [] (granted_row input q r p agt) now d1
  = inr (tt, set_grants (<[(pi_TenantID input, env_uuid env 0) := granted_row input q r p agt]>
               (db_grants d)) d1).
Proof.
  intros Hg Haw Ht Hno d1. unfold insert_grant, binding_arg.
  rewrite (granted_row_ttl input q rule bd u r p agt d d1 Hg eq_refl).
  pose proof (signed_payload _ _ _ _ _ _ _ _ _ Hg) as Hp. cbv zeta in Hp.
  destruct Hg as [Hu Hr [nd Hnd] _ _ Hf _ [c Hc]]. destruct Haw as [Hq _ _ _ (_ & Hdev & _)].
  rewrite Hc. replace (g_request (granted_row input q r p agt)) with (pi_RequestID input) by done.
  change (request_has_grant _ _ d1) with (request_has_grant (pi_TenantID input) (pi_RequestID input) d).
  rewrite Hno. cbn [db_grants d1 answered set_devices set_requests]. rewrite Hf. cbn [is_some].
  assert (E : bool_decide (pi_TenantID input ∈ db_tenants d1) = true) by (by apply bool_decide_eq_true_2).
  assert (Eq : is_some (select_request (pi_TenantID input) (pi_RequestID input) d1) = true).
  { apply select_request_Some in Hq as [_ Hq]. unfold select_request. cbn. rewrite lookup_insert_eq.
    cbn. by rewrite Hq, eqb_refl. }
  assert (Ed : is_some (select_device (pi_TenantID input)
    (g_device (granted_row input q r p agt)) d1) = true).
  { rewrite Hp. cbn. apply select_device_Some in Hdev as [_ Hd]. unfold select_device. cbn.
    rewrite lookup_insert_eq. cbn. by rewrite Hd, eqb_refl. }
  change (select_user (pi_TenantID input) (g_user (granted_row input q r p agt)) d1) with
    (select_user (pi_TenantID input) (q_user q) d).
  change (select_node (pi_TenantID input) (g_node (granted_row input q r p agt)) d1) with
    (select_node (pi_TenantID input) (r_protected_node_id r) d).
  change (select_resource (pi_TenantID input) (g_resource (granted_row input q r p agt)) d1) with
    (select_resource (pi_TenantID input) (q_resource q) d).
  by rewrite E, Eq, Ed, Hu, Hr, Hnd.
Qed.

(** The tables after the grant was inserted and its request marked. *)
Definition granted_tables (input : ProcessApprovalInput) (q : request_row) (r : resource_row)
    (p : AGTPayload) (agt : bytes) (resp : ApprovalResponse) (dev : device_row) (now : Time) (d : Db)
    : Db :=
  set_requests (<[pi_RequestID input := q_update "GRANTED" (q_state_version q + 2)
      (Some (response_of input resp)) (Some now) q]> (db_requests d))
    (set_grants (<[(pi_TenantID input, env_uuid env 0) := granted_row input q r p agt]>
       (db_grants d)) (answered input q resp dev now d)).

Lemma mark_granted_works input q rule bd resp dev r p agt now d :
  answerable input q rule bd resp dev d -> (pi_Decision input == DecisionApprove) = true ->
  mark_granted (pi_TenantID input) (pi_RequestID input) now
    (set_grants (<[(pi_TenantID input, env_uuid env 0) := granted_row input q r p agt]>
       (db_grants d)) (answered input q resp dev now d))
  = inr (tt, granted_tables input q r p agt resp dev now d).
Proof.
  intros [Hq _ _ _ _] Hd. unfold mark_granted.
  assert (Es : select_request (pi_TenantID input) (pi_RequestID input)
    (set_grants (<[(pi_TenantID input, env_uuid env 0) := granted_row input q r p agt]>
       (db_grants d)) (answered input q resp dev now d)) =
    Some (q_update "APPROVED" (q_state_version q + 1) (Some (response_of input resp)) (Some now) q)).
  { apply select_request_Some in Hq as [_ Ht]. apply select_request_Some. cbn.
    rewrite lookup_insert_eq, Hd. by split. }
  rewrite Es. cbn. unfold granted_tables. rewrite insert_insert_eq.
  by replace (q_state_version q + 1 + 1) with (q_state_version q + 2) by lia.
Qed.

Lemma live_mintGrant base now w input q rule bd u r p agt resp dev Q :
  live base now (answered input q resp dev now base) 0 0 w -> loggable (pi_TenantID input) base ->
  (pi_Decision input == DecisionApprove) = true ->
  answerable input q rule bd resp dev base -> grantable input q rule bd u r p agt base ->
  request_has_grant (pi_TenantID input) (pi_RequestID input) base = false ->
  (forall d' k i w', quiet (granted_tables input q r p agt resp dev now base) d' ->
     loggable (pi_TenantID input) d' -> live base now d' k i w' ->
     Q (Ok (env_uuid env 0, agt)) w') ->
  wp (mintGrant (pi_TenantID input) (pi_RequestID input) (q_user q) (q_src_node_id q)
        (pi_DeviceID input) (q_resource q) (q_scope q) (q_policy_version q) rule bd
        (src_key_epoch (pi_TenantID input) (q_src_node_id q) base)
        (coalesce 1 (sql_max (policy_epochs (pi_TenantID input) base)))) Q env w.
Proof.
  intros Hw Hl Hd Haw Hg Hno HQ. pose proof (signed_payload _ _ _ _ _ _ _ _ _ Hg) as Hp. cbv zeta in Hp.
  pose proof (insert_granted_row _ _ _ _ _ _ _ _ _ _ _ now Hg Haw (proj2 Hl) Hno) as Hins.
  pose proof (mark_granted_works _ _ _ _ _ _ r p agt now _ Haw Hd) as Hmark.
  assert (Hl2 : loggable (pi_TenantID input) (granted_tables input q r p agt resp dev now base)).
  { split; [|apply Hl]. eapply logs_ok_eq; [..|apply Hl]; done. }
  destruct Hg as [Hu Hr _ Hsc Hs _ _ _]. cbv zeta in Hins.
  unfold mintGrant. wp_go. eapply live_uuid_New; [done..|]. intros w1 H1. wp_go.
  unfold resolveUserIdentity. wp_go. eapply live_db_query; [done..|]. intros w2 H2. wp_go.
  unfold getResourceDetails. wp_go. eapply live_tx_query; [done..|]. intros w3 H3. wp_go.
  eapply live_time_Now; [done..|]. intros w4 H4. wp_go.
  eapply live_time_Now; [done..|]. intros w5 H5. wp_go.
  unfold granted_payload, details_of in Hs. cbn [rd_Sensitivity]. rewrite Hs. wp_go.
  assert (En : res_ProtectedNodeID (agt_Resource p) = uuid_String (r_protected_node_id r)) by (by rewrite Hp).
  rewrite En. unfold uuid_MustParse. rewrite uuid_Parse_String. wp_go.
  eapply live_tx_exec; [done..|]. intros w6 H6. wp_go.
  eapply live_tx_exec; [done..|]. intros w7 H7. wp_go.
  eapply live_uuid_New; [done..|]. intros w8 H8. wp_go.
  eapply live_log; [done..| |].
  { repeat constructor. by eapply granted_scope_storable. }
  intros d3 w9 Hq3 Hl3 H9. wp_go. eapply live_send; [done..|].
  intros d4 w10 Hq4 Hl4 H10. wp_go. eapply HQ; [by etrans|done..].
Qed.

(** A pending request of a reachable state has no grant. *)
Lemma pending_has_no_grant d0 d t rid q :
  reachable d0 d -> select_request t rid d = Some q -> q_state q = "PENDING" ->
  request_has_grant t rid d = false.
Proof.
  intros Hr Hq Hs. apply not_true_iff_false. intros (jti & g & Hg & <-)%request_has_grant_spec.
  destruct (so_grants _ (reachable_ok _ _ Hr) _ _ _ Hg) as (q' & ? & ? & ? & Hq' & Hs' & _). congruence.
Qed.

(** ** Decisions are made *)

(** A valid approval is granted.  In a reachable state, on a server that
    answers, ProcessApproval of an approval whose signature and counter are good,
    for a pending request that can be granted, returns GRANTED with the token the
    signer made, inserts exactly that grant, marks the request, advances the
    device's counter and leaves every other request, device and grant alone. *)
Theorem valid_approval_is_granted d0 d input q rule bd resp dev u r p agt :
  reachable d0 d -> pi_TenantID input ∈ db_tenants d -> pi_Decision input = DecisionApprove ->
  answerable input q rule bd resp dev d -> grantable input q rule bd u r p agt d ->
  let run_ := run (ProcessApproval input) env d in
  run_.1 = Ok (mkProcessResult ApprovalStateGranted (Some (env_uuid env 0)) (Some agt)) /\
  db_grants run_.2 = <[(pi_TenantID input, env_uuid env 0) := granted_row input q r p agt]> (db_grants d) /\
  (exists now, db_requests run_.2 = <[pi_RequestID input := q_update "GRANTED" (q_state_version q + 2)
     (Some (response_of input resp)) (Some now) q]> (db_requests d)) /\
  db_devices run_.2 = <[pi_DeviceID input := d_set_counter (ar_DeviceCounter resp) dev]> (db_devices d) /\
  frame d run_.2.
Proof.
  intros Hr Ht Hd Haw Hg. cbv zeta.
  assert (Hl : loggable (pi_TenantID input) d) by (split; [apply (so_logs _ (reachable_ok _ _ Hr))|done]).
  assert (Hno : request_has_grant (pi_TenantID input) (pi_RequestID input) d = false)
    by (destruct Haw; by eapply pending_has_no_grant).
  assert (Hb : (pi_Decision input == DecisionApprove) = true) by (by rewrite eqb_true).
  pattern (run (ProcessApproval input) env d).1, (run (ProcessApproval input) env d).2.
  eapply wp_ProcessApproval_pending; [done|]. intros now w Hw.
  eapply live_decide_request; [done..| |done|].
  { rewrite Hd. apply (bool_decide_unpack _). vm_compute. exact I. }
  intros w1 H1. rewrite Hb. wp_go. eapply live_mintGrant; [done..|].
  intros d2 k i w2 Hq2 Hl2 H2. wp_go. do 4 eexists. split_and!; [done..|].
  intros d3 w3 Hq3 ->. assert (Hq : quiet (granted_tables input q r p agt resp dev now d) d3) by (by etrans).
  destruct Hq as [Hf Hdv Hrq Hgr _]. split_and!; [done|by rewrite Hgr|exists now; by rewrite Hrq|by rewrite Hdv|].
  etrans; [|exact Hf]. by split.
Qed.

(** A valid denial is recorded, whatever the binding column accepts: the
    request becomes DENIED with the device's answer, and no grant is added. *)
Theorem valid_denial_is_recorded d0 d input q rule bd resp dev :
  reachable d0 d -> pi_TenantID input ∈ db_tenants d ->
  pi_Decision input <> DecisionApprove -> nul_free (pi_Decision input) ->
  answerable input q rule bd resp dev d ->
  let run_ := run (ProcessApproval input) env d in
  run_.1 = Ok (mkProcessResult ApprovalStateDenied None None) /\
  db_grants run_.2 = db_grants d /\
  (exists now, db_requests run_.2 = <[pi_RequestID input := q_update "DENIED" (q_state_version q + 1)
     (Some (response_of input resp)) (Some now) q]> (db_requests d)) /\
  db_devices run_.2 = <[pi_DeviceID input := d_set_counter (ar_DeviceCounter resp) dev]> (db_devices d) /\
  frame d run_.2.
Proof.
  intros Hr Ht Hd Hn Haw. cbv zeta.
  assert (Hl : loggable (pi_TenantID input) d) by (split; [apply (so_logs _ (reachable_ok _ _ Hr))|done]).
  assert (Hb : (pi_Decision input == DecisionApprove) = false) by (destruct (_ == _) eqn:E; [go_bool|]; done).
  pattern (run (ProcessApproval input) env d).1, (run (ProcessApproval input) env d).2.
  eapply wp_ProcessApproval_pending; [done|]. intros now w Hw.
  eapply live_decide_request; [done..|]. intros w1 H1. rewrite Hb. wp_go.
  do 4 eexists. split_and!; [done..|by apply loggable_answered|].
  intros d3 w3 [Hf Hdv Hrq Hgr _] ->. rewrite Hrq. cbn. rewrite Hb.
  split_and!; [done|by rewrite Hgr|by exists now|by rewrite Hdv|].
  etrans; [|exact Hf]. by split.
Qed.

End Live.

(** ** Concrete instances *)

Lemma sample_timestamptz_shift (t n : Z) : (t + n * 1000) - (t + n * 1000) mod 1000 = t - t mod 1000 + n * 1000.
Proof. rewrite Z.mod_add by done. lia. Qed.

#[export] Instance sample_StorageLaws : StorageLaws (PG := pg_any) (GJ := ref_json).
Proof. split; [by eexists|by eexists|apply sample_timestamptz_shift]. Qed.

Lemma sample_healthy base : healthy (sample_env base).
Proof. by intros n. Qed.

(** [answerable], as one evaluation. *)
Definition sample_answered (input : ProcessApprovalInput) (d : Db) : bool :=
  let t := pi_TenantID input in
  match select_request t (pi_RequestID input) d, select_device t (pi_DeviceID input) d,
        pi_SignedResponse input with
  | Some q, Some dev, Some resp =>
      match VerifyApprovalResponse resp (if pi_Decision input == DecisionApprove
               then d_approval_auth_pub dev else d_device_auth_pub dev) with
      | Ok tt => d_counter dev <? ar_DeviceCounter resp
      | _ => false
      end && (q_state q == "PENDING") && is_some (q_rule_id q) &&
      match decode_binding (q_binding q) with Ok _ => true | _ => false end
  | _, _, _ => false
  end.

Lemma sample_answerable input d :
  sample_answered input d = true -> exists q rule bd resp dev, answerable input q rule bd resp dev d.
Proof.
  unfold sample_answered. intros Hc. destruct (select_request _ _ d) as [q|] eqn:Hq; [|done].
  destruct (select_device _ _ d) as [dev|] eqn:Hd; [|done].
  destruct (pi_SignedResponse input) as [resp|] eqn:Hi; [|done].
  rewrite !andb_true_iff in Hc. destruct Hc as [[[Hv Hs] Hr] Hb].
  destruct (VerifyApprovalResponse resp _) as [[]| |] eqn:Hver; [|done..].
  destruct (q_rule_id q) as [rule|] eqn:Er; [|done].
  destruct (decode_binding _) as [bd| |] eqn:Eb; [|done..]. apply Z.ltb_lt in Hv. rewrite eqb_true in Hs.
  exists q, rule, bd, resp, dev. by split.
Qed.

(** What the theorem about approvals asks of the scenario, as one evaluation. *)
Definition sample_signed (ok : AGTPayload -> bool) (input : ProcessApprovalInput) (d : Db) : bool :=
  let t := pi_TenantID input in
  match select_request t (pi_RequestID input) d with
  | Some q =>
      match select_user t (q_user q) d, select_resource t (q_resource q) d, q_rule_id q,
            decode_binding (q_binding q) with
      | Some u, Some r, Some rule, Ok bd =>
          is_some (select_node t (r_protected_node_id r) d) &&
          negb (MaxGrantTTL (q_scope q) (r_sensitivity r) =? 0) &&
          match SignGrant (env_now (sample_env 2000) 1)
                  (granted_payload (sample_env 2000) input q rule bd u r d) with
          | Ok (p, _) => ok p | _ => false
          end && negb (is_some (db_grants d !! (t, grant1)))
      | _, _, _, _ => false
      end
  | None => false
  end.

Lemma sample_grantable ok input resp q rule bd dev d :
  sample_signed ok input d = true -> answerable input q rule bd resp dev d ->
  exists u r p agt, grantable (sample_env 2000) input q rule bd u r p agt d /\ ok p = true.
Proof.
  unfold sample_signed. intros Hs [Hq _ Hr Hb _]. rewrite Hq in Hs.
  destruct (select_user _ _ d) as [u|] eqn:Hu; [|done].
  destruct (select_resource _ _ d) as [r|] eqn:Hre; [|done]. rewrite Hr, Hb in Hs.
  rewrite !andb_true_iff, !negb_true_iff in Hs. destruct Hs as [[[Hn Hm] Hsig] Hf].
  destruct (SignGrant _ _) as [[p agt]| |] eqn:Es; [|done..]. apply Z.eqb_neq in Hm.
  apply is_some_eq in Hn as [n Hn]. exists u, r, p, agt. split; [|exact Hsig].
  split; try eassumption; [by eexists| | |].
  - fold grant1. by destruct (db_grants d !! (pi_TenantID input, grant1)).
  - reflexivity.
  - by eexists.
Qed.

Lemma sample_tenant : tenant1 ∈ db_tenants created_db.
Proof. apply (bool_decide_unpack _). vm_compute. exact I. Qed.

Lemma valid_approval_is_granted_witness :
  exists agt, approve_run.1
    = Ok (mkProcessResult ApprovalStateGranted (Some grant1) (Some agt)).
Proof.
  destruct (sample_answerable approve_input created_db) as (q & rule & bd & resp & dev & Haw);
    [vm_compute; reflexivity|].
  destruct (sample_grantable (fun _ => true) approve_input resp q rule bd dev created_db)
    as (u & r & p & agt & Hg & _);
    [vm_compute; reflexivity|exact Haw|].
  exists agt. exact (proj1 (valid_approval_is_granted (sample_env 2000) (sample_healthy 2000) sample_db
    created_db approve_input q rule bd resp dev u r p agt created_reachable sample_tenant eq_refl Haw Hg)).
Defined.

Lemma valid_denial_is_recorded_witness :
  (run (ProcessApproval deny_input) (sample_env 2000) created_db).1
    = Ok (mkProcessResult ApprovalStateDenied None None).
Proof.
  destruct (sample_answerable deny_input created_db) as (q & rule & bd & resp & dev & Haw);
    [vm_compute; reflexivity|].
  assert (Hn : nul_free DecisionDeny) by (apply (bool_decide_unpack _); vm_compute; exact I).
  exact (proj1 (valid_denial_is_recorded (sample_env 2000) (sample_healthy 2000) sample_db created_db
    deny_input q rule bd resp dev created_reachable sample_tenant ltac:(discriminate) Hn Haw)).
Defined.
