(* ===== verification/EnrollmentLife.v ===== *)
(** * EnrollmentLife: credentials over the life of the service

    Enrollment together with every other handler of the service, under any faults
    and in any order: a ticket or bootstrap token that was honoured is never
    honoured again, the keys of a tenant's devices stay distinct, and therefore the
    signature behind a grant identifies one device. *)

From stdpp Require Import base gmap strings list fin_maps sorting pretty.
From Stdlib Require Import ZArith Lia Strings.Byte.
From S2P Require Import Prelude Identity Cose Envelope Reference Database Schema Messaging AuditChain.
From S2P Require Import Enforcement EngineSpec Revocation System KeyManager KeyManagerProps ServiceMain.
From S2P Require Import Sample Scenario EngineProps Enrollment EnrollmentProps.

Open Scope Z_scope.
Open Scope go_scope.

Section Life.
Context `{UT : UuidText} `{CI : CborInit} `{GC : GoCrypto}.
Context `{CB : Cbor ScopeBinding} `{CA : Cbor AGTPayload}.
Context `{PG : Postgres} `{GJ : GoJson} `{RS : RequestSigner} `{GS : GrantSigner}.
Context `{GL : !GrantSignerLaws}.

(** C16.  A ticket is honoured once: after [ValidateEnrollmentTicket] returned it,
    no sequence of handler runs makes any call with the same text succeed; such a
    call changes nothing. *)
Theorem ticket_honoured_once env s d et d' :
  (run (ValidateEnrollmentTicket s) env d).1 = Ok et ->
  rtc step (run (ValidateEnrollmentTicket s) env d).2 d' ->
  forall env', (run (ValidateEnrollmentTicket s) env' d').2 = d' /\
    forall et', (run (ValidateEnrollmentTicket s) env' d').1 <> Ok et'.
Proof.
  intros Hok Hs env'. pose proof (ValidateEnrollmentTicket_cases env s d) as Hc.
  destruct (run (ValidateEnrollmentTicket s) env d) as [r d1]. cbn in Hok, Hs. subst r.
  destruct Hc as [_ [[_ Hn]|(k & (lt & _ & _ & _ & _ & ->) & _)]]; [by destruct (Hn et)|].
  apply steps_late in Hs. destruct (Hs _ eq_refl) as (lt' & Hl' & Ht & _).
  destruct (Ht (ticket_hash s) (k_use k)) as [Hu|[? _]]; [by apply lookup_insert_eq| |done].
  pose proof (ValidateEnrollmentTicket_cases env' s d') as Hc.
  destruct (run (ValidateEnrollmentTicket s) env' d') as [r2 d2]. cbn.
  destruct Hc as [_ [Hc|(k2 & (lt2 & Hl2 & Hk2 & Hf & _) & _)]]; [done|].
  rewrite Hl' in Hl2. injection Hl2 as <-. rewrite Hu in Hk2. by injection Hk2 as <-.
Qed.

(** A bootstrap token registers one node: after [RegisterNode] succeeded
    with it, no sequence of handler runs makes a registration with the same token
    succeed, for any node. *)
Theorem token_registers_once env s tn node csr d id d' :
  (run (RegisterNode s tn node csr) env d).1 = Ok id ->
  rtc step (run (RegisterNode s tn node csr) env d).2 d' ->
  forall env' tn' node' csr', (run (RegisterNode s tn' node' csr') env' d').2 = d' /\
    forall id', (run (RegisterNode s tn' node' csr') env' d').1 <> Ok id'.
Proof.
  intros Hok Hs env' tn' node' csr'. pose proof (RegisterNode_cases env s tn node csr d) as Hc.
  destruct (run (RegisterNode s tn node csr) env d) as [r d1]. cbn in Hok, Hs. subst r.
  destruct Hc as [_ [[_ Hn]|(i & b & (lt & _ & _ & _ & _ & _ & _ & ->) & _)]]; [by destruct (Hn id)|].
  apply steps_late in Hs. destruct (Hs _ eq_refl) as (lt' & Hl' & _ & Hb).
  destruct (Hb (ticket_hash s) (b_use b)) as [Hu|[? _]]; [by apply lookup_insert_eq| |done].
  pose proof (RegisterNode_cases env' s tn' node' csr' d') as Hc.
  destruct (run (RegisterNode s tn' node' csr') env' d') as [r2 d2]. cbn.
  destruct Hc as [_ [Hc|(i2 & b2 & (lt2 & Hl2 & Hk2 & Hf & _) & _)]]; [done|].
  rewrite Hl' in Hl2. injection Hl2 as <-. rewrite Hu in Hk2. by injection Hk2 as <-.
Qed.

(** C17.  The signature behind a grant identifies its device: starting from a
    database without shared keys, in every reachable state each grant's approval
    verifies under the approval key of the device it names, and every device of the
    tenant with that approval key - however it was enrolled - is this device. *)
Theorem approval_key_identifies_device d0 d t jti g :
  keys_unique d0 -> reachable d0 d -> db_grants d !! (t, jti) = Some g ->
  exists q rs resp dev, select_request t (g_request g) d = Some q /\ q_response q = Some rs /\
    select_device t (g_device g) d = Some dev /\ ar_Signature resp = rs_sig rs /\
    VerifyApprovalResponse resp (d_approval_auth_pub dev) = Ok tt /\
    forall id v, select_device t id d = Some v -> d_approval_auth_pub v = d_approval_auth_pub dev ->
      id = g_device g.
Proof.
  intros Hu Hr Hg. destruct (so_grants _ (reachable_ok _ _ Hr) _ _ _ Hg)
    as (q & rs & resp & dev & Hq & _ & Hrs & _ & _ & _ & _ & _ & _ & Hdev & Hver & Hsig & _).
  exists q, rs, resp, dev. split_and!; [done..|]. intros id v Hv E.
  apply select_device_Some in Hdev as [Hdev Hdt], Hv as [Hv Hvt].
  eapply (steps_keys _ _ (proj2 Hr) Hu); [exact Hv|exact Hdev|congruence|by right].
Qed.

End Life.

(** ** Witnesses *)

Definition ticket_run :=
  run (@IssueEnrollmentTicket ref_GoCrypto pg_any tenant1 user1 "https://idp" "alice" Minute)
    (sample_env 100) enroll_db.
Definition issued_text : string := match ticket_run.1 with Ok et => et_Ticket et | _ => "" end.

Lemma ticket_honoured_once_witness :
  exists et, (run (@ValidateEnrollmentTicket ref_GoCrypto issued_text) (sample_env 200) ticket_run.2).1 = Ok et /\
    forall et', (run (@ValidateEnrollmentTicket ref_GoCrypto issued_text) (sample_env 300)
      (run (@ValidateEnrollmentTicket ref_GoCrypto issued_text) (sample_env 200) ticket_run.2).2).1 <> Ok et'.
Proof.
  assert (Hv : exists et, (run (@ValidateEnrollmentTicket ref_GoCrypto issued_text) (sample_env 200)
    ticket_run.2).1 = Ok et).
  { eexists. vm_compute. reflexivity. }
  destruct Hv as [et Hv]. exists et. split; [exact Hv|]. intros et'.
  apply (ticket_honoured_once _ _ _ _ _ Hv (rtc_refl _ _) (sample_env 300)).
Defined.

Definition token_run :=
  run (@IssueNodeBootstrap ref_GoCrypto pg_any tenant1 "tailnet-a" "n-two" Minute user1) (sample_env 100) enroll_db.
Definition token_text : string := match token_run.1 with Ok bt => bt_Token bt | _ => "" end.
Definition register_run (env : Env) (d : Db) :=
  run (@RegisterNode canonical_UuidText ref_GoCrypto token_text "tailnet-a" "n-two" []) env d.

Lemma token_registers_once_witness :
  exists id, (register_run (sample_env 200) token_run.2).1 = Ok id /\
    forall id', (register_run (sample_env 300) (register_run (sample_env 200) token_run.2).2).1 <> Ok id'.
Proof.
  assert (Hv : exists id, (register_run (sample_env 200) token_run.2).1 = Ok id).
  { eexists. vm_compute. reflexivity. }
  destruct Hv as [id Hv]. exists id. split; [exact Hv|]. intros id'.
  apply (token_registers_once _ _ _ _ _ _ _ _ Hv (rtc_refl _ _) (sample_env 300)).
Defined.

Lemma sample_keys_unique : keys_unique sample_db.
Proof.
  intros i j v w Hi Hj _ _. cbn in Hi, Hj.
  apply lookup_singleton_Some in Hi as [<- _], Hj as [<- _]. done.
Qed.

Lemma approval_key_identifies_device_witness :
  exists g dev, db_grants granted_db !! (tenant1, grant1) = Some g /\
    select_device tenant1 (g_device g) granted_db = Some dev /\
    forall id v, select_device tenant1 id granted_db = Some v ->
      d_approval_auth_pub v = d_approval_auth_pub dev -> id = g_device g.
Proof.
  destruct (is_some_eq (db_grants granted_db !! (tenant1, grant1))) as [g Hg]; [vm_compute; reflexivity|].
  destruct (approval_key_identifies_device _ _ _ _ _ sample_keys_unique granted_reachable Hg)
    as (q & rs & resp & dev & _ & _ & Hd & _ & _ & Hu).
  exists g, dev. repeat split; assumption.
Defined.
