(* ===== verification/AuditProps.v ===== *)
(** * AuditProps: what the audit chain guarantees

    The effect of [InsertTx] on the chain and its head; what an accepted
    [VerifyChain] means for the stored rows; and where the writer and the verifier
    do not fit together. *)

From stdpp Require Import base gmap strings list fin_maps sorting pretty.
From Stdlib Require Import ZArith Lia Strings.Byte.
From S2P Require Import Prelude Identity Cose Envelope Reference Database Schema Messaging AuditChain.
From S2P Require Import Enforcement EngineSpec Sample KeyManager ServiceMain Scenario.

Open Scope Z_scope.
Open Scope go_scope.

Section Props.
Context `{GC : GoCrypto} `{PG : Postgres} `{GJ : GoJson}.

(** ** Reading the chain *)

Lemma sha256Equal_loop_spec a b :
  length a = length b -> sha256Equal_loop a b = true <-> a = b.
Proof.
  revert b. induction a as [|x a IH]; intros [|y b] Hl; try done; cbn in *.
  destruct (x != y) eqn:E; go_bool; [naive_solver|]. subst. rewrite IH by lia. naive_solver.
Qed.

Lemma sha256Equal_spec a b : sha256Equal a b = true <-> a = b.
Proof.
  unfold sha256Equal. destruct (length a =? length b)%nat eqn:E; cbn.
  - apply Nat.eqb_eq in E. by apply sha256Equal_loop_spec.
  - apply Nat.eqb_neq in E. split; [done|]. by intros ->.
Qed.

Lemma elem_of_chain_rows t lo hi d s a :
  (s, a) ∈ chain_rows t lo hi d <-> lo <= s <= hi /\ db_events d !! (t, s) = Some a.
Proof.
  unfold chain_rows. rewrite merge_sort_Permutation, list_elem_of_omap. split.
  - intros ([[t' s'] a'] & Hin & E). apply elem_of_map_to_list in Hin.
    destruct ((t' == t) && (lo <=? s') && (s' <=? hi)) eqn:Eb; [|done]. injection E as -> ->.
    go_bool. destruct Eb as [[-> ?] ?]. by split.
  - intros [Hs Hl]. exists ((t, s), a). split; [by apply elem_of_map_to_list|].
    by rewrite eqb_refl, (proj2 (Z.leb_le lo s)), (proj2 (Z.leb_le s hi)) by lia.
Qed.

Lemma chain_rows_sorted t lo hi d : StronglySorted aseq_le (chain_rows t lo hi d).
Proof. apply StronglySorted_merge_sort; apply _. Qed.

(** A sorted list of rows of one chain is determined by its elements. *)
Lemma chain_rows_unique t lo hi d l :
  StronglySorted aseq_le l -> l ≡ₚ chain_rows t lo hi d -> chain_rows t lo hi d = l.
Proof.
  intros Hs Hp. eapply (StronglySorted_unique_strong aseq_le); [|apply chain_rows_sorted|done..].
  intros [s1 a1] [s2 a2] H1 H2 H12 H21. unfold aseq_le in *. cbn in *.
  rewrite Hp in H2. apply elem_of_chain_rows in H1 as [_ H1], H2 as [_ H2].
  assert (s1 = s2) as -> by lia. congruence.
Qed.

(** Changing rows in place changes the rows that are read. *)
Lemma chain_rows_fmap t lo hi d d' (f : audit_row -> audit_row) :
  db_events d' = f <$> db_events d ->
  chain_rows t lo hi d' = prod_map id f <$> chain_rows t lo hi d.
Proof.
  intros E. apply chain_rows_unique.
  - pose proof (chain_rows_sorted t lo hi d) as Hs. induction Hs as [|x l Hs IH Hall]; [constructor|].
    cbn. constructor; [done|]. by apply Forall_fmap.
  - unfold chain_rows. rewrite !merge_sort_Permutation, E, map_to_list_fmap.
    induction (map_to_list (db_events d)) as [|[[t' s] a] l IH]; [done|]. cbn [omap list_omap fmap list_fmap].
    cbn. destruct (_ && _); [|done]. cbn. by rewrite IH.
Qed.

(** What the verifier accepts. *)
Definition row_ok (t : UUID) (s : Z) (a : audit_row) : Prop :=
  exists p, a_payload a = Some p /\
    a_row_hash a = computeRowHash t s (a_event_type a) (a_producer a) (Some p).

Fixpoint linked (prev : option bytes) (rows : list (Z * audit_row)) : Prop :=
  match rows with
  | [] => True
  | (s, a) :: rest => (forall p, prev = Some p -> a_prev_hash a = p) /\ linked (Some (a_row_hash a)) rest
  end.

Lemma verify_rows_Ok t prev rows b :
  verify_rows t prev rows = Ok b <->
  b = true /\ Forall (fun r => row_ok t r.1 r.2) rows /\ linked prev rows.
Proof.
  revert prev. induction rows as [|[s a] rows IH]; intros prev; cbn [verify_rows linked].
  { split; [by intros [= <-]|]. by intros (-> & _). }
  rewrite Forall_cons. unfold row_ok at 1. cbn [fst snd].
  destruct (a_payload a) as [p|]; [|naive_solver].
  assert (Hprev : match prev with Some p => negb (sha256Equal p (a_prev_hash a)) | None => false end = false
    <-> forall p, prev = Some p -> a_prev_hash a = p).
  { destruct prev as [q|]; [|naive_solver]. rewrite negb_false_iff, sha256Equal_spec. naive_solver. }
  destruct (match prev with Some _ => _ | None => _ end) eqn:E1.
  { split; [done|]. intros (_ & _ & Hl & _). apply Hprev in Hl. done. }
  destruct (sha256Equal _ (a_row_hash a)) eqn:E2; cbn [negb].
  - apply sha256Equal_spec in E2. rewrite IH. naive_solver.
  - split; [done|]. intros (_ & [(p' & [= <-] & Hh) _] & _). symmetry in Hh. apply sha256Equal_spec in Hh. congruence.
Qed.

Lemma VerifyChain_Ok env d t lo hi b :
  (run (VerifyChain t lo hi) env d).1 = Ok b ->
  b = true /\ (forall s a, lo <= s <= hi -> db_events d !! (t, s) = Some a -> row_ok t s a) /\
  linked None (chain_rows t lo hi d).
Proof.
  wp_start. unfold VerifyChain. wp_go. apply wp_db_query; [|done].
  intros now rows w' [= <-] _ _. wp_go. intros (-> & Hall & Hl)%verify_rows_Ok.
  split_and!; [done| |done]. intros s a Hs Ha. rewrite Forall_forall in Hall.
  apply (Hall (s, a)). by apply elem_of_chain_rows.
Qed.

Lemma chain_rows_NoDup t lo hi d : NoDup (chain_rows t lo hi d).*1.
Proof.
  unfold chain_rows. rewrite merge_sort_Permutation.
  pose proof (NoDup_fst_map_to_list (db_events d)) as Hf.
  induction (map_to_list (db_events d)) as [|[[t' s] a] l IH]; [constructor|].
  cbn in Hf. apply NoDup_cons in Hf as [Hni Hf]. cbn [omap list_omap].
  destruct ((t' == t) && _ && _) eqn:E; [|by apply IH]. go_bool. destruct E as [[-> _] _].
  cbn. constructor; [|by apply IH]. intros ([s' a'] & -> & Hin)%list_elem_of_fmap. apply Hni.
  apply list_elem_of_omap in Hin as ([[t2 s2] a2] & Hin & E).
  destruct ((t2 == t) && _ && _) eqn:E2; [|done]. go_bool. destruct E2 as [[-> _] _].
  injection E as -> ->. apply list_elem_of_fmap. by exists ((t, s'), a').
Qed.

Definition aseq_lt (a b : Z * audit_row) : Prop := a.1 < b.1.

Lemma chain_rows_strict t lo hi d : StronglySorted aseq_lt (chain_rows t lo hi d).
Proof.
  pose proof (chain_rows_NoDup t lo hi d) as Hn. pose proof (chain_rows_sorted t lo hi d) as Hs.
  induction Hs as [|x l Hs IH Hall]; [constructor|]. cbn in Hn. apply NoDup_cons in Hn as [Hni Hn].
  constructor; [by apply IH|]. rewrite Forall_forall in *. intros y Hy. specialize (Hall y Hy).
  unfold aseq_le, aseq_lt in *. assert (x.1 <> y.1); [|lia]. intros E. apply Hni. rewrite E.
  apply list_elem_of_fmap. by exists y.
Qed.

(** Links between neighbours of a strictly sorted list. *)
Lemma linked_next prev l s a b :
  StronglySorted aseq_lt l -> (s, a) ∈ l -> (s + 1, b) ∈ l -> linked prev l -> a_prev_hash b = a_row_hash a.
Proof.
  intros Hs. revert prev. induction Hs as [|[x y] l Hs IH Hall]; intros prev Ia Ib Hl.
  { by apply not_elem_of_nil in Ia. }
  cbn in Hl. destruct Hl as [_ Hl]. rewrite Forall_forall in Hall. unfold aseq_lt in Hall.
  apply elem_of_cons in Ia as [[= <- <-]|Ia], Ib as [[= ? ?]|Ib]; [lia| | |by eapply IH].
  - destruct l as [|[x' y'] l]; [by apply not_elem_of_nil in Ib|]. cbn in Hl. destruct Hl as [Hl _].
    apply elem_of_cons in Ib as [[= _ <-]|Ib]; [by apply Hl|].
    assert (s < x') by (apply (Hall (x', y')); left).
    inversion Hs as [|? ? _ Hall']; subst. rewrite Forall_forall in Hall'.
    assert (x' < s + 1) by (apply (Hall' (s + 1, b) Ib)). lia.
  - specialize (Hall (s, a) Ia). cbn in Hall. lia.
Qed.

Lemma VerifyChain_link env d t lo hi s a b :
  (run (VerifyChain t lo hi) env d).1 = Ok true -> lo <= s -> s + 1 <= hi ->
  db_events d !! (t, s) = Some a -> db_events d !! (t, s + 1) = Some b -> a_prev_hash b = a_row_hash a.
Proof.
  intros (_ & _ & Hl)%VerifyChain_Ok Hlo Hhi Ha Hb.
  eapply (linked_next _ _ s); [apply (chain_rows_strict t lo hi d)|..|done];
    by apply elem_of_chain_rows; split; [lia|].
Qed.

(** The numbers in use, in a well-formed chain. *)
Lemma elem_of_event_seqs t s d : s ∈ event_seqs t d <-> is_Some (db_events d !! (t, s)).
Proof.
  unfold event_seqs. rewrite list_elem_of_omap. split.
  - intros ([[t' s'] a] & Hin & Eo). apply elem_of_map_to_list in Hin.
    destruct (t' == t) eqn:Et; [|done]. go_bool. subst. injection Eo as ->. by eexists.
  - intros [a Hl]. exists ((t, s), a). rewrite eqb_refl. split; [by apply elem_of_map_to_list|done].
Qed.

Lemma elem_event_seq d t h s :
  audit_ok d -> db_heads d !! t = Some h -> is_Some (db_events d !! (t, s)) <-> 1 <= s <= h_last_seq h.
Proof.
  intros Ha Hh. rewrite (Ha t s). split; [|by eauto]. intros (h' & Hh' & ?).
  rewrite Hh in Hh'. by injection Hh' as <-.
Qed.

(** ** Appending *)

Definition head_of (t : UUID) (d : Db) : head_row := default (mkHead 0 [x00]) (db_heads d !! t).

(** The digest the stored function leaves in the head. *)
Definition sql_hash (t : UUID) (typ : string) (now : Time) (d : Db) : bytes :=
  sha256 (h_last_hash (head_of t d) ++ be_bytes 8 (h_last_seq (head_of t d) + 1) ++ text_bytea typ
            ++ epoch_text now).

(** One appended event. *)
Definition appended (e : AuditEvent) (now : Time) (seq : Z) (d d' : Db) : Prop :=
  let t := ae_TenantID e in
  seq = h_last_seq (head_of t d) + 1 /\ db_events d !! (t, seq) = None /\
  exists p, jsonb_arg (event_bytes e) = inr p /\
    db_events d' = <[(t, seq) := mkAudit (ae_EventType e) (ae_Producer e) p (event_detail e)
        (h_last_hash (head_of t d))
        (computeRowHash t seq (ae_EventType e) (ae_Producer e) (event_bytes e))]> (db_events d) /\
    db_heads d' = <[t := mkHead seq (sql_hash t (ae_EventType e) now d)]> (db_heads d).

Lemma InsertTx_appended e env w base now d seq w' :
  in_tx base now d false w -> InsertTx e env w = (Ok seq, w') ->
  exists d', in_tx base now d' false w' /\ appended e now seq d d'.
Proof.
  intros Hi Hrun.
  assert (W : wp (InsertTx e) (fun r w' => forall s, r = Ok s ->
    exists d', in_tx base now d' false w' /\ appended e now s d d') env w).
  { unfold InsertTx. wp_go. eapply wp_tx_exec; [done| |done].
    intros s d1 w1 _ (h & row & Eh & Es & Hn & Hp & Ht & Hpr & _ & Hj & Hh & E1)%insert_audit_event_Ok H1.
    wp_go. eapply wp_tx_exec; [done| |done]. intros u d2 w2 _ E2 H2. wp_go. intros ? [= <-].
    exists d2. split; [done|]. subst d1. unfold update_audit_row in E2. cbn in E2.
    rewrite lookup_insert_eq in E2. injection E2 as _ <-. unfold appended, head_of, sql_hash. cbn.
    subst h. split; [done|]. split; [done|]. exists (a_payload row).
    rewrite insert_insert_eq, Ht, Hpr, Hp. split; [done|]. split; [done|]. by rewrite Hh, Es. }
  unfold wp in W. rewrite Hrun in W. by apply W.
Qed.

(** [InsertTx] appends: a successful call adds exactly one row, at the
    number after the tenant's head, linked to the head's hash, with the event's
    detail columns and the digest of number, type, producer and payload; the head
    moves to the new row's number, and no other row or head changes. *)
Theorem audit_event_appended e env w base now d seq w' :
  in_tx base now d false w -> InsertTx e env w = (Ok seq, w') ->
  exists d', in_tx base now d' false w' /\ appended e now seq d d'.
Proof. apply InsertTx_appended. Qed.

(** What an accepted chain means: every row of the range carries the digest
    of its own number, type, producer and stored payload, and each row of the range
    names the digest of its predecessor.  The verifier never answers [false]: a bad
    chain is an error. *)
Theorem verify_chain_sound env d t lo hi b :
  (run (VerifyChain t lo hi) env d).1 = Ok b ->
  b = true /\
  (forall s a, lo <= s <= hi -> db_events d !! (t, s) = Some a -> exists p, a_payload a = Some p /\
     a_row_hash a = computeRowHash t s (a_event_type a) (a_producer a) (Some p)) /\
  (forall s a a', lo <= s -> s + 1 <= hi -> db_events d !! (t, s) = Some a ->
     db_events d !! (t, s + 1) = Some a' -> a_prev_hash a' = a_row_hash a).
Proof.
  intros Hv. destruct (VerifyChain_Ok _ _ _ _ _ _ Hv) as (-> & Hr & _).
  split_and!; [done|exact Hr|]. intros s a a' **. by eapply VerifyChain_link.
Qed.

(** The detail columns are not covered: whatever is written into the
    user, device, node, resource, protocol, result, request, rule, policy version,
    correlation and signature columns of any rows, the verifier gives the same
    answer, contrary to the comment on [computeRowHash]. *)
Theorem verify_chain_ignores_details env d d' (det : audit_row -> audit_detail) t lo hi :
  db_events d' = (fun a => mkAudit (a_event_type a) (a_producer a) (a_payload a) (det a)
                             (a_prev_hash a) (a_row_hash a)) <$> db_events d ->
  (run (VerifyChain t lo hi) env d').1 = (run (VerifyChain t lo hi) env d).1.
Proof.
  intros E. apply chain_rows_fmap with (t := t) (lo := lo) (hi := hi) in E.
  unfold run, VerifyChain, mbind, M_bind, mwrap, db_query, db_exec, mbind, M_bind. cbn.
  destruct (env_fault env 0); cbn; [|done..]. rewrite E. clear E. unfold lift. cbn.
  generalize (@None bytes). induction (chain_rows t lo hi d) as [|[s a] l IH]; intros prev; [done|].
  cbn. destruct (a_payload a); [|done]. destruct (match prev with Some _ => _ | None => _ end); [done|].
  destruct (negb _); [done|]. apply IH.
Qed.

(** The two texts that are hashed for one event: by the stored function into the
    head, and by [InsertTx] into the row. *)
Definition head_text (t : UUID) (typ : string) (now : Time) (d : Db) : bytes :=
  h_last_hash (head_of t d) ++ be_bytes 8 (h_last_seq (head_of t d) + 1) ++ text_bytea typ ++ epoch_text now.
Definition row_text (seq : Z) (typ producer : string) (payload : bytes) : bytes :=
  be_bytes 8 seq ++ str_bytes typ ++ str_bytes producer ++ payload.

(** Text that ends in a decimal digit, as a number does. *)
Definition ends_in_digit (b : bytes) : bool :=
  match last b with Some c => (48 <=? Byte.to_N c)%N && (Byte.to_N c <=? 57)%N | None => false end.

Lemma ends_in_digit_app a b : b <> [] -> ends_in_digit (a ++ b) = ends_in_digit b.
Proof. intros Hb. unfold ends_in_digit. rewrite last_app. destruct (last b) eqn:E; [done|]. by apply last_None in E. Qed.

Lemma texts_differ t typ now d seq producer b :
  ends_in_digit (epoch_text now) = true -> b <> [] -> ends_in_digit b = false ->
  head_text t typ now d <> row_text seq typ producer b.
Proof.
  intros He Hb Hd E. apply (f_equal ends_in_digit) in E. unfold head_text, row_text in E.
  rewrite !app_assoc in E. rewrite !ends_in_digit_app in E; [congruence|done|]. by intros Hx; rewrite Hx in He.
Qed.

(** C39.  The writer's chain does not verify.  Let [InsertTx] append two consecutive
    events of a tenant, in one transaction or in two, the second where the head of
    the tenant and the row of the first event are as the first left them.  If
    [VerifyChain] then accepts a range that holds both rows, SHA-256 has a
    collision: two different texts with the same digest, namely what the stored
    function hashes into the head (previous hash, number, type, time) and what
    [InsertTx] hashes into the row (number, type, producer, payload).  The first
    event's time is printed as a number and its payload is JSON other than a bare
    number. *)
Theorem writer_and_verifier_disagree e1 env1 w base1 now1 d s1 w1 d1
    e2 env2 w' base2 now2 d' s2 w2 d2 envv lo hi b :
  let t := ae_TenantID e1 in
  in_tx base1 now1 d false w -> InsertTx e1 env1 w = (Ok s1, w1) -> in_tx base1 now1 d1 false w1 ->
  db_heads d' !! t = db_heads d1 !! t -> db_events d' !! (t, s1) = db_events d1 !! (t, s1) ->
  in_tx base2 now2 d' false w' -> ae_TenantID e2 = t ->
  InsertTx e2 env2 w' = (Ok s2, w2) -> in_tx base2 now2 d2 false w2 ->
  ends_in_digit (epoch_text now1) = true ->
  event_bytes e1 = Some b -> b <> [] -> ends_in_digit b = false ->
  lo <= s1 -> s2 <= hi -> (run (VerifyChain t lo hi) envv d2).1 = Ok true ->
  let x := head_text t (ae_EventType e1) now1 d in
  let y := row_text s1 (ae_EventType e1) (ae_Producer e1) b in
  s2 = s1 + 1 /\ x <> y /\ sha256 x = sha256 y.
Proof.
  intros t Hi H1 Hi1 Hhd Hrow Hi' Ht2 H2 Hi2 Hep Hb Hne Hnd Hlo Hhi Hv x y.
  apply (InsertTx_appended _ _ _ _ _ _ _ _ Hi) in H1 as (dx & [_ Ex] & Hs1 & _ & p1 & _ & E1 & Eh1).
  destruct Hi1 as [_ Ey]. rewrite Ey in Ex. injection Ex as <-.
  apply (InsertTx_appended _ _ _ _ _ _ _ _ Hi') in H2 as (dz & [_ Ez] & Hs2 & _ & p2 & _ & E2 & _).
  destruct Hi2 as [_ Ew]. rewrite Ew in Ez. injection Ez as <-.
  rewrite Ht2 in Hs2, E2. change (ae_TenantID e1) with t in E1, Eh1. unfold head_of in Hs2, E2. rewrite Hhd, Eh1, lookup_insert_eq in Hs2, E2.
  cbn in Hs2, E2. split; [done|]. split; [by apply texts_differ|]. subst s2.
  eapply VerifyChain_link with (s := s1) in Hv; [|lia|lia| |].
  2:{ rewrite E2, lookup_insert_ne by (intros [=]; lia). by rewrite Hrow, E1, lookup_insert_eq. }
  2:{ by rewrite E2, lookup_insert_eq. }
  cbn in Hv. rewrite Hb in Hv. exact Hv.
Qed.

Lemma event_seqs_max d t h :
  audit_ok d -> heads_ok d -> db_heads d !! t = Some h ->
  coalesce 0 (sql_max (event_seqs t d)) = h_last_seq h.
Proof.
  intros Ha Hh Hhd.
  assert (Hin : forall s, s ∈ event_seqs t d <-> 1 <= s <= h_last_seq h).
  { intros s. by rewrite elem_of_event_seqs, (elem_event_seq d _ h s Ha Hhd). }
  pose proof (Hh _ _ Hhd) as H0. pose proof (sql_max_spec (event_seqs t d)) as Hm.
  destruct (sql_max _) as [m|]; cbn.
  - destruct Hm as [Hm1 Hm2]. apply Hin in Hm1 as Hm1'. assert (h_last_seq h <= m); [|lia].
    apply Hm2, Hin. lia.
  - destruct (decide (h_last_seq h = 0)); [done|].
    assert (X : h_last_seq h ∈ event_seqs t d) by (apply Hin; lia).
    rewrite Hm in X. by apply not_elem_of_nil in X.
Qed.

(** A checkpoint blocks its tenant: after [exportCheckpoint] has stored the
    checkpoint of a tenant whose rows are numbered up to its head, every later
    [InsertTx] of that tenant fails, because the stored function allocates the
    number the checkpoint row has taken. *)
Theorem checkpoint_blocks_audit cp env d d' e env' w base now :
  audit_ok d -> heads_ok d -> is_Some (db_heads d !! cp_TenantID cp) -> ae_TenantID e = cp_TenantID cp ->
  run (exportCheckpoint cp) env d = (Ok tt, d') -> in_tx base now d' false w ->
  forall seq w', InsertTx e env' w <> (Ok seq, w').
Proof.
  intros Ha Hh [h Hhd] Het Hrun Hi seq w' Hins.
  apply (InsertTx_appended _ _ _ _ _ _ _ _ Hi) in Hins as (d2 & _ & Hs & Hn & _). rewrite Het in *.
  assert (Hd : exists row, d' = set_events (<[(cp_TenantID cp, h_last_seq h + 1) := row]> (db_events d)) d).
  { assert (W : (fun r d' => r = Ok tt -> exists row,
      d' = set_events (<[(cp_TenantID cp, h_last_seq h + 1) := row]> (db_events d)) d)
      (run (exportCheckpoint cp) env d).1 (run (exportCheckpoint cp) env d).2).
    { apply wp_run. unfold exportCheckpoint. wp_go. destruct (json_checkpoint cp) as [b| |]; try done.
      eapply wp_db_exec; [|done..]. intros nw u d2' w2 Hst Hw _ _. rewrite Hw. clear Hw. cbn in Hst.
      unfold insert_checkpoint in Hst. destruct (jsonb_arg _) as [|pl]; [done|]. injection Hst as _ <-.
      rewrite (event_seqs_max d _ h Ha Hh Hhd). eauto. }
    rewrite Hrun in W. by apply W. }
  destruct Hd as [row ->]. unfold head_of in Hs. cbn in Hs, Hn. rewrite Hhd in Hs. cbn in Hs.
  by rewrite Hs, lookup_insert_eq in Hn.
Qed.

(** Nothing but new checkpoint rows. *)
Definition only_checkpoints (d d' : Db) : Prop := exists m,
  d' = set_events m d /\ db_events d ⊆ m /\
  forall k r, m !! k = Some r -> db_events d !! k = None -> a_event_type r = "AUDIT_CHECKPOINT".

#[local] Instance only_checkpoints_refl : Reflexive only_checkpoints.
Proof. intros d. exists (db_events d). split_and!; [by destruct d|done|naive_solver]. Qed.

#[local] Instance only_checkpoints_trans : Transitive only_checkpoints.
Proof.
  intros d d1 d2 (m1 & -> & H1 & N1) (m2 & -> & H2 & N2). cbn in H2, N2. exists m2. split_and!; [done|by etrans|].
  intros k r Hk Hd. destruct (m1 !! k) as [r1|] eqn:E; [|by eapply N2].
  rewrite (lookup_weaken _ _ _ _ E H2) in Hk. injection Hk as ->. by eapply N1.
Qed.

Lemma insert_checkpoint_only tenant b h now d u d' :
  insert_checkpoint tenant b h now d = inr (u, d') -> only_checkpoints d d'.
Proof.
  unfold insert_checkpoint. destruct (jsonb_arg _) as [|pl]; [done|]. intros [= _ <-].
  eexists. split_and!; [done| |].
  - apply insert_subseteq. apply eq_None_not_Some. intros Hr.
    apply elem_of_event_seqs, (coalesce_sql_max_ge _ _ 0) in Hr. lia.
  - intros k r [[<- <-]|[_ Hk]]%lookup_insert_Some Hn; [done|congruence].
Qed.

Lemma wp_createCheckpoints signer env w :
  wp (createCheckpoints signer) (fun _ w' => only_checkpoints (w_db w) (w_db w')) env w.
Proof.
  unfold createCheckpoints. apply wp_bind, wp_mwrap, wp_db_query; [|intros e w' Hw _; cbn; by rewrite Hw].
  intros now rows w' _ <- _. cbn [wrap]. clear now w. revert w'.
  induction rows as [|[tenant h] rows IH]; intros w; [by apply wp_ret|]. cbn [checkpoint_rows].
  apply wp_bind. unfold create_checkpoint. apply wp_bind, wp_time_Now. intros t w1 <- _.
  apply wp_bind, wp_lift. destruct (wrap _ _ _) as [[sig kid]| |]; try done.
  apply wp_mwrap. unfold exportCheckpoint. apply wp_bind, wp_lift. destruct (json_checkpoint _); cbn [wrap]; try done.
  apply wp_db_exec.
  - intros nw u d' w2 Hst <- _. cbn [wrap]. eapply wp_mono; [apply IH|]. intros r w3 H3.
    etrans; [by eapply insert_checkpoint_only|done].
  - intros nw u d' e w2 Hst <- _. by eapply insert_checkpoint_only.
  - intros e w2 Hw _. cbn. by rewrite Hw.
Qed.

(** Checkpointing only appends: however many ticks the loop serves before it is
    stopped, under any faults, no table but the audit events changes, no audit row
    is changed or lost, and every row that appears is a checkpoint. *)
Theorem checkpoints_only_append cm selected env d :
  only_checkpoints d (run (checkpoint_loop cm selected) env d).2.
Proof.
  apply (wp_run (checkpoint_loop cm selected) (fun _ => only_checkpoints d)).
  change d with (w_db (new_world d)) at 1. generalize (new_world d) as w. intros w.
  induction selected as [|[] rest IH] in w |- *; [by apply wp_ret..|]. cbn [checkpoint_loop].
  apply wp_bind, wp_ignore. eapply wp_mono; [apply wp_createCheckpoints|].
  intros r w' H'. destruct r; [..|done]; (eapply wp_mono; [apply IH|]; intros r2 w2 H2; by etrans).
Qed.

End Props.

(** ** Witnesses *)

Definition sample_event (typ : string) : AuditEvent :=
  mkAuditEvent tenant1 typ "service" None (Some user1) None None None None None None None None None
    (uuid_of_Z 90) (Some (str_bytes "{}")) [].

Definition audit_tx : World := mkWorld sample_db (Some (mkTxn sample_db false sample_now)) 1 0 0 0.

Lemma audit_event_appended_witness :
  exists w' d', InsertTx (sample_event "KEY_ROTATED") (sample_env 7000) audit_tx = (Ok 1, w') /\
    in_tx sample_db sample_now d' false w' /\ appended (sample_event "KEY_ROTATED") sample_now 1 sample_db d'.
Proof.
  destruct (InsertTx (sample_event "KEY_ROTATED") (sample_env 7000) audit_tx) as [r w'] eqn:E.
  assert (r = Ok 1) as -> by (apply (f_equal fst) in E; vm_compute in E; symmetry; exact E).
  destruct (audit_event_appended _ _ audit_tx sample_db sample_now sample_db _ _ (conj eq_refl eq_refl) E)
    as (d' & H1 & H2).
  exists w', d'. split; [reflexivity|]. split; assumption.
Defined.

(** A chain of one event is accepted. *)
Definition one_event_db : Db :=
  match InsertTx (sample_event "KEY_ROTATED") (sample_env 7000) audit_tx with
  | (_, w') => match w_tx w' with Some t => t_db t | None => sample_db end
  end.

Lemma verify_chain_sound_witness :
  (run (VerifyChain tenant1 1 1) (sample_env 7100) one_event_db).1 = Ok true /\
  exists a p, db_events one_event_db !! (tenant1, 1) = Some a /\ a_payload a = Some p /\
    a_row_hash a = computeRowHash tenant1 1 (a_event_type a) (a_producer a) (Some p).
Proof.
  assert (Hv : (run (VerifyChain tenant1 1 1) (sample_env 7100) one_event_db).1 = Ok true)
    by (vm_compute; reflexivity).
  split; [exact Hv|].
  destruct (is_some_eq (db_events one_event_db !! (tenant1, 1))) as [a Ha]; [vm_compute; reflexivity|].
  destruct (verify_chain_sound _ _ _ _ _ _ Hv) as (_ & Hr & _).
  destruct (Hr 1 a ltac:(split; reflexivity) Ha) as (p & Hp & Hh). exists a, p. repeat split; assumption.
Defined.

Definition erased_db : Db :=
  set_events ((fun a => mkAudit (a_event_type a) (a_producer a) (a_payload a) no_detail (a_prev_hash a)
                          (a_row_hash a)) <$> db_events one_event_db) one_event_db.

Lemma verify_chain_ignores_details_witness :
  (run (VerifyChain tenant1 1 1) (sample_env 7100) erased_db).1 = Ok true /\
  (a_user ∘ a_detail <$> db_events one_event_db !! (tenant1, 1)) <>
  (a_user ∘ a_detail <$> db_events erased_db !! (tenant1, 1)).
Proof.
  split.
  - rewrite (verify_chain_ignores_details (sample_env 7100) one_event_db erased_db (fun _ => no_detail)
      tenant1 1 1 eq_refl). vm_compute. reflexivity.
  - vm_compute. discriminate.
Defined.

(** Two events in two transactions: the second transaction is opened on the committed
    tables of the first. *)
Definition audit_tx2 : World :=
  mkWorld one_event_db (Some (mkTxn one_event_db false (sample_now + Second))) 1 0 0 0.

Lemma writer_and_verifier_disagree_witness :
  exists w2 d2, InsertTx (sample_event "NODE_REVOKED") (sample_env 7000) audit_tx2 = (Ok 2, w2) /\
    in_tx one_event_db (sample_now + Second) d2 false w2 /\
    (run (VerifyChain tenant1 1 2) (sample_env 7100) d2).1 <> Ok true.
Proof.
  destruct (InsertTx (sample_event "KEY_ROTATED") (sample_env 7000) audit_tx) as [r1 w1] eqn:E1.
  destruct (InsertTx (sample_event "NODE_REVOKED") (sample_env 7000) audit_tx2) as [r2 w2] eqn:E2.
  assert (r1 = Ok 1) as -> by (apply (f_equal fst) in E1; vm_compute in E1; symmetry; exact E1).
  assert (r2 = Ok 2) as -> by (apply (f_equal fst) in E2; vm_compute in E2; symmetry; exact E2).
  destruct (InsertTx_appended _ _ audit_tx sample_db sample_now sample_db _ _ (conj eq_refl eq_refl) E1)
    as (d1 & Hi1 & _).
  destruct (InsertTx_appended _ _ audit_tx2 one_event_db (sample_now + Second) one_event_db _ _
    (conj eq_refl eq_refl) E2) as (d2 & Hi2 & _).
  assert (Ed : one_event_db = d1) by (unfold one_event_db; rewrite E1, (proj2 Hi1); reflexivity).
  exists w2, d2. split; [reflexivity|]. split; [exact Hi2|]. intros Hv.
  destruct (writer_and_verifier_disagree (sample_event "KEY_ROTATED") (sample_env 7000) audit_tx sample_db
    sample_now sample_db 1 w1 d1 (sample_event "NODE_REVOKED") (sample_env 7000) audit_tx2 one_event_db
    (sample_now + Second) one_event_db 2 w2 d2 (sample_env 7100) 1 2 (str_bytes "{}") (conj eq_refl eq_refl) E1
    Hi1) as (_ & _ & Hc).
  - rewrite Ed. reflexivity.
  - rewrite Ed. reflexivity.
  - split; reflexivity.
  - reflexivity.
  - exact E2.
  - exact Hi2.
  - vm_compute. reflexivity.
  - vm_compute. reflexivity.
  - discriminate.
  - vm_compute. reflexivity.
  - reflexivity.
  - reflexivity.
  - exact Hv.
  - vm_compute in Hc. discriminate Hc.
Defined.

Definition sample_checkpoint : Checkpoint := mkCheckpoint tenant1 1 0 [x00] sample_now [] "kid".
Definition checkpoint_db : Db := (run (exportCheckpoint sample_checkpoint) (sample_env 7200) sample_db).2.
Definition checkpoint_tx : World :=
  mkWorld checkpoint_db (Some (mkTxn checkpoint_db false sample_now)) 1 0 0 0.

Lemma checkpoint_blocks_audit_witness :
  InsertTx (sample_event "KEY_ROTATED") (sample_env 7300) checkpoint_tx <>
  (Ok 1, checkpoint_tx).
Proof.
  apply (checkpoint_blocks_audit sample_checkpoint (sample_env 7200) sample_db checkpoint_db
    (sample_event "KEY_ROTATED") (sample_env 7300) checkpoint_tx checkpoint_db sample_now).
  - intros t s. cbn. rewrite lookup_empty. split; [intros [? H]; discriminate H|].
    intros (h & [<- <-]%lookup_singleton_Some & H1 & H2). cbn in H2. lia.
  - intros t h Hh. cbn in Hh. apply lookup_singleton_Some in Hh as [<- <-]. reflexivity.
  - eexists. reflexivity.
  - reflexivity.
  - unfold checkpoint_db. destruct (run (exportCheckpoint sample_checkpoint) (sample_env 7200) sample_db)
      as [r d'] eqn:E. apply (f_equal fst) in E. vm_compute in E. cbn in E. rewrite <- E. reflexivity.
  - split; reflexivity.
Defined.
