(* ===== verification/GrantCache.v ===== *)
(** * GrantCache: the daemon's grant cache

    [daemon/internal/grants/cache.go]: verified tokens by binding key, atomic
    consumption, purging, and the encrypted files that survive a restart.  The
    state is the cache and the two files; every operation returns both.  The map
    holds pointers in Go; an entry is reachable under its own key only, so the
    model stores the entries by value and [Consume] writes the entry back. *)

From stdpp Require Import base gmap strings list fin_maps pretty.
From Stdlib Require Import ZArith Lia Strings.Byte.
From S2P Require Import Prelude Identity Cose Envelope KeyManager.

Open Scope Z_scope.
Open Scope go_scope.

(** ** Entries *)

Record CacheEntry : Type := mkCacheEntry {
  ce_JTI : UUID;
  ce_AGTBytes : bytes;
  ce_Payload : option AGTPayload;
  ce_Consumed : bool;
  ce_ConsumedAt : option Time;
  ce_CachedAt : Time;
  ce_ExpiresAt : Time
}.

Definition mark_consumed (now : Time) (e : CacheEntry) : CacheEntry :=
  mkCacheEntry (ce_JTI e) (ce_AGTBytes e) (ce_Payload e) true (Some now) (ce_CachedAt e) (ce_ExpiresAt e).

(** [bindingIDFromPayload] *)
Definition bindingIDFromPayload (p : AGTPayload) : string :=
  if agt_Scope p == ScopeRequest then
    match bind_HTTPRequest (agt_Binding p) with Some b => hex (hrb_RequestNonce b) | None => "duration" end
  else if agt_Scope p == ScopeConnection then
    match bind_Connection (agt_Binding p) with Some b => hex (cb_ConnectionID b) | None => "duration" end
  else if agt_Scope p == ScopeSession then
    match bind_Session (agt_Binding p) with Some b => hex (sb_SessionID b) | None => "duration" end
  else "duration".

(** [CacheEntry.Key] *)
Definition payload_key `{UuidText} (p : AGTPayload) : string :=
  (uuid_String (agt_TenantID p) +:+ "/" +:+ oidc_UserID (agt_Subject p) +:+ "/" +:+
   agt_SrcNodeID p +:+ "/" +:+ agt_ProtectedNodeID p +:+ "/" +:+ res_ServiceID (agt_Resource p) +:+ "/" +:+
   agt_Protocol p +:+ "/" +:+ agt_Scope p +:+ "/" +:+ pretty (agt_PolicyVersion p) +:+ "/" +:+
   bindingIDFromPayload p)%string.
Definition Key `{UuidText} (e : CacheEntry) : string :=
  match ce_Payload e with None => "" | Some p => payload_key p end.

(** ** Storage *)

(** The files of [persistentStorage]: [path], [path].consumed and [path].key. *)
Record Disk : Type := mkDisk {
  dk_grants : option bytes;
  dk_consumed : option bytes;
  dk_key : option bytes
}.

(** How the operating system answers one operation: the random bytes, whether
    opening or writing the temporary or key file works, how much of an append is
    written ([None]: all of it), whether the rename and the sync work, and
    whether reading a file fails with anything but "does not exist". *)
Record Os : Type := mkOs {
  os_rand : option bytes;
  os_open : bool;
  os_write : bool;
  os_append : option nat;
  os_rename : bool;
  os_sync : bool;
  os_read : bool
}.

Definition ErrOs : error := Errorf "operating system error" [].

Section Cache.
Context `{UT : UuidText} `{CI : CborInit} `{GC : GoCrypto}.
Context `{CH : Cbor Headers} `{CS : Cbor sigStructure} `{CM : Cbor Sign1Message} `{CA : Cbor AGTPayload}.
Context `{CE : Cbor CacheEntry} `{AE : Aead}.

(** [persistentStorage.encrypt] and [decrypt] *)
Definition encrypt (os : Os) (key plaintext : bytes) : outcome bytes :=
  NewCipher key ;;
  nonce ← (match os_rand os with Some n => Ok n | None => Err ErrOs end);
  Ok (nonce ++ aead_seal key nonce plaintext []).

Definition decrypt (key ciphertext : bytes) : outcome bytes :=
  NewCipher key ;;
  if (length ciphertext <? 12)%nat then Err (Errorf "grants: ciphertext too short" []) else
  match aead_open key (take 12 ciphertext) (drop 12 ciphertext) [] with
  | Some pt => Ok pt
  | None => Err (Errorf "cipher: message authentication failed" [])
  end.

(** [loadOrCreateKey]: a key file of the wrong length is overwritten. *)
Definition loadOrCreateKey (os : Os) (dk : Disk) : outcome bytes * Disk :=
  let create := match os_rand os with
    | None => (Err (Wrapf "generate key: %w" [] ErrOs), dk)
    | Some key => if os_write os then (Ok key, mkDisk (dk_grants dk) (dk_consumed dk) (Some key))
                  else (Err (Wrapf "write key file: %w" [] ErrOs), dk)
    end in
  if negb (os_read os) then (Err (Wrapf "read key file: %w" [] ErrOs), dk) else
  match dk_key dk with
  | Some data => if (length data =? 32)%nat then (Ok data, dk) else create
  | None => create
  end.

(** [newPersistentStorage]: the key of the storage at [path]. *)
Definition newPersistentStorage (os : Os) (dk : Disk) : outcome bytes * Disk :=
  let '(r, dk') := loadOrCreateKey os dk in (wrap "grants: storage key: %w" [] r, dk').

(** [persistentStorage.persistGrant]: an entry that does not encode is written
    as an encryption of nothing. *)
Definition persistGrant (os : Os) (key : bytes) (entry : CacheEntry) (dk : Disk) : outcome unit * Disk :=
  let plaintext := match EncodeCanonical entry with Ok b => b | _ => [] end in
  match encrypt os key plaintext with
  | Ok ciphertext =>
      if negb (os_write os) then (Err (Wrapf "grants: write temp: %w" [] ErrOs), dk) else
      if negb (os_rename os) then (Err (Wrapf "grants: atomic rename: %w" [] ErrOs), dk) else
      (Ok tt, mkDisk (Some ciphertext) (dk_consumed dk) (dk_key dk))
  | Err e => (Err e, dk)
  | Panic => (Panic, dk)
  end.

(** [int64ToBytes]: [binary.BigEndian.PutUint64] of the bits. *)
Definition int64ToBytes (i : Z) : bytes := be_bytes 8 i.

(** [persistentStorage.persistConsumed]: the error of [encrypt] is dropped, and
    then nothing is appended. *)
Definition consumed_record (jti : UUID) (at_ : Time) : bytes := uuid_bytes jti ++ int64ToBytes at_.
Definition persistConsumed (os : Os) (key : bytes) (jti : UUID) (consumedAt : Time) (dk : Disk)
    : outcome unit * Disk :=
  if negb (os_open os) then (Err ErrOs, dk) else
  let encrypted := match encrypt os key (consumed_record jti consumedAt) with Ok b => b | _ => [] end in
  let append b := mkDisk (dk_grants dk) (Some (default [] (dk_consumed dk) ++ b)) (dk_key dk) in
  match os_append os with
  | Some n => (Err ErrOs, append (take n encrypted))
  | None => (if os_sync os then Ok tt else Err ErrOs, append encrypted)
  end.

(** The loop of [loadConsumed]: 24-byte records. *)
Fixpoint read_records (fuel : nat) (plaintext : bytes) (consumed : gmap UUID Time) : gmap UUID Time :=
  match fuel with
  | O => consumed
  | S fuel' =>
      if (length plaintext <? 24)%nat then consumed else
      read_records fuel' (drop 24 plaintext)
        (match uuid_from (take 16 plaintext) with
         | Some jti => <[jti := wrap64 (be_Z (take 8 (drop 16 plaintext)))]> consumed
         | None => consumed
         end)
  end.

(** [persistentStorage.loadConsumed] *)
Definition loadConsumed (os : Os) (key : bytes) (dk : Disk) (consumed : gmap UUID Time)
    : outcome (gmap UUID Time) :=
  if negb (os_read os) then Err ErrOs else
  match dk_consumed dk with
  | None => Ok consumed
  | Some data =>
      plaintext ← decrypt key data;
      Ok (read_records (length plaintext) plaintext consumed)
  end.

(** [persistentStorage.loadGrants] *)
Definition loadGrants (os : Os) (now : Time) (key : bytes) (dk : Disk) (entries : gmap string CacheEntry)
    : outcome (gmap string CacheEntry) :=
  if negb (os_read os) then Err ErrOs else
  match dk_grants dk with
  | None => Ok entries
  | Some data =>
      plaintext ← wrap "grants: decrypt persisted grants: %w" [] (decrypt key data);
      entry ← wrap "grants: decode persisted grant: %w" [] (DecodeCanonical plaintext);
      match ce_Payload entry with
      | None => Ok entries
      | Some p =>
          if agt_Scope p == ScopeSession then Ok entries else
          if negb (time_Before now (ce_ExpiresAt entry)) then Ok entries else
          if Key entry == "" then Ok entries else Ok (<[Key entry := entry]> entries)
      end
  end.

(** ** The cache *)

Record Cache : Type := mkCache {
  ca_entries : gmap string CacheEntry;
  ca_consumedJTIs : gmap UUID Time;
  ca_key : bytes;
  ca_trustRoot : bytes;
  ca_remoteConsume : option (UUID -> outcome bool)
}.

Definition set_entries (m : gmap string CacheEntry) (c : Cache) : Cache :=
  mkCache m (ca_consumedJTIs c) (ca_key c) (ca_trustRoot c) (ca_remoteConsume c).

(** [NewCache] *)
Definition NewCache (os : Os) (now : Time) (trustRoot : bytes) (dk : Disk) : outcome Cache * Disk :=
  let '(r, dk') := newPersistentStorage os dk in
  (key ← wrap "grants: create storage: %w" [] r;
   consumed ← wrap "grants: load consumed: %w" [] (loadConsumed os key dk' ∅);
   entries ← wrap "grants: load grants: %w" [] (loadGrants os now key dk' ∅);
   Ok (mkCache entries consumed key trustRoot None), dk').

(** [Cache.Store] *)
Definition Store (os : Os) (entry : CacheEntry) (c : Cache) (dk : Disk) : outcome unit * Cache * Disk :=
  match ce_Payload entry with
  | None => (Panic, c, dk)
  | Some p =>
      let c' := set_entries (<[Key entry := entry]> (ca_entries c)) c in
      if agt_Scope p == ScopeSession then (Ok tt, c', dk) else
      let '(r, dk') := persistGrant os (ca_key c) entry dk in (r, c', dk')
  end.

(** [VerifyAndStore] *)
Definition VerifyAndStore (now cachedAt : Time) (rawAGT trustRoot : bytes) (epoch version : Z)
    (sensitivity : Sensitivity) : outcome CacheEntry :=
  agt ← wrap "grants: agt verification failed: %w" []
    (VerifyAccessGrantToken now rawAGT trustRoot epoch version sensitivity);
  let p := at_Payload agt in
  Ok (mkCacheEntry (agt_JTI p) rawAGT (Some p) false None cachedAt (agt_ExpiresAt p)).

(** [Cache.SetRemoteConsume] *)
Definition SetRemoteConsume (fn : option (UUID -> outcome bool)) (c : Cache) : Cache :=
  mkCache (ca_entries c) (ca_consumedJTIs c) (ca_key c) (ca_trustRoot c) fn.

(** [Cache.StoreVerified] *)
Definition StoreVerified (os : Os) (now cachedAt : Time) (rawAGT : bytes) (epoch version : Z)
    (sensitivity : Sensitivity) (c : Cache) (dk : Disk) : outcome unit * Cache * Disk :=
  match VerifyAndStore now cachedAt rawAGT (ca_trustRoot c) epoch version sensitivity with
  | Ok entry => Store os entry c dk
  | Err e => (Err e, c, dk)
  | Panic => (Panic, c, dk)
  end.

(** [Cache.Check] *)
Definition cache_Check (now : Time) (key : string) (c : Cache) : option CacheEntry :=
  match ca_entries c !! key with
  | None => None
  | Some entry =>
      if time_After now (ce_ExpiresAt entry) then None else
      if ce_Consumed entry then None else
      match ca_consumedJTIs c !! ce_JTI entry with Some _ => None | None => Some entry end
  end.

(** The remote consumption at the start of [Consume]. *)
Definition remote_consume (c : Cache) (jti : UUID) : outcome unit :=
  match ca_remoteConsume c with
  | None => Ok tt
  | Some fn => match fn jti with
               | Ok true => Ok tt
               | Ok false => Err (Errorf "grants: remote consume failed: %w" [])
               | Err e => Err (Wrapf "grants: remote consume failed: %w" [] e)
               | Panic => Panic
               end
  end.

(** [Cache.Consume] *)
Definition Consume (os : Os) (now : Time) (key : string) (jti : UUID) (c : Cache) (dk : Disk)
    : outcome CacheEntry * Cache * Disk :=
  match ca_entries c !! key with
  | None => (Err (Errorf "grants: grant not found in cache" []), c, dk)
  | Some entry =>
      match remote_consume c jti with
      | Err e => (Err e, c, dk)
      | Panic => (Panic, c, dk)
      | Ok _ =>
          match ca_consumedJTIs c !! jti with
          | Some _ => (Err (Errorf "grants: grant already consumed (persisted state)" []), c, dk)
          | None =>
              if ce_Consumed entry then (Err (Errorf "grants: grant already consumed" []), c, dk) else
              if ce_JTI entry != jti then (Err (Errorf "grants: jti mismatch" []), c, dk) else
              if time_After now (ce_ExpiresAt entry)
              then (Err (Errorf "grants: grant expired" []), c, dk) else
              let entry' := mark_consumed now entry in
              let c' := mkCache (<[key := entry']> (ca_entries c))
                          (<[ce_JTI entry := now]> (ca_consumedJTIs c)) (ca_key c) (ca_trustRoot c)
                          (ca_remoteConsume c) in
              match ce_Payload entry with
              | None => (Panic, c', dk)
              | Some p =>
                  if agt_Scope p == ScopeSession then (Ok entry', c', dk) else
                  let '(r, dk') := persistConsumed os (ca_key c) (ce_JTI entry) now dk in
                  (wrap "grants: persist consumed: %w" [] r ;; Ok entry', c', dk')
              end
          end
      end
  end.

(** ** Purging *)

Record PurgeFilter : Type := mkPurgeFilter {
  pf_UserID : option UUID;
  pf_SrcNodeID : option string;
  pf_ProtectedNodeID : option string;
  pf_DeviceID : option UUID;
  pf_PolicyVersionBefore : option Z;
  pf_AuthzEpochBefore : option Z
}.

(** [f != nil && !ok(f)] *)
Definition unless {A} (f : option A) (ok : A -> bool) : bool := match f with Some a => negb (ok a) | None => false end.

(** [PurgeFilter.Matches]; an unparsable user id is compared as the nil UUID. *)
Definition Matches (f : PurgeFilter) (p : AGTPayload) : bool :=
  if unless (pf_UserID f) (fun u => default (uuid_of_Z 0) (uuid_Parse (oidc_UserID (agt_Subject p))) == u)
  then false else
  if unless (pf_SrcNodeID f) (fun s => agt_SrcNodeID p == s) then false else
  if unless (pf_ProtectedNodeID f) (fun s => agt_ProtectedNodeID p == s) then false else
  if unless (pf_DeviceID f) (fun u => agt_ApproverDeviceID p == u) then false else
  if unless (pf_PolicyVersionBefore f) (fun v => agt_PolicyVersion p <? v) then false else
  if unless (pf_AuthzEpochBefore f) (fun v => agt_AuthzEpoch p <? v) then false else
  true.

Definition entry_matches (f : PurgeFilter) (e : CacheEntry) : bool :=
  match ce_Payload e with Some p => Matches f p | None => false end.

(** [Cache.Purge]; the entries all have payloads ([cache_ok] in [GrantCacheProps]). *)
Definition Purge (f : PurgeFilter) (c : Cache) : Z * Cache :=
  (Z.of_nat (size (filter (fun ke => entry_matches f ke.2 = true) (ca_entries c))),
   set_entries (filter (fun ke => entry_matches f ke.2 = false) (ca_entries c)) c).

End Cache.
