(* ===== verification/GrantCacheProps.v ===== *)
(** * GrantCacheProps: what the daemon's cache guarantees

    Single use across any sequence of cache operations, what a successful
    consumption implies, exactness of purging, what survives a restart and what
    does not. *)

From stdpp Require Import base gmap strings list fin_maps pretty.
From Stdlib Require Import ZArith Lia Strings.Byte.
From S2P Require Import Prelude Identity Cose Envelope Reference Database Schema KeyManager GrantCache.
From S2P Require Import Sample.

Open Scope Z_scope.
Open Scope go_scope.

Section Props.
Context `{UT : UuidText} `{CI : CborInit} `{GC : GoCrypto}.
Context `{CH : Cbor Headers} `{CS : Cbor sigStructure} `{CM : Cbor Sign1Message} `{CA : Cbor AGTPayload}.
Context `{CE : Cbor CacheEntry} `{AE : Aead}.

(** ** The cache as a transition system *)

Inductive cache_step : Cache * Disk -> Cache * Disk -> Prop :=
| cache_store os entry c dk : cache_step (c, dk) ((Store os entry c dk).1.2, (Store os entry c dk).2)
| cache_store_verified os now cachedAt raw epoch version sens c dk :
    cache_step (c, dk) ((StoreVerified os now cachedAt raw epoch version sens c dk).1.2,
                        (StoreVerified os now cachedAt raw epoch version sens c dk).2)
| cache_consume os now key jti c dk :
    cache_step (c, dk) ((Consume os now key jti c dk).1.2, (Consume os now key jti c dk).2)
| cache_purge f c dk : cache_step (c, dk) ((Purge f c).2, dk)
| cache_remote fn c dk : cache_step (c, dk) (SetRemoteConsume fn c, dk).

(** Every entry has a payload, so neither [Purge] nor [Consume] dereferences nil. *)
Definition cache_ok (c : Cache) : Prop :=
  forall k e, ca_entries c !! k = Some e -> is_Some (ce_Payload e).

(** ** Consumption *)

(** The result of [Consume], by its branches. *)
Lemma Consume_cases os now key jti c dk :
  let '(r, c', dk') := Consume os now key jti c dk in
  (c' = c /\ dk' = dk /\ forall e, r <> Ok e) \/
  exists entry, ca_entries c !! key = Some entry /\ remote_consume c jti = Ok tt /\
    ca_consumedJTIs c !! jti = None /\ ce_Consumed entry = false /\ ce_JTI entry = jti /\
    now <= ce_ExpiresAt entry /\
    c' = mkCache (<[key := mark_consumed now entry]> (ca_entries c)) (<[jti := now]> (ca_consumedJTIs c))
           (ca_key c) (ca_trustRoot c) (ca_remoteConsume c) /\
    (forall e, r = Ok e -> e = mark_consumed now entry) /\
    match ce_Payload entry with
    | None => dk' = dk /\ r = Panic
    | Some p => if agt_Scope p == ScopeSession then dk' = dk /\ r = Ok (mark_consumed now entry)
                else dk' = (persistConsumed os (ca_key c) jti now dk).2 /\
                     r = (wrap "grants: persist consumed: %w" [] (persistConsumed os (ca_key c) jti now dk).1 ;;
                          Ok (mark_consumed now entry))
    end.
Proof.
  unfold Consume. destruct (ca_entries c !! key) as [entry|] eqn:Ee; [|by left].
  destruct (remote_consume c jti) as [[]|e|] eqn:Er; [|by left..].
  destruct (ca_consumedJTIs c !! jti) eqn:Ej; [by left|].
  destruct (ce_Consumed entry) eqn:Ec; [by left|].
  destruct (ce_JTI entry != jti) eqn:Em; [by left|]. rewrite neqb_false in Em.
  destruct (time_After now (ce_ExpiresAt entry)) eqn:Ex; [by left|].
  assert (Hx : now <= ce_ExpiresAt entry) by (unfold time_After in Ex; go_bool; lia).
  rewrite Em. destruct (ce_Payload entry) as [p|] eqn:Ep.
  - destruct (agt_Scope p == ScopeSession) eqn:Es.
    + right. exists entry. rewrite Ep, Es. split_and!; try done. by intros e [= <-].
    + destruct (persistConsumed os (ca_key c) jti now dk) as [r dk'].
      right. exists entry. rewrite Ep, Es. split_and!; try done.
      intros e. destruct r; cbn; [|done..]. by intros [= <-].
  - right. exists entry. rewrite Ep. by split_and!.
Qed.

(** What a successful consumption means: the grant was in the cache under
    the key, unconsumed, with this id, not expired; the remote service agreed, if
    one is configured; and afterwards the entry and the id are marked consumed. *)
Theorem consume_sound os now key jti c dk e c' dk' :
  Consume os now key jti c dk = (Ok e, c', dk') ->
  exists entry, ca_entries c !! key = Some entry /\ ce_JTI entry = jti /\ ce_Consumed entry = false /\
    ca_consumedJTIs c !! jti = None /\ now <= ce_ExpiresAt entry /\
    (forall fn, ca_remoteConsume c = Some fn -> fn jti = Ok true) /\
    e = mark_consumed now entry /\ ca_entries c' !! key = Some e /\ ca_consumedJTIs c' !! jti = Some now.
Proof.
  intros Hc. pose proof (Consume_cases os now key jti c dk) as H. rewrite Hc in H.
  destruct H as [(_ & _ & H)|(entry & He & Hr & Hj & Hu & Hm & Hx & -> & Hres & _)]; [by destruct (H e)|].
  specialize (Hres e eq_refl). subst e. exists entry. cbn. rewrite !lookup_insert_eq. split_and!; try done.
  intros fn Hfn. unfold remote_consume in Hr. rewrite Hfn in Hr. by destruct (fn jti) as [[]| |].
Qed.

Lemma Store_consumed os entry c dk :
  ca_consumedJTIs (Store os entry c dk).1.2 = ca_consumedJTIs c.
Proof.
  unfold Store. destruct (ce_Payload entry) as [p|]; [|done]. destruct (_ == _); [done|].
  by destruct (persistGrant os (ca_key c) entry dk).
Qed.

Lemma cache_step_consumed s s' :
  cache_step s s' -> forall jti, is_Some (ca_consumedJTIs s.1 !! jti) -> is_Some (ca_consumedJTIs s'.1 !! jti).
Proof.
  intros Hs jti Hj. destruct Hs as [os entry c dk|os now ca raw ep v sens c dk|os now key jti' c dk|f c dk|fn c dk];
    cbn in *; [by rewrite Store_consumed| | |done|done].
  - unfold StoreVerified. destruct (VerifyAndStore _ _ _ _ _ _ _); [by rewrite Store_consumed|done..].
  - pose proof (Consume_cases os now key jti' c dk) as H.
    destruct (Consume os now key jti' c dk) as [[r c'] dk'].
    destruct H as [(-> & _)|(entry & _ & _ & Hn & _ & _ & _ & -> & _)]; [done|]. cbn.
    destruct (decide (jti = jti')) as [->|Hne]; [by rewrite lookup_insert_eq|by rewrite lookup_insert_ne].
Qed.

Lemma cache_steps_consumed s s' :
  rtc cache_step s s' ->
  forall jti, is_Some (ca_consumedJTIs s.1 !! jti) -> is_Some (ca_consumedJTIs s'.1 !! jti).
Proof. intros Hs. induction Hs; [done|]. intros jti Hj. by apply IHHs, (cache_step_consumed _ _ H). Qed.

(** C5.  Single use in the daemon: once a consumption of a grant id has taken
    effect, even when it then failed to persist, no sequence of stores, purges,
    other consumptions or reconfigurations of the cache lets a consumption of that
    id, under any key, succeed again. *)
Theorem consume_once os now key jti c dk c1 dk1 r s2 :
  Consume os now key jti c dk = (r, c1, dk1) -> c1 <> c -> rtc cache_step (c1, dk1) s2 ->
  forall os' now' key' e, (Consume os' now' key' jti s2.1 s2.2).1.1 <> Ok e.
Proof.
  intros Hc Hne Hs os' now' key' e.
  assert (Hj : is_Some (ca_consumedJTIs c1 !! jti)).
  { pose proof (Consume_cases os now key jti c dk) as H. rewrite Hc in H.
    destruct H as [(-> & _)|(entry & _ & _ & _ & _ & _ & _ & -> & _)]; [done|]. cbn. by rewrite lookup_insert_eq. }
  assert (Hj2 : is_Some (ca_consumedJTIs s2.1 !! jti)) by (by eapply cache_steps_consumed in Hs).
  pose proof (Consume_cases os' now' key' jti s2.1 s2.2) as H.
  destruct (Consume os' now' key' jti s2.1 s2.2) as [[r' c'] dk']. cbn.
  destruct H as [(_ & _ & H)|(entry & _ & _ & Hn & _)]; [done|]. rewrite Hn in Hj2. by destruct Hj2.
Qed.

(** [Check] and [Consume] agree: without a remote service, [Check] finds a
    grant under a key exactly when consuming that grant's id under the key at the
    same time is not refused (that is, it takes effect). *)
Theorem check_agrees_with_consume os now key c dk e :
  cache_ok c -> ca_remoteConsume c = None -> ca_entries c !! key = Some e ->
  cache_Check now key c = Some e <-> ca_consumedJTIs (Consume os now key (ce_JTI e) c dk).1.2 !! ce_JTI e = Some now
    /\ ca_consumedJTIs c !! ce_JTI e = None.
Proof.
  intros Hok Hr He. unfold cache_Check, Consume, remote_consume. rewrite He, Hr. cbn [fst snd].
  destruct (Hok _ _ He) as [p Hp].
  destruct (ca_consumedJTIs c !! ce_JTI e) as [t|] eqn:Ej.
  { destruct (time_After _ _), (ce_Consumed e); naive_solver. }
  destruct (ce_Consumed e) eqn:Ec; cbn.
  { rewrite Ej. destruct (time_After _ _); naive_solver. }
  rewrite eqb_refl. cbn. destruct (time_After now (ce_ExpiresAt e)) eqn:Ex; cbn.
  { rewrite Ej. naive_solver. }
  rewrite Hp. split; [intros _|done]. destruct (agt_Scope p == ScopeSession); cbn; [by rewrite lookup_insert_eq|].
  destruct (persistConsumed _ _ _ _ _). cbn. by rewrite lookup_insert_eq.
Qed.

(** ** What enters the cache *)

(** Only verified tokens enter through [StoreVerified]: if it changes the
    cache, the raw token passed every check of [VerifyAccessGrantToken] under the
    cache's trust root, and what is stored, under the key of the token's payload, is
    that payload, unconsumed, with the token's id and expiry; all other entries
    stay. *)
Theorem store_verified_sound os now cachedAt raw epoch version sens c dk r c' dk' :
  StoreVerified os now cachedAt raw epoch version sens c dk = (r, c', dk') -> c' <> c ->
  exists t, VerifyAccessGrantToken now raw (ca_trustRoot c) epoch version sens = Ok t /\
    ca_consumedJTIs c' = ca_consumedJTIs c /\
    ca_entries c' = <[payload_key (at_Payload t) :=
      mkCacheEntry (agt_JTI (at_Payload t)) raw (Some (at_Payload t)) false None cachedAt
        (agt_ExpiresAt (at_Payload t))]> (ca_entries c).
Proof.
  intros Hs Hne. unfold StoreVerified, VerifyAndStore in Hs.
  destruct (VerifyAccessGrantToken now raw (ca_trustRoot c) epoch version sens) as [t| |]; cbn in Hs;
    [|by injection Hs as _ <- _..].
  exists t. split; [done|]. unfold Store in Hs. cbn in Hs.
  destruct (agt_Scope (at_Payload t) == ScopeSession); [by injection Hs as _ <- _|].
  destruct (persistGrant _ _ _ _). by injection Hs as _ <- _.
Qed.

(** SESSION grants stay in memory: storing or consuming one leaves the
    files alone, and no cache built from files at startup holds one. *)
Theorem session_never_persisted os now key jti root c dk e p :
  ce_Payload e = Some p -> agt_Scope p = ScopeSession ->
  (Store os e c dk).2 = dk /\
  (ca_entries c !! key = Some e -> (Consume os now key jti c dk).2 = dk) /\
  (forall c2, (NewCache os now root dk).1 = Ok c2 -> forall k, ca_entries c2 !! k <> Some e).
Proof.
  intros Hp Hs. split_and!.
  - unfold Store. rewrite Hp, Hs, eqb_refl. done.
  - intros He. pose proof (Consume_cases os now key jti c dk) as H.
    destruct (Consume os now key jti c dk) as [[r c'] dk'].
    destruct H as [(_ & -> & _)|(e' & He' & _ & _ & _ & _ & _ & _ & _ & H)]; [done|].
    rewrite He in He'. injection He' as <-. rewrite Hp, Hs, eqb_refl in H. by destruct H.
  - intros c2 Hn k Hk. unfold NewCache, newPersistentStorage in Hn. destruct (loadOrCreateKey os dk) as [r dk']. cbn in Hn.
    apply bind_Ok in Hn as (key' & _ & Hn). apply bind_Ok in Hn as (consumed & _ & Hn).
    apply bind_Ok in Hn as (entries & Hl & [= <-]). rewrite wrap_Ok in Hl. cbn in Hk. unfold loadGrants in Hl.
    destruct (negb (os_read os)); [done|]. destruct (dk_grants dk') as [data|]; [|by injection Hl as <-].
    apply bind_Ok in Hl as (pt & _ & Hl). apply bind_Ok in Hl as (en & _ & Hl).
    destruct (ce_Payload en) as [q|] eqn:Eq; [|by injection Hl as <-].
    destruct (agt_Scope q == ScopeSession) eqn:Es; [by injection Hl as <-|]. go_bool.
    destruct (negb _); [by injection Hl as <-|]. destruct (Key en == ""); [by injection Hl as <-|].
    injection Hl as <-. apply lookup_insert_Some in Hk as [[_ <-]|[_ Hk]]; [|by rewrite lookup_empty in Hk].
    rewrite Hp in Eq. by injection Eq as <-.
Qed.

(** Purging is exact: afterwards the cache holds precisely the entries the
    filter does not match, unchanged, the consumed ids are kept, and the number
    reported is the number removed. *)
Theorem purge_exact f c :
  let '(n, c') := Purge f c in
  (forall k e, ca_entries c' !! k = Some e <-> ca_entries c !! k = Some e /\ entry_matches f e = false) /\
  ca_consumedJTIs c' = ca_consumedJTIs c /\
  n = Z.of_nat (size (ca_entries c)) - Z.of_nat (size (ca_entries c')).
Proof.
  unfold Purge. cbn. split_and!; [|done|].
  - intros k e. by rewrite map_lookup_filter_Some.
  - assert (E : size (ca_entries c) = (size (filter (fun ke => entry_matches f ke.2 = true) (ca_entries c)) +
      size (filter (fun ke => entry_matches f ke.2 = false) (ca_entries c)))%nat); [|lia].
    rewrite <- map_size_disj_union.
    + f_equal. apply map_eq. intros k. apply option_eq. intros e.
      rewrite lookup_union_Some, !map_lookup_filter_Some.
      * cbn. destruct (entry_matches f e); naive_solver.
      * apply map_disjoint_spec. intros i x y. rewrite !map_lookup_filter_Some. cbn. naive_solver congruence.
    + apply map_disjoint_spec. intros i x y. rewrite !map_lookup_filter_Some. cbn. naive_solver congruence.
Qed.

(** ** Restarting *)

(** At most one grant survives a restart: whatever the files hold, a cache
    built from them has at most one entry (each [persistGrant] replaces the file). *)
Theorem restart_keeps_one_grant os now root dk c dk' :
  NewCache os now root dk = (Ok c, dk') -> (size (ca_entries c) <= 1)%nat.
Proof.
  intros Hn. unfold NewCache, newPersistentStorage in Hn. destruct (loadOrCreateKey os dk) as [r dk1]. injection Hn as Hn _.
  apply bind_Ok in Hn as (key' & _ & Hn). apply bind_Ok in Hn as (consumed & _ & Hn).
  apply bind_Ok in Hn as (entries & Hl & [= <-]). rewrite wrap_Ok in Hl. cbn. unfold loadGrants in Hl.
  assert (H0 : (size (∅ : gmap string CacheEntry) <= 1)%nat) by (rewrite map_size_empty; lia).
  destruct (negb (os_read os)); [done|]. destruct (dk_grants dk1) as [data|]; [|by injection Hl as <-].
  apply bind_Ok in Hl as (pt & _ & Hl). apply bind_Ok in Hl as (en & _ & Hl).
  destruct (ce_Payload en) as [q|]; [|by injection Hl as <-].
  destruct (agt_Scope q == ScopeSession); [by injection Hl as <-|].
  destruct (negb _); [by injection Hl as <-|]. destruct (Key en == ""); [by injection Hl as <-|].
  injection Hl as <-. rewrite map_size_insert_None by apply lookup_empty. rewrite map_size_empty. lia.
Qed.

(** Starting with a key file. *)
Lemma NewCache_inv os now root dk key c dk' :
  dk_key dk = Some key -> length key = 32%nat -> NewCache os now root dk = (Ok c, dk') ->
  os_read os = true /\ loadConsumed os key dk ∅ = Ok (ca_consumedJTIs c).
Proof.
  intros Hdk Hk Hn. unfold NewCache, newPersistentStorage, loadOrCreateKey in Hn. rewrite Hdk, Hk in Hn.
  destruct (os_read os) eqn:Er; cbn [negb] in Hn; [|done]. change (32 =? 32)%nat with true in Hn.
  apply (f_equal fst) in Hn. cbn [fst] in Hn. apply bind_Ok in Hn as (k & Hk' & Hn). injection Hk' as <-.
  apply bind_Ok in Hn as (m & Hm & Hn). apply bind_Ok in Hn as (en & _ & [= <-]).
  rewrite wrap_Ok in Hm. by split.
Qed.

Lemma decrypt_app key nonce ct pt :
  length key = 32%nat -> length nonce = 12%nat -> decrypt key (nonce ++ ct) = Ok pt ->
  aead_open key nonce ct [] = Some pt.
Proof.
  intros Hk Hn. unfold decrypt, NewCipher. rewrite Hk. cbn -[Nat.ltb take drop length app].
  rewrite (proj2 (Nat.ltb_ge _ _)) by (rewrite length_app; lia).
  rewrite take_app_length', drop_app_length' by done. destruct (aead_open _ _ _ _); [|done].
  by intros [= <-].
Qed.

(** What one consumption appends, when the random source and the file work. *)
Definition os_good (os : Os) (nonce : bytes) : Prop :=
  os_rand os = Some nonce /\ length nonce = 12%nat /\ os_open os = true /\ os_append os = None /\
  os_sync os = true /\ os_read os = true.

Definition sealed_record (key nonce : bytes) (jti : UUID) (at_ : Time) : bytes :=
  nonce ++ aead_seal key nonce (consumed_record jti at_) [].

Lemma persistConsumed_good os nonce key jti now dk :
  os_good os nonce -> length key = 32%nat ->
  persistConsumed os key jti now dk =
  (Ok tt, mkDisk (dk_grants dk) (Some (default [] (dk_consumed dk) ++ sealed_record key nonce jti now)) (dk_key dk)).
Proof.
  intros (Hr & _ & Ho & Ha & Hs & _) Hk. unfold persistConsumed, encrypt, NewCipher.
  rewrite Hr, Ho, Ha, Hs, Hk. done.
Qed.

Lemma length_consumed_record jti now : length (consumed_record jti now) = 24%nat.
Proof. unfold consumed_record, int64ToBytes. by rewrite length_app, length_uuid_bytes, length_be_bytes. Qed.

Lemma read_records_S n l m :
  read_records (S n) l m =
  if (length l <? 24)%nat then m else
  read_records n (drop 24 l) (match uuid_from (take 16 l) with
                              | Some jti => <[jti := wrap64 (be_Z (take 8 (drop 16 l)))]> m
                              | None => m
                              end).
Proof. done. Qed.

Lemma read_records_nil n m : read_records n [] m = m.
Proof. by destruct n. Qed.

Lemma read_one_record jti now :
  is_int64 now = true ->
  read_records (length (consumed_record jti now)) (consumed_record jti now) ∅ = {[jti := now]}.
Proof.
  intros Hn. rewrite length_consumed_record, read_records_S, length_consumed_record.
  change (24 <? 24)%nat with false. cbv iota.
  assert (E1 : take 16 (consumed_record jti now) = uuid_bytes jti).
  { unfold consumed_record. by rewrite take_app_length' by (by rewrite length_uuid_bytes). }
  assert (E2 : take 8 (drop 16 (consumed_record jti now)) = be_bytes 8 now).
  { unfold consumed_record, int64ToBytes. rewrite drop_app_length' by (by rewrite length_uuid_bytes).
    by rewrite take_ge by (rewrite length_be_bytes; lia). }
  assert (E3 : drop 24 (consumed_record jti now) = [])
    by (apply drop_ge; rewrite length_consumed_record; lia).
  by rewrite E1, E2, E3, uuid_from_bytes, be_bytes_int64, read_records_nil.
Qed.

(** One consumption survives a restart: when the first consumption of a
    persisted grant succeeds with a working file system, the consumed file reads
    back to exactly that id and time, so a cache built from the files refuses the id
    from then on. *)
Theorem restart_remembers_first_consumption os os' nonce now now' key root jti c dk e p c1 dk1 c2 dk2 :
  os_good os nonce -> is_int64 now = true -> length (ca_key c) = 32%nat ->
  dk_consumed dk = None -> dk_key dk = Some (ca_key c) ->
  ca_entries c !! key = Some e -> ce_Payload e = Some p -> agt_Scope p <> ScopeSession ->
  Consume os now key jti c dk = (Ok (mark_consumed now e), c1, dk1) ->
  NewCache os' now' root dk1 = (Ok c2, dk2) ->
  ca_consumedJTIs c2 = {[jti := now]} /\
  forall os3 now3 key3 e3, (Consume os3 now3 key3 jti c2 dk2).1.1 <> Ok e3.
Proof.
  intros Hos Hnow Hlen Hdc Hdk He Hp Hs Hc Hn.
  assert (Hdisk : dk1 = mkDisk (dk_grants dk) (Some (sealed_record (ca_key c) nonce jti now)) (dk_key dk)).
  { pose proof (Consume_cases os now key jti c dk) as H. rewrite Hc in H.
    destruct H as [(_ & _ & H)|(e' & He' & _ & _ & _ & _ & _ & _ & _ & H)]; [by destruct (H (mark_consumed now e))|].
    rewrite He in He'. injection He' as <-. rewrite Hp in H.
    rewrite (proj2 (eqb_false (agt_Scope p) ScopeSession) Hs) in H. destruct H as [-> _].
    rewrite (persistConsumed_good os nonce) by done. by rewrite Hdc. }
  assert (Hj : ca_consumedJTIs c2 = {[jti := now]}).
  { apply (NewCache_inv _ _ _ _ (ca_key c)) in Hn as [Er Hm]; [|by rewrite Hdisk|done].
    unfold loadConsumed in Hm. rewrite Hdisk in Hm.
    rewrite Er in Hm. cbn in Hm. apply bind_Ok in Hm as (pt & Hpt & Hm). injection Hm as <-.
    destruct Hos as (_ & Hnl & _). apply decrypt_app in Hpt; [|done..].
    rewrite aead_open_seal in Hpt by done. injection Hpt as <-.
    by apply read_one_record. }
  split; [done|]. intros os3 now3 key3 e3. pose proof (Consume_cases os3 now3 key3 jti c2 dk2) as H.
  destruct (Consume os3 now3 key3 jti c2 dk2) as [[r' c'] dk']. cbn.
  destruct H as [(_ & _ & H)|(entry & _ & _ & Hno & _)]; [done|].
  by rewrite Hj, lookup_singleton_eq in Hno.
Qed.

(** The second consumption breaks the file: records are sealed one by one
    but read back as a single ciphertext.  With a cipher that opens only what it
    sealed, and unless the sealed records happen to form one sealing, [NewCache]
    fails on the file of two or more consumptions: the daemon does not start. *)
Theorem restart_fails_after_second_consumption os now root dk key n1 j1 t1 n2 j2 t2 rest :
  (forall k n ct pt, aead_open k n ct [] = Some pt -> ct = aead_seal k n pt []) ->
  let two := aead_seal key n1 (consumed_record j1 t1) [] ++ sealed_record key n2 j2 t2 ++ rest in
  (forall pt, aead_seal key n1 pt [] <> two) ->
  length key = 32%nat -> length n1 = 12%nat ->
  dk_key dk = Some key -> dk_consumed dk = Some (n1 ++ two) ->
  forall c, (NewCache os now root dk).1 <> Ok c.
Proof.
  intros Hauth two Hforge Hk Hn1 Hdk Hdc c Hn.
  destruct (NewCache os now root dk) as [r dk'] eqn:E. cbn in Hn. subst r.
  apply (NewCache_inv _ _ _ _ key) in E as [Er Hm]; [|done..].
  unfold loadConsumed in Hm. rewrite Er, Hdc in Hm. cbn in Hm.
  apply bind_Ok in Hm as (pt & Hpt & _). apply decrypt_app in Hpt; [|done..].
  apply Hauth in Hpt. by apply (Hforge pt).
Qed.

(** Two working consumptions in a row leave such a file. *)
Lemma two_consumptions os1 os2 n1 n2 key j1 j2 t1 t2 dk :
  os_good os1 n1 -> os_good os2 n2 -> length key = 32%nat -> dk_consumed dk = None ->
  dk_consumed (persistConsumed os2 key j2 t2 (persistConsumed os1 key j1 t1 dk).2).2 =
  Some (n1 ++ aead_seal key n1 (consumed_record j1 t1) [] ++ sealed_record key n2 j2 t2 ++ []).
Proof.
  intros H1 H2 Hk Hd. rewrite (persistConsumed_good os1 n1), (persistConsumed_good os2 n2) by done. cbn.
  rewrite Hd. unfold sealed_record. cbn. by rewrite <- !app_assoc, app_nil_r.
Qed.

End Props.

(** ** Witnesses *)

(** A cipher whose tag is the length of the plaintext: enough for the laws. *)
Definition len_tag (p : bytes) : bytes := be_bytes 16 (Z.of_nat (length p)).
Definition tag_open (c : bytes) : option bytes :=
  let p := take (length c - 16) c in if c == p ++ len_tag p then Some p else None.
Lemma tag_open_seal p : tag_open (p ++ len_tag p) = Some p.
Proof.
  unfold tag_open. assert (E : take (length (p ++ len_tag p) - 16) (p ++ len_tag p) = p).
  { rewrite length_app. unfold len_tag at 1. rewrite length_be_bytes.
    replace (length p + 16 - 16)%nat with (length p) by lia. by rewrite take_app_length. }
  by rewrite E, eqb_refl.
Qed.
Definition tag_Aead : Aead := {|
  aead_seal k n p a := p ++ len_tag p;
  aead_open k n c a := tag_open c;
  aead_open_seal k n p a _ _ := tag_open_seal p
|}.
#[local] Existing Instance tag_Aead.

Lemma tag_authentic (k n ct pt : bytes) : aead_open k n ct [] = Some pt -> ct = aead_seal k n pt [].
Proof.
  cbn. unfold tag_open. set (q := take (length ct - 16) ct).
  destruct (ct == q ++ len_tag q) eqn:E; [|done]. go_bool. by intros [= <-].
Qed.

(** A codec for entries that is never asked to read. *)
Definition no_codec : Cbor CacheEntry :=
  {| marshal _ := Ok []; unmarshal _ := Err (Errorf "cbor: decode" []) |}.
#[local] Existing Instance no_codec.

Definition good_os (n : Z) : Os := mkOs (Some (be_bytes 12 n)) true true None true true true.
Definition daemon_key : bytes := be_bytes 32 77.
Definition entry1 : CacheEntry :=
  mkCacheEntry (agt_JTI sample_agt) [x01] (Some sample_agt) false None sample_now (agt_ExpiresAt sample_agt).
Definition cache1 : Cache :=
  mkCache {["k"%string := entry1]} ∅ daemon_key (sample_pub 40) (Some (fun _ => Ok true)).
Definition disk1 : Disk := mkDisk None None (Some daemon_key).
Definition jti1 : UUID := agt_JTI sample_agt.

Lemma consume_sound_witness :
  exists e c' dk', Consume (good_os 1) sample_now "k" jti1 cache1 disk1 = (Ok e, c', dk') /\
    ca_consumedJTIs c' !! jti1 = Some sample_now.
Proof.
  destruct (Consume (good_os 1) sample_now "k" jti1 cache1 disk1) as [[[e| |] c'] dk'] eqn:E;
    [|apply (f_equal (fun x => x.1.1)) in E; vm_compute in E; discriminate E..].
  destruct (consume_sound _ _ _ _ _ _ _ _ _ E) as (_ & _ & _ & _ & _ & _ & _ & _ & _ & H).
  exists e, c', dk'. split; [reflexivity|exact H].
Defined.

Lemma consume_once_witness :
  exists r c1 dk1, Consume (good_os 1) sample_now "k" jti1 cache1 disk1 = (r, c1, dk1) /\
    (Consume (good_os 2) sample_now "k" jti1 (Purge (mkPurgeFilter None None None None None None) c1).2 dk1).1.1
      <> Ok entry1.
Proof.
  destruct (Consume (good_os 1) sample_now "k" jti1 cache1 disk1) as [[r c1] dk1] eqn:E.
  exists r, c1, dk1. split; [reflexivity|].
  refine (consume_once _ _ _ _ _ _ _ _ _ ((Purge (mkPurgeFilter None None None None None None) c1).2, dk1)
            E _ _ _ _ _ _).
  - intros ->. apply (f_equal (fun x => is_some (ca_consumedJTIs x.1.2 !! jti1))) in E. vm_compute in E. discriminate E.
  - apply rtc_once. apply cache_purge.
Defined.

Definition local_cache : Cache := SetRemoteConsume None cache1.

Lemma check_agrees_with_consume_witness :
  cache_Check sample_now "k" local_cache = Some entry1 /\
  ca_consumedJTIs (Consume (good_os 1) sample_now "k" jti1 local_cache disk1).1.2 !! jti1 = Some sample_now.
Proof.
  assert (H : cache_Check sample_now "k" local_cache = Some entry1) by reflexivity.
  split; [exact H|].
  refine (proj1 (proj1 (check_agrees_with_consume (good_os 1) sample_now "k" local_cache disk1 entry1
    _ eq_refl eq_refl) H)).
  intros k e Hk. cbn in Hk. apply lookup_singleton_Some in Hk as [_ <-]. eexists. reflexivity.
Defined.

Definition session_agt : AGTPayload :=
  mkAGTPayload 2 (uuid_of_Z 101) (uuid_of_Z 1) "tailnet-a" (mkOIDCIdentity "idp" "sub" "u-1")
    "node-1" 3 (uuid_of_Z 5) "approval_auth" SecurityLevelStrongBox "node-7" sample_resource
    "SSH" ModeOpenSSH ScopeSession (mkScopeBinding None None None) 5 "rule-1" 3
    sample_now sample_now (sample_now + 30 * Second).
Definition session_entry : CacheEntry :=
  mkCacheEntry (uuid_of_Z 101) [x02] (Some session_agt) false None sample_now (agt_ExpiresAt session_agt).

Lemma session_never_persisted_witness :
  (Store (good_os 1) session_entry cache1 disk1).2 = disk1 /\
  (Store (good_os 1) entry1 cache1 disk1).2 <> disk1.
Proof.
  split.
  - exact (proj1 (session_never_persisted (good_os 1) sample_now "s" (uuid_of_Z 101) (sample_pub 40) cache1
      disk1 session_entry session_agt eq_refl eq_refl)).
  - vm_compute. discriminate.
Defined.

(** A token of the service, as the daemon receives it. *)
Definition raw_token : bytes :=
  match NewAccessGrantToken sample_now (sample_priv 40) "k1" sample_agt with
  | Ok t => match SerializeSign1 (at_Message t) with Ok b => b | _ => [] end
  | _ => []
  end.

Lemma store_verified_sound_witness :
  exists r c' dk' t, StoreVerified (good_os 1) (sample_now + Second) sample_now raw_token 3 5 SensitivityHigh cache1 disk1
      = (r, c', dk') /\
    VerifyAccessGrantToken (sample_now + Second) raw_token (sample_pub 40) 3 5 SensitivityHigh = Ok t.
Proof.
  destruct (StoreVerified (good_os 1) (sample_now + Second) sample_now raw_token 3 5 SensitivityHigh cache1 disk1)
    as [[r c'] dk'] eqn:E.
  destruct (store_verified_sound _ _ _ _ _ _ _ _ _ _ _ _ E) as (t & Ht & _).
  - intros ->. apply (f_equal (fun x => is_some (ca_entries x.1.2 !! payload_key (agt_norm sample_agt)))) in E.
    vm_compute in E. discriminate E.
  - exists r, c', dk', t. split; [reflexivity|exact Ht].
Defined.

Lemma restart_keeps_one_grant_witness :
  exists c dk', NewCache (good_os 1) sample_now (sample_pub 40) disk1 = (Ok c, dk') /\ (size (ca_entries c) <= 1)%nat.
Proof.
  destruct (NewCache (good_os 1) sample_now (sample_pub 40) disk1) as [[c| |] dk'] eqn:E;
    [|apply (f_equal fst) in E; vm_compute in E; discriminate E..].
  exists c, dk'. split; [reflexivity|]. exact (restart_keeps_one_grant _ _ _ _ _ _ E).
Defined.

Lemma restart_remembers_first_consumption_witness :
  exists c1 dk1 c2 dk2,
    Consume (good_os 1) sample_now "k" jti1 cache1 disk1 = (Ok (mark_consumed sample_now entry1), c1, dk1) /\
    NewCache (good_os 2) sample_now (sample_pub 40) dk1 = (Ok c2, dk2) /\
    ca_consumedJTIs c2 = {[jti1 := sample_now]}.
Proof.
  destruct (Consume (good_os 1) sample_now "k" jti1 cache1 disk1) as [[r c1] dk1] eqn:E.
  assert (r = Ok (mark_consumed sample_now entry1)) as ->
    by (apply (f_equal (fun x => x.1.1)) in E; symmetry; exact E).
  destruct (NewCache (good_os 2) sample_now (sample_pub 40) dk1) as [[c2| |] dk2] eqn:En;
    [|apply (f_equal snd) in E; cbn in E; rewrite <- E in En; apply (f_equal fst) in En; vm_compute in En;
      discriminate En..].
  exists c1, dk1, c2, dk2. split; [reflexivity|]. split; [exact En|].
  refine (proj1 (restart_remembers_first_consumption (good_os 1) (good_os 2) (be_bytes 12 1) sample_now sample_now
    "k" (sample_pub 40) jti1 cache1 disk1 entry1 sample_agt c1 dk1 c2 dk2 _ _ _ _ _ _ _ _ E En));
    try reflexivity.
  - repeat split.
  - vm_compute. discriminate.
Defined.

Definition disk2 : Disk :=
  (persistConsumed (good_os 2) daemon_key (uuid_of_Z 8) 20
     (persistConsumed (good_os 1) daemon_key (uuid_of_Z 7) 10 disk1).2).2.

Lemma restart_fails_after_second_consumption_witness :
  (NewCache (good_os 3) sample_now (sample_pub 40) disk2).1 <> Ok cache1.
Proof.
  apply (restart_fails_after_second_consumption (good_os 3) sample_now (sample_pub 40) disk2 daemon_key
    (be_bytes 12 1) (uuid_of_Z 7) 10 (be_bytes 12 2) (uuid_of_Z 8) 20 []).
  - exact tag_authentic.
  - intros pt E. cbn [aead_seal tag_Aead] in E.
    assert (Hl : length pt = 76%nat).
    { apply (f_equal length) in E. rewrite length_app in E. unfold len_tag at 1 in E.
      rewrite length_be_bytes in E. vm_compute (length (_ ++ _ ++ _)) in E. lia. }
    apply (f_equal (drop 76)) in E. rewrite drop_app_length' in E by (symmetry; exact Hl).
    unfold len_tag at 1 in E. rewrite Hl in E. vm_compute in E. discriminate E.
  - reflexivity.
  - reflexivity.
  - reflexivity.
  - apply (two_consumptions (good_os 1) (good_os 2)); repeat split.
Defined.
