(* ===== verification/Pipeline.v ===== *)
(** * Pipeline: from a grant the service signs to access at the daemon

    The key manager's grant adapter ([ServiceMain]), the token format ([Envelope])
    and the daemon's grant cache ([GrantCache]) composed: the service and the daemon
    share nothing but the signed bytes and the public key. *)

From stdpp Require Import base gmap strings list fin_maps sorting pretty.
From Stdlib Require Import ZArith Lia Strings.Byte.
From S2P Require Import Prelude Identity Cose Envelope Reference EnvelopeProps Database Schema Sample Messaging.
From S2P Require Import AuditChain Enforcement KeyManager KeyManagerProps ServiceMain Scenario.
From S2P Require Import GrantCache GrantCacheProps.

Open Scope Z_scope.
Open Scope go_scope.

Section Pipeline.
Context {S : Type} `{UT : UuidText} `{CI : CborInit} `{GC : GoCrypto}.
Context `{CH : Cbor Headers} `{CS : Cbor sigStructure} `{CM : Cbor Sign1Message}.
Context `{CB : Cbor ScopeBinding} `{CR : Cbor RequestPayload} `{CA : Cbor AGTPayload}.
Context `{CE : Cbor CacheEntry} `{AE : Aead}.
Context `{SG : Signer S} `{SL : !SignerLaws S} `{EL : !EnvelopeLaws}.

(** An entry as [StoreVerified] makes it, in the cache. *)
Record cached (t : AccessGrantToken) (e : CacheEntry) (c c' : Cache) : Prop := mkCached {
  cc_entry : ca_entries c' !! Key e = Some e;
  cc_consumed : ca_consumedJTIs c' = ca_consumedJTIs c;
  cc_remote : ca_remoteConsume c' = ca_remoteConsume c;
  cc_jti : ce_JTI e = agt_JTI (at_Payload t);
  cc_payload : ce_Payload e = Some (at_Payload t);
  cc_expiry : ce_ExpiresAt e = agt_ExpiresAt (at_Payload t);
  cc_unconsumed : ce_Consumed e = false
}.

Lemma StoreVerified_cached os now cachedAt raw epoch version sens c dk t :
  VerifyAccessGrantToken now raw (ca_trustRoot c) epoch version sens = Ok t ->
  let '(_, c', _) := StoreVerified os now cachedAt raw epoch version sens c dk in
  exists e, cached t e c c'.
Proof.
  intros Hv. unfold StoreVerified, VerifyAndStore. rewrite Hv. cbn [wrap mbind outcome_bind].
  set (e := mkCacheEntry _ _ _ _ _ _ _). unfold Store. cbn [ce_Payload e].
  destruct (agt_Scope _ == ScopeSession); [|destruct (persistGrant _ _ _ _)]; exists e;
    by split; [apply lookup_insert_eq|..].
Qed.

(** A cached entry is found until its expiry. *)
Lemma cached_Check t e c c' now :
  cached t e c c' -> ca_consumedJTIs c !! agt_JTI (at_Payload t) = None ->
  cache_Check now (Key e) c' = if time_After now (agt_ExpiresAt (at_Payload t)) then None else Some e.
Proof. intros [] Hc. unfold cache_Check. by rewrite cc_entry0, cc_expiry0, cc_unconsumed0, cc_consumed0, cc_jti0, Hc. Qed.

(** Consuming it leaves nothing to be found. *)
Lemma cached_Consume os t e c c' dk now now' :
  cached t e c c' -> ca_consumedJTIs c !! agt_JTI (at_Payload t) = None ->
  remote_consume c (agt_JTI (at_Payload t)) = Ok tt -> now <= agt_ExpiresAt (at_Payload t) ->
  let '(r, c2, _) := Consume os now (Key e) (agt_JTI (at_Payload t)) c' dk in
  cache_Check now' (Key e) c2 = None /\
  (agt_Scope (at_Payload t) = ScopeSession -> r = Ok (mark_consumed now e)).
Proof.
  intros [] Hc Hr Hn. unfold Consume. rewrite cc_entry0.
  assert (remote_consume c' (agt_JTI (at_Payload t)) = Ok tt) as ->
    by (unfold remote_consume in *; by rewrite cc_remote0).
  rewrite cc_consumed0, Hc, cc_unconsumed0, cc_jti0.
  rewrite (proj2 (neqb_false _ _)) by done.
  rewrite cc_expiry0. replace (time_After now (agt_ExpiresAt (at_Payload t))) with false
    by (symmetry; unfold time_After; apply Z.ltb_ge; lia). rewrite cc_payload0.
  assert (Hk : forall dk', cache_Check now' (Key e) (mkCache (<[Key e := mark_consumed now e]> (ca_entries c'))
      dk' (ca_key c') (ca_trustRoot c') (ca_remoteConsume c')) = None).
  { intros dk'. unfold cache_Check. cbn [ca_entries]. rewrite lookup_insert_eq. by destruct (time_After _ _). }
  destruct (agt_Scope (at_Payload t) == ScopeSession) eqn:Es; [by split; [apply Hk|]|].
  destruct (persistConsumed _ _ _ _ _) as [r dk']. split; [apply Hk|]. intros E. by rewrite E, eqb_refl in Es.
Qed.

(** C8.  A grant the service signs is access at the daemon.  Whatever payload the
    grant adapter of the key manager is asked to sign (encodable, hardware-backed),
    it signs it; and any daemon that trusts the key manager's grant key, is at the
    token's authorization epoch and at a policy version not newer than the token's,
    and has not consumed the grant, finds the signed payload in its cache once it has
    stored the token inside its validity interval: until the token's expiry, in whole
    seconds, and not after.  If the daemon's remote consumption agrees, [Consume] of
    the entry before that expiry spends it, whatever the files do: [Check] finds
    nothing afterwards, at any time; for a SESSION grant it also reports success. *)
Theorem signed_grant_is_honoured now (km : KeyManager S) p pub kid os now1 cachedAt version sens c dk :
  km_ok km -> GetPubKey now km PurposeGrantSig = Ok (pub, kid) -> text_ok kid = true ->
  let q := agt_set p 2 (if time_IsZero (agt_IssuedAt p) then now else agt_IssuedAt p)
             (if time_IsZero (agt_NotBefore p) then now else agt_NotBefore p) (agt_ExpiresAt p) in
  let expiry := time_TruncateSecond (agt_ExpiresAt p) in
  agt_ok q -> agt_DeviceSecurityLevel p = SecurityLevelStrongBox ->
  ca_trustRoot c = pub -> ca_consumedJTIs c !! agt_JTI p = None -> version <= agt_PolicyVersion p ->
  time_TruncateSecond (agt_NotBefore q) <= now1 <= expiry ->
  exists raw, @SignGrant (keyManagerGrantSigner km) now p = Ok (q, raw) /\
    let '(_, c1, dk1) := StoreVerified os now1 cachedAt raw (agt_AuthzEpoch p) version sens c dk in
    exists e, ce_JTI e = agt_JTI p /\ ce_Payload e = Some (agt_norm q) /\
      (forall now2, cache_Check now2 (Key e) c1 = if time_After now2 expiry then None else Some e) /\
      (forall now2 now3, remote_consume c (agt_JTI p) = Ok tt -> now2 <= expiry ->
         let '(r, c2, _) := Consume os now2 (Key e) (agt_JTI p) c1 dk1 in
         cache_Check now3 (Key e) c2 = None /\
         (agt_Scope p = ScopeSession -> r = Ok (mark_consumed now2 e))).
Proof.
  intros Hkm Hpub Hkid q expiry Hok Hsec Hroot Hc Hv Hw.
  destruct (service_token_accepted now now1 km p pub kid version sens Hkm Hpub Hkid Hok Hw Hv Hsec)
    as (raw & t & Hs & Hver & Hpay). exists raw. split; [exact Hs|]. rewrite <- Hroot in Hver. change (at_Payload t = agt_norm q) in Hpay.
  assert (En : agt_JTI (agt_norm q) = agt_JTI p /\ agt_ExpiresAt (agt_norm q) = expiry /\
    agt_Scope (agt_norm q) = agt_Scope p) by done.
  destruct En as (Ej & Ee & Es). rewrite <- Hpay in Ej, Ee, Es |- *. rewrite <- Ee, <- Es. rewrite <- Ej in Hc |- *.
  pose proof (StoreVerified_cached os now1 cachedAt raw (agt_AuthzEpoch p) version sens c dk t Hver) as Hx.
  destruct (StoreVerified _ _ _ _ _ _ _ _ _) as [[x c1] dk1]. destruct Hx as (e & He). exists e.
  split_and!; [apply He|apply He|by intros; eapply cached_Check|by intros; eapply cached_Consume].
Qed.

End Pipeline.

(** ** Witness *)

#[local] Existing Instance tag_Aead.
#[local] Existing Instance no_codec.

Definition trusting_cache (pub : bytes) : Cache := mkCache ∅ ∅ [] pub None.

(** The sample token, stored one second after it was signed. *)
Lemma signed_grant_is_honoured_witness :
  exists e c1, ce_JTI e = agt_JTI sample_agt /\ cache_Check (sample_now + 2 * Second) (Key e) c1 = Some e.
Proof.
  destruct (signed_grant_is_honoured sample_now sample_km sample_agt (sample_pub 40) sample_kid (good_os 1)
    (sample_now + Second) sample_now 5 SensitivityAdmin (trusting_cache (sample_pub 40)) disk1 sample_km_ok)
    as (raw & _ & H).
  - reflexivity.
  - reflexivity.
  - vm_compute. repeat split.
  - reflexivity.
  - reflexivity.
  - reflexivity.
  - vm_compute. discriminate.
  - vm_compute. split; discriminate.
  - destruct (StoreVerified _ _ _ _ _ _ _ _ _) as [[x c1] dk1]. destruct H as (e & Hj & _ & He & _).
    exists e, c1. split; [exact Hj|]. rewrite He. vm_compute. reflexivity.
Defined.
