(* ===== verification/Fleet.v ===== *)
(** * Fleet: many daemons, one service

    Every daemon has a grant cache of its own ([GrantCache]); before it uses a grant
    it asks the service to consume it, through the callback set by
    [SetRemoteConsume].  Here the callback of every daemon relays the stored function
    [consume_grant] of the shared database, whose answer may be lost on the way, and
    the service's own handlers ([System]) run in between.  The caches themselves may
    do anything else: store, purge, restart from disk, forget. *)

From stdpp Require Import base gmap strings list fin_maps sorting pretty.
From Stdlib Require Import ZArith Lia Strings.Byte.
From S2P Require Import Prelude Identity Cose Envelope Reference Database Schema Sample Messaging.
From S2P Require Import AuditChain Enforcement EngineSpec Revocation KeyManager KeyManagerProps ServiceMain Scenario.
From S2P Require Import MessagingProps RevocationProps System EngineProps GrantCache GrantCacheProps.

Open Scope Z_scope.
Open Scope go_scope.

Record fleet : Type := mkFleet {
  fl_db : Db;
  fl_daemons : gmap nat (Cache * Disk);
  fl_used : list (nat * UUID)          (* successful consumptions, newest first *)
}.

Section Fleet.
Context `{UT : UuidText} `{CI : CborInit} `{GC : GoCrypto}.
Context `{CH : Cbor Headers} `{CS : Cbor sigStructure} `{CM : Cbor Sign1Message}.
Context `{CB : Cbor ScopeBinding} `{CA : Cbor AGTPayload} `{CE : Cbor CacheEntry} `{AE : Aead}.
Context `{PG : Postgres} `{GJ : GoJson} `{RS : RequestSigner} `{GS : GrantSigner}.
Context (tenant : UUID).

(** The callback the comments of the cache ask for: the service consumes [jti]; the
    answer the daemon gets, and the database.  An answer that is lost is an error for
    the daemon.  The callback installed by the daemon's [main] is
    [DaemonMain.remoteConsume], which always fails. *)
Definition relay (lost : bool) (now : Time) (d : Db) (jti : UUID) : outcome bool * Db :=
  match consume_grant tenant jti (timestamptz_in now) now d with
  | inl e => (Err e, d)
  | inr (b, d') => (if lost then Err ErrServer else Ok b, d')
  end.

(** [Cache.Consume] at a daemon, with the callback that relays: the service is
    asked when the entry is there. *)
Definition fleet_consume (os : Os) (lost : bool) (now : Time) (key : string) (jti : UUID) (c : Cache) (dk : Disk)
    (d : Db) : outcome CacheEntry * Cache * Disk * Db :=
  let '(answer, d') := relay lost now d jti in
  let c := SetRemoteConsume (Some (fun _ => answer)) c in
  let '(r, c', dk') := Consume os now key jti c dk in
  (r, c', dk', match ca_entries c !! key with Some _ => d' | None => d end).

Inductive fleet_step : fleet -> fleet -> Prop :=
| fleet_uses f i os lost now key jti c dk r c' dk' d' :
    fl_daemons f !! i = Some (c, dk) ->
    fleet_consume os lost now key jti c dk (fl_db f) = (r, c', dk', d') ->
    fleet_step f (mkFleet d' (<[i := (c', dk')]> (fl_daemons f))
      (match r with Ok _ => (i, jti) :: fl_used f | _ => fl_used f end))
| fleet_cache f i x : fleet_step f (mkFleet (fl_db f) (<[i := x]> (fl_daemons f)) (fl_used f))
| fleet_service f d' : step (fl_db f) d' -> fleet_step f (mkFleet d' (fl_daemons f) (fl_used f)).

(** The service has recorded a consumption. *)
Definition consumed_at_service (jti : UUID) (d : Db) : Prop :=
  exists g, db_grants d !! (tenant, jti) = Some g /\ g_consumed_at g <> None.

Lemma relay_keeps lost now d jti j :
  consumed_at_service j d -> consumed_at_service j (relay lost now d jti).2.
Proof.
  unfold relay, consume_grant. intros (g & Hg & Hc).
  destruct (db_grants d !! (tenant, jti)) as [g'|] eqn:Eg; [|by exists g].
  destruct (g_consumed_at g') eqn:Ec; [by exists g|]. cbn.
  destruct (g_expires_at g' <? _); cbn; [by exists g|]. exists g. split; [|done].
  cbn. rewrite lookup_insert_ne; [done|]. intros [= ->]. congruence.
Qed.

(** The service says yes once. *)
Lemma relay_yes lost now d jti d' :
  relay lost now d jti = (Ok true, d') -> ~ consumed_at_service jti d /\ consumed_at_service jti d'.
Proof.
  unfold relay, consume_grant. destruct (db_grants d !! (tenant, jti)) as [g|] eqn:Eg;
    [|by destruct lost; intros [=]].
  destruct (g_consumed_at g) eqn:Ec; cbn; [by destruct lost; intros [=]|].
  destruct (g_expires_at g <? _); cbn; [by destruct lost; intros [=]|].
  destruct lost; [done|]. intros [= <-]. split.
  - intros (g' & Hg' & Hc). congruence.
  - eexists. cbn. by rewrite lookup_insert_eq.
Qed.

(** A consumption that succeeds had a yes from the service. *)
Lemma fleet_consume_Ok os lost now key jti c dk d e c' dk' d' :
  fleet_consume os lost now key jti c dk d = (Ok e, c', dk', d') ->
  relay lost now d jti = (Ok true, d') /\ ce_JTI e = jti /\ now <= ce_ExpiresAt e.
Proof.
  unfold fleet_consume. destruct (relay lost now d jti) as [answer d1].
  pose proof (Consume_cases os now key jti (SetRemoteConsume (Some (fun _ => answer)) c) dk) as Hc.
  destruct (Consume _ _ _ _ _ _) as [[r c1] dk1]. intros [= -> -> -> <-].
  destruct Hc as [(_ & _ & Hn)|(entry & He & Hr & _ & _ & Hj & Hx & _ & Hm & _)]; [by destruct (Hn e)|].
  cbn in He |- *. rewrite He, (Hm e eq_refl). split_and!; [|done|done]. f_equal.
  unfold remote_consume in Hr. cbn in Hr. destruct answer as [[]| |]; done.
Qed.

Lemma fleet_consume_keeps os lost now key jti c dk d j :
  consumed_at_service j d -> consumed_at_service j (fleet_consume os lost now key jti c dk d).2.
Proof.
  intros Hj. unfold fleet_consume. pose proof (relay_keeps lost now d jti j Hj).
  destruct (relay lost now d jti) as [answer d1]. destruct (Consume _ _ _ _ _ _) as [[r c1] dk1]. cbn in *.
  by destruct (_ !! key).
Qed.

Definition fleet_ok (f : fleet) : Prop :=
  NoDup (map snd (fl_used f)) /\ forall j, j ∈ map snd (fl_used f) -> consumed_at_service j (fl_db f).

Lemma fleet_step_ok f f' : fleet_ok f -> fleet_step f f' -> fleet_ok f'.
Proof.
  intros [Hn Hj] Hs. destruct Hs as [f i os lost now key jti c dk r c' dk' d' Hi E|f i x|f d' Hs].
  - assert (Hk : forall j, consumed_at_service j (fl_db f) -> consumed_at_service j d').
    { intros j Hc. apply (fleet_consume_keeps os lost now key jti c dk) in Hc. by rewrite E in Hc. }
    destruct r as [e|e|]; cbn; [|split; [done|by intros j ?%Hj%Hk]..].
    apply fleet_consume_Ok in E as (E & _). apply relay_yes in E as [H1 H2]. split; cbn.
    + constructor; [|done]. by intros ?%Hj.
    + intros j [->|Hin]%elem_of_cons; [done|by apply Hk, Hj].
  - done.
  - split; [done|]. intros j (g & Hg & Hc)%Hj. exists g. split; [|done]. by apply (step_grants _ _ Hs).
Qed.

(** C3.  One use in the whole fleet.  However many daemons hold a grant, whatever
    they store, purge or lose in restarts, whichever handlers run at the service and
    whichever answers are lost: a grant is successfully consumed by at most one
    daemon, once, and the service has recorded it. *)
Theorem fleet_single_use d0 daemons f :
  rtc fleet_step (mkFleet d0 daemons []) f ->
  NoDup (map snd (fl_used f)) /\
  forall i jti, (i, jti) ∈ fl_used f -> exists g, db_grants (fl_db f) !! (tenant, jti) = Some g /\ g_consumed_at g <> None.
Proof.
  intros Hr. assert (H0 : fleet_ok (mkFleet d0 daemons [])) by (split; [constructor|by intros j ?%elem_of_nil]).
  assert (H : fleet_ok f).
  { revert H0. induction Hr as [|f1 f2 f3 H12 _ IH]; [done|]. intros H0. apply IH. by eapply fleet_step_ok. }
  destruct H as [Hn Hj]. split; [done|]. intros i jti Hin. apply Hj. by apply (list_elem_of_fmap_2 snd _ (i, jti)).
Qed.

End Fleet.

(** ** Witness *)

#[local] Existing Instance tag_Aead.
#[local] Existing Instance no_codec.

(** Two daemons hold the sample grant; both try to use it. *)
Definition granted_entry : CacheEntry :=
  mkCacheEntry grant1 [x01] (Some sample_agt) false None sample_now (sample_now + 60 * Second).
Definition holding : Cache := mkCache {["k"%string := granted_entry]} ∅ daemon_key (sample_pub 40) None.
Definition two_daemons : fleet := mkFleet granted_db {[0%nat := (holding, disk1); 1%nat := (holding, disk1)]} [].
Definition daemon_uses (i : nat) (f : fleet) : fleet :=
  match fl_daemons f !! i with
  | Some (c, dk) =>
      let '(r, c', dk', d') :=
        fleet_consume tenant1 (good_os 1) false (sample_now + Second) "k" grant1 c dk (fl_db f) in
      mkFleet d' (<[i := (c', dk')]> (fl_daemons f))
        (match r with Ok _ => (i, grant1) :: fl_used f | _ => fl_used f end)
  | None => f
  end.

Lemma daemon_uses_steps i f : rtc (fleet_step tenant1) f (daemon_uses i f).
Proof.
  unfold daemon_uses. destruct (fl_daemons f !! i) as [[c dk]|] eqn:E; [|reflexivity].
  destruct (fleet_consume _ _ _ _ _ _ _ _ _) as [[[r c'] dk'] d'] eqn:Ec. by eapply rtc_once, fleet_uses.
Qed.

Lemma fleet_single_use_witness :
  let f := daemon_uses 1 (daemon_uses 0 two_daemons) in
  map fst (fl_used f) = [0%nat] /\ NoDup (map snd (fl_used f)).
Proof.
  cbv zeta. split; [vm_compute; reflexivity|].
  apply (fleet_single_use tenant1 granted_db {[0%nat := (holding, disk1); 1%nat := (holding, disk1)]}
    (daemon_uses 1 (daemon_uses 0 two_daemons))).
  etransitivity; apply daemon_uses_steps.
Defined.
