(* ===== verification/Interstitial.v ===== *)
(** * Interstitial: the browser page that waits for an approval

    [daemon/internal/interstitial/handler.go]: the table of pending requests, its
    two capabilities per request, status polling and one-time redemption.

    The handler is the map from request ids to pending requests.  Go stores
    pointers; an entry is reachable under its own id only, so the model stores
    entries by value and writes a changed entry back.  Clock readings and random
    buffers are arguments; [rand.Read] errors are ignored by the code, which then
    uses the buffer of zeros. *)

From stdpp Require Import base gmap strings list fin_maps.
From Stdlib Require Import ZArith Lia Strings.Byte.
From S2P Require Import Prelude Identity Cose.

Open Scope Z_scope.
Open Scope go_scope.

(** ** State *)

Record PendingRequest : Type := mkPending {
  pr_RequestID : UUID;
  pr_PollCap : string;
  pr_PollCapHash : bytes;
  pr_RedeemCap : string;
  pr_RedeemCapHash : bytes;
  pr_Status : string;
  pr_CreatedAt : Time;
  pr_ExpiresAt : Time;
  pr_ApprovedGrantJTI : option UUID
}.

(** [Handler.pendingReqs] *)
Abbreviation Handler := (gmap string PendingRequest) (only parsing).

Definition NewHandler : Handler := ∅.

(** The assignments to [req.Status] and [req.ApprovedGrantJTI]. *)
Definition pr_set (status : string) (jti : option UUID) (r : PendingRequest) : PendingRequest :=
  mkPending (pr_RequestID r) (pr_PollCap r) (pr_PollCapHash r) (pr_RedeemCap r) (pr_RedeemCapHash r)
    status (pr_CreatedAt r) (pr_ExpiresAt r) jti.

(** The assignments of a redemption. *)
Definition pr_redeem (r : PendingRequest) : PendingRequest :=
  mkPending (pr_RequestID r) (pr_PollCap r) (pr_PollCapHash r) "" [] "GRANTED"
    (pr_CreatedAt r) (pr_ExpiresAt r) (pr_ApprovedGrantJTI r).

(** [generateCapability] *)
Definition generateCapability (rnd : option bytes) : string :=
  hex (match rnd with Some b => b | None => replicate 32 x00 end).

(** ** HTTP *)

Record Cookie : Type := mkCookie {
  ck_Name : string;
  ck_Value : string;
  ck_Path : string;
  ck_Secure : bool;
  ck_HttpOnly : bool;
  ck_SameSiteStrict : bool;
  ck_MaxAge : Z
}.

(** What a handler wrote to its [http.ResponseWriter]. *)
Record Response : Type := mkHttpResponse {
  rw_Header : list (string * string);
  rw_Cookies : list Cookie;
  rw_Status : Z;
  rw_Body : string
}.

Record interstitialData : Type := mkInterstitialData {
  id_RequestID : string;
  id_DestName : string;
  id_PollPath : string;
  id_RefreshAfter : Z
}.

(** [html/template]: the page with the data filled in and escaped. *)
Class PageTemplate : Type := { pageTemplate_Execute : interstitialData -> string }.

Section Handler.
Context `{UT : UuidText} `{GC : GoCrypto} `{PT : PageTemplate}.

(** [Handler.RegisterPending]: capabilities and the new state; the error is
    always nil. *)
Definition RegisterPending (h : Handler) (rnd1 rnd2 : option bytes) (now1 now2 : Time)
    (requestID : UUID) (ttl : Duration) : (string * string) * Handler :=
  let pollCap := generateCapability rnd1 in
  let redeemCap := generateCapability rnd2 in
  ((pollCap, redeemCap),
   <[uuid_String requestID :=
       mkPending requestID pollCap (sha256 (str_bytes pollCap)) redeemCap
         (sha256 (str_bytes redeemCap)) "PENDING" now1 (now2 + ttl) None]> h).

(** [Handler.MarkApproved] *)
Definition MarkApproved (h : Handler) (requestID grantJTI : UUID) : Handler :=
  match h !! uuid_String requestID with
  | Some req => <[uuid_String requestID := pr_set "APPROVED" (Some grantJTI) req]> h
  | None => h
  end.

(** [Handler.MarkDenied] *)
Definition MarkDenied (h : Handler) (requestID : UUID) : Handler :=
  match h !! uuid_String requestID with
  | Some req => <[uuid_String requestID := pr_set "DENIED" (pr_ApprovedGrantJTI req) req]> h
  | None => h
  end.

(** The loop of [Handler.MarkExpired] over the entries in the order the map
    iteration visits them. *)
Fixpoint markExpired_loop (now : Time) (l : list (string * PendingRequest)) (count : Z) (h : Handler)
    : Z * Handler :=
  match l with
  | [] => (count, h)
  | (id, req) :: rest =>
      let hit := time_After now (pr_ExpiresAt req) && (pr_Status req == "PENDING") in
      let h := if hit then <[id := pr_set "EXPIRED" (pr_ApprovedGrantJTI req) req]> h else h in
      let count := if hit then count + 1 else count in
      let h := if time_After now (pr_ExpiresAt req + 5 * Minute) then delete id h else h in
      markExpired_loop now rest count h
  end.
Definition MarkExpired (now : Time) (order : list (string * PendingRequest)) (h : Handler)
    : Z * Handler :=
  markExpired_loop now order 0 h.

(** [Handler.ServeInterstitial] *)
Definition ServeInterstitial (requestID : UUID) (pollCap destName : string) : Response :=
  mkHttpResponse
    [("Content-Security-Policy",
      "default-src 'self'; script-src 'self'; style-src 'self'; frame-ancestors 'none';");
     ("Referrer-Policy", "no-referrer");
     ("Cache-Control", "no-store, no-cache, must-revalidate, max-age=0");
     ("X-Content-Type-Options", "nosniff");
     ("X-Frame-Options", "DENY")]%string
    [mkCookie "__Host-dnivio-poll" pollCap ("/.dnivio/status/" +:+ uuid_String requestID)
       true true true 60]
    200
    (pageTemplate_Execute (mkInterstitialData (uuid_String requestID) destName
       ("/.dnivio/status/" +:+ uuid_String requestID) 2)).

(** [Handler.ServeStatus]; the cookie is [None] when [r.Cookie] returns an
    error. *)
Definition status_response (body : string) : Response :=
  mkHttpResponse
    [("Cache-Control", "no-store, no-cache, must-revalidate, max-age=0");
     ("Content-Type", "application/json");
     ("Referrer-Policy", "no-referrer")]%string [] 200 body.
Definition status_body (status : string) : string :=
  ("{" +:+ quoted "status" +:+ ":" +:+ quoted status +:+ "}")%string.
Definition ServeStatus (h : Handler) (pollCookie : option string) (requestID : UUID) : Response :=
  match pollCookie with
  | None => status_response (status_body "PENDING")
  | Some v =>
      match h !! uuid_String requestID with
      | None => status_response (status_body "PENDING")
      | Some req =>
          if negb (ConstantTimeCompare (pr_PollCapHash req) (sha256 (str_bytes v)) =? 1)
          then status_response (status_body "PENDING")
          else status_response (status_body (pr_Status req))
      end
  end.

(** [Handler.RedeemGrant] *)
Definition RedeemGrant (h : Handler) (redeemCookie : option string) (requestID : UUID)
    : outcome UUID * Handler :=
  match redeemCookie with
  | None => (Err (Errorf "interstitial: no redeem cookie" []), h)
  | Some v =>
      match h !! uuid_String requestID with
      | None => (Err (Errorf "interstitial: request not found" []), h)
      | Some req =>
          if negb (ConstantTimeCompare (pr_RedeemCapHash req) (sha256 (str_bytes v)) =? 1)
          then (Err (Errorf "interstitial: invalid redeem capability" []), h) else
          if pr_Status req != "APPROVED"
          then (Err (Errorf "interstitial: request not approved" []), h) else
          match pr_ApprovedGrantJTI req with
          | None => (Err (Errorf "interstitial: request not approved" []), h)
          | Some jti => (Ok jti, <[uuid_String requestID := pr_redeem req]> h)
          end
      end
  end.

(** [SetRedeemCookie] *)
Definition SetRedeemCookie (requestID : UUID) (redeemCap : string) : Cookie :=
  mkCookie "__Host-dnivio-redeem" redeemCap ("/.dnivio/redeem/" +:+ uuid_String requestID)
    true true true 60.

(** ** Facts shared by the properties *)

(** A redemption succeeds in exactly one way. *)
Lemma RedeemGrant_Ok h c id jti h' :
  RedeemGrant h c id = (Ok jti, h') <->
  exists v req, c = Some v /\ h !! uuid_String id = Some req /\
    pr_RedeemCapHash req = sha256 (str_bytes v) /\ pr_Status req = "APPROVED" /\
    pr_ApprovedGrantJTI req = Some jti /\ h' = <[uuid_String id := pr_redeem req]> h.
Proof.
  unfold RedeemGrant. destruct c as [v|]; [|naive_solver].
  destruct (h !! uuid_String id) as [req|]; [|naive_solver].
  destruct (negb _) eqn:Ec.
  { split; [done|]. intros (? & ? & [= <-] & [= <-] & E & _). rewrite E in Ec.
    rewrite negb_true_iff in Ec. apply not_true_iff_false in Ec. by destruct Ec; apply ConstantTimeCompare_1. }
  rewrite negb_false_iff, ConstantTimeCompare_1 in Ec.
  destruct (pr_Status req != "APPROVED") eqn:Es; go_bool; [naive_solver|].
  destruct (pr_ApprovedGrantJTI req) as [j|] eqn:Ej; naive_solver.
Qed.

(** A failed redemption changes nothing. *)
Lemma RedeemGrant_Err h c id r h' :
  RedeemGrant h c id = (r, h') -> (forall jti, r <> Ok jti) -> h' = h.
Proof.
  unfold RedeemGrant. intros H Hn. repeat case_match; injection H as <- <-; try done.
  by destruct (Hn u).
Qed.

End Handler.
