(* ===== verification/InterstitialProps.v ===== *)
(** * InterstitialProps: polling and redemption

    A capability redeems its request once, over any later sequence of operations;
    polling tells nothing without the poll capability; expiry does not depend on
    the order a map is iterated in.  Then the lifecycle the code does not guard,
    and the cookies. *)

From stdpp Require Import base gmap strings list fin_maps.
From Stdlib Require Import ZArith Lia Strings.Byte.
From S2P Require Import Prelude Identity Cose Envelope Reference Interstitial.

Open Scope Z_scope.
Open Scope go_scope.

(** ** Expiry *)

(** What one pass of [MarkExpired] makes of an entry. *)
Definition expires_now (now : Time) (req : PendingRequest) : Prop :=
  pr_ExpiresAt req < now /\ pr_Status req = "PENDING".
#[export] Instance expires_now_dec now req : base.Decision (expires_now now req).
Proof. unfold expires_now. apply _. Defined.

Definition expire_entry (now : Time) (req : PendingRequest) : option PendingRequest :=
  if decide (pr_ExpiresAt req + 5 * Minute < now) then None
  else Some (if decide (expires_now now req) then pr_set "EXPIRED" (pr_ApprovedGrantJTI req) req
             else req).

Lemma expires_now_bool now req :
  time_After now (pr_ExpiresAt req) && (pr_Status req == "PENDING") = bool_decide (expires_now now req).
Proof.
  apply eq_true_iff_eq. rewrite bool_decide_eq_true. unfold expires_now, time_After. go_bool. done.
Qed.

Lemma expire_step now id req (h : gmap string PendingRequest) :
  h !! id = Some req ->
  (let h1 := if decide (expires_now now req)
             then <[id := pr_set "EXPIRED" (pr_ApprovedGrantJTI req) req]> h else h in
   if time_After now (pr_ExpiresAt req + 5 * Minute) then delete id h1 else h1)
  = partial_alter (fun _ => expire_entry now req) id h.
Proof.
  intros Hid. apply map_eq. intros id'. unfold expire_entry, time_After.
  destruct (decide (id' = id)) as [->|Hne].
  - rewrite lookup_partial_alter_eq. destruct (decide (pr_ExpiresAt req + _ < now)) as [Hd|Hd].
    + rewrite (proj2 (Z.ltb_lt _ _) Hd). by rewrite lookup_delete_eq.
    + rewrite (proj2 (Z.ltb_ge _ _)) by lia. destruct (decide _); [by rewrite lookup_insert_eq|done].
  - rewrite lookup_partial_alter_ne by done.
    destruct (_ <? _), (decide (expires_now now req)); by rewrite ?lookup_delete_ne, ?lookup_insert_ne.
Qed.

Lemma markExpired_loop_spec now l c (h : gmap string PendingRequest) :
  NoDup l.*1 -> (forall id req, (id, req) ∈ l -> h !! id = Some req) ->
  markExpired_loop now l c h =
    (c + Z.of_nat (length (filter (fun x => expires_now now x.2) l)),
     foldr (fun x m => partial_alter (fun _ => expire_entry now x.2) x.1 m) h l).
Proof.
  revert c h. induction l as [|[id req] l IH]; intros c h Hnd Hin; [by rewrite Z.add_0_r|].
  cbn [markExpired_loop]. rewrite expires_now_bool. cbn in Hnd. apply NoDup_cons in Hnd as [Hni Hnd].
  pose proof (expire_step now id req h (Hin _ _ (list_elem_of_here _ _))) as He. cbv zeta in He.
  assert (Hif : forall A (x y : A), (if bool_decide (expires_now now req) then x else y) =
    if decide (expires_now now req) then x else y) by (intros; by case_bool_decide; destruct (decide _)).
  rewrite !Hif. rewrite He. rewrite IH; [|done|].
  - f_equal.
    + rewrite filter_cons. destruct (decide (expires_now now (id, req).2)), (decide (expires_now now req));
        cbn in *; try done; cbn [length]; lia.
    + cbn. clear -Hni. induction l as [|[id' req'] l IHl]; [done|]. cbn in *.
      apply not_elem_of_cons in Hni as [Hne Hni]. rewrite IHl by done.
      by rewrite (partial_alter_partial_alter_ne _ _ _ _ _ Hne).
  - intros id' req' Hin'. assert (id' <> id).
    { intros ->. apply Hni. apply list_elem_of_fmap. by exists (id, req'). }
    rewrite lookup_partial_alter_ne by done. apply Hin. by right.
Qed.

(** Expiry is exact and does not depend on the order of iteration: for every
    order of the entries, [MarkExpired] counts the pending requests past their
    deadline, marks those EXPIRED, drops every entry five minutes past its
    deadline, and leaves the others. *)
Theorem mark_expired_exact now order h :
  order ≡ₚ map_to_list h ->
  MarkExpired now order h =
    (Z.of_nat (size (filter (fun x => expires_now now x.2) h)), omap (expire_entry now) h).
Proof.
  intros Hp. unfold MarkExpired.
  assert (Hnd : NoDup order.*1) by (rewrite Hp; apply NoDup_fst_map_to_list).
  assert (Hin : forall id req, (id, req) ∈ order <-> h !! id = Some req).
  { intros id req. rewrite Hp. apply elem_of_map_to_list. }
  rewrite markExpired_loop_spec; [|done|by intros; apply Hin]. f_equal.
  - rewrite <- length_map_to_list, map_filter_alt, (map_to_list_to_map (filter _ _)).
    + by rewrite Hp.
    + eapply sublist_NoDup; [apply (NoDup_fst_map_to_list h)|]. f_equiv. apply sublist_filter.
  - apply map_eq. intros id. rewrite lookup_omap.
    assert (Hf : forall l, NoDup l.*1 -> (forall id req, (id, req) ∈ l -> h !! id = Some req) ->
      foldr (fun x m => partial_alter (fun _ => expire_entry now x.2) x.1 m) h l !! id =
      if decide (id ∈ l.*1) then h !! id ≫= expire_entry now else h !! id).
    { induction l as [|[id' req] l IH]; intros Hnd' Hl; [done|]. cbn.
      cbn in Hnd'. apply NoDup_cons in Hnd' as [Hni Hnd']. destruct (decide (id = id')) as [->|Hne].
      - rewrite lookup_partial_alter_eq, decide_True by set_solver.
        by rewrite (Hl _ _ (list_elem_of_here _ _)).
      - rewrite lookup_partial_alter_ne by done. rewrite IH; [|done|intros; apply Hl; by right].
        destruct (decide (id ∈ l.*1)), (decide (id ∈ id' :: l.*1)); set_solver. }
    rewrite Hf; [|done|by intros; apply Hin]. destruct (decide _) as [_|Hni]; [done|].
    destruct (h !! id) as [req|] eqn:E; [|done]. exfalso. apply Hni, list_elem_of_fmap. exists (id, req).
    split; [done|]. by apply Hin.
Qed.

(** ** Polling *)

Section Props.
Context `{UT : UuidText} `{GC : GoCrypto}.

(** Polling leaks nothing: every answer of [ServeStatus] has the same
    headers, status code and shape, and without the poll capability of the request
    it is the same answer in every state of the handler. *)
Theorem status_needs_capability h cookie id :
  (exists word, ServeStatus h cookie id = status_response (status_body word)) /\
  ((forall v req, cookie = Some v -> h !! uuid_String id = Some req ->
      pr_PollCapHash req <> sha256 (str_bytes v)) ->
   ServeStatus h cookie id = ServeStatus NewHandler cookie id).
Proof.
  unfold ServeStatus, NewHandler. destruct cookie as [v|]; [|split; eauto]. rewrite lookup_empty.
  destruct (h !! uuid_String id) as [req|] eqn:E; [|split; eauto].
  destruct (negb _) eqn:Ec; [split; eauto|]. split; [eauto|]. intros Hn.
  rewrite negb_false_iff, ConstantTimeCompare_1 in Ec. by destruct (Hn v req).
Qed.

(** ** Redemption *)

(** Operations of the handler that do not register [id] again. *)
Inductive handler_step (id : UUID) : gmap string PendingRequest -> gmap string PendingRequest -> Prop :=
| hs_register h r1 r2 n1 n2 id' ttl : id' <> id ->
    handler_step id h (RegisterPending h r1 r2 n1 n2 id' ttl).2
| hs_approve h id' jti : handler_step id h (MarkApproved h id' jti)
| hs_deny h id' : handler_step id h (MarkDenied h id')
| hs_expire h now order : order ≡ₚ map_to_list h -> handler_step id h (MarkExpired now order h).2
| hs_redeem h c id' : handler_step id h (RedeemGrant h c id').2.

(** The redeem capability of [id] is gone. *)
Definition spent (id : UUID) (h : gmap string PendingRequest) : Prop :=
  forall req, h !! uuid_String id = Some req -> pr_RedeemCapHash req = [].

Lemma spent_insert id id' req h :
  spent id h -> (id' = id -> pr_RedeemCapHash req = []) -> spent id (<[uuid_String id' := req]> h).
Proof.
  intros Hs Hr req' [[E <-]|[_ H]]%lookup_insert_Some; [by apply Hr, (inj uuid_String)|by apply Hs].
Qed.

Lemma step_spent id h h' : handler_step id h h' -> spent id h -> spent id h'.
Proof.
  intros [h0 r1 r2 n1 n2 id' ttl Hne|h0 id' jti|h0 id'|h0 now order Hp|h0 c id'] Hs.
  - by apply spent_insert.
  - unfold MarkApproved. destruct (h0 !! _) as [req|] eqn:E; [|done]. apply spent_insert; [done|].
    intros ->. by apply (Hs req).
  - unfold MarkDenied. destruct (h0 !! _) as [req|] eqn:E; [|done]. apply spent_insert; [done|].
    intros ->. by apply (Hs req).
  - rewrite mark_expired_exact by done. intros req. cbn. rewrite lookup_omap.
    destruct (h0 !! uuid_String id) as [r|] eqn:E; [|done]. cbn. unfold expire_entry.
    intros H. specialize (Hs r E). destruct (decide _); [done|]. injection H as <-. by destruct (decide _).
  - destruct (RedeemGrant h0 c id') as [r h1] eqn:E. cbn. destruct r as [jti|e|].
    + apply RedeemGrant_Ok in E as (v & req & _ & Hl & _ & _ & _ & ->). apply spent_insert; [done|].
      by intros ->.
    + apply RedeemGrant_Err in E; [by subst|done].
    + apply RedeemGrant_Err in E; [by subst|done].
Qed.

(** C29.  One redemption per registration: once [RedeemGrant] returned a grant for
    a request, no later sequence of operations - approvals, denials, expiry,
    redemptions, registrations of other requests - lets it be redeemed again. *)
Theorem redeemed_once h c id jti h1 h2 c' :
  RedeemGrant h c id = (Ok jti, h1) -> rtc (handler_step id) h1 h2 ->
  forall jti' h3, RedeemGrant h2 c' id <> (Ok jti', h3).
Proof.
  intros (v & req & _ & Hl & _ & _ & _ & ->)%RedeemGrant_Ok Hs.
  assert (H0 : spent id (<[uuid_String id := pr_redeem req]> h)).
  { intros req' E. rewrite lookup_insert_eq in E. by injection E as <-. }
  assert (Hsp : spent id h2) by (induction Hs; eauto using step_spent).
  intros jti' h3 (v' & req' & _ & Hl' & Hh & _)%RedeemGrant_Ok. apply Hsp in Hl'.
  pose proof (sha256_length (str_bytes v')) as Hlen. rewrite <- Hh, Hl' in Hlen. done.
Qed.

(** The capabilities work: after a request is registered and approved, its
    poll capability reads APPROVED and its redeem capability returns the approved
    grant; neither capability of another length or content does. *)
Theorem registered_request_redeems h r1 r2 n1 n2 id ttl jti :
  let '((poll, redeem), h1) := RegisterPending h r1 r2 n1 n2 id ttl in
  let h2 := MarkApproved h1 id jti in
  ServeStatus h2 (Some poll) id = status_response (status_body "APPROVED") /\
  (RedeemGrant h2 (Some redeem) id).1 = Ok jti /\
  forall v jti', (RedeemGrant h2 (Some v) id).1 = Ok jti' ->
    sha256 (str_bytes v) = sha256 (str_bytes redeem) /\ jti' = jti.
Proof.
  unfold RegisterPending. cbv zeta. set (req := mkPending _ _ _ _ _ _ _ _ _).
  assert (E : MarkApproved (<[uuid_String id := req]> h) id jti
    = <[uuid_String id := pr_set "APPROVED" (Some jti) req]> h).
  { unfold MarkApproved. by rewrite lookup_insert_eq, insert_insert_eq. }
  rewrite E. unfold ServeStatus, RedeemGrant. rewrite !lookup_insert_eq.
  cbn [pr_set pr_PollCapHash req pr_RedeemCapHash pr_Status pr_ApprovedGrantJTI].
  rewrite !(proj2 (ConstantTimeCompare_1 _ _)) by done. split_and!; [done..|].
  intros v jti'. destruct (negb _) eqn:Ec; [done|].
  rewrite negb_false_iff, ConstantTimeCompare_1 in Ec. by intros [= <-].
Qed.

(** ** What is not guarded *)

(** A denied request can still be approved and redeemed: the marks do not look at
    the status they replace, nor does redemption look at the deadline. *)
Theorem denied_request_can_be_redeemed h id jti cap req :
  h !! uuid_String id = Some req -> pr_RedeemCapHash req = sha256 (str_bytes cap) ->
  (RedeemGrant (MarkApproved (MarkDenied h id) id jti) (Some cap) id).1 = Ok jti.
Proof.
  intros Hl Hh. unfold MarkDenied. rewrite Hl. unfold MarkApproved. rewrite lookup_insert_eq.
  unfold RedeemGrant. rewrite !lookup_insert_eq. cbn. rewrite Hh.
  by rewrite (proj2 (ConstantTimeCompare_1 _ _)).
Qed.

(** The rule of RFC 6265bis for names with the prefix [__Host-]: secure, without
    domain, and with the path [/]. *)
Definition host_prefix_ok (c : Cookie) : Prop :=
  String.prefix "__Host-" (ck_Name c) = true -> ck_Secure c = true /\ ck_Path c = "/".

(** Neither cookie meets it, so a browser that applies the rule stores neither. *)
Theorem cookies_break_host_prefix `{PT : PageTemplate} id pollCap destName redeemCap :
  ~ host_prefix_ok (SetRedeemCookie id redeemCap) /\
  Forall (fun c => ~ host_prefix_ok c) (rw_Cookies (ServeInterstitial id pollCap destName)).
Proof.
  split; [|constructor; [|constructor]]; intros H; by destruct (H eq_refl) as [_ ?].
Qed.

End Props.

(** ** Concrete instances *)

Definition web_request : UUID := uuid_of_Z 300.
Definition web_registered := RegisterPending NewHandler (Some [x01; x02]) (Some [x03; x04]) 10 20 web_request (60 * Second).
Definition web_approved := MarkApproved web_registered.2 web_request (uuid_of_Z 301).

Lemma mark_expired_exact_witness :
  MarkExpired (61 * Second) (reverse (map_to_list web_registered.2)) web_registered.2 =
    (Z.of_nat (size (filter (fun x => expires_now (61 * Second) x.2) web_registered.2)),
     omap (expire_entry (61 * Second)) web_registered.2) /\
  (MarkExpired (61 * Second) (map_to_list web_registered.2) web_registered.2).1 = 1.
Proof.
  split; [|vm_compute; reflexivity]. apply (mark_expired_exact (61 * Second)). apply reverse_Permutation.
Defined.

Lemma redeemed_once_witness :
  exists h1, RedeemGrant web_approved (Some web_registered.1.2) web_request = (Ok (uuid_of_Z 301), h1) /\
    forall c jti h3, RedeemGrant (MarkApproved h1 web_request (uuid_of_Z 302)) c web_request <> (Ok jti, h3).
Proof.
  destruct (RedeemGrant web_approved (Some web_registered.1.2) web_request) as [r h1] eqn:E.
  assert (Er : r = Ok (uuid_of_Z 301)).
  { destruct (registered_request_redeems NewHandler (Some [x01; x02]) (Some [x03; x04]) 10 20 web_request
      (60 * Second) (uuid_of_Z 301)) as (_ & H & _).
    change (r = Ok (uuid_of_Z 301)). rewrite <- H. apply (f_equal fst) in E. symmetry. exact E. }
  subst r. exists h1. split; [reflexivity|]. intros c jti h3.
  apply (redeemed_once _ _ _ _ _ (MarkApproved h1 web_request (uuid_of_Z 302)) c E).
  apply rtc_once, hs_approve.
Defined.
