(* ===== verification/Page.v ===== *)
(** * Page: the HTML of the approval page

    [pageTemplate] of [daemon/internal/interstitial/handler.go], with what
    [html/template] does at each of its actions: the destination stands in HTML
    text, the poll path and the request id in JavaScript strings, the refresh
    interval in a JavaScript expression, and each is escaped for its place. *)

From stdpp Require Import base gmap strings list pretty.
From Stdlib Require Import ZArith Lia Strings.Byte Strings.Ascii.
From S2P Require Import Prelude Identity Cose Envelope Reference Interstitial.

Open Scope Z_scope.
Open Scope go_scope.

(** ** Escapers of html/template *)

Definition code (c : ascii) : Z := Z.of_N (N_of_ascii c).

(** [htmlReplacementTable] *)
Definition html_char (c : ascii) : string :=
  if code c =? 0 then "�"
  else if code c =? 34 then "&#34;"
  else if code c =? 38 then "&amp;"
  else if code c =? 39 then "&#39;"
  else if code c =? 43 then "&#43;"
  else if code c =? 60 then "&lt;"
  else if code c =? 62 then "&gt;"
  else String c EmptyString.

(** [htmlEscaper]: runes above the table are kept, so this works on bytes. *)
Fixpoint htmlEscaper (s : string) : string :=
  match s with
  | EmptyString => EmptyString
  | String c r => html_char c +:+ htmlEscaper r
  end.

Definition hex_digit (n : Z) : string :=
  String (ascii_of_N (Z.to_N (if n <? 10 then 48 + n else 87 + n))) EmptyString.
Definition js_u (c : ascii) : string :=
  "\u00" +:+ hex_digit (code c / 16) +:+ hex_digit (code c mod 16).

(** [lowUnicodeReplacementTable] and [jsStrReplacementTable] *)
Definition js_char (c : ascii) : string :=
  if code c =? 9 then "\t"
  else if code c =? 10 then "\n"
  else if code c =? 12 then "\f"
  else if code c =? 13 then "\r"
  else if (code c <? 32) || existsb (Z.eqb (code c)) [34; 38; 39; 43; 60; 62; 96] then js_u c
  else if code c =? 47 then "\/"
  else if code c =? 92 then "\\"
  else String c EmptyString.

(** [jsStrEscaper]: also the two line separators, in UTF-8. *)
Fixpoint jsStrEscaper (s : string) : string :=
  match s with
  | EmptyString => EmptyString
  | String c r =>
      match r with
      | String c2 (String c3 r') =>
          if (code c =? 226) && (code c2 =? 128) && (code c3 =? 168) then "\u2028" +:+ jsStrEscaper r'
          else if (code c =? 226) && (code c2 =? 128) && (code c3 =? 169) then "\u2029" +:+ jsStrEscaper r'
          else js_char c +:+ jsStrEscaper r
      | _ => js_char c +:+ jsStrEscaper r
      end
  end.

(** [jsValEscaper] of an int: its JSON, with a space on either side. *)
Definition jsValEscaper (n : Z) : string := " " +:+ pretty n +:+ " ".

(** ** The template *)

(** The text below has a backquote where the page has a double quote; a Go raw
    string has no backquotes of its own. *)
Fixpoint quotes (s : string) : string :=
  match s with
  | EmptyString => EmptyString
  | String c r => String (if code c =? 96 then "034"%char else c) (quotes r)
  end.

Definition page_text0 : string := quotes "<!DOCTYPE html>
<html lang=`en`>
<head>
<meta charset=`utf-8`>
<meta name=`viewport` content=`width=device-width, initial-scale=1`>
<title>Access Verification — Dnivio</title>
<style>
  body { font-family: -apple-system, BlinkMacSystemFont, sans-serif; max-width: 480px; margin: 10vh auto; padding: 2rem; text-align: center; background: #fff; color: #333; }
  .spinner { border: 3px solid #e0e0e0; border-top: 3px solid #2563eb; border-radius: 50%; width: 40px; height: 40px; animation: spin 1s linear infinite; margin: 2rem auto; }
  @keyframes spin { 0% { transform: rotate(0deg); } 100% { transform: rotate(360deg); } }
  .dest { font-weight: 600; color: #1e40af; word-break: break-all; }
  .status { color: #6b7280; font-size: 0.9rem; margin-top: 1.5rem; }
</style>
</head>
<body>
<h1>Access Verification Required</h1>
<p>You are requesting access to <span class=`dest`>".
Definition page_text1 : string := quotes "</span>.</p>
<p>Please approve the request on your trusted mobile device.</p>
<div class=`spinner`></div>
<div class=`status`>Waiting for biometric approval…</div>
<script>
  (function() {
    var pollPath = `".
Definition page_text2 : string := quotes "`;
    var requestID = `".
Definition page_text3 : string := quotes "`;
    function check() {
      fetch(pollPath, { credentials: `same-origin`, cache: `no-store` })
        .then(function(r) { return r.json(); })
        .then(function(data) {
          if (data.status === `APPROVED`) {
            location.reload();
          } else if (data.status === `DENIED` || data.status === `EXPIRED`) {
            document.querySelector(`.status`).textContent = `Access ` + data.status.toLowerCase() + `.`;
            document.querySelector(`.spinner`).style.display = `none`;
          } else {
            setTimeout(check, ".
Definition page_text4 : string := quotes " * 1000);
          }
        })
        .catch(function() {
          setTimeout(check, ".
Definition page_text5 : string := quotes " * 1000);
        });
    }
    setTimeout(check, 1000);
  })();
</script>
</body>
</html>".

(** [pageTemplate] *)
Definition pageTemplate (d : interstitialData) : string :=
  page_text0 +:+ htmlEscaper (id_DestName d) +:+
  page_text1 +:+ jsStrEscaper (id_PollPath d) +:+
  page_text2 +:+ jsStrEscaper (id_RequestID d) +:+
  page_text3 +:+ jsValEscaper (id_RefreshAfter d) +:+
  page_text4 +:+ jsValEscaper (id_RefreshAfter d) +:+ page_text5.

#[export] Instance go_template : PageTemplate := {| pageTemplate_Execute := pageTemplate |}.

(** ** Nothing in the data becomes markup *)

(** The characters that open and close tags and attribute values. *)
Definition markup (s : string) : list ascii :=
  filter (fun c => code c ∈ [34; 39; 60; 62]) (String.list_ascii_of_string s).

Lemma markup_app a b : markup (a +:+ b) = markup a ++ markup b.
Proof.
  unfold markup. induction a as [|c a IH]; [done|]. change (String c a +:+ b) with (String c (a +:+ b)).
  cbn [String.list_ascii_of_string]. rewrite !filter_cons, IH. by case_decide.
Qed.

Lemma html_char_safe c : markup (html_char c) = [].
Proof. by destruct c as [[] [] [] [] [] [] [] []]. Qed.
Lemma js_char_safe c : markup (js_char c) = [].
Proof. by destruct c as [[] [] [] [] [] [] [] []]. Qed.

Lemma htmlEscaper_safe s : markup (htmlEscaper s) = [].
Proof. induction s as [|c s IH]; [done|]. cbn [htmlEscaper]. by rewrite markup_app, html_char_safe, IH. Qed.

Lemma jsStrEscaper_safe s : markup (jsStrEscaper s) = [].
Proof.
  enough (H : forall n s, (String.length s <= n)%nat -> markup (jsStrEscaper s) = []) by by eapply H.
  clear s. induction n as [|n IH]; intros [|c r] Hn; [done|cbn in Hn; lia|done|]. cbn in Hn.
  assert (Hc : markup (js_char c +:+ jsStrEscaper r) = []) by (rewrite markup_app, js_char_safe, IH; [done|lia]).
  destruct r as [|c2 [|c3 r]]; [exact Hc..|]. cbn in Hn.
  assert (Hs : forall p, markup p = [] -> markup (p +:+ jsStrEscaper r) = [])
    by (intros p Hp; rewrite markup_app, Hp, IH; [done|lia]).
  cbn [jsStrEscaper]. cbn [jsStrEscaper] in Hc.
  destruct (_ && _ && (code c3 =? 168)); [by apply Hs|]. destruct (_ && _ && (code c3 =? 169)); [by apply Hs|].
  exact Hc.
Qed.

(** Whatever the destination and the request are, the page served has the
    same quotes and angle brackets in the same order: nothing that is filled in
    opens or closes a tag, an attribute or a script string. *)
Theorem page_markup_fixed `{UT : UuidText} id cap dest id' cap' dest' :
  markup (rw_Body (ServeInterstitial id cap dest)) = markup (rw_Body (ServeInterstitial id' cap' dest')).
Proof.
  unfold ServeInterstitial. cbn [rw_Body pageTemplate_Execute go_template]. unfold pageTemplate.
  cbn [id_DestName id_PollPath id_RequestID id_RefreshAfter].
  by rewrite !markup_app, !htmlEscaper_safe, !jsStrEscaper_safe.
Qed.

(** ** The page's own script is not run *)

(** A content security policy with a [script-src] runs an inline script only by one
    of these source expressions. *)
Definition inline_sources : list string :=
  ["'unsafe-inline'"; "'nonce-"; "'sha256-"; "'sha384-"; "'sha512-"]%string.
Definition mentions (policy word : string) : bool :=
  match String.index 0 word policy with Some _ => true | None => false end.
Definition allows_inline (policy : string) : bool := existsb (mentions policy) inline_sources.

Lemma splice (a e p m q rest : string) :
  (a +:+ e +:+ (p +:+ m +:+ q) +:+ rest = (a +:+ e +:+ p) +:+ m +:+ (q +:+ rest))%string.
Proof. by rewrite !string_app_assoc. Qed.

(** The policy sent with the page forbids inline scripts and styles, and the script
    that polls for the decision is one: a browser that honours the header shows the
    page and never asks for the status. *)
Theorem poll_script_blocked `{UT : UuidText} id cap dest :
  exists policy before after,
    rw_Header (ServeInterstitial id cap dest) !! 0%nat = Some ("Content-Security-Policy"%string, policy) /\
    mentions policy "script-src" = true /\ allows_inline policy = false /\
    rw_Body (ServeInterstitial id cap dest) = (before +:+ "<script>" +:+ after)%string.
Proof.
  set (n := match String.index 0 "<script>" page_text1 with Some n => n | None => 0%nat end).
  set (p := String.substring 0 n page_text1). set (q := String.substring (n + 8) (String.length page_text1) page_text1).
  assert (E : page_text1 = (p +:+ "<script>" +:+ q)%string) by (vm_compute; reflexivity).
  do 3 eexists. split; [reflexivity|]. split; [reflexivity|]. split; [reflexivity|].
  unfold ServeInterstitial. cbn [rw_Body pageTemplate_Execute go_template]. unfold pageTemplate. rewrite E.
  apply splice.
Qed.
