(* ===== verification/TcpProxy.v ===== *)
(** * TcpProxy: the accept-and-hold proxy and its session registry

    [daemon/internal/tcpproxy/proxy.go].  Every accepted connection runs
    [handleConnection] in a goroutine of its own; the goroutines share the map of
    held connections and the atomic counter.  The model gives each goroutine the
    point it has reached ([point]) and lets any of them take its next step, so the
    check of the bound and the registration, which the code does not make atomic,
    can interleave.  What the two callbacks answer is part of the step.

    That a held client connection is closed, by its handler or by [Stop], is not
    recorded: nothing in the code reads it back.

    [Read] and the session registry are plain functions on their state; closing a
    connection of a registered session is recorded in [sr_closed]. *)

From stdpp Require Import base gmap strings list fin_maps.
From Stdlib Require Import ZArith Lia Strings.Byte.
From S2P Require Import Prelude Identity.

Open Scope Z_scope.
Open Scope go_scope.

(** [atomic.Int32] *)
Definition wrap32 (z : Z) : Z := (z + 2147483648) mod 4294967296 - 2147483648.

(** ** Configuration *)

Record Config : Type := mkConfig {
  cfg_ListenAddr : string;
  cfg_BackendAddr : string;
  cfg_MaxPendingConns : Z;
  cfg_MaxPreApprovalBytes : Z;
  cfg_MaxAggregateMem : Z
}.

(** [DefaultConfig] *)
Definition DefaultConfig : Config := mkConfig "" "" 100 65536 268435456.

(** ** Held connections *)

Record heldConnection : Type := mkHeld {
  hc_ID : bytes;
  hc_Conn : nat;
  hc_SrcAddr : string;
  hc_DstAddr : string;
  hc_Buffered : bytes;
  hc_BufferedLen : Z;
  hc_CreatedAt : Time
}.

(** The connection [handleConnection] registers: [Buffered] is never allocated. *)
Definition new_held (connID : bytes) (conn : nat) (src dst : string) (now : Time) : heldConnection :=
  mkHeld connID conn src dst [] 0 now.

(** [heldConnection.Read]: [incoming] is what [Conn.Read] put in the buffer, or
    its error. *)
Definition held_Read (hc : heldConnection) (incoming : outcome bytes)
    : outcome bytes * heldConnection :=
  if wrap32 (Z.of_nat (length (hc_Buffered hc))) <=? hc_BufferedLen hc
  then (Err (Errorf "tcpproxy: pre-approval buffer exceeded" []), hc) else
  match incoming with
  | Ok b =>
      let space := Z.of_nat (length (hc_Buffered hc)) - hc_BufferedLen hc in
      if 0 <? space then
        let copyLen := if space <? Z.of_nat (length b) then space else Z.of_nat (length b) in
        let n := Z.to_nat (hc_BufferedLen hc) in
        let k := Z.to_nat copyLen in
        (Ok b, mkHeld (hc_ID hc) (hc_Conn hc) (hc_SrcAddr hc) (hc_DstAddr hc)
                 (take n (hc_Buffered hc) ++ take k b ++ drop (n + k) (hc_Buffered hc))
                 (wrap32 (hc_BufferedLen hc + wrap32 copyLen)) (hc_CreatedAt hc))
      else (Ok b, hc)
  | Err e => (Err e, hc)
  | Panic => (Panic, hc)
  end.

(** ** The proxy *)

(** Where a goroutine of [handleConnection] is. *)
Inductive point : Type :=
| Accepted                    (* before the ACL callback *)
| Authorized                  (* before the check of the bound *)
| Allowed                    (* before the id is drawn and the connection registered *)
| Holding (hc : heldConnection)    (* registered, before the approval callback *)
| Approved (hc : heldConnection)   (* before dialling the backend *)
| Spliced (hc : heldConnection)    (* bytes flow to and from the backend *)
| Returning (hc : heldConnection)  (* before the deferred removal *)
| Closed.

(** What the outside sees: callbacks, and the connection to the backend with the
    buffered bytes it is sent first. *)
Inductive event : Type :=
| EvPreAuthorize (conn : nat) (allowed : bool)
| EvRequestApproval (conn : nat) (approved : bool)
| EvDial (conn : nat) (connected : bool) (replayed : bytes).

(** [if hc.BufferedLen > 0 { backend.Write(hc.Buffered[:hc.BufferedLen]) }] *)
Definition replay (hc : heldConnection) : bytes :=
  if 0 <? hc_BufferedLen hc then take (Z.to_nat (hc_BufferedLen hc)) (hc_Buffered hc) else [].

Record Proxy : Type := mkProxy {
  px_activeConns : gmap bytes heldConnection;
  px_pendingCount : Z;
  px_stopped : bool;
  px_threads : gmap nat (point * (string * string));
  px_events : list event
}.

(** [New] *)
Definition New : Proxy := mkProxy ∅ 0 false ∅ [].

Definition set_point (c : nat) (p : point) (addrs : string * string) (x : Proxy) : Proxy :=
  mkProxy (px_activeConns x) (px_pendingCount x) (px_stopped x) (<[c := (p, addrs)]> (px_threads x))
    (px_events x).
Definition emit (e : event) (x : Proxy) : Proxy :=
  mkProxy (px_activeConns x) (px_pendingCount x) (px_stopped x) (px_threads x) (px_events x ++ [e]).

(** The critical sections that register and remove a held connection. *)
Definition register (connID : bytes) (hc : heldConnection) (x : Proxy) : Proxy :=
  mkProxy (<[connID := hc]> (px_activeConns x)) (wrap32 (px_pendingCount x + 1)) (px_stopped x)
    (px_threads x) (px_events x).
Definition unregister (connID : bytes) (x : Proxy) : Proxy :=
  mkProxy (delete connID (px_activeConns x)) (wrap32 (px_pendingCount x + -1)) (px_stopped x)
    (px_threads x) (px_events x).

(** [Proxy.Stop]: the second call closes a closed channel. *)
Definition Stop (x : Proxy) : outcome Proxy :=
  if px_stopped x then Panic
  else Ok (mkProxy ∅ (px_pendingCount x) true (px_threads x) (px_events x)).

Section Steps.
Context (maxPendingConns : Z).

(** One step of the proxy: the accept loop, a goroutine, or [Stop].  A callback
    that returns an error counts as [false], as in the code. *)
Inductive step : Proxy -> Proxy -> Prop :=
| step_accept x c addrs : px_stopped x = false -> px_threads x !! c = None ->
    step x (set_point c Accepted addrs x)
| step_preauth x c addrs ok : px_threads x !! c = Some (Accepted, addrs) ->
    step x (emit (EvPreAuthorize c ok) (set_point c (if ok : bool then Authorized else Closed) addrs x))
| step_bound x c addrs : px_threads x !! c = Some (Authorized, addrs) ->
    step x (set_point c (if maxPendingConns <=? px_pendingCount x then Closed else Allowed) addrs x)
| step_rand_fails x c addrs : px_threads x !! c = Some (Allowed, addrs) ->
    step x (set_point c Closed addrs x)
| step_register x c src dst connID now : px_threads x !! c = Some (Allowed, (src, dst)) ->
    length connID = 32%nat ->
    let hc := new_held connID c src dst now in
    step x (set_point c (Holding hc) (src, dst) (register connID hc x))
| step_approval x c addrs hc ok : px_threads x !! c = Some (Holding hc, addrs) ->
    step x (emit (EvRequestApproval c ok)
              (set_point c (if ok : bool then Approved hc else Returning hc) addrs x))
| step_dial x c addrs hc ok : px_threads x !! c = Some (Approved hc, addrs) ->
    step x (emit (EvDial c ok (if ok : bool then replay hc else []))
              (set_point c (if ok then Spliced hc else Returning hc) addrs x))
| step_splice_ends x c addrs hc : px_threads x !! c = Some (Spliced hc, addrs) ->
    step x (set_point c (Returning hc) addrs x)
| step_deferred x c addrs hc : px_threads x !! c = Some (Returning hc, addrs) ->
    step x (set_point c Closed addrs (unregister (hc_ID hc) x))
| step_stop x x' : Stop x = Ok x' -> step x x'.

End Steps.

(** ** The session registry *)

Record ActiveSession : Type := mkActiveSession {
  as_ConnectionID : string;
  as_GrantJTI : UUID;
  as_DeviceID : UUID;
  as_OpenedAt : Time;
  as_Conn : nat
}.

Record SessionRegistry : Type := mkRegistry {
  sr_sessions : gmap string ActiveSession;
  sr_grantMap : gmap UUID (list string);
  sr_closed : list nat
}.

(** [NewSessionRegistry] *)
Definition NewSessionRegistry : SessionRegistry := mkRegistry ∅ ∅ [].

(** [SessionRegistry.Register] *)
Definition Register (sr : SessionRegistry) (s : ActiveSession) : SessionRegistry :=
  mkRegistry (<[as_ConnectionID s := s]> (sr_sessions sr))
    (<[as_GrantJTI s := default [] (sr_grantMap sr !! as_GrantJTI s) ++ [as_ConnectionID s]]>
       (sr_grantMap sr)) (sr_closed sr).

(** [SessionRegistry.Unregister] *)
Definition Unregister (sr : SessionRegistry) (connectionID : string) : SessionRegistry :=
  mkRegistry (delete connectionID (sr_sessions sr)) (sr_grantMap sr) (sr_closed sr).

(** Close a session's connection and drop the session. *)
Definition close_session (connID : string) (s : ActiveSession) (sr : SessionRegistry)
    : SessionRegistry :=
  mkRegistry (delete connID (sr_sessions sr)) (sr_grantMap sr) (sr_closed sr ++ [as_Conn s]).

(** [SessionRegistry.TerminateByDevice], over the sessions in the order the map
    iteration visits them. *)
Fixpoint terminate_device_loop (deviceID : UUID) (l : list (string * ActiveSession)) (count : Z)
    (sr : SessionRegistry) : Z * SessionRegistry :=
  match l with
  | [] => (count, sr)
  | (connID, s) :: rest =>
      if as_DeviceID s == deviceID
      then terminate_device_loop deviceID rest (count + 1) (close_session connID s sr)
      else terminate_device_loop deviceID rest count sr
  end.
Definition TerminateByDevice (order : list (string * ActiveSession)) (sr : SessionRegistry)
    (deviceID : UUID) : Z * SessionRegistry :=
  terminate_device_loop deviceID order 0 sr.

(** [SessionRegistry.TerminateByGrant] *)
Fixpoint terminate_grant_loop (connIDs : list string) (count : Z) (sr : SessionRegistry)
    : Z * SessionRegistry :=
  match connIDs with
  | [] => (count, sr)
  | connID :: rest =>
      match sr_sessions sr !! connID with
      | Some s => terminate_grant_loop rest (count + 1) (close_session connID s sr)
      | None => terminate_grant_loop rest count sr
      end
  end.
Definition TerminateByGrant (sr : SessionRegistry) (grantJTI : UUID) : Z * SessionRegistry :=
  match sr_grantMap sr !! grantJTI with
  | Some connIDs =>
      let '(count, sr) := terminate_grant_loop connIDs 0 sr in
      (count, mkRegistry (sr_sessions sr) (delete grantJTI (sr_grantMap sr)) (sr_closed sr))
  | None => (0, sr)
  end.
