(* ===== verification/TcpProxyProps.v ===== *)
(** * TcpProxyProps: no bytes before approval, and what the registry closes

    Safety of the interleaved connection handlers by rule induction, the exact
    value of the pending counter, the bound that concurrent checks exceed, the
    pre-approval buffer, and termination of sessions by grant and by device. *)

From stdpp Require Import base gmap strings list fin_maps.
From Stdlib Require Import ZArith Lia Strings.Byte.
From S2P Require Import Prelude Identity TcpProxy.

Open Scope Z_scope.
Open Scope go_scope.

(** ** Approval before the backend *)

(** Both callbacks said yes, in this order. *)
Definition cleared (c : nat) (es : list event) : Prop :=
  [EvPreAuthorize c true; EvRequestApproval c true] `sublist_of` es.

Lemma cleared_app c es es' : cleared c es -> cleared c (es ++ es').
Proof. intros H. unfold cleared in *. etrans; [exact H|]. by apply sublist_inserts_r. Qed.

(** What the history of a connection says at each point of its handler. *)
Definition point_history (c : nat) (p : point) (es : list event) : Prop :=
  match p with
  | Accepted | Closed => True
  | Authorized | Allowed | Holding _ => EvPreAuthorize c true ∈ es
  | Approved _ | Spliced _ => cleared c es
  | Returning _ => True
  end.

(** Held connections carry an empty buffer, and the history matches the points. *)
Record proxy_ok (x : Proxy) : Prop := mkProxyOk {
  po_points : forall c p addrs, px_threads x !! c = Some (p, addrs) -> point_history c p (px_events x);
  po_empty : forall c p addrs hc, px_threads x !! c = Some (p, addrs) ->
    p = Holding hc \/ p = Approved hc -> hc_BufferedLen hc = 0;
  po_dials : forall l1 c ok b l2, px_events x = l1 ++ EvDial c ok b :: l2 -> cleared c l1 /\ b = []
}.

Lemma point_history_app c p es es' : point_history c p es -> point_history c p (es ++ es').
Proof. destruct p; cbn; eauto using cleared_app; set_solver. Qed.

(** Moving one goroutine, with or without an event that is not a dial. *)
Lemma proxy_ok_move x x' c p addrs es :
  proxy_ok x -> px_threads x' = <[c := (p, addrs)]> (px_threads x) -> px_events x' = px_events x ++ es ->
  point_history c p (px_events x ++ es) ->
  (forall hc, p = Holding hc \/ p = Approved hc -> hc_BufferedLen hc = 0) ->
  (forall l1 c ok b l2, px_events x ++ es = l1 ++ EvDial c ok b :: l2 ->
     (exists l2', px_events x = l1 ++ EvDial c ok b :: l2') \/ (cleared c l1 /\ b = [])) ->
  proxy_ok x'.
Proof.
  intros [H1 H2 H3] Ht He Hp Hb Hd. split; rewrite ?Ht, ?He.
  - intros c' p' addrs' [[<- [= <- <-]]|[_ H]]%lookup_insert_Some; [done|].
    by eapply point_history_app, H1.
  - intros c' p' addrs' hc [[<- [= <- <-]]|[_ H]]%lookup_insert_Some Hcase; [by apply Hb|by eapply H2].
  - intros l1 c' ok b l2 E. destruct (Hd _ _ _ _ _ E) as [[l2' E']|?]; [by eapply H3|done].
Qed.

Lemma dial_not_last (es es' : list event) l1 c ok b l2 :
  Forall (fun e => match e with EvDial _ _ _ => False | _ => True end) es' ->
  es ++ es' = l1 ++ EvDial c ok b :: l2 -> exists l2', es = l1 ++ EvDial c ok b :: l2'.
Proof.
  intros Hf E. apply app_eq_inv in E as [(k & -> & E)|(k & -> & E)].
  - destruct k as [|e k]; cbn in E.
    + subst es'. by inversion Hf.
    + injection E as <- ->. by exists k.
  - subst es'. apply Forall_app in Hf as [_ Hf]. by inversion Hf.
Qed.

Lemma proxy_step_ok n x x' : step n x x' -> proxy_ok x -> proxy_ok x'.
Proof.
  intros Hs Hok.
  assert (Hquiet : forall p : Prop, p -> forall l1 c ok b l2, px_events x ++ [] = l1 ++ EvDial c ok b :: l2 ->
     (exists l2', px_events x = l1 ++ EvDial c ok b :: l2') \/ (cleared c l1 /\ b = [])).
  { intros p _ l1 c ok b l2 E. left. by eapply dial_not_last. }
  destruct Hs as [x c addrs _ _|x c addrs ok Hc|x c addrs Hc|x c addrs Hc|x c src dst connID now Hc _ hc|
    x c addrs hc ok Hc|x c addrs hc ok Hc|x c addrs hc Hc|x c addrs hc Hc|x x' Hc].
  - eapply (proxy_ok_move x _ c Accepted addrs []); [done|done|by rewrite app_nil_r|done|naive_solver|eauto].
  - eapply (proxy_ok_move x _ c _ addrs [EvPreAuthorize c ok]); [done..| | |].
    + destruct ok; cbn; [set_solver|done].
    + destruct ok; naive_solver.
    + intros. left. eapply dial_not_last; [|done]. by repeat constructor.
  - eapply (proxy_ok_move x _ c _ addrs []); [done|done|by rewrite app_nil_r| | |eauto].
    + rewrite app_nil_r. pose proof (po_points _ Hok _ _ _ Hc). by destruct (_ <=? _).
    + destruct (_ <=? _); naive_solver.
  - eapply (proxy_ok_move x _ c Closed addrs []); [done|done|by rewrite app_nil_r|done|naive_solver|eauto].
  - eapply (proxy_ok_move x _ c (Holding hc) _ []); [done|done|by rewrite app_nil_r| | |eauto].
    + rewrite app_nil_r. apply (po_points _ Hok _ _ _ Hc).
    + intros hc' [[= <-]|[=]]. done.
  - eapply (proxy_ok_move x _ c _ addrs [EvRequestApproval c ok]); [done..| | |].
    + pose proof (po_points _ Hok _ _ _ Hc) as Hp. destruct ok; [|done]. cbn in *. unfold cleared.
      apply list_elem_of_split in Hp as (l1 & l2 & ->). rewrite <- app_assoc. apply sublist_inserts_l.
      cbn. constructor. apply sublist_inserts_l. done.
    + intros hc' Hcase. eapply (po_empty _ Hok _ _ _ hc' Hc). left. destruct ok; naive_solver.
    + intros. left. eapply dial_not_last; [|done]. by repeat constructor.
  - pose proof (po_points _ Hok _ _ _ Hc) as Hp. cbn in Hp.
    assert (Hb : hc_BufferedLen hc = 0) by (eapply (po_empty _ Hok _ _ _ hc Hc); by right).
    eapply (proxy_ok_move x _ c _ addrs [EvDial c ok (if ok then replay hc else [])]); [done..| | |].
    + destruct ok; [|done]. by apply cleared_app.
    + destruct ok; naive_solver.
    + intros l1 c' ok' b l2 E. apply app_eq_inv in E as [(k & Ex & E)|(k & -> & E)].
      * destruct k as [|e k]; cbn in E; [injection E as -> -> -> ->|injection E as <- ->; left; by exists k].
        right. rewrite Ex, app_nil_r in Hp. split; [done|]. destruct ok; [|done]. unfold replay. by rewrite Hb.
      * destruct k as [|e k]; cbn in E; [injection E as <- <- <- <-|injection E as _ E; by destruct k].
        right. rewrite app_nil_r. split; [done|]. destruct ok; [|done]. unfold replay. by rewrite Hb.
  - eapply (proxy_ok_move x _ c (Returning hc) addrs []); [done|done|by rewrite app_nil_r|done|naive_solver|eauto].
  - eapply (proxy_ok_move x _ c Closed addrs []); [done|done|by rewrite app_nil_r|done|naive_solver|eauto].
  - unfold Stop in Hc. destruct (px_stopped x); [done|]. injection Hc as <-. by destruct Hok.
Qed.

Lemma proxy_reachable_ok n x : rtc (step n) New x -> proxy_ok x.
Proof.
  intros Hs. assert (H0 : proxy_ok New).
  { split; cbn; [intros *; by rewrite lookup_empty..|]. intros l1 c ok b l2 E. by destruct l1. }
  remember New as y eqn:Ey. clear Ey. induction Hs; eauto using proxy_step_ok.
Qed.

(** C18.  No byte before approval: however the connection handlers interleave, the
    backend is dialled for a connection only after its ACL check and then its
    approval both answered yes, and nothing buffered before the approval is
    sent. *)
Theorem backend_only_after_approval n x l1 c ok b l2 :
  rtc (step n) New x -> px_events x = l1 ++ EvDial c ok b :: l2 ->
  [EvPreAuthorize c true; EvRequestApproval c true] `sublist_of` l1 /\ b = [].
Proof. intros Hs He. by eapply (po_dials _ (proxy_reachable_ok _ _ Hs)). Qed.

(** ** The pending counter *)

(** Registered, and not yet removed by the deferred function. *)
Definition registered (p : point) : Prop :=
  match p with Holding _ | Approved _ | Spliced _ | Returning _ => True | _ => False end.
#[export] Instance registered_dec p : base.Decision (registered p).
Proof. destruct p; apply _. Defined.

Definition held_count (m : gmap nat (point * (string * string))) : Z :=
  Z.of_nat (size (filter (fun x => registered x.2.1) m)).
Definition weight (p : point) : Z :=
  match p with Holding _ | Approved _ | Spliced _ | Returning _ => 1 | _ => 0 end.

Lemma held_count_new m c p addrs :
  m !! c = None -> held_count (<[c := (p, addrs)]> m) = held_count m + weight p.
Proof.
  intros Hn. unfold held_count. destruct (decide (registered p)) as [Hr|Hr].
  - replace (weight p) with 1 by (by destruct p).
    rewrite map_filter_insert_True by done. rewrite map_size_insert_None; [lia|].
    apply map_lookup_filter_None. by left.
  - replace (weight p) with 0 by (by destruct p).
    rewrite map_filter_insert_not'; [lia|done|]. intros y Hy. congruence.
Qed.

Lemma held_count_move m c p p' addrs addrs' :
  m !! c = Some (p, addrs) ->
  held_count (<[c := (p', addrs')]> m) = held_count m - weight p + weight p'.
Proof.
  intros Hc. pose proof (held_count_new (delete c m) c p addrs (lookup_delete_eq _ _)) as H1.
  pose proof (held_count_new (delete c m) c p' addrs' (lookup_delete_eq _ _)) as H2.
  rewrite insert_delete_eq in H1, H2. rewrite insert_id in H1 by done. lia.
Qed.

Lemma wrap32_add_l a b : wrap32 (wrap32 a + b) = wrap32 (a + b).
Proof.
  unfold wrap32. f_equal.
  replace ((a + 2147483648) mod 4294967296 - 2147483648 + b + 2147483648)
    with ((a + 2147483648) mod 4294967296 + b) by lia.
  rewrite Zplus_mod_idemp_l. f_equal. lia.
Qed.

(** C30.  The counter is exact: in every reachable state [pendingCount] is the
    number of connections that are registered and not yet removed, as a 32-bit
    integer; so it is back to zero when they have all returned. *)
Theorem pending_counter_exact n x :
  rtc (step n) New x -> px_pendingCount x = wrap32 (held_count (px_threads x)).
Proof.
  intros Hs. assert (H0 : px_pendingCount New = wrap32 (held_count (px_threads New))) by done.
  remember New as y eqn:Ey. clear Ey. induction Hs as [x|x1 x2 x3 H12 _ IH]; [done|]. apply IH. clear IH.
  destruct H12 as [x c addrs _ Hc|x c addrs ok Hc|x c addrs Hc|x c addrs Hc|x c src dst connID now Hc _ hc|
    x c addrs hc ok Hc|x c addrs hc ok Hc|x c addrs hc Hc|x c addrs hc Hc|x x' Hc]; cbn.
  1: rewrite held_count_new by done.
  2-9: erewrite held_count_move by done.
  - by rewrite H0, Z.add_0_r.
  - destruct ok; rewrite H0; f_equal; unfold weight; cbn; lia.
  - destruct (_ <=? _); rewrite H0; f_equal; unfold weight; cbn; lia.
  - rewrite H0; f_equal; unfold weight; cbn; lia.
  - rewrite H0, wrap32_add_l; f_equal; unfold weight; cbn; lia.
  - destruct ok; rewrite H0; f_equal; unfold weight; cbn; lia.
  - destruct ok; rewrite H0; f_equal; unfold weight; cbn; lia.
  - rewrite H0; f_equal; unfold weight; cbn; lia.
  - rewrite H0, wrap32_add_l; f_equal; unfold weight; cbn; lia.
  - unfold Stop in Hc. destruct (px_stopped x); [done|]. injection Hc as <-. done.
Qed.

(** ** The bound *)

Definition all_at (p : nat -> point) (n : nat) (x : Proxy) : Prop :=
  px_stopped x = false /\
  forall c, px_threads x !! c = if decide (c < n)%nat then Some (p c, ("src", "dst"))%string else None.

(** [n] goroutines pass the check of a bound of one before any registers. *)
Lemma all_admitted n : exists x, rtc (step 1) New x /\ px_pendingCount x = 0 /\ all_at (fun _ => Allowed) n x.
Proof.
  induction n as [|n (x & Hx & Hp & Hs & Ht)].
  { exists New. split_and!; [done..|]. split; [done|]. intros c. by rewrite decide_False by lia. }
  assert (Hn : px_threads x !! n = None) by (by rewrite Ht, decide_False by lia).
  set (x1 := set_point n Accepted ("src", "dst")%string x).
  set (x2 := emit (EvPreAuthorize n true) (set_point n Authorized ("src", "dst")%string x1)).
  exists (set_point n Allowed ("src", "dst")%string x2). split_and!; [|done|split; [done|]].
  - eapply rtc_r; [eapply rtc_r; [eapply rtc_r; [exact Hx|]|]|].
    + by apply step_accept.
    + apply (step_preauth 1 x1 n ("src", "dst")%string true). cbn. by rewrite lookup_insert_eq.
    + pose proof (step_bound 1 x2 n ("src", "dst")%string) as H. cbn in H. rewrite Hp in H. apply H.
      by rewrite lookup_insert_eq.
  - intros c. cbn. rewrite !insert_insert_eq. destruct (decide (c = n)) as [->|Hne].
    + rewrite lookup_insert_eq. by rewrite decide_True by lia.
    + rewrite lookup_insert_ne, Ht by done. destruct (decide (c < n)%nat), (decide (c < S n)%nat); done || lia.
Qed.

(** The bound on pending connections is not enforced: with a maximum of one,
    any number of connections can be held at the same time, because the check and
    the registration are separate steps. *)
Theorem pending_bound_exceeded n :
  exists x, rtc (step 1) New x /\ held_count (px_threads x) = Z.of_nat n.
Proof.
  destruct (all_admitted n) as (x0 & Hx0 & _ & Hs0 & Ht0).
  assert (H : forall k, (k <= n)%nat -> exists x, rtc (step 1) New x /\
    held_count (px_threads x) = Z.of_nat k /\
    forall c, (k <= c < n)%nat -> px_threads x !! c = Some (Allowed, ("src", "dst")%string)).
  { induction k as [|k IH]; intros Hk.
    - exists x0. split_and!; [done| |intros c Hc; by rewrite Ht0, decide_True by lia].
      unfold held_count. rewrite (proj2 (map_size_empty_iff _)); [done|]. apply map_empty.
      intros c. apply map_lookup_filter_None. right. intros [p addrs] Hc. rewrite Ht0 in Hc.
      destruct (decide _); [|done]. injection Hc as <- _. cbn. tauto.
    - destruct IH as (x & Hx & Hh & Ht); [lia|]. pose proof (Ht k ltac:(lia)) as Hk'.
      eexists. split; [eapply rtc_r; [exact Hx|]|split].
      + by apply (step_register 1 x k "src" "dst" (replicate 32 x00) 0 Hk').
      + cbn. erewrite held_count_move by done. rewrite Hh. unfold weight. cbn. lia.
      + intros c Hc. cbn. rewrite lookup_insert_ne by lia. apply Ht. lia. }
  destruct (H n) as (x & Hx & Hh & _); [done|]. eauto.
Qed.

(** ** The buffer *)

(** A held connection of the proxy has no buffer, so every read is refused before
    it reads; in general the buffer holds the first bytes that were read. *)
Theorem held_read_refused connID conn src dst now incoming :
  let hc := new_held connID conn src dst now in
  held_Read hc incoming = (Err (Errorf "tcpproxy: pre-approval buffer exceeded" []), hc).
Proof. done. Qed.

(** Well-formed buffers of a size an int32 can count. *)
Definition buffer_ok (hc : heldConnection) : Prop :=
  0 <= hc_BufferedLen hc <= Z.of_nat (length (hc_Buffered hc)) /\
  Z.of_nat (length (hc_Buffered hc)) < 2147483648.

Lemma wrap32_id z : 0 <= z < 2147483648 -> wrap32 z = z.
Proof. intros H. unfold wrap32. rewrite Z.mod_small by lia. lia. Qed.

(** The buffer stays in bounds and records a prefix: a read on a well-formed
    held connection keeps it well formed, never grows or shrinks the buffer, and
    appends to what is replayed exactly the bytes that fit. *)
Theorem held_read_buffers hc b r hc' :
  buffer_ok hc -> held_Read hc (Ok b) = (r, hc') ->
  buffer_ok hc' /\ length (hc_Buffered hc') = length (hc_Buffered hc) /\
  let room := Z.to_nat (Z.of_nat (length (hc_Buffered hc)) - hc_BufferedLen hc) in
  (room = 0%nat /\ hc' = hc /\ (exists e, r = Err e)) \/
  (r = Ok b /\ take (Z.to_nat (hc_BufferedLen hc')) (hc_Buffered hc') =
     take (Z.to_nat (hc_BufferedLen hc)) (hc_Buffered hc) ++ take room b).
Proof.
  intros [[H0 H1] H2] Hr. unfold held_Read in Hr. rewrite wrap32_id in Hr by lia.
  destruct (_ <=? _) eqn:El in Hr; go_bool.
  { injection Hr as <- <-. split_and!; [done|done|]. left. split_and!; [lia|done|eauto]. }
  rewrite (proj2 (Z.ltb_lt _ _)) in Hr by lia. injection Hr as <- <-.
  set (n := Z.to_nat (hc_BufferedLen hc)). set (len := length (hc_Buffered hc)) in *.
  set (k := Z.to_nat (if _ <? _ then _ else _)).
  assert (Hk : k = (length b `min` (len - n))%nat).
  { unfold k, n. destruct (_ <? _) eqn:E; go_bool; lia. }
  assert (Hkn : (n + k <= len)%nat) by (unfold n; lia).
  assert (Hc : wrap32 (hc_BufferedLen hc + wrap32 (if Z.of_nat len - hc_BufferedLen hc <? Z.of_nat (length b)
      then Z.of_nat len - hc_BufferedLen hc else Z.of_nat (length b))) = Z.of_nat (n + k)).
  { assert (E : (if Z.of_nat len - hc_BufferedLen hc <? Z.of_nat (length b)
      then Z.of_nat len - hc_BufferedLen hc else Z.of_nat (length b)) = Z.of_nat k).
    { unfold k. rewrite Z2Nat.id; [done|]. destruct (_ <? _); lia. }
    rewrite E, (wrap32_id (Z.of_nat k)) by lia. rewrite wrap32_id; unfold n; lia. }
  assert (Hlen : length (take n (hc_Buffered hc) ++ take k b ++ drop (n + k) (hc_Buffered hc)) = len).
  { rewrite !length_app, !length_take, length_drop. fold len. lia. }
  split_and!.
  - unfold buffer_ok. cbn. rewrite Hc, Hlen. lia.
  - cbn. exact Hlen.
  - right. split; [done|]. cbn. rewrite Hc, Nat2Z.id.
    rewrite app_assoc, take_app_length'.
    + f_equal. replace (Z.to_nat _) with (len - n)%nat by (unfold n; lia). rewrite Hk.
      destruct (Nat.min_spec (length b) (len - n)) as [[? ->]|[? ->]]; [|done].
      by rewrite !take_ge by lia.
    + rewrite length_app, !length_take. fold len. lia.
Qed.

(** ** The session registry *)

(** Sessions are stored under their own id and listed under their grant. *)
Definition registry_ok (sr : SessionRegistry) : Prop :=
  forall id s, sr_sessions sr !! id = Some s ->
    as_ConnectionID s = id /\ exists l, sr_grantMap sr !! as_GrantJTI s = Some l /\ id ∈ l.

Lemma terminate_grant_loop_spec l c sr :
  let '(c', sr') := terminate_grant_loop l c sr in
  sr_grantMap sr' = sr_grantMap sr /\
  (forall id, sr_sessions sr' !! id = if decide (id ∈ l) then None else sr_sessions sr !! id) /\
  exists closed, sr_closed sr' = sr_closed sr ++ closed /\ c' = c + Z.of_nat (length closed) /\
    forall conn, conn ∈ closed <-> exists id s, id ∈ l /\ sr_sessions sr !! id = Some s /\ as_Conn s = conn.
Proof.
  revert c sr. induction l as [|id l IH]; intros c sr; cbn [terminate_grant_loop].
  { split_and!; [done..|]. exists []. rewrite app_nil_r. split_and!; [done|cbn; lia|set_solver]. }
  destruct (sr_sessions sr !! id) as [s|] eqn:E.
  - specialize (IH (c + 1) (close_session id s sr)). destruct (terminate_grant_loop _ _ _) as [c' sr'].
    destruct IH as (Hg & Hs & closed & Hc & Hn & Hcl). split; [done|]. split.
    + intros id'. rewrite Hs. cbn. destruct (decide (id' = id)) as [->|Hne].
      * rewrite lookup_delete_eq. rewrite (decide_True (P := id ∈ id :: l)) by set_solver. by destruct (decide _).
      * rewrite lookup_delete_ne by done. destruct (decide (id' ∈ l)), (decide (id' ∈ id :: l)); set_solver.
    + exists (as_Conn s :: closed). cbn in Hc. rewrite Hc, <- app_assoc. split_and!; [done|cbn [length]; lia|].
      intros conn. rewrite elem_of_cons, Hcl. cbn. split.
      * intros [->|(id' & s' & Hin & Hl & <-)]; [exists id, s; set_solver|].
        apply lookup_delete_Some in Hl as [_ Hl]. exists id', s'. set_solver.
      * intros (id' & s' & Hin & Hl & <-). destruct (decide (id' = id)) as [->|Hne]; [left; congruence|].
        right. exists id', s'. rewrite lookup_delete_ne by done. set_solver.
  - specialize (IH c sr). destruct (terminate_grant_loop _ _ _) as [c' sr'].
    destruct IH as (Hg & Hs & closed & Hc & Hn & Hcl). split; [done|]. split.
    + intros id'. rewrite Hs. destruct (decide (id' = id)) as [->|Hne].
      * rewrite (decide_True (P := id ∈ id :: l)) by set_solver. by destruct (decide _).
      * destruct (decide (id' ∈ l)), (decide (id' ∈ id :: l)); set_solver.
    + exists closed. split_and!; [done..|]. intros conn. rewrite Hcl. split.
      * intros (id' & s' & Hin & H). exists id', s'. set_solver.
      * intros (id' & s' & Hin & Hl & H). exists id', s'. split_and!; [|done..].
        apply elem_of_cons in Hin as [->|Hin]; [congruence|done].
Qed.

(** Revoking a grant closes its sessions: from a well-formed registry,
    [TerminateByGrant] leaves no session of the grant, closes the connection of
    every session it had, reports how many connections it closed, and keeps the
    registry well formed. *)
Theorem terminate_by_grant_complete sr jti :
  registry_ok sr ->
  let '(count, sr') := TerminateByGrant sr jti in
  registry_ok sr' /\
  (forall id s, sr_sessions sr' !! id = Some s -> as_GrantJTI s <> jti /\ sr_sessions sr !! id = Some s) /\
  exists closed, sr_closed sr' = sr_closed sr ++ closed /\ count = Z.of_nat (length closed) /\
    forall id s, sr_sessions sr !! id = Some s -> as_GrantJTI s = jti -> as_Conn s ∈ closed.
Proof.
  intros Hok. unfold TerminateByGrant. destruct (sr_grantMap sr !! jti) as [l|] eqn:Eg.
  - pose proof (terminate_grant_loop_spec l 0 sr) as H. destruct (terminate_grant_loop l 0 sr) as [c sr'].
    destruct H as (Hg & Hs & closed & Hc & -> & Hcl).
    assert (Hkeep : forall id s, sr_sessions sr' !! id = Some s ->
      as_GrantJTI s <> jti /\ sr_sessions sr !! id = Some s).
    { intros id s H. rewrite Hs in H. destruct (decide (id ∈ l)); [done|]. split; [|done]. intros <-.
      destruct (Hok _ _ H) as (_ & l' & Hl' & Hin). by rewrite Eg in Hl'; injection Hl' as <-. }
    split_and!; [|exact Hkeep|].
    + intros id s H. destruct (Hkeep id s H) as [Hne H']. destruct (Hok _ _ H') as (Hid & l' & Hl' & Hin).
      split; [done|]. exists l'. cbn. rewrite Hg. by rewrite lookup_delete_ne.
    + exists closed. split_and!; [done|lia|]. intros id s H <-. apply Hcl. exists id, s.
      destruct (Hok _ _ H) as (_ & l' & Hl' & Hin). rewrite Eg in Hl'. injection Hl' as <-. done.
  - assert (Hno : forall id s, sr_sessions sr !! id = Some s -> as_GrantJTI s <> jti).
    { intros id s H <-. destruct (Hok _ _ H) as (_ & l' & Hl' & _). congruence. }
    split_and!; [done|eauto|]. exists []. rewrite app_nil_r. split_and!; [done..|].
    intros id s H E. by destruct (Hno _ _ H).
Qed.

Lemma terminate_device_loop_spec dev l c sr :
  NoDup l.*1 -> (forall id s, (id, s) ∈ l -> sr_sessions sr !! id = Some s) ->
  terminate_device_loop dev l c sr =
    (c + Z.of_nat (length (filter (fun x => as_DeviceID x.2 = dev) l)),
     mkRegistry (foldr (fun x m => delete x.1 m) (sr_sessions sr)
                   (filter (fun x => as_DeviceID x.2 = dev) l))
       (sr_grantMap sr) (sr_closed sr ++ map (fun x => as_Conn x.2) (filter (fun x => as_DeviceID x.2 = dev) l))).
Proof.
  revert c sr. induction l as [|[id s] l IH]; intros c sr Hnd Hin; cbn [terminate_device_loop].
  { cbn. rewrite Z.add_0_r, app_nil_r. by destruct sr. }
  cbn in Hnd. apply NoDup_cons in Hnd as [Hni Hnd]. rewrite filter_cons. cbn [snd].
  assert (Hne : forall id' s', (id', s') ∈ l -> id' <> id).
  { intros id' s' H ->. apply Hni, list_elem_of_fmap. by exists (id, s'). }
  destruct (as_DeviceID s == dev) eqn:E; [rewrite eqb_true in E; rewrite decide_True by done
    |rewrite eqb_false in E; rewrite decide_False by done].
  - rewrite IH; [|done|].
    + cbn. rewrite <- app_assoc. f_equal; [lia|]. f_equal.
      clear -Hne. induction l as [|[id' s'] l IHl]; [done|]. rewrite filter_cons.
      assert (Hd : forall x y, (x, y) ∈ l -> x <> id) by (intros; eapply Hne; by right).
      destruct (decide _); cbn; rewrite ?IHl; auto. apply delete_delete.
    + intros id' s' H. cbn. rewrite lookup_delete_ne; [by apply Hin; right|]. intros <-. by eapply Hne.
  - apply IH; [done|]. intros id' s' H. apply Hin. by right.
Qed.

(** Revoking a device closes exactly its sessions, in whatever order they are
    visited. *)
Theorem terminate_by_device_exact order sr dev :
  order ≡ₚ map_to_list (sr_sessions sr) ->
  let '(count, sr') := TerminateByDevice order sr dev in
  sr_sessions sr' = filter (fun x => as_DeviceID x.2 <> dev) (sr_sessions sr) /\
  sr_grantMap sr' = sr_grantMap sr /\
  exists closed, sr_closed sr' = sr_closed sr ++ closed /\ count = Z.of_nat (length closed) /\
    closed ≡ₚ map (fun x => as_Conn x.2) (filter (fun x => as_DeviceID x.2 = dev) (map_to_list (sr_sessions sr))).
Proof.
  intros Hp. unfold TerminateByDevice. rewrite terminate_device_loop_spec; cycle 1.
  { rewrite Hp. apply NoDup_fst_map_to_list. }
  { intros id s H. rewrite Hp in H. by apply elem_of_map_to_list in H. }
  cbn. split_and!; [|done|].
  - apply map_eq. intros id.
    assert (Hf : forall l : list (string * ActiveSession), foldr (fun x m => delete x.1 m) (sr_sessions sr) l !! id =
      if decide (id ∈ l.*1) then None else sr_sessions sr !! id).
    { induction l as [|[id' s] l IHl]; [done|]. cbn. destruct (decide (id = id')) as [->|Hne].
      - rewrite lookup_delete_eq, decide_True; [done|set_solver].
      - rewrite lookup_delete_ne, IHl by done. destruct (decide (id ∈ l.*1)), (decide (id ∈ id' :: l.*1)); set_solver. }
    rewrite Hf. destruct (sr_sessions sr !! id) as [s|] eqn:E.
    + assert (Hin : id ∈ (filter (fun x => as_DeviceID x.2 = dev) order).*1 <-> as_DeviceID s = dev).
      { rewrite list_elem_of_fmap. split.
        - intros ([id' s'] & -> & [Hd Ho]%list_elem_of_filter). rewrite Hp in Ho.
          apply elem_of_map_to_list in Ho. cbn in *. congruence.
        - intros Hd. exists (id, s). split; [done|]. apply list_elem_of_filter. split; [done|].
          rewrite Hp. by apply elem_of_map_to_list. }
      destruct (decide _) as [Hi|Hi]; symmetry.
      * apply map_lookup_filter_None. right. intros s' Hs'. rewrite E in Hs'. injection Hs' as <-. cbn. tauto.
      * apply map_lookup_filter_Some. split; [done|]. cbn. tauto.
    + rewrite (proj2 (map_lookup_filter_None _ _ _)); [by destruct (decide _)|by left].
  - eexists. split; [done|]. rewrite length_map. split; [done|]. apply Permutation_map. by rewrite Hp.
Qed.

(** Registration, unregistration and termination keep the registry well formed. *)
Lemma Register_ok sr s : registry_ok sr -> registry_ok (Register sr s).
Proof.
  intros Hok id s' H. cbn in H |- *. apply lookup_insert_Some in H as [[<- <-]|[Hne H]].
  - split; [done|]. eexists. rewrite lookup_insert_eq. split; [done|]. set_solver.
  - destruct (Hok _ _ H) as (Hid & l & Hl & Hin). split; [done|].
    destruct (decide (as_GrantJTI s' = as_GrantJTI s)) as [E|E].
    + rewrite E, lookup_insert_eq. eexists. split; [done|]. rewrite E in Hl. rewrite Hl. set_solver.
    + rewrite lookup_insert_ne by done. eauto.
Qed.

Lemma sessions_shrink_ok sr sr' :
  sr_grantMap sr' = sr_grantMap sr -> sr_sessions sr' ⊆ sr_sessions sr -> registry_ok sr -> registry_ok sr'.
Proof. intros Hg Hs Hok id s H. rewrite Hg. apply Hok. by eapply lookup_weaken. Qed.

Lemma Unregister_ok sr id : registry_ok sr -> registry_ok (Unregister sr id).
Proof. apply sessions_shrink_ok; [done|]. apply delete_subseteq. Qed.

(** ** Concrete instances *)

(** A connection that is let through, step by step. *)
Definition one_conn : Proxy :=
  let addrs := ("100.64.0.1:1", "100.64.0.2:8443")%string in
  let hc := new_held (replicate 32 x07) 0 "100.64.0.1:1" "100.64.0.2:8443" 5 in
  let x1 := emit (EvPreAuthorize 0 true) (set_point 0 Authorized addrs (set_point 0 Accepted addrs New)) in
  let x2 := set_point 0 (Holding hc) addrs (register (hc_ID hc) hc (set_point 0 Allowed addrs x1)) in
  let x3 := emit (EvRequestApproval 0 true) (set_point 0 (Approved hc) addrs x2) in
  emit (EvDial 0 true []) (set_point 0 (Spliced hc) addrs x3).

Lemma one_conn_reachable : rtc (step 100) New one_conn.
Proof.
  pose (addrs := ("100.64.0.1:1", "100.64.0.2:8443")%string). unfold one_conn.
  eapply rtc_l; [apply (step_accept 100 _ 0 addrs); reflexivity|].
  eapply rtc_l; [apply (step_preauth 100 _ 0 addrs true); reflexivity|].
  eapply rtc_l; [apply (step_bound 100 _ 0 addrs); reflexivity|].
  eapply rtc_l; [apply (step_register 100 _ 0 (fst addrs) (snd addrs) (replicate 32 x07) 5); reflexivity|].
  eapply rtc_l; [apply (step_approval 100 _ 0 addrs (new_held (replicate 32 x07) 0 (fst addrs) (snd addrs) 5) true); reflexivity|].
  eapply rtc_l; [apply (step_dial 100 _ 0 addrs (new_held (replicate 32 x07) 0 (fst addrs) (snd addrs) 5) true); reflexivity|].
  apply rtc_refl.
Qed.

Lemma backend_only_after_approval_witness :
  [EvPreAuthorize 0 true; EvRequestApproval 0 true]
    `sublist_of` [EvPreAuthorize 0 true; EvRequestApproval 0 true] /\ ([] : bytes) = [].
Proof. exact (backend_only_after_approval 100 one_conn _ 0 true [] [] one_conn_reachable eq_refl). Defined.

Lemma pending_counter_exact_witness :
  px_pendingCount one_conn = wrap32 (held_count (px_threads one_conn)) /\ px_pendingCount one_conn = 1.
Proof. split; [exact (pending_counter_exact 100 one_conn one_conn_reachable)|reflexivity]. Defined.

Definition eight_bytes : heldConnection := mkHeld [] 0 "" "" (replicate 4 x00) 1 0.
Lemma held_read_buffers_witness :
  exists hc', held_Read eight_bytes (Ok [x01; x02]) = (Ok [x01; x02], hc') /\ buffer_ok hc'.
Proof.
  eexists. split; [reflexivity|].
  apply (held_read_buffers eight_bytes [x01; x02] (Ok [x01; x02])); [|reflexivity].
  split; cbn; lia.
Defined.

Definition two_sessions : SessionRegistry :=
  Register (Register NewSessionRegistry (mkActiveSession "c1" (uuid_of_Z 1) (uuid_of_Z 5) 0 11))
    (mkActiveSession "c2" (uuid_of_Z 2) (uuid_of_Z 6) 0 12).
Lemma two_sessions_ok : registry_ok two_sessions.
Proof.
  apply Register_ok, Register_ok. intros id s H. cbn in H. by rewrite lookup_empty in H.
Qed.

Lemma terminate_by_grant_complete_witness :
  registry_ok (TerminateByGrant two_sessions (uuid_of_Z 1)).2 /\
  sr_closed (TerminateByGrant two_sessions (uuid_of_Z 1)).2 = [11%nat].
Proof.
  pose proof (terminate_by_grant_complete two_sessions (uuid_of_Z 1) two_sessions_ok) as H.
  destruct (TerminateByGrant two_sessions (uuid_of_Z 1)) as [c sr'] eqn:E.
  split; [exact (proj1 H)|]. apply (f_equal (fun x => sr_closed x.2)) in E. cbn [snd] in E |- *.
  rewrite <- E. vm_compute. reflexivity.
Defined.

Lemma terminate_by_device_exact_witness :
  sr_sessions (TerminateByDevice (map_to_list (sr_sessions two_sessions)) two_sessions (uuid_of_Z 6)).2
  = filter (fun x => as_DeviceID x.2 <> uuid_of_Z 6) (sr_sessions two_sessions).
Proof.
  pose proof (terminate_by_device_exact (map_to_list (sr_sessions two_sessions)) two_sessions (uuid_of_Z 6)
    (reflexivity _)) as H.
  destruct (TerminateByDevice _ two_sessions (uuid_of_Z 6)) as [c sr']. exact (proj1 H).
Defined.
