(* ===== verification/Ssh.v ===== *)
(** * Ssh: the hooks of sshd and the daemon-side authorizer

    [daemon/internal/ssh/enforcer.go]: the Tailscale SSH hook, the PAM module and
    the [AuthorizedKeysCommand] helper with the texts they exchange with the
    daemon, and the authorizer that answers them and keeps the SSH sessions.

    Connections are modelled by what one exchange on them returns; the approval
    callback is an argument.  [fmt.Sscanf] is modelled for the verbs the authorizer
    uses, on the UTF-8 runes of its input. *)

From stdpp Require Import base gmap strings list fin_maps.
From Stdlib Require Import ZArith Lia Strings.Byte.
From S2P Require Import Prelude Identity Cose Runes.

Open Scope Z_scope.
Open Scope go_scope.

(** ** Requests and results *)

Record OIDCUser : Type := mkOIDCUser { ou_Issuer : string; ou_Subject : string; ou_UserID : string }.

Record PrincipalInfo : Type := mkPrincipal {
  pi_TenantID : UUID;
  pi_TailnetID : string;
  pi_SrcNodeID : string;
  pi_SrcNodeKeyEpoch : Z;
  pi_User : option OIDCUser;
  pi_NodeState : string
}.

Record ApprovalRequest : Type := mkApprovalRequest {
  ar_RequestID : UUID;
  ar_Principal : option PrincipalInfo;
  ar_Hostname : string;
  ar_SSHAccount : string;
  ar_Protocol : string;
  ar_SessionID : bytes
}.

Record ApprovalResult : Type := mkApprovalResult {
  ap_Approved : bool;
  ap_GrantJTI : UUID;
  ap_SessionID : bytes;
  ap_ExpiresAt : Time
}.

(** The approval callback; a nil result is [None]. *)
Abbreviation Approver := (ApprovalRequest -> outcome (option ApprovalResult)) (only parsing).

(** ** Tailscale SSH *)

(** [TSSSHEnforcer.AuthorizeSession] *)
Definition AuthorizeSession (resolvePrincipal : outcome PrincipalInfo) (requestApproval : Approver)
    (rnd : option bytes) (requestID : UUID) (hostname sshAccount : string) : outcome bytes :=
  principal ← wrap "ssh: resolve principal: %w — denying access" [] resolvePrincipal;
  match rnd with
  | None => Err (Wrapf "ssh: generate session id: %w" [] (Errorf "rand" []))
  | Some sessionID =>
      result ← wrap "ssh: approval request failed: %w" []
        (requestApproval (mkApprovalRequest requestID (Some principal) hostname sshAccount "SSH" sessionID));
      match result with
      | None => Panic
      | Some r =>
          if negb (ap_Approved r)
          then Err (Errorf "ssh: access denied — biometric approval not granted" [])
          else Ok sessionID
      end
  end.

(** ** The client side of the socket *)

(** One exchange: dialling, writing, and what the next [Read] returns. *)
Record Channel : Type := mkChannel {
  ch_dial : outcome unit;
  ch_write : bytes -> outcome unit;
  ch_read : bytes -> outcome bytes
}.

(** Write a request and read at most [size] bytes of the answer. *)
Definition exchange (connectMsg sendMsg readMsg : string) (size : nat) (ch : Channel) (request : bytes)
    : outcome bytes :=
  wrap connectMsg [] (ch_dial ch) ≫= fun _ =>
  wrap sendMsg [] (ch_write ch request) ≫= fun _ =>
  response ← wrap readMsg [] (ch_read ch request);
  Ok (take size response).

Definition acct_request (username rhost pamTxnID : string) : string :=
  ("ACCT," +:+ username +:+ "," +:+ rhost +:+ "," +:+ pamTxnID)%string.

(** [PAMModule.PAMAccountCheck] *)
Definition PAMAccountCheck (ch : Channel) (username rhost pamTxnID : string) : outcome unit :=
  response ← exchange "pam: connect to daemon: %w" "pam: send request: %w" "pam: read response: %w" 256 ch
    (str_bytes (acct_request username rhost pamTxnID));
  if response != str_bytes "ALLOW" then Err (Errorf "pam: access denied" []) else Ok tt.

Section AuthorizedKeys.
Context `{GC : GoCrypto}.

Definition authkeys_request (username : string) (publicKey : bytes) : string :=
  ("AUTHKEYS," +:+ username +:+ "," +:+ hex (sha256 publicKey))%string.

(** [AuthorizedKeysHelper.Execute] *)
Definition Execute (ch : Channel) (username : string) (publicKey : bytes) : outcome bytes :=
  response ← exchange "authkeys: connect to daemon: %w" "authkeys: send request: %w"
    "authkeys: read response: %w" 1024 ch (str_bytes (authkeys_request username publicKey));
  if response == str_bytes "DENY" then Err (Errorf "authkeys: access denied" []) else Ok publicKey.

End AuthorizedKeys.

(** ** Scanning *)

(** [ss.SkipSpace]: [None] is the error of an unexpected newline.  The fuel is the
    number of bytes left. *)
Fixpoint SkipSpace (fuel : nat) (l : bytes) : option bytes :=
  match fuel, l with
  | O, _ | _, [] => Some l
  | S f, b :: r =>
      let '(c, w) := decode_rune b r in
      if (c =? 13) && (match r with b1 :: _ => b1 == x0a | [] => false end) then SkipSpace f r
      else if c =? 10 then None
      else if isSpace c then SkipSpace f (drop w l)
      else Some l
  end.

(** [s.token(true, notSpace)] after the spaces: the word and the rest. *)
Fixpoint token (fuel : nat) (l : bytes) : bytes * bytes :=
  match fuel, l with
  | O, _ | _, [] => ([], l)
  | S f, b :: r =>
      let '(c, w) := decode_rune b r in
      if isSpace c then ([], l) else
      let '(t, rest) := token f (drop w l) in (rune_bytes c w l ++ t, rest)
  end.

(** The verb [%s]: spaces, then a word that is not empty. *)
Definition scan_s (l : bytes) : option (bytes * bytes) :=
  match SkipSpace (length l) l with
  | Some (b :: r) => Some (token (length (b :: r)) (b :: r))
  | _ => None
  end.

(** A literal of the format. *)
Fixpoint scan_literal (lit l : bytes) : option bytes :=
  match lit, l with
  | [], _ => Some l
  | x :: lit', y :: l' => if x == y then scan_literal lit' l' else None
  | _ :: _, [] => None
  end.

(** [fmt.Sscanf(request, "ACCT,%s,%s", &username, &rhost)]: what the variables
    hold afterwards; the results of the call are ignored. *)
Definition Sscanf_acct (request : bytes) : string * string :=
  match scan_literal (str_bytes "ACCT,") request with
  | None => ("", "")
  | Some l =>
      match scan_s l with
      | None => ("", "")
      | Some (u, l) =>
          match scan_literal (str_bytes ",") l with
          | None => (bytes_str u, "")
          | Some l => match scan_s l with
                      | None => (bytes_str u, "")
                      | Some (h, _) => (bytes_str u, bytes_str h)
                      end
          end
      end
  end%string.

(** ** The daemon side *)

Record SSHSession : Type := mkSSHSession {
  ss_SessionID : bytes;
  ss_Username : string;
  ss_RemoteHost : string;
  ss_GrantJTI : UUID;
  ss_DeviceID : UUID;
  ss_OpenedAt : Time;
  ss_PAMTxnID : string
}.

(** [Authorizer.activeSessions] *)
Abbreviation Authorizer := (gmap bytes SSHSession) (only parsing).

Definition NewAuthorizer : Authorizer := ∅.

(** [Authorizer.handleRequest]: what is written back ([None]: nothing) and the
    sessions.  [rand.Read] errors are ignored; [DeviceID] is not set, so it is the
    zero UUID. *)
Definition handleRequest (a : Authorizer) (requestApproval : Approver) (incoming : outcome bytes)
    (rnd : option bytes) (requestID : UUID) (now : Time) : outcome (option bytes * Authorizer) :=
  match incoming with
  | Err _ => Ok (None, a)
  | Panic => Panic
  | Ok buf =>
      let '(username, rhost) := Sscanf_acct (take 1024 buf) in
      let sessionID := default (replicate 32 x00) rnd in
      match requestApproval (mkApprovalRequest requestID None rhost username "SSH" sessionID) with
      | Panic => Panic
      | Err _ => Ok (Some (str_bytes "DENY"), a)
      | Ok None => Panic
      | Ok (Some r) =>
          if negb (ap_Approved r) then Ok (Some (str_bytes "DENY"), a) else
          Ok (Some (str_bytes "ALLOW"),
              <[sessionID := mkSSHSession sessionID username rhost (ap_GrantJTI r) uuid_Nil now ""]> a)
      end
  end.

(** [Authorizer.listener]: nil before [Start], then open until [Stop]. *)
Inductive Listener : Type := NilListener | Listening | ClosedListener.

(** [Authorizer.Start]: the accept loop runs when the socket could be opened; a
    failed [net.Listen] returns a nil listener. *)
Definition Start (socketPath : string) (listen : outcome unit) : outcome unit * Listener :=
  match wrap "ssh: listen on %s: %w" [AStr socketPath] listen with
  | Ok _ => (Ok tt, Listening)
  | r => (r, NilListener)
  end.

(** [Authorizer.Stop] *)
Definition Stop (l : Listener) : Listener :=
  match l with NilListener => NilListener | _ => ClosedListener end.

(** [Authorizer.acceptLoop]: the connections handed to [handleRequest], out of the
    results of [Accept]; the first error ends the loop. *)
Fixpoint acceptLoop {C : Type} (accepts : list (outcome C)) : list C :=
  match accepts with
  | Ok conn :: rest => conn :: acceptLoop rest
  | _ => []
  end.

(** [Authorizer.TerminateSession] *)
Definition TerminateSession (a : Authorizer) (sessionID : bytes) : outcome unit * Authorizer :=
  match a !! sessionID with
  | None => (Err (Errorf "ssh: session %s not found" [ABytes sessionID]), a)
  | Some _ => (Ok tt, delete sessionID a)
  end.

(** [Authorizer.TerminateByDevice], over the sessions in the order the map
    iteration visits them. *)
Fixpoint terminate_by_device_loop (deviceID : UUID) (l : list (bytes * SSHSession)) (count : Z)
    (a : Authorizer) : Z * Authorizer :=
  match l with
  | [] => (count, a)
  | (id, session) :: rest =>
      if ss_DeviceID session == deviceID
      then terminate_by_device_loop deviceID rest (count + 1) (delete id a)
      else terminate_by_device_loop deviceID rest count a
  end.
Definition TerminateByDevice (order : list (bytes * SSHSession)) (a : Authorizer) (deviceID : UUID)
    : Z * Authorizer :=
  terminate_by_device_loop deviceID order 0 a.
