(* ===== verification/SshProps.v ===== *)
(** * SshProps: the SSH hooks against the daemon

    What the client hooks accept, what the authorizer parses, and the composition
    of the PAM module with the authorizer behind the socket. *)

From stdpp Require Import base gmap strings list fin_maps.
From Stdlib Require Import ZArith Lia Strings.Byte.
From S2P Require Import Prelude Identity Cose Runes Ssh.

Open Scope Z_scope.
Open Scope go_scope.

(** ** Scanning *)

(** A word ends at a space or at the end of the input. *)
Lemma token_stops fuel l t rest :
  (length l <= fuel)%nat -> token fuel l = (t, rest) ->
  rest = [] \/ exists b r, rest = b :: r /\ isSpace (decode_rune b r).1 = true.
Proof.
  revert l t rest. induction fuel as [|fuel IH]; intros [|b r] t rest Hf Ht; cbn in Hf, Ht; try lia.
  - injection Ht as _ <-. by left.
  - injection Ht as _ <-. by left.
  - destruct (decode_rune b r) as [c w] eqn:Ed. destruct (isSpace c) eqn:Es.
    + injection Ht as _ <-. right. exists b, r. by rewrite Ed.
    + destruct (token fuel (drop w (b :: r))) as [t' rest'] eqn:E. injection Ht as _ <-.
      eapply IH; [|exact E]. rewrite length_drop. cbn.
      pose proof (decode_rune_width b r) as Hw. rewrite Ed in Hw. cbn in Hw. lia.
Qed.

(** So the comma of the format never matches after a word. *)
Lemma no_comma_after_word l u rest :
  scan_s l = Some (u, rest) -> scan_literal (str_bytes ",") rest = None.
Proof.
  unfold scan_s. destruct (SkipSpace _ l) as [[|b r]|]; [done| |done]. intros E.
  assert (E' : token (length (b :: r)) (b :: r) = (u, rest)) by congruence. clear E.
  apply token_stops in E' as [->|(b' & r' & -> & Hs)]; [done| |done].
  cbn. destruct (x2c == b') eqn:Eb; [|done]. rewrite eqb_true in Eb. subst b'. done.
Qed.

(** The authorizer never learns the remote host: whatever arrives, the second
    variable of its [Sscanf] stays empty, because [%s] reads up to a space and the
    format expects a comma. *)
Theorem remote_host_never_parsed request : (Sscanf_acct request).2 = ""%string.
Proof.
  unfold Sscanf_acct. destruct (scan_literal _ request) as [l|]; [|done].
  destruct (scan_s l) as [[u rest]|] eqn:E; [|done]. by rewrite (no_comma_after_word _ _ _ E).
Qed.

Lemma token_graphic l fuel :
  Forall (fun b => graphic b = true) l -> (length l <= fuel)%nat -> token fuel l = (l, []).
Proof.
  intros Hg. revert fuel. induction Hg as [|b l Hb _ IH]; intros fuel Hf; [by destruct fuel|].
  destruct fuel as [|fuel]; [cbn in Hf; lia|]. cbn [token]. rewrite (graphic_rune b l Hb).
  rewrite (graphic_not_space b Hb). cbn [drop]. rewrite IH by (cbn in Hf; lia).
  unfold rune_bytes. destruct (Z_of_byte b =? RuneError) eqn:E; [|done].
  apply Z.eqb_eq in E. pose proof (Z_of_byte_bound b). unfold RuneError in E. lia.
Qed.

Lemma scan_s_graphic l :
  l <> [] -> Forall (fun b => graphic b = true) l -> scan_s l = Some (l, []).
Proof.
  intros Hn Hg. destruct l as [|b l]; [done|]. unfold scan_s.
  assert (E : SkipSpace (length (b :: l)) (b :: l) = Some (b :: l)).
  { inversion Hg as [|? ? Hb]; subst. cbn [length SkipSpace]. rewrite (graphic_rune b l Hb).
    pose proof (graphic_not_space b Hb) as Hs. unfold graphic in Hb. rewrite andb_true_iff, !Z.leb_le in Hb.
    rewrite (proj2 (Z.eqb_neq _ 13)), (proj2 (Z.eqb_neq _ 10)) by lia. cbn [andb]. by rewrite Hs. }
  rewrite E. by rewrite token_graphic.
Qed.

(** The account the daemon asks approval for is the whole request: for
    printable texts, user name, host and transaction id end up joined in the
    account name. *)
Theorem account_swallows_fields username rhost txn :
  Forall (fun b => graphic b = true) (str_bytes (username +:+ "," +:+ rhost +:+ "," +:+ txn)) ->
  Sscanf_acct (str_bytes (acct_request username rhost txn))
  = (username +:+ "," +:+ rhost +:+ "," +:+ txn, "")%string.
Proof.
  intros Hg. unfold Sscanf_acct, acct_request. rewrite (str_bytes_app "ACCT,").
  set (l := str_bytes (username +:+ "," +:+ rhost +:+ "," +:+ txn)) in *.
  assert (E0 : scan_literal (str_bytes "ACCT,") (str_bytes "ACCT," ++ l) = Some l) by reflexivity.
  rewrite E0.
  assert (Hn : l <> []).
  { unfold l. rewrite !str_bytes_app. by destruct (str_bytes username). }
  rewrite (scan_s_graphic l Hn Hg). cbn. unfold l. by rewrite bytes_str_str_bytes.
Qed.

(** ** PAM against the daemon *)

(** The daemon behind a socket that connects and delivers each request whole; a
    closed connection reads as an error. *)
Definition daemon_channel (a : gmap bytes SSHSession)
    (approve : ApprovalRequest -> outcome (option ApprovalResult)) (rnd : option bytes)
    (requestID : UUID) (now : Time) : Channel :=
  mkChannel (Ok tt) (fun _ => Ok tt) (fun request =>
    match handleRequest a approve (Ok request) rnd requestID now with
    | Ok (Some b, _) => Ok b
    | _ => Err (Errorf "EOF" [])
    end).

(** C25.  PAM admits exactly what was approved: with the authorizer behind its
    socket, [PAMAccountCheck] returns nil if and only if the approval callback
    approved the request the authorizer built from what PAM sent. *)
Theorem pam_admits_iff_approved a approve rnd rid now username rhost txn :
  PAMAccountCheck (daemon_channel a approve rnd rid now) username rhost txn = Ok tt <->
  exists r, approve (mkApprovalRequest rid None ""
      (Sscanf_acct (take 1024 (str_bytes (acct_request username rhost txn)))).1 "SSH"
      (default (replicate 32 x00) rnd)) = Ok (Some r) /\ ap_Approved r = true.
Proof.
  unfold PAMAccountCheck, exchange, daemon_channel, handleRequest. cbn [ch_dial ch_write ch_read].
  pose proof (remote_host_never_parsed (take 1024 (str_bytes (acct_request username rhost txn)))) as Hh.
  destruct (Sscanf_acct _) as [u h]. cbn in Hh. subst h. cbn [fst].
  destruct (approve _) as [[r|]|e|]; [|split; [done|by intros (? & [=] & _)]..].
  destruct (ap_Approved r) eqn:Ea; split; try done.
  - intros _. by exists r.
  - intros (r' & [= <-] & ?). congruence.
Qed.

(** ** Sessions *)

(** Operations of the authorizer. *)
Inductive ssh_step : gmap bytes SSHSession -> gmap bytes SSHSession -> Prop :=
| ssh_handle a approve incoming rnd rid now out a' :
    handleRequest a approve incoming rnd rid now = Ok (out, a') -> ssh_step a a'
| ssh_terminate a id : ssh_step a (TerminateSession a id).2
| ssh_device a order dev : order ≡ₚ map_to_list a -> ssh_step a (TerminateByDevice order a dev).2.

(** No session knows its device. *)
Definition no_device (a : gmap bytes SSHSession) : Prop :=
  forall id s, a !! id = Some s -> ss_DeviceID s = uuid_Nil.

Lemma terminate_loop_subseteq dev l c a : (terminate_by_device_loop dev l c a).2 ⊆ a.
Proof.
  revert c a. induction l as [|[id s] l IH]; intros c a; cbn; [done|].
  destruct (_ == _); [|done]. etrans; [apply IH|]. apply delete_subseteq.
Qed.

Lemma no_device_subseteq a a' : a' ⊆ a -> no_device a -> no_device a'.
Proof. intros Hs Hn id s H. eapply Hn. by eapply lookup_weaken. Qed.

Lemma ssh_step_no_device a a' : ssh_step a a' -> no_device a -> no_device a'.
Proof.
  intros [? approve incoming rnd rid now out ? H|? id|? order dev _] Hn.
  - unfold handleRequest in H. destruct incoming as [buf|e|]; [|by injection H as _ <-|done].
    destruct (Sscanf_acct _) as [u h]. destruct (approve _) as [[r|]|e|]; [|done|by injection H as _ <-|done].
    destruct (negb _); injection H as _ <-; [done|].
    intros id s [[_ <-]|[_ Hl]]%lookup_insert_Some; [done|by eapply Hn].
  - unfold TerminateSession. destruct (_ !! id); cbn; [|done]. eapply no_device_subseteq; [|done].
    apply delete_subseteq.
  - eapply no_device_subseteq; [apply terminate_loop_subseteq|done].
Qed.

(** Revoking a device never ends an SSH session: in every state the
    authorizer can reach, [TerminateByDevice] for a real device terminates nothing,
    because no session records the device that approved it. *)
Theorem revoked_device_keeps_ssh_sessions a order dev :
  rtc ssh_step NewAuthorizer a -> order ≡ₚ map_to_list a -> dev <> uuid_Nil ->
  TerminateByDevice order a dev = (0, a).
Proof.
  intros Hs Hp Hd. assert (Hn : no_device a).
  { assert (H0 : no_device NewAuthorizer) by (intros id s; unfold NewAuthorizer; by rewrite lookup_empty).
    induction Hs; eauto using ssh_step_no_device. }
  assert (Hin : forall id s, (id, s) ∈ order -> ss_DeviceID s = uuid_Nil).
  { intros id s H. rewrite Hp in H. apply elem_of_map_to_list in H. by eapply Hn. }
  unfold TerminateByDevice. clear Hp Hs Hn. induction order as [|[id s] order IH]; [done|]. cbn.
  rewrite (Hin id s) by left. destruct (uuid_Nil == dev) eqn:E; [rewrite eqb_true in E; by destruct Hd|].
  apply IH. intros; eapply Hin. by right.
Qed.

(** ** The hooks *)

(** A Tailscale SSH session is admitted exactly when the principal was
    resolved and the approval granted; the session id is the random one. *)
Theorem authorize_session_sound resolve approve rnd rid host account sid :
  AuthorizeSession resolve approve rnd rid host account = Ok sid <->
  exists p r, resolve = Ok p /\ rnd = Some sid /\
    approve (mkApprovalRequest rid (Some p) host account "SSH" sid) = Ok (Some r) /\ ap_Approved r = true.
Proof.
  unfold AuthorizeSession. destruct resolve as [p|e|]; cbn; [|split; [done|by intros (? & ? & [=] & _)]..].
  destruct rnd as [s|]; cbn; [|split; [done|by intros (? & ? & _ & [=] & _)]].
  destruct (approve (mkApprovalRequest rid (Some p) host account "SSH" s)) as [[r|]|e|] eqn:E; cbn;
    [|split; [done|intros (? & ? & [= <-] & [= <-] & E' & _); congruence]..].
  destruct (ap_Approved r) eqn:Ea; cbn; split.
  - intros [= <-]. by exists p, r.
  - by intros (? & ? & _ & [= <-] & _).
  - done.
  - intros (p' & r' & [= <-] & [= <-] & E' & Ea'). congruence.
Qed.

Section Keys.
Context `{GC : GoCrypto}.

(** The [AuthorizedKeysCommand] helper fails open: every answer but the four bytes
    [DENY] authorises the key. *)
Theorem authorized_keys_fails_open ch username key answer :
  ch_dial ch = Ok tt -> (forall b, ch_write ch b = Ok tt) -> (forall b, ch_read ch b = Ok answer) ->
  take 1024 answer <> str_bytes "DENY" -> Execute ch username key = Ok key.
Proof.
  intros Hd Hw Hr Hn. unfold Execute, exchange. rewrite Hd, Hw, Hr. cbn [wrap mbind outcome_bind].
  by rewrite (proj2 (eqb_false _ _) Hn).
Qed.

(** And the request it sends is not one the authorizer parses: the approval is
    asked for an empty account. *)
Theorem authorized_keys_account_empty username key :
  Sscanf_acct (take 1024 (str_bytes (authkeys_request username key))) = ("", "")%string.
Proof. done. Qed.

End Keys.

(** One failed [Accept] ends the service for good: whatever is accepted after an
    error - a temporary one too - is never handled, while the listener stays open,
    so that later connections wait in vain. *)
Theorem accept_error_ends_service {C} (before after : list (outcome C)) e path :
  Forall (fun r => exists c, r = Ok c) before ->
  acceptLoop (before ++ Err e :: after) = acceptLoop before /\
  length (acceptLoop before) = length before /\ (Start path (Ok tt)).2 = Listening.
Proof.
  intros Hb. split_and!; [| |done]; induction Hb as [|r l [c ->] _ IH]; cbn; [done|by rewrite IH|done|by rewrite IH].
Qed.

(** ** Concrete instances *)

Lemma accept_error_ends_service_witness :
  acceptLoop [Ok 1%nat; Err (Errorf "accept: too many open files" []); Ok 2%nat] = [1%nat].
Proof.
  apply (proj1 (accept_error_ends_service [Ok 1%nat] [Ok 2%nat] (Errorf "accept: too many open files" []) "s"
    ltac:(repeat constructor; eexists; reflexivity))).
Defined.

Lemma account_swallows_fields_witness :
  Sscanf_acct (str_bytes (acct_request "alice" "host" "txn1")) = ("alice,host,txn1", "")%string.
Proof.
  apply (account_swallows_fields "alice" "host" "txn1"). vm_compute. repeat constructor.
Defined.

Definition approve_all (r : ApprovalRequest) : outcome (option ApprovalResult) :=
  Ok (Some (mkApprovalResult true (uuid_of_Z 77) (ar_SessionID r) 0)).
Definition one_session : gmap bytes SSHSession :=
  {[[x05] := mkSSHSession [x05] "alice,host,txn1" "" (uuid_of_Z 77) uuid_Nil 9 ""]}.

Lemma one_session_reachable : rtc ssh_step NewAuthorizer one_session.
Proof.
  apply rtc_once, (ssh_handle _ approve_all (Ok (str_bytes (acct_request "alice" "host" "txn1"))) (Some [x05])
    (uuid_of_Z 76) 9 (Some (str_bytes "ALLOW"))). vm_compute. reflexivity.
Qed.

Lemma revoked_device_keeps_ssh_sessions_witness :
  TerminateByDevice (map_to_list one_session) one_session (uuid_of_Z 5) = (0, one_session).
Proof.
  apply (revoked_device_keeps_ssh_sessions one_session (map_to_list one_session) (uuid_of_Z 5)
    one_session_reachable); [reflexivity|]. intros H. apply (f_equal uuid_bytes) in H. vm_compute in H. discriminate H.
Defined.
