(* ===== verification/Firewall.v ===== *)
(** * Firewall: isolation of the backend

    [daemon/internal/firewall/manager.go]: the rules per platform, the text given to
    [nft] and the commands run on the other platforms, verification and removal.
    Running a command is a parameter: [Exec] says whether it succeeds; every
    operation returns the commands it ran, in order. *)

From stdpp Require Import base strings list pretty.
From Stdlib Require Import ZArith Lia Strings.Ascii.
From S2P Require Import Prelude.

Open Scope Z_scope.
Open Scope go_scope.

(** ** Data *)

Definition OSLinux : string := "linux".
Definition OSWindows : string := "windows".
Definition OSMacOS : string := "macos".

(** [CurrentOS], from [runtime.GOOS]. *)
Definition CurrentOS (goos : string) : string :=
  if goos == "linux" then OSLinux
  else if goos == "windows" then OSWindows
  else if goos == "darwin" then OSMacOS
  else goos.

Record FirewallRule : Type := mkRule {
  fr_Name : string;
  fr_Table : string;
  fr_Chain : string;
  fr_Direction : string;
  fr_Protocol : string;
  fr_SrcAddr : string;
  fr_DstAddr : string;
  fr_DstPort : Z;
  fr_Target : string;
  fr_Priority : Z
}.

Record Manager : Type := mkManager {
  fm_os : string;
  fm_rules : list FirewallRule;
  fm_stopped : bool
}.

(** [NewManager] *)
Definition NewManager (goos : string) : Manager := mkManager (CurrentOS goos) [] false.

(** A command line with its standard input. *)
Record command : Type := mkCommand { cmd_args : list string; cmd_stdin : string }.

(** Whether the command exits with status 0. *)
Abbreviation Exec := (command -> bool) (only parsing).

Definition ErrExit : error := Errorf "exit status 1" [].
Definition cmd_Run (exec : Exec) (c : command) : outcome unit := if exec c then Ok tt else Err ErrExit.

(** ** Rules *)

Definition linux_rule (name protocol dst : string) (port : Z) (target : string) : FirewallRule :=
  mkRule name "dnivio-isolation" "INPUT" "INPUT" protocol "" dst port target 0.

(** [Manager.linuxNftablesRules] *)
Definition linuxNftablesRules (backendAddr : string) (backendPort proxyPort : Z) : list FirewallRule :=
  [linux_rule "dnivio-deny-direct-backend-v4" "tcp" backendAddr backendPort "DROP";
   linux_rule "dnivio-deny-direct-backend-v6" "tcp" backendAddr backendPort "DROP";
   linux_rule "dnivio-deny-backend-udp" "udp" backendAddr 0 "DROP";
   linux_rule "dnivio-allow-proxy-port" "tcp" "" proxyPort "ACCEPT"].

Definition plain_rule (name protocol dst : string) (port : Z) (target : string) : FirewallRule :=
  mkRule name "" "" "" protocol "" dst port target 0.

(** [Manager.windowsWFPRules] *)
Definition windowsWFPRules (backendAddr : string) (backendPort proxyPort : Z) : list FirewallRule :=
  [plain_rule "Dnivio Deny Direct Backend" "tcp" backendAddr backendPort "BLOCK";
   plain_rule "Dnivio Deny Backend UDP" "udp" backendAddr 0 "BLOCK"].

(** [Manager.macOSPFCRules] *)
Definition macOSPFCRules (backendAddr : string) (backendPort proxyPort : Z) : list FirewallRule :=
  [plain_rule "dnivio-deny-backend" "tcp" backendAddr backendPort "DROP";
   plain_rule "dnivio-deny-backend-udp" "udp" backendAddr 0 "DROP"].

(** ** Installation *)

Definition nl : string := String "010"%char "".

Definition nft_head : string :=
  ("#!/usr/sbin/nft -f" +:+ nl +:+ nl +:+
   "flush table inet dnivio-isolation 2>/dev/null" +:+ nl +:+
   "delete table inet dnivio-isolation 2>/dev/null" +:+ nl +:+ nl +:+
   "table inet dnivio-isolation {" +:+ nl +:+
   "    chain input {" +:+ nl +:+
   "        type filter hook input priority filter; policy accept;" +:+ nl)%string.
Definition nft_tail : string := ("    }" +:+ nl +:+ "}" +:+ nl)%string.

(** One turn of the loop of [installNftables]. *)
Definition nft_line (r : FirewallRule) : string :=
  if fr_Protocol r == "udp"
  then ("        udp daddr " +:+ fr_DstAddr r +:+ " dport " +:+ pretty (fr_DstPort r) +:+ " drop" +:+ nl)%string
  else ("        tcp daddr " +:+ fr_DstAddr r +:+ " dport " +:+ pretty (fr_DstPort r) +:+ " drop" +:+ nl)%string.

Definition nft_script (rules : list FirewallRule) : string :=
  (fold_left (fun s r => s +:+ nft_line r) rules nft_head +:+ nft_tail)%string.

(** [Manager.installNftables] *)
Definition installNftables (exec : Exec) (rules : list FirewallRule) : outcome unit * list command :=
  let cmd := mkCommand ["nft"; "-f"; "-"]%string (nft_script rules) in (cmd_Run exec cmd, [cmd]).

Definition netsh_add (r : FirewallRule) : command :=
  mkCommand ["netsh"; "advfirewall"; "firewall"; "add"; "rule"; "name=" +:+ fr_Name r; "dir=in";
             "protocol=" +:+ fr_Protocol r; "remoteip=" +:+ fr_DstAddr r; "action=block"]%string "".

(** [Manager.installWFP] *)
Fixpoint installWFP (exec : Exec) (rules : list FirewallRule) : outcome unit * list command :=
  match rules with
  | [] => (Ok tt, [])
  | r :: rest =>
      match cmd_Run exec (netsh_add r) with
      | Ok _ => let '(res, cs) := installWFP exec rest in (res, netsh_add r :: cs)
      | e => (wrap "firewall: netsh add rule %s: %w" [AStr (fr_Name r)] e, [netsh_add r])
      end
  end.

(** [Manager.installPF] *)
Definition installPF (exec : Exec) (rules : list FirewallRule) : outcome unit * list command :=
  (Ok tt, [mkCommand ["pfctl"; "-e"]%string ""]).

(** [Manager.installRules] *)
Definition installRules (exec : Exec) (m : Manager) (rules : list FirewallRule)
    : outcome unit * list command :=
  if fm_os m == OSLinux then installNftables exec rules
  else if fm_os m == OSWindows then installWFP exec rules
  else if fm_os m == OSMacOS then installPF exec rules
  else (Err (Errorf "firewall: unsupported platform %s for rule installation" [AStr (fm_os m)]), []).

(** [Manager.ApplyBackendIsolation] *)
Definition ApplyBackendIsolation (exec : Exec) (m : Manager) (backendAddr : string)
    (backendPort proxyPort : Z) : outcome unit * list command * Manager :=
  let go rules :=
    let m := mkManager (fm_os m) rules (fm_stopped m) in (installRules exec m rules, m) in
  if fm_os m == OSLinux then go (linuxNftablesRules backendAddr backendPort proxyPort)
  else if fm_os m == OSWindows then go (windowsWFPRules backendAddr backendPort proxyPort)
  else if fm_os m == OSMacOS then go (macOSPFCRules backendAddr backendPort proxyPort)
  else (Err (Errorf "firewall: unsupported OS %s" [AStr (fm_os m)]), [], m).

(** ** Verification and removal *)

(** The cadence of [StartVerification]; [time.NewTicker] panics on a period that
    is not positive. *)
Definition verification_interval (interval : Duration) : outcome Duration :=
  let interval := if Second <? interval then Second else interval in
  if interval <=? 0 then Panic else Ok interval.

(** [Manager.verify]: the result of the command is dropped. *)
Definition verify (exec : Exec) (m : Manager) : list command * Manager :=
  match fm_rules m with
  | [] => ([], m)
  | _ =>
      if fm_os m == OSLinux
      then ([mkCommand ["nft"; "list"; "table"; "inet"; "dnivio-isolation"]%string ""], m)
      else if fm_os m == OSWindows
      then ([mkCommand ["netsh"; "advfirewall"; "firewall"; "show"; "rule"; "name=dnivio"]%string ""], m)
      else if fm_os m == OSMacOS
      then ([mkCommand ["pfctl"; "-s"; "info"]%string ""], m)
      else ([], m)
  end.

(** [Manager.RemoveAll] *)
Definition RemoveAll (m : Manager) : list command * Manager :=
  (if fm_os m == OSLinux
   then [mkCommand ["nft"; "delete"; "table"; "inet"; "dnivio-isolation"]%string ""]
   else if fm_os m == OSWindows
   then map (fun r => mkCommand ["netsh"; "advfirewall"; "firewall"; "delete"; "rule";
                                 "name=" +:+ fr_Name r]%string "") (fm_rules m)
   else [],
   mkManager (fm_os m) [] (fm_stopped m)).

(** [Manager.Stop]: the second call closes a closed channel. *)
Definition Stop (m : Manager) : outcome (list command * Manager) :=
  if fm_stopped m then Panic
  else Ok (RemoveAll (mkManager (fm_os m) (fm_rules m) true)).

(** [ProbeBackendReachability]: [dial] says whether the connection succeeds. *)
Definition ProbeBackendReachability (dial : string -> bool) (backendAddr : string) (backendPort : Z)
    : outcome bool :=
  Ok (dial (backendAddr +:+ ":" +:+ pretty backendPort)%string).

(** ** Properties *)

(** [nft_script] is the head, one line per rule, and the tail. *)
Lemma nft_script_lines rules :
  nft_script rules = (nft_head +:+ String.concat "" (map nft_line rules) +:+ nft_tail)%string.
Proof.
  unfold nft_script. generalize nft_head as h. induction rules as [|r rules IH]; intros h; [done|].
  cbn [fold_left map]. rewrite IH, !string_app_assoc. f_equal.
  destruct (map nft_line rules) as [|x l]; cbn [String.concat]; by rewrite ?string_app_assoc.
Qed.

Definition with_target (t : string) (r : FirewallRule) : FirewallRule :=
  mkRule (fr_Name r) (fr_Table r) (fr_Chain r) (fr_Direction r) (fr_Protocol r) (fr_SrcAddr r)
    (fr_DstAddr r) (fr_DstPort r) t (fr_Priority r).

(** The script does not look at targets: an ACCEPT rule and a DROP rule with
    the same match give the same text. *)
Theorem nft_ignores_target t rules : nft_script (map (with_target t) rules) = nft_script rules.
Proof.
  rewrite !nft_script_lines, map_map. by rewrite (map_ext (fun r => nft_line (with_target t r)) nft_line).
Qed.

(** On Linux the rule that is to open the proxy port drops it: the installed
    script is four drop lines, the last for the proxy port on every address; the
    manager succeeds exactly when [nft] accepts this text, and keeps the rules
    even when it does not. *)
Theorem linux_isolation_drops_proxy_port exec m backendAddr backendPort proxyPort :
  fm_os m = OSLinux ->
  let script := (nft_head +:+
    "        tcp daddr " +:+ backendAddr +:+ " dport " +:+ pretty backendPort +:+ " drop" +:+ nl +:+
    "        tcp daddr " +:+ backendAddr +:+ " dport " +:+ pretty backendPort +:+ " drop" +:+ nl +:+
    "        udp daddr " +:+ backendAddr +:+ " dport 0 drop" +:+ nl +:+
    "        tcp daddr  dport " +:+ pretty proxyPort +:+ " drop" +:+ nl +:+ nft_tail)%string in
  exists res, ApplyBackendIsolation exec m backendAddr backendPort proxyPort =
    (res, [mkCommand ["nft"; "-f"; "-"]%string script],
     mkManager OSLinux (linuxNftablesRules backendAddr backendPort proxyPort) (fm_stopped m)) /\
  (res = Ok tt <-> exec (mkCommand ["nft"; "-f"; "-"]%string script) = true).
Proof.
  intros Hos script. unfold ApplyBackendIsolation. rewrite Hos, eqb_refl. unfold installRules. cbn [fm_os].
  rewrite eqb_refl. unfold installNftables.
  assert (E : nft_script (linuxNftablesRules backendAddr backendPort proxyPort) = script).
  { rewrite nft_script_lines. unfold script, linuxNftablesRules, nft_line, linux_rule.
    cbn [map fr_Protocol fr_DstAddr fr_DstPort]. rewrite (proj2 (eqb_false "tcp" "udp")%string) by done.
    rewrite eqb_refl. unfold String.concat. by rewrite !string_app_assoc. }
  rewrite E. eexists. split; [done|]. unfold cmd_Run. by destruct (exec _).
Qed.

(** On macOS isolation reports success whatever happens, and the only command
    enables PF: no rule is installed. *)
Theorem macos_installs_nothing exec m backendAddr backendPort proxyPort :
  fm_os m = OSMacOS ->
  (ApplyBackendIsolation exec m backendAddr backendPort proxyPort).1
  = (Ok tt, [mkCommand ["pfctl"; "-e"]%string ""]).
Proof. intros Hos. unfold ApplyBackendIsolation, installRules. rewrite Hos. done. Qed.

(** Isolation that reports success on Windows ran one command per rule, all of
    them accepted. *)
Theorem windows_isolation_complete exec rules cs :
  installWFP exec rules = (Ok tt, cs) ->
  cs = map netsh_add rules /\ Forall (fun c => exec c = true) cs.
Proof.
  revert cs. induction rules as [|r rules IH]; intros cs; cbn; [by intros [= <-]|].
  unfold cmd_Run. destruct (exec (netsh_add r)) eqn:E; [|done].
  destruct (installWFP exec rules) as [res cs'] eqn:Ei. intros [= -> <-].
  destruct (IH _ eq_refl) as [-> Hf]. by split; [|constructor].
Qed.

(** Verification changes nothing, whatever the command says: an absent rule set
    does not make the resource unreachable. *)
Theorem verification_has_no_effect exec m : (verify exec m).2 = m.
Proof. unfold verify. by repeat case_match. Qed.

Lemma linux_isolation_drops_proxy_port_witness :
  exists res c, ApplyBackendIsolation (fun _ => true) (NewManager "linux") "127.0.0.1" 8080 8443
    = (res, [c], mkManager OSLinux (linuxNftablesRules "127.0.0.1" 8080 8443) false) /\ res = Ok tt.
Proof.
  destruct (linux_isolation_drops_proxy_port (fun _ => true) (NewManager "linux") "127.0.0.1" 8080 8443
    eq_refl) as (res & H & Hr). exists res. eexists. split; [exact H|]. apply Hr. reflexivity.
Defined.
