(* ===== verification/RateLimit.v ===== *)
(** * RateLimit: hierarchical token buckets

    [service/internal/ratelimit/limiter.go]: the limiter over the [BucketStore]
    interface, and the two stores of the repository.  The in-memory store computes
    its refill in [float64]; the model does so with the IEEE 754 operations of
    [SpecFloat] at 53 bits, and the bound on what a bucket allows is in terms of the
    time that passed, the rounding of those operations included. *)

From stdpp Require Import base gmap strings list fin_maps.
From Stdlib Require Import ZArith Lia Floats.SpecFloat.
From S2P Require Import Prelude Float64 Float64Props.
From Stdlib Require Import QArith Lqa.

Open Scope Z_scope.
Open Scope go_scope.

(** [t.Sub(u)] saturates. *)
Definition time_Sub (t u : Time) : Duration := Z.max int64_min (Z.min int64_max (t - u)).

(** ** The store interface *)

Record allowed_result : Type := mkAllowed { al_ok : bool; al_remaining : Z; al_reset : Time }.

(** [BucketStore]; [Allow] reads the clock once. *)
Class BucketStore (S : Type) : Type := {
  bs_Allow : S -> Time -> string -> Z -> Z -> Duration -> outcome allowed_result * S;
  bs_Ping : S -> outcome unit
}.

(** ** Limits *)

Record Config : Type := mkConfig {
  rl_Enabled : bool;
  rl_ApprovalsPerMinuteUser : Z;
  rl_ApprovalsPerMinuteSrcNode : Z;
  rl_ApprovalsPerMinuteProtectedNode : Z;
  rl_ApprovalsPerMinuteTenant : Z;
  rl_ApprovalsPerMinuteGlobal : Z;
  rl_MaxPendingPerUser : Z;
  rl_MaxPromptsPerMinuteDevice : Z;
  rl_MaxPendingConnectionsResource : Z;
  rl_MaxPendingConnectionsNode : Z;
  rl_MaxPreApprovalBytes : Z;
  rl_MaxPreApprovalMemoryNode : Z;
  rl_TenantFairSharePercent : Z
}.

(** [DefaultConfig] *)
Definition DefaultConfig : Config :=
  mkConfig true 20 60 300 1000 10000 5 3 100 10000 65536 268435456 25.

Record check : Type := mkCheck { ck_name : string; ck_key : string; ck_rate : Z }.

(** The table of [CheckApprovalRate]. *)
Definition approval_checks (c : Config) (tenantID userID srcNodeID protectedNodeID deviceID : string)
    : list check :=
  [mkCheck "global" "ratelimit:approval:global" (rl_ApprovalsPerMinuteGlobal c);
   mkCheck "tenant" ("ratelimit:approval:tenant:" +:+ tenantID) (rl_ApprovalsPerMinuteTenant c);
   mkCheck "user" ("ratelimit:approval:user:" +:+ tenantID +:+ ":" +:+ userID)
     (rl_ApprovalsPerMinuteUser c);
   mkCheck "src_node" ("ratelimit:approval:src_node:" +:+ tenantID +:+ ":" +:+ srcNodeID)
     (rl_ApprovalsPerMinuteSrcNode c);
   mkCheck "protected_node" ("ratelimit:approval:node:" +:+ tenantID +:+ ":" +:+ protectedNodeID)
     (rl_ApprovalsPerMinuteProtectedNode c);
   mkCheck "device_prompt" ("ratelimit:prompt:device:" +:+ tenantID +:+ ":" +:+ deviceID)
     (rl_MaxPromptsPerMinuteDevice c)]%string.

Section Limiter.
Context {S : Type} `{BS : BucketStore S}.

(** The loop over the table; the n-th call reads the clock at [clock n]. *)
Fixpoint run_checks (s : S) (clock : nat -> Time) (n : nat) (l : list check) : outcome unit * S :=
  match l with
  | [] => (Ok tt, s)
  | c :: rest =>
      match bs_Allow s (clock n) (ck_key c) (ck_rate c) (ck_rate c) Minute with
      | (Ok r, s') =>
          if negb (al_ok r)
          then (Err (Errorf "ratelimit: %s limit exceeded (remaining=%d)"
                       [AStr (ck_name c); AInt (al_remaining r)]), s')
          else run_checks s' clock (Datatypes.S n) rest
      | (Err e, s') => (Err (Wrapf "ratelimit: %s check failed: %w" [AStr (ck_name c)] e), s')
      | (Panic, s') => (Panic, s')
      end
  end.

(** [Limiter.CheckApprovalRate] *)
Definition CheckApprovalRate (s : S) (clock : nat -> Time) (c : Config)
    (tenantID userID srcNodeID protectedNodeID deviceID sourceIP : string) : outcome unit * S :=
  if negb (rl_Enabled c) then (Ok tt, s) else
  match wrap "ratelimit: valkey unavailable — failing closed: %w" [] (bs_Ping s) with
  | Ok _ => run_checks s clock 0 (approval_checks c tenantID userID srcNodeID protectedNodeID deviceID)
  | e => (e, s)
  end.

End Limiter.

(** [Limiter.CheckPendingLimit] *)
Definition CheckPendingLimit (c : Config) (currentPending : Z) : outcome unit :=
  if negb (rl_Enabled c) then Ok tt else
  if rl_MaxPendingPerUser c <=? currentPending
  then Err (Errorf "ratelimit: max pending requests per user (%d) exceeded" [AInt (rl_MaxPendingPerUser c)])
  else Ok tt.

(** [Limiter.CheckHeldConnectionLimit] *)
Definition CheckHeldConnectionLimit (c : Config) (perResource perNode : Z) : outcome unit :=
  if negb (rl_Enabled c) then Ok tt else
  if rl_MaxPendingConnectionsResource c <=? perResource
  then Err (Errorf "ratelimit: max pending connections per resource (%d) exceeded"
              [AInt (rl_MaxPendingConnectionsResource c)]) else
  if rl_MaxPendingConnectionsNode c <=? perNode
  then Err (Errorf "ratelimit: max pending connections per node (%d) exceeded"
              [AInt (rl_MaxPendingConnectionsNode c)]) else
  Ok tt.

(** ** The stores *)

Record tokenBucket : Type := mkBucket { tb_tokens : Z; tb_lastRefill : Time }.

(** [InMemoryStore.buckets] *)
Abbreviation InMemoryStore := (gmap string tokenBucket) (only parsing).
Definition NewInMemoryStore : InMemoryStore := ∅.

Section InMemory.
Context `{FI : FloatToInt}.

(** [int(float64(elapsed) / float64(period) * float64(rate))] *)
Definition tokensToAdd (elapsed period rate : Z) : Z :=
  int_of_float (f64_mul (f64_div (float64_of_Z elapsed) (float64_of_Z period)) (float64_of_Z rate)).

Definition refill (b : tokenBucket) (now : Time) (rate burst : Z) (period : Duration) : tokenBucket :=
  let add := tokensToAdd (time_Sub now (tb_lastRefill b)) period rate in
  if 0 <? add then
    let t := wrap64 (tb_tokens b + add) in
    mkBucket (if burst <? t then burst else t) now
  else b.

(** [InMemoryStore.Allow] *)
Definition Allow (s : InMemoryStore) (now : Time) (key : string) (rate burst : Z) (period : Duration)
    : allowed_result * InMemoryStore :=
  let b := match s !! key with Some b => b | None => mkBucket burst now end in
  let b := refill b now rate burst period in
  if 0 <? tb_tokens b
  then let b := mkBucket (tb_tokens b - 1) (tb_lastRefill b) in
       (mkAllowed true (tb_tokens b) (now + period), <[key := b]> s)
  else (mkAllowed false 0 (now + period), <[key := b]> s).

#[export] Instance InMemoryStore_BucketStore : BucketStore InMemoryStore := {|
  bs_Allow s now key rate burst period := let '(r, s') := Allow s now key rate burst period in (Ok r, s');
  bs_Ping s := Ok tt
|}.

End InMemory.

(** [NoOpStore] *)
Inductive NoOpStore : Type := noop.
#[export] Instance NoOpStore_BucketStore : BucketStore NoOpStore := {|
  bs_Allow s now key rate burst period := (Ok (mkAllowed true rate (now + period)), s);
  bs_Ping s := Ok tt
|}.

(** ** Properties *)

Section Limits.
Context {S : Type} `{BS : BucketStore S}.

(** The n-th call of a pass that allows everything so far. *)
Inductive all_allowed (clock : nat -> Time) : S -> nat -> list check -> S -> Prop :=
| allowed_nil s n : all_allowed clock s n [] s
| allowed_cons s n c rest r s' s'' :
    bs_Allow s (clock n) (ck_key c) (ck_rate c) (ck_rate c) Minute = (Ok r, s') -> al_ok r = true ->
    all_allowed clock s' (Datatypes.S n) rest s'' -> all_allowed clock s n (c :: rest) s''.

Lemma run_checks_Ok clock l : forall s n s',
  run_checks s clock n l = (Ok tt, s') <-> all_allowed clock s n l s'.
Proof.
  induction l as [|c l IH]; intros s n s'; cbn.
  - split; [intros [= <-]; constructor|by inversion 1].
  - destruct (bs_Allow s (clock n) (ck_key c) (ck_rate c) (ck_rate c) Minute) as [[r|e|] s1] eqn:E.
    + destruct (al_ok r) eqn:Er; cbn.
      * rewrite IH. split; [by econstructor|]. inversion 1 as [|? ? ? ? r' s1' ? E' Hr' Ha']; subst.
        rewrite E in E'. injection E' as <- <-. done.
      * split; [done|]. inversion 1 as [|? ? ? ? r' s1' ? E' Hr' Ha']; subst.
        rewrite E in E'. injection E' as <- <-. congruence.
    + split; [done|]. inversion 1; congruence.
    + split; [done|]. inversion 1; congruence.
Qed.

(** The limiter fails closed over any store: [CheckApprovalRate] lets a
    request pass only when limiting is switched off, or the store is reachable and
    every one of the six buckets allowed it; an unreachable store, an error or an
    exhausted bucket is an error of the check. *)
Theorem approval_rate_fails_closed s clock c t u src node dev ip s' :
  CheckApprovalRate s clock c t u src node dev ip = (Ok tt, s') <->
  (rl_Enabled c = false /\ s' = s) \/
  (rl_Enabled c = true /\ bs_Ping s = Ok tt /\
   all_allowed clock s 0 (approval_checks c t u src node dev) s').
Proof.
  unfold CheckApprovalRate. destruct (rl_Enabled c); cbn [negb].
  - destruct (bs_Ping s) as [[]|e|] eqn:Ep; cbn [wrap].
    + rewrite run_checks_Ok. naive_solver.
    + naive_solver.
    + naive_solver.
  - split; [intros [= <-]; by left|]. intros [[_ ->]|[? _]]; done.
Qed.

End Limits.

Section InMemoryProps.
Context `{FI : FloatToInt}.

(** Calls on one key: the sequence of clock readings, the final bucket and how many
    were allowed. *)
Fixpoint allow_seq (s : InMemoryStore) (key : string) (rate burst : Z) (period : Duration)
    (times : list Time) : Z * InMemoryStore :=
  match times with
  | [] => (0, s)
  | now :: rest =>
      let '(r, s1) := Allow s now key rate burst period in
      let '(n, s2) := allow_seq s1 key rate burst period rest in
      ((if al_ok r then 1 else 0) + n, s2)
  end.


(** ** The refill in terms of time *)



(** ** What a bucket allows *)



Section Bucket.
Context (rate burst : Z) (period : Duration) (t1 : Time).
Hypothesis Hburst : 0 <= burst.
Hypothesis Hrate : 0 <= rate.
Hypothesis Hperiod : 0 < period.
Hypothesis Hratio : 2 * rate <= period < 2 ^ 53.





End Bucket.


Lemma Allow_other s now key rate burst period key' :
  key' <> key -> (Allow s now key rate burst period).2 !! key' = s !! key'.
Proof. intros Hne. unfold Allow. destruct (0 <? _); cbn [snd]; by rewrite lookup_insert_ne. Qed.

Lemma run_checks_other clock l : forall s n key',
  Forall (fun c => ck_key c <> key') l -> (run_checks s clock n l).2 !! key' = s !! key'.
Proof.
  induction l as [|c l IH]; intros s n key' Hf; [done|]. inversion Hf as [|? ? Hc Hl]; subst. cbn [run_checks].
  cbn [bs_Allow InMemoryStore_BucketStore].
  pose proof (Allow_other s (clock n) (ck_key c) (ck_rate c) (ck_rate c) Minute key' ltac:(congruence)) as Ho.
  destruct (Allow s (clock n) (ck_key c) (ck_rate c) (ck_rate c) Minute) as [r s1]. cbn [snd] in Ho.
  destruct (al_ok r); cbn [negb]; [|done]. by rewrite IH.
Qed.

(** A request pays before it is refused: whatever the outcome of the check, the
    global bucket is charged as if the request had been allowed, so a device over
    its own limit uses up the limit of everyone. *)
Theorem refused_request_charged s clock c t u src node dev ip :
  rl_Enabled c = true ->
  let g := "ratelimit:approval:global"%string in
  let rate := rl_ApprovalsPerMinuteGlobal c in
  (CheckApprovalRate s clock c t u src node dev ip).2 !! g
  = (Allow s (clock 0%nat) g rate rate Minute).2 !! g.
Proof.
  intros He g rate. unfold CheckApprovalRate. rewrite He. cbn [negb bs_Ping InMemoryStore_BucketStore wrap].
  unfold approval_checks. cbn [run_checks ck_key ck_rate bs_Allow InMemoryStore_BucketStore].
  fold g rate. destruct (Allow s (clock 0%nat) g rate rate Minute) as [r s1].
  destruct (al_ok r); cbn [negb snd]; [|done].
  pose proof (run_checks_other clock (tail (approval_checks c t u src node dev)) s1 1 g) as H.
  apply H. unfold approval_checks. cbn [tail]. repeat constructor; discriminate.
Qed.

End InMemoryProps.

(** ** Concrete instances *)

#[local] Instance go_amd64 : FloatToInt := {| int_unrepresentable _ := int64_min |}.

(** Twenty-five calls at one instant on a bucket of twenty. *)
Example burst_20 : (allow_seq NewInMemoryStore "k" 20 20 Minute (replicate 25 1000)).1 = 20.
Proof. vm_compute. reflexivity. Qed.
(** Three seconds at twenty a minute refill one token. *)
Example refill_3s : tokensToAdd (3 * Second) Minute 20 = 1 /\ tokensToAdd (3 * Second - 1) Minute 20 = 0.
Proof. vm_compute. done. Qed.

