(* ===== verification/Json.v ===== *)
(** * Json: reading JSON text

    What [json.Unmarshal] of [encoding/json] does with its input: the syntax check
    of the scanner (white space, literals, numbers, strings with their escapes,
    nesting to at most 10000 levels), the unquoting of strings, and the decoding of
    a value into strings, integers, booleans, floating-point numbers, slices and
    structs.  Decoding fills a Go variable that already has a value: [null] leaves
    it, members of an object that name no field are skipped, and a field whose
    member is missing keeps what it had. *)

From stdpp Require Import base strings list.
From Stdlib Require Import ZArith Lia Strings.Byte Strings.Ascii Floats.SpecFloat.
From S2P Require Import Prelude Runes.

Open Scope Z_scope.
Open Scope go_scope.

(** ** Values *)

(** A number keeps its literal text. *)
Inductive json : Type :=
| JNull
| JBool (b : bool)
| JNumber (text : bytes)
| JString (s : bytes)
| JArray (l : list json)
| JObject (members : list (bytes * json)).

(** ** Scanning *)

(** The byte is this character. *)
Definition at_ (b : byte) (c : ascii) : bool := b == byte_of_ascii c.

Definition quote (b : byte) : bool := b == x22.

Definition json_space (b : byte) : bool := at_ b " " || (b == x09) || (b == x0a) || (b == x0d).

Fixpoint skip_space (l : bytes) : bytes :=
  match l with
  | b :: r => if json_space b then skip_space r else l
  | [] => []
  end.

Definition digit (b : byte) : bool := (48 <=? Z_of_byte b) && (Z_of_byte b <=? 57).

Fixpoint digits (l : bytes) : bytes * bytes :=
  match l with
  | b :: r => if digit b then let '(ds, r') := digits r in (b :: ds, r') else ([], l)
  | [] => ([], [])
  end.

(** At least one digit. *)
Definition digits1 (l : bytes) : option (bytes * bytes) :=
  match digits l with ([], _) => None | p => Some p end.

(** An optional byte. *)
Definition optional (test : byte -> bool) (l : bytes) : bytes * bytes :=
  match l with
  | b :: r => if test b then ([b], r) else ([], l)
  | [] => ([], [])
  end.

(** [int = "0" / digit1-9 *digit] *)
Definition scan_int (l : bytes) : option (bytes * bytes) :=
  match optional (fun b => at_ b "0") l with
  | ([], _) => digits1 l
  | p => Some p
  end.

Definition scan_frac (l : bytes) : option (bytes * bytes) :=
  match optional (fun b => at_ b ".") l with
  | ([], _) => Some ([], l)
  | (p, r) => '(ds, r') ← digits1 r; Some (p ++ ds, r')
  end.

Definition scan_exp (l : bytes) : option (bytes * bytes) :=
  match optional (fun b => at_ b "e" || at_ b "E") l with
  | ([], _) => Some ([], l)
  | (e, r) =>
      let '(sign, r1) := optional (fun b => at_ b "+" || at_ b "-") r in
      '(ds, r') ← digits1 r1; Some (e ++ sign ++ ds, r')
  end.

(** A number and what follows it. *)
Definition scan_number (l : bytes) : option (bytes * bytes) :=
  let '(sign, l1) := optional (fun b => at_ b "-") l in
  '(i, l2) ← scan_int l1;
  '(f, l3) ← scan_frac l2;
  '(e, l4) ← scan_exp l3;
  Some (sign ++ i ++ f ++ e, l4).

(** [getu4]: four hexadecimal digits. *)
Definition hex4 (l : bytes) : option (Z * bytes) :=
  match l with
  | a :: b :: c :: d :: r =>
      a ← fromHexChar a; b ← fromHexChar b; c ← fromHexChar c; d ← fromHexChar d;
      Some (((a * 16 + b) * 16 + c) * 16 + d, r)
  | _ => None
  end.

(** [utf8.AppendRune] of a rune that is not a surrogate. *)
Definition utf8_encode (c : Z) : bytes :=
  if c <? 128 then [byte_of_Z c]
  else if c <? 2048 then [byte_of_Z (192 + Z.shiftr c 6); byte_of_Z (128 + Z.land c 63)]
  else if c <? 65536
  then [byte_of_Z (224 + Z.shiftr c 12); byte_of_Z (128 + Z.land (Z.shiftr c 6) 63);
        byte_of_Z (128 + Z.land c 63)]
  else [byte_of_Z (240 + Z.shiftr c 18); byte_of_Z (128 + Z.land (Z.shiftr c 12) 63);
        byte_of_Z (128 + Z.land (Z.shiftr c 6) 63); byte_of_Z (128 + Z.land c 63)].

Definition is_surrogate (c : Z) : bool := (55296 <=? c) && (c <? 57344).

(** The rune of [\uXXXX] and what follows: a pair of surrogates is one rune, a lone
    one is [U+FFFD]. *)
Definition unicode_escape (l : bytes) : option (Z * bytes) :=
  '(c, r) ← hex4 l;
  if negb (is_surrogate c) then Some (c, r) else
  match r with
  | a :: b :: r1 =>
      if at_ a "\" && at_ b "u" then
        match hex4 r1 with
        | Some (c2, r2) =>
            if (55296 <=? c) && (c <? 56320) && (56320 <=? c2) && (c2 <? 57344)
            then Some ((c - 55296) * 1024 + (c2 - 56320) + 65536, r2)
            else Some (RuneError, r)
        | None => Some (RuneError, r)
        end
      else Some (RuneError, r)
  | _ => Some (RuneError, r)
  end.

(** One unit of a string after the opening quote: its end, some text, or an
    error. *)
Inductive str_unit : Type :=
| UEnd (rest : bytes)
| UText (text rest : bytes)
| UBad.

(** The byte an escape stands for. *)
Definition short_escape (b : byte) : option byte :=
  if quote b || at_ b "\" || at_ b "/" then Some b
  else if at_ b "b" then Some x08
  else if at_ b "f" then Some x0c
  else if at_ b "n" then Some x0a
  else if at_ b "r" then Some x0d
  else if at_ b "t" then Some x09
  else None.

Definition escape (l : bytes) : str_unit :=
  match l with
  | [] => UBad
  | b :: r =>
      match short_escape b with
      | Some c => UText [c] r
      | None =>
          if at_ b "u" then
            match unicode_escape r with
            | Some (c, r') => UText (utf8_encode c) r'
            | None => UBad
            end
          else UBad
      end
  end.

Definition string_unit (l : bytes) : str_unit :=
  match l with
  | [] => UBad
  | b :: r =>
      if quote b then UEnd r
      else if at_ b "\" then escape r
      else if Z_of_byte b <? 32 then UBad
      else let '(c, n) := decode_rune b r in UText (rune_bytes c n l) (drop n l)
  end.

(** The text of a string and what follows its closing quote. *)
Fixpoint string_body (fuel : nat) (l : bytes) : option (bytes * bytes) :=
  match fuel with
  | O => None
  | S fuel =>
      match string_unit l with
      | UEnd r => Some ([], r)
      | UText t r => '(s, r') ← string_body fuel r; Some (t ++ s, r')
      | UBad => None
      end
  end.

Definition scan_string (l : bytes) : option (bytes * bytes) := string_body (S (length l)) l.

(** A literal word. *)
Fixpoint literal (w l : bytes) : option bytes :=
  match w, l with
  | [], _ => Some l
  | a :: w', b :: r => if a == b then literal w' r else None
  | _, [] => None
  end.

Definition maxNestingDepth : Z := 10000.

(** A value, the elements of an array after a bracket or a comma, and the members
    of an object likewise.  [n] is fuel: two units per byte are enough, as
    [scan_fuel] shows. *)
Fixpoint scan_value (n depth : nat) (l : bytes) : option (json * bytes) :=
  match n with
  | O => None
  | S n =>
      match skip_space l with
      | [] => None
      | b :: r =>
          if at_ b "{" then
            if maxNestingDepth <=? Z.of_nat depth then None else
            match optional (fun b => at_ b "}") (skip_space r) with
            | (_ :: _, r') => Some (JObject [], r')
            | _ => '(ms, r') ← scan_members n (S depth) r; Some (JObject ms, r')
            end
          else if at_ b "[" then
            if maxNestingDepth <=? Z.of_nat depth then None else
            match optional (fun b => at_ b "]") (skip_space r) with
            | (_ :: _, r') => Some (JArray [], r')
            | _ => '(vs, r') ← scan_elems n (S depth) r; Some (JArray vs, r')
            end
          else if quote b then '(s, r') ← scan_string r; Some (JString s, r')
          else if at_ b "t" then r' ← literal (str_bytes "rue") r; Some (JBool true, r')
          else if at_ b "f" then r' ← literal (str_bytes "alse") r; Some (JBool false, r')
          else if at_ b "n" then r' ← literal (str_bytes "ull") r; Some (JNull, r')
          else '(t, r') ← scan_number (b :: r); Some (JNumber t, r')
      end
  end
with scan_elems (n depth : nat) (l : bytes) : option (list json * bytes) :=
  match n with
  | O => None
  | S n =>
      '(v, r) ← scan_value n depth l;
      match skip_space r with
      | [] => None
      | b :: r' =>
          if at_ b "]" then Some ([v], r')
          else if at_ b "," then '(vs, r2) ← scan_elems n depth r'; Some (v :: vs, r2)
          else None
      end
  end
with scan_members (n depth : nat) (l : bytes) : option (list (bytes * json) * bytes) :=
  match n with
  | O => None
  | S n =>
      '(k, r1) ← match skip_space l with
                 | b :: r => if quote b then scan_string r else None
                 | [] => None
                 end;
      r2 ← match skip_space r1 with
           | b :: r => if at_ b ":" then Some r else None
           | [] => None
           end;
      '(v, r3) ← scan_value n depth r2;
      match skip_space r3 with
      | [] => None
      | b :: r' =>
          if at_ b "}" then Some ([(k, v)], r')
          else if at_ b "," then '(ms, r4) ← scan_members n depth r'; Some ((k, v) :: ms, r4)
          else None
      end
  end.

(** The whole text is one value. *)
Definition json_Parse (l : bytes) : option json :=
  match scan_value (2 * length l + 2) 0 l with
  | Some (v, r) => match skip_space r with [] => Some v | _ => None end
  | None => None
  end.

(** ** Enough fuel *)

Lemma length_skip_space l : (length (skip_space l) <= length l)%nat.
Proof. induction l as [|b l IH]; [done|]. cbn. destruct (json_space b); cbn; lia. Qed.

Lemma length_digits l ds r : digits l = (ds, r) -> length l = (length ds + length r)%nat.
Proof.
  revert ds r. induction l as [|b l IH]; intros ds r; cbn; [by intros [= <- <-]|].
  destruct (digit b); [|by intros [= <- <-]]. destruct (digits l) as [ds' r'].
  intros [= <- <-]. cbn. by rewrite (IH _ _ eq_refl).
Qed.

Lemma length_digits1 l ds r : digits1 l = Some (ds, r) -> (length r < length l)%nat.
Proof.
  unfold digits1. destruct (digits l) as [[|d ds'] r'] eqn:E; [done|]. intros [= <- <-].
  apply length_digits in E. cbn in E. lia.
Qed.

Lemma length_optional test l p r : optional test l = (p, r) -> length l = (length p + length r)%nat.
Proof. destruct l as [|b l]; cbn; [by intros [= <- <-]|]. destruct (test b); by intros [= <- <-]. Qed.

Lemma length_scan_number l t r : scan_number l = Some (t, r) -> (length r < length l)%nat.
Proof.
  unfold scan_number. destruct (optional _ l) as [sg l1] eqn:E1. apply length_optional in E1.
  intros ([i l2] & H2 & ([f l3] & H3 & ([e l4] & H4 & [= _ <-])%bind_Some)%bind_Some)%bind_Some.
  assert (length l2 < length l1)%nat.
  { unfold scan_int in H2. destruct (optional _ l1) as [[|b p] q] eqn:E2; [by eapply length_digits1|].
    injection H2 as <- <-. apply length_optional in E2. cbn in E2. lia. }
  assert (length l3 <= length l2)%nat.
  { unfold scan_frac in H3. destruct (optional _ l2) as [[|b p] q] eqn:E2; [by injection H3 as _ <-|].
    apply length_optional in E2. cbn in E2. apply bind_Some in H3 as ([ds r'] & Hd%length_digits1 & [= _ <-]). lia. }
  assert (length l4 <= length l3)%nat.
  { unfold scan_exp in H4. destruct (optional _ l3) as [[|b p] q] eqn:E2; [by injection H4 as _ <-|].
    apply length_optional in E2. cbn in E2. destruct (optional _ q) as [sg2 r1] eqn:E3.
    apply length_optional in E3.
    apply bind_Some in H4 as ([ds r'] & Hd%length_digits1 & [= _ <-]). lia. }
  lia.
Qed.

Lemma length_hex4 l c r : hex4 l = Some (c, r) -> (length r < length l)%nat.
Proof.
  unfold hex4. destruct l as [|a [|b [|c' [|d l]]]]; try done.
  intros (? & _ & (? & _ & (? & _ & (? & _ & [= _ <-])%bind_Some)%bind_Some)%bind_Some)%bind_Some. cbn. lia.
Qed.

Lemma length_unicode_escape l c r : unicode_escape l = Some (c, r) -> (length r < length l)%nat.
Proof.
  unfold unicode_escape. intros ([c' r'] & Hh%length_hex4 & H)%bind_Some.
  destruct (negb _); [injection H as _ <-; lia|].
  destruct r' as [|a [|b r1]]; try (injection H as _ <-; lia).
  destruct (_ && _); [|injection H as _ <-; lia].
  destruct (hex4 r1) as [[c2 r2]|] eqn:E; [|injection H as _ <-; lia].
  apply length_hex4 in E. destruct (_ && _); injection H as _ <-; cbn in *; lia.
Qed.

Lemma length_string_unit l :
  match string_unit l with UEnd r | UText _ r => (length r < length l)%nat | UBad => True end.
Proof.
  destruct l as [|b r]; [done|]. cbn [string_unit]. destruct (quote b); [cbn; lia|].
  destruct (at_ b "\").
  { destruct r as [|c r']; [done|]. cbn [escape]. destruct (short_escape c); [cbn; lia|].
    destruct (at_ c "u"); [|done]. destruct (unicode_escape r') as [[? ?]|] eqn:E; [|done].
    apply length_unicode_escape in E. cbn. lia. }
  destruct (_ <? 32); [done|]. pose proof (decode_rune_width b r) as Hw.
  destruct (decode_rune b r) as [c n]. cbn [snd] in Hw. rewrite length_drop. cbn. lia.
Qed.

Lemma length_string_body n l s r : string_body n l = Some (s, r) -> (length r < length l)%nat.
Proof.
  revert l s r. induction n as [|n IH]; intros l s r; [done|]. cbn. pose proof (length_string_unit l) as Hl.
  destruct (string_unit l) as [r'|t r'|]; [by intros [= _ <-]| |done].
  intros ([s' r''] & H%IH & [= _ <-])%bind_Some. lia.
Qed.

(** [scan_string] does not depend on its fuel. *)
Lemma string_body_fuel n m l :
  (length l < n)%nat -> (length l < m)%nat -> string_body n l = string_body m l.
Proof.
  revert m l. induction n as [|n IH]; intros [|m] l Hn Hm; [lia..|]. cbn.
  pose proof (length_string_unit l) as Hl. destruct (string_unit l) as [r|t r|]; [done| |done].
  by rewrite (IH m r) by lia.
Qed.

Lemma length_literal w l r : literal w l = Some r -> (length r <= length l)%nat.
Proof.
  revert l. induction w as [|a w IH]; intros l; cbn; [by intros [= ->]|].
  destruct l as [|b l]; [done|]. destruct (a == b); [|done]. intros H%IH. cbn. lia.
Qed.

(** What a scanner leaves is shorter than what it was given. *)
Definition shrinks {A} (f : bytes -> option (A * bytes)) : Prop :=
  forall l a r, f l = Some (a, r) -> (length r < length l)%nat.

Lemma scan_shrinks n : (forall d, shrinks (scan_value n d)) /\ (forall d, shrinks (scan_elems n d)) /\
  (forall d, shrinks (scan_members n d)).
Proof.
  induction n as [|n (IHv & IHe & IHm)]; [done|]. split_and!; intros d l a r; cbn [scan_value scan_elems scan_members].
  - pose proof (length_skip_space l) as Hl. destruct (skip_space l) as [|b l1]; [done|]. cbn in Hl.
    pose proof (length_skip_space l1) as Hl1.
    destruct (at_ b "{"); [|destruct (at_ b "["); [|destruct (quote b); [|destruct (at_ b "t"); [|
      destruct (at_ b "f"); [|destruct (at_ b "n")]]]]].
    + destruct (_ <=? _); [done|]. destruct (optional _ _) as [[|c p] r'] eqn:E.
      * intros ([ms r2] & H%IHm & [= _ <-])%bind_Some. lia.
      * intros [= _ <-]. apply length_optional in E. cbn in E. lia.
    + destruct (_ <=? _); [done|]. destruct (optional _ _) as [[|c p] r'] eqn:E.
      * intros ([vs r2] & H%IHe & [= _ <-])%bind_Some. lia.
      * intros [= _ <-]. apply length_optional in E. cbn in E. lia.
    + intros ([s r2] & H%length_string_body & [= _ <-])%bind_Some. lia.
    + intros (r2 & H%length_literal & [= _ <-])%bind_Some. lia.
    + intros (r2 & H%length_literal & [= _ <-])%bind_Some. lia.
    + intros (r2 & H%length_literal & [= _ <-])%bind_Some. lia.
    + intros ([t r2] & H%length_scan_number & [= _ <-])%bind_Some. cbn in H. lia.
  - intros ([v r1] & Hv%IHv & H)%bind_Some. pose proof (length_skip_space r1) as Hl.
    destruct (skip_space r1) as [|b r']; [done|]. cbn in Hl. destruct (at_ b "]"); [injection H as _ <-; lia|].
    destruct (at_ b ","); [|done]. apply bind_Some in H as ([vs r2] & H%IHe & [= _ <-]). lia.
  - intros ([k r1] & Hk & (r2 & H2 & ([v r3] & Hv%IHv & H)%bind_Some)%bind_Some)%bind_Some.
    assert (length r1 < length l)%nat.
    { pose proof (length_skip_space l) as Hl. destruct (skip_space l) as [|b l1]; [done|].
      destruct (quote b); [|done]. apply length_string_body in Hk. cbn in Hl. lia. }
    assert (length r2 < length r1)%nat.
    { pose proof (length_skip_space r1) as Hl. destruct (skip_space r1) as [|b l1]; [done|].
      destruct (at_ b ":"); [|done]. injection H2 as <-. cbn in Hl. lia. }
    pose proof (length_skip_space r3) as Hl. destruct (skip_space r3) as [|b r']; [done|]. cbn in Hl.
    destruct (at_ b "}"); [injection H as _ <-; lia|].
    destruct (at_ b ","); [|done]. apply bind_Some in H as ([ms r4] & H%IHm & [= _ <-]). lia.
Qed.

Lemma bind_ext_in {A B} (o : option A) (f g : A -> option B) :
  (forall a, o = Some a -> f a = g a) -> (o ≫= f) = (o ≫= g).
Proof. intros H. destruct o as [a|]; [by apply H|done]. Qed.

(** More fuel than two units per byte changes nothing: a text that is refused is
    refused for its syntax. *)
Lemma scan_fuel n :
  (forall m d l, (2 * length l + 1 <= n)%nat -> (n <= m)%nat -> scan_value m d l = scan_value n d l) /\
  (forall m d l, (2 * length l + 2 <= n)%nat -> (n <= m)%nat -> scan_elems m d l = scan_elems n d l) /\
  (forall m d l, (2 * length l + 2 <= n)%nat -> (n <= m)%nat -> scan_members m d l = scan_members n d l).
Proof.
  induction n as [|n (IHv & IHe & IHm)]; [split_and!; intros; lia|].
  destruct (scan_shrinks n) as (Sv & Se & Sm).
  split_and!; intros [|m] d l Hn Hm; try lia; cbn [scan_value scan_elems scan_members].
  - pose proof (length_skip_space l) as Hl. destruct (skip_space l) as [|b r]; [done|]. cbn in Hl.
    rewrite (IHe m (S d) r), (IHm m (S d) r) by lia. done.
  - rewrite (IHv m d l) by lia. apply bind_ext_in. intros [v r] H%Sv.
    pose proof (length_skip_space r) as Hl. destruct (skip_space r) as [|b r']; [done|]. cbn in Hl.
    by rewrite (IHe m d r') by lia.
  - apply bind_ext_in. intros [k r1] Hk. apply bind_ext_in. intros r2 Hr2.
    assert (length r1 < length l)%nat.
    { pose proof (length_skip_space l) as Hl. destruct (skip_space l) as [|b l1]; [done|].
      destruct (quote b); [|done]. apply length_string_body in Hk. cbn in Hl. lia. }
    assert (length r2 < length r1)%nat.
    { pose proof (length_skip_space r1) as Hl. destruct (skip_space r1) as [|b l1]; [done|].
      destruct (at_ b ":"); [|done]. injection Hr2 as <-. cbn in Hl. lia. }
    rewrite (IHv m d r2) by lia. apply bind_ext_in. intros [v r3] H3%Sv.
    pose proof (length_skip_space r3) as Hl. destruct (skip_space r3) as [|b r']; [done|]. cbn in Hl.
    by rewrite (IHm m d r') by lia.
Qed.

(** ** Numbers *)

Fixpoint digits_Z (acc : Z) (l : bytes) : option Z :=
  match l with
  | [] => Some acc
  | b :: r => if digit b then digits_Z (acc * 10 + (Z_of_byte b - 48)) r else None
  end.

(** [strconv.ParseInt(s, 10, 64)] of a number literal. *)
Definition ParseInt (text : bytes) : option Z :=
  z ← match optional (fun b => at_ b "-") text with
      | ([], r) => digits_Z 0 r
      | (_, r) => Z.opp <$> digits_Z 0 r
      end;
  if is_int64 z then Some z else None.

(** [strconv.ParseFloat(s, 64)] of a number literal: the nearest double of
    [m * 10 ^ e], an error when it overflows. *)
Definition ParseFloat (text : bytes) : option spec_float :=
  let '(sign, l1) := optional (fun b => at_ b "-") text in
  let neg := match sign with [] => false | _ => true end in
  let '(i, l2) := digits l1 in
  let '(f, l3) := match optional (fun b => at_ b ".") l2 with
                  | ([], _) => ([], l2)
                  | (_, r) => digits r
                  end in
  e ← match optional (fun b => at_ b "e" || at_ b "E") l3 with
      | ([], _) => Some 0
      | (_, r) =>
          match optional (fun b => at_ b "+" || at_ b "-") r with
          | ([], _) => digits_Z 0 r
          | (s, r') => if s == [byte_of_ascii "-"] then Z.opp <$> digits_Z 0 r' else digits_Z 0 r'
          end
      end;
  m ← digits_Z 0 (i ++ f);
  let e10 := e - Z.of_nat (length f) in
  let x := match m with
           | Z0 => S754_zero neg
           | _ => if 0 <=? e10
                  then binary_normalize 53 1024 (if neg then - (m * 10 ^ e10) else m * 10 ^ e10) 0 neg
                  else SFdiv 53 1024 (S754_finite neg (Z.to_pos m) 0) (S754_finite false (Z.to_pos (10 ^ - e10)) 0)
           end in
  match x with S754_infinity _ | S754_nan => None | _ => Some x end.

(** ** Decoding *)

(** [d.value(v)]: the new contents of a variable of type [A]. *)
Definition decoder (A : Type) : Type := json -> A -> outcome A.

Definition ErrType : error := Errorf "json: cannot unmarshal value into Go value" [].

Definition dec_string : decoder string := fun j old =>
  match j with JNull => Ok old | JString s => Ok (bytes_str s) | _ => Err ErrType end.

Definition dec_bool : decoder bool := fun j old =>
  match j with JNull => Ok old | JBool b => Ok b | _ => Err ErrType end.

(** Type [int] and the types declared as [int64]. *)
Definition dec_int : decoder Z := fun j old =>
  match j with
  | JNull => Ok old
  | JNumber t => match ParseInt t with Some z => Ok z | None => Err ErrType end
  | _ => Err ErrType
  end.

Definition dec_float : decoder spec_float := fun j old =>
  match j with
  | JNull => Ok old
  | JNumber t => match ParseFloat t with Some x => Ok x | None => Err ErrType end
  | _ => Err ErrType
  end.

(** A slice: element [i] is decoded into the element that was there, or into a
    zero value. *)
Fixpoint dec_elems {A} (dec : decoder A) (zero : A) (l : list json) (old : list A) : outcome (list A) :=
  match l with
  | [] => Ok []
  | j :: r =>
      a ← dec j (match old with a :: _ => a | [] => zero end);
      rest ← dec_elems dec zero r (tail old);
      Ok (a :: rest)
  end.

Definition dec_slice {A} (dec : decoder A) (zero : A) : decoder (list A) := fun j old =>
  match j with JNull => Ok [] | JArray l => dec_elems dec zero l old | _ => Err ErrType end.

(** [foldName]: case-insensitive names.  Letters are those of ASCII and the two
    runes that fold to one, [U+017F] and [U+212A]. *)
Definition lower (b : byte) : byte :=
  if (65 <=? Z_of_byte b) && (Z_of_byte b <=? 90) then byte_of_Z (Z_of_byte b + 32) else b.

Fixpoint foldName (l : bytes) : bytes :=
  match l with
  | [] => []
  | a :: r =>
      match r with
      | b :: r' =>
          if (a == xc5) && (b == xbf) then byte_of_ascii "s" :: foldName r' else
          match r' with
          | c :: r2 => if (a == xe2) && (b == x84) && (c == xaa) then byte_of_ascii "k" :: foldName r2
                       else lower a :: foldName r
          | [] => lower a :: foldName r
          end
      | [] => lower a :: foldName r
      end
  end.

(** The members that name a field are decoded into it one after the other. *)
Fixpoint field {A} (members : list (bytes * json)) (name : string) (dec : decoder A) (old : A) : outcome A :=
  match members with
  | [] => Ok old
  | (k, v) :: r =>
      if foldName k == str_bytes name
      then new ← dec v old; field r name dec new
      else field r name dec old
  end.

(** A struct from the decoders of its fields.  Where several members are wrong the
    error is that of the first field. *)
Definition dec_struct {A} (fields : list (bytes * json) -> A -> outcome A) : decoder A := fun j old =>
  match j with JNull => Ok old | JObject ms => fields ms old | _ => Err ErrType end.

(** [json.Unmarshal(data, v)] *)
Definition Unmarshal {A} (dec : decoder A) (data : bytes) (v : A) : outcome A :=
  match json_Parse data with
  | None => Err (Errorf "json: syntax error" [])
  | Some j => dec j v
  end.

Example parse_float_01 : ParseFloat (str_bytes "0.1") = Some (S754_finite false 7205759403792794 (-56)).
Proof. vm_compute. reflexivity. Qed.
