(* ===== verification/Config.v ===== *)
(** * Config: the configuration of the Approval Service

    [service/internal/config/config.go]: the configuration records with their JSON
    names, the defaults, reading a file over the defaults, and validation.  Then
    what a configuration that was loaded guarantees, and what it does not. *)

From stdpp Require Import base strings list.
From Stdlib Require Import ZArith Lia Strings.Byte Strings.Ascii Floats.SpecFloat.
From S2P Require Import Prelude Runes Json.

Open Scope Z_scope.
Open Scope go_scope.

(** ** Records *)

Record ServiceConfig : Type := mkServiceConfig {
  svc_ListenAddr : string;
  svc_HTTPListenAddr : string;
  svc_MaxDaemons : Z;
  svc_MaxApprovers : Z
}.

Record DatabaseConfig : Type := mkDatabaseConfig {
  dbc_Host : string;
  dbc_Port : Z;
  dbc_Database : string;
  dbc_User : string;
  dbc_PasswordFile : string;
  dbc_MaxConns : Z;
  dbc_MinConns : Z;
  dbc_MaxIdleTime : Duration;
  dbc_ConnectTimeout : Duration;
  dbc_SSLMode : string
}.

Record VaultConfig : Type := mkVaultConfig {
  vlt_Addr : string;
  vlt_TokenFile : string;
  vlt_TransitPath : string;
  vlt_KeyPrefix : string;
  vlt_RequestTimeout : Duration;
  vlt_MaxRetries : Z
}.

Record CryptoConfig : Type := mkCryptoConfig {
  cry_RootPubKeyFile : string;
  cry_RootSigFile : string
}.

Record ValkeyConfig : Type := mkValkeyConfig {
  vky_Addrs : list string;
  vky_PasswordFile : string;
  vky_DB : Z;
  vky_MaxRetries : Z;
  vky_DialTimeout : Duration
}.

Record OIDCIssuer : Type := mkOIDCIssuer {
  iss_IssuerURL : string;
  iss_ClientID : string;
  iss_ClientSecretFile : string
}.

Definition zero_OIDCIssuer : OIDCIssuer := mkOIDCIssuer "" "" "".

Record OIDCConfig : Type := mkOIDCConfig {
  oid_AllowedIssuers : list OIDCIssuer;
  oid_RedirectBaseURL : string;
  oid_SessionDuration : Duration;
  oid_EnrollmentTicketTTL : Duration
}.

Record AuditConfig : Type := mkAuditConfig {
  aud_CheckpointInterval : Z;
  aud_CheckpointMaxEvents : Z;
  aud_S3Endpoint : string;
  aud_S3Bucket : string;
  aud_S3Region : string;
  aud_ObjectLockEnabled : bool;
  aud_OnlineRetentionDays : Z;
  aud_ImmutableRetentionYears : Z
}.

Record RateLimitConfig : Type := mkRateLimitConfig {
  rlc_Enabled : bool;
  rlc_ApprovalsPerMinuteUser : Z;
  rlc_ApprovalsPerMinuteSrcNode : Z;
  rlc_ApprovalsPerMinuteProtectedNode : Z;
  rlc_ApprovalsPerMinuteTenant : Z;
  rlc_MaxPendingPerUser : Z;
  rlc_MaxPromptsPerMinuteDevice : Z;
  rlc_MaxPendingConnectionsResource : Z;
  rlc_MaxPendingConnectionsNode : Z;
  rlc_MaxPreApprovalBytes : Z;
  rlc_MaxPreApprovalMemoryNode : Z
}.

Record EnforcementConfig : Type := mkEnforcementConfig {
  enf_RevocationFreshnessBound : Duration;
  enf_PolicyMaxOfflineAge : Duration;
  enf_PolicyRefreshInterval : Duration;
  enf_RequestTTL : Duration;
  enf_BackendProbeInterval : Duration;
  enf_FirewallVerifyInterval : Duration
}.

Record ObservabilityConfig : Type := mkObservabilityConfig {
  obs_OTelExporterEndpoint : string;
  obs_LogLevel : string;
  obs_LogFormat : string;
  obs_MetricsPort : Z;
  obs_TracingSampleRate : spec_float
}.

Record Config : Type := mkConfig {
  cfg_Version : Z;
  cfg_Service : ServiceConfig;
  cfg_Database : DatabaseConfig;
  cfg_Vault : VaultConfig;
  cfg_Crypto : CryptoConfig;
  cfg_Valkey : ValkeyConfig;
  cfg_OIDC : OIDCConfig;
  cfg_Audit : AuditConfig;
  cfg_RateLimit : RateLimitConfig;
  cfg_Enforcement : EnforcementConfig;
  cfg_Observability : ObservabilityConfig
}.

(** ** Defaults *)

(** The literal 0.1 as a double. *)
Definition float_0_1 : spec_float := S754_finite false 7205759403792794 (-56).

(** [DefaultConfig]; fields the literal leaves out have their zero values. *)
Definition DefaultConfig : Config := {|
  cfg_Version := 1;
  cfg_Service := mkServiceConfig ":8443" ":8444" 10000 100000;
  cfg_Database := mkDatabaseConfig "localhost" 5432 "dnivio" "dnivio_app" "" 200 20 (5 * Minute)
                    (10 * Second) "require";
  cfg_Vault := mkVaultConfig "" "" "" "" 0 0;
  cfg_Crypto := mkCryptoConfig "" "";
  cfg_Valkey := mkValkeyConfig [] "" 0 0 0;
  cfg_OIDC := mkOIDCConfig [] "" 0 0;
  cfg_Audit := mkAuditConfig 60 10000 "" "" "" true 400 7;
  cfg_RateLimit := mkRateLimitConfig true 20 60 300 1000 5 3 100 10000 65536 268435456;
  cfg_Enforcement := mkEnforcementConfig (10 * Second) (5 * Minute) (30 * Second) (60 * Second)
                       (30 * Second) (1 * Second);
  cfg_Observability := mkObservabilityConfig "" "info" "json" 9090 float_0_1
|}.

(** ** Validation *)

(** [Config.Validate] *)
Definition Validate (c : Config) : outcome unit :=
  if cfg_Version c != 1 then Err (Errorf "unsupported config version %d" [AInt (cfg_Version c)]) else
  if svc_ListenAddr (cfg_Service c) == "" then Err (Errorf "service.listen_addr is required" []) else
  if dbc_Host (cfg_Database c) == "" then Err (Errorf "database.host is required" []) else
  if 10 * Second <? enf_RevocationFreshnessBound (cfg_Enforcement c)
  then Err (Errorf "revocation_freshness_bound must not exceed 10s" []) else
  if 5 * Minute <? enf_PolicyMaxOfflineAge (cfg_Enforcement c)
  then Err (Errorf "policy_max_offline_age must not exceed 5m" []) else
  if aud_OnlineRetentionDays (cfg_Audit c) <? 400
  then Err (Errorf "online_retention_days must be at least 400" []) else
  if aud_ImmutableRetentionYears (cfg_Audit c) <? 7
  then Err (Errorf "immutable_retention_years must be at least 7" []) else
  Ok tt.

(** ** Loading *)

Definition dec_ServiceConfig : decoder ServiceConfig := dec_struct (fun ms c =>
  ListenAddr ← field ms "listen_addr" dec_string (svc_ListenAddr c);
  HTTPListenAddr ← field ms "http_listen_addr" dec_string (svc_HTTPListenAddr c);
  MaxDaemons ← field ms "max_daemons" dec_int (svc_MaxDaemons c);
  MaxApprovers ← field ms "max_approvers" dec_int (svc_MaxApprovers c);
  Ok (mkServiceConfig ListenAddr HTTPListenAddr MaxDaemons MaxApprovers)).

Definition dec_DatabaseConfig : decoder DatabaseConfig := dec_struct (fun ms c =>
  Host ← field ms "host" dec_string (dbc_Host c);
  Port ← field ms "port" dec_int (dbc_Port c);
  Database ← field ms "database" dec_string (dbc_Database c);
  User ← field ms "user" dec_string (dbc_User c);
  PasswordFile ← field ms "password_file" dec_string (dbc_PasswordFile c);
  MaxConns ← field ms "max_conns" dec_int (dbc_MaxConns c);
  MinConns ← field ms "min_conns" dec_int (dbc_MinConns c);
  MaxIdleTime ← field ms "max_idle_time" dec_int (dbc_MaxIdleTime c);
  ConnectTimeout ← field ms "connect_timeout" dec_int (dbc_ConnectTimeout c);
  SSLMode ← field ms "ssl_mode" dec_string (dbc_SSLMode c);
Ok (mkDatabaseConfig Host Port Database User PasswordFile MaxConns MinConns MaxIdleTime ConnectTimeout
      SSLMode)).

Definition dec_VaultConfig : decoder VaultConfig := dec_struct (fun ms c =>
  Addr ← field ms "addr" dec_string (vlt_Addr c);
  TokenFile ← field ms "token_file" dec_string (vlt_TokenFile c);
  TransitPath ← field ms "transit_path" dec_string (vlt_TransitPath c);
  KeyPrefix ← field ms "key_prefix" dec_string (vlt_KeyPrefix c);
  RequestTimeout ← field ms "request_timeout" dec_int (vlt_RequestTimeout c);
  MaxRetries ← field ms "max_retries" dec_int (vlt_MaxRetries c);
  Ok (mkVaultConfig Addr TokenFile TransitPath KeyPrefix RequestTimeout MaxRetries)).

Definition dec_CryptoConfig : decoder CryptoConfig := dec_struct (fun ms c =>
  RootPubKeyFile ← field ms "root_pub_key_file" dec_string (cry_RootPubKeyFile c);
  RootSigFile ← field ms "root_sig_file" dec_string (cry_RootSigFile c);
  Ok (mkCryptoConfig RootPubKeyFile RootSigFile)).

Definition dec_ValkeyConfig : decoder ValkeyConfig := dec_struct (fun ms c =>
  Addrs ← field ms "addrs" (dec_slice dec_string "") (vky_Addrs c);
  PasswordFile ← field ms "password_file" dec_string (vky_PasswordFile c);
  DB ← field ms "db" dec_int (vky_DB c);
  MaxRetries ← field ms "max_retries" dec_int (vky_MaxRetries c);
  DialTimeout ← field ms "dial_timeout" dec_int (vky_DialTimeout c);
  Ok (mkValkeyConfig Addrs PasswordFile DB MaxRetries DialTimeout)).

Definition dec_OIDCIssuer : decoder OIDCIssuer := dec_struct (fun ms c =>
  IssuerURL ← field ms "issuer_url" dec_string (iss_IssuerURL c);
  ClientID ← field ms "client_id" dec_string (iss_ClientID c);
  ClientSecretFile ← field ms "client_secret_file" dec_string (iss_ClientSecretFile c);
  Ok (mkOIDCIssuer IssuerURL ClientID ClientSecretFile)).

Definition dec_OIDCConfig : decoder OIDCConfig := dec_struct (fun ms c =>
AllowedIssuers ← field ms "allowed_issuers" (dec_slice dec_OIDCIssuer zero_OIDCIssuer)
      (oid_AllowedIssuers c);
  RedirectBaseURL ← field ms "redirect_base_url" dec_string (oid_RedirectBaseURL c);
  SessionDuration ← field ms "session_duration" dec_int (oid_SessionDuration c);
  EnrollmentTicketTTL ← field ms "enrollment_ticket_ttl" dec_int (oid_EnrollmentTicketTTL c);
  Ok (mkOIDCConfig AllowedIssuers RedirectBaseURL SessionDuration EnrollmentTicketTTL)).

Definition dec_AuditConfig : decoder AuditConfig := dec_struct (fun ms c =>
  CheckpointInterval ← field ms "checkpoint_interval_seconds" dec_int (aud_CheckpointInterval c);
  CheckpointMaxEvents ← field ms "checkpoint_max_events" dec_int (aud_CheckpointMaxEvents c);
  S3Endpoint ← field ms "s3_endpoint" dec_string (aud_S3Endpoint c);
  S3Bucket ← field ms "s3_bucket" dec_string (aud_S3Bucket c);
  S3Region ← field ms "s3_region" dec_string (aud_S3Region c);
  ObjectLockEnabled ← field ms "object_lock_enabled" dec_bool (aud_ObjectLockEnabled c);
  OnlineRetentionDays ← field ms "online_retention_days" dec_int (aud_OnlineRetentionDays c);
  ImmutableRetentionYears ← field ms "immutable_retention_years" dec_int (aud_ImmutableRetentionYears c);
Ok (mkAuditConfig CheckpointInterval CheckpointMaxEvents S3Endpoint S3Bucket S3Region ObjectLockEnabled
      OnlineRetentionDays ImmutableRetentionYears)).

Definition dec_RateLimitConfig : decoder RateLimitConfig := dec_struct (fun ms c =>
  Enabled ← field ms "enabled" dec_bool (rlc_Enabled c);
  ApprovalsPerMinuteUser ← field ms "approvals_per_minute_user" dec_int (rlc_ApprovalsPerMinuteUser c);
ApprovalsPerMinuteSrcNode ← field ms "approvals_per_minute_src_node" dec_int
      (rlc_ApprovalsPerMinuteSrcNode c);
ApprovalsPerMinuteProtectedNode ← field ms "approvals_per_minute_protected_node" dec_int
      (rlc_ApprovalsPerMinuteProtectedNode c);
  ApprovalsPerMinuteTenant ← field ms "approvals_per_minute_tenant" dec_int (rlc_ApprovalsPerMinuteTenant c);
  MaxPendingPerUser ← field ms "max_pending_per_user" dec_int (rlc_MaxPendingPerUser c);
MaxPromptsPerMinuteDevice ← field ms "max_prompts_per_minute_device" dec_int
      (rlc_MaxPromptsPerMinuteDevice c);
MaxPendingConnectionsResource ← field ms "max_pending_connections_resource" dec_int
      (rlc_MaxPendingConnectionsResource c);
MaxPendingConnectionsNode ← field ms "max_pending_connections_node" dec_int
      (rlc_MaxPendingConnectionsNode c);
  MaxPreApprovalBytes ← field ms "max_pre_approval_bytes" dec_int (rlc_MaxPreApprovalBytes c);
  MaxPreApprovalMemoryNode ← field ms "max_pre_approval_memory_node" dec_int (rlc_MaxPreApprovalMemoryNode c);
Ok (mkRateLimitConfig Enabled ApprovalsPerMinuteUser ApprovalsPerMinuteSrcNode
      ApprovalsPerMinuteProtectedNode ApprovalsPerMinuteTenant MaxPendingPerUser
      MaxPromptsPerMinuteDevice MaxPendingConnectionsResource MaxPendingConnectionsNode
      MaxPreApprovalBytes MaxPreApprovalMemoryNode)).

Definition dec_EnforcementConfig : decoder EnforcementConfig := dec_struct (fun ms c =>
  RevocationFreshnessBound ← field ms "revocation_freshness_bound" dec_int (enf_RevocationFreshnessBound c);
  PolicyMaxOfflineAge ← field ms "policy_max_offline_age" dec_int (enf_PolicyMaxOfflineAge c);
  PolicyRefreshInterval ← field ms "policy_refresh_interval" dec_int (enf_PolicyRefreshInterval c);
  RequestTTL ← field ms "request_ttl" dec_int (enf_RequestTTL c);
  BackendProbeInterval ← field ms "backend_probe_interval" dec_int (enf_BackendProbeInterval c);
  FirewallVerifyInterval ← field ms "firewall_verify_interval" dec_int (enf_FirewallVerifyInterval c);
Ok (mkEnforcementConfig RevocationFreshnessBound PolicyMaxOfflineAge PolicyRefreshInterval RequestTTL
      BackendProbeInterval FirewallVerifyInterval)).

Definition dec_ObservabilityConfig : decoder ObservabilityConfig := dec_struct (fun ms c =>
  OTelExporterEndpoint ← field ms "otel_exporter_endpoint" dec_string (obs_OTelExporterEndpoint c);
  LogLevel ← field ms "log_level" dec_string (obs_LogLevel c);
  LogFormat ← field ms "log_format" dec_string (obs_LogFormat c);
  MetricsPort ← field ms "metrics_port" dec_int (obs_MetricsPort c);
  TracingSampleRate ← field ms "tracing_sample_rate" dec_float (obs_TracingSampleRate c);
  Ok (mkObservabilityConfig OTelExporterEndpoint LogLevel LogFormat MetricsPort TracingSampleRate)).

Definition dec_Config : decoder Config := dec_struct (fun ms c =>
  Version ← field ms "version" dec_int (cfg_Version c);
  Service ← field ms "service" dec_ServiceConfig (cfg_Service c);
  Database ← field ms "database" dec_DatabaseConfig (cfg_Database c);
  Vault ← field ms "vault" dec_VaultConfig (cfg_Vault c);
  Crypto ← field ms "crypto" dec_CryptoConfig (cfg_Crypto c);
  Valkey ← field ms "valkey" dec_ValkeyConfig (cfg_Valkey c);
  OIDC ← field ms "oidc" dec_OIDCConfig (cfg_OIDC c);
  Audit ← field ms "audit" dec_AuditConfig (cfg_Audit c);
  RateLimit ← field ms "rate_limit" dec_RateLimitConfig (cfg_RateLimit c);
  Enforcement ← field ms "enforcement" dec_EnforcementConfig (cfg_Enforcement c);
  Observability ← field ms "observability" dec_ObservabilityConfig (cfg_Observability c);
  Ok (mkConfig Version Service Database Vault Crypto Valkey OIDC Audit RateLimit Enforcement Observability)).

(** [LoadFromFile]; the contents of the file, or the error of reading it, come
    from the operating system. *)
Definition LoadFromFile (path : string) (file : outcome bytes) : outcome Config :=
  data ← wrap "config: read file %s: %w" [AStr path] file;
  cfg ← wrap "config: parse %s: %w" [AStr path] (Unmarshal dec_Config data DefaultConfig);
  wrap "config: validation: %w" [] (Validate cfg) ;;
  Ok cfg.

(** ** What a loaded configuration guarantees *)

(** The limits validation enforces. *)
Record config_valid (c : Config) : Prop := mkConfigValid {
  cv_version : cfg_Version c = 1;
  cv_listen : svc_ListenAddr (cfg_Service c) <> "";
  cv_host : dbc_Host (cfg_Database c) <> "";
  cv_freshness : enf_RevocationFreshnessBound (cfg_Enforcement c) <= 10 * Second;
  cv_offline : enf_PolicyMaxOfflineAge (cfg_Enforcement c) <= 5 * Minute;
  cv_online : 400 <= aud_OnlineRetentionDays (cfg_Audit c);
  cv_years : 7 <= aud_ImmutableRetentionYears (cfg_Audit c)
}.

Lemma Validate_iff c : Validate c = Ok tt <-> config_valid c.
Proof.
  unfold Validate. split.
  - intros H. repeat (match type of H with (if ?b then _ else _) = _ => destruct b eqn:? end; [done|]).
    go_bool. rewrite ?Z.ltb_ge in *. by split.
  - intros [-> Hl Hh Hf Ho Hd Hy]. rewrite eqb_refl. cbn [negb].
    rewrite (proj2 (eqb_false _ _) Hl), (proj2 (eqb_false _ _) Hh).
    by rewrite !(proj2 (Z.ltb_ge _ _)) by done.
Qed.

(** Loading gives a valid configuration or an error: [LoadFromFile] succeeds
    exactly when the file could be read, its text decodes over the defaults, and the
    result keeps the limits of [config_valid].  What decoding lets pass is another
    matter: members that name no field are ignored, see below. *)
Theorem loaded_config_valid path file cfg :
  LoadFromFile path file = Ok cfg <->
  exists data, file = Ok data /\ Unmarshal dec_Config data DefaultConfig = Ok cfg /\ config_valid cfg.
Proof.
  unfold LoadFromFile. rewrite bind_Ok. setoid_rewrite bind_Ok. setoid_rewrite bind_Ok.
  setoid_rewrite wrap_Ok. setoid_rewrite <- Validate_iff. split.
  - intros (data & -> & c & Hc & [] & Hv & [= <-]). eauto.
  - intros (data & -> & Hc & Hv). eauto 10.
Qed.

(** ** Unknown members *)

(** The names of the top-level fields. *)
Definition config_names : list string :=
  ["version"; "service"; "database"; "vault"; "crypto"; "valkey"; "oidc"; "audit"; "rate_limit";
   "enforcement"; "observability"].

Lemma field_skip {A} ms1 k v ms2 name (dec : decoder A) old :
  foldName k <> str_bytes name ->
  field (ms1 ++ (k, v) :: ms2) name dec old = field (ms1 ++ ms2) name dec old.
Proof.
  intros Hk. revert old. induction ms1 as [|[k1 v1] ms1 IH]; intros old; cbn [app field].
  - by rewrite (proj2 (eqb_false _ _) Hk).
  - destruct (foldName k1 == str_bytes name); [|apply IH].
    destruct (dec v1 old) as [new|e|]; [|done..]. apply IH.
Qed.

(** Members that name no field are ignored, with everything inside them: a
    misspelt limit is not noticed, and the default stays. *)
Theorem unknown_members_ignored ms1 k v ms2 c :
  Forall (fun name => foldName k <> str_bytes name) config_names ->
  dec_Config (JObject (ms1 ++ (k, v) :: ms2)) c = dec_Config (JObject (ms1 ++ ms2)) c.
Proof.
  unfold config_names. rewrite !Forall_cons. intros (?&?&?&?&?&?&?&?&?&?&?&_).
  unfold dec_Config, dec_struct. by rewrite !field_skip by done.
Qed.

(** Limits validation does not check: a configuration with a negative freshness
    bound, no request lifetime and the rate limiter off is valid. *)
Definition lax_text : bytes := str_bytes ("{" +:+ quoted "enforcement" +:+ ":{" +:+
  quoted "revocation_freshness_bound" +:+ ":-1," +:+ quoted "request_ttl" +:+ ":0}," +:+
  quoted "rate_limit" +:+ ":{" +:+ quoted "enabled" +:+ ":false}," +:+ quoted "databse" +:+ ":{}}")%string.

Theorem lax_config_accepted :
  exists cfg, LoadFromFile "/etc/dnivio/config.json" (Ok lax_text) = Ok cfg /\
    enf_RevocationFreshnessBound (cfg_Enforcement cfg) = -1 /\
    enf_RequestTTL (cfg_Enforcement cfg) = 0 /\ rlc_Enabled (cfg_RateLimit cfg) = false /\
    cfg_Database cfg = cfg_Database DefaultConfig.
Proof. eexists. split; [vm_compute; reflexivity|]. by vm_compute. Qed.
