(* ===== verification/Startup.v ===== *)
(** * Startup: how the Approval Service comes up

    [service/cmd/approval-service/main.go] without the adapters of [ServiceMain]:
    reading the configuration, connecting to the database, the check of the schema,
    the cryptographic initialisation with the root of trust, and the two HTTP
    handlers; and the loading of the root public key of
    [service/internal/crypto/keymanager.go].

    The operating system, the database driver, the clock and the random source are
    inputs ([Host]).  [log.Fatalf] ends the process: [startup] returns its message
    as an error. *)

From stdpp Require Import base gmap strings list fin_maps pretty.
From Stdlib Require Import ZArith Lia Strings.Byte Floats.SpecFloat.
From S2P Require Import Prelude Identity Cose Envelope Reference Runes Float64 Json Config.
From S2P Require Import KeyManager KeyManagerProps.

Open Scope Z_scope.
Open Scope go_scope.

(** What the process meets. *)
Record Host : Type := mkHost {
  os_Getenv : string -> string;
  os_ReadFile : string -> outcome bytes;
  sql_Open : string -> outcome unit;
  db_Ping : outcome unit;
  db_TenantsExists : outcome bool;
  host_rootKey : option bytes;
  host_clock : nat -> Time;
  host_fresh : nat -> Fresh
}.

(** ** Files *)

(** [readFileIfExists] *)
Definition readFileIfExists (h : Host) (path : string) : outcome string :=
  if path == "" then Ok "" else
  data ← os_ReadFile h path;
  Ok (bytes_str data).

(** ** The database *)

(** The connection string of [initDatabase]. *)
Definition dsn `{FloatToInt} (c : DatabaseConfig) (password : string) : string :=
  ("host=" +:+ dbc_Host c +:+ " port=" +:+ pretty (dbc_Port c) +:+ " dbname=" +:+ dbc_Database c +:+
   " user=" +:+ dbc_User c +:+ " password=" +:+ password +:+ " sslmode=" +:+ dbc_SSLMode c +:+
   " connect_timeout=" +:+ pretty (int_of_float (duration_Seconds (dbc_ConnectTimeout c))))%string.

(** What [initDatabase] sets on the pool. *)
Record Pool : Type := mkPool {
  pool_dsn : string;
  pool_MaxOpenConns : Z;
  pool_MaxIdleConns : Z;
  pool_ConnMaxIdleTime : Duration
}.

(** [initDatabase] *)
Definition initDatabase `{FloatToInt} (h : Host) (cfg : Config) : outcome Pool :=
  let c := cfg_Database cfg in
  password ← wrap "read db password: %w" [] (readFileIfExists h (dbc_PasswordFile c));
  wrap "open db: %w" [] (sql_Open h (dsn c password)) ;;
  wrap "ping db: %w" [] (db_Ping h) ;;
  Ok (mkPool (dsn c password) (dbc_MaxConns c) (dbc_MinConns c) (dbc_MaxIdleTime c)).

(** [runMigrations]: the query's error and its answer are only logged. *)
Definition runMigrations (h : Host) : outcome unit :=
  match db_TenantsExists h with Panic => Panic | _ => Ok tt end.

(** ** The root of trust *)

Record RootTrustAnchor : Type := mkRootTrustAnchor { rta_PubKey : bytes; rta_Fingerprint : string }.

Section Crypto.
Context `{UT : UuidText} `{GC : GoCrypto}.

(** [LoadRootPubKey] *)
Definition LoadRootPubKey (path : string) (file : outcome bytes) : outcome (bytes * string) :=
  if path == "" then Err (Errorf "crypto: root public key file path is required" []) else
  hexBytes ← wrap "crypto: read root pub key file %s: %w" [AStr path] file;
  keyBytes ← wrap "crypto: decode root pub key from %s: %w" [AStr path]
               (hex_DecodeString (TrimSpace hexBytes));
  if (length keyBytes =? 32)%nat
  then Ok (keyBytes, hex (sha256 keyBytes))
  else Err (Errorf "crypto: invalid Ed25519 public key size %d (expected %d) in %s"
              [AInt (Z.of_nat (length keyBytes)); AInt 32; AStr path]).

(** The root key [initCrypto] pins: from the file, or a new one in development. *)
Definition root_key (h : Host) (cfg : Config) (devMode : bool) : outcome (bytes * string) :=
  let path := cry_RootPubKeyFile (cfg_Crypto cfg) in
  if path != "" then LoadRootPubKey path (os_ReadFile h path)
  else if devMode then
    '(pub, _, fp) ← wrap "generate dev root key: %w" [] (NewRootKey (host_rootKey h));
    Ok (pub, fp)
  else Err (Errorf "crypto.root_pub_key_file is required in production" []).

(** [initCrypto] *)
Definition initCrypto (h : Host) (cfg : Config)
    : outcome (KeyManager InMemorySigner * RootTrustAnchor * InMemoryEncrypter) :=
  let devMode := os_Getenv h "DNIVIO_DEVELOPMENT" == "true" in
  signer ← NewSignerForMode devMode (vlt_Addr (cfg_Vault cfg));
  encrypter ← NewEncrypterForMode devMode (vlt_Addr (cfg_Vault cfg));
  '(rootPub, rootFP) ← root_key h cfg devMode;
  let '(r, km) := Initialize (host_clock h) (host_fresh h) (NewKeyManager signer rootPub) in
  keySet ← wrap "initialize key manager: %w" [] r;
  let sigFile := cry_RootSigFile (cfg_Crypto cfg) in
  km ← (if sigFile != "" then LoadRootSignature km sigFile (os_ReadFile h sigFile)
        else if devMode then Ok km
        else Err (Errorf "crypto.root_sig_file is required in production" []));
  Ok (km, mkRootTrustAnchor rootPub rootFP, encrypter).

(** ** The program *)

(** What runs after a successful start: the parts [main] builds, and the limit of
    concurrent streams, [uint32(cfg.Service.MaxDaemons)]. *)
Record Service : Type := mkService {
  s_config : Config;
  s_pool : Pool;
  s_keyManager : KeyManager InMemorySigner;
  s_rootAnchor : RootTrustAnchor;
  s_encrypter : InMemoryEncrypter;
  s_maxStreams : Z
}.

(** [main] up to the start of the servers *)
Definition startup `{FloatToInt} (h : Host) (configPath : string) : outcome Service :=
  cfg ← wrap "Failed to load config: %v" [] (LoadFromFile configPath (os_ReadFile h configPath));
  pool ← wrap "Failed to initialize database: %v" [] (initDatabase h cfg);
  wrap "Failed to run migrations: %v" [] (runMigrations h) ;;
  '(km, rootAnchor, encrypter) ← wrap "Failed to initialize crypto: %v" [] (initCrypto h cfg);
  Ok (mkService cfg pool km rootAnchor encrypter (svc_MaxDaemons (cfg_Service cfg) mod 2 ^ 32)).

(** ** HTTP *)

(** [json.NewEncoder(w).Encode] of a map of strings: the members in the order of
    their keys, and a newline.  None of the texts needs an escape. *)
Fixpoint members_text (l : list (string * string)) : string :=
  match l with
  | [] => ""
  | [(k, v)] => (quoted k +:+ ":" +:+ quoted v)%string
  | (k, v) :: r => (quoted k +:+ ":" +:+ quoted v +:+ "," +:+ members_text r)%string
  end.
Definition object_text (l : list (string * string)) : string :=
  ("{" +:+ members_text l +:+ "}" +:+ String (Ascii.ascii_of_nat 10) "")%string.

(** [healthHandler]: the status and the body. *)
Definition healthHandler (ping : outcome unit) : Z * string :=
  match ping with
  | Ok _ => (200, object_text [("spec", "ENGINEERING.md v2.1"); ("status", "healthy"); ("version", "2.1.0")])
  | _ => (503, object_text [("error", "database unreachable"); ("status", "unhealthy")])
  end%string.

(** [statusHandler] *)
Definition statusHandler : Z * string :=
  (200, object_text [("status", "operational"); ("uptime", "0s")]%string).

(** The routes [main] registers. *)
Definition httpMux (ping : outcome unit) (path : string) : Z * string :=
  if path == "/health" then healthHandler ping
  else if path == "/v1/status" then statusHandler
  else (404, ("404 page not found" +:+ String (Ascii.ascii_of_nat 10) "")%string).

End Crypto.

(** ** What a start gives *)

Section Props.
Context `{UT : UuidText} `{GC : GoCrypto}.

(** Key files round-trip: the file that holds the hexadecimal digits of a
    32-byte public key, with or without the newline editors leave, loads as that
    key with its SHA-256 fingerprint; no file loads as a key of another length, and
    the fingerprint is always that of the key. *)
Theorem root_key_roundtrip path pub :
  path <> "" -> length pub = 32%nat ->
  LoadRootPubKey path (Ok (str_bytes (hex pub))) = Ok (pub, hex (sha256 pub)) /\
  LoadRootPubKey path (Ok (str_bytes (hex pub) ++ [x0a])) = Ok (pub, hex (sha256 pub)) /\
  forall file k fp, LoadRootPubKey path file = Ok (k, fp) -> length k = 32%nat /\ fp = hex (sha256 k).
Proof.
  intros Hp Hl. destruct (TrimSpace_graphic _ (graphic_hex pub)) as [T1 T2].
  unfold LoadRootPubKey. rewrite (proj2 (eqb_false _ _) Hp). split_and!.
  - cbn [wrap]. unfold mbind, outcome_bind. rewrite T1, hex_DecodeString_hex. cbn [wrap]. by rewrite Hl.
  - cbn [wrap]. unfold mbind, outcome_bind. rewrite T2, hex_DecodeString_hex. cbn [wrap]. by rewrite Hl.
  - intros file k fp (hb & _ & (kb & _ & H)%bind_Ok)%bind_Ok.
    destruct (length kb =? 32)%nat eqn:E; [|done]. apply Nat.eqb_eq in E. by injection H as <- <-.
Qed.

Lemma LoadRootSignature_Ok (km : KeyManager InMemorySigner) path file km' :
  LoadRootSignature km path file = Ok km' ->
  exists sig ks, file = Ok sig /\ km_activeKeys km = Some ks /\
    ed25519_Verify (km_rootPubKey km) (buildPubKeySetForSigning ks) sig = Ok true /\
    km' = mkKeyManager (km_signer km) (Some (mkActiveKeySet (ks_Keys ks) sig (ks_IssuedAt ks)))
            (km_rootPubKey km) (km_allowedKids km) (km_overlapKids km).
Proof.
  unfold LoadRootSignature. destruct (path == ""); [done|].
  intros (sig & Hf & H)%bind_Ok. rewrite wrap_Ok in Hf. rewrite wrap_Ok in H. unfold SetRootSignature in H.
  destruct (km_activeKeys km) as [ks|]; [|done]. apply bind_Ok in H as ([] & Hv & [= <-]).
  rewrite wrap_Ok in Hv. unfold verifyRootSig in Hv. apply bind_Ok in Hv as (b & Hv & Hb).
  destruct b; [|done]. by exists sig, ks.
Qed.

Lemma Initialize_Ok clock fresh signer rootPub ks km :
  Initialize clock fresh (NewKeyManager signer rootPub) = (Ok ks, km) ->
  km_rootPubKey km = rootPub /\ km_activeKeys km = Some ks.
Proof.
  unfold Initialize. destruct (init_keys _ _ _ _ _ _) as [[keys|e|] km'] eqn:E; [|done..].
  intros [= <- <-]. cbn. apply init_keys_root in E. by split.
Qed.

(** What the service trusts after a start: the pinned root key is the file's, or a
    new one; its fingerprint is published; the keys in use are signed by it when a
    signature file is configured. *)
Definition trusted (h : Host) (cfg : Config) (km : KeyManager InMemorySigner) (anchor : RootTrustAnchor) : Prop :=
  km_rootPubKey km = rta_PubKey anchor /\ rta_Fingerprint anchor = hex (sha256 (rta_PubKey anchor)) /\
  (cry_RootPubKeyFile (cfg_Crypto cfg) <> "" -> exists data,
     os_ReadFile h (cry_RootPubKeyFile (cfg_Crypto cfg)) = Ok data /\
     hex_DecodeString (TrimSpace data) = Ok (rta_PubKey anchor) /\ length (rta_PubKey anchor) = 32%nat) /\
  (cry_RootSigFile (cfg_Crypto cfg) <> "" -> exists sig ks,
     os_ReadFile h (cry_RootSigFile (cfg_Crypto cfg)) = Ok sig /\
     km_activeKeys km = Some ks /\ ks_RootSig ks = sig /\
     VerifyKeySetSignature (rta_PubKey anchor) ks sig = Ok true).

Lemma root_key_Ok h cfg dev pub fp :
  root_key h cfg dev = Ok (pub, fp) ->
  fp = hex (sha256 pub) /\
  (cry_RootPubKeyFile (cfg_Crypto cfg) <> "" -> exists data,
     os_ReadFile h (cry_RootPubKeyFile (cfg_Crypto cfg)) = Ok data /\
     hex_DecodeString (TrimSpace data) = Ok pub /\ length pub = 32%nat).
Proof.
  unfold root_key. destruct (_ != "") eqn:E; go_bool.
  - unfold LoadRootPubKey. rewrite (proj2 (eqb_false _ _) E).
    intros (hb & Hh & (kb & Hk & H)%bind_Ok)%bind_Ok. rewrite wrap_Ok in Hh. rewrite wrap_Ok in Hk.
    destruct (length kb =? 32)%nat eqn:El; [|done]. apply Nat.eqb_eq in El. injection H as <- <-.
    split; [done|]. intros _. by exists hb.
  - destruct dev; [|done]. unfold NewRootKey. destruct (host_rootKey h) as [priv|]; [|done].
    intros [= <- <-]. done.
Qed.

Lemma initCrypto_Ok h cfg km anchor enc :
  initCrypto h cfg = Ok (km, anchor, enc) ->
  os_Getenv h "DNIVIO_DEVELOPMENT" = "true" /\ trusted h cfg km anchor /\ enc = NewInMemoryEncrypter.
Proof.
  unfold initCrypto. destruct (_ == "true") eqn:Ed; go_bool.
  2:{ unfold NewSignerForMode. by destruct (vlt_Addr _ == ""). }
  intros H. split; [done|]. cbn [NewSignerForMode NewEncrypterForMode mbind outcome_bind] in H.
  apply bind_Ok in H as ([pub fp] & Hr & H).
  destruct (Initialize _ _ _) as [r km0] eqn:Ei. apply bind_Ok in H as (ks & Hks & H).
  rewrite wrap_Ok in Hks. subst r. apply Initialize_Ok in Ei as [Hroot Hact].
  apply bind_Ok in H as (km1 & Hsig & [= <- <- <-]). apply root_key_Ok in Hr as [-> Hfile].
  split; [|done]. unfold trusted. cbn [rta_PubKey rta_Fingerprint].
  destruct (cry_RootSigFile (cfg_Crypto cfg) != "") eqn:Es; go_bool.
  - apply LoadRootSignature_Ok in Hsig as (sig & ks' & Hf & Hk & Hv & ->). rewrite Hact in Hk.
    injection Hk as <-. split_and!; try done. intros _. eexists sig, _. split_and!; try done.
    unfold VerifyKeySetSignature. by rewrite <- Hroot.
  - injection Hsig as <-. split_and!; try done.
Qed.

(** C24.  What a started service guarantees: if [startup] succeeds, the
    configuration keeps its limits, the database answered, the process runs in
    development mode (there is no production signer, so in production the service
    never starts), the fingerprint is that of the pinned root key, the root key is
    the one of the key file where one is configured, and the signing keys carry a
    root signature that verifies where a signature file is configured. *)
Theorem startup_sound `{FloatToInt} h path s :
  startup h path = Ok s ->
  config_valid (s_config s) /\ db_Ping h = Ok tt /\ sql_Open h (pool_dsn (s_pool s)) = Ok tt /\
  os_Getenv h "DNIVIO_DEVELOPMENT" = "true" /\
  trusted h (s_config s) (s_keyManager s) (s_rootAnchor s) /\ 0 <= s_maxStreams s < 2 ^ 32.
Proof.
  unfold startup. intros (cfg & Hc & (pool & Hp & ([] & _ & ([[km anchor] enc] & Hi & [= <-])%bind_Ok)%bind_Ok)%bind_Ok)%bind_Ok.
  rewrite wrap_Ok in Hc. rewrite wrap_Ok in Hp. rewrite wrap_Ok in Hi. cbn.
  apply loaded_config_valid in Hc as (data & _ & _ & Hv). apply initCrypto_Ok in Hi as (He & Ht & _).
  unfold initDatabase in Hp. apply bind_Ok in Hp as (pw & _ & ([] & Ho & ([] & Hq & [= <-])%bind_Ok)%bind_Ok).
  rewrite wrap_Ok in Ho. rewrite wrap_Ok in Hq. split_and!; try done; apply Z.mod_pos_bound; lia.
Qed.

(** A development start works: with a readable configuration that decodes to
    a valid one without key files, an accepting database and a random source that
    delivers, the service starts, whatever the schema check says, and its key
    manager signs for every purpose with keys it accepts itself. *)
Theorem development_start `{FloatToInt} h path data cfg priv now :
  os_Getenv h "DNIVIO_DEVELOPMENT" = "true" -> os_ReadFile h path = Ok data ->
  Unmarshal dec_Config data DefaultConfig = Ok cfg -> config_valid cfg ->
  dbc_PasswordFile (cfg_Database cfg) = "" -> cfg_Crypto cfg = mkCryptoConfig "" "" ->
  (forall dsn, sql_Open h dsn = Ok tt) -> db_Ping h = Ok tt -> db_TenantsExists h <> Panic ->
  host_rootKey h = Some priv ->
  (forall m, exists k, fresh_priv (host_fresh h m) = Some k /\ length k = 64%nat) ->
  exists s, startup h path = Ok s /\ s_config s = cfg /\
    rta_PubKey (s_rootAnchor s) = ed25519_Public priv /\
    forall p msg, p ∈ AllPurposes -> exists sig kid,
      SignWithPurpose now (s_keyManager s) p msg = Ok (sig, kid) /\
      VerifySignature (s_keyManager s) kid msg sig = Ok tt.
Proof.
  intros Hdev Hfile Hdec Hvalid Hpw Hcry Hopen Hping Hmig Hroot Hfresh.
  assert (Hload : LoadFromFile path (os_ReadFile h path) = Ok cfg) by (apply loaded_config_valid; eauto).
  destruct (initialize_ready (host_clock h) (host_fresh h) (ed25519_Public priv) now Hfresh)
    as (ks & km & Hi & _ & _ & Hsign).
  eexists (mkService cfg _ km (mkRootTrustAnchor _ _) _ _). split; [|by split_and!].
  assert (Hdb : initDatabase h cfg = Ok (mkPool (dsn (cfg_Database cfg) "") (dbc_MaxConns (cfg_Database cfg))
    (dbc_MinConns (cfg_Database cfg)) (dbc_MaxIdleTime (cfg_Database cfg)))).
  { unfold initDatabase, readFileIfExists. rewrite Hpw. change ("" == "") with true.
    unfold mbind, outcome_bind. cbn [wrap]. rewrite Hopen. cbn [wrap]. by rewrite Hping. }
  assert (Hmg : runMigrations h = Ok tt) by (unfold runMigrations; by destruct (db_TenantsExists h)).
  assert (Hcrypt : initCrypto h cfg = Ok (km, mkRootTrustAnchor (ed25519_Public priv)
    (hex (sha256 (ed25519_Public priv))), NewInMemoryEncrypter)).
  { unfold initCrypto, root_key. rewrite Hdev, Hcry, Hroot. cbn [NewSignerForMode NewEncrypterForMode
      eqb mbind outcome_bind NewRootKey wrap cry_RootPubKeyFile cry_RootSigFile].
    change ("" != "") with false. change ("true" == "true") with true. cbn -[Initialize]. by rewrite Hi. }
  unfold startup, mbind, outcome_bind. rewrite Hload. cbn [wrap]. rewrite Hdb. cbn [wrap].
  rewrite Hmg. cbn [wrap]. by rewrite Hcrypt.
Qed.

End Props.

(** ** On concrete data *)

#[local] Instance zero_FloatToInt : FloatToInt := {| int_unrepresentable _ := 0 |}.

Definition sample_host : Host := {|
  os_Getenv v := if v == "DNIVIO_DEVELOPMENT" then "true" else "";
  os_ReadFile p := if p == "/etc/dnivio/config.json" then Ok (str_bytes "{}")
                   else Err (Errorf "no such file" []);
  sql_Open _ := Ok tt;
  db_Ping := Ok tt;
  db_TenantsExists := Ok false;
  host_rootKey := Some (sample_priv 9);
  host_clock n := sample_now + Z.of_nat n;
  host_fresh n := sample_fresh (Z.of_nat n + 1)
|}.

Lemma default_valid : config_valid DefaultConfig.
Proof. apply Validate_iff. vm_compute. reflexivity. Qed.

Lemma development_start_witness :
  exists s sig kid, startup sample_host "/etc/dnivio/config.json" = Ok s /\
    SignWithPurpose (sample_now + Second) (s_keyManager s) PurposeGrantSig [x01] = Ok (sig, kid).
Proof.
  destruct (development_start sample_host "/etc/dnivio/config.json" (str_bytes "{}") DefaultConfig (sample_priv 9)
    (sample_now + Second)) as (s & Hs & _ & _ & Hsign).
  - reflexivity.
  - reflexivity.
  - vm_compute. reflexivity.
  - apply default_valid.
  - reflexivity.
  - reflexivity.
  - intros dsn. reflexivity.
  - reflexivity.
  - discriminate.
  - reflexivity.
  - intros m. eexists. split; reflexivity.
  - destruct (Hsign PurposeGrantSig [x01]) as (sig & kid & H & _); [apply list_elem_of_In; cbn; tauto|].
    exists s, sig, kid. split; [exact Hs|exact H].
Defined.

Lemma startup_sound_witness : exists s, startup sample_host "/etc/dnivio/config.json" = Ok s /\
  config_valid (s_config s).
Proof.
  assert (Hs : exists s, startup sample_host "/etc/dnivio/config.json" = Ok s)
    by (eexists; vm_compute; reflexivity).
  destruct Hs as [s Hs]. exists s. split; [exact Hs|]. apply (startup_sound sample_host _ s Hs).
Defined.

Lemma root_key_roundtrip_witness :
  LoadRootPubKey "/etc/dnivio/root.pub" (Ok (str_bytes (hex (sample_pub 7)) ++ [x0a])) =
    Ok (sample_pub 7, hex (sha256 (sample_pub 7))).
Proof. apply (root_key_roundtrip "/etc/dnivio/root.pub" (sample_pub 7)); [discriminate|reflexivity]. Defined.
