(* ===== verification/Shutdown.v ===== *)
(** * Shutdown: the servers of the approval service and their end

    The part of [main] of [service/cmd/approval-service/main.go] that starts the
    two servers in goroutines, waits for a signal and shuts down: [GracefulStop] of
    the gRPC server, [Shutdown] of the HTTP server under a context of thirty seconds
    that is created before both, then [db.Close].  [log.Fatalf] in a goroutine ends
    the process.  The steps of the goroutines interleave with requests and the
    clock. *)

From stdpp Require Import base relations numbers.
From Stdlib Require Import ZArith Lia.
From S2P Require Import Prelude Identity.

Open Scope Z_scope.

(** A goroutine that runs a server: before it listens, in [Serve], returned. *)
Inductive serving : Type := NotYet | Serving | Returned.

(** Where [main] is: at [<-quit], in [GracefulStop], in [Shutdown], before
    [db.Close], after it.  The deadline is that of the context. *)
Inductive phase : Type :=
| Waiting
| Graceful (deadline : Time)
| HttpShutdown (deadline : Time)
| Closing (deadline : Time)
| Closed (deadline : Time).

Record server : Type := mkServer {
  sv_now : Time;
  sv_phase : phase;
  sv_grpc : serving;
  sv_http : serving;
  sv_rpcs : nat;           (* RPCs in progress *)
  sv_requests : nat;       (* HTTP requests in progress *)
  sv_exit : option Z;      (* the process ended with this code *)
  sv_signal : option Time  (* when [<-quit] received the signal *)
}.

Definition shutdown_timeout : Duration := 30 * Second.

Definition start_servers (now : Time) : server := mkServer now Waiting NotYet NotYet 0 0 None None.

Definition set_phase (p : phase) (s : server) : server :=
  mkServer (sv_now s) p (sv_grpc s) (sv_http s) (sv_rpcs s) (sv_requests s) (sv_exit s) (sv_signal s).
Definition set_grpc (g : serving) (s : server) : server :=
  mkServer (sv_now s) (sv_phase s) g (sv_http s) (sv_rpcs s) (sv_requests s) (sv_exit s) (sv_signal s).
Definition set_http (h : serving) (s : server) : server :=
  mkServer (sv_now s) (sv_phase s) (sv_grpc s) h (sv_rpcs s) (sv_requests s) (sv_exit s) (sv_signal s).
Definition set_rpcs (n : nat) (s : server) : server :=
  mkServer (sv_now s) (sv_phase s) (sv_grpc s) (sv_http s) n (sv_requests s) (sv_exit s) (sv_signal s).
Definition set_reqs (n : nat) (s : server) : server :=
  mkServer (sv_now s) (sv_phase s) (sv_grpc s) (sv_http s) (sv_rpcs s) n (sv_exit s) (sv_signal s).
Definition exit_with (code : Z) (s : server) : server :=
  mkServer (sv_now s) (sv_phase s) (sv_grpc s) (sv_http s) (sv_rpcs s) (sv_requests s) (Some code) (sv_signal s).

(** [<-quit] returns: the context of the shutdown is created with its deadline. *)
Definition receive_signal (s : server) : server :=
  mkServer (sv_now s) (Graceful (sv_now s + shutdown_timeout)) (sv_grpc s) (sv_http s) (sv_rpcs s)
    (sv_requests s) (sv_exit s) (Some (sv_now s)).

(** A gRPC server that served takes RPCs on its connections until [GracefulStop] has
    returned: the connections learn of the end by a message, and what they send
    before they have read it is still served. *)
Definition grpc_open (p : phase) : bool := match p with Waiting | Graceful _ => true | _ => false end.
(** The HTTP server takes requests until [Shutdown] closes its listener. *)
Definition http_open (p : phase) : bool := match p with Waiting | Graceful _ => true | _ => false end.

(** One step of a live process.  As documented, [GracefulStop] returns when no RPC is
    in progress and [Serve] has returned, [Shutdown] when no request is in progress
    or, with an error that is ignored, when its context has expired. *)
Inductive move : server -> server -> Prop :=
| mv_tick s now : sv_now s <= now ->
    move s (mkServer now (sv_phase s) (sv_grpc s) (sv_http s) (sv_rpcs s) (sv_requests s) (sv_exit s) (sv_signal s))
(* the gRPC goroutine *)
| mv_grpc_listen_fails s : sv_grpc s = NotYet -> move s (exit_with 1 s)
| mv_grpc_serves s : sv_grpc s = NotYet -> sv_phase s = Waiting -> move s (set_grpc Serving s)
| mv_grpc_already_stopped s : sv_grpc s = NotYet -> sv_phase s <> Waiting -> move s (exit_with 1 s)
| mv_grpc_fails s : sv_grpc s = Serving -> sv_phase s = Waiting -> move s (exit_with 1 s)
| mv_grpc_returns s : sv_grpc s = Serving -> sv_phase s <> Waiting -> move s (set_grpc Returned s)
| mv_rpc_begins s : sv_grpc s <> NotYet -> grpc_open (sv_phase s) = true -> move s (set_rpcs (S (sv_rpcs s)) s)
| mv_rpc_ends s n : sv_rpcs s = S n -> move s (set_rpcs n s)
(* the HTTP goroutine *)
| mv_http_listen_fails s : sv_http s = NotYet -> http_open (sv_phase s) = true -> move s (exit_with 1 s)
| mv_http_serves s : sv_http s = NotYet -> http_open (sv_phase s) = true -> move s (set_http Serving s)
| mv_http_fails s : sv_http s = Serving -> http_open (sv_phase s) = true -> move s (exit_with 1 s)
| mv_http_closed s : sv_http s <> Returned -> http_open (sv_phase s) = false -> move s (set_http Returned s)
| mv_request_begins s : sv_http s = Serving -> http_open (sv_phase s) = true ->
    move s (set_reqs (S (sv_requests s)) s)
| mv_request_ends s n : sv_requests s = S n -> move s (set_reqs n s)
(* main *)
| mv_signal s : sv_phase s = Waiting -> move s (receive_signal s)
| mv_drained s dl : sv_phase s = Graceful dl -> sv_rpcs s = 0%nat -> sv_grpc s <> Serving ->
    move s (set_phase (HttpShutdown dl) s)
| mv_idle s dl : sv_phase s = HttpShutdown dl -> sv_requests s = 0%nat -> move s (set_phase (Closing dl) s)
| mv_expired s dl : sv_phase s = HttpShutdown dl -> dl <= sv_now s -> move s (set_phase (Closing dl) s)
| mv_close s dl : sv_phase s = Closing dl -> move s (exit_with 0 (set_phase (Closed dl) s)).

(** Nothing moves after the process ended. *)
Definition sstep (s s' : server) : Prop := sv_exit s = None /\ move s s'.

(** ** What holds on the way *)

(** The deadline of a shutdown is thirty seconds after the signal. *)
Definition deadline_of (p : phase) : option Time :=
  match p with
  | Waiting => None
  | Graceful dl | HttpShutdown dl | Closing dl | Closed dl => Some dl
  end.

(** After [GracefulStop] no RPC runs; requests outlive [Shutdown] only past the
    deadline; the process ends with 0 only after the database was closed. *)
Definition orderly (s : server) : Prop :=
  match sv_phase s with
  | Waiting | Graceful _ => True
  | HttpShutdown _ => sv_rpcs s = 0%nat
  | Closing dl | Closed dl => sv_rpcs s = 0%nat /\ (sv_requests s = 0%nat \/ dl <= sv_now s)
  end /\ (sv_exit s = Some 0 -> exists dl, sv_phase s = Closed dl) /\
  deadline_of (sv_phase s) = (fun t => t + 30 * Second) <$> sv_signal s /\
  (forall t, sv_signal s = Some t -> t <= sv_now s).

Lemma sstep_orderly s s' : orderly s -> sstep s s' -> orderly s'.
Proof.
  intros (H & He & Hd & Ht) [Ha Hm]. unfold orderly. destruct Hm; cbn in *; rewrite ?Ha in *;
    (split; [|split; [intros E; try discriminate E; eauto|split]]);
    repeat match goal with E : sv_phase _ = _ |- _ => rewrite E in * end; try done;
    try (intros t [= <-]; lia); try (intros t Hs; specialize (Ht t Hs); lia);
    try (destruct (sv_phase s); try done); intuition (try lia; try congruence).
Qed.

Lemma servers_orderly now s : rtc sstep (start_servers now) s -> orderly s.
Proof.
  assert (H0 : orderly (start_servers now)) by done. revert H0. generalize (start_servers now) as s0.
  intros s0 H0 Hr. induction Hr as [|s1 s2 s3 H12 _ IH]; [done|]. apply IH. by eapply sstep_orderly.
Qed.

(** C31.  The database outlives the work.  Given what is documented of [GracefulStop]
    and [Shutdown], in every interleaving of the two servers, their requests, the
    clock and [main]: [db.Close] is reached only after a signal, with no RPC in
    progress, and with an HTTP request in progress only when thirty seconds have
    passed since that signal; and the process ends with code 0 only after
    [db.Close]. *)
Theorem database_closed_last now s :
  rtc sstep (start_servers now) s ->
  (forall dl, sv_phase s = Closing dl \/ sv_phase s = Closed dl ->
     exists t, sv_signal s = Some t /\ t <= sv_now s /\ sv_rpcs s = 0%nat /\
       (sv_requests s = 0%nat \/ t + 30 * Second <= sv_now s)) /\
  (sv_exit s = Some 0 -> exists dl, sv_phase s = Closed dl).
Proof.
  intros (H & He & Hd & Ht)%servers_orderly. split; [|done]. intros dl Hp.
  assert (Hdl : deadline_of (sv_phase s) = Some dl) by (by destruct Hp as [-> | ->]).
  rewrite Hdl in Hd. destruct (sv_signal s) as [t|]; [|done]. injection Hd as ->.
  exists t. split; [done|]. split; [by apply Ht|]. destruct Hp as [E|E]; by rewrite E in H.
Qed.

(** ** Ends that are not graceful *)

Ltac serve_step r := eapply rtc_l; [split; [reflexivity|eapply r; cbn; try reflexivity; try discriminate; try lia]|].

(** The thirty seconds run while [GracefulStop] waits: a slow RPC uses them up, and
    [Shutdown] gets an expired context, so that the database is closed under a
    request that began a moment ago. *)
Theorem slow_rpc_cuts_requests now :
  exists s dl, rtc sstep (start_servers now) s /\ sv_phase s = Closed dl /\ sv_requests s = 1%nat /\
    sv_exit s = Some 0.
Proof.
  eexists _, (now + shutdown_timeout). split.
  { serve_step mv_grpc_serves. serve_step mv_http_serves. serve_step mv_rpc_begins. serve_step mv_signal.
    eapply rtc_l; [split; [reflexivity|apply (mv_tick _ (now + shutdown_timeout)); cbn; unfold shutdown_timeout, Second; lia]|].
    serve_step mv_request_begins. serve_step mv_rpc_ends. serve_step mv_grpc_returns. serve_step mv_drained.
    serve_step mv_expired. serve_step mv_close. apply rtc_refl. }
  done.
Qed.

(** A signal that arrives before the gRPC goroutine serves makes it fail: [Serve]
    refuses a stopped server, and [log.Fatalf] ends the process with code 1 in the
    middle of the shutdown, the database still open. *)
Theorem early_signal_is_fatal now :
  exists s, rtc sstep (start_servers now) s /\ sv_exit s = Some 1 /\
    sv_phase s = Graceful (now + shutdown_timeout).
Proof.
  eexists. split.
  { serve_step mv_signal. serve_step mv_grpc_already_stopped. apply rtc_refl. }
  done.
Qed.

(** ** Witness *)

(** The run of [slow_rpc_cuts_requests]: closed under a request, thirty seconds after
    the signal. *)
Lemma database_closed_last_witness :
  exists s t, sv_requests s = 1%nat /\ sv_signal s = Some t /\ t + 30 * Second <= sv_now s.
Proof.
  destruct (slow_rpc_cuts_requests 0) as (s & dl & Hr & Hp & Hq & _). exists s.
  destruct (proj1 (database_closed_last 0 s Hr) dl (or_intror Hp)) as (t & Ht & _ & _ & [H|H]).
  - rewrite H in Hq. discriminate Hq.
  - exists t. split; [exact Hq|]. split; [exact Ht|exact H].
Defined.
