(* ===== verification/DaemonMain.v ===== *)
(** * DaemonMain: the enforcement daemon as a program

    [daemon/cmd/dnv-daemon/main.go]: configuration and trust root, the order in
    which the grant cache, the firewall, the SSH authorizer, the TCP proxy and the
    HTTPS server are brought up, the callbacks the parts are given, and the two
    HTTP routes.

    The configuration file, the kernel's ports, commands, certificates and the
    storage of the cache are inputs ([DaemonHost]).  [log.Fatalf] ends the process
    without running deferred calls: what the firewall was told so far stays. *)

From stdpp Require Import base gmap strings list fin_maps pretty.
From Stdlib Require Import ZArith Lia Strings.Byte Strings.Ascii.
From S2P Require Import Prelude Identity Cose Envelope Reference KeyManager Runes Config Startup Firewall Ssh TcpProxy.
From S2P Require Import TcpProxyProps Interstitial GrantCache GrantCacheProps.

Open Scope Z_scope.
Open Scope go_scope.

(** ** Configuration *)

Record DaemonConfig : Type := mkDaemonConfig {
  dc_GrantCachePath : string;
  dc_BackendAddr : string;
  dc_BackendPort : Z;
  dc_ProxyPort : Z;
  dc_TLSEnabled : bool;
  dc_TLSCertFile : string;
  dc_TLSKeyFile : string;
  dc_SSHEnabled : bool;
  dc_SSHSocketPath : string;
  dc_MaxPendingConns : Z;
  dc_MaxPreApprovalBytes : Z;
  dc_MaxAggregateMem : Z;
  dc_FirewallVerifyInterval : Duration;
  dc_ServiceEndpoint : string;
  dc_TrustRootFile : string
}.

Definition default_daemon_config : DaemonConfig := {|
  dc_GrantCachePath := "/var/lib/dnivio/grants.db";
  dc_BackendAddr := "127.0.0.1";
  dc_BackendPort := 8080;
  dc_ProxyPort := 8443;
  dc_TLSEnabled := true;
  dc_TLSCertFile := "";
  dc_TLSKeyFile := "";
  dc_SSHEnabled := false;
  dc_SSHSocketPath := "/var/run/dnivio/ssh.sock";
  dc_MaxPendingConns := 100;
  dc_MaxPreApprovalBytes := 65536;
  dc_MaxAggregateMem := 268435456;
  dc_FirewallVerifyInterval := 1 * Second;
  dc_ServiceEndpoint := "approval.dnivio.dev:8443";
  dc_TrustRootFile := ""
|}.

(** [loadDaemonConfig]: the file is read and its contents are dropped. *)
Definition loadDaemonConfig (file : outcome bytes) : outcome DaemonConfig :=
  data ← wrap "read config: %w" [] file;
  Ok default_daemon_config.

(** [loadTrustRoot] *)
Definition loadTrustRoot (path : string) (file : outcome bytes) : outcome bytes :=
  if path == "" then Err (Errorf "trust_root_file is required for AGT verification" []) else
  hexBytes ← wrap "read trust root file: %w" [] file;
  key ← wrap "decode trust root: %w" [] (hex_DecodeString (TrimSpace hexBytes));
  if (length key =? 32)%nat then Ok key
  else Err (Errorf "invalid trust root key size %d" [AInt (Z.of_nat (length key))]).

(** [buildTLSConfig]; loading the key pair is code of [crypto/tls] and the file
    system. *)
Definition buildTLSConfig (cfg : DaemonConfig) (LoadX509KeyPair : string -> string -> outcome unit)
    : outcome unit :=
  wrap "load TLS cert: %w" [] (LoadX509KeyPair (dc_TLSCertFile cfg) (dc_TLSKeyFile cfg)).

(** ** The callbacks *)

Definition ErrNotImplemented : error :=
  Errorf "enforcement: gRPC channel not implemented — access denied by default (C1)" [].

(** [requestApproval]: a result that is not approved comes with the error. *)
Definition requestApproval (req : ApprovalRequest) : outcome (option ApprovalResult) :=
  Err ErrNotImplemented.

(** The [PreAuthorize] and [RequestApproval] callbacks of the TCP proxy. *)
Definition tcpPreAuthorize (srcAddr dstAddr : string) : outcome bool :=
  Err (Errorf "enforcement: PreAuthorize not implemented — access denied by default (C1)" []).

Definition tcpRequestApproval (requestID : UUID) (connID : bytes) (srcAddr dstAddr : string) : outcome bool :=
  result ← requestApproval (mkApprovalRequest requestID None dstAddr "" "TCP" connID);
  match result with Some r => Ok (ap_Approved r) | None => Panic end.

(** The callback given to [SetRemoteConsume]. *)
Definition remoteConsume (jti : UUID) : outcome bool :=
  Err (Errorf "grants: remote consumption not available — gRPC channel not implemented" []).

(** ** Bringing the daemon up *)

Definition port_addr (port : Z) : string := (":" +:+ pretty port)%string.

(** The configuration given to [tcpproxy.New]. *)
Definition tcp_config (cfg : DaemonConfig) : TcpProxy.Config :=
  TcpProxy.mkConfig (port_addr (dc_ProxyPort cfg))
    (dc_BackendAddr cfg +:+ ":" +:+ pretty (dc_BackendPort cfg))%string
    (dc_MaxPendingConns cfg) (dc_MaxPreApprovalBytes cfg) (dc_MaxAggregateMem cfg).

(** The address of the HTTPS server. *)
Definition https_addr (cfg : DaemonConfig) : string := port_addr (dc_ProxyPort cfg).

Record DaemonHost : Type := mkDaemonHost {
  dh_ReadFile : string -> outcome bytes;
  dh_storage : GrantCache.Os;
  dh_now : Time;
  dh_disk : Disk;
  dh_goos : string;
  dh_exec : command -> bool;
  dh_bindable : string -> bool;       (* the address can be bound by one socket *)
  dh_LoadX509KeyPair : string -> string -> outcome unit
}.

(** [net.Listen] when these addresses are bound already. *)
Definition net_Listen (h : DaemonHost) (bound : list string) (addr : string) : outcome unit :=
  if existsb (fun a => a == addr) bound || negb (dh_bindable h addr)
  then Err (Errorf "listen tcp: bind: address already in use" []) else Ok tt.

(** The running daemon.  The HTTPS server listens in a goroutine of its own, whose
    failure ends the process ([log.Fatalf]). *)
Record Daemon : Type := mkDaemon {
  dm_config : DaemonConfig;
  dm_cache : Cache;
  dm_disk : Disk;
  dm_firewall : Manager;
  dm_ssh : option (outcome unit);     (* listening on the socket, or a warning *)
  dm_bound : list string;
  dm_https : option (outcome unit)
}.

Section Daemon.
Context `{UT : UuidText} `{CI : CborInit} `{GC : GoCrypto} `{CA : Cbor AGTPayload}.
Context `{CE : Cbor CacheEntry} `{AE : Aead} `{PT : PageTemplate}.

(** [main] after the configuration was loaded: the result and the commands the
    firewall manager ran. *)
Definition daemon_main (h : DaemonHost) (cfg : DaemonConfig) : outcome Daemon * list command :=
  match loadTrustRoot (dc_TrustRootFile cfg) (dh_ReadFile h (dc_TrustRootFile cfg)) with
  | Err e => (Err (Wrapf "Failed to load trust root: %v" [] e), [])
  | Panic => (Panic, [])
  | Ok trustRoot =>
  let '(r, disk) := NewCache (dh_storage h) (dh_now h) trustRoot (dh_disk h) in
  match r with
  | Err e => (Err (Wrapf "Failed to initialize grant cache: %v" [] e), [])
  | Panic => (Panic, [])
  | Ok cache =>
  let cache := SetRemoteConsume (Some remoteConsume) cache in
  let '(applied, commands, fw) := ApplyBackendIsolation (dh_exec h) (NewManager (dh_goos h))
    (dc_BackendAddr cfg) (dc_BackendPort cfg) (dc_ProxyPort cfg) in
  (wrap "Failed to apply firewall rules: %v" [] applied ;;
   verification_interval (dc_FirewallVerifyInterval cfg) ;;
   let ssh := if dc_SSHEnabled cfg then Some (net_Listen h [] (dc_SSHSocketPath cfg)) else None in
   let proxyAddr := TcpProxy.cfg_ListenAddr (tcp_config cfg) in
   wrap "Failed to start TCP proxy: %v" [] (net_Listen h [] proxyAddr) ;;
   https ← (if dc_TLSEnabled cfg then
              wrap "Failed to build TLS config: %v" [] (buildTLSConfig cfg (dh_LoadX509KeyPair h)) ;;
              Ok (Some (net_Listen h [proxyAddr] (https_addr cfg)))
            else Ok None);
   Ok (mkDaemon cfg cache disk fw ssh [proxyAddr] https), commands)
  end
  end.

(** [main] *)
Definition daemon_start (h : DaemonHost) (configPath : string) : outcome Daemon * list command :=
  match loadDaemonConfig (dh_ReadFile h configPath) with
  | Ok cfg => daemon_main h cfg
  | Err e => (Err (Wrapf "Failed to load config: %v" [] e), [])
  | Panic => (Panic, [])
  end.

(** ** HTTP routes *)

(** [forwardToBackend] redirects the client. *)
Definition forwardToBackend (backendAddr : string) (backendPort : Z) (path : string) : string :=
  ("http://" +:+ backendAddr +:+ ":" +:+ pretty backendPort +:+ path)%string.

Inductive reply : Type :=
| TemporaryRedirect (location : string)
| ApprovalPage (redeem : Cookie) (page : Response).

Definition http_key (host method path : string) : string :=
  (host +:+ "/" +:+ method +:+ "/" +:+ path)%string.

(** The handler of [/]; [env] gives the two random buffers, the times
    [RegisterPending] reads and the new request id. *)
Definition handle_root (now : Time) (cfg : DaemonConfig) (cache : Cache) (pending : gmap string PendingRequest)
    (rnd1 rnd2 : option bytes) (now1 now2 : Time) (requestID : UUID) (host method path : string)
    : reply * gmap string PendingRequest :=
  match cache_Check now (http_key host method path) cache with
  | Some _ => (TemporaryRedirect (forwardToBackend (dc_BackendAddr cfg) (dc_BackendPort cfg) path), pending)
  | None =>
      let '((pollCap, redeemCap), pending') :=
        RegisterPending pending rnd1 rnd2 now1 now2 requestID (60 * Second) in
      (ApprovalPage (SetRedeemCookie requestID redeemCap)
         (ServeInterstitial requestID pollCap (dc_BackendAddr cfg)), pending')
  end.

(** The handler of [/.dnivio/status/]; [parse_error] is what [uuid.Parse] leaves in
    its result when it fails. *)
Definition handle_status (parse_error : string -> UUID) (pending : gmap string PendingRequest)
    (pollCookie : option string) (path : string) : Response :=
  let text := String.substring 16 (String.length path - 16) path in
  ServeStatus pending pollCookie
    (match uuid_Parse text with Some u => u | None => parse_error text end).

End Daemon.

(** ** Fail closed *)

(** The answers the proxy gets from the daemon's callbacks. *)
Definition answer (o : outcome bool) : bool := match o with Ok b => b | _ => false end.

Definition from_daemon (e : event) : Prop :=
  match e with
  | EvPreAuthorize _ ok => exists src dst, ok = answer (tcpPreAuthorize src dst)
  | EvRequestApproval _ ok => exists id connID src dst, ok = answer (tcpRequestApproval id connID src dst)
  | _ => True
  end.

(** A step of the daemon's proxy. *)
Definition daemon_proxy_step (cfg : DaemonConfig) (x y : Proxy) : Prop :=
  TcpProxy.step (TcpProxy.cfg_MaxPendingConns (tcp_config cfg)) x y /\ Forall from_daemon (px_events y).

Section Props.
Context `{UT : UuidText} `{CI : CborInit} `{GC : GoCrypto} `{CA : Cbor AGTPayload}.
Context `{CE : Cbor CacheEntry} `{AE : Aead} `{PT : PageTemplate}.

(** C23.  Without the approval service nothing passes: the proxy, however its
    connections interleave, never dials the backend; the SSH authorizer denies
    every request and keeps no session; and no grant of the cache can be
    consumed. *)
Theorem daemon_fails_closed :
  (forall cfg x c ok b, rtc (daemon_proxy_step cfg) TcpProxy.New x -> EvDial c ok b ∉ px_events x) /\
  (forall a incoming rnd id now reply a',
     handleRequest a requestApproval incoming rnd id now = Ok (reply, a') ->
     a' = a /\ (reply = None \/ reply = Some (str_bytes "DENY"))) /\
  (forall cache os now key jti dk e,
     (Consume os now key jti (SetRemoteConsume (Some remoteConsume) cache) dk).1.1 <> Ok e).
Proof.
  split_and!.
  - intros cfg x c ok b Hs Hin.
    assert (Hx : rtc (TcpProxy.step (dc_MaxPendingConns cfg)) TcpProxy.New x)
      by (eapply (rtc_congruence id); [|exact Hs]; by intros y z [? _]).
    assert (Hev : Forall from_daemon (px_events x)).
    { apply rtc_inv_r in Hs as [<-|(y' & _ & [_ H])]; [constructor|done]. }
    apply list_elem_of_split in Hin as (l1 & l2 & E).
    destruct (po_dials _ (proxy_reachable_ok _ _ Hx) _ _ _ _ _ E) as [Hsub _].
    assert (Hpre : EvPreAuthorize c true ∈ l1).
    { eapply elem_of_submseteq; [|by apply sublist_submseteq]. set_solver. }
    rewrite Forall_forall in Hev. destruct (Hev (EvPreAuthorize c true)) as (s & d & H); [|done].
    rewrite E. set_solver.
  - intros a incoming rnd id now reply a' H. unfold handleRequest in H.
    destruct incoming as [buf|e|]; [|by injection H as <- <-; auto|done].
    destruct (Sscanf_acct _) as [u rh]. injection H as <- <-. auto.
  - intros cache os now key jti dk e. unfold Consume. cbn.
    by destruct (ca_entries cache !! key).
Qed.

(** The daemon never starts: the configuration file is not parsed, the
    default has no trust root, and the start fails before anything else is done,
    whatever the file says. *)
Theorem daemon_never_starts h path :
  (forall d, (daemon_start h path).1 <> Ok d) /\ (daemon_start h path).2 = [].
Proof.
  unfold daemon_start, loadDaemonConfig. by destruct (dh_ReadFile h path).
Qed.

(** Even with a parsed configuration the HTTPS server cannot run beside the TCP
    proxy: both listen on the proxy port, and the failure ends the process. *)
Theorem https_port_taken h cfg d cmds :
  daemon_main h cfg = (Ok d, cmds) -> dc_TLSEnabled cfg = true ->
  exists e, dm_https d = Some (Err e).
Proof.
  unfold daemon_main. destruct (loadTrustRoot _ _) as [tr|e|]; [|done..].
  destruct (NewCache _ _ _ _) as [[cache|e|] disk]; [|done..].
  destruct (ApplyBackendIsolation _ _ _ _ _) as [[applied commands] fw]. intros H Ht. injection H as H <-.
  rewrite Ht in H. apply bind_Ok in H as (? & _ & H). apply bind_Ok in H as (? & _ & H).
  apply bind_Ok in H as (? & _ & H). apply bind_Ok in H as (hs & Hh & H).
  apply bind_Ok in Hh as (? & _ & Hh). injection Hh as <-. injection H as <-. cbn [dm_https].
  unfold net_Listen, https_addr. cbn [existsb TcpProxy.cfg_ListenAddr tcp_config].
  rewrite eqb_refl. cbn. by eexists.
Qed.

(** The two loaders of public keys agree: the daemon accepts a file as its
    trust root exactly when the service accepts it as its root key, and takes the
    same key from it. *)
Theorem trust_root_loaders_agree path file k :
  loadTrustRoot path file = Ok k <-> exists fp, LoadRootPubKey path file = Ok (k, fp).
Proof.
  unfold loadTrustRoot, LoadRootPubKey. destruct (path == ""); [by split; [|intros [? ?]]|].
  destruct file as [data|e|]; cbn; [|by split; [|intros [? ?]]..].
  destruct (hex_DecodeString (TrimSpace data)) as [kb|e|]; cbn; [|by split; [|intros [? ?]]..].
  destruct (length kb =? 32)%nat; [|by split; [|intros [? ?]]].
  split; [intros [= <-]; eauto|by intros [fp [= <- _]]].
Qed.

(** ** Grants and the HTTP route *)

Definition slash_free (s : string) : Prop := "/"%char ∉ String.list_ascii_of_string s.

#[export] Instance slash_free_dec s : base.Decision (slash_free s).
Proof. unfold slash_free. apply _. Defined.

Lemma slash_split a b x y :
  slash_free a -> slash_free b -> (a +:+ "/" +:+ x = b +:+ "/" +:+ y)%string -> a = b /\ x = y.
Proof.
  unfold slash_free. revert b. induction a as [|c a IH]; intros [|c' b] Ha Hb E; cbn in *.
  - by injection E.
  - injection E as <- _. set_solver.
  - injection E as -> _. set_solver.
  - injection E as <- E. destruct (IH b) as [-> ->]; [set_solver..|done|done].
Qed.

(** Every entry is stored under its own key, as [Store] and [loadGrants] do. *)
Definition keyed (c : Cache) : Prop := forall k e, ca_entries c !! k = Some e -> k = Key e.

Lemma Store_keyed os entry c dk : keyed c -> keyed (Store os entry c dk).1.2.
Proof.
  intros Hk. assert (Hs : keyed (set_entries (<[Key entry := entry]> (ca_entries c)) c)).
  { intros k e. cbn. intros [[<- <-]|[_ H]]%lookup_insert_Some; [done|by apply Hk]. }
  unfold Store. destruct (ce_Payload entry) as [p|]; [|done].
  destruct (agt_Scope p == ScopeSession); [exact Hs|]. by destruct (persistGrant _ _ _ _).
Qed.

Lemma NewCache_keyed os now root dk c dk' : NewCache os now root dk = (Ok c, dk') -> keyed c.
Proof.
  unfold NewCache, newPersistentStorage. destruct (loadOrCreateKey os dk) as [r dk1]. intros [= H _].
  apply bind_Ok in H as (key & _ & H). apply bind_Ok in H as (consumed & _ & H).
  apply bind_Ok in H as (entries & He & H). injection H as <-. rewrite wrap_Ok in He.
  intros k e Hl. cbn in Hl. revert He. unfold loadGrants. destruct (negb _); [done|].
  destruct (dk_grants dk1) as [data|]; [|by intros [= <-]; rewrite lookup_empty in Hl].
  intros (pt & _ & (en & _ & H)%bind_Ok)%bind_Ok.
  destruct (ce_Payload en); [|by injection H as <-; rewrite lookup_empty in Hl].
  destruct (_ == ScopeSession); [by injection H as <-; rewrite lookup_empty in Hl|].
  destruct (negb _); [by injection H as <-; rewrite lookup_empty in Hl|].
  destruct (Key en == ""); injection H as <-; [by rewrite lookup_empty in Hl|].
  by apply lookup_insert_Some in Hl as [[<- <-]|[_ Hl]]; [|rewrite lookup_empty in Hl].
Qed.

Lemma Consume_keyed os now key jti c dk : keyed c -> keyed (Consume os now key jti c dk).1.2.
Proof.
  intros Hk. unfold Consume. destruct (ca_entries c !! key) as [e|] eqn:Ee; [|done].
  assert (Hm : forall m, keyed (mkCache (<[key := mark_consumed now e]> (ca_entries c)) m (ca_key c)
    (ca_trustRoot c) (ca_remoteConsume c))).
  { intros m k e'. cbn. intros [[<- <-]|[_ H]]%lookup_insert_Some; [by apply Hk in Ee|by apply Hk]. }
  destruct (remote_consume c jti); cbn; try done. destruct (ca_consumedJTIs c !! jti); [done|].
  destruct (ce_Consumed e); [done|]. destruct (ce_JTI e != jti); [done|].
  destruct (time_After _ _); [done|]. destruct (ce_Payload e) as [p|]; [|apply Hm].
  destruct (agt_Scope p == ScopeSession); [apply Hm|].
  destruct (persistConsumed _ _ _ _ _) as [r dk']. apply Hm.
Qed.

Lemma Purge_keyed f c : keyed c -> keyed (Purge f c).2.
Proof. intros Hk k e. cbn. intros [H _]%map_lookup_filter_Some. by apply Hk. Qed.

(** No grant opens the HTTP route.  The route looks grants up under host,
    method and path, the cache stores them under tenant, user, source node and the
    rest.  So for grants that name a source node and users and UUID texts without
    slashes, every request with an ordinary host and method gets the approval page,
    whatever grants the cache holds; the backend is never reached. *)
Theorem http_route_never_opens (Htext : forall u, slash_free (uuid_String u))
    now cfg cache pending rnd1 rnd2 now1 now2 requestID host method rest :
  keyed cache ->
  (forall k e p, ca_entries cache !! k = Some e -> ce_Payload e = Some p ->
     agt_SrcNodeID p <> "" /\ slash_free (agt_SrcNodeID p) /\ slash_free (oidc_UserID (agt_Subject p))) ->
  slash_free host -> slash_free method ->
  exists redeem page pending',
    handle_root now cfg cache pending rnd1 rnd2 now1 now2 requestID host method ("/" +:+ rest)%string
      = (ApprovalPage redeem page, pending').
Proof.
  intros Hk Hp Hh Hm. unfold handle_root.
  assert (Hn : ca_entries cache !! http_key host method ("/" +:+ rest)%string = None).
  { destruct (ca_entries cache !! _) as [e|] eqn:E; [|done]. exfalso. pose proof (Hk _ _ E) as Hkey.
    unfold Key in Hkey. destruct (ce_Payload e) as [p|] eqn:Ep.
    - destruct (Hp _ _ _ E Ep) as (Hsrc & Hss & Hus). unfold http_key, payload_key in Hkey.
      apply slash_split in Hkey as [_ Hkey]; [|done|done].
      apply slash_split in Hkey as [_ Hkey]; [|done|done].
      apply (slash_split "" _ rest) in Hkey as [Hkey _]; [congruence| |done].
      unfold slash_free. cbn. set_solver.
    - unfold http_key in Hkey. by destruct host. }
  unfold cache_Check. rewrite Hn. destruct (RegisterPending _ _ _ _ _ _ _) as [[pc rc] p']. eauto.
Qed.

End Props.

(** ** On concrete data *)

Lemma hex_digit_slash d : hex_digit d <> "/"%char.
Proof.
  unfold hex_digit. generalize (Z.to_nat d). intros n. do 17 (destruct n as [|n]; [done|]). done.
Qed.

Lemma slash_free_hex l : slash_free (hex l).
Proof.
  unfold slash_free. induction l as [|b l IH]; cbn [hex String.list_ascii_of_string]; [set_solver|].
  rewrite !not_elem_of_cons. split_and!; [..|exact IH]; apply not_eq_sym, hex_digit_slash.
Qed.

Definition sample_cache : Cache :=
  let e := mkCacheEntry (uuid_of_Z 100) [] (Some sample_agt) false None sample_now (sample_now + 30 * Second) in
  mkCache {[payload_key sample_agt := e]} ∅ [] (sample_pub 40) (Some remoteConsume).

Definition sample_page : PageTemplate := {| pageTemplate_Execute d := id_DestName d |}.

Lemma http_route_never_opens_witness :
  exists redeem page pending',
    @handle_root ref_UuidText ref_GoCrypto sample_page sample_now default_daemon_config sample_cache ∅
      (Some [x01]) (Some [x02]) sample_now sample_now (uuid_of_Z 9) "app.example" "GET" "/reports"
      = (ApprovalPage redeem page, pending').
Proof.
  apply (@http_route_never_opens ref_UuidText ref_GoCrypto sample_page (fun u => slash_free_hex _)
    sample_now default_daemon_config sample_cache ∅ _ _ _ _ _ "app.example" "GET" "reports").
  - intros k e H. unfold sample_cache in H. cbn [ca_entries] in H.
    apply lookup_singleton_Some in H as [<- <-]. reflexivity.
  - intros k e p H Hp. unfold sample_cache in H. cbn [ca_entries] in H.
    apply lookup_singleton_Some in H as [_ <-]. injection Hp as <-.
    split; [discriminate|]. split; apply (bool_decide_unpack _); vm_compute; exact I.
  - apply (bool_decide_unpack _). vm_compute. exact I.
  - apply (bool_decide_unpack _). vm_compute. exact I.
Defined.
