(* ===== verification/Sdk.v ===== *)
(** * Sdk: the Go client

    [sdk/go/client.go]: construction, the challenge/response flow of [Do], the
    polling loop, and the helpers.

    The network is an input: the n-th request of a call is answered by [http n].
    Each turn of the polling loop is either the context being done or a tick with
    the time read after it ([poll_event]). *)

From stdpp Require Import base strings list.
From Stdlib Require Import ZArith Lia Strings.Byte Strings.Ascii.
From S2P Require Import Prelude Runes.

Open Scope Z_scope.
Open Scope go_scope.

(** ** Strings *)

Definition lower_ascii (c : ascii) : ascii :=
  let n := N_of_ascii c in if (65 <=? n)%N && (n <=? 90)%N then ascii_of_N (n + 32) else c.

(** [strings.ToLower] of ASCII text. *)
Fixpoint ToLower (s : string) : string :=
  match s with EmptyString => EmptyString | String c r => String (lower_ascii c) (ToLower r) end.

(** ** The client *)

(** An [http.Client]: its timeout and its transport, where it has one; a transport
    is known by the certificate pool it trusts. *)
Record httpClient : Type := mkHttpClient { hc_Timeout : Duration; hc_Transport : option (option nat) }.

Record Client : Type := mkClient {
  cl_httpClient : httpClient;
  cl_pollInterval : Duration;
  cl_maxWaitTime : Duration;
  cl_trustBundle : option nat
}.

Inductive ClientOption : Type :=
| WithPollInterval (d : Duration)
| WithMaxWaitTime (d : Duration)
| WithTrustBundle (pool : option nat)
| WithBaseHTTPClient (client : httpClient).

Definition apply_option (c : Client) (o : ClientOption) : Client :=
  match o with
  | WithPollInterval d => mkClient (cl_httpClient c) d (cl_maxWaitTime c) (cl_trustBundle c)
  | WithMaxWaitTime d => mkClient (cl_httpClient c) (cl_pollInterval c) d (cl_trustBundle c)
  | WithTrustBundle p => mkClient (cl_httpClient c) (cl_pollInterval c) (cl_maxWaitTime c) p
  | WithBaseHTTPClient h => mkClient h (cl_pollInterval c) (cl_maxWaitTime c) (cl_trustBundle c)
  end.

(** [NewClient] *)
Definition NewClient (opts : list ClientOption) : Client :=
  let c := foldl apply_option
             (mkClient (mkHttpClient (30 * Second) None) (2 * Second) (60 * Second) None) opts in
  match cl_trustBundle c, hc_Transport (cl_httpClient c) with
  | Some pool, None =>
      mkClient (mkHttpClient (hc_Timeout (cl_httpClient c)) (Some (Some pool))) (cl_pollInterval c)
        (cl_maxWaitTime c) (cl_trustBundle c)
  | _, _ => c
  end.

(** ** Messages *)

(** A request: [rq_Base] is its URL up to the path, [rq_Query] what follows it. *)
Record Request : Type := mkRequest {
  rq_Method : string;
  rq_Base : string;
  rq_Path : string;
  rq_Query : string;
  rq_Cookies : list (string * string);
  rq_Body : option bytes
}.

(** A response, with [Header.Get] and the parsed [Set-Cookie] lines. *)
Record HttpResponse : Type := mkResponse {
  rp_StatusCode : Z;
  rp_Header : string -> string;
  rp_Cookies : list (string * string);
  rp_Body : bytes
}.

(** [sanitizeCookieValue] of [net/http] *)
Definition validCookieValueByte (c : ascii) : bool :=
  let n := N_of_ascii c in
  (32 <=? n)%N && (n <? 127)%N && negb (n =? 34)%N && negb (n =? 59)%N && negb (n =? 92)%N.

Definition sanitizeCookieValue (v : string) : string :=
  let l := filter (fun c => validCookieValueByte c = true) (String.list_ascii_of_string v) in
  let s := String.string_of_list_ascii l in
  if existsb (fun c => bool_decide (c = " "%char) || bool_decide (c = ","%char)) l then quoted s else s.

(** [Request.AddCookie]; the attributes of the cookie are not sent. *)
Definition AddCookie (name value : string) (r : Request) : Request :=
  mkRequest (rq_Method r) (rq_Base r) (rq_Path r) (rq_Query r)
    (rq_Cookies r ++ [(name, sanitizeCookieValue value)]) (rq_Body r).

(** [extractCookie] *)
Definition extractCookie (resp : HttpResponse) (name : string) : string :=
  match find (fun '(n, _) => n == name) (rp_Cookies resp) with Some (_, v) => v | None => "" end.

(** [parseStatusResponse] *)
Definition parseStatusResponse (body : bytes) : string :=
  let s := bytes_str body in
  if Contains s (quoted "APPROVED") then "APPROVED"
  else if Contains s (quoted "DENIED") then "DENIED"
  else if Contains s (quoted "EXPIRED") then "EXPIRED"
  else "PENDING".

(** ** Polling *)

Inductive poll_event : Type :=
| CtxDone (e : error)
| Tick (now : Time).

Section Flow.
Context (http : nat -> Request -> outcome HttpResponse).

(** The loop of [pollForApproval]: [i] counts its turns, [n] the requests made so
    far.  [None] means that [fuel] turns did not end it. *)
Fixpoint poll_loop (fuel i n : nat) (events : nat -> poll_event) (deadline : Time) (maxWait : Duration)
    (pollReq : Request) : option (outcome bool * nat) :=
  match fuel with
  | O => None
  | S fuel =>
      match events i with
      | CtxDone e => Some (Err e, n)
      | Tick now =>
          if time_After now deadline
          then Some (Err (Errorf "approval polling timed out after %v" [AInt maxWait]), n) else
          match http n pollReq with
          | Panic => Some (Panic, S n)
          | Err _ => poll_loop fuel (S i) (S n) events deadline maxWait pollReq
          | Ok resp =>
              let status := parseStatusResponse (rp_Body resp) in
              if status == "APPROVED" then Some (Ok true, S n)
              else if (status == "DENIED") || (status == "EXPIRED")
              then Some (Err (Errorf "approval %s" [AStr (ToLower status)]), S n)
              else poll_loop fuel (S i) (S n) events deadline maxWait pollReq
          end
      end
  end.

(** The request [pollForApproval] repeats: the URL of the original request with
    another path. *)
Definition poll_request (req : Request) (statusPath pollCap : string) : Request :=
  AddCookie "__Host-dnivio-poll" pollCap
    (mkRequest "GET" (rq_Base req) statusPath (rq_Query req) [] None).

(** [pollForApproval]; [NewRequest] says whether the URL can be parsed, and
    [time.NewTicker] panics on a period that is not positive. *)
Definition pollForApproval (fuel n : nat) (events : nat -> poll_event) (start : Time) (c : Client)
    (NewRequest : Request -> outcome unit) (req : Request) (statusPath pollCap : string)
    : option (outcome bool * nat) :=
  let pollReq := poll_request req statusPath pollCap in
  match NewRequest pollReq with
  | Err e => Some (Err e, n)
  | Panic => Some (Panic, n)
  | Ok _ =>
      if cl_pollInterval c <=? 0 then Some (Panic, n) else
      poll_loop fuel 0 n events (start + cl_maxWaitTime c) (cl_maxWaitTime c) pollReq
  end.

(** The request sent after the approval. *)
Definition retry_request (req : Request) (redeemPath redeemCap : string) : Request :=
  if (redeemPath != "") && (redeemCap != "") then AddCookie "__Host-dnivio-redeem" redeemCap req else req.

(** [handleChallenge] *)
Definition handleChallenge (fuel n : nat) (events : nat -> poll_event) (start : Time) (c : Client)
    (NewRequest : Request -> outcome unit) (req : Request) (challengeResp : HttpResponse)
    : option (outcome HttpResponse * nat) :=
  let statusURL := rp_Header challengeResp "X-Dnivio-Status-URL" in
  let redeemPath := rp_Header challengeResp "X-Dnivio-Redeem-Path" in
  if statusURL == "" then Some (Err (Errorf "no status URL in challenge response" []), n) else
  let pollCap := extractCookie challengeResp "__Host-dnivio-poll" in
  let redeemCap := extractCookie challengeResp "__Host-dnivio-redeem" in
  if pollCap == "" then Some (Err (Errorf "no poll capability cookie in challenge response" []), n) else
  match pollForApproval fuel n events start c NewRequest req statusURL pollCap with
  | None => None
  | Some (Err e, n') => Some (Err (Wrapf "poll: %w" [] e), n')
  | Some (Panic, n') => Some (Panic, n')
  | Some (Ok false, n') => Some (Err (Errorf "approval denied or timed out" []), n')
  | Some (Ok true, n') => Some (http n' (retry_request req redeemPath redeemCap), S n')
  end.

(** [Client.Do] of a request whose body could be read ([Err]: reading it failed). *)
Definition Do (fuel : nat) (events : nat -> poll_event) (start : Time) (c : Client)
    (NewRequest : Request -> outcome unit) (req : outcome Request) : option (outcome HttpResponse * nat) :=
  match wrap "dnivio: read request body: %w" [] req with
  | Err e => Some (Err e, 0%nat)
  | Panic => Some (Panic, 0%nat)
  | Ok req =>
      match http 0%nat req with
      | Err e => Some (Err (Wrapf "dnivio: request failed: %w" [] e), 1%nat)
      | Panic => Some (Panic, 1%nat)
      | Ok resp =>
          if (rp_StatusCode resp =? 401) && (rp_Header resp "X-Dnivio-Challenge" != "")
          then match handleChallenge fuel 1 events start c NewRequest req resp with
               | Some (r, n) => Some (wrap "dnivio: challenge handling: %w" [] r, n)
               | None => None
               end
          else Some (Ok resp, 1%nat)
      end
  end.

(** [Client.DoIdempotent] *)
Definition DoIdempotent := Do.

End Flow.

(** ** Certificates *)

Record Certificate : Type := mkCertificate { ct_DNSNames : list string; ct_URIs : list string }.

(** [VerifyDaemonCertificate] *)
Definition VerifyDaemonCertificate (cert : option Certificate) (expectedNodeID : string) : outcome unit :=
  match cert with
  | None => Err (Errorf "dnivio: nil certificate" [])
  | Some c =>
      if existsb (fun san => san == expectedNodeID) (ct_DNSNames c) then Ok tt else
      if existsb (fun uri => Contains uri expectedNodeID) (ct_URIs c) then Ok tt else
      Err (Errorf "dnivio: certificate node ID mismatch" [])
  end.
