(* ===== verification/SdkProps.v ===== *)
(** * SdkProps: the client against the daemon

    The client reads the daemon's status texts back, retries only after an
    approval, and stops polling in time; then where the two do not fit together:
    the daemon never sends the challenge the client waits for, and the check of the
    daemon's certificate accepts other nodes. *)

From stdpp Require Import base gmap strings list fin_maps.
From Stdlib Require Import ZArith Lia Strings.Byte Strings.Ascii.
From S2P Require Import Prelude Identity Cose Envelope Reference Runes Interstitial Sdk.

Open Scope Z_scope.
Open Scope go_scope.

(** ** Status texts *)

(** The client reads what the daemon writes: polled with the right
    capability, the daemon's status text reads as the status of the request -
    except GRANTED, which reads as PENDING, so a client that polls after the
    redemption waits for its timeout; with any other capability it reads as
    PENDING. *)
Theorem status_text_roundtrip `{UT : UuidText} `{GC : GoCrypto} h id cap req :
  h !! uuid_String id = Some req ->
  pr_Status req ∈ ["PENDING"; "APPROVED"; "DENIED"; "EXPIRED"; "GRANTED"]%string ->
  parseStatusResponse (str_bytes (rw_Body (ServeStatus h (Some cap) id))) =
    (if pr_PollCapHash req == sha256 (str_bytes cap)
     then if pr_Status req == "GRANTED" then "PENDING" else pr_Status req
     else "PENDING")%string.
Proof.
  intros Hl Hs. unfold ServeStatus. rewrite Hl. unfold ConstantTimeCompare.
  destruct (pr_PollCapHash req == sha256 (str_bytes cap)); [|by vm_compute].
  unfold status_response. cbn [negb Z.eqb Pos.eqb rw_Body].
  repeat (apply elem_of_cons in Hs as [->|Hs]; [by vm_compute|]). by apply elem_of_nil in Hs.
Qed.

(** ** The polling loop *)

Section Loop.
Context (http : nat -> Request -> outcome HttpResponse).

Lemma poll_loop_approved fuel i n events deadline w req m :
  poll_loop http fuel i n events deadline w req = Some (Ok true, m) ->
  exists k resp, (n <= k)%nat /\ m = S k /\ http k req = Ok resp /\
    parseStatusResponse (rp_Body resp) = "APPROVED".
Proof.
  revert i n. induction fuel as [|fuel IH]; intros i n H; [done|]. cbn in H.
  assert (Hrec : poll_loop http fuel (S i) (S n) events deadline w req = Some (Ok true, m) ->
    exists k resp, (n <= k)%nat /\ m = S k /\ http k req = Ok resp /\
      parseStatusResponse (rp_Body resp) = "APPROVED").
  { intros (k & resp & ? & ? & ? & ?)%IH. exists k, resp. split_and!; [lia|done..]. }
  destruct (events i) as [e|now]; [done|]. destruct (time_After now deadline); [done|].
  destruct (http n req) as [resp|e|] eqn:Eh; [|by apply Hrec|done].
  destruct (_ == "APPROVED") eqn:Ea; go_bool.
  - injection H as <-. by exists n, resp.
  - destruct (_ || _); [done|by apply Hrec].
Qed.

(** Ticks come no earlier than the ticker's period allows. *)
Definition ticks_from (start : Time) (p : Duration) (events : nat -> poll_event) : Prop :=
  forall i now, events i = Tick now -> start + (Z.of_nat i + 1) * p <= now.

Lemma poll_loop_ends start p w events req J : 0 < p -> w < (Z.of_nat J + 1) * p -> ticks_from start p events ->
  forall fuel i n, (i <= J)%nat -> (J < fuel + i)%nat ->
  exists r m, poll_loop http fuel i n events (start + w) w req = Some (r, m) /\ (n <= m <= n + (J - i))%nat.
Proof.
  intros Hp HJ Ht. induction fuel as [|fuel IH]; intros i n Hi Hf; [lia|]. cbn.
  destruct (events i) as [e|now] eqn:Ee; [do 2 eexists; split; [done|lia]|].
  destruct (time_After now (start + w)) eqn:Ea; [do 2 eexists; split; [done|lia]|].
  unfold time_After in Ea. apply Z.ltb_ge in Ea. apply Ht in Ee.
  assert (Hlt : (i < J)%nat) by nia.
  destruct (IH (S i) (S n)) as (r & m & Hr & Hm); [lia..|].
  destruct (http n req) as [resp|e|]; [|do 2 eexists; split; [exact Hr|lia]|do 2 eexists; split; [done|lia]].
  destruct (_ == "APPROVED"); [do 2 eexists; split; [done|lia]|].
  destruct (_ || _); [do 2 eexists; split; [done|lia]|]. do 2 eexists. split; [exact Hr|lia].
Qed.

(** C27.  Polling ends: with a positive poll interval, a ticker that does not run
    fast and whatever the network answers, [pollForApproval] returns after at most
    [maxWait / interval + 1] turns, having sent at most [maxWait / interval]
    requests. *)
Theorem polling_ends events start c NewRequest req path cap n fuel :
  0 < cl_pollInterval c -> 0 <= cl_maxWaitTime c -> ticks_from start (cl_pollInterval c) events ->
  let turns := Z.to_nat (cl_maxWaitTime c / cl_pollInterval c) in
  (turns < fuel)%nat ->
  exists r m, pollForApproval http fuel n events start c NewRequest req path cap = Some (r, m) /\
    (n <= m <= n + turns)%nat.
Proof.
  intros Hp Hw Ht turns Hf. unfold pollForApproval.
  destruct (NewRequest _) as [[]|e|]; [|do 2 eexists; split; [done|lia]..].
  rewrite (proj2 (Z.leb_gt _ _) Hp).
  destruct (poll_loop_ends start (cl_pollInterval c) (cl_maxWaitTime c) events
    (poll_request req path cap) turns Hp) with (fuel := fuel) (i := 0%nat) (n := n) as (r & m & Hr & Hm); [|done|lia..|].
  { pose proof (Z.div_pos (cl_maxWaitTime c) (cl_pollInterval c) Hw Hp). unfold turns.
    rewrite Z2Nat.id by done. pose proof (Z.mul_succ_div_gt (cl_maxWaitTime c) (cl_pollInterval c) Hp). lia. }
  exists r, m. split; [exact Hr|lia].
Qed.

(** ** The whole call *)

(** The retried request is the original one with the redeem capability. *)
Definition same_target (a b : Request) : Prop :=
  rq_Method a = rq_Method b /\ rq_Base a = rq_Base b /\ rq_Path a = rq_Path b /\
  rq_Query a = rq_Query b /\ rq_Body a = rq_Body b.

Lemma retry_same_target req path cap : same_target (retry_request req path cap) req.
Proof. unfold retry_request. by destruct (_ && _). Qed.

(** C28.  A protected response is fetched only after an approval: if [Do] returns
    a response, either it is the answer to the first request and that answer was no
    challenge, or some poll was answered APPROVED before, and the response is the
    answer to the original request sent again, with the same method, URL and body
    and the redeem cookie of the challenge. *)
Theorem response_needs_approval fuel events start c NewRequest req resp n :
  Do http fuel events start c NewRequest (Ok req) = Some (Ok resp, n) ->
  (http 0%nat req = Ok resp /\ n = 1%nat /\
   (rp_StatusCode resp <> 401 \/ rp_Header resp "X-Dnivio-Challenge" = "")) \/
  exists chal k poll retry,
    http 0%nat req = Ok chal /\ rp_StatusCode chal = 401 /\
    (1 <= k)%nat /\ n = S (S k) /\
    http k (poll_request req (rp_Header chal "X-Dnivio-Status-URL") (extractCookie chal "__Host-dnivio-poll"))
      = Ok poll /\ parseStatusResponse (rp_Body poll) = "APPROVED" /\
    http (S k) retry = Ok resp /\ same_target retry req /\
    (rp_Header chal "X-Dnivio-Redeem-Path" <> "" -> extractCookie chal "__Host-dnivio-redeem" <> "" ->
     rq_Cookies retry = rq_Cookies req ++
       [("__Host-dnivio-redeem", sanitizeCookieValue (extractCookie chal "__Host-dnivio-redeem"))]%string).
Proof.
  unfold Do. cbn [wrap]. destruct (http 0%nat req) as [chal|e|] eqn:E0; [|done..].
  destruct ((rp_StatusCode chal =? 401) && _) eqn:Ec.
  2:{ intros [= <- <-]. left. split_and!; [done..|]. apply andb_false_iff in Ec as [Ec|Ec]; [left; lia|right].
      by rewrite neqb_false in Ec. }
  apply andb_true_iff in Ec as [Ec _]. intros H. right. unfold handleChallenge in H.
  destruct (_ == "") in H; [done|]. destruct (_ == "") in H; [done|]. unfold pollForApproval in H.
  destruct (NewRequest _) as [[]|e|]; [|done..].
  destruct (cl_pollInterval c <=? 0); [done|].
  destruct (poll_loop _ _ _ _ _ _ _ _) as [[[[]|e|] m]|] eqn:Ep; [|done..].
  apply poll_loop_approved in Ep as (k & poll & Hk & -> & Hpoll & Hst).
  set (retry := retry_request req _ _) in H. injection H as H <-. rewrite wrap_Ok in H.
  exists chal, k, poll, retry. split_and!; try done; [lia|apply retry_same_target..|].
  intros Hp Hc. unfold retry, retry_request.
  by rewrite (proj2 (neqb_true _ _) Hp), (proj2 (neqb_true _ _) Hc).
Qed.

(** ** Where client and daemon do not meet *)

(** What the client sees of a response of the daemon. *)
Definition wire (r : Response) : HttpResponse :=
  mkResponse (rw_Status r)
    (fun name => match find (fun '(n, _) => n == name) (rw_Header r) with Some (_, v) => v | None => "" end)
    (map (fun ck => (ck_Name ck, ck_Value ck)) (rw_Cookies r)) (str_bytes (rw_Body r)).

(** The daemon's approval page is no challenge: it has status 200 and no
    [X-Dnivio-Challenge].  So [Do] returns the page itself as the answer, without
    polling. *)
Theorem approval_page_taken_for_answer `{UT : UuidText} `{PT : PageTemplate} fuel events start c NewRequest req id cap dest :
  http 0%nat req = Ok (wire (ServeInterstitial id cap dest)) ->
  Do http fuel events start c NewRequest (Ok req) = Some (Ok (wire (ServeInterstitial id cap dest)), 1%nat).
Proof. intros H. unfold Do. cbn [wrap]. by rewrite H. Qed.

End Loop.

(** A certificate whose URI merely contains the expected node id is accepted, such
    as one for a node whose name extends it. *)
Theorem certificate_of_other_node dns uris before after id :
  VerifyDaemonCertificate (Some (mkCertificate dns ((before +:+ (id +:+ after))%string :: uris))) id = Ok tt.
Proof.
  unfold VerifyDaemonCertificate. cbn [ct_DNSNames ct_URIs]. destruct (existsb _ dns); [done|].
  cbn [existsb]. by rewrite Contains_app.
Qed.

(** A text that mentions APPROVED in quotes anywhere counts as an approval, also
    when its status is DENIED. *)
Theorem any_mention_approves before after :
  parseStatusResponse (str_bytes (before +:+ (quoted "APPROVED" +:+ after))%string) = "APPROVED".
Proof. unfold parseStatusResponse. by rewrite bytes_str_str_bytes, Contains_app. Qed.

(** ** On concrete data *)

Lemma status_text_roundtrip_witness :
  parseStatusResponse (str_bytes (rw_Body (@ServeStatus ref_UuidText ref_GoCrypto
    {[uuid_String (uuid_of_Z 7) := mkPending (uuid_of_Z 7) "p" (sha256 (str_bytes "p")) "r" [] "DENIED" 0 0 None]}
    (Some "p"%string) (uuid_of_Z 7)))) = "DENIED"%string.
Proof.
  rewrite (@status_text_roundtrip ref_UuidText ref_GoCrypto _ _ _
    (mkPending (uuid_of_Z 7) "p" (sha256 (str_bytes "p")) "r" [] "DENIED" 0 0 None)).
  - rewrite eqb_refl. reflexivity.
  - apply lookup_singleton_eq.
  - apply list_elem_of_In. cbn. tauto.
Defined.

(** A network that challenges, stays pending once, approves, and answers. *)
Definition sample_challenge : HttpResponse :=
  mkResponse 401 (fun n => if n == "X-Dnivio-Challenge" then "biometric"
                           else if n == "X-Dnivio-Status-URL" then "/.dnivio/status/1"
                           else if n == "X-Dnivio-Redeem-Path" then "/.dnivio/redeem/1" else "")%string
    [("__Host-dnivio-poll", "aa"); ("__Host-dnivio-redeem", "bb")]%string [].
Definition text_response (s : string) : HttpResponse := mkResponse 200 (fun _ => ""%string) [] (str_bytes s).
Definition sample_http (n : nat) (r : Request) : outcome HttpResponse :=
  match n with
  | 0%nat => Ok sample_challenge
  | 1%nat => Ok (text_response (status_body "PENDING"))
  | 2%nat => Ok (text_response (status_body "APPROVED"))
  | _ => Ok (text_response "secret report")
  end.
Definition sample_ticks (i : nat) : poll_event := Tick (2 * Second + Z.of_nat i * (2 * Second)).
Definition sample_get : Request := mkRequest "GET" "https://app" "/reports" "" [] None.

Lemma response_needs_approval_witness :
  exists resp n k poll, Do sample_http 40 sample_ticks 0 (NewClient []) (fun _ => Ok tt) (Ok sample_get)
      = Some (Ok resp, n) /\ n = S (S k) /\ parseStatusResponse (rp_Body poll) = "APPROVED"%string.
Proof.
  assert (H : exists resp n, Do sample_http 40 sample_ticks 0 (NewClient []) (fun _ => Ok tt) (Ok sample_get)
      = Some (Ok resp, n) /\ rp_StatusCode resp = 200 /\ n = 4%nat)
    by (do 2 eexists; split; [vm_compute; reflexivity|split; reflexivity]).
  destruct H as (resp & n & H & _ & Hn).
  destruct (response_needs_approval sample_http _ _ _ _ _ _ _ _ H) as [(_ & H1 & _)|H2]; [congruence|].
  destruct H2 as (chal & k & poll & retry & _ & _ & _ & Hk & _ & Hp & _).
  exists resp, n, k, poll. split; [exact H|]. split; [exact Hk|exact Hp].
Defined.

Lemma polling_ends_witness :
  exists r m, pollForApproval (fun _ _ => Err (Errorf "refused" [])) 31 1 sample_ticks 0 (NewClient [])
    (fun _ => Ok tt) sample_get "/.dnivio/status/1" "aa" = Some (r, m) /\ (m <= 31)%nat.
Proof.
  destruct (polling_ends (fun _ _ => Err (Errorf "refused" [])) sample_ticks 0 (NewClient []) (fun _ => Ok tt)
    sample_get "/.dnivio/status/1" "aa" 1 31) as (r & m & H & Hm).
  - reflexivity.
  - discriminate.
  - intros i now [= <-]. change (cl_pollInterval (NewClient [])) with (2 * Second). lia.
  - vm_compute. lia.
  - exists r, m. split; [exact H|]. destruct Hm as [_ Hm]. vm_compute in Hm. exact Hm.
Defined.
