(* ===== verification/Metrics.v ===== *)
(** * Metrics: counters, log lines and alerts

    [service/internal/observability/metrics.go]: the collector and its snapshots,
    the event logger, and the alert and objective records. *)

From stdpp Require Import base gmap strings list fin_maps sorting.
From Stdlib Require Import ZArith Lia Strings.Byte Strings.Ascii Floats.SpecFloat.
From S2P Require Import Prelude Runes.

Open Scope Z_scope.
Open Scope go_scope.

(** ** Counters *)

Record MetricsCollector : Type := mkMetricsCollector {
  mc_ApprovalRequestsCreated : Z;
  mc_ApprovalRequestsApproved : Z;
  mc_ApprovalRequestsDenied : Z;
  mc_ApprovalRequestsExpired : Z;
  mc_GrantsIssued : Z;
  mc_GrantsConsumed : Z;
  mc_EnforcementDenied : Z;
  mc_SessionsTerminated : Z;
  mc_DevicesEnrolled : Z;
  mc_DevicesRevoked : Z;
  mc_RevocationsDelivered : Z;
  mc_PendingApprovalRequests : Z;
  mc_ActiveSessions : Z;
  mc_HeldConnections : Z;
  mc_ConsumerStreamsActive : Z;
  mc_ApprovalRequestLatencyNs : Z;
  mc_GrantSigningLatencyNs : Z;
  mc_AuditInsertLatencyNs : Z;
  mc_RevocationDeliveryLatencyNs : Z
}.

(** [NewMetricsCollector] *)
Definition NewMetricsCollector : MetricsCollector :=
  mkMetricsCollector 0 0 0 0 0 0 0 0 0 0 0 0 0 0 0 0 0 0 0.

Record MetricsSnapshot : Type := mkMetricsSnapshot {
  ms_ApprovalRequestsCreated : Z;
  ms_ApprovalRequestsApproved : Z;
  ms_ApprovalRequestsDenied : Z;
  ms_GrantsIssued : Z;
  ms_GrantsConsumed : Z;
  ms_EnforcementDenied : Z;
  ms_PendingApprovalRequests : Z;
  ms_ActiveSessions : Z;
  ms_HeldConnections : Z;
  ms_Timestamp : Time
}.

(** [MetricsCollector.Snapshot] *)
Definition Snapshot (now : Time) (m : MetricsCollector) : MetricsSnapshot :=
  mkMetricsSnapshot (mc_ApprovalRequestsCreated m) (mc_ApprovalRequestsApproved m)
    (mc_ApprovalRequestsDenied m) (mc_GrantsIssued m) (mc_GrantsConsumed m) (mc_EnforcementDenied m)
    (mc_PendingApprovalRequests m) (mc_ActiveSessions m) (mc_HeldConnections m) now.

(** ** Log lines *)

Record LogEvent : Type := mkLogEvent {
  le_Event : string;
  le_Severity : string;
  le_CorrelationID : string;
  le_TenantID : string;
  le_UserID : string;
  le_RequestID : string;
  le_ResourceID : string;
  le_Message : string;
  le_Timestamp : Time
}.

(** The order of map keys in [fmt]: bytewise. *)
Definition key_le (a b : string * string) : Prop := String.leb a.1 b.1 = true.
#[export] Instance key_le_dec a b : base.Decision (key_le a b).
Proof. unfold key_le. apply _. Defined.

(** [%v] of a map: [map[k:v k:v]], in the order of the keys. *)
Fixpoint join_fields (l : list (string * string)) : string :=
  match l with
  | [] => ""
  | [(k, v)] => (k +:+ ":" +:+ v)%string
  | (k, v) :: r => (k +:+ ":" +:+ v +:+ " " +:+ join_fields r)%string
  end.
Definition fields_text (fields : gmap string string) : string :=
  ("map[" +:+ join_fields (merge_sort key_le (map_to_list fields)) +:+ "]")%string.

(** [EventLogger.log]: the line after the date and time. *)
Definition log_line (severity msg : string) (fields : gmap string string) : string :=
  ("[" +:+ severity +:+ "] " +:+ msg +:+ " " +:+ fields_text fields)%string.

(** [EventLogger.Info], [Warn], [Error] and [Critical] *)
Definition log_Info := log_line "INFO".
Definition log_Warn := log_line "WARN".
Definition log_Error := log_line "ERROR".
Definition log_Critical := log_line "CRITICAL".

(** ** Alerts and objectives *)

Abbreviation AlertType := string (only parsing).
Definition AlertBypassAttempt : AlertType := "BYPASS_ATTEMPT".
Definition AlertEnforcementIntegrity : AlertType := "ENFORCEMENT_INTEGRITY_LOSS".
Definition AlertRevocationLag : AlertType := "REVOCATION_LAG_EXCEEDED".
Definition AlertKMSError : AlertType := "KMS_ERROR".
Definition AlertPushFailure : AlertType := "PUSH_FAILURE".
Definition AlertOutboxBacklog : AlertType := "OUTBOX_BACKLOG".
Definition AlertCapacityThreshold : AlertType := "CAPACITY_THRESHOLD".
Definition AlertValkeyUnavailable : AlertType := "VALKEY_UNAVAILABLE".
Definition AlertPolicyStale : AlertType := "POLICY_STALE".
Definition AlertAuditCheckpointFailed : AlertType := "AUDIT_CHECKPOINT_FAILED".

Record Alert : Type := mkAlert {
  al_Type : AlertType;
  al_Severity : string;
  al_TenantID : string;
  al_Message : string;
  al_Timestamp : Time
}.

Record SLOMetrics : Type := mkSLOMetrics {
  slo_RequestCreationToMobileDeliveryP95 : spec_float;
  slo_VerifiedResponseToFlowReleaseP95 : spec_float;
  slo_PolicyEvaluationP99 : spec_float;
  slo_RevocationToSessionTerminationP99 : spec_float;
  slo_CPUPercent : spec_float;
  slo_MemoryPercent : spec_float;
  slo_ApprovalRequestsPerSecond : spec_float;
  slo_GranteMintsPerSecond : spec_float;
  slo_DBConnectionPoolUtilization : spec_float;
  slo_VaultTransitLatencyMs : spec_float;
  slo_ValkeyLatencyMs : spec_float;
  slo_Timestamp : Time
}.

(** [RecordSLO] has no effect. *)
Definition RecordSLO (m : SLOMetrics) : unit := tt.

(** ** What a log line shows *)

Lemma join_fields_split l k v : (k, v) ∈ l ->
  exists before after, join_fields l = (before +:+ (v +:+ after))%string.
Proof.
  induction l as [|[k' v'] l IH]; intros Hin; [by apply elem_of_nil in Hin|].
  assert (Hhead : exists after, join_fields ((k', v') :: l) = (k' +:+ ":" +:+ v' +:+ after)%string).
  { destruct l as [|p l]; [exists ""; cbn [join_fields]; by rewrite string_app_nil_r|by eexists]. }
  apply elem_of_cons in Hin as [[= <- <-]|Hin].
  - destruct Hhead as [after ->]. exists (k +:+ ":")%string, after. by rewrite !string_app_assoc.
  - destruct (IH Hin) as (b & a & E). destruct l as [|p l]; [by apply elem_of_nil in Hin|].
    exists (k' +:+ ":" +:+ v' +:+ " " +:+ b)%string, a.
    change (join_fields ((k', v') :: p :: l)) with (k' +:+ ":" +:+ v' +:+ " " +:+ join_fields (p :: l))%string.
    rewrite E. by rewrite !string_app_assoc.
Qed.

(** Nothing is redacted: every value passed to the logger is in the line, secrets
    included, whatever its key and the severity. *)
Theorem log_shows_every_field severity msg fields k v :
  fields !! k = Some v -> Contains (log_line severity msg fields) v = true.
Proof.
  intros H. assert (Hin : (k, v) ∈ merge_sort key_le (map_to_list fields)).
  { rewrite merge_sort_Permutation. by apply elem_of_map_to_list. }
  destruct (join_fields_split _ _ _ Hin) as (b & a & E). unfold log_line, fields_text. rewrite E.
  pose proof (Contains_app ("[" +:+ severity +:+ "] " +:+ msg +:+ " " +:+ "map[" +:+ b)%string v (a +:+ "]")%string) as Hc.
  rewrite !string_app_assoc in Hc. by rewrite !string_app_assoc.
Qed.
